(* ===== verification/_CoqProject ===== *)
-Q . S2P
Prelude.v
Effects.v
Abi.v
JniModel.v
JniBridge.v
JniTable.v
JniSpec.v
Session.v
Registry.v
Liveness.v
Trust.v
Utf8.v
LlamaModel.v
Json.v
Text.v
Retrieval.v
Agent.v
Foreman.v
Grammar.v
HttpRaw.v
Listeners.v
Publisher.v
Showcase.v
SqlFunctions.v
Broker.v
OrtApi.v
OrtStructs.v
Cxx.v
CxxApi.v
CxxBase.v
LiteCustomOp.v
CxxInline.v
CxxSem.v
CxxSpec.v
EvsOrt.v
Ports.v
Float16.v
LlamaShim.v
GrammarGate.v
Ring.v
Telemetry.v
Exports.v
Frame.v
EdgeSearch.v
Server.v
