(* ===== verification/Prelude.v ===== *)
(** * dotnet-native-interop: verification library

    The program is one C#/.NET engine compiled to a native library and driven from native mobile
    applications.  The C ABI [dni.h] is the seam: the managed library exports it, the Android application
    enters it through a JNI bridge written in C, the iOS application calls it directly.  Token streams run
    from the engine back to the application through C callbacks.  Beside the ABI the engine serves a framed
    binary protocol on a loopback socket, and two native libraries do the inference: ONNX Runtime (text
    embeddings, called from Objective-C on iOS) and llama.cpp (text generation, behind a C shim).

    This library models these parts as Rocq definitions that follow the sources function by function, and
    proves about the definitions what makes the parts correct.

    ** Files, and the sources they model

    Shared:
    - [Prelude]: automation, machine integers, list and map lemmas.  [Effects]: programs that call code
      outside their file, contracts of that code, weakest preconditions, execution and reachability.
    - [Utf8]: strict and replacing decoding of UTF-8.  [Json]: the JSON writer of [NativeInterop] and
      System.Text.Json as a parser.

    The boundary:
    - [Abi]: [dni.h], [dni_gate_probe.h] and the [UnmanagedCallersOnly] exports of the managed library,
      as lists of signatures after lowering to the C calling convention.
    - [JniModel]: what the bridge calls (JNI, libc, pthread keys, the ABI), with the ledger of references,
      string buffers, heap blocks and streaming sessions, and the contract of every call.
      [JniBridge]: [android/app/src/main/cpp/jni_bridge.c], one program per C function.
      [JniTable]: its [RegisterNatives] table against [NativeBridge.kt].  [JniSpec]: its theorems.
    - [Exports]: [NativeText] and the exports that answer a string, on the managed side of the same calls.

    The engine:
    - [Session]: [InferenceSession], [InferenceOrchestrator] and the drain of [Exports.Ffi]: pump task,
      bounded channel, drain task, cancel and dispose as one step relation, all interleavings.
    - [Registry]: [EngineHost], [SessionRegistry], [Lifecycle], the session exports: the process-wide
      state, one function per export; also the two other holders of llama models, [ForemanHost]'s agent and
      the gate probe, as far as they load and free them.
    - [Liveness]: fair executions of a step relation and how to show that something happens in them.
    - [LlamaModel]: [LlamaLanguageModel], the native task, its piece channel and the reader.
    - [Text]: string operations of the standard library on UTF-16.  [Retrieval]: [WordPieceTokenizer],
      [SemanticSearch], [ManualsCorpus], [RagPrompt], [RagLanguageModel].  [Ports]: the copies of the
      tokenizer and of the encoder's pooling on the devices, in Kotlin and Swift, against the engine's.
    - [Publisher]: the build-time index: [Frontmatter], [MarkdownChunker], [Program], [IndexWriter].
      [EdgeSearch]: its columns, and the two device programs that load and search it.
    - [Showcase]: [ShowcaseCommand] and [LanguageFeatureCatalog.Run], feature runs and parametric commands.
    - [Agent]: the turn loop of [ForemanAgent] and its [ConversationState].  [Foreman]: tool call parser,
      router, tools, brains and the stream adapter around it.  [Grammar]: [GrammarBuilder] and what a
      model constrained by the grammar can emit.

    The transports:
    - [Frame]: [FrameConnection] and [AeadFrameCipher], the frames of the framed-protobuf transport.
      [Server]: [PqSecureChannel] and the connection handler of [PbFrameServer], over [Frame] and the
      token streams of [Session]; the crypto provider is the interface of [IPqcProvider.cs].
    - [HttpRaw]: the raw HTTP server, one connection.  [Listeners]: start, stop and the accept loops of
      both servers, interleaved with the lifecycle exports of [Registry].
    - [Broker]: the SQLite broker, its tables shared with the host application, its poll loop.
      [SqlFunctions]: [FeatureSqlite] and [RagSqlite], answers through encrypted databases; the catalog they
      run is the interface [Showcase.Catalog].
    - [Ring]: the span ring of [EngineTrace], the log ring of [EngineLog] and its [RingLogger].
      [Telemetry]: the steps of [EngineTrace.Record] and the counters of [EngineMetrics] they feed.
      [Trust]: [TrustPosture], the report the framed transport publishes its parameters to.

    Native inference:
    - [OrtApi]: the function table of [onnxruntime_c_api.h] with its enumerations, slot by slot.
      [OrtStructs]: its structures, opaque classes and exported functions.
      [EvsOrt]: [EvsOrt.m], the embedding session, against the ownership rules of that table.
    - [Cxx]: the fragment of C++ the wrapper headers are written in, as syntax.  [CxxApi]: the classes of
      [onnxruntime_cxx_api.h], [CxxInline]: the definitions of [onnxruntime_cxx_inline.h], in that syntax.
      [CxxSem]: its big-step semantics for ownership, and an analysis sound for it.  [CxxSpec]: theorems
      about all wrapper functions.  [CxxBase]: the pointer holders and symbolic dimensions, as functions.
    - [LiteCustomOp]: [onnxruntime_lite_custom_op.h], how a custom operator's function gets its arguments
      from the runtime and which callbacks the runtime gets from the operator; [CustomOpBase]'s callbacks.
    - [Float16]: [onnxruntime_float16.h] and the types [Float16_t], [BFloat16_t] and [Float8*] on top of it.
    - [LlamaShim]: [dni_llama.cpp], over llama.cpp's C interface.  [GrammarGate]: [grammar_gate.cpp].

    ** What the theorems show

    - [Abi], [JniTable]: header, exports, registration table and Kotlin declarations agree.
    - [JniSpec]: the bridge makes only permitted calls and leaks nothing, for every answer of the calls it
      tests; [NewGlobalRef] it never tests and [GetStringUTFChars] not everywhere, and for these the
      natives that go wrong when they fail are exactly told, with the forbidden call they reach.  The
      encoding [NewStringUTF] asks for is not part of the contract.  [Exports]: the string
      exports keep the contract the bridge was verified against, for every engine and allocator.
    - [Session]: tokens arrive in order, pump and drain finish, a cancelled stream ends without the final
      marker, a callback can still run after the session was freed.  [Registry], [Listeners]: the invariant
      of the process-wide state and of the listening sockets under every order of the exports, with the place
      of every llama handle; what shutdown disposes and frees, and that the agent and its model survive it.
    - [LlamaModel]: what the reader gets of what the model generates, termination in fair executions, with
      cancellation, a consumer that leaves and a disposal at any time; three ways in which the
      handle is freed under a generation.  [LlamaShim], [GrammarGate]: ownership, return codes, output.
    - [Agent], [Foreman], [Grammar]: the turn ends within its tool budget, the history is a window, what the
      grammar admits is parsed, routing and status markers.
    - [Retrieval]: tokenization is greedy longest match, the encoded layout, ranking, prompts.
      [Ports]: on which texts the device copies answer the engine's ids, and on which they do not
      (the platforms' case mappings are parameters that agree except on two characters).
    - [Publisher]: front matter round trip, sections, when an index is written and what is in it.
      [EdgeSearch]: from the manuals to the hits on a device; facets after the cut on iOS.
    - [Json], [Frame], [HttpRaw], [Server]: round trips over arbitrary fragmentation; arbitrary input is
      refused or bounded, a JSON text that is not well-formed UTF-16 too; authenticity; requests are
      answered end to end.
    - [Broker]: rows of the shared tables are answers, every request is served in fair executions in which
      the host does not keep requeueing earlier ones (then it starves); a requeued request is refused; one
      failure ends the loop.  [SqlFunctions]: what is answered is what was
      computed and stored, whichever statement fails.
    - [Showcase]: commands are read back as written, stay within the engine's limits, and answer honestly.
    - [Ring]: the rings implement a list bounded to its newest records, and account for every drop.
      [Telemetry]: the snapshot counts what happened, whatever the interleaving.  [Listeners] also has the
      honesty of the Trust report.
    - [OrtApi], [EvsOrt]: discipline of the table, balance and result of the embedding session for every
      failure its code tests, and the forbidden calls behind the three it does not (an old runtime, the
      default allocator, [calloc]).
      [CxxSpec], [CxxBase]: ownership on every path of the wrappers but listed exceptions, types of their
      calls, declarations against definitions; exact accounting of what pointer holders release.  [LiteCustomOp]: the arguments built are those an independent specification
      reads off the runtime's inputs.  [Float16]: conversions round to nearest, comparisons order the values.

    ** Conventions, bounds and fuel

    Integers are [Z] at the width of the source: [wrap_s] and [wrap_u] where they can leave it.  Code that
    is not in the repository (JNI, libc, ONNX Runtime, llama.cpp, AES-GCM, SQLite) is never defined: it is a
    contract or a parameter with the documented laws, and every theorem with such a hypothesis comes with
    a concrete instance.  Loops that are not structural carry fuel: the read loop of [Frame] gets the
    number of missing bytes plus one, the decode loop of [LlamaShim] the token limit, the request loop of
    [Server] the number of bytes available, the parser of [Json] twice the length of its input plus two,
    the turn loop of [Agent] its tool limit plus one, the word-piece loops of [Retrieval] and [Ports] the length of
    the word plus one; the theorems state that the fuel is never exhausted.  Concurrent parts need no fuel:
    they are step relations, with a decreasing measure or fairness where they are shown to finish.

    ** Not modelled

    The wiring of [ForemanHost] (prompts, thresholds) and [DniChatClient], the sampling of the runtime's own
    counters ([EngineTelemetry], [BoundaryDiagnostics]), the showcase's renderers, benchmarks and demos: glue
    around parts that are modelled, numeric kernels, or code that only reports.  Of the vendored headers: the
    contexts of CUDA and ROCm, which are compiled out, and the factory declarations of single execution
    providers.  User interface code, generated protobuf classes, the
    ASP.NET and gRPC hosts and build scripts carry no logic of their own or are not part of the mobile
    program.  The simulator's copies of the ONNX Runtime headers repeat the device's. *)

From stdpp Require Export base gmap list strings.
From Stdlib Require Export ZArith Lia.
#[local] Set Warnings "-clear-no-such-hyp".

Declare Scope dni_scope.
Delimit Scope dni_scope with dni.

(** ** Automation shared by every file *)

Create HintDb dni.

(** Splits conjunctions and existentials of the context, substitutes equations. *)
Ltac crush_hyps :=
  repeat match goal with
         | H : _ /\ _ |- _ => destruct H
         | H : exists _, _ |- _ => destruct H
         end; simplify_eq/=.

(** Case analysis on the outermost boolean, option or comparison test of the goal. *)
Ltac case_goal :=
  match goal with
  | |- context [if ?b then _ else _] => destruct b eqn:?
  | |- context [match ?x with _ => _ end] => destruct x eqn:?
  end.

(** Decides a closed decidable proposition by evaluation. *)
Ltac vm_decide := apply (bool_decide_unpack _); vm_compute; exact I.

(** ** Integers at their machine width *)

(** The C and C# integer types the sources use: [intN_t] / [int] / [long] by two's complement
    wrap-around, [uintN_t] / [uint] by reduction modulo [2^N]. *)
Definition wrap_u (w : Z) (z : Z) : Z := (z mod 2 ^ w)%Z.
Definition wrap_s (w : Z) (z : Z) : Z :=
  ((z + 2 ^ (w - 1)) mod 2 ^ w - 2 ^ (w - 1))%Z.

Definition in_u (w : Z) (z : Z) : Prop := (0 <= z < 2 ^ w)%Z.
Definition in_s (w : Z) (z : Z) : Prop := (- 2 ^ (w - 1) <= z < 2 ^ (w - 1))%Z.

Lemma wrap_u_range (w z : Z) : (0 <= w)%Z -> in_u w (wrap_u w z).
Proof. intros Hw. unfold in_u, wrap_u. apply Z.mod_pos_bound. lia. Qed.

Lemma wrap_u_id (w z : Z) : in_u w z -> wrap_u w z = z.
Proof. intros [? ?]. unfold wrap_u. by apply Z.mod_small. Qed.

Lemma wrap_s_id (w z : Z) : (0 < w)%Z -> in_s w z -> wrap_s w z = z.
Proof.
  intros Hw [? ?]. unfold wrap_s.
  assert (2 ^ w = 2 * 2 ^ (w - 1))%Z as ->.
  { rewrite <- Z.pow_succ_r by lia. f_equal. lia. }
  rewrite Z.mod_small by lia. lia.
Qed.

Lemma wrap_s_range (w z : Z) : (0 < w)%Z -> in_s w (wrap_s w z).
Proof.
  intros Hw. unfold in_s, wrap_s.
  assert (2 ^ w = 2 * 2 ^ (w - 1))%Z as E.
  { rewrite <- Z.pow_succ_r by lia. f_equal. lia. }
  pose proof (Z.mod_pos_bound (z + 2 ^ (w - 1)) (2 ^ w)). lia.
Qed.

#[export] Hint Resolve wrap_u_range wrap_s_range : dni.

(** Exhaustive checks: [f] holds of every [n]-bit word behind the prefix [base]. *)
Fixpoint check_words (n : nat) (f : Z -> bool) (base : Z) : bool :=
  match n with
  | O => f base
  | S n => check_words n f (2 * base) && check_words n f (2 * base + 1)
  end%Z.

Lemma check_words_all n (f : Z -> bool) : forall base, check_words n f base = true ->
  forall v, (base * 2 ^ Z.of_nat n <= v < (base + 1) * 2 ^ Z.of_nat n)%Z -> f v = true.
Proof.
  induction n as [|n IH]; intros base H v Hv; simpl in H.
  - change (2 ^ Z.of_nat 0)%Z with 1%Z in Hv. by replace v with base by lia.
  - apply andb_true_iff in H as [H1 H2]. rewrite Nat2Z.inj_succ, Z.pow_succ_r in Hv by lia.
    destruct (decide (v < (2 * base + 1) * 2 ^ Z.of_nat n)%Z); [apply (IH _ H1) | apply (IH _ H2)]; lia.
Qed.

Lemma check_words_u (w : nat) (f : Z -> bool) v : check_words w f 0 = true -> in_u (Z.of_nat w) v -> f v = true.
Proof. intros H [? ?]. apply (check_words_all w f 0 H). lia. Qed.

(** ** Lists *)

Lemma prefix_snoc_lookup {A} (l k : list A) (x : A) :
  l ++ [x] `prefix_of` k -> k !! length l = Some x.
Proof.
  intros [r ->]. rewrite <- app_assoc. simpl. by rewrite list_lookup_middle.
Qed.

Lemma prefix_app_drop {A} (l1 l2 l3 k : list A) :
  l1 ++ l2 ++ l3 `prefix_of` k -> l1 ++ l2 `prefix_of` k.
Proof. intros [r ->]. exists (l3 ++ r). by rewrite !app_assoc. Qed.

(** ** Finite sets and maps *)

Lemma gset_add_remove `{Countable A} (x : A) (s : gset A) : x ∉ s -> ({[x]} ∪ s) ∖ {[x]} = s.
Proof. set_solver. Qed.
