(* ===== verification/Effects.v ===== *)
(** * Effects: programs that call code outside their file

    A C function of this repository is a finite sequence of calls into code it does not contain (the
    JNI environment, libc, the ABI of the managed library, ONNX Runtime, llama.cpp) with branches on
    the answers.  [prog] is the free monad over such a signature of calls: a function of the source
    becomes a [prog] whose tree is the function's control flow.  Nothing is assumed about the callee:
    a [contract] states, over a ledger of the resources in play, what a call requires of its caller,
    what the callee's documentation promises about the answer, and how the ledger changes.

    - [wp] is the weakest precondition: every call made respects its requirement, whatever permitted
      answer each call gets, and the result and final ledger satisfy the postcondition;
    - [run] executes a program against a concrete answering function, for evaluation;
    - [reaches] lists the calls a program can reach, to state that a requirement is violated. *)

From S2P Require Import Prelude.

Inductive prog (C : Type -> Type) (A : Type) : Type :=
| Ret (a : A)
| Vis {B : Type} (c : C B) (k : B -> prog C A).
Arguments Ret {C A} a.
Arguments Vis {C A B} c k.

Fixpoint bind {C A B} (p : prog C A) (f : A -> prog C B) : prog C B :=
  match p with
  | Ret a => f a
  | Vis c k => Vis c (fun b => bind (k b) f)
  end.

Definition call {C B} (c : C B) : prog C B := Vis c Ret.

Notation "x <- p ;; q" := (bind p (fun x => q))
  (at level 100, p at next level, right associativity) : dni_scope.
Notation "p ;;; q" := (bind p (fun _ => q))
  (at level 100, q at level 200, right associativity) : dni_scope.

(** What the two sides of every call owe each other, over a ledger of type [W]. *)
Record contract (C : Type -> Type) (W : Type) := Contract {
  caller : forall B, W -> C B -> Prop;
  callee : forall B, W -> C B -> B -> Prop;
  upd : forall B, W -> C B -> B -> W }.
Arguments caller {C W} _ {B} _ _.
Arguments callee {C W} _ {B} _ _ _.
Arguments upd {C W} _ {B} _ _ _.

Section ProgramLogic.
  Context {C : Type -> Type} {W : Type} (K : contract C W).

Fixpoint wp {A} (p : prog C A) (Q : A -> W -> Prop) (w : W) : Prop :=
  match p with
  | Ret a => Q a w
  | Vis c k => caller K w c /\ forall b, callee K w c b -> wp (k b) Q (upd K w c b)
  end.

(** [reaches p w c w']: some sequence of permitted answers takes [p], started in ledger [w], to the
    call [c] in ledger [w']. *)
Inductive reaches {A} : prog C A -> W -> forall B, C B -> W -> Prop :=
| reach_here B (c : C B) (k : B -> prog C A) w : reaches (Vis c k) w B c w
| reach_later B (c : C B) (k : B -> prog C A) w b B' (c' : C B') w' :
    callee K w c b -> reaches (k b) (upd K w c b) B' c' w' ->
    reaches (Vis c k) w B' c' w'.

(** Execution against a function that answers every call. *)
Fixpoint run {A} (h : forall B, W -> C B -> B) (p : prog C A) (w : W) : A * W :=
  match p with
  | Ret a => (a, w)
  | Vis c k => let b := h _ w c in run h (k b) (upd K w c b)
  end.

Definition handler_ok (h : forall B, W -> C B -> B) : Prop :=
  forall B w (c : C B), caller K w c -> callee K w c (h B w c).

Lemma wp_mono {A} (p : prog C A) (Q Q' : A -> W -> Prop) w :
  (forall a w', Q a w' -> Q' a w') -> wp p Q w -> wp p Q' w.
Proof.
  intros HQ. revert w. induction p as [a|B c k IH]; intros w; simpl; [by apply HQ|].
  intros [Hc Hk]. split; [done|]. intros b Hb. by apply IH, Hk.
Qed.

Lemma wp_bind {A B} (p : prog C A) (f : A -> prog C B) Q w :
  wp p (fun a w' => wp (f a) Q w') w -> wp (bind p f) Q w.
Proof.
  revert w. induction p as [a|B' c k IH]; intros w; simpl; [done|].
  intros [Hc Hk]. split; [done|]. intros b Hb. by apply IH, Hk.
Qed.

(** Cut rule: a specification of the first part is enough to verify the sequence. *)
Lemma wp_seq {A B} (p : prog C A) (f : A -> prog C B) (P : A -> W -> Prop) Q w :
  wp p P w -> (forall a w', P a w' -> wp (f a) Q w') -> wp (bind p f) Q w.
Proof. intros Hp Hf. apply wp_bind. by eapply wp_mono. Qed.

(** Adequacy: a program with a weakest precondition never reaches a call it may not make. *)
Lemma wp_reaches {A} (p : prog C A) Q w B (c : C B) w' :
  wp p Q w -> reaches p w B c w' -> caller K w' c.
Proof.
  intros Hwp Hr. induction Hr as [B c k w|B c k w b B' c' w' Hb Hr IH]; simpl in Hwp.
  - by destruct Hwp.
  - apply IH. by apply Hwp.
Qed.

(** Adequacy for execution: with answers that keep the callee's promises, the postcondition holds of
    what [run] computes. *)
Lemma wp_run {A} (h : forall B, W -> C B -> B) (p : prog C A) Q w :
  handler_ok h -> wp p Q w -> Q (run h p w).1 (run h p w).2.
Proof.
  intros Hh. revert w. induction p as [a|B c k IH]; intros w; simpl; [done|].
  intros [Hc Hk]. apply IH, Hk, Hh, Hc.
Qed.

End ProgramLogic.

#[export] Hint Constructors reaches : dni.
