(* ===== verification/Abi.v ===== *)
(** * Abi: the C ABI of the managed library

    The frozen surface between the two languages: the status codes and prototypes of
    [core/DotnetNativeInterop.NativeBridge/abi/dni.h] (and the two gate probes of
    [dni_gate_probe.h]), and the entry points the managed library really exports
    ([UnmanagedCallersOnly] methods of the C# files that are compiled, i.e. without [Http/] and
    [Grpc/]), with the lowering of a C# signature to the C types it has at the boundary. *)

From S2P Require Import Prelude.
Local Open Scope Z_scope.

(** ** Status codes *)

Definition DNI_OK : Z := 0.
Definition DNI_NOT_INITIALIZED : Z := -1.
Definition DNI_INVALID_ARGUMENT : Z := -2.
Definition DNI_UNKNOWN_SESSION : Z := -3.
Definition DNI_ALREADY_RUNNING : Z := -4.
Definition DNI_INTERNAL : Z := -5.

(** The managed mirror, [NativeStatus] of NativeInterop.cs. *)
Module NativeStatus.
Definition Ok : Z := 0.
Definition NotInitialized : Z := -1.
Definition InvalidArgument : Z := -2.
Definition UnknownSession : Z := -3.
Definition AlreadyRunning : Z := -4.
Definition Internal : Z := -5.
End NativeStatus.

(** ** Prototypes of the header *)

Inductive c_type :=
| C_void | C_int32 | C_int64 | C_float | C_str (* const char* *) | C_ptr (* void* *)
| C_token_cb | C_trace_cb.

#[export] Instance c_type_eq_dec : EqDecision c_type.
Proof. solve_decision. Defined.

Record proto := Proto { p_name : string; p_ret : c_type; p_params : list c_type }.

#[export] Instance proto_eq_dec : EqDecision proto.
Proof. solve_decision. Defined.

(** The two callback types: [dni_token_cb] and [dni_trace_cb], as the parameters they receive. *)
Definition dni_token_cb : list c_type := [C_ptr; C_int32; C_str; C_int32].
Definition dni_trace_cb : list c_type := [C_ptr; C_int32; C_str; C_int32; C_int64; C_int64].

Definition h_lifecycle : list proto :=
  [ Proto "dni_initialize" C_int32 []; Proto "dni_shutdown" C_void [] ].

Definition h_sessions : list proto :=
  [ Proto "dni_session_start" C_int64 [C_str; C_int32; C_float; C_token_cb; C_ptr];
    Proto "dni_session_cancel" C_int32 [C_int64];
    Proto "dni_session_free" C_int32 [C_int64] ].

Definition h_features : list proto :=
  [ Proto "dni_features_json" C_str []; Proto "dni_feature_run" C_str [C_str];
    Proto "dni_string_free" C_void [C_str] ].

Definition h_http : list proto :=
  [ Proto "dni_http_start" C_int32 []; Proto "dni_http_stop" C_int32 [] ].

Definition h_broker : list proto :=
  [ Proto "dni_broker_start" C_int32 [C_str]; Proto "dni_broker_stop" C_int32 [] ].

Definition h_sqlite : list proto :=
  [ Proto "dni_sqlite_features" C_str []; Proto "dni_sqlite_run" C_str [C_str] ].

Definition h_introspection : list proto := [ Proto "dni_engine_stats" C_str [] ].

Definition h_search : list proto :=
  [ Proto "dni_search" C_str [C_str; C_str]; Proto "dni_set_assets_dir" C_int32 [C_str] ].

Definition h_rag : list proto :=
  [ Proto "dni_rag_session_start" C_int64 [C_str; C_int32; C_float; C_token_cb; C_ptr];
    Proto "dni_sqlite_rag" C_str [C_str] ].

Definition h_boundary : list proto :=
  [ Proto "dni_ffi_echo" C_str [C_str; C_int32]; Proto "dni_ffi_throw" C_str [];
    Proto "dni_ffi_stream_start" C_int64 [C_str; C_int32; C_trace_cb; C_ptr] ].

Definition h_wave_b : list proto :=
  [ Proto "dni_trace_drain" C_str []; Proto "dni_log_drain" C_str [];
    Proto "dni_pb_start" C_int32 [C_int32]; Proto "dni_pb_stop" C_void [] ].

Definition h_agent : list proto :=
  [ Proto "dni_agent_session_start" C_int64 [C_str; C_token_cb; C_ptr] ].

(** dni_gate_probe.h *)
Definition h_gate_probes : list proto :=
  [ Proto "dni_sqlite_probe" C_str [C_str]; Proto "dni_llama_probe" C_str [C_str] ].

Definition dni_h : list proto :=
  h_lifecycle ++ h_sessions ++ h_features ++ h_http ++ h_broker ++ h_sqlite ++ h_introspection ++
  h_search ++ h_rag ++ h_boundary ++ h_wave_b ++ h_agent.

(** ** The exports of the managed library *)

(** C# types of an export signature; a function pointer carries the types it is declared with. *)
#[warnings="-register-all"]
Inductive cs_type :=
| Cs_void | Cs_int | Cs_long | Cs_float | Cs_nint | Cs_byte_ptr | Cs_void_ptr
| Cs_delegate (params : list cs_type).

Record export := Export { x_entry : string; x_ret : cs_type; x_params : list cs_type }.

(** How a C# type of an export crosses the C ABI: blittable integers by width, [byte*] and [nint]
    results as C strings, a function pointer as the callback type of the same shape. *)
Fixpoint lower (t : cs_type) : option c_type :=
  match t with
  | Cs_void => Some C_void
  | Cs_int => Some C_int32
  | Cs_long => Some C_int64
  | Cs_float => Some C_float
  | Cs_nint => Some C_str
  | Cs_byte_ptr => Some C_str
  | Cs_void_ptr => Some C_ptr
  | Cs_delegate ps =>
      match mapM lower ps with
      | Some cs =>
          if decide (cs = dni_token_cb) then Some C_token_cb
          else if decide (cs = dni_trace_cb) then Some C_trace_cb else None
      | None => None
      end
  end.

Definition lower_export (x : export) : option proto :=
  match lower (x_ret x), mapM lower (x_params x) with
  | Some r, Some ps => Some (Proto (x_entry x) r ps)
  | _, _ => None
  end.

Definition token_delegate : cs_type := Cs_delegate [Cs_void_ptr; Cs_int; Cs_byte_ptr; Cs_int].
Definition trace_delegate : cs_type :=
  Cs_delegate [Cs_void_ptr; Cs_int; Cs_byte_ptr; Cs_int; Cs_long; Cs_long].

(** Ffi/Lifecycle.cs *)
Definition x_lifecycle : list export :=
  [ Export "dni_initialize" Cs_int []; Export "dni_shutdown" Cs_void [] ].

(** Ffi/Exports.Ffi.cs *)
Definition x_ffi : list export :=
  [ Export "dni_session_start" Cs_long [Cs_byte_ptr; Cs_int; Cs_float; token_delegate; Cs_void_ptr];
    Export "dni_rag_session_start" Cs_long [Cs_byte_ptr; Cs_int; Cs_float; token_delegate; Cs_void_ptr];
    Export "dni_agent_session_start" Cs_long [Cs_byte_ptr; token_delegate; Cs_void_ptr];
    Export "dni_session_cancel" Cs_int [Cs_long];
    Export "dni_session_free" Cs_int [Cs_long] ].

(** Ffi/Exports.Features.cs *)
Definition x_features : list export :=
  [ Export "dni_features_json" Cs_nint []; Export "dni_feature_run" Cs_nint [Cs_byte_ptr];
    Export "dni_string_free" Cs_void [Cs_byte_ptr] ].

(** Ffi/Exports.Boundary.cs *)
Definition x_boundary : list export :=
  [ Export "dni_ffi_echo" Cs_nint [Cs_byte_ptr; Cs_int]; Export "dni_ffi_throw" Cs_nint [];
    Export "dni_ffi_stream_start" Cs_long [Cs_byte_ptr; Cs_int; trace_delegate; Cs_void_ptr] ].

(** Ffi/Exports.Ai.cs, Exports.Telemetry.cs, Exports.Trace.cs, Exports.Log.cs *)
Definition x_ai : list export :=
  [ Export "dni_search" Cs_nint [Cs_byte_ptr; Cs_byte_ptr];
    Export "dni_set_assets_dir" Cs_int [Cs_byte_ptr] ].
Definition x_telemetry : list export := [ Export "dni_engine_stats" Cs_nint [] ].
Definition x_trace : list export := [ Export "dni_trace_drain" Cs_nint [] ].
Definition x_log : list export := [ Export "dni_log_drain" Cs_nint [] ].

(** HttpRaw/Exports.HttpRaw.cs, Pb/Exports.Pb.cs, Sqlite/*.cs *)
Definition x_http : list export :=
  [ Export "dni_http_start" Cs_int []; Export "dni_http_stop" Cs_int [] ].
Definition x_pb : list export :=
  [ Export "dni_pb_start" Cs_int [Cs_int]; Export "dni_pb_stop" Cs_void [] ].
Definition x_broker : list export :=
  [ Export "dni_broker_start" Cs_int [Cs_byte_ptr]; Export "dni_broker_stop" Cs_int [] ].
Definition x_feature_sqlite : list export :=
  [ Export "dni_sqlite_features" Cs_nint []; Export "dni_sqlite_run" Cs_nint [Cs_byte_ptr] ].
Definition x_rag_sqlite : list export := [ Export "dni_sqlite_rag" Cs_nint [Cs_byte_ptr] ].

(** Ffi/Exports.GateProbe.cs *)
Definition x_gate_probes : list export :=
  [ Export "dni_sqlite_probe" Cs_nint [Cs_byte_ptr]; Export "dni_llama_probe" Cs_nint [Cs_byte_ptr] ].

Definition managed_exports : list export :=
  x_lifecycle ++ x_ffi ++ x_features ++ x_boundary ++ x_ai ++ x_telemetry ++ x_trace ++ x_log ++
  x_http ++ x_pb ++ x_broker ++ x_feature_sqlite ++ x_rag_sqlite ++ x_gate_probes.

(** ** Agreement *)

(** [l1] and [l2] declare the same prototypes, in any order and without repetition. *)
Definition same_protos (l1 l2 : list proto) : bool :=
  bool_decide (NoDup (p_name <$> l1)) && bool_decide (NoDup (p_name <$> l2)) &&
  forallb (fun p => bool_decide (p ∈ l2)) l1 && forallb (fun p => bool_decide (p ∈ l1)) l2.

Lemma same_protos_lookup (l1 l2 : list proto) p :
  same_protos l1 l2 = true -> p ∈ l1 <-> p ∈ l2.
Proof.
  unfold same_protos. rewrite !andb_true_iff, !forallb_forall. intros [[_ H1] H2].
  split; intros Hp%list_elem_of_In; [apply H1 in Hp | apply H2 in Hp]; by apply bool_decide_eq_true in Hp.
Qed.

Lemma exports_lower :
  match mapM lower_export managed_exports with
  | Some ps => same_protos ps (dni_h ++ h_gate_probes)
  | None => false
  end = true.
Proof. vm_compute. reflexivity. Qed.

(** every prototype the headers declare is an entry point the managed library exports with the
    same return and parameter types after lowering, every entry point is declared, and no name is
    declared or exported twice. *)
Theorem abi_header_matches_exports :
  (forall p, p ∈ dni_h ++ h_gate_probes <->
             exists x, x ∈ managed_exports /\ lower_export x = Some p) /\
  NoDup (p_name <$> dni_h ++ h_gate_probes) /\ NoDup (x_entry <$> managed_exports).
Proof.
  pose proof exports_lower as H. destruct (mapM lower_export managed_exports) as [ps|] eqn:E; [|done].
  split_and!; [|vm_decide..].
  intros p. rewrite <- (same_protos_lookup _ _ _ H).
  apply mapM_Some_1 in E. split; intros Hp.
  - apply list_elem_of_lookup in Hp as [i Hi].
    destruct (Forall2_lookup_r _ _ _ _ _ E Hi) as (x & Hx & Hl).
    exists x. split; [by apply list_elem_of_lookup; eauto | done].
  - destruct Hp as (x & Hx & Hl). apply list_elem_of_lookup in Hx as [i Hi].
    destruct (Forall2_lookup_l _ _ _ _ _ E Hi) as (y & Hy & Hl').
    apply list_elem_of_lookup. exists i. congruence.
Qed.

(** The managed status codes are the header's, and a session id can never be mistaken for one:
    every code is at most 0. *)
Lemma status_codes_mirror :
  [NativeStatus.Ok; NativeStatus.NotInitialized; NativeStatus.InvalidArgument;
   NativeStatus.UnknownSession; NativeStatus.AlreadyRunning; NativeStatus.Internal] =
  [DNI_OK; DNI_NOT_INITIALIZED; DNI_INVALID_ARGUMENT; DNI_UNKNOWN_SESSION; DNI_ALREADY_RUNNING;
   DNI_INTERNAL] /\
  Forall (fun c => c <= 0) [DNI_OK; DNI_NOT_INITIALIZED; DNI_INVALID_ARGUMENT; DNI_UNKNOWN_SESSION;
                            DNI_ALREADY_RUNNING; DNI_INTERNAL].
Proof. split; [reflexivity | vm_decide]. Qed.
