(* ===== verification/JniModel.v ===== *)
(** * JniModel: what jni_bridge.c calls

    The signature [cmd] of every call the JNI shim makes into code it does not contain (the JNI
    invocation and native interfaces, pthreads, malloc/free and the fields of the malloc'd callback
    blocks, the [dni_*] exports), and the [contract] between the shim and these callees.  The
    contract is over a [ledger] of what is live for the code that runs: references, pinned string
    buffers, heap strings of the managed library, malloc'd blocks, the sessions a block was handed
    to, the pending Java exception, and what was delivered to Java listeners.

    Requirements on the caller ([jcaller]) are the JNI specification's: use an attached thread's
    environment, live references only, no call but the permitted ones with an exception pending,
    release what was acquired and nothing else; and those of dni.h: copy a returned string before
    releasing it with [dni_string_free], pass a callback block of the callback's own type, and do not
    touch the block once the session owns it.  One requirement of the JNI specification is not in
    [jcaller]: [NewStringUTF] asks for Modified UTF-8, and the shim hands it the managed side's UTF-8,
    which differs in U+0000 and in every character above U+FFFF; the theorems about the shim do not
    speak of the encoding.  Promises of the callee ([jcallee]) are the documented
    outcomes, failures included; which failures can happen is a [faults] profile, so that a theorem
    says which of them it tolerates. *)

From S2P Require Import Prelude Effects Abi.
Local Open Scope Z_scope.

Definition JNI_OK : Z := 0.
Definition JNI_ERR : Z := -1.
Definition JNI_EDETACHED : Z := -2.
Definition JNI_VERSION_1_6 : Z := 65542. (* 0x00010006 *)
Definition NULL : Z := 0.

(** A [const char*]: NULL, a literal of the shim, or a buffer at an address with its bytes (the
    buffers the shim sees are never written while they live). *)
Inductive cstr := CNull | CLit (s : string) | CBuf (a : Z) (s : string).

(** The two C structs behind [user_data]; fields hold None until the code assigns them. *)
Inductive cbkind := CallbackState | TraceCallbackState.
Record block := Block { blk_kind : cbkind; blk_listener : option Z; blk_method : option Z }.

(** The C functions the shim passes as callbacks. *)
Inductive cbfun := Ffi_token_callback | Ffi_trace_callback.

#[export] Instance cbkind_eq_dec : EqDecision cbkind.
Proof. solve_decision. Defined.

Definition cbfun_kind (f : cbfun) : cbkind :=
  match f with Ffi_token_callback => CallbackState | Ffi_trace_callback => TraceCallbackState end.

(** Arguments of [CallVoidMethod] after the C varargs promotions. *)
Inductive jvalue := JInt (z : Z) | JLong (z : Z) | JBool (b : bool) | JRef (r : Z).

(** The string exports, by their parameters. *)
Inductive export0 :=
| dni_features_json | dni_sqlite_features | dni_engine_stats | dni_trace_drain | dni_log_drain
| dni_ffi_throw.
Inductive export1 :=
| dni_feature_run | dni_sqlite_run | dni_sqlite_rag | dni_sqlite_probe | dni_llama_probe.
(** The status exports without pointer arguments. *)
Inductive status0 :=
| dni_initialize | dni_http_start | dni_http_stop | dni_broker_stop.
(** The session starts that take a token callback. *)
Inductive stream_args :=
| Session_args (max_tokens temp : Z) | Rag_args (max_tokens temp : Z) | Agent_args
| Trace_args (max_tokens : Z).

Inductive cmd : Type -> Type :=
(* C statics and pthreads *)
| Get_g_jvm : cmd Z
| Set_g_jvm (vm : Z) : cmd unit
| Pthread_once : cmd bool                      (* true: the caller runs the init routine *)
| Pthread_key_create : cmd unit
| Pthread_setspecific (v : Z) : cmd unit
(* invocation interface *)
| GetEnv (vm version : Z) : cmd (Z * Z)
| AttachCurrentThread (vm version : Z) (name : string) : cmd (Z * Z)
| DetachCurrentThread (vm : Z) : cmd Z
(* native interface *)
| FindClass (env : Z) (name : string) : cmd Z
| RegisterNatives (env cls : Z) (methods : list (string * string)) (n : Z) : cmd Z
| GetObjectClass (env obj : Z) : cmd Z
| GetMethodID (env cls : Z) (name sig : string) : cmd Z
| NewGlobalRef (env obj : Z) : cmd Z
| DeleteGlobalRef (env obj : Z) : cmd unit
| DeleteLocalRef (env obj : Z) : cmd unit
| NewStringUTF (env : Z) (s : cstr) : cmd Z
| GetStringUTFChars (env js : Z) : cmd cstr
| ReleaseStringUTFChars (env js : Z) (p : cstr) : cmd unit
| CallVoidMethod (env obj mid : Z) (args : list jvalue) : cmd bool (* ghost: the method threw *)
| ExceptionCheck (env : Z) : cmd bool
| ExceptionDescribe (env : Z) : cmd unit
| ExceptionClear (env : Z) : cmd unit
(* libc *)
| Malloc (k : cbkind) : cmd Z
| Free (p : Z) : cmd unit
| Set_listener (p v : Z) : cmd unit
| Set_method (p v : Z) : cmd unit
| Get_listener (p : Z) : cmd Z
| Get_method (p : Z) : cmd Z
| Strlen (p : cstr) : cmd Z
(* the managed library *)
| Dni_status0 (f : status0) : cmd Z
| Dni_shutdown : cmd unit
| Dni_pb_start (flags : Z) : cmd Z
| Dni_pb_stop : cmd unit
| Dni_broker_start (path : cstr) : cmd Z
| Dni_set_assets_dir (path : cstr) : cmd Z
| Dni_session_cancel (id : Z) : cmd Z
| Dni_session_free (id : Z) : cmd Z
| Dni_start (text : cstr) (args : stream_args) (cb : cbfun) (user_data : Z) : cmd Z
| Dni_string0 (f : export0) : cmd cstr
| Dni_string1 (f : export1) (p : cstr) : cmd cstr
| Dni_search (q c : cstr) : cmd cstr
| Dni_ffi_echo (p : cstr) (len : Z) : cmd cstr
| Dni_string_free (p : cstr) : cmd unit.

(** ** The ledger *)

Record delivery := Delivery { d_obj : Z; d_method : Z; d_args : list jvalue; d_text : option string }.

Record ledger := Ledger {
  l_jvm : Z;                     (* the static g_jvm *)
  l_once : bool;                 (* create_tls_key has run *)
  l_key : bool;                  (* g_tls_key exists *)
  l_tls : Z;                     (* this thread's slot value *)
  l_env : option Z;              (* this thread's JNIEnv, None while detached *)
  l_exn : bool;                  (* a Java exception is pending *)
  l_locals : gset Z;             (* live local references *)
  l_globals : gset Z;            (* live global references *)
  l_jstrs : gmap Z string;       (* contents of java.lang.String references *)
  l_pins : gmap Z Z;             (* UTF buffers not yet released, with their jstring *)
  l_nstrs : gset Z;              (* strings returned by dni_*, not yet freed *)
  l_borrowed : gset Z;           (* buffers lent for the duration of a callback *)
  l_heap : gmap Z block;         (* malloc'd blocks this code owns *)
  l_sessions : list (Z * (cbfun * Z * block)); (* started sessions with the block each owns *)
  l_out : list delivery          (* calls made to Java listeners *) }.

Definition set_exn b (w : ledger) : ledger :=
  Ledger (l_jvm w) (l_once w) (l_key w) (l_tls w) (l_env w) b (l_locals w) (l_globals w) (l_jstrs w)
    (l_pins w) (l_nstrs w) (l_borrowed w) (l_heap w) (l_sessions w) (l_out w).
Definition set_thread k tls env (w : ledger) : ledger :=
  Ledger (l_jvm w) (l_once w) k tls env (l_exn w) (l_locals w) (l_globals w) (l_jstrs w)
    (l_pins w) (l_nstrs w) (l_borrowed w) (l_heap w) (l_sessions w) (l_out w).
Definition set_once (w : ledger) : ledger :=
  Ledger (l_jvm w) true (l_key w) (l_tls w) (l_env w) (l_exn w) (l_locals w) (l_globals w) (l_jstrs w)
    (l_pins w) (l_nstrs w) (l_borrowed w) (l_heap w) (l_sessions w) (l_out w).
Definition set_jvm v (w : ledger) : ledger :=
  Ledger v (l_once w) (l_key w) (l_tls w) (l_env w) (l_exn w) (l_locals w) (l_globals w) (l_jstrs w)
    (l_pins w) (l_nstrs w) (l_borrowed w) (l_heap w) (l_sessions w) (l_out w).
Definition set_refs ls gs js (w : ledger) : ledger :=
  Ledger (l_jvm w) (l_once w) (l_key w) (l_tls w) (l_env w) (l_exn w) ls gs js
    (l_pins w) (l_nstrs w) (l_borrowed w) (l_heap w) (l_sessions w) (l_out w).
Definition set_bufs ps ns (w : ledger) : ledger :=
  Ledger (l_jvm w) (l_once w) (l_key w) (l_tls w) (l_env w) (l_exn w) (l_locals w) (l_globals w) (l_jstrs w)
    ps ns (l_borrowed w) (l_heap w) (l_sessions w) (l_out w).
Definition set_heap h ss (w : ledger) : ledger :=
  Ledger (l_jvm w) (l_once w) (l_key w) (l_tls w) (l_env w) (l_exn w) (l_locals w) (l_globals w) (l_jstrs w)
    (l_pins w) (l_nstrs w) (l_borrowed w) h ss (l_out w).
Definition add_out d (w : ledger) : ledger :=
  Ledger (l_jvm w) (l_once w) (l_key w) (l_tls w) (l_env w) (l_exn w) (l_locals w) (l_globals w) (l_jstrs w)
    (l_pins w) (l_nstrs w) (l_borrowed w) (l_heap w) (l_sessions w) (l_out w ++ [d]).

(** A reference usable by JNI functions, a buffer the code may read. *)
Definition live (w : ledger) (r : Z) : Prop := (r ∈ l_locals w) \/ (r ∈ l_globals w).
Definition buf_live (w : ledger) (a : Z) : Prop :=
  is_Some (l_pins w !! a) \/ (a ∈ l_nstrs w) \/ (a ∈ l_borrowed w).
Definition readable (w : ledger) (p : cstr) : Prop :=
  match p with CNull => False | CLit _ => True | CBuf a _ => buf_live w a end.
Definition readable_or_null (w : ledger) (p : cstr) : Prop := p = CNull \/ readable w p.

(** A JNI call is legal on an attached thread, and with no exception pending. *)
Definition env_ok (w : ledger) (env : Z) : Prop := l_env w = Some env.
Definition jni_ok (w : ledger) (env : Z) : Prop := env_ok w env /\ l_exn w = false.

Definition fresh_ref (w : ledger) (r : Z) : Prop :=
  r <> NULL /\ (r ∉ l_locals w) /\ (r ∉ l_globals w) /\ l_jstrs w !! r = None.
Definition fresh_buf (w : ledger) (a : Z) : Prop :=
  l_pins w !! a = None /\ (a ∉ l_nstrs w) /\ (a ∉ l_borrowed w).

(** A block a session may own: the callback's own struct, both fields assigned, the listener a live
    global reference. *)
Definition block_ready (w : ledger) (cb : cbfun) (b : block) : Prop :=
  blk_kind b = cbfun_kind cb /\
  (exists r, blk_listener b = Some r /\ r ∈ l_globals w) /\ is_Some (blk_method b).

(** What [CallVoidMethod] shows the listener: the text behind the string argument. *)
Fixpoint arg_text (w : ledger) (args : list jvalue) : option string :=
  match args with
  | [] => None
  | JRef r :: _ => l_jstrs w !! r
  | _ :: rest => arg_text w rest
  end.

(** ** The contract *)

(** Which documented failures of the JNI environment are in play. *)
Record faults := Faults {
  f_utf : bool;      (* GetStringUTFChars may fail: NULL with OutOfMemoryError pending *)
  f_newstr : bool;   (* NewStringUTF may fail: NULL with OutOfMemoryError pending *)
  f_global : bool }. (* NewGlobalRef may fail: NULL *)

Definition no_faults : faults := Faults false false false.
Definition all_faults : faults := Faults true true true.

Definition arg_live (w : ledger) (v : jvalue) : Prop :=
  match v with JRef r => live w r | _ => True end.

Definition args_for (cb : cbfun) (args : stream_args) : Prop :=
  match args with Trace_args _ => cb = Ffi_trace_callback | _ => cb = Ffi_token_callback end.

Definition jcaller {B} (w : ledger) (c : cmd B) : Prop :=
  match c with
  | Pthread_setspecific _ => l_key w = true
  | GetEnv vm _ => vm <> NULL
  | AttachCurrentThread vm _ _ => vm <> NULL
  | DetachCurrentThread vm => vm <> NULL /\ is_Some (l_env w)
  | FindClass env _ => jni_ok w env
  | RegisterNatives env cls ms n => jni_ok w env /\ live w cls /\ n = Z.of_nat (length ms)
  | GetObjectClass env obj => jni_ok w env /\ live w obj
  | GetMethodID env cls _ _ => jni_ok w env /\ live w cls
  | NewGlobalRef env obj => jni_ok w env /\ live w obj
  | DeleteGlobalRef env r => env_ok w env /\ ((r ∈ l_globals w) \/ r = NULL)
  | DeleteLocalRef env r => env_ok w env /\ (r ∈ l_locals w)
  | NewStringUTF env p => jni_ok w env /\ readable w p
  | GetStringUTFChars env js => jni_ok w env /\ live w js /\ is_Some (l_jstrs w !! js)
  | ReleaseStringUTFChars env js p =>
      env_ok w env /\ exists a s, p = CBuf a s /\ l_pins w !! a = Some js
  | CallVoidMethod env obj mid args =>
      jni_ok w env /\ live w obj /\ mid <> NULL /\ Forall (arg_live w) args
  | ExceptionCheck env | ExceptionDescribe env | ExceptionClear env => env_ok w env
  | Free p => is_Some (l_heap w !! p)
  | Set_listener p _ | Set_method p _ => is_Some (l_heap w !! p)
  | Get_listener p => exists b, l_heap w !! p = Some b /\ is_Some (blk_listener b)
  | Get_method p => exists b, l_heap w !! p = Some b /\ is_Some (blk_method b)
  | Strlen p => readable w p
  | Dni_broker_start p | Dni_set_assets_dir p | Dni_string1 _ p => readable_or_null w p
  | Dni_search q c => readable_or_null w q /\ readable_or_null w c
  | Dni_ffi_echo p len =>
      readable w p /\ match p with CBuf _ s => len = Z.of_nat (String.length s) | _ => True end
  | Dni_start p args cb ud =>
      readable_or_null w p /\ args_for cb args /\
      exists b, l_heap w !! ud = Some b /\ block_ready w cb b
  | Dni_string_free p => match p with CNull => True | CLit _ => False | CBuf a _ => a ∈ l_nstrs w end
  | _ => True
  end.

Definition new_string (w : ledger) (p : cstr) : Prop :=
  p = CNull \/ exists a s, p = CBuf a s /\ fresh_buf w a.

Definition jcallee (F : faults) {B} (w : ledger) (c : cmd B) : B -> Prop :=
  match c in cmd T return T -> Prop with
  | Get_g_jvm => fun b => b = l_jvm w
  | Pthread_once => fun b => b = negb (l_once w)
  | GetEnv _ _ => fun b =>
      (b.1 = JNI_OK /\ l_env w = Some b.2) \/ (b.1 = JNI_EDETACHED /\ l_env w = None) \/
      (b.1 <> JNI_OK /\ b.1 <> JNI_EDETACHED)
  | AttachCurrentThread _ _ _ => fun b => b.1 = JNI_OK -> b.2 <> NULL
  | FindClass _ _ => fun r => r = NULL \/ fresh_ref w r
  | GetObjectClass _ _ => fun r => fresh_ref w r
  | NewGlobalRef _ _ => fun r => (f_global F = true /\ r = NULL) \/ fresh_ref w r
  | NewStringUTF _ _ => fun r => (f_newstr F = true /\ r = NULL) \/ fresh_ref w r
  | GetStringUTFChars _ js => fun p =>
      (f_utf F = true /\ p = CNull) \/
      exists a s, p = CBuf a s /\ fresh_buf w a /\ l_jstrs w !! js = Some s
  | ExceptionCheck _ => fun b => b = l_exn w
  | Malloc _ => fun p => p = NULL \/ (p <> NULL /\ l_heap w !! p = None)
  | Get_listener p => fun v => exists b, l_heap w !! p = Some b /\ blk_listener b = Some v
  | Get_method p => fun v => exists b, l_heap w !! p = Some b /\ blk_method b = Some v
  | Strlen p => fun n => match p with CBuf _ s | CLit s => n = Z.of_nat (String.length s) | CNull => False end
  | Dni_start _ _ _ _ => fun r => r > 0 \/ r < 0
  | Dni_string0 _ | Dni_string1 _ _ | Dni_search _ _ | Dni_ffi_echo _ _ => new_string w
  | _ => fun _ => True
  end.

Definition map_block (f : block -> block) (p : Z) (w : ledger) : ledger :=
  set_heap (alter f p (l_heap w)) (l_sessions w) w.
Definition with_listener v (b : block) : block := Block (blk_kind b) (Some v) (blk_method b).
Definition with_method v (b : block) : block := Block (blk_kind b) (blk_listener b) (Some v).

Definition cstr_bytes (p : cstr) : string :=
  match p with CNull => "" | CLit s | CBuf _ s => s end.

(** Adding and removing references. *)
Definition add_local r (w : ledger) := set_refs ({[r]} ∪ l_locals w) (l_globals w) (l_jstrs w) w.
Definition add_string r s (w : ledger) :=
  set_refs ({[r]} ∪ l_locals w) (l_globals w) (<[r := s]> (l_jstrs w)) w.
Definition del_local r (w : ledger) :=
  set_refs (l_locals w ∖ {[r]}) (l_globals w) (delete r (l_jstrs w)) w.
Definition add_global r (w : ledger) := set_refs (l_locals w) ({[r]} ∪ l_globals w) (l_jstrs w) w.
Definition del_global r (w : ledger) := set_refs (l_locals w) (l_globals w ∖ {[r]}) (l_jstrs w) w.

(** A new managed string; a new pinned buffer. *)
Definition add_nstr (p : cstr) (w : ledger) : ledger :=
  match p with CBuf a _ => set_bufs (l_pins w) ({[a]} ∪ l_nstrs w) w | _ => w end.
Definition del_nstr (p : cstr) (w : ledger) : ledger :=
  match p with CBuf a _ => set_bufs (l_pins w) (l_nstrs w ∖ {[a]}) w | _ => w end.
Definition add_pin js (p : cstr) (w : ledger) : ledger :=
  match p with CBuf a _ => set_bufs (<[a := js]> (l_pins w)) (l_nstrs w) w | _ => set_exn true w end.
Definition del_pin (p : cstr) (w : ledger) : ledger :=
  match p with CBuf a _ => set_bufs (delete a (l_pins w)) (l_nstrs w) w | _ => w end.

(** A successful start takes the block away from the caller: from then on it belongs to the session,
    whose callbacks run on another thread. *)
Definition start_session sid cb ud (w : ledger) : ledger :=
  match l_heap w !! ud with
  | Some b => if bool_decide (0 < sid)
              then set_heap (delete ud (l_heap w)) ((sid, (cb, ud, b)) :: l_sessions w) w else w
  | None => w
  end.

Definition jupd {B} (w : ledger) (c : cmd B) : B -> ledger :=
  match c in cmd T return T -> ledger with
  | Set_g_jvm vm => fun _ => set_jvm vm w
  | Pthread_once => fun _ => set_once w
  | Pthread_key_create => fun _ => set_thread true (l_tls w) (l_env w) w
  | Pthread_setspecific v => fun _ => set_thread (l_key w) v (l_env w) w
  | AttachCurrentThread _ _ _ => fun b =>
      if bool_decide (b.1 = JNI_OK) then set_thread (l_key w) (l_tls w) (Some b.2) w else w
  | DetachCurrentThread _ => fun _ => set_thread (l_key w) (l_tls w) None w
  | FindClass _ _ => fun r => if bool_decide (r = NULL) then set_exn true w else add_local r w
  | RegisterNatives _ _ _ _ => fun r => if bool_decide (r = JNI_OK) then w else set_exn true w
  | GetObjectClass _ _ => fun r => add_local r w
  | GetMethodID _ _ _ _ => fun m => if bool_decide (m = NULL) then set_exn true w else w
  | NewGlobalRef _ _ => fun r => if bool_decide (r = NULL) then w else add_global r w
  | DeleteGlobalRef _ r => fun _ => del_global r w
  | DeleteLocalRef _ r => fun _ => del_local r w
  | NewStringUTF _ p => fun r =>
      if bool_decide (r = NULL) then set_exn true w else add_string r (cstr_bytes p) w
  | GetStringUTFChars _ js => fun p => add_pin js p w
  | ReleaseStringUTFChars _ _ p => fun _ => del_pin p w
  | CallVoidMethod _ obj mid args => fun threw =>
      set_exn (l_exn w || threw) (add_out (Delivery obj mid args (arg_text w args)) w)
  | ExceptionClear _ => fun _ => set_exn false w
  | Malloc k => fun p =>
      if bool_decide (p = NULL) then w
      else set_heap (<[p := Block k None None]> (l_heap w)) (l_sessions w) w
  | Free p => fun _ => set_heap (delete p (l_heap w)) (l_sessions w) w
  | Set_listener p v => fun _ => map_block (with_listener v) p w
  | Set_method p v => fun _ => map_block (with_method v) p w
  | Dni_start _ _ cb ud => fun sid => start_session sid cb ud w
  | Dni_string0 _ | Dni_string1 _ _ | Dni_search _ _ | Dni_ffi_echo _ _ => fun p => add_nstr p w
  | Dni_string_free p => fun _ => del_nstr p w
  | _ => fun _ => w
  end.

Definition jni (F : faults) : contract cmd ledger :=
  Contract cmd ledger (fun B w c => jcaller w c) (fun B w c b => jcallee F w c b) (fun B w c b => jupd w c b).
