(* ===== verification/JniBridge.v ===== *)
(** * JniBridge: android/app/src/main/cpp/jni_bridge.c

    Every function of the JNI shim as a program over the calls of [JniModel], in the order of the
    file.  Log lines ([LOGE], [LOGD]) carry no state and are left out; casts between equal-width
    integer types ([jint]/[int32_t], [jlong]/[int64_t], [jfloat]/[float]) are the identity. *)

From S2P Require Import Prelude Effects Abi JniModel.
Local Open Scope Z_scope.
Local Open Scope dni_scope.

(** Notations of the C code: NULL tests and [if (...) return]. *)
Notation "'is_null' z" := (bool_decide (z = NULL)) (at level 10, z at level 9) : dni_scope.
Definition cnull (p : cstr) : bool := match p with CNull => true | _ => false end.

(** ** Thread attachment *)

Definition tls_destructor (attached : Z) : prog cmd unit :=
  if is_null attached then Ret tt else
  jvm <- call Get_g_jvm ;;
  if is_null jvm then Ret tt else
  jvm <- call Get_g_jvm ;;
  call (DetachCurrentThread jvm) ;;; Ret tt.

Definition create_tls_key : prog cmd unit := call Pthread_key_create.

Definition attach_current_thread : prog cmd Z :=
  jvm <- call Get_g_jvm ;;
  if is_null jvm then Ret NULL else
  first <- call Pthread_once ;;
  (if (first : bool) then create_tls_key else Ret tt) ;;;
  jvm <- call Get_g_jvm ;;
  res <- call (GetEnv jvm JNI_VERSION_1_6) ;;
  if bool_decide (res.1 = JNI_OK) then Ret res.2 else
  if bool_decide (res.1 = JNI_EDETACHED) then
    jvm <- call Get_g_jvm ;;
    att <- call (AttachCurrentThread jvm JNI_VERSION_1_6 "dotnet-worker") ;;
    if bool_decide (att.1 <> JNI_OK) then Ret NULL else
    call (Pthread_setspecific 1) ;;; Ret att.2
  else Ret NULL.

(** ** Streaming callbacks *)

(** The tail both callbacks share: drop the string, clear an exception of the listener, and release
    the block and its listener on the final token. *)
Definition callback_epilogue (env jtext user_data : Z) (is_final : Z) : prog cmd unit :=
  call (DeleteLocalRef env jtext) ;;;
  threw <- call (ExceptionCheck env) ;;
  (if (threw : bool) then call (ExceptionDescribe env) ;;; call (ExceptionClear env) else Ret tt) ;;;
  if bool_decide (is_final <> 0) then
    listener <- call (Get_listener user_data) ;;
    call (DeleteGlobalRef env listener) ;;;
    call (Free user_data)
  else Ret tt.

Definition ffi_token_callback (user_data index : Z) (text : cstr) (is_final : Z) : prog cmd unit :=
  if is_null user_data then Ret tt else
  env <- attach_current_thread ;;
  if is_null env then Ret tt else
  jtext <- call (NewStringUTF env (if cnull text then CLit "" else text)) ;;
  if is_null jtext then Ret tt else
  listener <- call (Get_listener user_data) ;;
  on_token <- call (Get_method user_data) ;;
  call (CallVoidMethod env listener on_token
          [JInt index; JRef jtext; JBool (bool_decide (is_final <> 0))]) ;;;
  callback_epilogue env jtext user_data is_final.

Definition ffi_trace_callback (user_data index : Z) (text : cstr)
    (is_final managed_thread_id elapsed_us : Z) : prog cmd unit :=
  if is_null user_data then Ret tt else
  env <- attach_current_thread ;;
  if is_null env then Ret tt else
  jtext <- call (NewStringUTF env (if cnull text then CLit "" else text)) ;;
  if is_null jtext then Ret tt else
  listener <- call (Get_listener user_data) ;;
  on_trace <- call (Get_method user_data) ;;
  call (CallVoidMethod env listener on_trace
          [JInt index; JRef jtext; JLong managed_thread_id; JLong elapsed_us;
           JBool (bool_decide (is_final <> 0))]) ;;;
  callback_epilogue env jtext user_data is_final.

(** ** Helpers *)

Definition take_native_string (env : Z) (s : cstr) : prog cmd Z :=
  if cnull s then Ret NULL else
  js <- call (NewStringUTF env s) ;;
  call (Dni_string_free s) ;;;
  Ret js.

(** From [GetObjectClass] to the return: shared by the three session starts, which differ in the
    callback struct, the listener's method and the export called. *)
Definition start_with (env text listener : Z) (method sig : string) (kind : cbkind)
    (args : stream_args) (cb : cbfun) : prog cmd Z :=
  if is_null text || is_null listener then Ret DNI_INVALID_ARGUMENT else
  lc <- call (GetObjectClass env listener) ;;
  mid <- call (GetMethodID env lc method sig) ;;
  call (DeleteLocalRef env lc) ;;;
  if is_null mid then Ret DNI_INVALID_ARGUMENT else
  st <- call (Malloc kind) ;;
  if is_null st then Ret DNI_INTERNAL else
  g <- call (NewGlobalRef env listener) ;;
  call (Set_listener st g) ;;;
  call (Set_method st mid) ;;;
  c_text <- call (GetStringUTFChars env text) ;;
  if cnull c_text then
    l <- call (Get_listener st) ;;
    call (DeleteGlobalRef env l) ;;; call (Free st) ;;; Ret DNI_INTERNAL
  else
  sid <- call (Dni_start c_text args cb st) ;;
  call (ReleaseStringUTFChars env text c_text) ;;;
  (if bool_decide (sid <= 0) then
     l <- call (Get_listener st) ;;
     call (DeleteGlobalRef env l) ;;; call (Free st)
   else Ret tt) ;;;
  Ret sid.

Definition on_token_sig : string := "(ILjava/lang/String;Z)V".
Definition on_trace_sig : string := "(ILjava/lang/String;JJZ)V".

Definition start_streaming (env text max_tokens temp listener : Z) (is_rag : bool) : prog cmd Z :=
  start_with env text listener "onToken" on_token_sig CallbackState
    (if is_rag then Rag_args max_tokens temp else Session_args max_tokens temp) Ffi_token_callback.

(** ** Native methods *)

Definition j_initialize (e o : Z) : prog cmd Z := call (Dni_status0 dni_initialize).
Definition j_shutdown (e o : Z) : prog cmd unit := call Dni_shutdown.

Definition j_session_start (e o p mt t l : Z) : prog cmd Z := start_streaming e p mt t l false.
Definition j_rag_session_start (e o q mt t l : Z) : prog cmd Z := start_streaming e q mt t l true.
Definition j_session_cancel (e o id : Z) : prog cmd Z := call (Dni_session_cancel id).
Definition j_session_free (e o id : Z) : prog cmd Z := call (Dni_session_free id).

Definition j_http_start (e o : Z) : prog cmd Z := call (Dni_status0 dni_http_start).
Definition j_http_stop (e o : Z) : prog cmd Z := call (Dni_status0 dni_http_stop).

Definition j_pb_start (e o flags : Z) : prog cmd Z := call (Dni_pb_start flags).
Definition j_pb_stop (e o : Z) : prog cmd unit := call Dni_pb_stop.

(** The getters without arguments: take the managed string of one export. *)
Definition j_string0 (f : export0) (e : Z) : prog cmd Z :=
  r <- call (Dni_string0 f) ;; take_native_string e r.
Definition j_trace_drain (e o : Z) : prog cmd Z := j_string0 dni_trace_drain e.
Definition j_log_drain (e o : Z) : prog cmd Z := j_string0 dni_log_drain e.

Definition j_broker_start (e o path : Z) : prog cmd Z :=
  if is_null path then Ret DNI_INVALID_ARGUMENT else
  p <- call (GetStringUTFChars e path) ;;
  if cnull p then Ret DNI_INTERNAL else
  r <- call (Dni_broker_start p) ;;
  call (ReleaseStringUTFChars e path p) ;;;
  Ret r.

Definition j_broker_stop (e o : Z) : prog cmd Z := call (Dni_status0 dni_broker_stop).

Definition j_features_json (e o : Z) : prog cmd Z := j_string0 dni_features_json e.
Definition j_sqlite_features (e o : Z) : prog cmd Z := j_string0 dni_sqlite_features e.
Definition j_engine_stats (e o : Z) : prog cmd Z := j_string0 dni_engine_stats e.

(** [j_feature_run], [j_sqlite_run], [j_sqlite_rag]: one body for three exports, without a test of
    what [GetStringUTFChars] returned. *)
Definition j_run_unchecked (f : export1) (e id : Z) : prog cmd Z :=
  if is_null id then Ret NULL else
  cid <- call (GetStringUTFChars e id) ;;
  r <- call (Dni_string1 f cid) ;;
  call (ReleaseStringUTFChars e id cid) ;;;
  take_native_string e r.
Definition j_feature_run (e o id : Z) : prog cmd Z := j_run_unchecked dni_feature_run e id.
Definition j_sqlite_run (e o id : Z) : prog cmd Z := j_run_unchecked dni_sqlite_run e id.
Definition j_sqlite_rag (e o q : Z) : prog cmd Z := j_run_unchecked dni_sqlite_rag e q.

Definition j_search (e o q c : Z) : prog cmd Z :=
  if is_null q || is_null c then Ret NULL else
  cq <- call (GetStringUTFChars e q) ;;
  cc <- call (GetStringUTFChars e c) ;;
  r <- (if negb (cnull cq) && negb (cnull cc) then call (Dni_search cq cc) else Ret CNull) ;;
  (if negb (cnull cq) then call (ReleaseStringUTFChars e q cq) else Ret tt) ;;;
  (if negb (cnull cc) then call (ReleaseStringUTFChars e c cc) else Ret tt) ;;;
  take_native_string e r.

Definition j_set_assets_dir (e o path : Z) : prog cmd Z :=
  if is_null path then Ret (-1) else
  p <- call (GetStringUTFChars e path) ;;
  r <- (if negb (cnull p) then call (Dni_set_assets_dir p) else Ret (-1)) ;;
  (if negb (cnull p) then call (ReleaseStringUTFChars e path p) else Ret tt) ;;;
  Ret r.

(** [j_sqlite_probe] and [j_llama_probe]: one body, with the test. *)
Definition j_probe (f : export1) (e path : Z) : prog cmd Z :=
  if is_null path then Ret NULL else
  p <- call (GetStringUTFChars e path) ;;
  r <- (if negb (cnull p) then call (Dni_string1 f p) else Ret CNull) ;;
  (if negb (cnull p) then call (ReleaseStringUTFChars e path p) else Ret tt) ;;;
  take_native_string e r.
Definition j_sqlite_probe (e o path : Z) : prog cmd Z := j_probe dni_sqlite_probe e path.
Definition j_llama_probe (e o path : Z) : prog cmd Z := j_probe dni_llama_probe e path.

Definition j_agent_session_start (e o query listener : Z) : prog cmd Z :=
  start_with e query listener "onToken" on_token_sig CallbackState Agent_args Ffi_token_callback.

Definition j_ffi_echo (e o text : Z) : prog cmd Z :=
  if is_null text then Ret NULL else
  ctext <- call (GetStringUTFChars e text) ;;
  if cnull ctext then Ret NULL else
  len <- call (Strlen ctext) ;;
  r <- call (Dni_ffi_echo ctext (wrap_s 32 len)) ;;
  call (ReleaseStringUTFChars e text ctext) ;;;
  take_native_string e r.

Definition j_ffi_throw (e o : Z) : prog cmd Z := j_string0 dni_ffi_throw e.

Definition j_ffi_stream_start (e o prompt max_tokens listener : Z) : prog cmd Z :=
  start_with e prompt listener "onTrace" on_trace_sig TraceCallbackState
    (Trace_args max_tokens) Ffi_trace_callback.
