(* ===== verification/JniTable.v ===== *)
(** * JniTable: the RegisterNatives table of jni_bridge.c and the Kotlin side of it

    The 28 rows of [kMethods], the C prototype and the body behind each, [JNI_OnLoad], and the
    [external fun]s and listener interfaces of NativeBridge.kt with the JNI descriptor the JVM derives
    from a Kotlin signature. *)

From S2P Require Import Prelude Effects Abi JniModel JniBridge.
Local Open Scope Z_scope.
Local Open Scope dni_scope.

(** ** The registration table *)

(** The C functions of the table, with the parameters they take after [(JNIEnv*, jobject)]. *)
Inductive jtype := Jint | Jlong | Jfloat | Jstring | Jobject | Jvoid.

#[export] Instance jtype_eq_dec : EqDecision jtype.
Proof. solve_decision. Defined.

Inductive native :=
| N_initialize | N_shutdown | N_session_start | N_rag_session_start | N_agent_session_start |
N_session_cancel | N_session_free | N_http_start | N_http_stop | N_pb_start | N_pb_stop |
N_trace_drain | N_log_drain | N_broker_start | N_broker_stop | N_features_json | N_feature_run |
N_sqlite_features | N_sqlite_run | N_engine_stats | N_search | N_set_assets_dir | N_sqlite_rag |
N_sqlite_probe | N_llama_probe | N_ffi_echo | N_ffi_throw | N_ffi_stream_start.

Definition native_proto (n : native) : list jtype * jtype :=
  match n with
  | N_initialize | N_http_start | N_http_stop | N_broker_stop => ([], Jint)
  | N_shutdown | N_pb_stop => ([], Jvoid)
  | N_session_start | N_rag_session_start => ([Jstring; Jint; Jfloat; Jobject], Jlong)
  | N_agent_session_start => ([Jstring; Jobject], Jlong)
  | N_session_cancel | N_session_free => ([Jlong], Jint)
  | N_pb_start => ([Jint], Jint)
  | N_trace_drain | N_log_drain | N_features_json | N_sqlite_features | N_engine_stats | N_ffi_throw => ([], Jstring)
  | N_broker_start | N_set_assets_dir => ([Jstring], Jint)
  | N_feature_run | N_sqlite_run | N_sqlite_rag | N_sqlite_probe | N_llama_probe | N_ffi_echo => ([Jstring], Jstring)
  | N_search => ([Jstring; Jstring], Jstring)
  | N_ffi_stream_start => ([Jstring; Jint; Jobject], Jlong)
  end.

Record jni_method := Method { m_name : string; m_sig : string; m_fn : native }.

Definition kMethods : list jni_method :=
  [ Method "nativeInitialize" "()I" N_initialize;
    Method "nativeShutdown" "()V" N_shutdown;
    Method "nativeSessionStart" "(Ljava/lang/String;IFLio/dotnetnativeinterop/transport/FfiTokenListener;)J" N_session_start;
    Method "nativeRagSessionStart" "(Ljava/lang/String;IFLio/dotnetnativeinterop/transport/FfiTokenListener;)J" N_rag_session_start;
    Method "nativeAgentSessionStart" "(Ljava/lang/String;Lio/dotnetnativeinterop/transport/FfiTokenListener;)J" N_agent_session_start;
    Method "nativeSessionCancel" "(J)I" N_session_cancel;
    Method "nativeSessionFree" "(J)I" N_session_free;
    Method "nativeHttpStart" "()I" N_http_start;
    Method "nativeHttpStop" "()I" N_http_stop;
    Method "nativePbStart" "(I)I" N_pb_start;
    Method "nativePbStop" "()V" N_pb_stop;
    Method "nativeTraceDrain" "()Ljava/lang/String;" N_trace_drain;
    Method "nativeLogDrain" "()Ljava/lang/String;" N_log_drain;
    Method "nativeBrokerStart" "(Ljava/lang/String;)I" N_broker_start;
    Method "nativeBrokerStop" "()I" N_broker_stop;
    Method "nativeFeaturesJson" "()Ljava/lang/String;" N_features_json;
    Method "nativeFeatureRun" "(Ljava/lang/String;)Ljava/lang/String;" N_feature_run;
    Method "nativeSqliteFeatures" "()Ljava/lang/String;" N_sqlite_features;
    Method "nativeSqliteRun" "(Ljava/lang/String;)Ljava/lang/String;" N_sqlite_run;
    Method "nativeEngineStats" "()Ljava/lang/String;" N_engine_stats;
    Method "nativeSearch" "(Ljava/lang/String;Ljava/lang/String;)Ljava/lang/String;" N_search;
    Method "nativeSetAssetsDir" "(Ljava/lang/String;)I" N_set_assets_dir;
    Method "nativeSqliteRag" "(Ljava/lang/String;)Ljava/lang/String;" N_sqlite_rag;
    Method "nativeSqliteProbe" "(Ljava/lang/String;)Ljava/lang/String;" N_sqlite_probe;
    Method "nativeLlamaProbe" "(Ljava/lang/String;)Ljava/lang/String;" N_llama_probe;
    Method "nativeFfiEcho" "(Ljava/lang/String;)Ljava/lang/String;" N_ffi_echo;
    Method "nativeFfiThrow" "()Ljava/lang/String;" N_ffi_throw;
    Method "nativeFfiStreamStart" "(Ljava/lang/String;ILio/dotnetnativeinterop/transport/FfiTraceListener;)J" N_ffi_stream_start ].

(** The body behind a row: the arguments after [(JNIEnv*, jobject)] as machine words. *)
Definition native_body (n : native) (e o : Z) (args : list Z) : option (prog cmd Z) :=
  match n, args with
  | N_initialize, [] => Some (j_initialize e o)
  | N_shutdown, [] => Some (j_shutdown e o ;;; Ret NULL)
  | N_session_start, [p; mt; t; l] => Some (j_session_start e o p mt t l)
  | N_rag_session_start, [q; mt; t; l] => Some (j_rag_session_start e o q mt t l)
  | N_agent_session_start, [q; l] => Some (j_agent_session_start e o q l)
  | N_session_cancel, [id] => Some (j_session_cancel e o id)
  | N_session_free, [id] => Some (j_session_free e o id)
  | N_http_start, [] => Some (j_http_start e o)
  | N_http_stop, [] => Some (j_http_stop e o)
  | N_pb_start, [flags] => Some (j_pb_start e o flags)
  | N_pb_stop, [] => Some (j_pb_stop e o ;;; Ret NULL)
  | N_trace_drain, [] => Some (j_trace_drain e o)
  | N_log_drain, [] => Some (j_log_drain e o)
  | N_broker_start, [path] => Some (j_broker_start e o path)
  | N_broker_stop, [] => Some (j_broker_stop e o)
  | N_features_json, [] => Some (j_features_json e o)
  | N_feature_run, [id] => Some (j_feature_run e o id)
  | N_sqlite_features, [] => Some (j_sqlite_features e o)
  | N_sqlite_run, [id] => Some (j_sqlite_run e o id)
  | N_engine_stats, [] => Some (j_engine_stats e o)
  | N_search, [q; c] => Some (j_search e o q c)
  | N_set_assets_dir, [path] => Some (j_set_assets_dir e o path)
  | N_sqlite_rag, [q] => Some (j_sqlite_rag e o q)
  | N_sqlite_probe, [path] => Some (j_sqlite_probe e o path)
  | N_llama_probe, [path] => Some (j_llama_probe e o path)
  | N_ffi_echo, [text] => Some (j_ffi_echo e o text)
  | N_ffi_throw, [] => Some (j_ffi_throw e o)
  | N_ffi_stream_start, [p; mt; l] => Some (j_ffi_stream_start e o p mt l)
  | _, _ => None
  end.

(** ** JNI_OnLoad *)

Definition JNI_OnLoad (vm : Z) : prog cmd Z :=
  call (Set_g_jvm vm) ;;;
  res <- call (GetEnv vm JNI_VERSION_1_6) ;;
  if bool_decide (res.1 <> JNI_OK) then Ret JNI_ERR else
  clazz <- call (FindClass res.2 "io/dotnetnativeinterop/transport/NativeBridge") ;;
  if is_null clazz then Ret JNI_ERR else
  reg <- call (RegisterNatives res.2 clazz ((fun m => (m_name m, m_sig m)) <$> kMethods)
                 (Z.of_nat (length kMethods))) ;;
  if bool_decide (reg <> JNI_OK) then Ret JNI_ERR else
  call (DeleteLocalRef res.2 clazz) ;;;
  Ret JNI_VERSION_1_6.

(** ** The Kotlin side *)

Inductive kt_type :=
| KUnit | KInt | KLong | KFloat | KBoolean | KString | KTokenListener | KTraceListener.

#[export] Instance kt_type_eq_dec : EqDecision kt_type.
Proof. solve_decision. Defined.

(** The JNI field descriptor of a Kotlin type ([String] and [String?] share one). *)
Definition descriptor (t : kt_type) : string :=
  match t with
  | KUnit => "V" | KInt => "I" | KLong => "J" | KFloat => "F" | KBoolean => "Z"
  | KString => "Ljava/lang/String;"
  | KTokenListener => "Lio/dotnetnativeinterop/transport/FfiTokenListener;"
  | KTraceListener => "Lio/dotnetnativeinterop/transport/FfiTraceListener;"
  end.

Definition method_descriptor (params : list kt_type) (ret : kt_type) : string :=
  "(" +:+ String.concat "" (descriptor <$> params) +:+ ")" +:+ descriptor ret.

(** The C type JNI passes for a Kotlin type. *)
Definition c_of_kt (t : kt_type) : jtype :=
  match t with
  | KUnit => Jvoid | KInt => Jint | KLong => Jlong | KFloat => Jfloat | KBoolean => Jint
  | KString => Jstring | KTokenListener | KTraceListener => Jobject
  end.

Record kt_external := KtExternal { k_name : string; k_params : list kt_type; k_ret : kt_type }.

Definition kt_externals : list kt_external :=
  [ KtExternal "nativeInitialize" [] KInt;
    KtExternal "nativeShutdown" [] KUnit;
    KtExternal "nativeSessionStart" [KString; KInt; KFloat; KTokenListener] KLong;
    KtExternal "nativeRagSessionStart" [KString; KInt; KFloat; KTokenListener] KLong;
    KtExternal "nativeSessionCancel" [KLong] KInt;
    KtExternal "nativeSessionFree" [KLong] KInt;
    KtExternal "nativeAgentSessionStart" [KString; KTokenListener] KLong;
    KtExternal "nativeHttpStart" [] KInt;
    KtExternal "nativeHttpStop" [] KInt;
    KtExternal "nativePbStart" [KInt] KInt;
    KtExternal "nativePbStop" [] KUnit;
    KtExternal "nativeTraceDrain" [] KString;
    KtExternal "nativeLogDrain" [] KString;
    KtExternal "nativeBrokerStart" [KString] KInt;
    KtExternal "nativeBrokerStop" [] KInt;
    KtExternal "nativeFeaturesJson" [] KString;
    KtExternal "nativeFeatureRun" [KString] KString;
    KtExternal "nativeSqliteFeatures" [] KString;
    KtExternal "nativeSqliteRun" [KString] KString;
    KtExternal "nativeEngineStats" [] KString;
    KtExternal "nativeSearch" [KString; KString] KString;
    KtExternal "nativeSetAssetsDir" [KString] KInt;
    KtExternal "nativeSqliteRag" [KString] KString;
    KtExternal "nativeSqliteProbe" [KString] KString;
    KtExternal "nativeLlamaProbe" [KString] KString;
    KtExternal "nativeFfiEcho" [KString] KString;
    KtExternal "nativeFfiThrow" [] KString;
    KtExternal "nativeFfiStreamStart" [KString; KInt; KTraceListener] KLong ].

(** [FfiTokenListener.onToken] and [FfiTraceListener.onTrace]. *)
Definition onToken : kt_external := KtExternal "onToken" [KInt; KString; KBoolean] KUnit.
Definition onTrace : kt_external := KtExternal "onTrace" [KInt; KString; KLong; KLong; KBoolean] KUnit.

(** The Kotlin type of an argument of [CallVoidMethod]. *)
Definition kt_of_jvalue (v : jvalue) : kt_type :=
  match v with JInt _ => KInt | JLong _ => KLong | JBool _ => KBoolean | JRef _ => KString end.

(** A row agrees with a Kotlin declaration. *)
Definition row_agrees (m : jni_method) (k : kt_external) : bool :=
  bool_decide (m_name m = k_name k) && bool_decide (m_sig m = method_descriptor (k_params k) (k_ret k)) &&
  bool_decide (native_proto (m_fn m) = (c_of_kt <$> k_params k, c_of_kt (k_ret k))).

Definition tables_agree : bool :=
  forallb (fun m => existsb (row_agrees m) kt_externals) kMethods &&
  forallb (fun k => existsb (fun m => row_agrees m k) kMethods) kt_externals.

Lemma tables_agree_true : tables_agree = true.
Proof. vm_compute. reflexivity. Qed.

Lemma existsb_elem {A} (f : A -> bool) l : existsb f l = true -> exists x, x ∈ l /\ f x = true.
Proof. intros (x & Hx & Hf)%existsb_exists. exists x. by rewrite list_elem_of_In. Qed.

Lemma row_agrees_spec m k :
  row_agrees m k = true ->
  m_name m = k_name k /\ m_sig m = method_descriptor (k_params k) (k_ret k) /\
  native_proto (m_fn m) = (c_of_kt <$> k_params k, c_of_kt (k_ret k)).
Proof. unfold row_agrees. rewrite !andb_true_iff, !bool_decide_eq_true. tauto. Qed.

(** the 28 rows of [kMethods] and the 28 [external fun]s of NativeBridge.kt are in one-to-one
    agreement: each row has a declaration of the same name whose JNI descriptor is the row's signature
    string and whose types are the C prototype behind the row, and conversely; no name occurs twice on
    either side; and the method descriptors the shim looks listeners up with are those of
    [FfiTokenListener.onToken] and [FfiTraceListener.onTrace]. *)
Theorem kMethods_agree_with_kotlin :
  (forall m, m ∈ kMethods -> exists k, k ∈ kt_externals /\ m_name m = k_name k /\
     m_sig m = method_descriptor (k_params k) (k_ret k) /\
     native_proto (m_fn m) = (c_of_kt <$> k_params k, c_of_kt (k_ret k))) /\
  (forall k, k ∈ kt_externals -> exists m, m ∈ kMethods /\ m_name m = k_name k /\
     m_sig m = method_descriptor (k_params k) (k_ret k) /\
     native_proto (m_fn m) = (c_of_kt <$> k_params k, c_of_kt (k_ret k))) /\
  NoDup (m_name <$> kMethods) /\ NoDup (k_name <$> kt_externals) /\
  on_token_sig = method_descriptor (k_params onToken) (k_ret onToken) /\
  on_trace_sig = method_descriptor (k_params onTrace) (k_ret onTrace).
Proof.
  pose proof tables_agree_true as [H1 H2]%andb_true_iff.
  rewrite forallb_forall in H1, H2. split_and!; [| |vm_decide..|reflexivity|reflexivity].
  - intros m Hm%list_elem_of_In. destruct (existsb_elem _ _ (H1 _ Hm)) as (k & ? & ?%row_agrees_spec); eauto.
  - intros k Hk%list_elem_of_In. destruct (existsb_elem _ _ (H2 _ Hk)) as (m & ? & ?%row_agrees_spec); eauto.
Qed.
