(* ===== verification/JniSpec.v ===== *)
(** * JniSpec: what the JNI shim guarantees

    Specifications of the functions of [JniBridge] against the contract of [JniModel]: thread
    attachment, the two streaming callbacks, the session starts and every registered native method. *)

From S2P Require Import Prelude Effects Abi JniModel JniBridge JniTable.
Local Open Scope Z_scope.
Local Open Scope dni_scope.

(** ** Frames *)

(** Everything but the thread fields (TLS key, slot, environment) is the same. *)
Record same_resources (w w' : ledger) : Prop := {
  sr_jvm : l_jvm w' = l_jvm w; sr_exn : l_exn w' = l_exn w;
  sr_locals : l_locals w' = l_locals w; sr_globals : l_globals w' = l_globals w;
  sr_jstrs : l_jstrs w' = l_jstrs w; sr_pins : l_pins w' = l_pins w;
  sr_nstrs : l_nstrs w' = l_nstrs w; sr_borrowed : l_borrowed w' = l_borrowed w;
  sr_heap : l_heap w' = l_heap w; sr_sessions : l_sessions w' = l_sessions w;
  sr_out : l_out w' = l_out w }.

(** The TLS state a thread can be in: the key exists once the once-flag is set, and a thread attached
    by the shim has its slot set so that the destructor will detach it. *)
Definition tls_wf (w : ledger) : Prop := l_once w = true -> l_key w = true.

Ltac wp_simpl := cbn [wp bind call caller callee upd jni jcaller jcallee jupd fst snd].

(** One step of a program: discharge what the call requires (or leave it), take the answer. *)
Ltac wp_step :=
  wp_simpl;
  match goal with
  | |- context [if bool_decide ?P then _ else _] => case_bool_decide
  | |- _ /\ (forall _, _ -> _) => split; [try solve [done | simpl; auto with dni] | intros ? ?; try subst]
  | |- context [if cnull ?p then _ else _] => destruct p eqn:?; cbn [cnull negb andb]
  | |- context [if ?b then _ else _] => destruct b eqn:?
  end.

Lemma attach_current_thread_wp F (w : ledger) :
  tls_wf w -> l_env w <> Some NULL ->
  wp (jni F) attach_current_thread
    (fun env w' => same_resources w w' /\ tls_wf w' /\
       (env = NULL /\ l_env w' = l_env w \/
        env <> NULL /\ env_ok w' env /\
        (l_env w = Some env /\ l_tls w' = l_tls w \/ l_env w = None /\ l_tls w' = 1))) w.
Proof.
  intros Htls Henv. unfold attach_current_thread, create_tls_key, tls_wf in *.
  destruct (l_once w) eqn:Ho; [specialize (Htls eq_refl)|].
  all: repeat (wp_step; rewrite ?Ho); wp_simpl; simplify_eq/=.
  all: split; [by constructor | split; [solve [done | congruence]|]].
  all: unfold env_ok; simpl; intuition (simplify_eq/=; auto).
  all: first [ right; split_and!; [intros E; rewrite E in *; auto | done | auto]
             | unfold JNI_OK, JNI_EDETACHED in *; lia ].
Qed.

(** ** Callbacks *)

(** The part of the ledger a callback never changes. *)
Record cb_frame (w w' : ledger) : Prop := {
  cf_locals : l_locals w' = l_locals w; cf_jstrs : l_jstrs w' = l_jstrs w;
  cf_pins : l_pins w' = l_pins w; cf_nstrs : l_nstrs w' = l_nstrs w;
  cf_borrowed : l_borrowed w' = l_borrowed w; cf_sessions : l_sessions w' = l_sessions w }.

(** The block behind [user_data], with its listener alive. *)
Definition cb_owned (w : ledger) (ud r m : Z) (k : cbkind) : Prop :=
  l_heap w !! ud = Some (Block k (Some r) (Some m)) /\ r ∈ l_globals w /\ m <> NULL.

(** A callback may start: the thread's TLS state is consistent, no exception is pending, the text is
    NULL or a buffer lent for the call. *)
Definition cb_entry (w : ledger) (text : cstr) : Prop :=
  tls_wf w /\ l_env w <> Some NULL /\ l_exn w = false /\ readable_or_null w text.

Definition undelivered (w w' : ledger) : Prop :=
  l_out w' = l_out w /\ l_heap w' = l_heap w /\ l_globals w' = l_globals w.

Definition delivered (w w' : ledger) (ud r m : Z) (args : list jvalue) (text : string)
    (final : bool) : Prop :=
  l_out w' = l_out w ++ [Delivery r m args (Some text)] /\ l_exn w' = false /\
  if final then l_heap w' = delete ud (l_heap w) /\ l_globals w' = l_globals w ∖ {[r]}
  else l_heap w' = l_heap w /\ l_globals w' = l_globals w.

Definition cb_post (F : faults) (w : ledger) ud r m (mk : Z -> list jvalue) text is_final
    (w' : ledger) : Prop :=
  cb_frame w w' /\ tls_wf w' /\
  (undelivered w w' /\ (l_exn w' = true -> f_newstr F = true) \/
   exists jt, delivered w w' ud r m (mk jt) (cstr_bytes text) (bool_decide (is_final <> 0))).

(** The body the two callbacks share, up to the arguments handed to the listener. *)
Definition callback_body (user_data : Z) (text : cstr) (is_final : Z) (mk : Z -> list jvalue)
  : prog cmd unit :=
  if is_null user_data then Ret tt else
  env <- attach_current_thread ;;
  if is_null env then Ret tt else
  jtext <- call (NewStringUTF env (if cnull text then CLit "" else text)) ;;
  if is_null jtext then Ret tt else
  listener <- call (Get_listener user_data) ;;
  on_token <- call (Get_method user_data) ;;
  call (CallVoidMethod env listener on_token (mk jtext)) ;;;
  callback_epilogue env jtext user_data is_final.

(** Arguments that mention the string reference once, as [arg_text] expects. *)
Definition mentions_text (mk : Z -> list jvalue) : Prop :=
  forall w r, (live w r -> Forall (arg_live w) (mk r)) /\ arg_text w (mk r) = l_jstrs w !! r.

Lemma callback_epilogue_wp F (w : ledger) env jt ud r m k is_final (Q : unit -> ledger -> Prop) :
  env_ok w env -> jt ∈ l_locals w -> cb_owned w ud r m k ->
  (let w1 := set_exn false (del_local jt w) in
   Q tt (if bool_decide (is_final <> 0)
         then set_heap (delete ud (l_heap w)) (l_sessions w) (del_global r w1) else w1)) ->
  wp (jni F) (callback_epilogue env jt ud is_final) Q w.
Proof.
  intros He Hj (Hh & Hr & Hm) HQ. unfold callback_epilogue. wp_simpl.
  split; [done|]. intros [] _. split; [done|]. intros threw ->.
  assert (l_exn w = false -> del_local jt w = set_exn false (del_local jt w)) as Hnoexn
    by (intros E; unfold set_exn, del_local, set_refs; simpl; by rewrite E).
  destruct (l_exn (del_local jt w)) eqn:Hx; wp_simpl.
  - split; [done|]. intros [] _. split; [done|]. intros [] _.
    case_bool_decide; wp_simpl; [|done].
    split; [by eauto|]. intros l (b & Hb & Hl). simplify_eq/=.
    split; [by eauto|]. intros [] _. split; [by eauto|]. intros [] _. done.
  - rewrite Hnoexn by done. case_bool_decide; wp_simpl; [|done].
    split; [by eauto|]. intros l (b & Hb & Hl). simplify_eq/=.
    split; [by eauto|]. intros [] _. split; [by eauto|]. intros [] _. done.
Qed.

Lemma callback_body_wp F (w : ledger) ud r m k text is_final mk :
  cb_entry w text -> cb_owned w ud r m k -> mentions_text mk ->
  wp (jni F) (callback_body ud text is_final mk) (fun _ => cb_post F w ud r m mk text is_final) w.
Proof.
  intros (Ht & He & Hx & Hrd) (Hh & Hr & Hm) Hmk. unfold callback_body.
  case_bool_decide; [split_and!; [done|done|left; split; [done | congruence]]|].
  eapply wp_seq; [by apply attach_current_thread_wp|].
  intros env w1 ([] & Ht1 & Hen). wp_simpl.
  case_bool_decide as En; [by (split_and!; [constructor|done|left; split; [done | congruence]])|].
  destruct Hen as [[? _]|(_ & Hok & _)]; [done|].
  wp_simpl. split.
  { split; [by split; [|congruence]|]. destruct text; simpl; [done..|].
    destruct Hrd as [?|Hrd]; [done|]. unfold readable, buf_live in *. by rewrite sr_pins0, sr_nstrs0, sr_borrowed0. }
  intros jt Hjt. case_bool_decide as Ej.
  { destruct Hjt as [[Hf _]|[? _]]; [|done]. split_and!; [by constructor|done|left; by split]. }
  destruct Hjt as [[_ ?]|(_ & Hl & Hg & Hs)]; [done|]. set (w2 := add_string _ _ w1).
  assert (l_heap w2 !! ud = Some (Block k (Some r) (Some m))) as Hh2 by (simpl; congruence).
  wp_simpl. split; [by eauto|]. intros l (b & Hb & Hbl).
  split; [by eauto|]. intros o (b' & Hb' & Hbm). simpl in * |-. simplify_eq.
  simpl in Hbl, Hbm. simplify_eq.
  split.
  { split_and!; [by split; [|simpl; congruence]|right; simpl; congruence|done|].
    apply (Hmk w2 jt). left; simpl. by apply elem_of_union_l, elem_of_singleton_2. }
  intros threw _. apply (callback_epilogue_wp F _ env jt ud l o k); [done|simpl; by apply elem_of_union_l, elem_of_singleton_2| |].
  { split_and!; [done|simpl; congruence|done]. }
  pose proof (proj2 (Hmk w2 jt)) as Htxt. simpl in Htxt. rewrite lookup_insert_eq in Htxt.
  assert (cstr_bytes (if cnull text then CLit "" else text) = cstr_bytes text) as Eb by by destruct text.
  split_and!; case_bool_decide; simpl; try done.
  1,2: constructor; simpl; rewrite ?delete_insert_id, ?gset_add_remove by congruence; congruence.
  all: right; exists jt; unfold delivered; simpl; rewrite Htxt, Eb; split_and!; congruence.
Qed.

Lemma mentions_token index is_final :
  mentions_text (fun jt => [JInt index; JRef jt; JBool (bool_decide (is_final <> 0))]).
Proof. intros w r. split; [intros Hl; by rewrite !Forall_cons, Forall_nil | done]. Qed.

Lemma mentions_trace index tid us is_final :
  mentions_text (fun jt => [JInt index; JRef jt; JLong tid; JLong us;
                            JBool (bool_decide (is_final <> 0))]).
Proof. intros w r. split; [intros Hl; by rewrite !Forall_cons, Forall_nil | done]. Qed.

(** C1: the token callback, entered with the block its session owns, makes only permitted JNI calls
    and ends in one of two ways: nothing reached the listener and block and listener are untouched (the
    thread could not be attached or the string could not be made), or exactly one [onToken] call with
    the index, the text and the final flag reached the block's own listener, a thrown exception was
    cleared, and block and listener reference are released precisely when the token is final.  Local
    references are balanced either way. *)
Theorem ffi_token_callback_spec F (w : ledger) ud index text is_final r m :
  cb_entry w text -> cb_owned w ud r m CallbackState ->
  wp (jni F) (ffi_token_callback ud index text is_final)
    (fun _ => cb_post F w ud r m
       (fun jt => [JInt index; JRef jt; JBool (bool_decide (is_final <> 0))]) text is_final) w.
Proof. intros He Hb. exact (callback_body_wp F w _ _ _ _ _ _ _ He Hb (mentions_token _ _)). Qed.

(** the same guarantee for the trace callback, which hands the listener the thread id and the
    elapsed microseconds in the order of [FfiTraceListener.onTrace]. *)
Theorem ffi_trace_callback_spec F (w : ledger) ud index text is_final tid us r m :
  cb_entry w text -> cb_owned w ud r m TraceCallbackState ->
  wp (jni F) (ffi_trace_callback ud index text is_final tid us)
    (fun _ w' => cb_post F w ud r m
       (fun jt => [JInt index; JRef jt; JLong tid; JLong us; JBool (bool_decide (is_final <> 0))])
       text is_final w' /\
     forall jt, kt_of_jvalue <$> [JInt index; JRef jt; JLong tid; JLong us;
                                  JBool (bool_decide (is_final <> 0))] = k_params onTrace) w.
Proof.
  intros He Hb. eapply wp_mono; [intros a w' Hp; split; [exact Hp | done]|].
  exact (callback_body_wp F w _ _ _ _ _ _ _ He Hb (mentions_trace _ _ _ _)).
Qed.

(** ** Native methods *)

(** What no native method changes: thread state, string buffers, its own heap, deliveries. *)
Record native_frame (w w' : ledger) : Prop := {
  nf_jvm : l_jvm w' = l_jvm w; nf_once : l_once w' = l_once w; nf_key : l_key w' = l_key w;
  nf_tls : l_tls w' = l_tls w; nf_env : l_env w' = l_env w; nf_pins : l_pins w' = l_pins w;
  nf_nstrs : l_nstrs w' = l_nstrs w; nf_borrowed : l_borrowed w' = l_borrowed w;
  nf_heap : l_heap w' = l_heap w; nf_out : l_out w' = l_out w }.

(** The three ways a native method returns: nothing kept; one fresh local string reference, which is
    the result; one session, whose id is the result, owning one block and one new global reference. *)
Definition returns_nothing (w w' : ledger) : Prop :=
  l_locals w' = l_locals w /\ l_globals w' = l_globals w /\ l_jstrs w' = l_jstrs w /\
  l_sessions w' = l_sessions w.
Definition returns_string (w : ledger) (r : Z) (w' : ledger) : Prop :=
  exists s, fresh_ref w r /\ l_locals w' = {[r]} ∪ l_locals w /\ l_globals w' = l_globals w /\
    l_jstrs w' = <[r := s]> (l_jstrs w) /\ l_sessions w' = l_sessions w.
Definition returns_session (cb : cbfun) (w : ledger) (r : Z) (w' : ledger) : Prop :=
  0 < r /\ exists ud g m, ud <> NULL /\ l_heap w !! ud = None /\ (g ∉ l_globals w) /\ m <> NULL /\
    l_globals w' = {[g]} ∪ l_globals w /\
    l_sessions w' = (r, (cb, ud, Block (cbfun_kind cb) (Some g) (Some m))) :: l_sessions w /\
    l_locals w' = l_locals w /\ l_jstrs w' = l_jstrs w.

Definition native_post (w : ledger) (r : Z) (w' : ledger) : Prop :=
  native_frame w w' /\
  (returns_nothing w w' \/ returns_string w r w' \/ exists cb, returns_session cb w r w').

(** [w1] is [w] with the managed string [p] (if any) still to be freed. *)
Definition owes_string (w : ledger) (p : cstr) (w1 : ledger) : Prop :=
  native_frame (set_bufs (l_pins w) (l_nstrs w1) w) w1 /\ returns_nothing w w1 /\
  match p with
  | CNull => l_nstrs w1 = l_nstrs w
  | CLit _ => False
  | CBuf a _ => l_nstrs w1 = {[a]} ∪ l_nstrs w /\ (a ∉ l_nstrs w)
  end.

Lemma take_native_string_wp F (w w1 : ledger) e p :
  owes_string w p w1 -> env_ok w1 e -> (p <> CNull -> l_exn w1 = false) ->
  wp (jni F) (take_native_string e p) (native_post w) w1.
Proof.
  intros ([] & Hn & Hp) He Hx. destruct p as [|s|a s]; [|done|]; simpl in *.
  { split; [by constructor|by left]. }
  destruct Hp as [Hp Ha], Hn as (Hl & Hg & Hj & Hs).
  split; [split; [split; [done|by apply Hx]|]|].
  { right; left. rewrite Hp. by apply elem_of_union_l, elem_of_singleton_2. }
  intros r Hr. split.
  { case_bool_decide; simpl; rewrite Hp; by apply elem_of_union_l, elem_of_singleton_2. }
  intros [] _. case_bool_decide as Er.
  - split; [constructor; simpl; try done; by rewrite Hp, gset_add_remove|by left].
  - destruct Hr as [[_ ?]|(? & ? & ? & ?)]; [done|].
    split; [constructor; simpl; try done; by rewrite Hp, gset_add_remove|].
    right; left. exists s. simpl. rewrite Hl, Hg, Hj in *. by split_and!.
Qed.

Lemma j_string0_wp F (w : ledger) f e :
  jni_ok w e -> wp (jni F) (j_string0 f e) (native_post w) w.
Proof.
  intros [He Hx]. unfold j_string0. wp_simpl. split; [done|]. intros p Hp.
  apply take_native_string_wp; [|by destruct p|by destruct p].
  destruct Hp as [->|(a & s & -> & _ & ? & _)]; (split_and!; [by constructor|done..]).
Qed.

(** A string argument: NULL or a live java.lang.String. *)
Definition str_arg (w : ledger) (js : Z) : Prop :=
  js = NULL \/ live w js /\ is_Some (l_jstrs w !! js).

Lemma j_run_unchecked_wp F (w : ledger) f e id :
  jni_ok w e -> str_arg w id -> f_utf F = false ->
  wp (jni F) (j_run_unchecked f e id) (native_post w) w.
Proof.
  intros [He Hx] Ha Hf. unfold j_run_unchecked.
  case_bool_decide; [by split; [constructor|left]|]. destruct Ha as [?|[Hl Hs]]; [done|].
  wp_simpl. split; [done|]. intros cid [[? _]|(a & s & -> & (Hp & Hn & Hb) & Hc)]; [congruence|].
  split; [right; left; eexists; simpl; by apply lookup_insert_eq|].
  intros r Hr. split.
  { split; [by destruct r|]. exists a, s. split; [done|]. destruct r; simpl; by apply lookup_insert_eq. }
  intros [] _. apply take_native_string_wp; [|by destruct r|by destruct r].
  destruct Hr as [->|(b & t & -> & _ & Hbn & _)]; simpl in *;
    (split_and!; [constructor; simpl; try done; by apply delete_insert_id|done..]).
Qed.

Lemma j_probe_wp F (w : ledger) f e path :
  jni_ok w e -> str_arg w path -> wp (jni F) (j_probe f e path) (native_post w) w.
Proof.
  intros [He Hx] Ha. unfold j_probe.
  case_bool_decide; [by split; [constructor|left]|]. destruct Ha as [?|[Hl Hs]]; [done|].
  wp_simpl. split; [done|]. intros p [[_ ->]|(a & s & -> & (Hp & Hn & Hb) & Hc)]; wp_simpl.
  { by split; [constructor|left]. }
  split; [right; left; eexists; simpl; by apply lookup_insert_eq|].
  intros r Hr. split.
  { split; [by destruct r|]. exists a, s. split; [done|]. destruct r; simpl; by apply lookup_insert_eq. }
  intros [] _. apply take_native_string_wp; [|by destruct r|by destruct r].
  destruct Hr as [->|(b & t & -> & _ & Hbn & _)]; simpl in *;
    (split_and!; [constructor; simpl; try done; by apply delete_insert_id|done..]).
Qed.

Lemma j_ffi_echo_wp F (w : ledger) e o text :
  jni_ok w e -> str_arg w text ->
  (forall s, l_jstrs w !! text = Some s -> Z.of_nat (String.length s) < 2 ^ 31) ->
  wp (jni F) (j_ffi_echo e o text) (native_post w) w.
Proof.
  intros [He Hx] Ha Hlen. unfold j_ffi_echo.
  case_bool_decide; [by split; [constructor|left]|]. destruct Ha as [?|[Hl Hs]]; [done|].
  wp_simpl. split; [done|]. intros p [[_ ->]|(a & s & -> & (Hp & Hn & Hb) & Hc)]; wp_simpl.
  { by split; [constructor|left]. }
  assert (buf_live (add_pin text (CBuf a s) w) a) as Hbl
    by (left; eexists; simpl; by apply lookup_insert_eq).
  split; [done|]. intros len ->.
  split. { split; [done|]. rewrite wrap_s_id; [done..|]. specialize (Hlen _ Hc). unfold in_s. lia. }
  intros r Hr. split.
  { split; [by destruct r|]. exists a, s. split; [done|]. destruct r; simpl; by apply lookup_insert_eq. }
  intros [] _. apply take_native_string_wp; [|by destruct r|by destruct r].
  destruct Hr as [->|(b & t & -> & _ & Hbn & _)]; simpl in *;
    (split_and!; [constructor; simpl; try done; by apply delete_insert_id|done..]).
Qed.

Lemma j_broker_start_wp F (w : ledger) e o path :
  jni_ok w e -> str_arg w path -> wp (jni F) (j_broker_start e o path) (native_post w) w.
Proof.
  intros [He Hx] Ha. unfold j_broker_start.
  case_bool_decide; [by split; [constructor|left]|]. destruct Ha as [?|[Hl Hs]]; [done|].
  wp_simpl. split; [done|]. intros p [[_ ->]|(a & s & -> & (Hp & Hn & Hb) & Hc)]; wp_simpl.
  { by split; [constructor|left]. }
  split; [right; left; eexists; simpl; by apply lookup_insert_eq|]. intros r _.
  split; [split; [done|exists a, s; split; [done|apply lookup_insert_eq]]|]. intros [] _.
  split; [constructor; simpl; try done; by apply delete_insert_id|by left].
Qed.

Lemma j_set_assets_dir_wp F (w : ledger) e o path :
  jni_ok w e -> str_arg w path -> wp (jni F) (j_set_assets_dir e o path) (native_post w) w.
Proof.
  intros [He Hx] Ha. unfold j_set_assets_dir.
  case_bool_decide; [by split; [constructor|left]|]. destruct Ha as [?|[Hl Hs]]; [done|].
  wp_simpl. split; [done|]. intros p [[_ ->]|(a & s & -> & (Hp & Hn & Hb) & Hc)]; wp_simpl.
  { by split; [constructor|left]. }
  split; [right; left; eexists; simpl; by apply lookup_insert_eq|]. intros r _.
  split; [split; [done|exists a, s; split; [done|apply lookup_insert_eq]]|]. intros [] _.
  split; [constructor; simpl; try done; by apply delete_insert_id|by left].
Qed.

Lemma j_search_wp F (w : ledger) e o q c :
  jni_ok w e -> str_arg w q -> str_arg w c -> f_utf F = false ->
  wp (jni F) (j_search e o q c) (native_post w) w.
Proof.
  intros [He Hx] Ha Ha' Hf. unfold j_search.
  case_bool_decide; [by split; [constructor|left]|]. destruct Ha as [?|[Hl Hs]]; [done|].
  case_bool_decide; [by split; [constructor|left]|]. destruct Ha' as [?|[Hl' Hs']]; [done|].
  wp_simpl. split; [done|]. intros cq [[? _]|(a & s & -> & (Hp & Hn & Hb) & Hc)]; [congruence|].
  wp_simpl. split; [done|].
  intros cc [[? _]|(a' & s' & -> & (Hp' & Hn' & Hb') & Hc')]; [congruence|]. simpl in *.
  apply lookup_insert_None in Hp' as [Hp' Hne]. wp_simpl.
  split. { split; right; left; eexists; simpl; [rewrite lookup_insert_ne by done|]; apply lookup_insert_eq. }
  intros r Hr. wp_simpl. split.
  { split; [by destruct r|]. exists a, s. split; [done|].
    destruct r; simpl; rewrite lookup_insert_ne by done; apply lookup_insert_eq. }
  intros [] _. split.
  { split; [by destruct r|]. exists a', s'. split; [done|].
    destruct r; simpl; rewrite lookup_delete_ne by done; apply lookup_insert_eq. }
  intros [] _. apply take_native_string_wp; [|by destruct r|by destruct r].
  assert (delete a' (delete a (<[a':=c]> (<[a:=q]> (l_pins w)))) = l_pins w) as Hpins.
  { rewrite delete_insert_ne by done. rewrite (delete_insert_id (l_pins w)) by done.
    by apply delete_insert_id. }
  destruct Hr as [->|(b & t & -> & _ & Hbn & _)]; simpl in *;
    (split_and!; [by constructor|done..]).
Qed.

(** ** Session starts *)

Definition start_post (cb : cbfun) (w : ledger) (r : Z) (w' : ledger) : Prop :=
  native_frame w w' /\ (r <= 0 /\ returns_nothing w w' \/ returns_session cb w r w').

Definition obj_arg (w : ledger) (o : Z) : Prop := o = NULL \/ live w o.

(** Failure after the global reference was taken: releasing both restores the ledger. *)
Lemma release_block_wp F (w w1 : ledger) e st g k m (r : Z) (Q : Z -> ledger -> Prop) :
  env_ok w1 e -> l_heap w1 !! st = Some (Block k (Some g) m) ->
  (g ∈ l_globals w1 \/ g = NULL) ->
  Q r (set_heap (delete st (l_heap w1)) (l_sessions w1) (del_global g w1)) ->
  wp (jni F) (l <- call (Get_listener st) ;;
              (call (DeleteGlobalRef e l) ;;; call (Free st) ;;; Ret r)) Q w1.
Proof.
  intros He Hh Hg HQ. wp_simpl. split; [by eauto|]. intros l (b & Hb & Hl). simplify_eq/=.
  split; [done|]. intros [] _. split; [by eauto|]. by intros [] _.
Qed.

(** The state in which the text is fetched: class reference dropped, block filled in. *)
Definition block_filled (w : ledger) (kind : cbkind) (st g m : Z) : ledger :=
  set_heap (<[st := Block kind (Some g) (Some m)]> (l_heap w)) (l_sessions w) (add_global g w).

Lemma start_tail_wp F (w : ledger) e text kind args cb st g m :
  jni_ok w e -> live w text -> is_Some (l_jstrs w !! text) -> kind = cbfun_kind cb ->
  args_for cb args -> st <> NULL -> l_heap w !! st = None -> (g ∉ l_globals w) -> m <> NULL ->
  wp (jni F)
    (c_text <- call (GetStringUTFChars e text) ;;
     if cnull c_text then
       l <- call (Get_listener st) ;;
       call (DeleteGlobalRef e l) ;;; call (Free st) ;;; Ret DNI_INTERNAL
     else
     sid <- call (Dni_start c_text args cb st) ;;
     call (ReleaseStringUTFChars e text c_text) ;;;
     (if bool_decide (sid <= 0) then
        l <- call (Get_listener st) ;;
        call (DeleteGlobalRef e l) ;;; call (Free st)
      else Ret tt) ;;;
     Ret sid)
    (start_post cb w) (block_filled w kind st g m).
Proof.
  intros [He Hx] Hl Hs -> Hargs Hst Hh Hg Hm.
  assert (delete st (<[st:=Block (cbfun_kind cb) (Some g) (Some m)]> (l_heap w)) = l_heap w) as Hdel
    by by apply delete_insert_id.
  assert (({[g]} ∪ l_globals w) ∖ {[g]} = l_globals w) as Hgl by by apply gset_add_remove.
  assert (g ∈ {[g]} ∪ l_globals w) as Hgin by by apply elem_of_union_l, elem_of_singleton_2.
  eapply (wp_bind _ (call _)). wp_simpl. split.
  { split_and!; [by split| |done]. destruct Hl; [by left|right; by apply elem_of_union_r]. }
  intros p [[_ ->]|(a & s & -> & (Hp & Hn & Hb) & Hc)]; cbn [cnull].
  { apply (release_block_wp F w _ e st g (cbfun_kind cb) (Some m)); [done|apply lookup_insert_eq|by left|].
    split; [by constructor|left; by split]. }
  wp_simpl. split.
  { split_and!; [right; left; eexists; simpl; by apply lookup_insert_eq|done|].
    eexists. split; [apply lookup_insert_eq|]. split_and!; [done| |by eexists]. by exists g. }
  intros sid Hsid. unfold start_session. simpl. rewrite lookup_insert_eq.
  destruct (bool_decide_reflect (0 < sid)) as [Hpos|Hneg].
  - wp_simpl. split.
    { split; [done|]. exists a, s. split; [done|]. apply lookup_insert_eq. }
    intros [] _. rewrite bool_decide_false by lia. wp_simpl.
    split; [constructor; simpl; try done; by apply delete_insert_id|].
    right. split; [done|]. exists st, g, m. by split_and!.
  - wp_simpl. split.
    { split; [done|]. exists a, s. split; [done|]. apply lookup_insert_eq. }
    intros [] _. rewrite bool_decide_true by lia.
    apply (release_block_wp F w _ e st g (cbfun_kind cb) (Some m)); [done|apply lookup_insert_eq|by left|].
    split; [constructor; simpl; try done; by apply delete_insert_id|].
    left. split; [lia|]. by split.
Qed.

Lemma del_add_local (w : ledger) r : fresh_ref w r -> del_local r (add_local r w) = w.
Proof.
  intros (_ & Hl & _ & Hj). destruct w. unfold del_local, add_local, set_refs. simpl in *.
  by rewrite gset_add_remove, delete_id.
Qed.

Lemma fill_block (w : ledger) kind st g m :
  map_block (with_method m) st (map_block (with_listener g) st
    (add_global g (set_heap (<[st := Block kind None None]> (l_heap w)) (l_sessions w) w))) =
  block_filled w kind st g m.
Proof. unfold map_block, block_filled. simpl. by rewrite !alter_insert_eq. Qed.

Lemma start_with_wp F (w : ledger) e text listener method sig args cb :
  jni_ok w e -> str_arg w text -> obj_arg w listener -> args_for cb args -> f_global F = false ->
  wp (jni F) (start_with e text listener method sig (cbfun_kind cb) args cb) (start_post cb w) w.
Proof.
  intros [He Hx] Ht Hl Hargs Hf. unfold start_with.
  case_bool_decide; [by split; [constructor|left]|]. destruct Ht as [?|[Htl Hts]]; [done|].
  case_bool_decide; [by split; [constructor|left]|]. destruct Hl as [?|Hl]; [done|].
  wp_simpl. split; [done|]. intros lc Hlc.
  assert (lc ∈ {[lc]} ∪ l_locals w) as Hin by by apply elem_of_union_l, elem_of_singleton_2.
  split; [by split; [split|left]|]. intros mid _.
  wp_simpl. case_bool_decide as Em; wp_simpl;
    (split; [split; [exact He|exact Hin]|]; intros [] _).
  { change (del_local lc (set_exn true (add_local lc w))) with
      (set_exn true (del_local lc (add_local lc w))). rewrite del_add_local by done.
    by split; [constructor|left]. }
  rewrite del_add_local by done. split; [done|]. intros st Hst.
  case_bool_decide; wp_simpl; [by split; [constructor|left]|].
  destruct Hst as [?|[_ Hst]]; [done|]. split; [done|].
  intros g [[? _]|(Hg0 & _ & Hg & _)]; [congruence|]. rewrite bool_decide_false by done.
  split; [eexists; simpl; apply lookup_insert_eq|]. intros [] _.
  split; [eexists; simpl; rewrite lookup_alter_eq, lookup_insert_eq; done|]. intros [] _.
  rewrite fill_block. by apply (start_tail_wp F w e text (cbfun_kind cb) args cb st g mid).
Qed.

(** *** When [NewGlobalRef] fails *)

(** A reference and a buffer address that are not in use. *)
Lemma fresh_ref_exists (w : ledger) : exists r, fresh_ref w r.
Proof.
  pose proof (is_fresh ({[NULL]} ∪ l_locals w ∪ l_globals w ∪ dom (l_jstrs w))) as Hf.
  rewrite !not_elem_of_union, not_elem_of_singleton, not_elem_of_dom in Hf.
  eexists. split_and!; apply Hf.
Qed.

Lemma fresh_buf_exists (w : ledger) : exists a, fresh_buf w a.
Proof.
  pose proof (is_fresh (dom (l_pins w) ∪ l_nstrs w ∪ l_borrowed w)) as Hf.
  rewrite !not_elem_of_union, not_elem_of_dom in Hf. eexists. split_and!; apply Hf.
Qed.

Lemma fresh_block_exists (w : ledger) : exists p, p <> NULL /\ l_heap w !! p = None.
Proof.
  pose proof (is_fresh ({[NULL]} ∪ dom (l_heap w))) as Hf.
  rewrite not_elem_of_union, not_elem_of_singleton, not_elem_of_dom in Hf. by eexists.
Qed.

(** What [NewGlobalRef] returned is not looked at: when it was NULL, a session can be started on a
    block whose listener is NULL. *)
Lemma start_unchecked F (w : ledger) e text listener method sig args cb :
  str_arg w text -> text <> NULL -> listener <> NULL -> (NULL ∉ l_globals w) -> f_global F = true ->
  exists w' p st m,
    reaches (jni F) (start_with e text listener method sig (cbfun_kind cb) args cb) w Z
      (Dni_start p args cb st) w' /\
    l_heap w' !! st = Some (Block (cbfun_kind cb) (Some NULL) (Some m)) /\
    ~ caller (jni F) w' (Dni_start p args cb st).
Proof.
  intros Ht Htext Hl Hg Hf. destruct Ht as [?|[_ [s Hs]]]; [done|].
  destruct (fresh_ref_exists w) as [lc Hlc]. destruct (fresh_block_exists w) as (st & Hst0 & Hst).
  destruct (fresh_buf_exists w) as [a Ha].
  assert (l_jstrs w !! lc = None) as Hlcs by apply Hlc.
  eexists _, (CBuf a s), st, 1. split_and!.
  - unfold start_with. rewrite !bool_decide_false by done. cbn [orb].
    apply (reach_later _ _ _ _ _ lc); [exact Hlc|]. apply (reach_later _ _ _ _ _ 1); [exact I|].
    apply (reach_later _ _ _ _ _ tt); [exact I|]. apply (reach_later _ _ _ _ _ st); [by right|].
    rewrite bool_decide_false by done.
    apply (reach_later _ _ _ _ _ NULL); [by left|]. apply (reach_later _ _ _ _ _ tt); [exact I|].
    apply (reach_later _ _ _ _ _ tt); [exact I|]. apply (reach_later _ _ _ _ _ (CBuf a s)).
    { cbn [callee upd jni jcallee jupd]. repeat case_bool_decide; try done. right. exists a, s.
      split; [done|]. split; [exact Ha|]. simpl. by rewrite delete_id. }
    apply reach_here.
  - simpl. repeat case_bool_decide; try done. simpl. by rewrite !alter_insert_eq, lookup_insert_eq.
  - simpl. repeat case_bool_decide; try done. simpl. rewrite !alter_insert_eq, lookup_insert_eq.
    intros (_ & _ & b & [= <-] & _ & (r & [= <-] & Hr) & _). by apply Hg.
Qed.

(** C2: starting a session from Java ([nativeSessionStart], [nativeRagSessionStart]).  As long as
    [NewGlobalRef] does not fail, references, string buffers and heap are balanced whatever else fails.
    If the result is a session id, the session owns exactly one [CallbackState] block whose listener is
    one new global reference, and the shim does not touch the block again (it left the caller's ledger
    at the call, so a callback running concurrently may free it); on every other result block and
    reference have been released.  When [NewGlobalRef] can fail this is lost: its result is stored
    without a test, and the session is started on a block whose listener is NULL, which the contract
    forbids. *)
Theorem start_streaming_spec F (w : ledger) e text max_tokens temp listener (is_rag : bool) :
  jni_ok w e -> str_arg w text -> obj_arg w listener ->
  (f_global F = false ->
     wp (jni F) (start_streaming e text max_tokens temp listener is_rag)
       (start_post Ffi_token_callback w) w) /\
  (f_global F = true -> text <> NULL -> listener <> NULL -> (NULL ∉ l_globals w) ->
     let args := if is_rag then Rag_args max_tokens temp else Session_args max_tokens temp in
     exists w' p st m,
       reaches (jni F) (start_streaming e text max_tokens temp listener is_rag) w Z
         (Dni_start p args Ffi_token_callback st) w' /\
       l_heap w' !! st = Some (Block CallbackState (Some NULL) (Some m)) /\
       ~ caller (jni F) w' (Dni_start p args Ffi_token_callback st)).
Proof.
  intros He Ht Hl. split.
  - intros Hf. apply (start_with_wp F w e text listener "onToken" on_token_sig _ Ffi_token_callback); try done.
    by destruct is_rag.
  - intros. by apply (start_unchecked F w e text listener "onToken" on_token_sig _ Ffi_token_callback).
Qed.

(** ** Every row of the table *)

(** Arguments of a call from Java, by the C type of the parameter. *)
Definition arg_ok (w : ledger) (t : jtype) (v : Z) : Prop :=
  match t with
  | Jstring => str_arg w v /\ forall s, l_jstrs w !! v = Some s -> Z.of_nat (String.length s) < 2 ^ 31
  | Jobject => obj_arg w v
  | _ => True
  end.

(** The natives that test what [GetStringUTFChars] returned before using it. *)
Definition utf_checked (n : native) : bool :=
  match n with N_feature_run | N_sqlite_run | N_sqlite_rag | N_search => false | _ => true end.

(** The natives that start a session, and with it take a global reference. *)
Definition opens_session (n : native) : bool :=
  match n with
  | N_session_start | N_rag_session_start | N_agent_session_start | N_ffi_stream_start => true
  | _ => false
  end.

(** The failures a native copes with: [NewGlobalRef] is never tested, [GetStringUTFChars] mostly. *)
Definition covered (F : faults) (n : native) : bool :=
  negb (opens_session n && f_global F) && negb (negb (utf_checked n) && f_utf F).

(** Some permitted answers lead [p] to a call it may not make. *)
Definition goes_wrong (F : faults) (p : prog cmd Z) (w : ledger) : Prop :=
  exists B (c : cmd B) w', reaches (jni F) p w B c w' /\ ~ caller (jni F) w' c.

Lemma start_post_native cb w r w' : start_post cb w r w' -> native_post w r w'.
Proof. intros [Hf [[_ Hn]|Hs]]; (split; [done|]); [by left|right; right; by exists cb]. Qed.

Lemma start_native_wp F (w : ledger) e text listener method sig args cb :
  jni_ok w e -> str_arg w text -> obj_arg w listener -> args_for cb args -> f_global F = false ->
  wp (jni F) (start_with e text listener method sig (cbfun_kind cb) args cb) (native_post w) w.
Proof.
  intros. eapply wp_mono; [intros r w' Hp; by apply (start_post_native cb)|]. by apply start_with_wp.
Qed.

Lemma native_post_refl w r : native_post w r w.
Proof. by split; [constructor|left]. Qed.

Create HintDb natives.
#[local] Hint Resolve j_string0_wp j_run_unchecked_wp j_probe_wp j_ffi_echo_wp j_broker_start_wp
  j_set_assets_dir_wp j_search_wp native_post_refl : natives.

(** Closes one row: a status call, a session start, or one of the string natives. *)
Ltac solve_native :=
  match goal with
  | |- wp (jni ?F) (j_agent_session_start ?e _ _ _) _ _ =>
      apply (start_native_wp F _ e _ _ "onToken" on_token_sig _ Ffi_token_callback); done
  | |- wp (jni ?F) (j_session_start ?e _ _ _ _ _) _ _ =>
      apply (start_native_wp F _ e _ _ "onToken" on_token_sig _ Ffi_token_callback); done
  | |- wp (jni ?F) (j_rag_session_start ?e _ _ _ _ _) _ _ =>
      apply (start_native_wp F _ e _ _ "onToken" on_token_sig _ Ffi_token_callback); done
  | |- wp (jni ?F) (j_ffi_stream_start ?e _ _ _ _) _ _ =>
      apply (start_native_wp F _ e _ _ "onTrace" on_trace_sig _ Ffi_trace_callback); done
  | |- _ => solve [auto with natives | split; [exact I | intros; apply native_post_refl]]
  end.

Lemma native_body_wp F (w : ledger) n e o args :
  jni_ok w e -> Forall2 (arg_ok w) (native_proto n).1 args -> covered F n = true ->
  exists p, native_body n e o args = Some p /\ wp (jni F) p (native_post w) w.
Proof.
  intros He Ha Hcov.
  assert (opens_session n = true -> f_global F = false) as Hg.
  { unfold covered in Hcov. destruct (opens_session n), (f_global F); naive_solver. }
  assert (utf_checked n = false -> f_utf F = false) as Hu.
  { unfold covered in Hcov. destruct (utf_checked n), (f_utf F), (opens_session n), (f_global F); naive_solver. }
  clear Hcov. destruct n; simpl in Ha; try specialize (Hg eq_refl);
    repeat (apply Forall2_cons_inv_l in Ha as (?v & ?vs & ?H & Ha & ->));
    apply Forall2_nil_inv_l in Ha as ->; (eexists; split; [reflexivity|]);
    cbn [arg_ok] in * |-; destruct_and?;
    unfold j_trace_drain, j_log_drain, j_features_json, j_sqlite_features, j_engine_stats,
      j_feature_run, j_sqlite_run, j_sqlite_rag, j_sqlite_probe, j_llama_probe, j_ffi_throw;
    solve_native.
Qed.

(** *** When [GetStringUTFChars] fails *)

(** [nativeFeatureRun], [nativeSqliteRun] and [nativeSqliteRag] pass NULL on and then hand NULL to
    [ReleaseStringUTFChars]. *)
Lemma run_unchecked_goes_wrong F (w : ledger) f e id :
  f_utf F = true -> id <> NULL -> goes_wrong F (j_run_unchecked f e id) w.
Proof.
  intros Hf Hid. exists unit, (ReleaseStringUTFChars e id CNull), (set_exn true w). split.
  - unfold j_run_unchecked. rewrite bool_decide_false by done.
    apply (reach_later _ _ _ _ _ CNull); [by left|].
    apply (reach_later _ _ _ _ _ CNull); [by left|]. apply reach_here.
  - intros [_ (a & s & ? & _)]. done.
Qed.

(** [nativeSearch] calls [GetStringUTFChars] again with the exception pending. *)
Lemma search_goes_wrong F (w : ledger) e o q c :
  f_utf F = true -> q <> NULL -> c <> NULL -> goes_wrong F (j_search e o q c) w.
Proof.
  intros Hf Hq Hc. exists cstr, (GetStringUTFChars e c), (set_exn true w). split.
  - unfold j_search. rewrite !bool_decide_false by done. cbn [orb].
    apply (reach_later _ _ _ _ _ CNull); [by left|]. apply reach_here.
  - intros [[_ ?] _]. done.
Qed.

Lemma start_goes_wrong F (w : ledger) e text listener method sig args cb :
  str_arg w text -> text <> NULL -> listener <> NULL -> (NULL ∉ l_globals w) -> f_global F = true ->
  goes_wrong F (start_with e text listener method sig (cbfun_kind cb) args cb) w.
Proof.
  intros Ht H1 H2 Hg Hf.
  destruct (start_unchecked F w e text listener method sig args cb) as (w' & p & st & m & Hr & _ & Hc); try done.
  by exists Z, (Dni_start p args cb st), w'.
Qed.

(** The references among the arguments of a call from Java are not null. *)
Definition given (t : jtype) (v : Z) : Prop :=
  match t with Jstring | Jobject => v <> NULL | _ => True end.

Lemma native_body_wrong F (w : ledger) n e o args p :
  Forall2 (arg_ok w) (native_proto n).1 args -> Forall2 given (native_proto n).1 args ->
  (NULL ∉ l_globals w) -> covered F n = false -> native_body n e o args = Some p -> goes_wrong F p w.
Proof.
  intros Ha Hgiven Hg Hcov Hp. destruct n; simpl in Ha, Hgiven, Hcov; unfold covered in Hcov;
    cbn [opens_session utf_checked andb negb] in Hcov; try discriminate Hcov;
    repeat (apply Forall2_cons_inv_l in Ha as (?v & ?vs & ?H & Ha & ->));
    apply Forall2_nil_inv_l in Ha as ->;
    repeat (apply Forall2_cons_1 in Hgiven as [?H Hgiven]); cbn [arg_ok given] in * |-; destruct_and?;
    injection Hp as <-;
    first [ apply run_unchecked_goes_wrong; [by destruct (f_utf F)|done]
          | apply search_goes_wrong; [by destruct (f_utf F)|done|done]
          | apply (start_goes_wrong F w e _ _ "onToken" on_token_sig _ Ffi_token_callback); try done;
            by destruct (f_global F)
          | apply (start_goes_wrong F w e _ _ "onTrace" on_trace_sig _ Ffi_trace_callback); try done;
            by destruct (f_global F) ].
Qed.

(** C3: every native method of the registration table, called from Java with arguments of the types
    its descriptor names, has a body of that arity.  Unless [NewGlobalRef] can fail (the four natives
    that start a session) or [GetStringUTFChars] can fail (the four that do not test it), the body makes
    only permitted calls, whatever else fails, and returns in one of three ways: nothing kept, one
    fresh local string reference (the result), or one session owning one block and one global
    reference; pinned string buffers, managed strings and the heap are exactly as before.  The
    exceptions are exact: with such a failure possible and its references not null, the native can
    reach a call the JNI contract or the session's forbids. *)
Theorem natives_are_balanced F (w : ledger) (n : native) e o args :
  jni_ok w e -> Forall2 (arg_ok w) (native_proto n).1 args ->
  exists p, native_body n e o args = Some p /\
    (covered F n = true -> wp (jni F) p (native_post w) w) /\
    (covered F n = false -> Forall2 given (native_proto n).1 args -> (NULL ∉ l_globals w) ->
       goes_wrong F p w).
Proof.
  intros He Ha. destruct (native_body_wp no_faults w n e o args) as (p & Hp & _); [done|done|by destruct n|].
  exists p. split; [done|]. split; [|intros; by eapply native_body_wrong].
  intros Hcov. destruct (native_body_wp F w n e o args) as (p' & Hp' & Hwp); [done..|]. by simplify_eq.
Qed.

(** ** Concrete instances *)

(** An attached thread (environment 7) holding a local string 11 and a global listener 10, with a token
    block at 100, a trace block at 200 and a lent text buffer at 300. *)
Definition demo : ledger :=
  Ledger 1 true true 1 (Some 7) false {[11]} {[10]} {[11 := "hi"]} ∅ ∅ {[300]}
    {[100 := Block CallbackState (Some 10) (Some 5); 200 := Block TraceCallbackState (Some 10) (Some 6)]}
    [] [].

Lemma demo_entry : cb_entry demo (CBuf 300 "tok").
Proof. split_and!; [done..|]. right. right. right. simpl; by apply elem_of_singleton_2. Qed.

Lemma demo_owned ud m k :
  l_heap demo !! ud = Some (Block k (Some 10) (Some m)) -> m <> NULL -> cb_owned demo ud 10 m k.
Proof. intros. split_and!; [done|simpl; by apply elem_of_singleton_2|done]. Qed.

Lemma demo_jni_ok : jni_ok demo 7.
Proof. done. Qed.

Lemma demo_str : str_arg demo 11.
Proof. right. split; [left; simpl; by apply elem_of_singleton_2|]. by exists "hi". Qed.

Lemma demo_obj : obj_arg demo 10.
Proof. right. right. simpl; by apply elem_of_singleton_2. Qed.

Lemma ffi_token_callback_witness :
  wp (jni all_faults) (ffi_token_callback 100 3 (CBuf 300 "tok") 1)
    (fun _ => cb_post all_faults demo 100 10 5 (fun jt => [JInt 3; JRef jt; JBool true]) (CBuf 300 "tok") 1)
    demo.
Proof.
  apply (ffi_token_callback_spec all_faults demo 100 3 (CBuf 300 "tok") 1 10 5);
    [apply demo_entry | by apply demo_owned].
Defined.

Lemma ffi_trace_callback_witness :
  wp (jni all_faults) (ffi_trace_callback 200 3 (CBuf 300 "tok") 0 9 1234)
    (fun _ w' => cb_post all_faults demo 200 10 6
       (fun jt => [JInt 3; JRef jt; JLong 9; JLong 1234; JBool false]) (CBuf 300 "tok") 0 w' /\
     forall jt, kt_of_jvalue <$> [JInt 3; JRef jt; JLong 9; JLong 1234; JBool false] = k_params onTrace)
    demo.
Proof.
  apply (ffi_trace_callback_spec all_faults demo 200 3 (CBuf 300 "tok") 0 9 1234 10 6);
    [apply demo_entry | by apply demo_owned].
Defined.

Lemma start_streaming_witness :
  wp (jni (Faults true true false)) (start_streaming 7 11 32 0 10 false)
    (start_post Ffi_token_callback demo) demo /\
  goes_wrong all_faults (start_streaming 7 11 32 0 10 false) demo.
Proof.
  split.
  - apply start_streaming_spec; [apply demo_jni_ok | apply demo_str | apply demo_obj | reflexivity].
  - destruct (start_streaming_spec all_faults demo 7 11 32 0 10 false) as [_ H];
      [apply demo_jni_ok | apply demo_str | apply demo_obj |].
    destruct H as (w' & p & st & m & Hr & _ & Hc); [done|done|done|vm_decide|].
    by exists Z, (Dni_start p (Session_args 32 0) Ffi_token_callback st), w'.
Defined.

Lemma demo_args : Forall2 (arg_ok demo) [Jstring; Jint; Jobject] [11; 8; 10].
Proof.
  constructor; [split; [apply demo_str|intros s [= <-]; done]|]. constructor; [done|].
  constructor; [apply demo_obj|constructor].
Qed.

Lemma natives_are_balanced_witness :
  (exists p, native_body N_ffi_stream_start 7 0 [11; 8; 10] = Some p /\
             wp (jni (Faults true true false)) p (native_post demo) demo) /\
  (exists p, native_body N_ffi_stream_start 7 0 [11; 8; 10] = Some p /\ goes_wrong all_faults p demo).
Proof.
  split.
  - destruct (natives_are_balanced (Faults true true false) demo N_ffi_stream_start 7 0 [11; 8; 10])
      as (p & Hp & Hwp & _); [apply demo_jni_ok|apply demo_args|]. by exists p; auto.
  - destruct (natives_are_balanced all_faults demo N_ffi_stream_start 7 0 [11; 8; 10])
      as (p & Hp & _ & Hw); [apply demo_jni_ok|apply demo_args|].
    exists p. split; [exact Hp|]. apply Hw; [reflexivity| |vm_decide].
    repeat constructor; discriminate.
Defined.
