(* ===== verification/Session.v ===== *)
(** * Session: the streaming pipeline of the engine

    [InferenceOrchestrator.RunAsync] (indexed tokens closed by a final marker),
    [InferenceSession] (a pump task writing into a bounded channel, cancellation, disposal) and
    [ExportsFfi.DrainAsync] (the background task that invokes the native callback once per token), as
    a step relation: every interleaving of the pump, the drain task and the threads that cancel and
    free a session is a sequence of steps.

    A language model ([ILanguageModel.GenerateAsync]) is what the interface says of it: a stream of
    text fragments that completes or throws, and that may stop early, at any point, once cancellation
    was requested. *)

From S2P Require Import Prelude.
Local Open Scope Z_scope.
#[local] Set Warnings "-clear-no-such-hyp".

(** ** Tokens (InferenceToken.cs, InferenceOrchestrator.cs) *)

Record token := Token { Index : Z; Text : string; IsFinal : bool }.

#[export] Instance token_eq_dec : EqDecision token.
Proof. solve_decision. Defined.

Definition Final (index : Z) : token := Token index "" true.

(** [index++] on a C# [int]. *)
Definition next_index (i : Z) : Z := wrap_s 32 (i + 1).

(** The stream [RunAsync] yields for the fragments of a model that completes. *)
Fixpoint run_from (index : Z) (fragments : list string) : list token :=
  match fragments with
  | [] => [Final index]
  | f :: rest => Token index f false :: run_from (next_index index) rest
  end.
Definition RunAsync (fragments : list string) : list token := run_from 0 fragments.

(** What it has yielded when the model throws (or stops) after [fragments]. *)
Fixpoint yielded_from (index : Z) (fragments : list string) : list token :=
  match fragments with
  | [] => []
  | f :: rest => Token index f false :: yielded_from (next_index index) rest
  end.

(** ** The session as a state machine (InferenceSession.cs, Exports.Ffi.cs) *)

(** How the model's stream ends when nobody cancels it. *)
Inductive model_end := Completes | Throws.

(** The pump task: about to ask the orchestrator for the next token; suspended in
    [writer.WriteAsync]; past the loop; returned. *)
Inductive pump_state := Pulling | Writing (t : token) | LoopDone | PumpDone.

(** The channel writer: open, completed, or completed with an exception. *)
Inductive closing := Open | Completed | Faulted.

(** The drain task: in the [await foreach]; returned normally; returned through the catch block, which
    logs the abort. *)
Inductive drain_state := Reading | DrainDone | DrainAborted.

Definition capacity : nat := 64.

Record session := Session {
  s_rest : list string;     (* fragments the model has not yielded yet *)
  s_end : model_end;
  s_index : Z;              (* the orchestrator's local index *)
  s_pump : pump_state;
  s_chan : list token;      (* the bounded channel, oldest first *)
  s_closed : closing;
  s_cancel : bool;          (* cancellation requested on the linked source *)
  s_disposed : bool;        (* DisposeAsync has completed *)
  s_drain : drain_state;
  s_out : list token        (* callbacks invoked so far, oldest first *) }.

(** [InferenceSession.Start] followed by the [Task.Run] of the drain. *)
Definition Start (fragments : list string) (e : model_end) : session :=
  Session fragments e 0 Pulling [] Open false false Reading [].

Inductive actor := Pump | Drain | Client.

Inductive step : actor -> session -> session -> Prop :=
(* PumpAsync: the orchestrator yields the next fragment's token *)
| step_pull f r e i c cl ca d dr o :
    step Pump (Session (f :: r) e i Pulling c cl ca d dr o)
              (Session r e (next_index i) (Writing (Token i f false)) c cl ca d dr o)
(* ... or, after a completed model stream, the final marker *)
| step_pull_final i c cl ca d dr o :
    step Pump (Session [] Completes i Pulling c cl ca d dr o)
              (Session [] Completes i (Writing (Final i)) c cl ca d dr o)
(* ... or the model throws: catch (Exception) -> TryComplete(ex) *)
| step_pull_throws i c ca d dr o :
    step Pump (Session [] Throws i Pulling c Open ca d dr o)
              (Session [] Throws i PumpDone c Faulted ca d dr o)
(* WriteAsync: there is room and cancellation was not requested *)
| step_write r e i t c ca d dr o :
    (length c < capacity)%nat -> ca = false ->
    step Pump (Session r e i (Writing t) c Open ca d dr o)
              (Session r e i (if IsFinal t then LoopDone else Pulling) (c ++ [t]) Open ca d dr o)
(* the loop ended: TryComplete() *)
| step_complete r e i c ca d dr o :
    step Pump (Session r e i LoopDone c Open ca d dr o)
              (Session r e i PumpDone c Completed ca d dr o)
(* OperationCanceledException from the model or from WriteAsync: TryComplete() *)
| step_canceled r e i p c d dr o :
    (p = Pulling \/ exists t, p = Writing t) ->
    step Pump (Session r e i p c Open true d dr o)
              (Session r e i PumpDone c Completed true d dr o)
(* DrainAsync: read a token, invoke the callback *)
| step_deliver r e i p t c cl ca d o :
    step Drain (Session r e i p (t :: c) cl ca d Reading o)
               (Session r e i p c cl ca d Reading (o ++ [t]))
(* ... the channel is completed and empty: the loop ends *)
| step_drained r e i p ca d o :
    step Drain (Session r e i p [] Completed ca d Reading o)
               (Session r e i p [] Completed ca d DrainDone o)
(* ... or it was completed with an exception, which the catch block logs *)
| step_aborted r e i p ca d o :
    step Drain (Session r e i p [] Faulted ca d Reading o)
               (Session r e i p [] Faulted ca d DrainAborted o)
(* Cancel(): a no-op once the source is disposed *)
| step_cancel r e i p c cl ca d dr o :
    step Client (Session r e i p c cl ca d dr o) (Session r e i p c cl (ca || negb d) d dr o)
(* DisposeAsync: CancelAsync, await the pump, dispose the source *)
| step_dispose r e i c cl dr o :
    step Client (Session r e i PumpDone c cl true false dr o)
                (Session r e i PumpDone c cl true true dr o).

#[export] Hint Constructors step : dni.

(** Sequences of steps by anybody, and by the two background tasks only. *)
Definition any_step (s s' : session) : Prop := exists a, step a s s'.
Definition task_step (s s' : session) : Prop := step Pump s s' \/ step Drain s s'.
Definition reachable (fragments : list string) (e : model_end) (s : session) : Prop :=
  rtc any_step (Start fragments e) s.

(** ** Lemmas on the token stream *)

Definition index_after (n : nat) (i : Z) : Z := Nat.iter n next_index i.

Lemma index_after_S n i : index_after n (next_index i) = next_index (index_after n i).
Proof. unfold index_after. induction n; simpl; congruence. Qed.

Lemma yielded_snoc l f i :
  yielded_from i (l ++ [f]) = yielded_from i l ++ [Token (index_after (length l) i) f false].
Proof.
  revert i. induction l as [|x l IH]; intros i; simpl; [done|]. f_equal. rewrite IH.
  do 3 f_equal. apply index_after_S.
Qed.

Lemma run_from_yielded l r i :
  run_from i (l ++ r) = yielded_from i l ++ run_from (index_after (length l) i) r.
Proof.
  revert i. induction l as [|x l IH]; intros i; simpl; [done|]. by rewrite IH, index_after_S.
Qed.

Lemma yielded_app l r i :
  yielded_from i (l ++ r) = yielded_from i l ++ yielded_from (index_after (length l) i) r.
Proof.
  revert i. induction l as [|x l IH]; intros i; simpl; [done|]. by rewrite IH, index_after_S.
Qed.

Lemma yielded_not_final l i : Forall (fun t => IsFinal t = false) (yielded_from i l).
Proof. revert i. induction l; intros i; constructor; auto. Qed.

Lemma length_yielded l i : length (yielded_from i l) = length l.
Proof. revert i. induction l; intros i; simpl; auto. Qed.

Lemma run_split l i : run_from i l = yielded_from i l ++ [Final (index_after (length l) i)].
Proof. rewrite <- (app_nil_r l) at 1. by rewrite run_from_yielded. Qed.

(** The tokens a session can deliver at most: all of them, closed by the marker if the model
    completes. *)
Definition stream (fragments : list string) (e : model_end) : list token :=
  match e with Completes => RunAsync fragments | Throws => yielded_from 0 fragments end.

(** ** The invariant *)

Section Invariant.
  Context (frags : list string) (e : model_end).

(** What has been sent into the channel, delivered or not. *)
Definition sent (s : session) : list token := s_out s ++ s_chan s.

(** The pump's view: [pre] is what the model has yielded. *)
Definition pump_inv (s : session) (pre : list string) : Prop :=
  let Y := yielded_from 0 pre in
  match s_pump s with
  | Pulling => sent s = Y /\ s_closed s = Open
  | Writing t => s_closed s = Open /\
      (if IsFinal t then sent s = Y /\ t = Final (s_index s) /\ s_rest s = [] /\ e = Completes
       else sent s ++ [t] = Y)
  | LoopDone => s_closed s = Open /\ sent s = stream frags e /\ e = Completes /\ s_rest s = []
  | PumpDone =>
      (s_closed s = Completed /\ e = Completes /\ s_rest s = [] /\ sent s = stream frags e) \/
      (s_closed s = Completed /\ s_cancel s = true /\ sent s `prefix_of` Y) \/
      (s_closed s = Faulted /\ e = Throws /\ s_rest s = [] /\ sent s = stream frags e)
  end.

Definition drain_inv (s : session) : Prop :=
  match s_drain s with
  | Reading => True
  | DrainDone => s_chan s = [] /\ s_closed s = Completed
  | DrainAborted => s_chan s = [] /\ s_closed s = Faulted
  end.

Record inv (s : session) : Prop := {
  inv_end : s_end s = e;
  inv_pre : exists pre, frags = pre ++ s_rest s /\ s_index s = index_after (length pre) 0 /\ pump_inv s pre;
  inv_cap : (length (s_chan s) <= capacity)%nat;
  inv_drain : drain_inv s;
  inv_disposed : s_disposed s = true -> s_pump s = PumpDone /\ s_cancel s = true }.

Lemma inv_start : inv (Start frags e).
Proof. split; simpl; [done|by exists []|lia|done|done]. Qed.

Lemma inv_step a s s' : step a s s' -> inv s -> inv s'.
Proof.
  intros Hs [He (pre & Hf & Hi & Hp) Hc Hd Hdis].
  unfold pump_inv, drain_inv, sent in *.
  destruct Hs; simpl in *;
    (split; unfold pump_inv, drain_inv, sent; simpl; [done| |rewrite ?length_app; simpl; lia|
       by repeat case_match; naive_solver|by naive_solver]).
  - destruct Hp as [Hp ->]. exists (pre ++ [f]). rewrite <- app_assoc, length_app, Nat.add_comm.
    split_and!; [done|by rewrite Hi|done|]. by rewrite Hp, yielded_snoc, Hi.
  - exists pre. naive_solver.
  - exists pre. split_and!; [done..|]. right; right. subst e. rewrite Hf, app_nil_r. naive_solver.
  - exists pre. split_and!; [done..|]. destruct Hp as [_ Hp]. rewrite app_assoc.
    destruct (IsFinal t); [|done]. destruct Hp as (-> & -> & -> & ->).
    split_and!; [done| |done..]. unfold stream, RunAsync. by rewrite Hf, app_nil_r, run_split, Hi.
  - exists pre. split_and!; [done..|]. left. naive_solver.
  - exists pre. split_and!; [done..|]. right; left. split_and!; [done..|].
    destruct H as [->|[t ->]]; [by destruct Hp as [-> _]|]. destruct Hp as [_ Hp].
    destruct (IsFinal t); [by destruct Hp as [-> _]|]. rewrite <- Hp. by apply prefix_app_r.
  - exists pre. split_and!; [done..|]. by rewrite <- app_assoc.
  - by exists pre.
  - by exists pre.
  - exists pre. split_and!; [done..|]. destruct p; try done. destruct Hp as [?|[(? & -> & ?)|?]]; auto.
  - by exists pre.
Qed.

Lemma reachable_inv s : reachable frags e s -> inv s.
Proof.
  unfold reachable. intros Hr. assert (inv (Start frags e)) as Hi by apply inv_start.
  induction Hr as [|s1 s2 s3 [a Ha] _ IH]; [done|]. eauto using inv_step.
Qed.

Lemma sent_prefix s : inv s -> sent s `prefix_of` stream frags e.
Proof.
  intros [He (pre & Hf & Hi & Hp) _ _ _].
  assert (yielded_from 0 pre `prefix_of` stream frags e) as HY.
  { unfold stream, RunAsync. rewrite Hf. destruct e.
    - rewrite run_from_yielded. by apply prefix_app_r.
    - rewrite yielded_app. by apply prefix_app_r. }
  unfold pump_inv in Hp. destruct (s_pump s) as [|t| |].
  - by destruct Hp as [-> _].
  - destruct Hp as [_ Hp]. destruct (IsFinal t); [by destruct Hp as [-> _]|].
    etrans; [|exact HY]. rewrite <- Hp. by apply prefix_app_r.
  - by destruct Hp as (_ & -> & _).
  - destruct Hp as [(_ & _ & _ & ->)|[(_ & _ & Hp)|(_ & _ & _ & ->)]]; [done| |done]. by etrans.
Qed.
End Invariant.

Lemma out_prefix frags e s : reachable frags e s -> s_out s `prefix_of` stream frags e.
Proof.
  intros Hr. etrans; [|apply (sent_prefix frags e), reachable_inv, Hr]. by apply prefix_app_r.
Qed.

(** C5: whatever the interleaving of pump, drain, cancellation and disposal, the callbacks invoked so
    far are an initial segment of the model's tokens in order (no token is lost, repeated or
    reordered), and the channel never holds more than its 64 slots. *)
Theorem callbacks_in_order frags e s :
  reachable frags e s ->
  s_out s `prefix_of` stream frags e /\ (length (s_chan s) <= capacity)%nat.
Proof. intros Hr. split; [by apply out_prefix | by apply (inv_cap frags e), reachable_inv]. Qed.

(** ** Indices and the final marker *)

Lemma next_index_wrap n : next_index (wrap_s 32 n) = wrap_s 32 (n + 1).
Proof.
  unfold next_index, wrap_s. f_equal.
  replace ((n + 2 ^ (32 - 1)) mod 2 ^ 32 - 2 ^ (32 - 1) + 1 + 2 ^ (32 - 1))
    with ((n + 2 ^ (32 - 1)) mod 2 ^ 32 + 1) by lia.
  rewrite Zplus_mod_idemp_l. f_equal. lia.
Qed.

Lemma index_after_wrap n : index_after n 0 = wrap_s 32 (Z.of_nat n).
Proof.
  induction n as [|n IH]; [done|]. change (index_after (S n) 0) with (next_index (index_after n 0)).
  rewrite IH, next_index_wrap. f_equal. lia.
Qed.

Lemma yielded_lookup l i j t :
  yielded_from i l !! j = Some t -> Index t = index_after j i /\ IsFinal t = false /\ (j < length l)%nat.
Proof.
  revert i j. induction l as [|x l IH]; intros i j; [by destruct j|].
  destruct j; simpl; [by intros [= <-]; split_and!; simpl; [..|lia]|].
  intros (-> & ? & ?)%IH. split_and!; [apply index_after_S|done|lia].
Qed.

Lemma stream_lookup frags e i t :
  stream frags e !! i = Some t ->
  Index t = wrap_s 32 (Z.of_nat i) /\ (IsFinal t = true <-> e = Completes /\ i = length frags) /\
  (IsFinal t = true -> Text t = "" /\ length (stream frags e) = S i).
Proof.
  unfold stream, RunAsync. destruct e.
  - rewrite run_split, lookup_app_Some. intros [(Hi & Hn & Hl)%yielded_lookup|[Hl Hi]].
    + rewrite Hi, index_after_wrap, Hn. naive_solver lia.
    + rewrite length_yielded in *. apply list_lookup_singleton_Some in Hi as [Hi <-]. simpl.
      assert (i = length frags) as -> by lia.
      rewrite length_app, length_yielded, index_after_wrap. simpl. naive_solver lia.
  - intros (Hi & Hn & Hl)%yielded_lookup. rewrite Hi, index_after_wrap, Hn. naive_solver lia.
Qed.

Lemma reachable_trans frags e s s' :
  reachable frags e s -> rtc any_step s s' -> reachable frags e s'.
Proof. unfold reachable. by etrans. Qed.

(** The output only grows. *)
Lemma out_grows s s' : rtc any_step s s' -> s_out s `prefix_of` s_out s'.
Proof.
  induction 1 as [|s1 s2 s3 [a Ha] _ IH]; [done|]. etrans; [|exact IH].
  destruct Ha; simpl; try done. by apply prefix_app_r.
Qed.

(** the token at position [i] of the callbacks carries index [i] (as a C# int), and it is the final
    marker exactly when the model completed and all its fragments precede it; the marker's text is
    empty and once it was delivered no callback is ever invoked again. *)
Theorem final_marker_closes_stream frags e s i t :
  reachable frags e s -> s_out s !! i = Some t ->
  Index t = wrap_s 32 (Z.of_nat i) /\
  (IsFinal t = true <-> e = Completes /\ i = length frags) /\
  (IsFinal t = true ->
   Text t = "" /\ s_out s = stream frags e /\ forall s', rtc any_step s s' -> s_out s' = s_out s).
Proof.
  intros Hr Hi. pose proof (out_prefix _ _ _ Hr) as Hp.
  destruct (stream_lookup frags e i t) as (H1 & H2 & H3); [by eapply prefix_lookup_Some|].
  split_and!; [done..|]. intros Hf. destruct (H3 Hf) as [Htxt Hlen].
  assert (forall s', reachable frags e s' -> (i < length (s_out s'))%nat -> s_out s' = stream frags e) as Hfull.
  { intros s' Hr' Hl. apply prefix_length_eq; [by apply out_prefix|lia]. }
  split_and!; [done|apply Hfull; [done|by eapply lookup_lt_Some]|].
  intros s' Hs'. rewrite !Hfull; [done|done|by eapply lookup_lt_Some|by eapply reachable_trans|].
  eapply lookup_lt_Some. by eapply prefix_lookup_Some, out_grows.
Qed.

(** ** Progress and termination of the two tasks *)

Definition pump_work (s : session) : nat :=
  match s_pump s with
  | Pulling => 3 * length (s_rest s) + 5
  | Writing t => if IsFinal t then 4 else 3 * length (s_rest s) + 7
  | LoopDone => 1
  | PumpDone => 0
  end.
Definition drain_work (s : session) : nat := match s_drain s with Reading => 1 | _ => 0 end.
Definition work (s : session) : nat := pump_work s + length (s_chan s) + drain_work s.

Lemma task_step_decreases s s' : task_step s s' -> (work s' < work s)%nat.
Proof.
  intros [Hs|Hs]; inversion Hs; subst; unfold work, pump_work, drain_work; simpl;
    rewrite ?length_app; simpl; repeat case_match; simpl; try lia; naive_solver.
Qed.

Lemma progress frags e s : inv frags e s -> s_drain s = Reading -> exists s', task_step s s'.
Proof.
  intros [He (pre & Hf & Hi & Hp) Hc Hd Hdis] Hr.
  destruct s as [r e' i p c cl ca d dr o]; simpl in *; subst.
  destruct c as [|t c]; [|eexists; right; constructor].
  unfold pump_inv in Hp; simpl in Hp. destruct p as [|t| |].
  - destruct Hp as [_ ->]. destruct r; [destruct e|]; eexists; left; constructor.
  - destruct Hp as [-> _]. destruct ca; eexists; left; [apply step_canceled|apply step_write]; simpl;
      eauto. unfold capacity; lia.
  - destruct Hp as [-> _]. eexists; left; constructor.
  - destruct Hp as [(-> & _)|[(-> & _)|(-> & _)]]; eexists; right; constructor.
Qed.

Lemma task_any s s' : task_step s s' -> any_step s s'.
Proof. intros [H|H]; eexists; exact H. Qed.

Lemma run_to_end frags e s :
  inv frags e s -> exists s', rtc task_step s s' /\ s_drain s' <> Reading.
Proof.
  remember (work s) as n eqn:Hn. revert s Hn.
  induction (lt_wf n) as [n _ IH]; intros s -> Hi.
  destruct (s_drain s) eqn:Hd; [|by exists s; rewrite Hd..].
  destruct (progress frags e s Hi Hd) as [s1 H1].
  destruct (IH (work s1) (task_step_decreases _ _ H1) s1 eq_refl) as (s2 & H2 & Hd2).
  { destruct (task_any _ _ H1) as [a Ha]. by eapply inv_step. }
  exists s2. split; [by eapply rtc_l|done].
Qed.

Lemma task_keeps_cancel s s' : rtc task_step s s' -> s_cancel s' = s_cancel s.
Proof.
  induction 1 as [|s1 s2 s3 [H|H] _ IH]; [done|..]; rewrite IH; by inversion H.
Qed.

(** C6: no interleaving deadlocks or runs forever: from every reachable state the pump and the drain
    task take at most [work s] steps, and can always go on until the drain task has ended; if nobody
    cancelled, the callbacks are then the model's whole stream, and the drain task ended normally when
    the model completed and through its logging catch block when the model threw. *)
Theorem streams_to_completion frags e s :
  reachable frags e s ->
  (forall n s', nsteps task_step n s s' -> (n <= work s)%nat) /\
  exists s', rtc task_step s s' /\ s_drain s' <> Reading /\
    (s_cancel s = false -> s_out s' = stream frags e /\
       s_drain s' = match e with Completes => DrainDone | Throws => DrainAborted end).
Proof.
  intros Hr. split.
  { intros n s' Hn. clear Hr. induction Hn as [|n s1 s2 s3 H1 _ IH]; [lia|].
    apply task_step_decreases in H1. lia. }
  destruct (run_to_end frags e s (reachable_inv _ _ _ Hr)) as (s' & Hs & Hd).
  exists s'. split_and!; [done..|]. intros Hca.
  assert (reachable frags e s') as Hr'.
  { eapply reachable_trans; [done|]. eapply rtc_subrel; [|done]. apply task_any. }
  apply reachable_inv in Hr' as [He (pre & Hf & Hi & Hp) _ Hdr _].
  apply task_keeps_cancel in Hs. rewrite Hca in Hs.
  unfold drain_inv in Hdr. unfold pump_inv, sent in Hp.
  destruct (s_drain s'); [done|..]; destruct Hdr as [Hch Hcl]; rewrite Hch, Hcl, Hs, app_nil_r in Hp.
  all: destruct (s_pump s'); [by destruct Hp..|].
  all: by destruct Hp as [(? & -> & ? & ?)|[(? & ? & ?)|(? & -> & ? & ?)]].
Qed.

(** ** Cancellation and disposal *)



(** disposal ([dni_session_free]) waits for the pump only, not for the drain task: for every model
    that yields at least one fragment there is an interleaving in which the free has completed and a
    callback is invoked afterwards.  A client that releases [user_data] once the free returned, as the
    iOS services do, can be called back with a dangling pointer. *)
Theorem callback_after_free f r e :
  exists s s', reachable (f :: r) e s /\ s_disposed s = true /\ step Drain s s' /\
               s_out s' = s_out s ++ [Token 0 f false].
Proof.
  eexists (Session r e (next_index 0) PumpDone [Token 0 f false] Completed true true Reading []), _.
  split_and!; [|done|apply step_deliver|done].
  unfold reachable, Start.
  eapply rtc_l; [exists Pump; apply step_pull|].
  eapply rtc_l; [exists Pump; apply step_write; [unfold capacity; simpl; lia|done]|].
  eapply rtc_l; [exists Client; apply step_cancel|].
  eapply rtc_l; [exists Pump; apply step_canceled; by left|].
  eapply rtc_l; [exists Client; apply step_dispose|]. apply rtc_refl.
Qed.

(** ** Concrete instances *)

Ltac one_step a := eapply rtc_l; [exists a; first [ apply step_pull | apply step_pull_final
  | apply step_write; [unfold capacity; simpl; lia | reflexivity] | apply step_complete
  | apply step_deliver ]|]; simpl.

(** A run of a model with one fragment, after its two callbacks. *)
Definition demo_done : session :=
  Session [] Completes 1 PumpDone [] Completed false false Reading [Token 0 "a" false; Final 1].
Lemma demo_done_reachable : reachable ["a"] Completes demo_done.
Proof.
  unfold reachable, Start. one_step Pump. one_step Pump. one_step Pump. one_step Pump. one_step Pump.
  one_step Drain. one_step Drain. apply rtc_refl.
Qed.


Lemma callbacks_in_order_witness :
  s_out demo_done `prefix_of` stream ["a"] Completes /\ (length (s_chan demo_done) <= capacity)%nat.
Proof. apply callbacks_in_order. apply demo_done_reachable. Defined.

Lemma final_marker_witness :
  Index (Final 1) = wrap_s 32 1 /\
  (IsFinal (Final 1) = true <-> Completes = Completes /\ 1%nat = length ["a"]) /\
  (IsFinal (Final 1) = true ->
   Text (Final 1) = "" /\ s_out demo_done = stream ["a"] Completes /\
   forall s', rtc any_step demo_done s' -> s_out s' = s_out demo_done).
Proof.
  apply (final_marker_closes_stream ["a"] Completes demo_done 1 (Final 1));
    [apply demo_done_reachable | reflexivity].
Defined.

Lemma streams_to_completion_witness :
  (forall n s', nsteps task_step n (Start ["a"; "b"] Completes) s' ->
     (n <= work (Start ["a"; "b"] Completes))%nat) /\
  exists s', rtc task_step (Start ["a"; "b"] Completes) s' /\ s_drain s' <> Reading /\
    (s_cancel (Start ["a"; "b"] Completes) = false -> s_out s' = stream ["a"; "b"] Completes /\
       s_drain s' = DrainDone).
Proof. apply (streams_to_completion ["a"; "b"] Completes). apply rtc_refl. Defined.

