(* ===== verification/Registry.v ===== *)
(** * Registry: session handles, engine lifetime and the FFI session exports

    [SessionRegistry], [FfiState], [EngineHost] and [Lifecycle] of the native bridge, the agent that
    [ForemanHost] builds once and keeps, and the exports of Exports.Ffi.cs and Exports.Boundary.cs that
    start, cancel and free sessions, as functions on the process-wide state; with the model a gate probe
    loads for itself, these are all the holders of a llama handle.  Exceptions of engine code inside an
    export's [try] are an input ([throws]); spans, counters and log lines have their own components
    ([Ring]). *)

From S2P Require Import Prelude Abi Session.
Local Open Scope Z_scope.
#[local] Set Warnings "-clear-no-such-hyp".

(** ** State *)

(** The RAG backend [BuildRagModel] chose. *)
Inductive rag_model := RagLlama (handle : Z) | Extractive.

(** The brain [ForemanHost.BuildBrain] chose. *)
Inductive brain := GrammarLlama (handle : Z) | Router.

(** The holders of llama handles beside [EngineHost]. *)
Record holders := Holders {
  agent : option brain;           (* ForemanHost._agent *)
  agent_models : list Z;          (* handles BuildBrain has loaded, oldest first *)
  probing : list Z                (* models of the gate probes under way *) }.

Record host := Host {
  Sessions : gmap Z session;      (* SessionRegistry.Sessions *)
  next_id : Z;                    (* SessionRegistry._next, a C# long *)
  AllocatedIds : gset Z;          (* FfiState.AllocatedIds *)
  orchestrator : bool;            (* EngineHost._orchestrator is not null *)
  ragOrchestrator : option rag_model;
  ragModelDisposable : option Z;  (* the retained llama handle *)
  llama_loaded : list Z;          (* handles dni_llama_load returned, oldest first *)
  llama_freed : list Z;           (* handles passed to dni_llama_free, oldest first *)
  detached : list session;        (* removed from the registry; their drain task may still run *)
  others : holders }.

Definition set_sessions ss n ids (h : host) : host :=
  Host ss n ids (orchestrator h) (ragOrchestrator h) (ragModelDisposable h) (llama_loaded h)
    (llama_freed h) (detached h) (others h).
Definition set_engine o r d l f (h : host) : host :=
  Host (Sessions h) (next_id h) (AllocatedIds h) o r d l f (detached h) (others h).
Definition set_others l f os (h : host) : host :=
  Host (Sessions h) (next_id h) (AllocatedIds h) (orchestrator h) (ragOrchestrator h) (ragModelDisposable h) l f
    (detached h) os.

Definition set_detached ds (h : host) : host :=
  Host (Sessions h) (next_id h) (AllocatedIds h) (orchestrator h) (ragOrchestrator h)
    (ragModelDisposable h) (llama_loaded h) (llama_freed h) ds (others h).

(** ** SessionRegistry *)

Definition Registry_Add (s : session) (h : host) : Z * host :=
  let id := wrap_s 64 (next_id h + 1) in
  (id, set_sessions (<[id := s]> (Sessions h)) id (AllocatedIds h) h).

Definition TryGet (id : Z) (h : host) : option session := Sessions h !! id.

(** [InferenceSession.Cancel]. *)
Definition Cancel (s : session) : session :=
  Session (s_rest s) (s_end s) (s_index s) (s_pump s) (s_chan s) (s_closed s)
    (s_cancel s || negb (s_disposed s)) (s_disposed s) (s_drain s) (s_out s).

(** [writer.TryComplete()]: a no-op on a writer that is completed already. *)
Definition TryComplete (c : closing) : closing := match c with Open => Completed | _ => c end.

(** The state [InferenceSession.DisposeAsync] leaves behind: cancelled, the pump returned (through
    [OperationCanceledException] unless its loop had ended), the source disposed. *)
Definition DisposeAsync (s : session) : session :=
  Session (s_rest s) (s_end s) (s_index s) PumpDone (s_chan s)
    (TryComplete (s_closed s)) true true (s_drain s) (s_out s).

Definition RemoveAsync (id : Z) (h : host) : bool * host :=
  match Sessions h !! id with
  | None => (false, h)
  | Some s =>
      (true, Host (delete id (Sessions h)) (next_id h) (AllocatedIds h) (orchestrator h)
               (ragOrchestrator h) (ragModelDisposable h) (llama_loaded h) (llama_freed h)
               (DisposeAsync s :: detached h) (others h))
  end.

(** ** EngineHost *)

(** What [BuildRagModel] finds: is the GGUF there, what loading it gives (None: an exception), does
    [SemanticSearch.Default] build. *)
Record assets := Assets { gguf_exists : bool; llama_load : option Z; search_builds : bool }.

(** The result, with the retained and the newly loaded handle. *)
Definition BuildRagModel (a : assets) (retained : option Z) : rag_model * option Z * list Z :=
  if gguf_exists a then
    match llama_load a with
    | Some p =>
        if search_builds a then (RagLlama p, Some p, [p]) else (Extractive, Some p, [p])
    | None => (Extractive, retained, [])
    end
  else (Extractive, retained, []).

Definition IsInitialized (h : host) : bool :=
  orchestrator h && bool_decide (is_Some (ragOrchestrator h)).

Definition Initialize (a : assets) (h : host) : host :=
  if IsInitialized h then h else
  match ragOrchestrator h with
  | Some r => set_engine true (Some r) (ragModelDisposable h) (llama_loaded h) (llama_freed h) h
  | None =>
      let '(r, d, l) := BuildRagModel a (ragModelDisposable h) in
      set_engine true (Some r) d (llama_loaded h ++ l) (llama_freed h) h
  end.

Definition Reset (h : host) : host :=
  set_engine false None None (llama_loaded h)
    (llama_freed h ++ option_list (ragModelDisposable h)) h.

(** ** ForemanHost *)

(** What [BuildBrain] finds: is the GGUF there, what loading it gives (None: an exception), does
    [BuildGrammarBrain] return, does [BuildRouterBrain]. *)
Record brain_assets := BrainAssets { agent_gguf : bool; agent_load : option Z; grammar_builds : bool; router_builds : bool }.

(** The brain (None: an exception leaves [Build]), with the handles loaded on the way. *)
Definition BuildBrain (b : brain_assets) : option brain * list Z :=
  let router := if router_builds b then Some Router else None in
  if agent_gguf b then
    match agent_load b with
    | Some p => if grammar_builds b then (Some (GrammarLlama p), [p]) else (router, [p])
    | None => (router, [])
    end
  else (router, []).

(** [Agent]: built on first use and again after an exception, never rebuilt otherwise, never disposed. *)
Definition Agent (b : brain_assets) (h : host) : bool * host :=
  match agent (others h) with
  | Some _ => (true, h)
  | None =>
      let '(br, l) := BuildBrain b in
      (bool_decide (is_Some br),
       set_others (llama_loaded h ++ l) (llama_freed h) (Holders br (agent_models (others h) ++ l) (probing (others h))) h)
  end.

(** ** Exports *)

(** [temperature < 0f] on the bits of a binary32: the sign bit is set and the value is neither zero nor
    a NaN. *)
Definition temp_negative (bits : Z) : bool := (0x80000000 <? bits) && (bits <=? 0xFF800000).

(** What the chosen orchestrator's model will stream for a request. *)
Definition script : Type := list string * model_end.

(** The common tail: start the session, register it, remember it as FFI-owned, start the drain. *)
Definition register (g : script) (h : host) : Z * host :=
  let '(id, h1) := Registry_Add (Start g.1 g.2) h in
  (id, set_sessions (Sessions h1) (next_id h1) ({[id]} ∪ AllocatedIds h1) h1).

(** [SessionStart] and [RagSessionStart]: the same guards, over different orchestrators. *)
Definition SessionStart (prompt_null callback_null : bool) (maxTokens temperature : Z)
    (throws : bool) (g : script) (h : host) : Z * host :=
  if negb (IsInitialized h) then (NativeStatus.NotInitialized, h)
  else if prompt_null || callback_null then (NativeStatus.InvalidArgument, h)
  else if (maxTokens <=? 0) || temp_negative temperature then (NativeStatus.InvalidArgument, h)
  else if throws then (NativeStatus.Internal, h)
  else register g h.

(** [throws] is an exception before the agent is asked for, [start_throws] one after it. *)
Definition AgentSessionStart (query_null callback_null : bool) (throws : bool) (b : brain_assets) (start_throws : bool)
    (g : script) (h : host) : Z * host :=
  if negb (IsInitialized h) then (NativeStatus.NotInitialized, h)
  else if query_null || callback_null then (NativeStatus.InvalidArgument, h)
  else if throws then (NativeStatus.Internal, h)
  else let '(built, h) := Agent b h in
       if negb built || start_throws then (NativeStatus.Internal, h) else register g h.

Definition StreamStart (prompt_null callback_null : bool) (maxTokens : Z) (throws : bool)
    (g : script) (h : host) : Z * host :=
  if negb (IsInitialized h) then (NativeStatus.NotInitialized, h)
  else if prompt_null || callback_null then (NativeStatus.InvalidArgument, h)
  else if maxTokens <=? 0 then (NativeStatus.InvalidArgument, h)
  else if throws then (NativeStatus.Internal, h)
  else register g h.

Definition SessionCancel (id : Z) (h : host) : Z * host :=
  match TryGet id h with
  | None => (NativeStatus.UnknownSession, h)
  | Some s => (NativeStatus.Ok, set_sessions (<[id := Cancel s]> (Sessions h)) (next_id h) (AllocatedIds h) h)
  end.

Definition SessionFree (id : Z) (h : host) : Z * host :=
  let h1 := set_sessions (Sessions h) (next_id h) (AllocatedIds h ∖ {[id]}) h in
  let '(removed, h2) := RemoveAsync id h1 in
  ((if removed then NativeStatus.Ok else NativeStatus.UnknownSession), h2).

(** [Lifecycle.Shutdown]: dispose every FFI-owned session, clear the set, reset the engine. *)
Definition Shutdown (h : host) : host :=
  let h1 := foldr (fun id h' => (RemoveAsync id h').2) h (elements (AllocatedIds h)) in
  Reset (set_sessions (Sessions h1) (next_id h1) ∅ h1).

(** [agent~reset], which reaches the host through [dni_feature_run] and the other transports' commands: it
    builds the agent if there is none (the conversation is in [Agent]). *)
Definition ResetConversation (b : brain_assets) (h : host) : host := (Agent b h).2.

(** [RunLlamaProbe]: [using var model], loaded at the start and freed when the block is left. *)
Definition probe_load (p : Z) (h : host) : host :=
  set_others (llama_loaded h ++ [p]) (llama_freed h) (Holders (agent (others h)) (agent_models (others h)) (p :: probing (others h))) h.
Definition probe_dispose (p : Z) (rest : list Z) (h : host) : host :=
  set_others (llama_loaded h) (llama_freed h ++ [p]) (Holders (agent (others h)) (agent_models (others h)) rest) h.

Definition initial : host := Host ∅ 0 ∅ false None None [] [] [] (Holders None [] []).

(** ** Executions *)

(** One export call, or one step of a background task of a registered session.  Fewer than [2^63 - 1]
    sessions are ever started. *)
Inductive hstep : host -> host -> Prop :=
| h_initialize a h : hstep h (Initialize a h)
| h_shutdown h : hstep h (Shutdown h)
| h_start pn cn mt t th g h : next_id h < 2 ^ 63 - 1 -> hstep h (SessionStart pn cn mt t th g h).2
| h_agent qn cn th b st g h : next_id h < 2 ^ 63 - 1 -> hstep h (AgentSessionStart qn cn th b st g h).2
| h_agent_reset b h : hstep h (ResetConversation b h)
| h_probe p h : hstep h (probe_load p h)
| h_probed l1 p l2 h : probing (others h) = l1 ++ p :: l2 -> hstep h (probe_dispose p (l1 ++ l2) h)
| h_stream pn cn mt th g h : next_id h < 2 ^ 63 - 1 -> hstep h (StreamStart pn cn mt th g h).2
| h_cancel id h : hstep h (SessionCancel id h).2
| h_free id h : hstep h (SessionFree id h).2
| h_task id s s' h :
    Sessions h !! id = Some s -> task_step s s' ->
    hstep h (set_sessions (<[id := s']> (Sessions h)) (next_id h) (AllocatedIds h) h)
(* the drain task of a session that was removed from the registry goes on *)
| h_drain l1 s s' l2 h :
    detached h = l1 ++ s :: l2 -> step Drain s s' -> hstep h (set_detached (l1 ++ s' :: l2) h).

(** ** The invariant *)

(** A session object in a state the pipeline can be in. *)
Definition session_ok (s : session) : Prop := exists frags e, reachable frags e s.

Record host_wf (h : host) : Prop := {
  hw_next : 0 <= next_id h;
  hw_ids : forall id, id ∈ AllocatedIds h -> 0 < id <= next_id h;
  hw_dom : dom (Sessions h) ⊆ AllocatedIds h;
  hw_live : forall id s, Sessions h !! id = Some s -> session_ok s /\ s_disposed s = false;
  hw_init : orchestrator h = bool_decide (is_Some (ragOrchestrator h));
  hw_rag : ragOrchestrator h = None -> ragModelDisposable h = None;
  hw_llama : llama_loaded h ≡ₚ
             llama_freed h ++ option_list (ragModelDisposable h) ++ agent_models (others h) ++ probing (others h);
  hw_agent : forall p, agent (others h) = Some (GrammarLlama p) -> p ∈ agent_models (others h);
  hw_detached : Forall (fun s => session_ok s /\ s_disposed s = true) (detached h) }.

Lemma start_id (h : host) : host_wf h -> next_id h < 2 ^ 63 - 1 -> wrap_s 64 (next_id h + 1) = next_id h + 1.
Proof. intros [? _ _ _ _ _ _ _ _] ?. apply wrap_s_id; [lia|]. unfold in_s. lia. Qed.

(** A new handle is larger than every handle in use. *)
Lemma fresh_handle (h : host) : host_wf h -> Sessions h !! (next_id h + 1) = None /\ (next_id h + 1 ∉ AllocatedIds h).
Proof.
  intros [_ Hids Hdom _ _ _ _ _ _].
  assert (next_id h + 1 ∉ AllocatedIds h) as Hn by (intros Hin; apply Hids in Hin; lia).
  split; [|done]. apply not_elem_of_dom. set_solver.
Qed.

Lemma register_wf g h : host_wf h -> next_id h < 2 ^ 63 - 1 -> host_wf (register g h).2.
Proof.
  intros Hw Hn. unfold register, Registry_Add. rewrite start_id by done.
  destruct (fresh_handle h Hw) as [Hf1 Hf2]. destruct Hw as [Hnx Hids Hdom Hlive Hi Hr Hl Hag Hd].
  split; simpl; try done; [lia| |rewrite dom_insert_L; set_solver|].
  - intros id [->%elem_of_singleton|Hin%Hids]%elem_of_union; lia.
  - intros id s. rewrite lookup_insert_Some. intros [[<- <-]|[_ Hs]]; [|by eapply Hlive].
    split; [|done]. exists g.1, g.2. apply rtc_refl.
Qed.

Lemma any_step_ok s s' : any_step s s' -> session_ok s -> session_ok s'.
Proof.
  intros Hs (frags & e & Hr). exists frags, e. eapply reachable_trans; [done|]. by eapply rtc_once.
Qed.

Lemma Cancel_step s : step Client s (Cancel s).
Proof. destruct s. apply step_cancel. Qed.

(** [DisposeAsync] is what the interleavings of a cancel, the pump's reaction and the disposal reach. *)
Lemma DisposeAsync_steps s :
  session_ok s -> s_disposed s = false -> rtc any_step s (DisposeAsync s).
Proof.
  intros (frags & e & Hr) Hd. apply reachable_inv in Hr as [_ (pre & _ & _ & Hp) _ _ _].
  destruct s as [r e' i p c cl ca d dr o]; unfold pump_inv in Hp; simpl in *; subst d.
  eapply rtc_l; [eexists; apply step_cancel|]. rewrite orb_true_r.
  assert (rtc any_step (Session r e' i p c cl true false dr o)
            (Session r e' i PumpDone c (TryComplete cl) true false dr o)) as Hs.
  { destruct p as [|t| |].
    - destruct Hp as [_ ->]. apply rtc_once. exists Pump. apply step_canceled. by left.
    - destruct Hp as [-> _]. apply rtc_once. exists Pump. apply step_canceled. eauto.
    - destruct Hp as [-> _]. apply rtc_once. exists Pump. apply step_complete.
    - destruct Hp as [[-> _]|[[-> _]|[-> _]]]; apply rtc_refl. }
  eapply rtc_r; [exact Hs|]. exists Client. unfold DisposeAsync. simpl. apply step_dispose.
Qed.

Lemma insert_session_wf id s h :
  host_wf h -> is_Some (Sessions h !! id) -> session_ok s -> s_disposed s = false ->
  host_wf (set_sessions (<[id := s]> (Sessions h)) (next_id h) (AllocatedIds h) h).
Proof.
  intros [Hnx Hids Hdom Hlive Hi Hr Hl Hag Hd] Hin Hs Hdis. split; simpl; try done.
  - rewrite dom_insert_L. apply elem_of_dom in Hin. set_solver.
  - intros id' s'. rewrite lookup_insert_Some. intros [[<- <-]|[_ ?]]; [done|by eapply Hlive].
Qed.

(** Removing a session keeps everything but the link between the two sets of ids, which the callers
    restore by removing the id from [AllocatedIds] as well. *)
Lemma RemoveAsync_dom id h : Sessions (RemoveAsync id h).2 = delete id (Sessions h).
Proof. unfold RemoveAsync. destruct (Sessions h !! id) eqn:E; [done|]. simpl. by rewrite delete_id. Qed.

Lemma RemoveAsync_wf id h : host_wf h -> host_wf (RemoveAsync id h).2.
Proof.
  unfold RemoveAsync. destruct (Sessions h !! id) as [s|] eqn:E; [|done].
  intros [Hnx Hids Hdom Hlive Hi Hr Hl Hag Hd]. split; simpl; try done.
  - rewrite dom_delete_L. set_solver.
  - intros id' s'. rewrite lookup_delete_Some. intros [_ ?]. by eapply Hlive.
  - constructor; [|done]. split; [|done]. destruct (Hlive _ _ E) as [Hok Hdis].
    destruct (DisposeAsync_steps s Hok Hdis) as [|s1 s2 s3 H1 H2]; [done|].
    destruct (any_step_ok _ _ H1 Hok) as (frags & e & Hr'). exists frags, e.
    by eapply reachable_trans.
Qed.

Lemma forget_ids_wf ids h :
  host_wf h -> ids ⊆ AllocatedIds h -> dom (Sessions h) ⊆ ids ->
  host_wf (set_sessions (Sessions h) (next_id h) ids h).
Proof. intros [Hnx Hids Hdom Hlive Hi Hr Hl Hag Hd] Hsub Hd'. split; simpl; try done. auto. Qed.

Lemma SessionFree_eq id h :
  (SessionFree id h).2 =
  let h1 := (RemoveAsync id h).2 in set_sessions (Sessions h1) (next_id h1) (AllocatedIds h1 ∖ {[id]}) h1.
Proof. unfold SessionFree, RemoveAsync. simpl. by destruct (Sessions h !! id). Qed.

Lemma RemoveAsync_ids id h : AllocatedIds (RemoveAsync id h).2 = AllocatedIds h.
Proof. unfold RemoveAsync. by destruct (Sessions h !! id). Qed.

Lemma SessionFree_wf id h : host_wf h -> host_wf (SessionFree id h).2.
Proof.
  intros Hw. rewrite SessionFree_eq. pose proof (RemoveAsync_wf id h Hw) as Hw1.
  apply forget_ids_wf; [done|set_solver|]. rewrite RemoveAsync_dom, RemoveAsync_ids, dom_delete_L.
  pose proof (hw_dom h Hw). set_solver.
Qed.

Lemma remove_all_wf ids h : host_wf h -> host_wf (foldr (fun id h' => (RemoveAsync id h').2) h ids).
Proof. intros Hw. induction ids; simpl; [done|]. by apply RemoveAsync_wf. Qed.

Lemma remove_all_sessions ids h id :
  Sessions (foldr (fun id h' => (RemoveAsync id h').2) h ids) !! id =
  if bool_decide (id ∈ ids) then None else Sessions h !! id.
Proof.
  induction ids as [|x ids IH]; simpl; [done|]. rewrite RemoveAsync_dom, lookup_delete, IH.
  repeat case_decide; repeat case_bool_decide; set_solver.
Qed.

Lemma RemoveAsync_engine id h :
  (RemoveAsync id h).2 = Host (Sessions (RemoveAsync id h).2) (next_id h) (AllocatedIds h)
    (orchestrator h) (ragOrchestrator h) (ragModelDisposable h) (llama_loaded h) (llama_freed h)
    (detached (RemoveAsync id h).2) (others h).
Proof. unfold RemoveAsync. destruct (Sessions h !! id); by destruct h. Qed.

Lemma remove_all_engine ids h (h1 := foldr (fun id h' => (RemoveAsync id h').2) h ids) :
  h1 = Host (Sessions h1) (next_id h) (AllocatedIds h) (orchestrator h) (ragOrchestrator h)
    (ragModelDisposable h) (llama_loaded h) (llama_freed h) (detached h1) (others h).
Proof.
  subst h1. induction ids as [|x ids IH]; simpl; [by destruct h|].
  rewrite RemoveAsync_engine. rewrite IH at 2 3 4 5 6 7 8 10. done.
Qed.

Lemma Shutdown_sessions h : host_wf h -> Sessions (Shutdown h) = ∅.
Proof.
  intros Hw. apply map_eq. intros id. simpl. rewrite lookup_empty.
  rewrite remove_all_sessions. case_bool_decide as Hin; [done|].
  apply not_elem_of_dom. pose proof (hw_dom h Hw). set_solver.
Qed.

Lemma Reset_wf h : host_wf h -> host_wf (Reset h).
Proof.
  intros [Hnx Hids Hdom Hlive Hi Hr Hl Hag Hd]. split; cbn -[option_list app]; try done. by rewrite Hl, <-!app_assoc.
Qed.

Lemma Shutdown_wf h : host_wf h -> host_wf (Shutdown h).
Proof.
  intros Hw. apply Reset_wf, forget_ids_wf; [by apply remove_all_wf|set_solver|].
  pose proof (Shutdown_sessions h Hw) as Hs. simpl in Hs. rewrite Hs. set_solver.
Qed.

Lemma Initialize_wf a h : host_wf h -> host_wf (Initialize a h).
Proof.
  intros Hw. unfold Initialize. destruct (IsInitialized h) eqn:Hi; [done|].
  destruct Hw as [Hnx Hids Hdom Hlive Hin Hr Hl Hag Hd]. unfold IsInitialized in Hi. rewrite Hin in Hi.
  destruct (ragOrchestrator h) as [r|] eqn:Er; [by case_bool_decide|].
  rewrite (Hr eq_refl) in *. unfold BuildRagModel.
  repeat case_match; simplify_eq; split; cbn -[app]; try done; rewrite Hl; cbn [option_list]; solve_Permutation.
Qed.

(** Moving handles between their holders. *)
Lemma set_others_wf l f os h : host_wf h ->
  l ≡ₚ f ++ option_list (ragModelDisposable h) ++ agent_models os ++ probing os ->
  (forall p, agent os = Some (GrammarLlama p) -> p ∈ agent_models os) -> host_wf (set_others l f os h).
Proof. intros [Hnx Hids Hdom Hlive Hi Hr Hl Hag Hd] Hp Ha. by split. Qed.

Lemma Agent_wf b h : host_wf h -> host_wf (Agent b h).2.
Proof.
  intros Hw. unfold Agent. destruct (agent (others h)) as [br|] eqn:Ea; [done|].
  destruct (BuildBrain b) as [br l] eqn:Eb. apply set_others_wf; [done| |].
  - rewrite (hw_llama h Hw). cbn -[app]. solve_Permutation.
  - cbn. intros p ->. apply elem_of_app. right. unfold BuildBrain in Eb. repeat case_match; simplify_eq; by left.
Qed.
Lemma Agent_next b h : next_id (Agent b h).2 = next_id h.
Proof. unfold Agent. destruct (agent _); [done|]. by destruct (BuildBrain b). Qed.

Lemma hstep_wf h h' : hstep h h' -> host_wf h -> host_wf h'.
Proof.
  intros Hs Hw. destruct Hs as [| |?????? h Hn|?????? h Hn|b h|p h|l1 p l2 h Hp|????? h Hn| | |id s s' h Hs Ht|l1 s s' l2 h Hl Ht].
  - by apply Initialize_wf.
  - by apply Shutdown_wf.
  - unfold SessionStart. repeat case_match; try done. by apply register_wf.
  - unfold AgentSessionStart. pose proof (Agent_wf b h Hw). pose proof (Agent_next b h) as En.
    destruct (Agent b h) as [built h1]. simpl in *. repeat case_match; try done. apply register_wf; [done | lia].
  - by apply Agent_wf.
  - apply set_others_wf; [done| |apply (hw_agent h Hw)]. rewrite (hw_llama h Hw). cbn -[app]. solve_Permutation.
  - apply set_others_wf; [done| |apply (hw_agent h Hw)]. rewrite (hw_llama h Hw), Hp. cbn -[app]. solve_Permutation.
  - unfold StreamStart. repeat case_match; try done. by apply register_wf.
  - unfold SessionCancel, TryGet. destruct (Sessions h !! id) as [s|] eqn:Hs; [|done]. simpl.
    destruct (hw_live h Hw _ _ Hs) as [Hok Hd]. apply insert_session_wf; [done|by rewrite Hs| |done].
    eapply any_step_ok; [|done]. eexists; apply Cancel_step.
  - by apply SessionFree_wf.
  - destruct (hw_live h Hw _ _ Hs) as [Hok Hd]. apply insert_session_wf; [done|by rewrite Hs| |].
    + eapply any_step_ok; [|done]. by apply task_any.
    + destruct Ht as [Ht|Ht]; inversion Ht; subst; simpl in *; done.
  - destruct Hw as [Hnx Hids Hdom Hlive Hin Hr Hll Hag Hd]. split; try done. simpl.
    rewrite Hl, Forall_app, Forall_cons in Hd. rewrite Forall_app, Forall_cons.
    destruct Hd as (? & [Hok Hdis] & ?). split_and!; [done| | |done].
    + eapply any_step_ok; [|done]. by eexists.
    + inversion Ht; by subst.
Qed.

Lemma initial_wf : host_wf initial.
Proof. by split. Qed.

(** C8: after any sequence of export calls and background steps: the handles registered are distinct,
    positive and at most the counter, and all FFI-owned; every registered session is in a state its
    pipeline can reach and is not disposed, every removed one is in such a state and disposed; the two orchestrators exist
    together; and every llama handle ever loaded has exactly one place: it was freed once, or is the one
    [EngineHost] retains, or was loaded for the agent, whose brain is never freed, or belongs to a gate probe that
    is still running. *)
Theorem host_invariant h : rtc hstep initial h -> host_wf h.
Proof.
  assert (host_wf initial) as Hw by apply initial_wf.
  induction 1 as [|h1 h2 h3 H1 _ IH]; [done|]. eauto using hstep_wf.
Qed.

(** ** The exports, branch by branch *)

(** The code of the first guard that fires. *)
Fixpoint first_failing (guards : list (bool * Z)) : option Z :=
  match guards with
  | [] => None
  | (b, code) :: rest => if b then Some code else first_failing rest
  end.

(** What a start export answers: the first failing guard's code with the state untouched, or a fresh
    positive handle whose session is the one registered, every other handle as before. *)
Definition start_answer (guards : list (bool * Z)) (g : script) (h : host) (r : Z * host) : Prop :=
  match first_failing guards with
  | Some code => r = (code, h)
  | None =>
      r.1 = next_id h + 1 /\ 0 < r.1 /\ TryGet r.1 h = None /\
      TryGet r.1 r.2 = Some (Start g.1 g.2) /\
      (forall id, id <> r.1 -> TryGet id r.2 = TryGet id h) /\ next_id r.2 = r.1 /\
      AllocatedIds r.2 = {[r.1]} ∪ AllocatedIds h
  end.

Lemma register_answer g h :
  host_wf h -> next_id h < 2 ^ 63 - 1 -> start_answer [] g h (register g h).
Proof.
  intros Hw Hn. unfold start_answer, register, Registry_Add, TryGet. rewrite start_id by done. simpl.
  destruct (fresh_handle h Hw) as [Hf _]. pose proof (hw_next h Hw).
  split_and!; [done|lia|done|apply lookup_insert_eq| |done|done].
  intros id Hid. by rewrite lookup_insert_ne.
Qed.

(** C35: The session starts check, in this order, that the engine is initialized (else -1), that the
    prompt and callback pointers are not NULL (else -2), that the token limit is positive and the
    temperature not negative (else -2), and answer -5 when engine code throws, each time leaving every
    session and the engine untouched; otherwise they register a new session under a fresh positive
    handle and change nothing else.  The agent's start first has [ForemanHost] build the agent when there
    is none; an exception there answers -5 too, but may leave a model loaded. *)
Theorem session_start_answers h pn cn mt t (throws : bool) b (start_throws : bool) g :
  host_wf h -> next_id h < 2 ^ 63 - 1 ->
  start_answer [(negb (IsInitialized h), -1); (pn || cn, -2); ((mt <=? 0) || temp_negative t, -2);
                (throws, -5)] g h (SessionStart pn cn mt t throws g h) /\
  (let guards := [(negb (IsInitialized h), -1); (pn || cn, -2); (throws, -5)] in
   match first_failing guards with
   | Some _ => start_answer guards g h (AgentSessionStart pn cn throws b start_throws g h)
   | None => start_answer [(negb (Agent b h).1 || start_throws, -5)] g (Agent b h).2 (AgentSessionStart pn cn throws b start_throws g h)
   end) /\
  start_answer [(negb (IsInitialized h), -1); (pn || cn, -2); (mt <=? 0, -2); (throws, -5)] g h
    (StreamStart pn cn mt throws g h).
Proof.
  intros Hw Hn. pose proof (register_answer g h Hw Hn) as Hr.
  pose proof (register_answer g (Agent b h).2 (Agent_wf b h Hw)) as Ha. rewrite Agent_next in Ha. specialize (Ha Hn).
  unfold start_answer in *. rewrite Agent_next in *. unfold SessionStart, AgentSessionStart, StreamStart. simpl in *.
  destruct (Agent b h) as [built h1]. simpl in *.
  destruct (negb (IsInitialized h)); [done|]. destruct (pn || cn); [done|].
  split_and!; [destruct ((mt <=? 0) || temp_negative t)| |destruct (mt <=? 0)];
    destruct throws; try first [done | exact Hr]. destruct (negb built || start_throws); first [done | exact Ha].
Qed.

(** Freeing a registered handle answers 0, takes exactly that session out of the registry and
    leaves it cancelled, with its pump returned, in a state its pipeline reaches; an unknown handle is
    answered -3 and changes no session.  Afterwards the handle is unknown to both cancel and free. *)
Theorem session_free_answers h id :
  host_wf h ->
  let r := SessionFree id h in
  match TryGet id h with
  | None => r.1 = -3 /\ Sessions r.2 = Sessions h /\ detached r.2 = detached h
  | Some s => r.1 = 0 /\ detached r.2 = DisposeAsync s :: detached h /\
              rtc any_step s (DisposeAsync s) /\ Sessions r.2 = delete id (Sessions h)
  end /\
  (SessionCancel id r.2).1 = -3 /\ (SessionFree id r.2).1 = -3.
Proof.
  intros Hw. simpl. unfold SessionCancel, TryGet.
  assert (Sessions (SessionFree id h).2 !! id = None) as Hnone.
  { rewrite SessionFree_eq. simpl. rewrite RemoveAsync_dom. apply lookup_delete_eq. }
  rewrite Hnone. split; [|split; [done|unfold SessionFree at 1, RemoveAsync; simpl; by rewrite Hnone]].
  unfold SessionFree, RemoveAsync. simpl. destruct (Sessions h !! id) as [s|] eqn:E; [|done].
  destruct (hw_live h Hw _ _ E). split_and!; try done. by apply DisposeAsync_steps.
Qed.

Lemma remove_all_detached ids h s :
  s ∈ detached h -> s ∈ detached (foldr (fun id h' => (RemoveAsync id h').2) h ids).
Proof.
  intros Hs. induction ids as [|x ids IH]; simpl; [done|]. unfold RemoveAsync.
  destruct (_ !! x); [right|]; done.
Qed.

Lemma remove_all_disposes ids h id s :
  id ∈ ids -> Sessions h !! id = Some s ->
  DisposeAsync s ∈ detached (foldr (fun id h' => (RemoveAsync id h').2) h ids).
Proof.
  intros Hin Hs. induction ids as [|x ids IH]; simpl; [by apply not_elem_of_nil in Hin|].
  destruct (decide (id ∈ ids)) as [Hi|Hi].
  - specialize (IH Hi). unfold RemoveAsync. destruct (_ !! x); [right|]; done.
  - apply elem_of_cons in Hin as [<-|?]; [|done]. unfold RemoveAsync.
    rewrite remove_all_sessions, bool_decide_false, Hs by done. left.
Qed.

(** C10: shutting down disposes every registered session and empties the registry, frees the llama handle
    [EngineHost] retains, so that those left are the ones loaded for the agent and by running gate probes, which
    shutdown does not touch: the agent and its model survive, and answer again after the next initialization
    without being built anew.  The engine is left uninitialized, so that every start answers -1 until that
    initialization, which resolves the RAG model anew; handles issued before stay unknown because the
    counter is not reset. *)
Theorem shutdown_releases_everything h a pn cn mt t th g :
  host_wf h ->
  let h' := Shutdown h in
  Sessions h' = ∅ /\ AllocatedIds h' = ∅ /\ next_id h' = next_id h /\
  (forall id s, Sessions h !! id = Some s -> DisposeAsync s ∈ detached h') /\
  ragModelDisposable h' = None /\ llama_loaded h' = llama_loaded h /\
  llama_freed h' = llama_freed h ++ option_list (ragModelDisposable h) /\
  llama_loaded h' ≡ₚ llama_freed h' ++ agent_models (others h) ++ probing (others h) /\
  others h' = others h /\ (forall b, is_Some (agent (others h)) -> Agent b (Initialize a h') = (true, Initialize a h')) /\
  SessionStart pn cn mt t th g h' = (-1, h') /\ StreamStart pn cn mt th g h' = (-1, h') /\
  (forall b st, AgentSessionStart pn cn th b st g h' = (-1, h')) /\
  IsInitialized (Initialize a h') = true /\
  ragOrchestrator (Initialize a h') = Some (BuildRagModel a None).1.1.
Proof.
  intros Hw. cbv zeta. pose proof (remove_all_engine (elements (AllocatedIds h)) h) as He.
  rewrite (Shutdown_sessions h Hw).
  split_and!; try done.
  - unfold Shutdown. simpl. by rewrite He.
  - intros id s Hs. unfold Shutdown. simpl. eapply remove_all_disposes; [|done].
    apply elem_of_elements, (hw_dom h Hw), elem_of_dom. eauto.
  - unfold Shutdown. simpl. by rewrite He.
  - unfold Shutdown. simpl. by rewrite He.
  - unfold Shutdown. cbn -[app]. rewrite He. cbn -[app]. rewrite (hw_llama h Hw). solve_Permutation.
  - unfold Shutdown. simpl. by rewrite He.
  - intros b [br Hb]. unfold Agent. replace (others (Initialize a (Shutdown h))) with (others h); [by rewrite Hb|].
    unfold Initialize, Shutdown. simpl. destruct (BuildRagModel a None) as [[r d] l]. simpl. by rewrite He.
  - unfold Initialize. simpl. by destruct (BuildRagModel a None) as [[r d] l].
  - unfold Initialize. simpl. by destruct (BuildRagModel a None) as [[r d] l].
Qed.

(** ** Concrete instances *)

(** Two sessions started on an initialized engine with a llama model loaded for each of the two hosts. *)
Definition demo_assets : assets := Assets true (Some 4096) true.
Definition demo_init : host := Initialize demo_assets initial.
Definition demo_brain : brain_assets := BrainAssets true (Some 8192) true true.
Definition demo_host : host :=
  (AgentSessionStart false false false demo_brain false (["x"], Throws)
     (SessionStart false false 16 0 false (["a"; "b"], Completes) demo_init).2).2.

Lemma demo_steps : rtc hstep initial demo_host.
Proof.
  eapply rtc_l; [apply (h_initialize demo_assets)|].
  eapply rtc_l; [apply (h_start false false 16 0 false (["a"; "b"], Completes)); vm_compute; reflexivity|].
  eapply rtc_l; [apply (h_agent false false false demo_brain false (["x"], Throws)); vm_compute; reflexivity|].
  apply rtc_refl.
Qed.

Lemma demo_wf : host_wf demo_host.
Proof.
  apply (hstep_wf (SessionStart false false 16 0 false (["a"; "b"], Completes) demo_init).2).
  { apply h_agent. vm_compute; reflexivity. }
  apply (hstep_wf demo_init); [apply h_start; vm_compute; reflexivity|].
  apply Initialize_wf, initial_wf.
Qed.

Lemma host_invariant_witness : host_wf demo_host /\ llama_loaded demo_host = [4096; 8192].
Proof. split; [apply host_invariant, demo_steps | reflexivity]. Defined.

Lemma session_start_answers_witness :
  start_answer [(false, -1); (false, -2); (false, -2); (false, -5)] (["q"], Completes) demo_host
    (SessionStart false false 8 0x3F800000 false (["q"], Completes) demo_host).
Proof.
  apply (session_start_answers demo_host false false 8 0x3F800000 false demo_brain false (["q"], Completes));
    [apply demo_wf | vm_compute; reflexivity].
Defined.

Lemma session_free_answers_witness :
  (SessionFree 1 demo_host).1 = 0 /\ (SessionFree 1 (SessionFree 1 demo_host).2).1 = -3.
Proof.
  split; [|apply (session_free_answers demo_host 1 demo_wf)].
  destruct (session_free_answers demo_host 1 demo_wf) as [H _]. exact (proj1 H).
Defined.

Lemma shutdown_witness :
  Sessions (Shutdown demo_host) = ∅ /\ llama_freed (Shutdown demo_host) = [4096] /\ llama_loaded (Shutdown demo_host) = [4096; 8192].
Proof.
  destruct (shutdown_releases_everything demo_host demo_assets false false 1 0 false (["a"], Completes) demo_wf)
    as (H1 & _ & _ & _ & _ & H2 & H3 & _).
  split_and!; [exact H1|exact H3|exact H2].
Defined.
