(* ===== verification/Liveness.v ===== *)
(** * Liveness: fair executions of a step relation

    A component with background tasks is a labelled step relation; an execution is an infinite sequence of
    states in which every moment is a step of some actor or a pause, and it is fair to an actor that is taken,
    or found disabled, again and again.  The rule of this file turns a decreasing measure and persistence of
    the tasks' readiness into "every fair execution gets there", whatever the other actors do. *)

From S2P Require Import Prelude.

Section Fair.
  Context {state actor : Type} `{EqDecision actor}.
  Context (step : actor -> state -> state -> Prop).

Definition enabled (a : actor) (s : state) : Prop := exists s', step a s s'.

Definition execution (sigma : nat -> state) : Prop :=
  forall n, (exists a, step a (sigma n) (sigma (S n))) \/ sigma (S n) = sigma n.

Definition fair_to (a : actor) (sigma : nat -> state) : Prop :=
  forall n, exists m, n <= m /\ (step a (sigma m) (sigma (S m)) \/ ~ enabled a (sigma m)).

Lemma execution_invariant (I : state -> Prop) sigma :
  (forall a s s', I s -> step a s s' -> I s') -> execution sigma -> I (sigma 0) -> forall n, I (sigma n).
Proof.
  intros Hs He H0 n. induction n as [|n IH]; [done|].
  destruct (He n) as [[a Ha]| ->]; [by eapply Hs | done].
Qed.

Lemma execution_rtc sigma n m :
  execution sigma -> n <= m -> rtc (fun s s' => exists a, step a s s') (sigma n) (sigma m).
Proof.
  intros He Hle. induction Hle as [|m _ IH]; [done|].
  destruct (He m) as [Ha| ->]; [by eapply rtc_r | done].
Qed.

(** The rule.  [task] tells the actors with fairness (the program's own tasks) from the rest (its clients). *)
Section Rule.
  Context (task : actor -> Prop) (I : state -> Prop) (work : state -> nat).
  Hypothesis I_step : forall a s s', I s -> step a s s' -> I s'.
  Hypothesis task_decreases : forall a s s', I s -> task a -> step a s s' -> work s' < work s.
  Hypothesis step_bounded : forall a s s', I s -> step a s s' -> work s' <= work s.
  Hypothesis persists :
    forall a b s s', I s -> task a -> enabled a s -> step b s s' -> b <> a -> enabled a s'.

Lemma work_bounded sigma n m : execution sigma -> I (sigma 0) -> n <= m -> work (sigma m) <= work (sigma n).
Proof.
  intros He H0 Hle. induction Hle as [|m _ IH]; [done|].
  pose proof (execution_invariant I sigma I_step He H0 m) as Hm.
  destruct (He m) as [[a Ha]| ->]; [|done]. apply step_bounded in Ha; [lia | done].
Qed.

(** A task that is ready is taken in the end, which costs work. *)
Lemma ready_works sigma a n : execution sigma -> I (sigma 0) -> task a -> fair_to a sigma -> enabled a (sigma n) ->
  exists m, n <= m /\ work (sigma m) < work (sigma n).
Proof.
  intros He H0 Ht Hf Hen. destruct (Hf n) as (m & Hle & Hm).
  assert (exists k, m = n + k) as [k ->] by (exists (m - n); lia). clear Hle.
  revert n Hen Hm. induction k as [|k IH]; intros n Hen Hm;
    pose proof (execution_invariant I sigma I_step He H0 n) as Hn.
  - rewrite Nat.add_0_r in Hm. destruct Hm as [Hm|Hm]; [|done].
    exists (S n). split; [lia | by eapply task_decreases].
  - destruct (He n) as [[b Hb]|Heq].
    + destruct (decide (b = a)) as [->|Hne]; [exists (S n); split; [lia | by eapply task_decreases]|].
      destruct (IH (S n)) as (m & ? & ?); [by eapply persists | by rewrite Nat.add_succ_comm |].
      exists m. split; [lia|]. apply step_bounded in Hb; [lia | done].
    + destruct (IH (S n)) as (m & ? & ?); [by rewrite Heq | by rewrite Nat.add_succ_comm |].
      exists m. rewrite Heq in *. split; lia.
Qed.

Lemma fair_reaches (G : state -> Prop) sigma :
  (forall s, Decision (G s)) -> (forall s, I s -> ~ G s -> exists a, task a /\ enabled a s) ->
  execution sigma -> I (sigma 0) -> (forall a, task a -> fair_to a sigma) ->
  forall n, exists m, n <= m /\ G (sigma m).
Proof.
  intros Hdec Hprog He H0 Hf n. remember (work (sigma n)) as w eqn:Hw.
  revert n Hw. induction (lt_wf w) as [w _ IH]. intros n ->.
  destruct (decide (G (sigma n))) as [HG|HG]; [by exists n|].
  destruct (Hprog (sigma n)) as (a & Ht & Hen);
    [by apply (execution_invariant I sigma I_step He H0) | done |].
  destruct (ready_works sigma a n He H0 Ht (Hf a Ht) Hen) as (m & Hle & Hlt).
  destruct (IH (work (sigma m)) Hlt m eq_refl) as (k & ? & ?). exists k. split; [lia | done].
Qed.
End Rule.

(** The rule for a goal that need not last: the hypotheses are asked for only where it is not yet reached. *)
Section Until.
  Context (task : actor -> Prop) (I G : state -> Prop) (work : state -> nat).
  Context `{Gdec : !forall s, Decision (G s)}.
  Hypothesis I_step : forall a s s', I s -> ~ G s -> step a s s' -> I s'.
  Hypothesis task_decreases : forall a s s', I s -> ~ G s -> task a -> step a s s' -> work s' < work s.
  Hypothesis step_bounded : forall a s s', I s -> ~ G s -> step a s s' -> work s' <= work s.
  Hypothesis persists :
    forall a b s s', I s -> ~ G s -> task a -> enabled a s -> step b s s' -> b <> a -> enabled a s'.
  Hypothesis progress : forall s, I s -> ~ G s -> exists a, task a /\ enabled a s.

Lemma ready_works_until sigma a k : task a -> execution sigma -> forall n, I (sigma n) -> enabled a (sigma n) ->
  (step a (sigma (n + k)) (sigma (S (n + k))) \/ ~ enabled a (sigma (n + k))) ->
  exists m, n <= m /\ (G (sigma m) \/ I (sigma m) /\ work (sigma m) < work (sigma n)).
Proof.
  intros Ht He. induction k as [|k IH]; intros n Hn Hen Hm;
    (destruct (decide (G (sigma n))) as [HG|HG]; [exists n; by split; [|left]|]).
  - rewrite Nat.add_0_r in Hm. destruct Hm as [Hm|Hm]; [|done].
    exists (S n). split; [lia|]. right. split; [by eapply I_step | by eapply task_decreases].
  - destruct (He n) as [[b Hb]|Heq].
    + destruct (decide (b = a)) as [->|Hne].
      { exists (S n). split; [lia|]. right. split; [by eapply I_step | by eapply task_decreases]. }
      destruct (IH (S n)) as (m & Hle & [HG'|[HI Hw]]);
        [by eapply I_step | by eapply persists | by rewrite Nat.add_succ_comm | exists m; split; [lia | by left] |].
      exists m. split; [lia|]. right. split; [done|]. apply step_bounded in Hb; [lia | done | done].
    + destruct (IH (S n)) as (m & Hle & Hor); [by rewrite Heq | by rewrite Heq | by rewrite Nat.add_succ_comm |].
      exists m. rewrite Heq in *. split; [lia | done].
Qed.

Lemma fair_reaches_until sigma : execution sigma -> (forall a, task a -> fair_to a sigma) ->
  forall n, I (sigma n) -> exists m, n <= m /\ G (sigma m).
Proof.
  intros He Hf n. remember (work (sigma n)) as w eqn:Hw. revert n Hw.
  induction (lt_wf w) as [w _ IH]. intros n -> Hn.
  destruct (decide (G (sigma n))) as [HG|HG]; [by exists n|].
  destruct (progress (sigma n) Hn HG) as (a & Ht & Hen). destruct (Hf a Ht n) as (k & Hle & Hk).
  replace k with (n + (k - n)) in Hk by lia.
  destruct (ready_works_until sigma a (k - n) Ht He n Hn Hen Hk) as (m & Hle' & [HG'|[HI Hlt]]); [by exists m|].
  destruct (IH _ Hlt m eq_refl HI) as (m' & ? & ?). exists m'. split; [lia | done].
Qed.
End Until.

(** A finite run into a state where nothing is enabled, prolonged for ever, is a fair execution. *)
Definition prolong (s : state) (path : list state) (n : nat) : state := nth n path (List.last path s).

Fixpoint chained (s : state) (path : list state) : Prop :=
  match path with
  | [] => True
  | s' :: rest => (exists a, step a s s') /\ chained s' rest
  end.

Lemma prolong_from s path d n : chained s path ->
  let at_ k := nth k (s :: path) (List.last (s :: path) d) in
  (exists a, step a (at_ n) (at_ (S n))) \/ at_ (S n) = at_ n.
Proof.
  revert s n. induction path as [|x l IH]; intros s n Hc; [right; by destruct n as [|[|n]]|].
  destruct Hc as [Ha Hc], n as [|n]; [by left | exact (IH x n Hc)].
Qed.

Lemma prolong_execution s path : chained s path -> execution (prolong s (s :: path)).
Proof. intros Hc n. by apply prolong_from. Qed.

Lemma prolong_fair s path a : ~ enabled a (List.last (s :: path) s) -> fair_to a (prolong s (s :: path)).
Proof.
  intros Hn n. exists (n + S (length path)). split; [lia|]. right. unfold prolong.
  rewrite nth_overflow; [done | simpl; lia].
Qed.
End Fair.
