(* ===== verification/Trust.v ===== *)
(** * Trust: what the engine says about its transports

    [TrustPosture.cs]: the static posture of the transports and, when the framed-protobuf server has
    published one, the parameters of its post-quantum channel.  [Listeners] says when they are published and
    cleared, [Server] where they come from. *)

From S2P Require Import Prelude.
Local Open Scope string_scope.
Local Open Scope list_scope.

(** What the Trust inspector is told about a live channel (elapsed time aside). *)
Record PqChannelParams := PqParams {
  pq_kem_algorithm : string; pq_sig_algorithm : string; pq_cipher : string;
  pq_kem_bytes : Z; pq_ciphertext_bytes : Z; pq_secret_bytes : Z }.

Record TransportPosture := Posture { Transport : string; InProcess : bool; Encrypted : bool; Wire : string; Detail : string }.
Record TrustPostureReport := ReportOf { Transports : list TransportPosture; BinaryPqChannel : option PqChannelParams }.

Definition binary_posture (pq : option PqChannelParams) : TransportPosture :=
  match pq with
  | None =>
      Posture "binary" false false "127.0.0.1 loopback TCP · framed protobuf"
        "Framed protobuf over PLAINTEXT loopback. Start with the PQ flag to negotiate an ML-KEM/ML-DSA channel."
  | Some pq =>
      Posture "binary" false true "127.0.0.1 loopback TCP · framed protobuf"
        ("PQ channel up: " +:+ pq_kem_algorithm pq +:+ " key exchange, " +:+ pq_sig_algorithm pq +:+
         " handshake signature, " +:+ pq_cipher pq +:+ " per frame.")
  end.

Definition Report (pq : option PqChannelParams) : TrustPostureReport :=
  ReportOf
    [ Posture "ffi" true false "in-process (no socket)"
        "C ABI call across the managed/native boundary; the trust boundary is the OS process, not a network.";
      Posture "http" false false "127.0.0.1 loopback TCP"
        "PLAINTEXT loopback HTTP — deliberate and disclosed; there is no TLS on the local socket.";
      Posture "sqlcipher" false true "on-disk SQLCipher database (WAL)"
        "AES-256 encrypted at rest via PRAGMA key; the native host owns and supplies the key.";
      binary_posture pq ]
    pq.

(** The transports reported as encrypted. *)
Definition reported_encrypted (r : TrustPostureReport) : list string := Transport <$> filter (fun p => Encrypted p = true) (Transports r).

Lemma reported_encrypted_spec pq :
  reported_encrypted (Report pq) = "sqlcipher" :: match pq with Some _ => ["binary"] | None => [] end.
Proof. by destruct pq. Qed.
