(* ===== verification/Utf8.v ===== *)
(** * Utf8: text at the boundary

    C# strings are sequences of UTF-16 code units; what crosses the ABI, the sockets and the native callbacks
    is UTF-8.  This file models the two conversions of the standard library the sources use
    ([Encoding.UTF8.GetString] / [Marshal.PtrToStringUTF8] and [Encoding.UTF8.GetBytes] /
    [Marshal.StringToCoTaskMemUTF8]), both of which replace what is malformed by U+FFFD: one replacement for
    every maximal prefix of an ill-formed sequence, as Unicode and the .NET documentation recommend. *)

From S2P Require Import Prelude.
Local Open Scope Z_scope.
#[local] Set Warnings "-clear-no-such-hyp".

(** Code points that are not surrogates. *)
Definition scalar (c : Z) : Prop := 0 <= c < 0xD800 \/ 0xE000 <= c <= 0x10FFFF.
#[export] Instance scalar_dec c : Decision (scalar c).
Proof. unfold scalar. apply _. Defined.

Definition replacement : Z := 0xFFFD.

(** ** UTF-8 *)

Definition encode_scalar (c : Z) : list Z :=
  if c <? 0x80 then [c]
  else if c <? 0x800 then [0xC0 + c / 64; 0x80 + c mod 64]
  else if c <? 0x10000 then [0xE0 + c / 4096; 0x80 + (c / 64) mod 64; 0x80 + c mod 64]
  else [0xF0 + c / 262144; 0x80 + (c / 4096) mod 64; 0x80 + (c / 64) mod 64; 0x80 + c mod 64].

Definition encode (cs : list Z) : list Z := concat (map encode_scalar cs).

(** The decoder: between characters, or inside one: how many continuation bytes it still needs, the range
    the next one must lie in, and the bits so far. *)
Inductive decoder := Ready | Needs (n : nat) (lo hi acc : Z).

(** A byte that starts a character. *)
Definition lead (b : Z) : decoder * list Z :=
  if b <? 0x80 then (Ready, [b])
  else if b <? 0xC2 then (Ready, [replacement])
  else if b <? 0xE0 then (Needs 0 0x80 0xBF (b - 0xC0), [])
  else if b <? 0xF0 then
    (Needs 1 (if b =? 0xE0 then 0xA0 else 0x80) (if b =? 0xED then 0x9F else 0xBF) (b - 0xE0), [])
  else if b <? 0xF5 then
    (Needs 2 (if b =? 0xF0 then 0x90 else 0x80) (if b =? 0xF4 then 0x8F else 0xBF) (b - 0xF0), [])
  else (Ready, [replacement]).

Definition feed (d : decoder) (b : Z) : decoder * list Z :=
  match d with
  | Ready => lead b
  | Needs n lo hi acc =>
      if (lo <=? b) && (b <=? hi) then
        let acc' := acc * 64 + (b - 0x80) in
        match n with
        | O => (Ready, [acc'])
        | S n' => (Needs n' 0x80 0xBF acc', [])
        end
      else let '(d', out) := lead b in (d', replacement :: out)
  end.

Fixpoint feed_all (d : decoder) (bs : list Z) : decoder * list Z :=
  match bs with
  | [] => (d, [])
  | b :: rest => let '(d1, o1) := feed d b in let '(d2, o2) := feed_all d1 rest in (d2, o1 ++ o2)
  end.

(** The end of the input cuts an unfinished character off. *)
Definition flush (d : decoder) : list Z := match d with Ready => [] | Needs _ _ _ _ => [replacement] end.

Definition decode (bs : list Z) : list Z := let '(d, o) := feed_all Ready bs in o ++ flush d.

(** ** UTF-16 *)

Definition units (c : Z) : list Z :=
  if c <? 0x10000 then [c] else [0xD800 + (c - 0x10000) / 1024; 0xDC00 + (c - 0x10000) mod 1024].

Definition to_utf16 (cs : list Z) : list Z := concat (map units cs).

Definition high (u : Z) : bool := (0xD800 <=? u) && (u <? 0xDC00).
Definition low (u : Z) : bool := (0xDC00 <=? u) && (u <? 0xE000).

(** No surrogate without its partner. *)
Fixpoint utf16_valid (us : list Z) : bool :=
  match us with
  | [] => true
  | u :: rest =>
      if high u then match rest with v :: rest' => low v && utf16_valid rest' | [] => false end
      else negb (low u) && utf16_valid rest
  end.

(** The characters of a string; a surrogate without its partner becomes U+FFFD. *)
Fixpoint of_utf16 (us : list Z) : list Z :=
  match us with
  | [] => []
  | u :: rest =>
      if high u then
        match rest with
        | v :: rest' => if low v then 0x10000 + (u - 0xD800) * 1024 + (v - 0xDC00) :: of_utf16 rest'
                        else replacement :: of_utf16 rest
        | [] => [replacement]
        end
      else (if low u then replacement else u) :: of_utf16 rest
  end.

(** [Encoding.UTF8.GetString] and [Encoding.UTF8.GetBytes]. *)
Definition GetString (bs : list Z) : list Z := to_utf16 (decode bs).
Definition GetBytes (s : list Z) : list Z := encode (of_utf16 s).

(** ** Round trips *)

Lemma feed_all_app d a b :
  feed_all d (a ++ b) =
  let '(d1, o1) := feed_all d a in let '(d2, o2) := feed_all d1 b in (d2, o1 ++ o2).
Proof.
  revert d. induction a as [|x a IH]; intros d; simpl; [by destruct (feed_all d b)|].
  destruct (feed d x) as [d1 o1]. rewrite IH. destruct (feed_all d1 a) as [d2 o2].
  destruct (feed_all d2 b) as [d3 o3]. by rewrite app_assoc.
Qed.

Ltac ztests := repeat match goal with |- context [Z.ltb ?a ?b] => destruct (Z.ltb_spec a b); try lia
  | |- context [Z.leb ?a ?b] => destruct (Z.leb_spec a b); try lia
  | |- context [Z.eqb ?a ?b] => destruct (Z.eqb_spec a b); try lia end.

Lemma lead_2 b : 0xC2 <= b < 0xE0 -> lead b = (Needs 0 0x80 0xBF (b - 0xC0), []).
Proof. intros H. unfold lead. by ztests. Qed.
Lemma lead_3 b : 0xE0 <= b < 0xF0 -> lead b =
  (Needs 1 (if b =? 0xE0 then 0xA0 else 0x80) (if b =? 0xED then 0x9F else 0xBF) (b - 0xE0), []).
Proof. intros H. unfold lead. by ztests. Qed.
Lemma lead_4 b : 0xF0 <= b < 0xF5 -> lead b =
  (Needs 2 (if b =? 0xF0 then 0x90 else 0x80) (if b =? 0xF4 then 0x8F else 0xBF) (b - 0xF0), []).
Proof. intros H. unfold lead. by ztests. Qed.

Lemma feed_continuation n lo hi acc b rest : lo <= b <= hi ->
  feed_all (Needs n lo hi acc) (b :: rest) =
  match n with
  | O => let '(d, o) := feed_all Ready rest in (d, [acc * 64 + (b - 0x80)] ++ o)
  | S n' => feed_all (Needs n' 0x80 0xBF (acc * 64 + (b - 0x80))) rest
  end.
Proof.
  intros H. cbn [feed_all feed]. rewrite (proj2 (Z.leb_le lo b)), (proj2 (Z.leb_le b hi)) by lia.
  destruct n; simpl; by destruct (feed_all _ rest).
Qed.

Lemma feed_start b d rest : lead b = (d, []) -> feed_all Ready (b :: rest) = feed_all d rest.
Proof. intros E. cbn [feed_all feed]. rewrite E. by destruct (feed_all d rest). Qed.

Lemma feed_scalar c : scalar c -> feed_all Ready (encode_scalar c) = (Ready, [c]).
Proof.
  intros Hc. unfold scalar in Hc. unfold encode_scalar.
  pose proof (Z.div_mod c 64 ltac:(lia)). pose proof (Z.mod_pos_bound c 64 ltac:(lia)).
  pose proof (Z.div_mod (c / 64) 64 ltac:(lia)) as H64. pose proof (Z.mod_pos_bound (c / 64) 64 ltac:(lia)).
  rewrite Z.div_div in H64 by lia. change (64 * 64) with 4096 in H64.
  pose proof (Z.div_mod (c / 4096) 64 ltac:(lia)) as H4. pose proof (Z.mod_pos_bound (c / 4096) 64 ltac:(lia)).
  rewrite Z.div_div in H4 by lia. change (4096 * 64) with 262144 in H4.
  set (q := c / 64) in *. set (r := c / 4096) in *. set (t := c / 262144) in *.
  set (c0 := c mod 64) in *. set (c1 := q mod 64) in *. set (c2 := r mod 64) in *.
  clearbody q r t c0 c1 c2. destruct (Z.ltb_spec c 0x80); [|destruct (Z.ltb_spec c 0x800); [|destruct (Z.ltb_spec c 0x10000)]].
  - cbn [feed_all feed]. unfold lead. by rewrite (proj2 (Z.ltb_lt c 128)) by lia.
  - rewrite (feed_start _ _ _ (lead_2 (0xC0 + q) ltac:(lia))), !feed_continuation by lia. simpl. do 2 f_equal. lia.
  - rewrite (feed_start _ _ _ (lead_3 (0xE0 + r) ltac:(lia))), !feed_continuation; [simpl; do 2 f_equal; lia|ztests; lia..].
  - rewrite (feed_start _ _ _ (lead_4 (0xF0 + t) ltac:(lia))), !feed_continuation; [simpl; do 2 f_equal; lia|ztests; lia..].
Qed.

Lemma feed_encode cs : Forall scalar cs -> feed_all Ready (encode cs) = (Ready, cs).
Proof.
  induction 1 as [|c cs Hc _ IH]; [done|]. unfold encode in *. simpl.
  by rewrite feed_all_app, feed_scalar, IH.
Qed.

Lemma decode_encode cs : Forall scalar cs -> decode (encode cs) = cs.
Proof. intros H. unfold decode. rewrite feed_encode by done. apply app_nil_r. Qed.

(** Well-formed text can be decoded piece by piece. *)
Lemma decode_app_encode cs bs : Forall scalar cs -> decode (encode cs ++ bs) = cs ++ decode bs.
Proof.
  intros H. unfold decode. rewrite feed_all_app, feed_encode by done.
  destruct (feed_all Ready bs). by rewrite app_assoc.
Qed.

Lemma of_utf16_units c rest : scalar c -> of_utf16 (units c ++ rest) = c :: of_utf16 rest.
Proof.
  intros Hc. unfold scalar in Hc. unfold units. destruct (Z.ltb_spec c 0x10000); simpl; unfold high, low.
  - ztests; done.
  - pose proof (Z.div_mod (c - 0x10000) 1024 ltac:(lia)). pose proof (Z.mod_pos_bound (c - 0x10000) 1024 ltac:(lia)).
    set (q := (c - 0x10000) / 1024) in *. set (m := (c - 0x10000) mod 1024) in *. clearbody q m.
    ztests. simpl. f_equal. lia.
Qed.

Lemma of_utf16_app cs rest : Forall scalar cs -> of_utf16 (to_utf16 cs ++ rest) = cs ++ of_utf16 rest.
Proof.
  unfold to_utf16. induction 1 as [|c cs Hc _ IH]; [done|]. cbn [map concat].
  by rewrite <- app_assoc, of_utf16_units, IH.
Qed.

Lemma of_to_utf16 cs : Forall scalar cs -> of_utf16 (to_utf16 cs) = cs.
Proof. intros H. rewrite <- (app_nil_r (to_utf16 cs)), of_utf16_app by done. apply app_nil_r. Qed.

(** Strings without lone surrogates. *)
Definition well_formed (s : list Z) : Prop := exists cs, Forall scalar cs /\ s = to_utf16 cs.

Lemma well_formed_valid s : well_formed s -> utf16_valid s = true.
Proof.
  intros (cs & H & ->). unfold to_utf16. induction H as [|c cs Hc _ IH]; [done|]. cbn [map concat].
  unfold scalar in Hc. unfold units. destruct (Z.ltb_spec c 0x10000); cbn [app utf16_valid]; unfold high, low.
  - ztests; done || lia.
  - pose proof (Z.mod_pos_bound (c - 0x10000) 1024 ltac:(lia)). pose proof (Z.div_pos (c - 0x10000) 1024 ltac:(lia) ltac:(lia)).
    pose proof (Z.div_lt_upper_bound (c - 0x10000) 1024 1024 ltac:(lia) ltac:(lia)).
    set (q := (c - 0x10000) / 1024) in *. set (m := (c - 0x10000) mod 1024) in *. clearbody q m.
    ztests; done || lia.
Qed.

Lemma well_formed_cons c s : scalar c -> well_formed s -> well_formed (units c ++ s).
Proof. intros Hc (cs & H & ->). exists (c :: cs). split; [by constructor | done]. Qed.
Lemma valid_well_formed s : Forall (fun u => 0 <= u < 0x10000) s -> utf16_valid s = true -> well_formed s.
Proof.
  intros Hu. remember (length s) as n eqn:Hn. revert s Hn Hu. induction (lt_wf n) as [n _ IH]. intros s -> Hu.
  destruct s as [|u s]; [by exists []|]. apply Forall_cons in Hu as [Hu Hs]. cbn [utf16_valid]. destruct (high u) eqn:Eh.
  - destruct s as [|v s]; [done|]. apply Forall_cons in Hs as [Hv Hs]. intros [Hl H]%andb_true_iff. unfold high, low in *.
    replace (u :: v :: s) with (units (0x10000 + (u - 0xD800) * 1024 + (v - 0xDC00)) ++ s).
    + apply well_formed_cons; [unfold scalar; lia|]. apply (IH (length s)); [simpl; lia | done..].
    + unfold units. rewrite (proj2 (Z.ltb_ge _ _)) by lia.
      replace (0x10000 + (u - 0xD800) * 1024 + (v - 0xDC00) - 0x10000) with ((v - 0xDC00) + (u - 0xD800) * 1024) by lia.
      rewrite Z.div_add, Z.mod_add, Z.div_small, Z.mod_small by lia. cbn [app]. f_equal; [lia|]. f_equal. lia.
  - intros [Hl H]%andb_true_iff. unfold high, low in *. change (u :: s) with ([u] ++ s).
    replace [u] with (units u) by (unfold units; by rewrite (proj2 (Z.ltb_lt _ _)) by lia).
    apply well_formed_cons; [unfold scalar; lia|]. apply (IH (length s)); [simpl; lia | done..].
Qed.

Lemma GetString_GetBytes s : well_formed s -> GetString (GetBytes s) = s.
Proof. intros (cs & H & ->). unfold GetString, GetBytes. by rewrite of_to_utf16, decode_encode. Qed.

Lemma GetBytes_app s t : well_formed s -> GetBytes (s ++ t) = GetBytes s ++ GetBytes t.
Proof.
  intros (cs & H & ->). unfold GetBytes, encode. rewrite of_utf16_app, of_to_utf16 by done.
  by rewrite map_app, concat_app.
Qed.

(** Every byte string decodes to scalars, so what [GetString] returns is well formed. *)
Definition decoder_ok (d : decoder) : Prop :=
  match d with
  | Ready => True
  | Needs n lo hi acc =>
      (n <= 2)%nat /\ 0 <= lo - 0x80 /\ hi <= 0xBF /\ 0 <= acc /\
      forall x, lo - 0x80 <= x <= hi - 0x80 -> 
        let p := 64 ^ Z.of_nat n in
        (acc * 64 + x + 1) * p <= 0xD800 \/ 0xE000 <= (acc * 64 + x) * p /\ (acc * 64 + x + 1) * p <= 0x110000
  end.

Lemma lead_ok b d o : 0 <= b -> lead b = (d, o) -> decoder_ok d /\ Forall scalar o.
Proof.
  intros Hb. unfold lead. ztests; intros [= <- <-]; simpl;
    (split; [|repeat constructor; unfold scalar, replacement; lia]); try done;
    change (64 ^ 0) with 1; change (64 ^ 1) with 64; change (64 ^ 2) with 4096; split_and!; try lia; intros x Hx; ztests; lia.
Qed.

Lemma feed_ok d b d' o : 0 <= b -> decoder_ok d -> feed d b = (d', o) -> decoder_ok d' /\ Forall scalar o.
Proof.
  intros Hb Hd. destruct d as [|n lo hi acc]; [by apply lead_ok|]. cbn [feed]. 
  destruct Hd as (Hn & Hlo & Hhi & Hacc & Hx).
  destruct (Z.leb_spec lo b), (Z.leb_spec b hi); cbn [andb];
    try (destruct (lead b) as [d1 o1] eqn:El; intros [= <- <-]; apply lead_ok in El as [? ?]; [|done];
         (split; [done | constructor; [unfold scalar, replacement; lia | done]])).
  specialize (Hx (b - 0x80) ltac:(lia)). cbv zeta in Hx. destruct n as [|n]; intros [= <- <-]; cbn [decoder_ok].
  - split; [done|]. apply Forall_singleton. unfold scalar. simpl in Hx. lia.
  - split; [|done]. split_and!; try lia. intros x Hr. cbv zeta in *.
    rewrite Nat2Z.inj_succ, Z.pow_succ_r in Hx by lia. set (p := 64 ^ Z.of_nat n) in *.
    assert (0 < p) by (apply Z.pow_pos_nonneg; lia). clearbody p. nia.
Qed.

Lemma decode_scalar bs : Forall (fun b => 0 <= b) bs -> Forall scalar (decode bs).
Proof.
  intros Hb. unfold decode. assert (forall d, decoder_ok d ->
    let '(d', o) := feed_all d bs in decoder_ok d' /\ Forall scalar o) as H.
  { induction Hb as [|b bs Hb _ IH]; intros d Hd; [done|]. cbn [feed_all].
    destruct (feed d b) as [d1 o1] eqn:E1. apply feed_ok in E1 as [Hd1 Ho1]; [|done..].
    specialize (IH d1 Hd1). destruct (feed_all d1 bs) as [d2 o2]. destruct IH as [? ?].
    split; [done | by apply Forall_app]. }
  specialize (H Ready I). destruct (feed_all Ready bs) as [d o]. destruct H as [_ H].
  apply Forall_app. split; [done|]. destruct d; [constructor | apply Forall_singleton; unfold scalar, replacement; lia].
Qed.

Lemma GetString_well_formed bs : Forall (fun b => 0 <= b) bs -> well_formed (GetString bs).
Proof. intros H. exists (decode bs). split; [by apply decode_scalar | done]. Qed.
