(* ===== verification/LlamaModel.v ===== *)
(** * LlamaModel: the managed llama.cpp model (Engine/Llama/LlamaLanguageModel.cs)

    [GenerateAsync] runs the native [dni_llama_generate] on a task of its own; the native side calls [OnPiece]
    once per text piece, which finds the writer of the call's bounded channel in the table [Writers] and tries
    to write; the async iterator reads the channel and, when it is completed, awaits the task.  One call is a
    step relation over the task ([Native]), the iterator together with its consumer ([Reader]) and the outside
    ([Client]: cancellation, and the handle being freed, by [EngineHost.Reset] or by the probe that loaded it).
    Nothing in the model keeps the handle alive for the call, so it may be freed at any moment: a session is
    awaited before [Reset], an answer of a socket server or of the broker is not.

    The native call is what the shim's header promises: some pieces, then a return code, or an exception of
    the marshaller.  It takes no cancellation token, so it always runs to its end. *)

From S2P Require Import Prelude Liveness Utf8.
#[local] Set Warnings "-clear-no-such-hyp".

(** A C# string, as UTF-16 code units; the bytes behind a [byte*], [None] for a null pointer. *)
Definition text := list Z.
Definition piece := option (list Z).

Inductive outcome := Returns (rc : Z) | Raises.

(** The [Task.Run] task: not started; inside the native call, with the pieces it will still emit; past
    [TryComplete] in the finally block; and the three final states of a task. *)
Inductive task_state := Queued | Running (rest : list piece) | Unwinding | RanToCompletion | TaskFaulted | TaskCanceled.

(** The iterator: in [WaitToReadAsync]; taking items or suspended at [yield return]; at [await task]; and how
    it ended: normally, with the task's exception, cancelled, or disposed by a consumer that left its
    [await foreach]. *)
Inductive reader_state := Waiting | Taking | AwaitTask | Ended | ReaderFaulted | ReaderCanceled | ReaderDisposed.

#[export] Instance reader_state_eq_dec : EqDecision reader_state.
Proof. solve_decision. Defined.
#[export] Instance task_state_eq_dec : EqDecision task_state.
Proof. solve_decision. Defined.

Definition piece_capacity : nat := 256.

Record generation := Generation {
  g_task : task_state;
  g_writers : bool;           (* Writers[key] is present *)
  g_chan : list text;
  g_closed : bool;
  g_reader : reader_state;
  g_out : list text;          (* what the iterator has yielded *)
  g_dropped : list text;      (* texts whose TryWrite answered false *)
  g_cancel : bool;            (* the token passed to GenerateAsync *)
  g_freed : bool              (* dni_llama_free was called on the handle *) }.

(** [writer.TryWrite(s)]: false when the channel is full or completed. *)
Definition TryWrite (s : text) (g : generation) : generation :=
  if negb (g_closed g) && bool_decide (length (g_chan g) < piece_capacity)
  then Generation (g_task g) (g_writers g) (g_chan g ++ [s]) (g_closed g) (g_reader g) (g_out g) (g_dropped g)
         (g_cancel g) (g_freed g)
  else Generation (g_task g) (g_writers g) (g_chan g) (g_closed g) (g_reader g) (g_out g) (g_dropped g ++ [s])
         (g_cancel g) (g_freed g).

Definition OnPiece (p : piece) (g : generation) : generation :=
  match p with
  | None => g
  | Some bytes =>
      if g_writers g then
        match GetString bytes with
        | [] => g
        | s => TryWrite s g
        end
      else g
  end.

Definition set_task (t : task_state) (g : generation) : generation :=
  Generation t (g_writers g) (g_chan g) (g_closed g) (g_reader g) (g_out g) (g_dropped g) (g_cancel g) (g_freed g).
Definition set_reader (r : reader_state) (g : generation) : generation :=
  Generation (g_task g) (g_writers g) (g_chan g) (g_closed g) r (g_out g) (g_dropped g) (g_cancel g) (g_freed g).

Inductive role := Native | Reader | Client.
#[export] Instance role_eq_dec : EqDecision role.
Proof. solve_decision. Defined.

(** The iterator is over for its consumer. *)
Definition over (r : reader_state) : Prop := r = Ended \/ r = ReaderFaulted \/ r = ReaderCanceled \/ r = ReaderDisposed.
#[export] Instance over_dec r : Decision (over r).
Proof. unfold over. apply _. Defined.

(** How the task ends once the finally block is done. *)
Definition task_end (oc : outcome) : task_state := match oc with Returns _ => RanToCompletion | Raises => TaskFaulted end.

(** What [await task] does with a task in its final state. *)
Definition await_end (t : task_state) : option reader_state :=
  match t with
  | RanToCompletion => Some Ended
  | TaskFaulted => Some ReaderFaulted
  | TaskCanceled => Some ReaderCanceled
  | _ => None
  end.

Section Generate.
  Context (pieces : list piece) (oc : outcome).

(** [GenerateAsync] up to the first [WaitToReadAsync]: the channel is created, registered, the task queued. *)
Definition GenerateAsync : generation := Generation Queued true [] false Waiting [] [] false false.

Inductive gstep : role -> generation -> generation -> Prop :=
(* the thread pool starts the lambda, unless its token was cancelled before *)
| g_start w c cl r o d f :
    gstep Native (Generation Queued w c cl r o d false f) (Generation (Running pieces) w c cl r o d false f)
| g_never_started w c cl r o d f :
    gstep Native (Generation Queued w c cl r o d true f) (Generation TaskCanceled w c cl r o d true f)
(* the native loop calls back with a piece *)
| g_piece p rest g :
    g_task g = Running (p :: rest) -> gstep Native g (OnPiece p (set_task (Running rest) g))
(* it returns or throws; finally: TryComplete() ... *)
| g_return w c cl r o d ca f :
    gstep Native (Generation (Running []) w c cl r o d ca f) (Generation Unwinding w c true r o d ca f)
(* ... and TryRemove(key) *)
| g_remove w c cl r o d ca f :
    gstep Native (Generation Unwinding w c cl r o d ca f) (Generation (task_end oc) false c cl r o d ca f)
(* the reader: something to read *)
| g_wake t w x c cl o d ca f :
    gstep Reader (Generation t w (x :: c) cl Waiting o d ca f) (Generation t w (x :: c) cl Taking o d ca f)
| g_take t w x c cl o d ca f :
    gstep Reader (Generation t w (x :: c) cl Taking o d ca f) (Generation t w c cl Taking (o ++ [x]) d ca f)
| g_again t w cl o d ca f :
    gstep Reader (Generation t w [] cl Taking o d ca f) (Generation t w [] cl Waiting o d ca f)
(* completed and empty: the loop ends *)
| g_drained t w o d ca f :
    gstep Reader (Generation t w [] true Waiting o d ca f) (Generation t w [] true AwaitTask o d ca f)
| g_await t w c cl o d ca f r :
    await_end t = Some r ->
    gstep Reader (Generation t w c cl AwaitTask o d ca f) (Generation t w c cl r o d ca f)
(* the token was cancelled: WaitToReadAsync throws, or the consumer gives up at a yield *)
| g_give_up t w c cl r o d f :
    r = Waiting \/ r = Taking ->
    gstep Reader (Generation t w c cl r o d true f) (Generation t w c cl ReaderCanceled o d true f)
(* the consumer leaves its loop at a yield, as the gate probe does after eight pieces *)
| g_break t w c cl o x d ca f :
    gstep Reader (Generation t w c cl Taking (o ++ [x]) d ca f) (Generation t w c cl ReaderDisposed (o ++ [x]) d ca f)
| g_request_cancel t w c cl r o d ca f :
    gstep Client (Generation t w c cl r o d ca f) (Generation t w c cl r o d true f)
(* the model is disposed *)
| g_free t w c cl r o d ca :
    gstep Client (Generation t w c cl r o d ca false) (Generation t w c cl r o d ca true).

Definition greach (g : generation) : Prop := rtc (fun s s' => exists a, gstep a s s') GenerateAsync g.

(** The texts of a list of pieces: null and empty ones are skipped. *)
Definition text_of (p : piece) : option text :=
  match p with Some bytes => match GetString bytes with [] => None | s => Some s end | None => None end.
Definition texts (l : list piece) : list text := omap text_of l.

Lemma OnPiece_eq p g : g_writers g = true ->
  OnPiece p g = match text_of p with Some s => TryWrite s g | None => g end.
Proof. intros Hw. unfold OnPiece, text_of. rewrite Hw. destruct p as [bytes|]; [|done]. by destruct (GetString bytes). Qed.

Lemma texts_cons p l : texts (p :: l) = option_list (text_of p) ++ texts l.
Proof. unfold texts. simpl. by destruct (text_of p). Qed.

(** What the native call will still emit. *)
Definition remaining (t : task_state) : list text :=
  match t with Queued | TaskCanceled => texts pieces | Running rest => texts rest | _ => [] end.

(** ** The invariant *)

Record ginv (g : generation) : Prop := {
  gi_cap : length (g_chan g) <= piece_capacity;
  gi_writers : g_writers g = negb (bool_decide (g_task g = task_end oc));
  gi_closed : g_closed g = bool_decide (g_task g = Unwinding \/ g_task g = task_end oc);
  gi_sub : exists l, texts pieces = l ++ remaining (g_task g) /\
             (g_out g ++ g_chan g) `sublist_of` l /\
             length l = length (g_out g) + length (g_chan g) + length (g_dropped g);
  gi_full : g_dropped g <> [] -> piece_capacity < length (g_out g) + length (g_chan g) + length (g_dropped g);
  gi_fin : g_task g = RanToCompletion \/ g_task g = TaskFaulted -> g_task g = task_end oc;
  gi_task : g_task g = TaskCanceled -> g_cancel g = true;
  gi_await : g_reader g = AwaitTask \/ g_reader g = Ended \/ g_reader g = ReaderFaulted -> g_chan g = [] /\ g_closed g = true;
  gi_over : g_reader g = ReaderCanceled -> g_cancel g = true;
  gi_end : (g_reader g = Ended -> g_task g = RanToCompletion) /\ (g_reader g = ReaderFaulted -> g_task g = TaskFaulted) }.

Lemma ginv_start : ginv GenerateAsync.
Proof.
  split; simpl; try naive_solver; try (by destruct oc); [unfold piece_capacity; lia|].
  exists []. split_and!; [done | constructor | done].
Qed.

(** A piece leaves the task's duty and enters the channel or the dropped texts, or had no text. *)
Lemma ginv_piece p rest g : g_task g = Running (p :: rest) -> ginv g -> ginv (OnPiece p (set_task (Running rest) g)).
Proof.
  intros Ht [Hc Hw Hcl (l & Hl & Hs & Hn) Hf Hfin Htc Ha Ho He].
  destruct g as [t w c cl r o d ca f]; cbn [g_task g_writers g_chan g_closed g_reader g_out g_dropped g_cancel g_freed remaining] in *; subst t.
  assert (w = true) as -> by (rewrite Hw; by destruct oc).
  assert (cl = false) as -> by (rewrite Hcl; destruct oc; by rewrite bool_decide_false by naive_solver).
  rewrite OnPiece_eq by done. cbn [remaining] in Hl. rewrite texts_cons in Hl. unfold TryWrite, set_task; simpl.
  assert (~ (Running rest = Unwinding \/ Running rest = task_end oc)) as Hend
    by (intros [?|?]; [done | by destruct oc]).
  assert (forall b, (r = AwaitTask \/ r = Ended \/ r = ReaderFaulted -> c = [] /\ false = true) ->
    r = AwaitTask \/ r = Ended \/ r = ReaderFaulted -> b) as Hno by (intros b H E; by destruct (H E)).
  destruct He as [He1 He2]. destruct (text_of p) as [s|]; cbn [option_list app] in Hl.
  - destruct (decide (length c < piece_capacity)) as [Hlt|Hge];
      [rewrite bool_decide_true by done | rewrite bool_decide_false by done].
    + split; simpl; rewrite ?length_app; simpl;
        [lia | by destruct oc | by rewrite bool_decide_false | | intros Hd; specialize (Hf Hd); lia | by intros [?|?] | done | by apply Hno | done
        | split; [by intros ?%He1 | by intros ?%He2]].
      exists (l ++ [s]). rewrite length_app. split_and!; [by rewrite <- app_assoc| |simpl; lia].
      rewrite app_assoc. by apply sublist_app.
    + split; simpl; rewrite ?length_app; simpl;
        [done | by destruct oc | by rewrite bool_decide_false | | lia | by intros [?|?] | done | by apply Hno | done | split; [by intros ?%He1 | by intros ?%He2]].
      exists (l ++ [s]). rewrite length_app. split_and!; [by rewrite <- app_assoc| |simpl; lia].
      by apply sublist_inserts_r.
  - split; simpl; try done; [by destruct oc | by rewrite bool_decide_false | by exists l | by intros [?|?] | split; [by intros ?%He1 | by intros ?%He2]].
Qed.

Lemma task_end_eq t : t = task_end oc -> t = RanToCompletion \/ t = TaskFaulted.
Proof. intros ->. destruct oc; auto. Qed.

Lemma ginv_step a g g' : gstep a g g' -> ginv g -> ginv g'.
Proof.
  intros Hstep Hg. destruct (Hstep) as [| |p rest g Ht| | | | | | |? ? ? ? ? ? ? ? ? Hr|? ? ? ? ? ? ? ? Hr|? ? ? ? ? ? ? ? ?| |];
    [| |by apply ginv_piece|..].
  all: destruct Hg as [Hc Hw Hcl (l & Hl & Hs & Hn) Hf Hfin Htc Ha Ho [He1 He2]]; simpl in *.
  all: split; simpl; rewrite ?length_app; simpl;
    try first [lia | done | by eexists | by destruct oc | by rewrite bool_decide_true by auto
              | by rewrite bool_decide_true by (destruct oc; auto)
              | by intros [?|[?|?]] | by intros [?|?] | by split
              | by intros Hd; specialize (Hf Hd); lia ].
  all: try (split; [by intros ?%He1 | by intros ?%He2]).
  - intros H. by destruct (Ha H).
  - exists l. split_and!; [|done..]. by destruct oc.
  - exists l. rewrite <- app_assoc. split_and!; [done | done | lia].
  - intros _. apply Ha. by left.
  - intros ->. apply Htc. by destruct t; simplify_eq/=.
  - destruct t; simplify_eq/=; by split.
  - rewrite length_app in Hn. by exists l.
  - intros Hd. specialize (Hf Hd). rewrite length_app in Hf. done.
Qed.


(** ** Progress *)

(** What is left to do: a piece of the task is worth a delivery and a wake-up of the reader. *)
Definition task_work (t : task_state) : nat :=
  match t with
  | Queued => 6 * length pieces + 4
  | Running rest => 6 * length rest + 3
  | Unwinding => 2
  | _ => 0
  end.
Definition reader_work (r : reader_state) (c : list text) : nat :=
  match r with
  | Waiting => (match c with [] => 2 | _ => 4 end) + 3 * length c
  | Taking => 3 + 3 * length c
  | AwaitTask => 1
  | _ => 0
  end.
Definition gwork (g : generation) : nat := task_work (g_task g) + reader_work (g_reader g) (g_chan g).

Lemma reader_work_snoc r c x : reader_work r (c ++ [x]) <= reader_work r c + 5.
Proof. destruct r; simpl; rewrite ?length_app; simpl; destruct c; simpl; lia. Qed.

Lemma OnPiece_task p g : g_task (OnPiece p g) = g_task g.
Proof. destruct p as [b|]; [|done]. simpl. unfold TryWrite. repeat case_match; done. Qed.

Lemma OnPiece_work p g : gwork (OnPiece p g) <= gwork g + 5.
Proof.
  destruct p as [b|]; [|simpl; lia]. cbn [OnPiece]. destruct (g_writers g); [|lia].
  destruct (GetString b) as [|z l]; [lia|]. unfold TryWrite, gwork.
  pose proof (reader_work_snoc (g_reader g) (g_chan g) (z :: l)).
  case_match; cbn [g_task g_reader g_chan]; lia.
Qed.

Lemma gstep_work a g g' : gstep a g g' -> gwork g' <= gwork g /\ (a <> Client -> gwork g' < gwork g).
Proof.
  intros H. destruct H as [| |p rest g Ht| | | | | | |t ? ? ? ? ? ? ? r Hr|? ? ? ? r ? ? ? Hr|? ? ? ? ? ? ? ? ?| |]; unfold gwork; simpl; try (split; [lia|]; intros; try done; lia).
  - pose proof (OnPiece_work p (set_task (Running rest) g)) as H. unfold gwork in H |- *. rewrite OnPiece_task in *.
    simpl in H |- *. rewrite Ht. simpl. lia.
  - destruct oc; simpl; split; lia.
  - destruct t; simplify_eq/=; split; lia.
  - destruct Hr as [-> | ->], c; simpl; split; lia.
Qed.

Lemma OnPiece_keeps p g :
  g_reader (OnPiece p g) = g_reader g /\ g_closed (OnPiece p g) = g_closed g /\
  g_cancel (OnPiece p g) = g_cancel g /\ (g_chan g <> [] -> g_chan (OnPiece p g) <> []).
Proof.
  destruct p as [b|]; [|done]. simpl. unfold TryWrite. repeat case_match; simpl; split_and!; try done.
  intros Hne ?%app_nil. naive_solver.
Qed.

(** When a task can move. *)
Definition ready (a : role) (g : generation) : bool :=
  match a with
  | Native => match g_task g with Queued | Running _ | Unwinding => true | _ => false end
  | Reader =>
      match g_reader g with
      | Waiting => negb (bool_decide (g_chan g = [])) || g_closed g || g_cancel g
      | Taking => true
      | AwaitTask => bool_decide (is_Some (await_end (g_task g)))
      | _ => false
      end
  | Client => true
  end.

Lemma ready_enabled a g : ginv g -> ready a g = true -> enabled gstep a g.
Proof.
  intros Hg. destruct g as [t w c cl r o d ca f], a; simpl.
  - destruct t as [|[|p l]| | | |]; try done; intros _; [destruct ca| | |]; eexists;
      [apply g_never_started | apply g_start | apply g_return | by eapply g_piece | apply g_remove].
  - destruct r; try done.
    + destruct c as [|x c]; [|intros _; eexists; apply g_wake]. destruct cl; [intros _; eexists; apply g_drained|].
      destruct ca; [|done]. intros _. eexists. apply g_give_up. by left.
    + destruct c; intros _; eexists; [apply g_again | apply g_take].
    + intros [r Hr]%bool_decide_eq_true. eexists. by apply g_await.
  - intros _. eexists. apply g_request_cancel.
Qed.

Lemma enabled_ready a g : enabled gstep a g -> ready a g = true.
Proof.
  intros [g' H]. destruct H as [| |p rest g Ht| | | | | | |? ? ? ? ? ? ? ? r Hr|? ? ? ? r ? ? ? Hr| | |]; simpl; try done.
  - by rewrite Ht.
  - rewrite Hr. done.
  - destruct Hr as [-> | ->]; [by rewrite orb_true_r | done].
Qed.

Lemma ready_persists a b g g' : ready a g = true -> gstep b g g' -> b <> a -> a <> Client -> ready a g' = true.
Proof.
  intros Hr H Hne Hc. destruct H as [| |p rest g Ht| | | | | | | | | | |], a; simpl in *; try done.
  - by destruct r.
  - destruct (OnPiece_keeps p (set_task (Running rest) g)) as (-> & -> & -> & Hch). rewrite OnPiece_task. simpl in *.
    rewrite Ht in Hr. destruct (g_reader g); try done. destruct (g_closed g), (g_cancel g); rewrite ?orb_true_r, ?orb_false_r in *; try done.
    apply negb_true_iff, bool_decide_eq_false in Hr. by apply negb_true_iff, bool_decide_eq_false, Hch.
  - destruct r; try done. by rewrite orb_true_r.
  - destruct r; try done; by destruct oc.
  - destruct r; try done. by rewrite orb_true_r.
Qed.

Lemma gstep_persists a b g g' : ginv g -> a <> Client -> enabled gstep a g -> gstep b g g' -> b <> a -> enabled gstep a g'.
Proof.
  intros Hg Ha He Hs Hne. apply ready_enabled; [by eapply ginv_step|]. eapply ready_persists; [by apply enabled_ready|done..].
Qed.

(** ** What a call delivers *)

Definition finished (t : task_state) : Prop := t = RanToCompletion \/ t = TaskFaulted \/ t = TaskCanceled.
#[local] Instance finished_dec t : Decision (finished t).
Proof. unfold finished. apply _. Defined.

Lemma sublist_full {A} (l1 l2 : list A) : l1 `sublist_of` l2 -> length l2 <= length l1 -> l1 = l2.
Proof.
  induction 1 as [|x l1 l2 _ IH|x l1 l2 H _]; simpl; intros Hle; [done | f_equal; apply IH; lia |].
  apply sublist_length in H. lia.
Qed.

Lemma undropped g : ginv g -> g_dropped g = [] -> texts pieces = g_out g ++ g_chan g ++ remaining (g_task g).
Proof.
  intros [_ _ _ (l & Hl & Hs & Hn) _ _ _ _ _ _] Hd. rewrite Hd, Nat.add_0_r in Hn. rewrite app_assoc.
  rewrite Hl at 1. f_equal. symmetry. apply sublist_full; [done|]. rewrite length_app. lia.
Qed.


Definition settled (g : generation) : Prop := over (g_reader g) /\ finished (g_task g).
#[local] Instance settled_dec g : Decision (settled g).
Proof. unfold settled. apply _. Defined.

Lemma finished_signals g : ginv g -> finished (g_task g) -> g_closed g = true \/ g_cancel g = true.
Proof.
  intros [_ _ Hcl _ _ Hfin Htc _ _ _] [E|[E|E]]; [left|left|right; by apply Htc].
  all: rewrite Hcl; apply bool_decide_true; right; apply Hfin; auto.
Qed.

Lemma unsettled_ready g : ginv g -> ~ settled g -> exists a, a <> Client /\ enabled gstep a g.
Proof.
  intros Hg Hn. destruct (decide (finished (g_task g))) as [Hfin|Hfin].
  - exists Reader. split; [done|]. apply ready_enabled; [done|].
    pose proof (finished_signals g Hg Hfin) as Hsig. assert (~ over (g_reader g)) as Hov by (intros ?; by apply Hn).
    unfold over in Hov. simpl. clear Hg. destruct (g_reader g); try reflexivity; try (exfalso; apply Hov; tauto).
    + destruct Hsig as [-> | ->]; by rewrite ?orb_true_r.
    + apply bool_decide_true. destruct Hfin as [-> |[-> | ->]]; by eexists.
  - exists Native. split; [done|]. apply ready_enabled; [done|]. unfold finished in Hfin. simpl.
    destruct (g_task g); naive_solver.
Qed.

(** C14: Liveness: in every execution that is fair to the task and to the reader, a call settles: the task has
    ended and the stream is over.  If the call was neither cancelled nor left by its consumer, the stream ended normally exactly
    when the native call returned, whatever its return code, and with the exception otherwise; and if no
    piece was dropped, it delivered all of them. *)
Theorem llama_stream_ends sigma :
  sigma 0 = GenerateAsync -> execution gstep sigma -> fair_to gstep Native sigma -> fair_to gstep Reader sigma ->
  exists n, over (g_reader (sigma n)) /\ finished (g_task (sigma n)) /\
    (g_cancel (sigma n) = false -> g_reader (sigma n) <> ReaderDisposed ->
     g_reader (sigma n) = match oc with Returns _ => Ended | Raises => ReaderFaulted end /\
     (g_dropped (sigma n) = [] -> g_out (sigma n) = texts pieces)).
Proof.
  intros H0 He Hn Hr. pose proof ginv_start as Hi. rewrite <- H0 in Hi.
  assert (forall a s s', ginv s -> gstep a s s' -> ginv s') as Hstep by eauto using ginv_step.
  destruct (fair_reaches gstep (fun a => a <> Client) ginv gwork Hstep) with (G := settled) (sigma := sigma) (n := 0)
    as (n & _ & Hov & Hfin); try done.
  - intros a s s' _ Ha Hs. by apply gstep_work in Hs as [_ Hs]; apply Hs.
  - intros a s s' _ Hs. by apply gstep_work in Hs as [Hs _].
  - intros a b s s' Hs Ha Hen Hb Hne. by eapply gstep_persists.
  - apply _.
  - by apply unsettled_ready.
  - intros [| |] ?; done.
  - exists n. split_and!; [done..|]. intros Hca Hdi. pose proof (execution_invariant gstep ginv sigma Hstep He Hi n) as Hg.
    pose proof (undropped _ Hg) as Hu. destruct Hg as [_ _ _ _ _ Hend _ Haw Hcn [He1 He2]].
    split.
    + destruct Hov as [E|[E|[E|E]]]; [| |by rewrite (Hcn E) in Hca|done].
      * pose proof (Hend (or_introl (He1 E))) as Ht. rewrite (He1 E) in Ht. by destruct oc.
      * pose proof (Hend (or_intror (He2 E))) as Ht. rewrite (He2 E) in Ht. by destruct oc.
    + intros Hd. rewrite (Hu Hd). destruct Haw as [-> _]; [destruct Hov as [?|[?|[E|E]]]; auto; [by rewrite (Hcn E) in Hca | done]|].
      destruct Hfin as [-> |[-> |E]]; [by rewrite app_nil_r..|]. exfalso.
      destruct Hov as [E'|[E'|[E'|E']]]; [apply He1 in E' | apply He2 in E' | apply Hcn in E' |]; congruence.
Qed.

(** ** What goes wrong *)

Ltac gstep_one := eapply rtc_l; [eexists; first [apply g_start | apply g_return | apply g_remove | apply g_drained
  | apply g_wake | apply g_take | apply g_again | by apply g_await | apply g_request_cancel]|].

(** The native call emits all its pieces while the reader is not scheduled. *)
Lemma run_native l c d : length c <= piece_capacity ->
  rtc (fun s s' => exists a, gstep a s s') (Generation (Running l) true c false Waiting [] d false false)
    (Generation (Running []) true (take piece_capacity (c ++ texts l)) false Waiting []
       (d ++ drop (piece_capacity - length c) (texts l)) false false).
Proof.
  revert c d. induction l as [|p l IH]; intros c d Hc.
  - unfold texts. simpl. rewrite drop_nil, !app_nil_r, take_ge by done. done.
  - eapply rtc_l; [exists Native; by eapply g_piece|]. rewrite OnPiece_eq by done. rewrite texts_cons.
    destruct (text_of p) as [s|]; cbn [option_list app]; [|by apply IH].
    unfold TryWrite, set_task; cbn [g_task g_writers g_chan g_closed g_reader g_out g_dropped g_cancel g_freed negb andb].
    destruct (decide (length c < piece_capacity)) as [Hlt|Hge];
      [rewrite bool_decide_true by done | rewrite bool_decide_false by done].
    + etrans; [apply IH; rewrite length_app; simpl; lia|]. rewrite <- app_assoc, length_app.
      replace (piece_capacity - length c) with (S (piece_capacity - (length c + length [s]))) by (simpl; lia). done.
    + etrans; [by apply IH|]. assert (piece_capacity - length c = 0) as -> by lia.
      rewrite !take_app_le by lia. by rewrite !drop_0, <- app_assoc.
Qed.

Lemma run_reader t w c o d ca f :
  rtc (fun s s' => exists a, gstep a s s') (Generation t w c true Taking o d ca f) (Generation t w [] true AwaitTask (o ++ c) d ca f).
Proof.
  revert o. induction c as [|x c IH]; intros o.
  - rewrite app_nil_r. do 2 gstep_one. done.
  - gstep_one. by rewrite (assoc_L (++) o [x] c : o ++ x :: c = _).
Qed.

(** [TryWrite] on the full channel loses text silently, although the channel is created to make the
    writer wait: for every model with more than 256 pieces there is an execution whose stream ends normally
    after the first 256, the others are gone. *)
Theorem llama_drops_pieces rc :
  oc = Returns rc -> piece_capacity < length (texts pieces) ->
  exists g, greach g /\ g_reader g = Ended /\ g_cancel g = false /\
    g_out g = take piece_capacity (texts pieces) /\ g_out g <> texts pieces.
Proof.
  intros Hoc Hlen. exists (Generation RanToCompletion false [] true Ended (take piece_capacity (texts pieces))
    (drop piece_capacity (texts pieces)) false false). split_and!; try done.
  - unfold greach, GenerateAsync. gstep_one. etrans; [apply (run_native pieces [] []), Nat.le_0_l|].
    cbn [app length]. rewrite Nat.sub_0_r. gstep_one. gstep_one. rewrite Hoc.
    destruct (take piece_capacity (texts pieces)) as [|x c] eqn:E.
    { apply (f_equal length) in E.  rewrite length_take, Nat.min_l in E by lia. by unfold piece_capacity in E. }
    gstep_one. etrans; [apply run_reader|]. gstep_one. done.
  - cbn [g_out]. intros E. apply (f_equal length) in E. rewrite length_take in E. lia.
Qed.

(** Three ways to free the handle under the native generation, which goes on and calls back: after a
    cancelled call, whose stream is over although the task runs (a session that shutdown awaited); while a consumer
    that nobody awaits is still reading (an answer of a socket server); after a consumer left the stream
    at a yield (the gate probe, whose [using] disposes the model next). *)
Theorem llama_use_after_free p rest :
  pieces = p :: rest ->
  (exists g, greach g /\ over (g_reader g) /\ g_freed g = true /\ g_task g = Running pieces /\
     gstep Native g (OnPiece p (set_task (Running rest) g))) /\
  (exists g, greach g /\ g_reader g = Waiting /\ g_cancel g = false /\ g_freed g = true /\ g_task g = Running pieces) /\
  (is_Some (text_of p) ->
   exists g, greach g /\ g_reader g = ReaderDisposed /\ g_cancel g = false /\ g_freed g = true /\ g_task g = Running rest).
Proof.
  intros Hp. split_and!.
  - exists (Generation (Running pieces) true [] false ReaderCanceled [] [] true true).
    split_and!; [|by right; right; left|done..|by apply g_piece; rewrite Hp].
    unfold greach, GenerateAsync. gstep_one. eapply rtc_l; [exists Client; apply g_request_cancel|].
    eapply rtc_l; [exists Reader; apply g_give_up; by left|].
    eapply rtc_l; [exists Client; apply g_free|]. done.
  - exists (Generation (Running pieces) true [] false Waiting [] [] false true). split_and!; try done.
    unfold greach, GenerateAsync. gstep_one. eapply rtc_l; [exists Client; apply g_free|]. done.
  - intros [t Ht]. exists (Generation (Running rest) true [] false ReaderDisposed [t] [] false true). split_and!; try done.
    unfold greach, GenerateAsync. gstep_one. eapply rtc_l; [exists Native; eapply g_piece; by rewrite Hp|].
    rewrite OnPiece_eq, Ht by done. gstep_one. gstep_one.
    eapply rtc_l; [exists Reader; apply (g_break _ _ _ _ [] t)|]. eapply rtc_l; [exists Client; apply g_free|]. done.
Qed.
End Generate.

(** ** Characters split between pieces *)

(** [OnPiece] decodes every piece on its own: if each piece is complete UTF-8, the stream's text is the
    text of all the bytes; llama.cpp's byte-level tokens make no such promise, and a character split between
    two pieces becomes two replacement characters. *)
Theorem pieces_decode_separately (l : list (list Z)) :
  (forall b, b ∈ l -> exists cs, Forall scalar cs /\ b = encode cs) ->
  concat (texts (map Some l)) = GetString (concat l) /\
  concat (texts [Some [0xC3%Z]; Some [0xA9%Z]]) = [replacement; replacement] /\ GetString [0xC3; 0xA9]%Z = [0xE9%Z].
Proof.
  intros H. split; [|split; reflexivity]. induction l as [|b l IH]; [done|]. cbn [map concat].
  rewrite texts_cons, concat_app, IH by (intros x Hx; apply H; by right).
  destruct (H b (list_elem_of_here _ _)) as (cs & Hcs & ->). 
  unfold GetString at 2. rewrite decode_app_encode by done.
  unfold to_utf16. rewrite map_app, concat_app. f_equal. unfold text_of, GetString.
  rewrite decode_encode by done. fold (to_utf16 cs). destruct (to_utf16 cs); [done|]. simpl. by rewrite app_nil_r.
Qed.
(** ** Concrete instances *)

(** One piece "a", one empty piece, one null piece. *)
Definition demo_pieces : list piece := [Some [97%Z]; Some []; None].

Ltac next_state :=
  match goal with
  | |- exists a, gstep ?ps ?oc a ?g ?g' =>
      let t := eval vm_compute in (g_task g) in
      match t with
      | Running (?p :: ?r) => exists Native; exact (g_piece ps oc p r g eq_refl)
      | _ => eexists; first [apply g_start | apply g_return | apply (g_remove ps oc) | apply g_wake
                            | apply g_take | apply g_again | apply g_drained | by apply g_await]
      end
  end.

(** A run of that model in which the reader waits for the task. *)
Definition demo_run : list generation :=
  let a := [97%Z] in
  [Generation (Running demo_pieces) true [] false Waiting [] [] false false;
   Generation (Running [Some []; None]) true [a] false Waiting [] [] false false;
   Generation (Running [None]) true [a] false Waiting [] [] false false;
   Generation (Running []) true [a] false Waiting [] [] false false;
   Generation Unwinding true [a] true Waiting [] [] false false;
   Generation RanToCompletion false [a] true Waiting [] [] false false;
   Generation RanToCompletion false [a] true Taking [] [] false false;
   Generation RanToCompletion false [] true Taking [a] [] false false;
   Generation RanToCompletion false [] true Waiting [a] [] false false;
   Generation RanToCompletion false [] true AwaitTask [a] [] false false;
   Generation RanToCompletion false [] true Ended [a] [] false false].

Lemma demo_chained : chained (gstep demo_pieces (Returns 0)) GenerateAsync demo_run.
Proof. repeat (split; [next_state|]). exact I. Qed.

Lemma demo_quiet a : a <> Client -> ~ enabled (gstep demo_pieces (Returns 0)) a (List.last (GenerateAsync :: demo_run) GenerateAsync).
Proof. intros Ha He. apply enabled_ready in He. by destruct a. Qed.

Lemma llama_stream_ends_witness :
  let sigma := prolong GenerateAsync (GenerateAsync :: demo_run) in
  exists n, over (g_reader (sigma n)) /\ finished (g_task (sigma n)) /\
    (g_cancel (sigma n) = false -> g_reader (sigma n) <> ReaderDisposed -> g_reader (sigma n) = Ended /\
       (g_dropped (sigma n) = [] -> g_out (sigma n) = texts demo_pieces)).
Proof.
  intros sigma. apply (llama_stream_ends demo_pieces (Returns 0) sigma).
  - reflexivity.
  - apply prolong_execution, demo_chained.
  - apply prolong_fair, demo_quiet. discriminate.
  - apply prolong_fair, demo_quiet. discriminate.
Defined.



(** 257 times "a". *)
Lemma llama_drops_pieces_witness : exists g,
  greach (replicate 257 (Some [97%Z])) (Returns 0) g /\ g_out g <> texts (replicate 257 (Some [97%Z])).
Proof.
  destruct (llama_drops_pieces (replicate 257 (Some [97%Z])) (Returns 0) 0 eq_refl) as (g & Hg & _ & _ & _ & Ho).
  - vm_compute. lia.
  - exists g. exact (conj Hg Ho).
Defined.

Lemma llama_use_after_free_witness : exists g,
  greach demo_pieces (Returns 0) g /\ g_freed g = true /\ g_task g = Running demo_pieces.
Proof.
  destruct (llama_use_after_free demo_pieces (Returns 0) (Some [97%Z]) [Some []; None] eq_refl) as [(g & H1 & _ & H2 & H3 & _) _].
  exists g. exact (conj H1 (conj H2 H3)).
Defined.

Lemma pieces_decode_witness : concat (texts (map Some [[0xC3%Z; 0xA9%Z]; [97%Z]])) = GetString [0xC3; 0xA9; 97]%Z.
Proof.
  apply (pieces_decode_separately [[0xC3%Z; 0xA9%Z]; [97%Z]]). intros b Hb.
  apply elem_of_cons in Hb as [->|Hb]; [exists [0xE9%Z]|apply list_elem_of_singleton in Hb as ->; exists [97%Z]];
    (split; [repeat constructor; unfold scalar; lia | reflexivity]).
Defined.
