(* ===== verification/Json.v ===== *)
(** * Json: the JSON the engine writes by hand and reads back

    [JsonString] (raw HTTP server) and [JsonStringLiteral] (router) escape a C# string by hand, because the
    reflection serializer is not available ahead of time.  What they write is read by [JsonDocument.Parse] of
    the standard library, modelled here as a strict RFC 8259 reader over UTF-16 code units: no comments, no
    trailing commas, at most 64 levels, the whole input one value.  Strings stay raw until they are asked for
    ([GetString]), which throws on an escaped surrogate without its partner; objects keep their members in
    order, and a lookup finds the last one of a name. *)

From S2P Require Import Prelude Utf8.
From Stdlib Require Import Ascii.
Local Open Scope Z_scope.
#[local] Set Warnings "-clear-no-such-hyp,-register-all".

Definition text := list Z.

(** An ASCII literal as code units. *)
Definition lit (s : string) : text := map (fun a => Z.of_N (N_of_ascii a)) (String.list_ascii_of_string s).

(** ** Writing a string (Exports.HttpRaw.cs, DeterministicRouter.cs) *)

Definition hex_digit (n : Z) : Z := if n <? 10 then 48 + n else 87 + n.

(** [((int)c).ToString("x4")] *)
Definition x4 (c : Z) : text :=
  [hex_digit (c / 4096); hex_digit ((c / 256) mod 16); hex_digit ((c / 16) mod 16); hex_digit (c mod 16)].

Definition escape_char (c : Z) : text :=
  if c =? 34 then [92; 34]
  else if c =? 92 then [92; 92]
  else if c =? 10 then [92; 110]
  else if c =? 13 then [92; 114]
  else if c =? 9 then [92; 116]
  else if c <? 0x20 then [92; 117] ++ x4 c
  else [c].

Definition JsonString (value : text) : text := [34] ++ concat (map escape_char value) ++ [34].

(** ** Reading *)

Inductive json :=
| JNull
| JBool (b : bool)
| JNumber (raw : text)
| JString (raw : text)
| JArray (elements : list json)
| JObject (members : list (text * (text * json))).   (* raw name, raw value, value *)

Inductive parsed (A : Type) := Parsed (a : A) (rest : text) | Malformed | OutOfFuel.
Arguments Parsed {A}. Arguments Malformed {A}. Arguments OutOfFuel {A}.

Definition is_ws (c : Z) : bool := (c =? 32) || (c =? 9) || (c =? 10) || (c =? 13).
Fixpoint skip_ws (s : text) : text :=
  match s with c :: r => if is_ws c then skip_ws r else s | [] => [] end.

Definition is_digit (c : Z) : bool := (48 <=? c) && (c <=? 57).
Definition hex_value (c : Z) : option Z :=
  if is_digit c then Some (c - 48)
  else if (97 <=? c) && (c <=? 102) then Some (c - 87)
  else if (65 <=? c) && (c <=? 70) then Some (c - 55)
  else None.
Definition is_hex (c : Z) : bool := bool_decide (is_Some (hex_value c)).

(** The characters that may follow a backslash, [u] apart. *)
Definition simple_escape (e : Z) : option Z :=
  if e =? 34 then Some 34 else if e =? 92 then Some 92 else if e =? 47 then Some 47
  else if e =? 98 then Some 8 else if e =? 102 then Some 12 else if e =? 110 then Some 10
  else if e =? 114 then Some 13 else if e =? 116 then Some 9 else None.

(** The rest of a string token after its opening quote: its raw text and what follows the closing one. *)
Fixpoint string_body (s : text) : option (text * text) :=
  match s with
  | [] => None
  | c :: r =>
      if c =? 34 then Some ([], r)
      else if c =? 92 then
        match r with
        | e :: r' =>
            if e =? 117 then
              match r' with
              | h1 :: h2 :: h3 :: h4 :: r'' =>
                  if forallb is_hex [h1; h2; h3; h4] then
                    '(raw, rest) ← string_body r''; Some ([92; e; h1; h2; h3; h4] ++ raw, rest)
                  else None
              | _ => None
              end
            else
              match simple_escape e with
              | Some _ => '(raw, rest) ← string_body r'; Some ([92; e] ++ raw, rest)
              | None => None
              end
        | [] => None
        end
      else if c <? 0x20 then None
      else '(raw, rest) ← string_body r; Some (c :: raw, rest)
  end.

Fixpoint digits (s : text) : text * text :=
  match s with
  | c :: r => if is_digit c then let '(d, rest) := digits r in (c :: d, rest) else ([], s)
  | [] => ([], [])
  end.

(** One digit or more. *)
Definition digits1 (s : text) : option (text * text) :=
  match digits s with ([], _) => None | p => Some p end.

(** The rest of [s] if it starts with [c]. *)
Definition first_is (c : Z) (s : text) : option text :=
  match s with x :: r => if x =? c then Some r else None | [] => None end.

(** [-? (0 | [1-9][0-9]* ) ( . [0-9]+ )? ( [eE] [+-]? [0-9]+ )?] *)
Definition exponent_sign (s : text) : text * text :=
  match s with c :: r => if (c =? 43) || (c =? 45) then ([c], r) else ([], s) | [] => ([], []) end.
Definition number (s : text) : option (text * text) :=
  let '(sign, s1) := match first_is 45 s with Some r => ([45], r) | None => ([], s) end in
  '(int, s2) ← match first_is 48 s1 with Some r => Some ([48], r) | None => digits1 s1 end;
  '(frac, s3) ← match first_is 46 s2 with
                | Some r => '(d, rest) ← digits1 r; Some (46 :: d, rest)
                | None => Some ([], s2)
                end;
  '(exp, s4) ← match s3 with
               | e :: r =>
                   if (e =? 101) || (e =? 69) then
                     let '(sg, r1) := exponent_sign r in
                     '(d, rest) ← digits1 r1; Some (e :: sg ++ d, rest)
                   else Some ([], s3)
               | [] => Some ([], [])
               end;
  Some (sign ++ int ++ frac ++ exp, s4).

(** The literal [w] at the start of [s]. *)
Fixpoint literal (w s : text) : option text :=
  match w, s with
  | [], _ => Some s
  | x :: w', y :: s' => if x =? y then literal w' s' else None
  | _, _ => None
  end.

(** What was read between [s] and its suffix [rest]. *)
Definition consumed (s rest : text) : text := take (length s - length rest)%nat s.

Definition max_depth : nat := 64.

(** A value; the elements of an array after [[]; the members of an object after the opening brace. *)
Fixpoint value (fuel depth : nat) (s : text) : parsed json :=
  match fuel with
  | O => OutOfFuel
  | S n =>
      match skip_ws s with
      | [] => Malformed
      | c :: r =>
          if c =? 34 then
            match string_body r with Some (raw, rest) => Parsed (JString raw) rest | None => Malformed end
          else if c =? 123 then
            if bool_decide (depth < max_depth)%nat then
              match first_is 125 (skip_ws r) with
              | Some rest => Parsed (JObject []) rest
              | None => match members n (S depth) (skip_ws r) with
                      | Parsed ms rest => Parsed (JObject ms) rest
                      | Malformed => Malformed
                      | OutOfFuel => OutOfFuel
                      end
              end
            else Malformed
          else if c =? 91 then
            if bool_decide (depth < max_depth)%nat then
              match first_is 93 (skip_ws r) with
              | Some rest => Parsed (JArray []) rest
              | None => match elements n (S depth) (skip_ws r) with
                      | Parsed es rest => Parsed (JArray es) rest
                      | Malformed => Malformed
                      | OutOfFuel => OutOfFuel
                      end
              end
            else Malformed
          else
            match literal (lit "null") (c :: r), literal (lit "true") (c :: r), literal (lit "false") (c :: r) with
            | Some rest, _, _ => Parsed JNull rest
            | _, Some rest, _ => Parsed (JBool true) rest
            | _, _, Some rest => Parsed (JBool false) rest
            | _, _, _ => match number (c :: r) with Some (raw, rest) => Parsed (JNumber raw) rest | None => Malformed end
            end
      end
  end
with elements (fuel depth : nat) (s : text) : parsed (list json) :=
  match fuel with
  | O => OutOfFuel
  | S n =>
      match value n depth s with
      | Parsed v rest =>
          match skip_ws rest with
          | c :: r =>
              if c =? 44 then
                match elements n depth r with
                | Parsed es rest' => Parsed (v :: es) rest'
                | Malformed => Malformed
                | OutOfFuel => OutOfFuel
                end
              else if c =? 93 then Parsed [v] r
              else Malformed
          | [] => Malformed
          end
      | Malformed => Malformed
      | OutOfFuel => OutOfFuel
      end
  end
with members (fuel depth : nat) (s : text) : parsed (list (text * (text * json))) :=
  match fuel with
  | O => OutOfFuel
  | S n =>
      match skip_ws s with
      | c :: r =>
          if c =? 34 then
            match string_body r with
            | Some (name, r1) =>
                match skip_ws r1 with
                | c1 :: r2 =>
                    if c1 =? 58 then
                      match value n depth r2 with
                      | Parsed v rest =>
                          let entry := (name, (consumed (skip_ws r2) rest, v)) in
                          match skip_ws rest with
                          | c2 :: r3 =>
                              if c2 =? 44 then
                                match members n depth r3 with
                                | Parsed ms rest' => Parsed (entry :: ms) rest'
                                | Malformed => Malformed
                                | OutOfFuel => OutOfFuel
                                end
                              else if c2 =? 125 then Parsed [entry] r3
                              else Malformed
                          | [] => Malformed
                          end
                      | Malformed => Malformed
                      | OutOfFuel => OutOfFuel
                      end
                    else Malformed
                | [] => Malformed
                end
            | None => Malformed
            end
          else Malformed
      | [] => Malformed
      end
  end.

(** One value and nothing behind it. *)
Definition parse_with (fuel : nat) (s : text) : parsed json :=
  match value fuel 0 s with
  | Parsed v rest => match skip_ws rest with [] => Parsed v [] | _ => Malformed end
  | Malformed => Malformed
  | OutOfFuel => OutOfFuel
  end.
Definition parse_fuel (s : text) : nat := 2 * length s + 2.
Definition read_json (s : text) : option json :=
  match parse_with (parse_fuel s) s with Parsed v _ => Some v | _ => None end.

(** [JsonDocument.Parse] of a string: the text is first transcoded to UTF-8, which is an [ArgumentException] when a
    surrogate has no partner; a text that is not one JSON value is a [JsonException]. *)
Inductive document := Root (v : json) | JsonException | ArgumentException.
Definition JsonDocument_Parse (s : text) : document :=
  if utf16_valid s then match read_json s with Some v => Root v | None => JsonException end else ArgumentException.

(** [GetString] on a string token: [None] is the [InvalidOperationException] for a surrogate escape
    without its partner. *)
Definition unit_of (h1 h2 h3 h4 : Z) : Z :=
  default 0 (hex_value h1) * 4096 + default 0 (hex_value h2) * 256 + default 0 (hex_value h3) * 16 + default 0 (hex_value h4).

Fixpoint unescape (raw : text) : option text :=
  match raw with
  | [] => Some []
  | c :: r =>
      if c =? 92 then
        match r with
        | e :: r' =>
            if e =? 117 then
              match r' with
              | h1 :: h2 :: h3 :: h4 :: r1 =>
                  let u := unit_of h1 h2 h3 h4 in
                  if high u then
                    match r1 with
                    | b :: e2 :: g1 :: g2 :: g3 :: g4 :: r2 =>
                        let v := unit_of g1 g2 g3 g4 in
                        if (b =? 92) && (e2 =? 117) && low v then t ← unescape r2; Some (u :: v :: t) else None
                    | _ => None
                    end
                  else if low u then None
                  else t ← unescape r1; Some (u :: t)
              | _ => Some []
              end
            else t ← unescape r'; Some (default e (simple_escape e) :: t)
        | [] => Some []
        end
      else t ← unescape r; Some (c :: t)
  end.

(** [TryGetProperty]: the last member of that name. *)
Definition TryGetProperty (name : text) (ms : list (text * (text * json))) : option (text * json) :=
  (list_find (fun m : text * (text * json) => unescape m.1 = Some name) (rev ms)) ≫= fun p => Some p.2.2.

Example parse_1 : JsonDocument_Parse (lit " { ") = JsonException.
Proof. reflexivity. Qed.
Example parse_2 : JsonDocument_Parse (lit "[1, -2.5e+3 ,null,[true]] ") =
  Root (JArray [JNumber (lit "1"); JNumber (lit "-2.5e+3"); JNull; JArray [JBool true]]).
Proof. reflexivity. Qed.
Example parse_3 : JsonDocument_Parse ([123; 34; 97; 34; 58; 32] ++ lit "[ 1 ]" ++ [32; 125]) =
  Root (JObject [([97], (lit "[ 1 ]", JArray [JNumber [49]]))]).
Proof. reflexivity. Qed.
Example parse_4 : map JsonDocument_Parse [lit "01"; lit "[1,]"; lit "1 2"; lit "-"; lit "1."; [34; 10; 34]; []] = replicate 7 JsonException.
Proof. reflexivity. Qed.
Example parse_5 : map JsonDocument_Parse [[34; 0xD800; 34]; [34; 0xD83D; 0xDE00; 34]] = [ArgumentException; Root (JString [0xD83D; 0xDE00])].
Proof. reflexivity. Qed.

(** ** Round trips *)

Lemma hex_value_digit n : 0 <= n < 16 -> hex_value (hex_digit n) = Some n.
Proof.
  intros Hn. unfold hex_value, hex_digit, is_digit.
  destruct (Z.ltb_spec n 10); ztests; simpl; f_equal; lia.
Qed.

Lemma is_hex_digit n : 0 <= n < 16 -> is_hex (hex_digit n) = true.
Proof. intros Hn. unfold is_hex. rewrite hex_value_digit by done. by apply bool_decide_eq_true_2. Qed.

Lemma x4_unit c : 0 <= c < 65536 ->
  unit_of (hex_digit (c / 4096)) (hex_digit ((c / 256) mod 16)) (hex_digit ((c / 16) mod 16)) (hex_digit (c mod 16)) = c.
Proof.
  intros Hc. pose proof (Z.div_mod c 16 ltac:(lia)). pose proof (Z.mod_pos_bound c 16 ltac:(lia)).
  pose proof (Z.div_mod (c / 16) 16 ltac:(lia)) as Hq. pose proof (Z.mod_pos_bound (c / 16) 16 ltac:(lia)).
  rewrite Z.div_div in Hq by lia. change (16 * 16) with 256 in Hq.
  pose proof (Z.div_mod (c / 256) 16 ltac:(lia)) as Hr. pose proof (Z.mod_pos_bound (c / 256) 16 ltac:(lia)).
  rewrite Z.div_div in Hr by lia. change (256 * 16) with 4096 in Hr.
  unfold unit_of. rewrite !hex_value_digit by lia. simpl. lia.
Qed.

Lemma escape_char_surrogate c : high c || low c = true -> escape_char c = [c].
Proof. unfold high, low, escape_char. intros H. ztests; done || lia. Qed.

(** The shape of one escaped character. *)
Inductive escaped : Z -> text -> Prop :=
| esc_simple c e : simple_escape e = Some c -> e <> 117 -> escaped c [92; e]
| esc_hex c : 0 <= c < 0x20 -> escaped c ([92; 117] ++ x4 c)
| esc_plain c : 0x20 <= c -> c <> 34 -> c <> 92 -> escaped c [c].

Lemma escape_char_escaped c : 0 <= c -> escaped c (escape_char c).
Proof.
  intros Hc. unfold escape_char.
  repeat match goal with |- context [Z.eqb c ?b] => destruct (Z.eqb_spec c b) as [->|?]; [by apply esc_simple|] end.
  destruct (Z.ltb_spec c 0x20); [by apply esc_hex | by apply esc_plain].
Qed.

Lemma string_body_escaped c e s raw rest :
  escaped c e -> string_body s = Some (raw, rest) -> string_body (e ++ s) = Some (e ++ raw, rest).
Proof.
  intros [c' e' He Hu|c' Hc|c' Hc H34 H92] Hs.
  - cbn [app string_body]. change (92 =? 34) with false. change (92 =? 92) with true. cbn iota.
    rewrite (proj2 (Z.eqb_neq e' 117)) by done. by rewrite He, Hs.
  - cbn [app string_body x4]. change (92 =? 34) with false. change (92 =? 92) with true. change (117 =? 117) with true. cbn iota.
    cbn [forallb]. rewrite !is_hex_digit.
    2-5: pose proof (Z.mod_pos_bound c' 16); pose proof (Z.mod_pos_bound (c' / 16) 16); pose proof (Z.mod_pos_bound (c' / 256) 16);
         pose proof (Z.div_le_upper_bound c' 4096 15); pose proof (Z.div_pos c' 4096); lia.
    cbn [andb]. by rewrite Hs.
  - cbn [app string_body]. rewrite (proj2 (Z.eqb_neq c' 34)), (proj2 (Z.eqb_neq c' 92)), (proj2 (Z.ltb_ge c' 0x20)) by lia.
    by rewrite Hs.
Qed.

Lemma unescape_escaped c e raw t : escaped c e -> unescape raw = Some t -> unescape (e ++ raw) = Some (c :: t).
Proof.
  intros [c' e' He Hu|c' Hc|c' Hc H34 H92] Hs.
  - cbn [app unescape]. change (92 =? 92) with true. cbn iota.
    rewrite (proj2 (Z.eqb_neq e' 117)) by done. by rewrite Hs, He.
  - cbn [app unescape x4]. change (92 =? 92) with true. change (117 =? 117) with true. cbn iota. rewrite x4_unit by lia. cbv zeta.
    unfold high, low. ztests. simpl. by rewrite Hs.
  - cbn [app unescape]. rewrite (proj2 (Z.eqb_neq c' 92)) by lia. by rewrite Hs.
Qed.

Definition units16 (s : text) : Prop := Forall (fun c => 0 <= c) s.
Definition body (s : text) : text := concat (map escape_char s).

Lemma string_body_body s rest : units16 s -> string_body (body s ++ 34 :: rest) = Some (body s, rest).
Proof.
  unfold body. induction 1 as [|c s Hc _ IH]; [done|]. cbn [map concat]. rewrite <- !app_assoc.
  by apply string_body_escaped with c; [apply escape_char_escaped|].
Qed.

Lemma unescape_body s : units16 s -> unescape (body s) = Some s.
Proof.
  unfold body. induction 1 as [|c s Hc _ IH]; [done|]. cbn [map concat].
  by apply unescape_escaped; [apply escape_char_escaped|].
Qed.

(** What is written holds no control character and no bare quote. *)
Lemma body_printable s : units16 s -> Forall (fun c => 0x20 <= c) (body s).
Proof.
  unfold body. induction 1 as [|c s Hc _ IH]; [constructor|]. cbn [map concat]. apply Forall_app. split; [|done].
  destruct (escape_char_escaped c Hc) as [c' e' He _|c' Hc'|c' Hc' _ _].
  - unfold simple_escape in He. repeat constructor; [lia|].
    repeat match type of He with context [Z.eqb e' ?b] => destruct (Z.eqb_spec e' b); [lia|] end. done.
  - assert (forall n, 0 <= n -> 0x20 <= hex_digit n) as H by (intros n Hn; unfold hex_digit; ztests; lia).
    pose proof (Z.mod_pos_bound c' 16); pose proof (Z.mod_pos_bound (c' / 16) 16); pose proof (Z.mod_pos_bound (c' / 256) 16).
    pose proof (Z.div_pos c' 4096). repeat constructor; try lia; apply H; lia.
  - by repeat constructor.
Qed.

Lemma JsonString_printable s : units16 s -> Forall (fun c => 0x20 <= c) (JsonString s).
Proof.
  intros H. unfold JsonString. apply Forall_app. split; [by repeat constructor|].
  apply Forall_app. split; [by apply body_printable | by repeat constructor].
Qed.

(** ** The reader always ends *)

Lemma skip_ws_length s : (length (skip_ws s) <= length s)%nat.
Proof. induction s as [|c s IH]; simpl; [lia|]. destruct (is_ws c); simpl; lia. Qed.

Lemma string_body_length s raw rest : string_body s = Some (raw, rest) -> (length rest < length s)%nat.
Proof.
  remember (length s) as n eqn:Hn. revert s raw rest Hn. induction (lt_wf n) as [n _ IH].
  intros s raw rest -> H. destruct s as [|c r]; [done|]. cbn [string_body] in H.
  destruct (c =? 34); [simplify_eq/=; lia|]. destruct (c =? 92).
  - assert (exists k r' raw', length r = (S k + length r')%nat /\ string_body r' = Some (raw', rest)) as (k & r' & raw' & Hk & Hr).
    { destruct r as [|e r']; [done|]. destruct (e =? 117).
      - destruct r' as [|h1 [|h2 [|h3 [|h4 r'']]]]; try done. destruct (forallb _ _); [|done].
        destruct (string_body r'') as [[raw' rest']|] eqn:E; simplify_eq/=. by exists 4%nat, r'', raw'.
      - destruct (simple_escape e); [|done]. destruct (string_body r') as [[raw' rest']|] eqn:E; simplify_eq/=.
        by exists 0%nat, r', raw'. }
    apply (IH (length r')) in Hr; simpl; lia.
  - destruct (c <? 0x20); [done|]. destruct (string_body r) as [[raw' rest']|] eqn:Hr; [|done]. simplify_eq/=.
    apply (IH (length r)) in Hr; simpl; lia.
Qed.

Lemma digits_length s d rest : digits s = (d, rest) -> (length rest + length d = length s)%nat.
Proof.
  revert d rest. induction s as [|c s IH]; intros d rest; simpl; [by intros [= <- <-]|].
  destruct (is_digit c); [|by intros [= <- <-]]. destruct (digits s) as [d' r'] eqn:E. intros [= <- <-].
  specialize (IH _ _ eq_refl). simpl. lia.
Qed.

Lemma digits1_length s d rest : digits1 s = Some (d, rest) -> (length rest < length s)%nat.
Proof.
  unfold digits1. destruct (digits s) as [[|x d'] r'] eqn:E; [done|]. intros [= <- <-].
  apply digits_length in E. simpl in E. lia.
Qed.

Lemma first_is_length c s rest : first_is c s = Some rest -> length s = S (length rest).
Proof. destruct s as [|x r]; simpl; [done|]. destruct (x =? c); [|done]. by intros [= ->]. Qed.

Lemma number_length s raw rest : number s = Some (raw, rest) -> (length rest < length s)%nat.
Proof.
  unfold number. set (p := match first_is 45 s with Some r => _ | None => _ end).
  assert (length p.2 <= length s)%nat as Hp
    by (unfold p; destruct (first_is 45 s) eqn:E; [apply first_is_length in E; simpl; lia | done]).
  clearbody p. destruct p as [sign s1]. simpl in Hp. intros H.
  apply bind_Some in H as [[int s2] [H2 H]].
  assert (length s2 < length s1)%nat.
  { destruct (first_is 48 s1) eqn:E; [|by apply digits1_length in H2]. apply first_is_length in E. simplify_eq. lia. }
  apply bind_Some in H as [[frac s3] [H3 H]].
  assert (length s3 <= length s2)%nat.
  { destruct (first_is 46 s2) eqn:E; [|by simplify_eq]. apply first_is_length in E.
    apply bind_Some in H3 as [[d rest'] [Hd ?]]. apply digits1_length in Hd. simplify_eq/=. lia. }
  apply bind_Some in H as [[exp s4] [H4 H]]. simplify_eq.
  assert (length rest <= length s3)%nat; [|lia].
  destruct s3 as [|e r]; [by simplify_eq|]. destruct ((e =? 101) || (e =? 69)); [|by simplify_eq].
  assert (length (exponent_sign r).2 <= length r)%nat as Hq
    by (destruct r as [|c r']; simpl; [lia|]; destruct ((c =? 43) || (c =? 45)); simpl; lia).
  destruct (exponent_sign r) as [sg r1]. apply bind_Some in H4 as [[d rest'] [Hd ?]]. apply digits1_length in Hd. simplify_eq/=. lia.
Qed.

Lemma literal_length w s rest : literal w s = Some rest -> length s = (length w + length rest)%nat.
Proof.
  revert s. induction w as [|x w IH]; intros s; simpl; [by intros [= ->]|]. destruct s as [|y s]; [done|].
  destruct (x =? y); [|done]. intros H%IH. simpl; lia.
Qed.

Definition reads {A} (s : text) (r : parsed A) : Prop :=
  match r with Parsed _ rest => (length rest < length s)%nat | Malformed => True | OutOfFuel => False end.

Lemma value_reads n : forall d s,
  ((2 * length s + 1 <= n)%nat -> reads s (value n d s)) /\
  ((2 * length s + 2 <= n)%nat -> reads s (elements n d s)) /\
  ((2 * length s + 2 <= n)%nat -> reads s (members n d s)).
Proof.
  induction n as [|n IH]; intros d s; [split_and!; lia|].
  assert (forall d s, (2 * length s + 1 <= n)%nat -> reads s (value n d s)) as IHv by (intros; by apply IH).
  assert (forall d s, (2 * length s + 2 <= n)%nat -> reads s (elements n d s)) as IHe by (intros; by apply IH).
  assert (forall d s, (2 * length s + 2 <= n)%nat -> reads s (members n d s)) as IHm by (intros; by apply IH).
  clear IH. pose proof (skip_ws_length s) as Hs. split_and!; intros Hn.
  - cbn [value]. destruct (skip_ws s) as [|c r]; [done|]. simpl in Hs.
    pose proof (skip_ws_length r) as Hr.
    destruct (c =? 34). { destruct (string_body r) as [[raw rest]|] eqn:E; [|done]. apply string_body_length in E. simpl. lia. }
    destruct (c =? 123).
    { case_bool_decide; [|done]. destruct (first_is 125 _) as [rest|] eqn:E; [apply first_is_length in E; simpl; lia|].
      specialize (IHm (S d) (skip_ws r) ltac:(lia)). destruct (members _ _ _); simpl in *; lia || done. }
    destruct (c =? 91).
    { case_bool_decide; [|done]. destruct (first_is 93 _) as [rest|] eqn:E; [apply first_is_length in E; simpl; lia|].
      specialize (IHe (S d) (skip_ws r) ltac:(lia)). destruct (elements _ _ _); simpl in *; lia || done. }
    destruct (literal (lit "null") _) as [rest|] eqn:E1; [apply literal_length in E1; simpl in *; lia|].
    destruct (literal (lit "true") _) as [rest|] eqn:E2; [apply literal_length in E2; simpl in *; lia|].
    destruct (literal (lit "false") _) as [rest|] eqn:E3; [apply literal_length in E3; simpl in *; lia|].
    destruct (number _) as [[raw rest]|] eqn:E; [|done]. apply number_length in E. simpl in *. lia.
  - cbn [elements]. specialize (IHv d s ltac:(lia)). destruct (value n d s) as [v rest| |]; [|done..]. simpl in IHv.
    pose proof (skip_ws_length rest). destruct (skip_ws rest) as [|c r]; [done|]. simpl in *. destruct (c =? 44).
    + specialize (IHe d r ltac:(lia)). destruct (elements _ _ _); simpl in *; lia || done.
    + destruct (c =? 93); simpl; [lia|done].
  - cbn [members]. destruct (skip_ws s) as [|c r]; [done|]. simpl in Hs. destruct (c =? 34); [|done].
    destruct (string_body r) as [[name r1]|] eqn:E; [|done]. apply string_body_length in E.
    pose proof (skip_ws_length r1). destruct (skip_ws r1) as [|c1 r2]; [done|]. simpl in *. destruct (c1 =? 58); [|done].
    specialize (IHv d r2 ltac:(lia)). destruct (value n d r2) as [v rest| |]; [|done..]. simpl in IHv.
    pose proof (skip_ws_length rest). destruct (skip_ws rest) as [|c2 r3]; [done|]. simpl in *. destruct (c2 =? 44).
    + specialize (IHm d r3 ltac:(lia)). destruct (members _ _ _); simpl in *; lia || done.
    + destruct (c2 =? 125); simpl; [lia|done].
Qed.

(** The fuel of [read_json] always suffices. *)
Lemma parse_enough s : parse_with (parse_fuel s) s <> OutOfFuel.
Proof.
  unfold parse_with, parse_fuel. destruct (value_reads (2 * length s + 2) 0 s) as [H _]. specialize (H ltac:(lia)).
  destruct (value _ 0 s) as [v rest| |]; [destruct (skip_ws rest)| |]; done.
Qed.

(** ** An object with one string member *)

(** Characters a name may have to be written between quotes as it is. *)
Definition plain (c : Z) : Prop := 0x20 <= c /\ c <> 34 /\ c <> 92.

Lemma body_plain s : Forall plain s -> body s = s.
Proof.
  unfold body. induction 1 as [|c s (H1 & H2 & H3) _ IH]; [done|]. cbn [map concat]. rewrite IH. unfold escape_char.
  rewrite (proj2 (Z.eqb_neq c 34)), (proj2 (Z.eqb_neq c 92)), (proj2 (Z.eqb_neq c 10)), (proj2 (Z.eqb_neq c 13)),
    (proj2 (Z.eqb_neq c 9)), (proj2 (Z.ltb_ge c 0x20)) by lia. done.
Qed.

Lemma plain_units s : Forall plain s -> units16 s.
Proof. intros H. eapply Forall_impl; [exact H|]. intros c [? _]. lia. Qed.

(** Evaluates the reader's tests on characters that are known. *)
Ltac read_tests f := cbn [f skip_ws is_ws Z.eqb Pos.eqb orb first_is].

Lemma value_string n d r raw rest : string_body r = Some (raw, rest) -> value (S n) d (34 :: r) = Parsed (JString raw) rest.
Proof. intros H. read_tests value. by rewrite H. Qed.

Lemma value_object n d r ms rest : (d < max_depth)%nat ->
  members n (S d) (34 :: r) = Parsed ms rest -> value (S n) d (123 :: 34 :: r) = Parsed (JObject ms) rest.
Proof. intros Hd H. read_tests value. rewrite bool_decide_true by done. by rewrite H. Qed.

Lemma value_empty_object n d rest : (d < max_depth)%nat -> value (S n) d (123 :: 125 :: rest) = Parsed (JObject []) rest.
Proof. intros Hd. read_tests value. by rewrite bool_decide_true. Qed.

(** One member, followed by the closing brace or by a comma and more. *)
Lemma members_last n d r name r2 v rest : string_body r = Some (name, 58 :: r2) ->
  value n d r2 = Parsed v (125 :: rest) ->
  members (S n) d (34 :: r) = Parsed [(name, (consumed (skip_ws r2) (125 :: rest), v))] rest.
Proof. intros H1 H2. read_tests members. rewrite H1. read_tests members. by rewrite H2. Qed.

Lemma members_next n d r name r2 v r3 ms rest : string_body r = Some (name, 58 :: r2) ->
  value n d r2 = Parsed v (44 :: r3) -> members n d r3 = Parsed ms rest ->
  members (S n) d (34 :: r) = Parsed ((name, (consumed (skip_ws r2) (44 :: r3), v)) :: ms) rest.
Proof. intros H1 H2 H3. read_tests members. rewrite H1. read_tests members. rewrite H2. read_tests members. by rewrite H3. Qed.

Lemma string_body_plain name rest : Forall plain name -> string_body (name ++ 34 :: rest) = Some (name, rest).
Proof. intros H. rewrite <- (body_plain name H) at 1 2. apply string_body_body. by apply plain_units. Qed.

Lemma consumed_app s rest : consumed (s ++ rest) rest = s.
Proof. unfold consumed. rewrite length_app, Nat.add_sub. apply take_app_length. Qed.

Definition member_object (name s : text) : text := [123; 34] ++ name ++ [34; 58] ++ JsonString s ++ [125].

Lemma parse_member_object name s : Forall plain name -> units16 s ->
  read_json (member_object name s) = Some (JObject [(name, (JsonString s, JString (body s)))]).
Proof.
  intros Hn Hs. unfold read_json, parse_with, parse_fuel.
  assert (exists n, (2 * length (member_object name s) + 2 = S (S (S n)))%nat) as [n ->].
  { unfold member_object. rewrite length_app. simpl. eexists. rewrite !Nat.add_succ_r. simpl. reflexivity. }
  assert (string_body (name ++ [34; 58] ++ JsonString s ++ [125]) = Some (name, 58 :: JsonString s ++ [125])) as H1
    by by apply string_body_plain.
  assert (value (S n) 1 (JsonString s ++ [125]) = Parsed (JString (body s)) [125]) as H2.
  { unfold JsonString. cbn [app]. apply value_string. rewrite <- app_assoc. by apply string_body_body. }
  assert (value (S (S (S n))) 0 (member_object name s) = Parsed (JObject [(name, (JsonString s, JString (body s)))]) []) as ->;
    [|done]. etrans; [apply (value_object _ 0 _ _ _ ltac:(unfold max_depth; lia) (members_last _ _ _ _ _ _ _ H1 H2))|].
  do 4 f_equal. change (skip_ws (JsonString s ++ [125])) with (JsonString s ++ [125]). by rewrite consumed_app.
Qed.

(** The literal is well-formed text exactly when the string is. *)
Lemma escape_char_head c r : 0 <= c -> exists x t, escape_char c ++ r = x :: t /\ (x = 92 \/ x = c).
Proof.
  intros Hc. destruct (escape_char_escaped c Hc) as [c' e _ _|c' _|c' _ _ _]; cbn [app]; do 2 eexists; auto.
Qed.
Lemma escape_char_valid c r : 0 <= c -> high c = false -> low c = false -> utf16_valid (escape_char c ++ r) = utf16_valid r.
Proof.
  intros Hc Hh Hl.
  assert (forall x t, 0 <= x < 0xD800 -> utf16_valid (x :: t) = utf16_valid t) as Hx.
  { intros x t Hx. cbn [utf16_valid]. unfold high, low. ztests; done || lia. }
  assert (forall n, 0 <= n < 16 -> 0 <= hex_digit n < 0xD800) as Hd by (intros n Hn; unfold hex_digit; case_match; lia).
  destruct (escape_char_escaped c Hc) as [c' e He _|c' H4|c' _ _ _]; cbn [app x4].
  - rewrite !Hx; [done | | lia]. unfold simple_escape in He. repeat case_match; lia || done.
  - pose proof (Z.mod_pos_bound c' 16); pose proof (Z.mod_pos_bound (c' / 16) 16); pose proof (Z.mod_pos_bound (c' / 256) 16);
      pose proof (Z.div_le_upper_bound c' 4096 15); pose proof (Z.div_pos c' 4096).
    rewrite !Hx; [done | (apply Hd || idtac); lia ..].
  - cbn [utf16_valid]. by rewrite Hh, Hl.
Qed.
Lemma body_valid s r : units16 s -> utf16_valid (body s ++ 34 :: r) = utf16_valid s && utf16_valid r.
Proof.
  remember (length s) as n eqn:Hn. revert s Hn. induction (lt_wf n) as [n _ IH]. intros s -> Hu. unfold body in *.
  destruct s as [|u s]; [done|]. apply Forall_cons in Hu as [Hu Hs]. cbn [map concat]. rewrite <- app_assoc.
  destruct (high u) eqn:Eh.
  - assert (escape_char u = [u]) as -> by (apply escape_char_surrogate; rewrite Eh; done).
    cbn [app utf16_valid]. rewrite Eh. destruct s as [|v s]; [done|]. apply Forall_cons in Hs as [Hv Hs]. cbn [map concat].
    rewrite <- app_assoc. destruct (low v) eqn:El.
    + assert (escape_char v = [v]) as -> by (apply escape_char_surrogate; rewrite El; apply orb_true_r).
      cbn [app]. rewrite El. cbn [andb]. apply (IH (length s)); [simpl; lia | done..].
    + destruct (escape_char_head v (concat (map escape_char s) ++ 34 :: r) Hv) as (x & t & -> & [-> | ->]); [done|]. by rewrite El.
  - cbn [utf16_valid]. rewrite Eh. destruct (low u) eqn:El.
    + assert (escape_char u = [u]) as -> by (apply escape_char_surrogate; rewrite El; apply orb_true_r).
      cbn [app utf16_valid]. by rewrite Eh, El.
    + rewrite escape_char_valid by done. apply (IH (length s)); [simpl; lia | done..].
Qed.
Lemma JsonString_valid s : units16 s -> utf16_valid (JsonString s) = utf16_valid s.
Proof. intros Hs. unfold JsonString. cbn [app]. rewrite <- (andb_true_r (utf16_valid s)). exact (body_valid s [] Hs). Qed.
Lemma member_object_valid name s : Forall plain name -> units16 s ->
  utf16_valid (member_object name s) = utf16_valid name && utf16_valid s.
Proof.
  intros Hn Hs. transitivity (utf16_valid (body name ++ 34 :: 58 :: 34 :: body s ++ 34 :: [125])).
  - unfold member_object, JsonString. rewrite (body_plain name Hn). cbn [app]. by rewrite <- app_assoc.
  - rewrite body_valid by auto using plain_units. f_equal. transitivity (utf16_valid (body s ++ 34 :: [125])); [done|].
    by rewrite body_valid, andb_true_r.
Qed.

(** What is read of a text that reads as [v]. *)
Lemma parse_read s v : read_json s = Some v -> JsonDocument_Parse s = if utf16_valid s then Root v else ArgumentException.
Proof. unfold JsonDocument_Parse. by intros ->. Qed.

(** A name is written plainly, so no escaping takes place in it. *)
Lemma unescape_plain s : Forall plain s -> unescape s = Some s.
Proof. intros H. rewrite <- (body_plain s H) at 1. apply unescape_body. by apply plain_units. Qed.

Lemma TryGetProperty_single name e : unescape name = Some name -> TryGetProperty name [(name, e)] = Some e.
Proof. intros H. unfold TryGetProperty. simpl. by destruct (decide _). Qed.

Lemma find_property name s : Forall plain name ->
  TryGetProperty name [(name, (JsonString s, JString (body s)))] = Some (JsonString s, JString (body s)).
Proof. intros Hn. by apply TryGetProperty_single, unescape_plain. Qed.

(** C25: What the hand-written escapers write is read back as the same string.  For every string of code units the
    literal contains no control character (so no line break can end a server-sent event early) and unescapes to
    the string; read by [JsonDocument.Parse], alone or as the value of a member, it is one JSON string with that
    value when the string is well-formed UTF-16, and is refused, like any text that is not, when it is not. *)
Theorem json_string_round_trip (name s : text) :
  Forall plain name -> Forall (fun c => 0 <= c) s ->
  JsonDocument_Parse (JsonString s) = (if utf16_valid s then Root (JString (body s)) else ArgumentException) /\
  unescape (body s) = Some s /\ Forall (fun c => 0x20 <= c) (JsonString s) /\
  JsonDocument_Parse (member_object name s) =
    (if utf16_valid name && utf16_valid s then Root (JObject [(name, (JsonString s, JString (body s)))]) else ArgumentException) /\
  TryGetProperty name [(name, (JsonString s, JString (body s)))] = Some (JsonString s, JString (body s)).
Proof.
  intros Hn Hs. split_and!; [|by apply unescape_body | by apply JsonString_printable | | by apply find_property].
  - rewrite <- (JsonString_valid s Hs). apply parse_read. unfold read_json, parse_with, parse_fuel. rewrite Nat.add_succ_r. unfold JsonString. cbn [app].
    by rewrite (value_string _ _ _ _ _ (string_body_body s [] Hs)).
  - rewrite <- member_object_valid by done. by apply parse_read, parse_member_object.
Qed.

Lemma json_string_witness : JsonDocument_Parse (JsonString [34; 10; 0xD83D; 0xDE00; 92; 7; 233]) =
  Root (JString [92; 34; 92; 110; 0xD83D; 0xDE00; 92; 92; 92; 117; 48; 48; 48; 55; 233]) /\
  JsonDocument_Parse (JsonString [97; 0xD83D]) = ArgumentException.
Proof.
  assert (Forall plain (lit "q")) as Hq by (repeat constructor; discriminate).
  destruct (json_string_round_trip (lit "q") [34; 10; 0xD83D; 0xDE00; 92; 7; 233] Hq) as [H1 _]; [repeat constructor; discriminate|].
  destruct (json_string_round_trip (lit "q") [97; 0xD83D] Hq) as [H2 _]; [repeat constructor; discriminate|].
  split; [rewrite H1 | rewrite H2]; reflexivity.
Defined.

(** Reading terminates on every input, and an input that is not one JSON value is answered with an
    exception, never with a value: the fuel is never exhausted. *)
Theorem json_reader_total (s : text) :
  parse_with (parse_fuel s) s <> OutOfFuel /\
  (forall v, JsonDocument_Parse s = Root v <-> utf16_valid s = true /\ parse_with (parse_fuel s) s = Parsed v []).
Proof.
  split; [apply parse_enough|]. intros v. unfold JsonDocument_Parse, read_json, parse_with. destruct (utf16_valid s); [|by split; [|intros [? _]]].
  destruct (value _ 0 s) as [u rest| |]; [destruct (skip_ws rest)| |]; split; intros; destruct_and?; by simplify_eq.
Qed.
