(* ===== verification/Text.v ===== *)
(** * Text: the string operations of the standard library that several components use

    Strings are lists of UTF-16 code units ([Json.text]).  Trimming, splitting and joining, ordinal comparison. *)

From S2P Require Import Prelude Json.
Local Open Scope Z_scope.
#[local] Set Warnings "-clear-no-such-hyp".

(** [char.IsWhiteSpace] *)
Definition IsWhiteSpace (c : Z) : bool :=
  ((9 <=? c) && (c <=? 13)) || (c =? 32) || (c =? 0x85) || (c =? 0xA0) || (c =? 0x1680) ||
  ((0x2000 <=? c) && (c <=? 0x200A)) || (c =? 0x2028) || (c =? 0x2029) || (c =? 0x202F) || (c =? 0x205F) || (c =? 0x3000).

Fixpoint TrimStart (s : text) : text :=
  match s with c :: r => if IsWhiteSpace c then TrimStart r else s | [] => [] end.
Definition Trim (s : text) : text := rev (TrimStart (rev (TrimStart s))).

(** [string.Split] at one character. *)
Fixpoint split_char (sep : Z) (s : text) : list text :=
  match s with
  | [] => [[]]
  | c :: r =>
      if c =? sep then [] :: split_char sep r
      else match split_char sep r with l :: ls => (c :: l) :: ls | [] => [[c]] end
  end.

Definition to_lower (c : Z) : Z := if (65 <=? c) && (c <=? 90) then c + 32 else c.

(** [StartsWith]: ordinal, and ordinal ignoring (ASCII) case; the rest of the string. *)
Fixpoint after_prefix (eqc : Z -> Z -> bool) (p s : text) : option text :=
  match p, s with
  | [], _ => Some s
  | x :: p', y :: s' => if eqc x y then after_prefix eqc p' s' else None
  | _ :: _, [] => None
  end.
Definition starts_with (p s : text) : option text := after_prefix Z.eqb p s.
Definition starts_with_ignoring_case (p s : text) : option text :=
  after_prefix (fun x y => to_lower x =? to_lower y) p s.

(** [string.Join] *)
Fixpoint join (sep : text) (l : list text) : text :=
  match l with
  | [] => []
  | [x] => x
  | x :: rest => x ++ sep ++ join sep rest
  end.

(** [Split] with [RemoveEmptyEntries | TrimEntries]: entries are trimmed first, then empty ones are removed. *)
Definition split_clean (sep : Z) (s : text) : list text := filter (fun x => x <> []) (map Trim (split_char sep s)).

(** [IndexOf(p, start)]: the position of the first occurrence of [p] at or after [start]. *)
Fixpoint index_of_at (p s : text) (at_ : nat) : option nat :=
  match starts_with p s with
  | Some _ => Some at_
  | None => match s with _ :: r => index_of_at p r (S at_) | [] => None end
  end.
Definition IndexOf (p s : text) (start : nat) : option nat := index_of_at p (drop start s) start.

(** [Split] at a string: occurrences from left to right, not overlapping; [skip] counts the characters of a
    separator still to be passed. *)
Definition cons_head (c : Z) (ls : list text) : list text := match ls with l :: ls => (c :: l) :: ls | [] => [[c]] end.
Fixpoint split_on (sep s : text) (skip : nat) : list text :=
  match s with
  | [] => [[]]
  | c :: r =>
      match skip with
      | S k => split_on sep r k
      | O => match starts_with sep s with
             | Some _ => [] :: split_on sep r (length sep - 1)
             | None => cons_head c (split_on sep r 0)
             end
      end
  end.

(** ** Lemmas *)

Lemma split_char_ne sep s : split_char sep s <> [].
Proof. induction s as [|c s IH]; simpl; [done|]. destruct (c =? sep); [done|]. by destruct (split_char sep s). Qed.

Lemma split_char_join sep s : join [sep] (split_char sep s) = s.
Proof.
  induction s as [|c s IH]; simpl; [done|]. destruct (Z.eqb_spec c sep) as [->|Hne].
  - simpl. pose proof (split_char_ne sep s) as Hn. destruct (split_char sep s) as [|l ls]; [done|]. simpl in IH |- *. by rewrite IH.
  - pose proof (split_char_ne sep s) as Hn. destruct (split_char sep s) as [|l [|l' ls]]; simpl in *; by rewrite ?IH, <- ?IH.
Qed.

Lemma split_char_clean sep s : Forall (fun l => sep ∉ l) (split_char sep s).
Proof.
  induction s as [|c s IH]; simpl; [repeat constructor; by apply not_elem_of_nil|].
  destruct (Z.eqb_spec c sep) as [->|Hne]; [constructor; [by apply not_elem_of_nil | done]|].
  destruct (split_char sep s) as [|l ls]; [repeat constructor; set_solver|]. apply Forall_cons in IH as [H1 H2].
  constructor; [set_solver | done].
Qed.

Lemma split_char_none sep s : sep ∉ s -> split_char sep s = [s].
Proof.
  induction s as [|c s IH]; intros H; simpl; [done|]. rewrite IH by set_solver.
  destruct (Z.eqb_spec c sep) as [->|]; [set_solver | done].
Qed.

(** Splitting undoes joining. *)
Lemma split_char_app sep l s : sep ∉ l -> split_char sep (l ++ sep :: s) = l :: split_char sep s.
Proof.
  induction l as [|c l IH]; intros H; simpl; [by rewrite Z.eqb_refl|].
  rewrite IH by set_solver. destruct (Z.eqb_spec c sep) as [->|]; [set_solver | done].
Qed.

(** A separator splits, whatever comes before it. *)
Lemma split_char_break sep a s : split_char sep (a ++ sep :: s) = split_char sep a ++ split_char sep s.
Proof.
  induction a as [|c a IH]; simpl; [by rewrite Z.eqb_refl|]. rewrite IH.
  destruct (c =? sep); [done|]. pose proof (split_char_ne sep a). by destruct (split_char sep a).
Qed.

Lemma not_elem_of_join (x : Z) sep ls : x ∉ sep -> Forall (fun l => x ∉ l) ls -> x ∉ join sep ls.
Proof.
  intros Hs H. induction H as [|l ls Hl _ IH]; simpl; [by apply not_elem_of_nil|]. destruct ls; [done|]. set_solver.
Qed.

Lemma split_join sep ls : ls <> [] -> Forall (fun l => sep ∉ l) ls -> split_char sep (join [sep] ls) = ls.
Proof.
  intros Hne H. induction H as [|l ls Hl Hls IH]; [done|]. destruct ls as [|l' ls]; [by apply split_char_none|].
  change (join [sep] (l :: l' :: ls)) with (l ++ sep :: join [sep] (l' :: ls)). by rewrite split_char_app, IH.
Qed.

Lemma starts_with_spec p s r : starts_with p s = Some r <-> s = p ++ r.
Proof.
  unfold starts_with. revert s. induction p as [|x p IH]; intros s; simpl; [split; congruence|].
  destruct s as [|y s]; [done|]. destruct (Z.eqb_spec x y) as [->|Hne].
  - rewrite IH. split; congruence.
  - split; [done | congruence].
Qed.

Lemma TrimStart_suffix s : exists p, s = p ++ TrimStart s /\ Forall (fun c => IsWhiteSpace c = true) p.
Proof.
  induction s as [|c s (p & IH & Hp)]; [by exists []|]. simpl. destruct (IsWhiteSpace c) eqn:E; [|by exists []].
  exists (c :: p). simpl. split; [by rewrite <- IH | by constructor].
Qed.

Lemma TrimStart_id c s : IsWhiteSpace c = false -> TrimStart (c :: s) = c :: s.
Proof. simpl. by intros ->. Qed.

(** A text without white space at its ends. *)
Definition trimmed (s : text) : Prop :=
  match s with [] => True | c :: _ => IsWhiteSpace c = false /\ forall d r, rev s = d :: r -> IsWhiteSpace d = false end.

Lemma Trim_trimmed s : trimmed s -> Trim s = s.
Proof.
  unfold Trim. destruct s as [|c s]; [done|]. intros [Hc Hd]. rewrite TrimStart_id by done.
  destruct (rev (c :: s)) as [|d r] eqn:E; [by destruct (app_cons_not_nil (rev s) [] c)|].
  rewrite TrimStart_id by by eapply Hd. rewrite <- E. apply rev_involutive.
Qed.

Lemma Trim_in s : forall c, c ∈ Trim s -> c ∈ s.
Proof.
  intros c. unfold Trim. destruct (TrimStart_suffix s) as (p & Hp & _).
  destruct (TrimStart_suffix (rev (TrimStart s))) as (q & Hq & _). rewrite !list_elem_of_In, <- in_rev, <- !list_elem_of_In.
  intros H. rewrite Hp. apply elem_of_app. right. apply list_elem_of_In, in_rev, list_elem_of_In. rewrite Hq. apply elem_of_app. by right.
Qed.

(** Cleaned entries are without the separator. *)
Lemma split_clean_clean sep s : Forall (fun l => sep ∉ l) (split_clean sep s).
Proof.
  unfold split_clean. apply Forall_forall. intros l Hl. apply list_elem_of_filter in Hl as [_ Hl].
  apply list_elem_of_In, in_map_iff in Hl as (x & <- & Hx). apply list_elem_of_In in Hx.
  pose proof (split_char_clean sep s) as Hc. rewrite Forall_forall in Hc. intros H%Trim_in. by apply (Hc x).
Qed.
