(* ===== verification/Retrieval.v ===== *)
(** * Retrieval: from a question to a grounded prompt

    [WordPieceTokenizer], [SemanticSearch], [ManualsCorpus], [RagPrompt] and [RagLanguageModel] of the engine.
    The Unicode tables behind lower-casing, decomposition and character categories, the transformer with its
    cosine, the unstable sort of the list class and the inner model are parameters with what is documented of
    them; everything else is computed. *)

From stdpp Require Import sorting.
From S2P Require Import Prelude Json Text.
Local Open Scope Z_scope.
#[local] Set Warnings "-clear-no-such-hyp".

(** ** WordPieceTokenizer *)

Record WordPieceTokenizer := MkTokenizer {
  _vocab : gmap text Z; ClsId : Z; SepId : Z; _unkId : Z; _padId : Z }.

(** [_vocab[vocabLines[i]] = i], in order: the last line of a name wins. *)
Definition vocab_of (lines : list text) : gmap text Z :=
  foldl (fun v '(i, l) => <[l := Z.of_nat i]> v) ∅ (imap pair lines).

(** The constructor; [None] is a [KeyNotFoundException]. *)
Definition new_tokenizer (lines : list text) : option WordPieceTokenizer :=
  let v := vocab_of lines in
  cls ← v !! lit "[CLS]"; sep ← v !! lit "[SEP]"; unk ← v !! lit "[UNK]"; pad ← v !! lit "[PAD]";
  Some (MkTokenizer v cls sep unk pad).

Section WordPiece.
  Context (t : WordPieceTokenizer).

Definition continuation (start : nat) : text := if bool_decide (0 < start)%nat then lit "##" else [].

(** The inner loop: the longest prefix of [rest], of at most [len] characters, that is in the vocabulary. *)
Fixpoint longest (start : nat) (rest : text) (len : nat) : option (Z * nat) :=
  match len with
  | O => None
  | S n => match _vocab t !! (continuation start ++ take len rest) with
           | Some id => Some (id, len)
           | None => longest start rest n
           end
  end.

Fixpoint word_piece_loop (fuel start : nat) (rest : text) (output : list Z) : option (list Z) :=
  match fuel with
  | O => None
  | S n =>
      match rest with
      | [] => Some output
      | _ => match longest start rest (length rest) with
             | Some (matched, len) =>
                 if matched <? 0 then Some [_unkId t]
                 else word_piece_loop n (start + len) (drop len rest) (output ++ [matched])
             | None => Some [_unkId t]
             end
      end
  end.
Definition WordPiece (word : text) : option (list Z) := word_piece_loop (S (length word)) 0 word [].
End WordPiece.

Section Encode.
  Context (ToLowerInvariant NormalizeFormD : text -> text) (IsNonSpacingMark IsPunctuationOrSymbol : Z -> bool).

Definition flush (sb : text) : list text := match sb with [] => [] | _ => [sb] end.
Fixpoint basic_loop (sb s : text) : list text :=
  match s with
  | [] => flush sb
  | ch :: r =>
      if IsNonSpacingMark ch then basic_loop sb r
      else if IsWhiteSpace ch then flush sb ++ basic_loop [] r
      else if IsPunctuationOrSymbol ch then flush sb ++ [ch] :: basic_loop [] r
      else basic_loop (sb ++ [ch]) r
  end.
Definition BasicTokenize (s : text) : list text := basic_loop [] (NormalizeFormD (ToLowerInvariant s)).

(** The inner [foreach]: [break] leaves only this one. *)
Fixpoint add_pieces (maxLen : Z) (new pieces : list Z) : list Z :=
  match new with
  | [] => pieces
  | piece :: rest => if Z.of_nat (length pieces) >=? maxLen - 1 then pieces else add_pieces maxLen rest (pieces ++ [piece])
  end.
Fixpoint add_words (t : WordPieceTokenizer) (maxLen : Z) (words : list text) (pieces : list Z) : option (list Z) :=
  match words with
  | [] => Some pieces
  | w :: rest => new ← WordPiece t w; add_words t maxLen rest (add_pieces maxLen new pieces)
  end.

(** [Encode]; [None] when [new long[maxLen]] throws. *)
Definition Encode (t : WordPieceTokenizer) (s : text) (maxLen : Z) : option (list Z * list Z) :=
  pieces ← add_words t maxLen (BasicTokenize s) [ClsId t];
  let pieces := pieces ++ [SepId t] in
  if maxLen <? 0 then None
  else Some ((fun i => default (_padId t) (pieces !! i)) <$> seq 0 (Z.to_nat maxLen),
             (fun i => if bool_decide (i < length pieces)%nat then 1 else 0) <$> seq 0 (Z.to_nat maxLen)).
End Encode.

(** ** SemanticSearch *)

(** [double.CompareTo] orders doubles totally, NaN first; [List.Sort] with a comparison is unstable: it gives
    some sorted permutation. *)
Class Ranking (D : Type) := {
  at_most : D -> D -> Prop;
  at_most_total : forall x y, at_most x y \/ at_most y x;
  at_most_trans : forall x y z, at_most x y -> at_most y z -> at_most x z;
  Sort : list (text * D) -> list (text * D);
  Sort_permutes : forall l, Sort l ≡ₚ l;
  Sort_descends : forall l, StronglySorted (fun a b => at_most b.2 a.2) (Sort l) }.

Section Search.
  Context {V D : Type} `{Ranking D} (encode : text -> V) (score : V -> V -> D).

(** [c] is [_corpora]: texts and embeddings by name. *)
Definition SetCorpus (id : text) (texts : list text) (c : gmap text (list text * list V)) : gmap text (list text * list V) :=
  <[id := (texts, map encode texts)]> c.

(** [score] is [Math.Round(TensorPrimitives.CosineSimilarity(q, e), 4)]. *)
Definition Search (query id : text) (topK : Z) (c : gmap text (list text * list V)) : list (text * D) :=
  match c !! id with
  | None => []
  | Some (texts, embeddings) =>
      let q := encode query in
      take (Z.to_nat topK) (Sort (zip_with (fun txt e => (txt, score q e)) texts embeddings))
  end.
End Search.

(** ** ManualsCorpus *)

Definition starts (p s : text) : bool := bool_decide (is_Some (starts_with p s)).

(** The position of the closing fence in [markdown.TrimStart()]. *)
Definition fence (t : text) : option nat := if starts (lit "---") t then IndexOf (10 :: lit "---") t 3 else None.

Fixpoint title_line (lines : list text) : option text :=
  match lines with
  | [] => None
  | raw :: rest => match starts_with_ignoring_case (lit "title:") (Trim raw) with Some v => Some (Trim v) | None => title_line rest end
  end.
Definition ExtractTitle (markdown : text) : option text :=
  let t := TrimStart markdown in
  e ← fence t; title_line (split_char 10 (take (e - 3) (drop 3 t))).

Definition StripFrontmatter (markdown : text) : text :=
  let t := TrimStart markdown in
  match fence t with
  | None => markdown
  | Some e => match IndexOf [10] t (e + 1) with Some k => drop (k + 1) t | None => [] end
  end.

(** [TrimStart('#', ' ')] *)
Fixpoint trim_marks (s : text) : text :=
  match s with c :: r => if (c =? 35) || (c =? 32) then trim_marks r else s | [] => [] end.

Definition section_of (part : text) : option text :=
  match Trim (trim_marks (Trim part)) with
  | [] => None
  | section => Some (join [32] (split_clean 10 section))
  end.
Definition SplitSections (markdown : text) : list text :=
  omap section_of (split_on (10 :: lit "## ") (StripFrontmatter markdown) 0).

(** [Load]: the files in ordinal order of their paths, with their names without extension. *)
Definition chunk (title section : text) : text := title ++ [32; 0x2014; 32] ++ section.
Definition file_chunks (file : text * text) : list text :=
  map (chunk (default file.1 (ExtractTitle file.2))) (SplitSections file.2).
Definition Load (files : list (text * text)) : list text := files ≫= file_chunks.

(** ** RagPrompt and RagLanguageModel *)

(** [AppendLine] ends a line with LF on the systems the library is built for. *)
Definition AppendLine (s : text) : text := s ++ [10].
Definition Build (question : text) (context : list text) : text :=
  AppendLine (lit "You are a maintenance assistant. Answer the question using ONLY the manual") ++
  AppendLine (lit "excerpts below. If they do not contain the answer, say you couldn't find it in") ++
  AppendLine (lit "the manuals. Be concise.") ++
  AppendLine [] ++
  AppendLine (lit "Manual excerpts:") ++
  (match context with
   | [] => AppendLine (lit "(none found)")
   | _ => concat (map (fun c => lit "- " ++ AppendLine c) context)
   end) ++
  AppendLine [] ++
  lit "Question: " ++ AppendLine question ++
  lit "Answer:".

(** The prompt [GenerateAsync] hands to the inner model. *)
Definition grounded_prompt {V D} `{Ranking D} (encode : text -> V) (score : V -> V -> D) (topK : Z) (c : gmap text (list text * list V)) (prompt : text) : text :=
  Build prompt (map fst (Search encode score prompt (lit "manuals") topK c)).

(** ** Greedy segmentation *)

Section Greedy.
  Context (t : WordPieceTokenizer).

Definition in_vocab (start : nat) (seg : text) : option Z := _vocab t !! (continuation start ++ seg).

(** [seg] is the longest piece of the vocabulary that begins [rest]. *)
Definition longest_piece (start : nat) (rest seg : text) (id : Z) : Prop :=
  seg <> [] /\ seg `prefix_of` rest /\ in_vocab start seg = Some id /\
  forall seg', seg' `prefix_of` rest -> (length seg < length seg')%nat -> in_vocab start seg' = None.

Definition no_piece (start : nat) (rest : text) : Prop :=
  rest <> [] /\ forall seg, seg `prefix_of` rest -> seg <> [] -> in_vocab start seg = None.

(** The word, from position [start], is cut into pieces, each the longest; or cutting it so gets stuck. *)
Inductive greedy : nat -> text -> list (text * Z) -> Prop :=
| greedy_end start : greedy start [] []
| greedy_piece start seg rest id l : longest_piece start (seg ++ rest) seg id ->
    greedy (start + length seg) rest l -> greedy start (seg ++ rest) ((seg, id) :: l).
Inductive dead_end : nat -> text -> Prop :=
| dead_here start rest : no_piece start rest -> dead_end start rest
| dead_later start seg rest id : longest_piece start (seg ++ rest) seg id -> dead_end (start + length seg) rest ->
    dead_end start (seg ++ rest).

Definition tokenizer_ok : Prop := forall w id, _vocab t !! w = Some id -> 0 <= id.

Lemma longest_spec start rest len : (len <= length rest)%nat ->
  match longest t start rest len with
  | Some (id, n) => (0 < n <= len)%nat /\ in_vocab start (take n rest) = Some id /\
                    forall m, (n < m <= len)%nat -> in_vocab start (take m rest) = None
  | None => forall m, (0 < m <= len)%nat -> in_vocab start (take m rest) = None
  end.
Proof.
  intros Hl. unfold in_vocab. induction len as [|len IH]; [intros m Hm; lia|]. cbn [longest].
  destruct (_vocab t !! (continuation start ++ take (S len) rest)) as [id|] eqn:E.
  - split_and!; [lia | lia | done | intros m Hm; lia].
  - specialize (IH ltac:(lia)). destruct (longest t start rest len) as [[id n]|].
    + destruct IH as (H1 & H2 & H3). split_and!; [lia | lia | done |]. intros m Hm.
      destruct (decide (m = S len)) as [->|]; [done | apply H3; lia].
    + intros m Hm. destruct (decide (m = S len)) as [->|]; [done | apply IH; lia].
Qed.

Lemma prefix_take (seg rest : text) : seg `prefix_of` rest -> seg = take (length seg) rest /\ (length seg <= length rest)%nat.
Proof. intros [k ->]. rewrite take_app_length, length_app. split; [done | lia]. Qed.

Lemma longest_some start rest id n : longest t start rest (length rest) = Some (id, n) ->
  longest_piece start rest (take n rest) id /\ (0 < n <= length rest)%nat.
Proof.
  intros E. pose proof (longest_spec start rest (length rest) ltac:(done)) as H. rewrite E in H. destruct H as (H1 & H2 & H3).
  assert (length (take n rest) = n) as Hn by (rewrite length_take; lia).
  split; [|done]. split_and!; [|exists (drop n rest); by rewrite take_drop | done |].
  - intros E0. rewrite E0 in Hn. simpl in Hn. lia.
  - intros seg' Hp Hlt. apply prefix_take in Hp as [Es Hle]. rewrite Es. apply H3. lia.
Qed.

Lemma longest_none start rest : rest <> [] -> longest t start rest (length rest) = None -> no_piece start rest.
Proof.
  intros Hr E. pose proof (longest_spec start rest (length rest) ltac:(done)) as H. rewrite E in H. split; [done|].
  intros seg Hp Hne. apply prefix_take in Hp as [Hs Hle]. rewrite Hs. apply H. destruct seg; simpl in *; [done | lia].
Qed.

(** The loop cuts greedily, or answers the unknown token. *)
Lemma word_piece_loop_spec fuel : forall start rest output, tokenizer_ok -> (length rest < fuel)%nat ->
  (exists l, greedy start rest l /\ word_piece_loop t fuel start rest output = Some (output ++ map snd l)) \/
  (dead_end start rest /\ word_piece_loop t fuel start rest output = Some [_unkId t]).
Proof.
  induction fuel as [|fuel IH]; intros start rest output Hok Hf; [lia|]. cbn [word_piece_loop].
  destruct rest as [|c rest']; [left; exists []; split; [constructor | by rewrite app_nil_r]|].
  set (rest := c :: rest') in *. destruct (longest t start rest (length rest)) as [[id n]|] eqn:E.
  - apply longest_some in E as [Hp Hn]. assert ((id <? 0) = false) as -> by (apply Z.ltb_ge; apply (Hok _ _ (proj1 (proj2 (proj2 Hp))))).
    assert (length (take n rest) = n) as Hlen by (rewrite length_take; lia).
    destruct (IH (start + n)%nat (drop n rest) (output ++ [id]) Hok) as [(l & Hg & ->)|[Hd ->]]; [rewrite length_drop; lia | left | right].
    + exists ((take n rest, id) :: l). rewrite <- app_assoc. split; [|done].
      rewrite <- (take_drop n rest) at 1. constructor; [by rewrite take_drop | by rewrite Hlen].
    + split; [|done]. rewrite <- (take_drop n rest). econstructor; [rewrite take_drop; exact Hp | by rewrite Hlen].
  - right. split; [|done]. constructor. by apply longest_none.
Qed.

(** The longest piece is unique, and so is where cutting leads. *)
Lemma longest_piece_unique start rest seg id seg' id' : longest_piece start rest seg id -> longest_piece start rest seg' id' ->
  seg' = seg /\ id' = id.
Proof.
  intros (_ & Hp & Hv & Hmax) (_ & Hp' & Hv' & Hmax'). assert (length seg' = length seg) as El.
  { destruct (Nat.lt_trichotomy (length seg) (length seg')) as [Hlt|[?|Hlt]]; [|done|].
    - rewrite (Hmax seg' Hp' Hlt) in Hv'. done.
    - rewrite (Hmax' seg Hp Hlt) in Hv. done. }
  apply prefix_take in Hp as [Hs _], Hp' as [Hs' _]. assert (seg' = seg) as -> by congruence. split; congruence.
Qed.

Lemma greedy_inv start rest l : greedy start rest l ->
  rest = [] /\ l = [] \/ exists seg rest' id l', rest = seg ++ rest' /\ l = (seg, id) :: l' /\
    longest_piece start rest seg id /\ greedy (start + length seg) rest' l'.
Proof. destruct 1; [by left | right; by eexists _, _, _, _]. Qed.

Lemma dead_end_inv start rest : dead_end start rest ->
  no_piece start rest \/ exists seg rest' id, rest = seg ++ rest' /\ longest_piece start rest seg id /\ dead_end (start + length seg) rest'.
Proof. destruct 1; [by left | right; by eexists _, _, _]. Qed.

Lemma no_longest_piece_nil start seg id : ~ longest_piece start [] seg id.
Proof. intros (Hne & Hp & _). by apply prefix_nil_inv in Hp. Qed.

Lemma greedy_alive start rest l : greedy start rest l -> ~ dead_end start rest.
Proof.
  induction 1 as [start|start seg rest id l Hp _ IH]; intros Hd; apply dead_end_inv in Hd as [[Hne Hno]|(seg' & rest' & id' & E & Hp' & Hd')].
  - done.
  - by apply no_longest_piece_nil in Hp'.
  - destruct Hp as (Hs & Hpre & Hv & _). by rewrite (Hno seg Hpre Hs) in Hv.
  - destruct (longest_piece_unique _ _ _ _ _ _ Hp Hp') as [-> _]. apply app_inv_head in E as ->. done.
Qed.

Lemma greedy_unique start rest l : greedy start rest l -> forall l', greedy start rest l' -> l' = l.
Proof.
  induction 1 as [start|start seg rest id l Hp _ IH]; intros l' Hg;
    apply greedy_inv in Hg as [[E ->]|(seg' & rest' & id' & l2 & E & -> & Hp' & Hg')].
  - done.
  - by apply no_longest_piece_nil in Hp'.
  - rewrite E in Hp. by apply no_longest_piece_nil in Hp.
  - destruct (longest_piece_unique _ _ _ _ _ _ Hp Hp') as [-> ->]. apply app_inv_head in E as ->. f_equal. by apply IH.
Qed.
End Greedy.

(** A vocabulary read from lines numbers them. *)
Lemma vocab_of_nonneg lines w id : vocab_of lines !! w = Some id -> 0 <= id.
Proof.
  unfold vocab_of. assert (forall (l : list (nat * text)) (v : gmap text Z), (forall w id, v !! w = Some id -> 0 <= id) ->
    forall w id, foldl (fun v '(i, l) => <[l := Z.of_nat i]> v) v l !! w = Some id -> 0 <= id) as Hx.
  { induction l as [|[i x] l IH]; intros v Hv w' id'; simpl; [apply Hv|]. apply IH. intros w2 id2.
    rewrite lookup_insert_Some. intros [[_ <-]|[_ ?]]; [lia | by eapply Hv]. }
  apply Hx. by intros w' id' H%lookup_empty_Some.
Qed.

Lemma new_tokenizer_ok lines t : new_tokenizer lines = Some t -> tokenizer_ok t.
Proof.
  unfold new_tokenizer. intros H w id Hw. repeat (apply bind_Some in H as (? & _ & H)). injection H as <-. by eapply vocab_of_nonneg.
Qed.

(** C29: The tokenizer terminates on every word and computes the greedy reference: the word cut from the left into pieces,
    each the longest one of the vocabulary that fits ("##" in front of every piece but the first), and the ids
    of these pieces; and the unknown id alone exactly for a word on which cutting so gets stuck.  Every word is
    of one of the two kinds, in one way. *)
Theorem word_piece_is_greedy (lines : list text) (t : WordPieceTokenizer) (word : text) :
  new_tokenizer lines = Some t ->
  (forall l, greedy t 0 word l -> WordPiece t word = Some (map snd l) /\ concat (map fst l) = word) /\
  (dead_end t 0 word -> WordPiece t word = Some [_unkId t]) /\
  (dead_end t 0 word \/ exists l, greedy t 0 word l) /\
  ~ (dead_end t 0 word /\ exists l, greedy t 0 word l).
Proof.
  intros Hok%new_tokenizer_ok. unfold WordPiece.
  pose proof (word_piece_loop_spec t (S (length word)) 0 word [] Hok ltac:(lia)) as Hspec.
  assert (forall start rest l, greedy t start rest l -> concat (map fst l) = rest) as Hcat
    by (induction 1 as [|start seg rest id l _ _ IH]; simpl; [done | by rewrite IH]).
  split_and!.
  - intros l Hg. split; [|by eapply Hcat]. destruct Hspec as [(l' & Hg' & ->)|[Hd _]]; [|by destruct (greedy_alive t 0 word l Hg)].
    by rewrite (greedy_unique t 0 word l Hg l' Hg').
  - intros Hd. destruct Hspec as [(l' & Hg' & _)|[_ E]]; [by destruct (greedy_alive t 0 word l' Hg') | done].
  - destruct Hspec as [(l' & Hg' & _)|[Hd _]]; [right; by exists l' | by left].
  - intros [Hd [l Hg]]. by destruct (greedy_alive t 0 word l Hg).
Qed.

(** ** What the encoder is fed *)

Section Layout.
  Context (ToLowerInvariant NormalizeFormD : text -> text) (IsNonSpacingMark IsPunctuationOrSymbol : Z -> bool).

(** All pieces of a text, in order. *)
Definition all_pieces (t : WordPieceTokenizer) (ws : list text) : list Z := concat (map (fun w => default [] (WordPiece t w)) ws).

Lemma all_pieces_cons t w ws l : WordPiece t w = Some l -> all_pieces t (w :: ws) = l ++ all_pieces t ws.
Proof. intros E. unfold all_pieces. cbn [map concat]. by rewrite E. Qed.

Lemma WordPiece_total t w : tokenizer_ok t -> exists l, WordPiece t w = Some l.
Proof.
  intros Hok. unfold WordPiece. destruct (word_piece_loop_spec t (S (length w)) 0 w [] Hok ltac:(lia)) as [(l & _ & ->)|[_ ->]]; by eexists.
Qed.

Lemma add_pieces_spec maxLen new : forall pieces,
  add_pieces maxLen new pieces = pieces ++ take (Z.to_nat (maxLen - 1) - length pieces) new.
Proof.
  induction new as [|x new IH]; intros pieces; cbn [add_pieces]; [by rewrite take_nil, app_nil_r|].
  rewrite Z.geb_leb. destruct (Z.leb_spec (maxLen - 1) (Z.of_nat (length pieces))) as [Hle|Hlt].
  - replace (Z.to_nat (maxLen - 1) - length pieces)%nat with 0%nat by lia. by rewrite app_nil_r.
  - rewrite IH, length_app. simpl. destruct (Z.to_nat (maxLen - 1) - length pieces)%nat as [|k] eqn:Ek; [lia|].
    replace (Z.to_nat (maxLen - 1) - (length pieces + 1))%nat with k by lia. by rewrite <- app_assoc.
Qed.

Lemma add_words_spec t maxLen ws : tokenizer_ok t -> forall pieces,
  add_words t maxLen ws pieces = Some (pieces ++ take (Z.to_nat (maxLen - 1) - length pieces) (all_pieces t ws)).
Proof.
  intros Hok. induction ws as [|w ws IH]; intros pieces; simpl.
  { change (all_pieces t []) with (@nil Z). by rewrite take_nil, app_nil_r. }
  destruct (WordPiece_total t w Hok) as [l Hl]. rewrite Hl. simpl. rewrite IH, add_pieces_spec. f_equal.
  rewrite (all_pieces_cons t w ws l Hl), take_app, <- app_assoc. do 2 f_equal.
  rewrite length_app, length_take. f_equal. lia.
Qed.

Lemma map_seq_default (pad : Z) (l : list Z) n : (length l <= n)%nat ->
  (fun i => default pad (l !! i)) <$> seq 0 n = l ++ replicate (n - length l) pad.
Proof.
  intros Hl. apply list_eq. intros i. rewrite list_lookup_fmap.
  destruct (decide (i < n)%nat) as [Hi|Hi].
  - rewrite lookup_seq_lt by done. simpl. destruct (decide (i < length l)%nat) as [Hi'|Hi'].
    + rewrite lookup_app_l by done. apply lookup_lt_is_Some in Hi' as [x Hx]. by rewrite Hx.
    + rewrite lookup_app_r, lookup_replicate_2 by lia. by rewrite lookup_ge_None_2 by lia.
  - rewrite lookup_seq_ge by lia. symmetry. apply lookup_ge_None_2. rewrite length_app, length_replicate. lia.
Qed.

Lemma map_seq_mask k n : (k <= n)%nat ->
  (fun i => if bool_decide (i < k)%nat then 1 else 0) <$> seq 0 n = replicate k 1 ++ replicate (n - k) 0.
Proof.
  intros Hk. apply list_eq. intros i. rewrite list_lookup_fmap.
  destruct (decide (i < n)%nat) as [Hi|Hi].
  - rewrite lookup_seq_lt by done. simpl. case_bool_decide.
    + by rewrite lookup_app_l, lookup_replicate_2 by (rewrite ?length_replicate; lia).
    + by rewrite lookup_app_r, lookup_replicate_2 by (rewrite ?length_replicate; lia).
  - rewrite lookup_seq_ge by lia. symmetry. apply lookup_ge_None_2. rewrite length_app, !length_replicate. lia.
Qed.

(** What the model is fed, for every text and every length: exactly [maxLen] ids and mask entries; [CLS], the first
    [maxLen - 2] pieces of the text, [SEP], then padding, and the mask is one exactly on what is not padding.  At
    length one the separator is lost, at zero everything, and a negative length is refused. *)
Theorem encode_layout (lines : list text) (t : WordPieceTokenizer) (s : text) (maxLen : Z) :
  new_tokenizer lines = Some t ->
  let encoded := Encode ToLowerInvariant NormalizeFormD IsNonSpacingMark IsPunctuationOrSymbol t s maxLen in
  let body := take (Z.to_nat (maxLen - 2)) (all_pieces t (BasicTokenize ToLowerInvariant NormalizeFormD IsNonSpacingMark IsPunctuationOrSymbol s)) in
  (2 <= maxLen -> exists pad, encoded =
     Some (ClsId t :: body ++ SepId t :: replicate pad (_padId t), replicate (length body + 2) 1 ++ replicate pad 0) /\
     Z.of_nat (length body + 2 + pad) = maxLen) /\
  (maxLen = 1 -> encoded = Some ([ClsId t], [1])) /\ (maxLen = 0 -> encoded = Some ([], [])) /\ (maxLen < 0 -> encoded = None).
Proof.
  intros Hok%new_tokenizer_ok encoded body. subst encoded. unfold Encode.
  assert (add_words t maxLen (BasicTokenize ToLowerInvariant NormalizeFormD IsNonSpacingMark IsPunctuationOrSymbol s) [ClsId t] =
    Some (ClsId t :: body)) as -> by (rewrite add_words_spec by done; subst body; cbn [app length]; do 3 f_equal; lia).
  cbn [mbind option_bind].
  assert (length body <= Z.to_nat (maxLen - 2))%nat as Hb by (subst body; rewrite length_take; lia).
  split_and!.
  - intros Hm. assert ((maxLen <? 0) = false) as -> by (apply Z.ltb_ge; lia). exists (Z.to_nat maxLen - (length body + 2))%nat.
    assert (length ((ClsId t :: body) ++ [SepId t]) = length body + 2)%nat as El by (rewrite length_app; simpl; lia).
    split; [|lia]. rewrite map_seq_default, map_seq_mask by (rewrite El; lia). rewrite El. by rewrite <- app_assoc.
  - intros ->. by change body with (@nil Z).
  - by intros ->.
  - intros Hm. assert ((maxLen <? 0) = true) as -> by (apply Z.ltb_lt; lia). done.
Qed.
End Layout.

(** ** What a search returns *)

Lemma Search_set {V D} `{Ranking D} (encode : text -> V) (score : V -> V -> D) query id texts topK c :
  Search encode score query id topK (SetCorpus encode id texts c) =
  take (Z.to_nat topK) (Sort (map (fun txt => (txt, score (encode query) (encode txt))) texts)).
Proof.
  unfold Search, SetCorpus. rewrite lookup_insert_eq. do 2 f_equal. induction texts as [|x l IH]; simpl; [done | by rewrite IH].
Qed.

(** A search returns the best entries of the corpus as it was last set: at most [topK], all of them if there are not
    more, each an entry of the corpus with its score, in descending order, and none that was left out scores
    higher than one that was returned.  An unknown corpus and a topK of zero or less return nothing. *)
Theorem search_returns_best {V D} `{Ranking D} (encode : text -> V) (score : V -> V -> D) (query id : text) (texts : list text)
    (topK : Z) (c : gmap text (list text * list V)) :
  let scored := map (fun txt => (txt, score (encode query) (encode txt))) texts in
  let hits := Search encode score query id topK (SetCorpus encode id texts c) in
  (exists left_out, hits ++ left_out ≡ₚ scored /\ forall a b, a ∈ hits -> b ∈ left_out -> at_most b.2 a.2) /\
  StronglySorted (fun a b => at_most b.2 a.2) hits /\
  length hits = Nat.min (Z.to_nat topK) (length texts) /\
  (c !! id = None -> Search encode score query id topK c = []).
Proof.
  intros scored hits. assert (hits = take (Z.to_nat topK) (Sort scored)) as Eh by apply Search_set.
  pose proof (Sort_permutes scored) as Hp. pose proof (Sort_descends scored) as Hs. split_and!.
  - exists (drop (Z.to_nat topK) (Sort scored)). rewrite Eh, take_drop. split; [done|].
    rewrite <- (take_drop (Z.to_nat topK) (Sort scored)) in Hs. intros a b Ha Hb.
    by eapply (StronglySorted_app_1_elem_of _ _ _ a b Hs).
  - rewrite Eh. rewrite <- (take_drop (Z.to_nat topK) (Sort scored)) in Hs. by eapply StronglySorted_app_1_l.
  - rewrite Eh, length_take, Hp. subst scored. by rewrite length_map.
  - unfold Search. by intros ->.
Qed.

(** ** The prompt *)

Lemma section_of_line part s : section_of part = Some s -> 10 ∉ s.
Proof.
  unfold section_of. destruct (Trim (trim_marks (Trim part))) as [|c r]; [done|]. intros [= <-].
  apply not_elem_of_join; [set_solver by lia | apply split_clean_clean].
Qed.

Lemma title_line_line lines v : Forall (fun l => 10 ∉ l) lines -> title_line lines = Some v -> 10 ∉ v.
Proof.
  induction 1 as [|raw rest Hr _ IH]; [done|]. cbn [title_line]. destruct (starts_with_ignoring_case _ (Trim raw)) as [w|] eqn:E; [|done].
  intros [= <-] Hin%Trim_in. apply Hr, Trim_in. clear -E Hin. unfold starts_with_ignoring_case in E. revert E. generalize (lit "title:").
  intros p. generalize (Trim raw). induction p as [|x p IH]; intros s; simpl; [by intros [= ->]|].
  destruct s as [|y s]; [done|]. destruct (_ =? _); [|done]. intros H%IH. set_solver.
Qed.

Lemma file_chunks_lines file : 10 ∉ file.1 -> Forall (fun l => 10 ∉ l) (file_chunks file).
Proof.
  intros Hn. unfold file_chunks. apply Forall_forall. intros l Hl. apply list_elem_of_In, in_map_iff in Hl as (s & <- & Hs).
  apply list_elem_of_In in Hs. unfold SplitSections in Hs. apply list_elem_of_omap in Hs as (part & _ & Hs). apply section_of_line in Hs.
  assert (10 ∉ default file.1 (ExtractTitle file.2)) as Ht; [|unfold chunk; set_solver by lia].
  unfold ExtractTitle. destruct (fence (TrimStart file.2)) as [e|]; [simpl | done].
  destruct (title_line _) as [v|] eqn:E; [|done]. simpl. eapply title_line_line; [apply split_char_clean | exact E].
Qed.

Definition excerpts (hits : list text) : list text :=
  match hits with [] => [lit "(none found)"] | _ => map (app (lit "- ")) hits end.

Lemma append_line l s : 10 ∉ l -> split_char 10 (AppendLine l ++ s) = l :: split_char 10 s.
Proof. intros H. unfold AppendLine. rewrite <- app_assoc. by apply split_char_app. Qed.

Lemma excerpts_lines hits s : Forall (fun l => 10 ∉ l) hits ->
  split_char 10 ((match hits with [] => AppendLine (lit "(none found)") | _ => concat (map (fun c => lit "- " ++ AppendLine c) hits) end) ++ s) =
  excerpts hits ++ split_char 10 s.
Proof.
  intros H. destruct hits as [|h hits]; [by apply append_line; vm_compute; set_solver by lia|]. unfold excerpts.
  assert (forall l, Forall (fun l => 10 ∉ l) l ->
    split_char 10 (concat (map (fun c => lit "- " ++ AppendLine c) l) ++ s) = map (app (lit "- ")) l ++ split_char 10 s) as Hx; [|by apply Hx].
  clear. induction 1 as [|c l Hc _ IH]; [done|]. cbn [map concat]. rewrite <- !app_assoc.
  change (lit "- " ++ AppendLine c ++ concat (map (fun c => lit "- " ++ AppendLine c) l) ++ s)
    with (AppendLine (lit "- " ++ c) ++ concat (map (fun c => lit "- " ++ AppendLine c) l) ++ s).
  rewrite append_line, IH; [done|]. simpl. set_solver by lia.
Qed.

(** The prompt of a manuals question, line by line: the three lines of instruction, the excerpts, one line each and
    nothing but passages of the manuals that were loaded, at most [topK] of them, or the line that says there is none; then
    the question and the cue for the answer.  No passage can break out of its line, whatever the manuals contain. *)
Theorem grounded_prompt_lines {V D} `{Ranking D} (encode : text -> V) (score : V -> V -> D) (files : list (text * text)) (topK : Z)
    (c : gmap text (list text * list V)) (question : text) :
  Forall (fun file => 10 ∉ file.1) files ->
  exists hits, incl hits (Load files) /\ (length hits <= Z.to_nat topK)%nat /\
    split_char 10 (grounded_prompt encode score topK (SetCorpus encode (lit "manuals") (Load files) c) question) =
    [lit "You are a maintenance assistant. Answer the question using ONLY the manual";
     lit "excerpts below. If they do not contain the answer, say you couldn't find it in";
     lit "the manuals. Be concise."; []; lit "Manual excerpts:"] ++
    excerpts hits ++ [] :: split_char 10 (lit "Question: " ++ question) ++ [lit "Answer:"].
Proof.
  intros Hn. unfold grounded_prompt. rewrite Search_set.
  set (found := take _ _). exists (map fst found).
  assert (incl (map fst found) (Load files)) as Hincl.
  { intros x Hx. apply in_map_iff in Hx as ([y d] & <- & Hx). simpl.
    assert (In (y, d) (Sort (map (fun txt => (txt, score (encode question) (encode txt))) (Load files)))) as Hin
      by (rewrite <- (take_drop (Z.to_nat topK) (Sort _)); apply in_or_app; by left).
    eapply Permutation_in in Hin; [|apply Sort_permutes]. by apply in_map_iff in Hin as (u & [= -> _] & Hu). }
  split_and!; [done | rewrite length_map; unfold found; rewrite length_take; lia |].
  assert (Forall (fun l => 10 ∉ l) (map fst found)) as Hl.
  { apply Forall_forall. intros x Hx. apply list_elem_of_In, Hincl, list_elem_of_In in Hx. unfold Load in Hx.
    apply list_elem_of_bind in Hx as (file & Hx & Hf). rewrite Forall_forall in Hn. pose proof (file_chunks_lines file (Hn file Hf)) as Hc.
    rewrite Forall_forall in Hc. by apply Hc. }
  unfold Build. rewrite !append_line by (vm_compute; set_solver by lia). rewrite excerpts_lines by done.
  rewrite append_line by (vm_compute; set_solver by lia).
  unfold AppendLine. rewrite <- (app_assoc question), (app_assoc (lit "Question: ")).
  change ([10] ++ lit "Answer:") with (10 :: lit "Answer:"). by rewrite split_char_break.
Qed.

(** ** Concrete instances *)

Definition demo_vocab : list text :=
  map lit ["[PAD]"; "[UNK]"; "[CLS]"; "[SEP]"; "valve"; "val"; "##ves"; "##s"; "check"]%string.
Definition demo_tokenizer : WordPieceTokenizer := default (MkTokenizer ∅ 0 0 0 0) (new_tokenizer demo_vocab).

Lemma demo_tokenizer_new : new_tokenizer demo_vocab = Some demo_tokenizer.
Proof. reflexivity. Qed.

Lemma word_piece_witness : WordPiece demo_tokenizer (lit "valves") = Some [4; 7].
Proof.
  destruct (word_piece_is_greedy demo_vocab demo_tokenizer (lit "valves") demo_tokenizer_new) as (Hg & Hd & Hor & _).
  destruct Hor as [H|[l H]].
  - apply Hd in H. vm_compute in H. discriminate.
  - apply Hg in H as [H _]. vm_compute in H |- *. reflexivity.
Defined.

Lemma encode_layout_witness :
  Encode id id (fun _ => false) (fun c => c =? 46) demo_tokenizer (lit "check valves. xyz") 6 =
  Some ([2; 8; 4; 7; 1; 3], [1; 1; 1; 1; 1; 1]).
Proof.
  destruct (encode_layout id id (fun _ => false) (fun c => c =? 46) demo_vocab demo_tokenizer (lit "check valves. xyz") 6
    demo_tokenizer_new) as [H _].
  destruct (H ltac:(lia)) as (pad & E & Hp). rewrite E.
  assert (pad = 0%nat) as -> by (change (Z.of_nat (4 + 2 + pad) = 6) in Hp; lia). vm_compute. reflexivity.
Defined.

(** Scores that are integers, sorted by merging. *)
#[local] Instance z_score_trans : Transitive (fun a b : text * Z => b.2 <= a.2).
Proof. intros x y z H1 H2. lia. Qed.
#[local] Instance z_score_total : Total (fun a b : text * Z => b.2 <= a.2).
Proof. intros x y. lia. Qed.
#[local] Instance z_score_dec : forall a b : text * Z, Decision (b.2 <= a.2).
Proof. intros a b. apply Z_le_dec. Defined.
#[local] Instance z_ranking : Ranking Z := {
  at_most := Z.le;
  at_most_total x y := Z.le_ge_cases x y;
  at_most_trans := Z.le_trans;
  Sort := @merge_sort _ (fun a b : text * Z => b.2 <= a.2) z_score_dec;
  Sort_permutes := merge_sort_Permutation _;
  Sort_descends := StronglySorted_merge_sort _ }.

Definition demo_score (q e : Z) : Z := - Z.abs (q - e).

Lemma search_witness : length (Search (fun t => Z.of_nat (length t)) demo_score (lit "abc") (lit "m") 2
  (SetCorpus (fun t => Z.of_nat (length t)) (lit "m") [lit "a"; lit "ab"; lit "abcd"] ∅)) = 2%nat.
Proof.
  destruct (search_returns_best (fun t => Z.of_nat (length t)) demo_score (lit "abc") (lit "m") [lit "a"; lit "ab"; lit "abcd"] 2 ∅)
    as (_ & _ & H & _). exact H.
Defined.

Definition demo_files : list (text * text) :=
  [(lit "pump", lit "---" ++ [10] ++ lit "title: Pump" ++ [10] ++ lit "---" ++ [10] ++ lit "## Start" ++ [10] ++ lit "open" ++ [10] ++ lit "- valve" ++
    [10] ++ lit "## Stop" ++ [10] ++ lit "close")].

Lemma grounded_prompt_witness : exists hits, incl hits (Load demo_files) /\ (length hits <= 3)%nat.
Proof.
  destruct (grounded_prompt_lines (fun t => Z.of_nat (length t)) demo_score demo_files 3 ∅ (lit "why")) as (hits & H1 & H2 & _).
  - repeat constructor. intros H. vm_compute in H. repeat (apply elem_of_cons in H as [H|H]; [discriminate|]). by apply elem_of_nil in H.
  - exists hits. split; [exact H1 | exact H2].
Defined.
