(* ===== verification/Agent.v ===== *)
(** * Agent: the Foreman turn loop and its conversation memory

    [ForemanAgent.RunTurnAsync] (Engine/Ai/Agent/ForemanAgent.cs): ask the brain, run the tool it calls, at
    most five times, then let it stream the answer; every exception but a cancellation is contained.
    [ConversationSession]: the last six turns, clamped.  The brain is the interface [IAgentBrain]: the theorems
    of this file hold for every implementation; the two the engine has are in [Foreman].

    Brains and tools are arbitrary code, so they get the state of the outside world as an argument and return
    it; what they may do is return, throw, or be cancelled.  C# strings are lists of UTF-16 units. *)

From S2P Require Import Prelude Utf8 Json.
Local Open Scope nat_scope.
#[local] Set Warnings "-clear-no-such-hyp".

(** How an [await] ends: normally, with an exception (of some type), with an [OperationCanceledException]. *)
Inductive res (A : Type) := Ok (a : A) | Throw (type_name : text) | Cancelled.
Arguments Ok {A}. Arguments Throw {A}. Arguments Cancelled {A}.

(** ** Data (ForemanModels.cs, ToolDefinition.cs, IAgentBrain.cs) *)

Record ToolCall := MkToolCall { Tool : text; ArgsJson : text }.

Inductive ForemanStopReason := Answered | StepCapReached | Error.

Record AgentStep := MkStep { Kind : text; Detail : text; Result : option text }.
Definition KindToolCall : text := lit "tool_call".
Definition KindToolResult : text := lit "tool_result".

Record ForemanTurnResult := MkResult { Answer_ : text; StopReason : ForemanStopReason; ToolSteps : nat }.

Record AgentDecision := MkDecision { Call : option ToolCall; IsAnswer : bool }.
Definition DecideTool (c : ToolCall) : AgentDecision := MkDecision (Some c) false.
Definition DecideAnswer : AgentDecision := MkDecision None true.

Record ConversationTurn := MkConv { cQuery : text; cAnswer : text }.

Record AgentContext := MkContext { Query : text; Steps : list AgentStep; History : list ConversationTurn }.

Record ToolParam := MkParam { pName : text; pJsonType : text; pRequired : bool }.
Record ToolDefinition (W : Type) := MkTool {
  Name : text; Description : text; Params : list ToolParam; Invoke : text -> W -> res text * W }.
Arguments MkTool {W}. Arguments Name {W}. Arguments Description {W}. Arguments Params {W}. Arguments Invoke {W}.

(** The interface of a brain.  [StreamAnswerAsync] also says which fragments reached the sink before it ended. *)
Class IAgentBrain (W B : Type) := {
  DecideAsync : B -> AgentContext -> W -> res AgentDecision * W;
  StreamAnswerAsync : B -> AgentContext -> W -> list text * res unit * W;
  BackendBadge : B -> text }.

(** ** Conversation memory (ConversationSession.cs) *)

Definition MaxTurns : nat := 6.
Definition MaxQueryChars : nat := 500.
Definition MaxAnswerChars : nat := 800.
Definition TruncatedSuffix : text := 0x2026%Z :: lit "(truncated)".

(** [Clamp], and [Bound] of the agent. *)
Definition Clamp (s : text) (max : nat) : text :=
  if bool_decide (length s <= max) then s else take max s ++ TruncatedSuffix.

(** [while (_turns.Count > MaxTurns) _turns.RemoveAt(0)] *)
Fixpoint evict (turns : list ConversationTurn) : list ConversationTurn :=
  match turns with
  | [] => []
  | _ :: rest => if bool_decide (MaxTurns < length turns) then evict rest else turns
  end.

Definition clamped (query answer : text) : ConversationTurn :=
  MkConv (Clamp query MaxQueryChars) (Clamp answer MaxAnswerChars).
Definition Append (query answer : text) (turns : list ConversationTurn) : list ConversationTurn :=
  evict (turns ++ [clamped query answer]).
Definition Reset (turns : list ConversationTurn) : list ConversationTurn := [].
Definition Snapshot (turns : list ConversationTurn) : list ConversationTurn := turns.

(** What happens to the shared session, in the order the lock is taken. *)
Inductive memory_op := OpAppend (query answer : text) | OpReset.
Definition apply_op (turns : list ConversationTurn) (op : memory_op) : list ConversationTurn :=
  match op with OpAppend q a => Append q a turns | OpReset => Reset turns end.

(** The turns completed since the last reset. *)
Fixpoint since_reset (acc : list ConversationTurn) (ops : list memory_op) : list ConversationTurn :=
  match ops with
  | [] => acc
  | OpAppend q a :: rest => since_reset (acc ++ [clamped q a]) rest
  | OpReset :: rest => since_reset [] rest
  end.

(** ** The turn (ForemanAgent.cs) *)

Definition MaxToolSteps : nat := 5.
Definition MaxToolArgsChars : nat := 256.
Definition MaxToolResultChars : nat := 512.

(** What a turn records in the engine trace: the tool call counter, and per call a span with its tags. *)
Inductive event :=
| AgentTurn (query_len : nat)
| AgentToolCall (tool : text)
| ToolSpan (tool args : text) (known : bool) (result : option text).

Section Turn.
  Context {W B : Type} `{Brain : IAgentBrain W B} (tools : list (ToolDefinition W)) (brain : B).

Record turn := Turn {
  t_steps : list AgentStep;
  t_answer : text;             (* the StringBuilder *)
  t_sink : list text;          (* what answerSink was given, oldest first *)
  t_tools : nat;               (* toolSteps *)
  t_events : list event;
  t_world : W }.

Definition Sink (s : text) (t : turn) : turn :=
  Turn (t_steps t) (t_answer t ++ s) (t_sink t ++ [s]) (t_tools t) (t_events t) (t_world t).
Definition set_world (w : W) (t : turn) : turn :=
  Turn (t_steps t) (t_answer t) (t_sink t) (t_tools t) (t_events t) w.
Definition record_event (e : event) (t : turn) : turn :=
  Turn (t_steps t) (t_answer t) (t_sink t) (t_tools t) (t_events t ++ [e]) (t_world t).

Definition agent_error (ex : text) : text := lit "(agent error: " ++ ex ++ lit ")".

Fixpoint FindTool (ts : list (ToolDefinition W)) (name : text) : option (ToolDefinition W) :=
  match ts with
  | [] => None
  | t :: rest => if bool_decide (Name t = name) then Some t else FindTool rest name
  end.

Inductive turn_outcome := Completed (r : ForemanTurnResult) | TurnCancelled.

Section Loop.
  Context (query : text) (history : list ConversationTurn).

Definition ctx (t : turn) : AgentContext := MkContext query (t_steps t) history.

Definition TryStreamAnswerAsync (t : turn) : res bool * turn :=
  let '(fragments, r, w) := StreamAnswerAsync brain (ctx t) (t_world t) in
  let t1 := fold_left (fun t s => Sink s t) fragments (set_world w t) in
  match r with
  | Ok _ => (Ok true, t1)
  | Throw ex => (Ok false, Sink (agent_error ex) t1)
  | Cancelled => (Cancelled, t1)
  end.

Definition unknown_tool : text := [123; 34]%Z ++ lit "error" ++ [34; 58; 34]%Z ++ lit "unknown tool" ++ [34; 125]%Z.
Definition tool_error (ex : text) : text := [123; 34]%Z ++ lit "error" ++ [34; 58; 34]%Z ++ ex ++ [34; 125]%Z.

(** Lines 106-121: one tool call; [false] when it was cancelled. *)
Definition run_tool (call : ToolCall) (t : turn) : bool * turn :=
  let t0 := record_event (AgentToolCall (Tool call)) t in
  let args := Clamp (ArgsJson call) MaxToolArgsChars in
  let finish (known : bool) (result : text) (t : turn) : turn :=
    let t1 := record_event (ToolSpan (Tool call) args known (Some (Clamp result MaxToolResultChars))) t in
    Turn (t_steps t1 ++ [MkStep KindToolCall (Tool call) (Some (ArgsJson call)); MkStep KindToolResult (Tool call) (Some result)])
      (t_answer t1) (t_sink t1) (S (t_tools t1)) (t_events t1) (t_world t1) in
  match FindTool tools (Tool call) with
  | None => (true, finish false unknown_tool t0)
  | Some tool =>
      let '(r, w) := Invoke tool (ArgsJson call) (t_world t0) in
      let t1 := set_world w t0 in
      match r with
      | Ok result => (true, finish true result t1)
      | Throw ex => (true, finish true (tool_error ex) t1)
      | Cancelled => (false, record_event (ToolSpan (Tool call) args true None) t1)
      end
  end.

(** [Finish], apart from the conversation. *)
Definition Finish (reason : ForemanStopReason) (t : turn) : turn_outcome :=
  Completed (MkResult (t_answer t) reason (t_tools t)).

Definition answer_and_finish (reason : ForemanStopReason) (t : turn) : turn_outcome * turn :=
  match TryStreamAnswerAsync t with
  | (Ok true, t') => (Finish reason t', t')
  | (Ok false, t') => (Finish Error t', t')
  | (Throw _, t') | (Cancelled, t') => (TurnCancelled, t')
  end.

(** The [while (true)] loop; [None] when the fuel is exhausted. *)
Fixpoint turn_loop (fuel : nat) (t : turn) : option (turn_outcome * turn) :=
  match fuel with
  | O => None
  | S n =>
      let '(d, w) := DecideAsync brain (ctx t) (t_world t) in
      let t := set_world w t in
      match d with
      | Throw ex => let t' := Sink (agent_error ex) t in Some (Finish Error t', t')
      | Cancelled => Some (TurnCancelled, t)
      | Ok decision =>
          match IsAnswer decision, Call decision with
          | false, Some call =>
              if bool_decide (MaxToolSteps <= t_tools t) then Some (answer_and_finish StepCapReached t)
              else
                match run_tool call t with
                | (true, t') => turn_loop n t'
                | (false, t') => Some (TurnCancelled, t')
                end
          | _, _ => Some (answer_and_finish Answered t)
          end
      end
  end.
End Loop.

(** [RunTurnAsync] on a conversation nobody else touches; [None] for an agent without one. *)
Definition RunTurnAsync (conversation : option (list ConversationTurn)) (query : text) (w : W)
  : option (turn_outcome * turn * option (list ConversationTurn)) :=
  let history := match conversation with Some c => Snapshot c | None => [] end in
  let t0 := record_event (AgentTurn (length query)) (Turn [] [] [] 0 [] w) in
  match turn_loop query history (S MaxToolSteps) t0 with
  | None => None
  | Some (Completed r, t) => Some (Completed r, t, Append query (Answer_ r) <$> conversation)
  | Some (TurnCancelled, t) => Some (TurnCancelled, t, conversation)
  end.

(** ** What a turn promises *)

(** The specification: [k] rounds of "the brain calls a tool, the tool answers", then the end. *)
Inductive rounds (query : text) (history : list ConversationTurn) : nat -> turn -> turn -> Prop :=
| rounds_done t : rounds query history 0 t t
| rounds_tool k t d w call t1 t2 :
    DecideAsync brain (ctx query history t) (t_world t) = (Ok d, w) ->
    IsAnswer d = false -> Call d = Some call ->
    run_tool call (set_world w t) = (true, t1) ->
    rounds query history k t1 t2 -> rounds query history (S k) t t2.

(** How the turn goes on from [t], where the brain is asked for the last time: the brain fails, is cancelled,
    answers, calls a sixth tool, or calls a tool that is cancelled. *)
Definition last_round (query : text) (history : list ConversationTurn) (t : turn) (o : turn_outcome) (t' : turn) : Prop :=
  let '(d, w) := DecideAsync brain (ctx query history t) (t_world t) in
  let t1 := set_world w t in
  match d with
  | Throw ex => t' = Sink (agent_error ex) t1 /\ o = Finish Error t'
  | Cancelled => t' = t1 /\ o = TurnCancelled
  | Ok d =>
      match IsAnswer d, Call d with
      | false, Some call =>
          (t_tools t = MaxToolSteps /\ (o, t') = answer_and_finish query history StepCapReached t1) \/
          (t_tools t < MaxToolSteps /\ run_tool call t1 = (false, t') /\ o = TurnCancelled)
      | _, _ => (o, t') = answer_and_finish query history Answered t1
      end
  end.

(** Steps come in pairs, a call and its result. *)
Definition paired (steps : list AgentStep) (n : nat) : Prop :=
  length steps = 2 * n /\
  forall i, i < n -> exists name args result,
    steps !! (2 * i) = Some (MkStep KindToolCall name (Some args)) /\
    steps !! S (2 * i) = Some (MkStep KindToolResult name (Some result)).

Definition bounded_event (e : event) : Prop :=
  match e with
  | ToolSpan _ args _ result =>
      length args <= MaxToolArgsChars + length TruncatedSuffix /\
      (forall r, result = Some r -> length r <= MaxToolResultChars + length TruncatedSuffix)
  | _ => True
  end.

Record turn_ok (t : turn) : Prop := {
  ok_paired : paired (t_steps t) (t_tools t);
  ok_answer : t_answer t = concat (t_sink t);
  ok_events : Forall bounded_event (t_events t) }.

Lemma Clamp_length s max : length (Clamp s max) <= max + length TruncatedSuffix.
Proof.
  unfold Clamp. case_bool_decide; [lia|]. rewrite length_app, length_take. lia.
Qed.

Lemma turn_ok_sink s t : turn_ok t -> turn_ok (Sink s t).
Proof. intros [Hp Ha He]. split; simpl; [done | by rewrite Ha, concat_app; simpl; rewrite app_nil_r | done]. Qed.

Lemma turn_ok_sinks l t : turn_ok t -> turn_ok (fold_left (fun t s => Sink s t) l t).
Proof. revert t. induction l as [|s l IH]; intros t Ht; [done|]. by apply IH, turn_ok_sink. Qed.

Lemma sinks_steps l t :
  t_steps (fold_left (fun t s => Sink s t) l t) = t_steps t /\ t_tools (fold_left (fun t s => Sink s t) l t) = t_tools t.
Proof. revert t. induction l as [|s l IH]; intros t; [done|]. simpl. by destruct (IH (Sink s t)) as [-> ->]. Qed.

Lemma turn_ok_event e t : bounded_event e -> turn_ok t -> turn_ok (record_event e t).
Proof. intros H [Hp Ha He]. split; simpl; [done..|]. apply Forall_app. by split; [|apply Forall_singleton]. Qed.

Lemma turn_ok_world w t : turn_ok t -> turn_ok (set_world w t).
Proof. by intros [Hp Ha He]; split. Qed.

Lemma paired_snoc steps n name args result : paired steps n ->
  paired (steps ++ [MkStep KindToolCall name (Some args); MkStep KindToolResult name (Some result)]) (S n).
Proof.
  intros [Hl Hp]. split; [rewrite length_app; simpl; lia|]. intros i Hi. destruct (decide (i = n)) as [->|Hne].
  - exists name, args, result. rewrite !lookup_app_r by lia. rewrite Hl, Nat.sub_diag.
    replace (S (2 * n) - 2 * n) with 1 by lia. done.
  - destruct (Hp i ltac:(lia)) as (nm & a & r & H1 & H2). exists nm, a, r.
    by split; rewrite lookup_app_l by (rewrite Hl; lia).
Qed.

Lemma run_tool_ok call t b t' : turn_ok t -> run_tool call t = (b, t') ->
  turn_ok t' /\ t_tools t' = (if b then S (t_tools t) else t_tools t).
Proof.
  intros Ht. unfold run_tool.
  assert (turn_ok (record_event (AgentToolCall (Tool call)) t)) as H0 by (by apply turn_ok_event).
  set (t0 := record_event _ t) in *.
  assert (forall known result t1, turn_ok t1 -> t_tools t1 = t_tools t ->
    let t2 := record_event (ToolSpan (Tool call) (Clamp (ArgsJson call) MaxToolArgsChars) known (Some (Clamp result MaxToolResultChars))) t1 in
    let t3 := Turn (t_steps t2 ++ [MkStep KindToolCall (Tool call) (Some (ArgsJson call)); MkStep KindToolResult (Tool call) (Some result)])
      (t_answer t2) (t_sink t2) (S (t_tools t2)) (t_events t2) (t_world t2) in
    turn_ok t3 /\ t_tools t3 = S (t_tools t)) as Hfin.
  { intros known result t1 [Hp Ha He] Hn. split; [|simpl; lia]. split; simpl; [by apply paired_snoc | done|].
    apply Forall_app. split; [done|]. apply Forall_singleton. split; [apply Clamp_length|].
    intros r [= <-]. apply Clamp_length. }
  destruct (FindTool tools (Tool call)) as [tool|]; [|intros [= <- <-]; exact (Hfin false unknown_tool t0 H0 eq_refl)].
  destruct (Invoke tool (ArgsJson call) (t_world t0)) as [[result|ex|] w]; intros [= <- <-].
  - exact (Hfin true result (set_world w t0) (turn_ok_world w t0 H0) eq_refl).
  - exact (Hfin true (tool_error ex) (set_world w t0) (turn_ok_world w t0 H0) eq_refl).
  - split; [|done]. apply turn_ok_event; [|by apply turn_ok_world]. split; [apply Clamp_length | done].
Qed.

Lemma stream_ok query history t r t' : turn_ok t -> TryStreamAnswerAsync query history t = (r, t') ->
  turn_ok t' /\ t_tools t' = t_tools t /\ forall ex, r <> Throw ex.
Proof.
  intros Ht. unfold TryStreamAnswerAsync. destruct (StreamAnswerAsync _ _ _) as [[fragments q] w].
  pose proof (turn_ok_sinks fragments (set_world w t) (turn_ok_world w t Ht)) as Hs.
  destruct (sinks_steps fragments (set_world w t)) as [_ Hn]. simpl in Hn.
  destruct q; intros [= <- <-]; split_and!; try done. by apply turn_ok_sink.
Qed.

Lemma answer_ok query history reason t o t' : turn_ok t -> answer_and_finish query history reason t = (o, t') ->
  turn_ok t' /\ t_tools t' = t_tools t /\
  (o = TurnCancelled \/ exists reason', (reason' = reason \/ reason' = Error) /\ o = Finish reason' t').
Proof.
  intros Ht. unfold answer_and_finish. destruct (TryStreamAnswerAsync query history t) as [r t1] eqn:E.
  apply stream_ok in E as (H1 & H2 & H3); [|done].
  destruct r as [[|]|ex|]; intros [= <- <-]; split_and!; try done; eauto.
Qed.

Lemma loop_refines query history n : forall t, turn_ok t -> t_tools t + n = S MaxToolSteps -> 0 < n ->
  exists o t' k t1, turn_loop query history n t = Some (o, t') /\
    rounds query history k t t1 /\ t_tools t1 = t_tools t + k /\ k < n /\ turn_ok t1 /\
    last_round query history t1 o t'.
Proof.
  induction n as [|n IH]; intros t Ht Hn Hpos; [lia|].
  assert (forall o t', turn_loop query history (S n) t = Some (o, t') -> last_round query history t o t' ->
    exists o t' k t1, turn_loop query history (S n) t = Some (o, t') /\
      rounds query history k t t1 /\ t_tools t1 = t_tools t + k /\ k < S n /\ turn_ok t1 /\ last_round query history t1 o t') as Hend.
  { intros o t' H1 H2. exists o, t', 0, t. split_and!; [done | constructor | lia | lia | done | done]. }
  cbn [turn_loop] in *. unfold last_round in Hend. destruct (DecideAsync brain (ctx query history t) (t_world t)) as [d w] eqn:Ed.
  destruct d as [d|ex|]; [|by eapply Hend|by eapply Hend].
  assert (forall r, answer_and_finish query history r (set_world w t) = (fst (answer_and_finish query history r (set_world w t)), snd (answer_and_finish query history r (set_world w t))))
    as Hpair by (intros r; apply surjective_pairing).
  destruct (IsAnswer d) eqn:Ea; [eapply Hend; [by rewrite Hpair | done]|].
  destruct (Call d) as [call|] eqn:Ec; [|eapply Hend; [by rewrite Hpair | done]].
  case_bool_decide as Hcap.
  { eapply Hend; [by rewrite Hpair|]. left. split; [|done]. simpl in Hcap. lia. }
  destruct (run_tool call (set_world w t)) as [b t1] eqn:Er.
  destruct (run_tool_ok _ _ _ _ (turn_ok_world w t Ht) Er) as [H1 H2]. simpl in H2, Hcap. destruct b.
  - destruct (IH t1 H1 ltac:(lia) ltac:(unfold MaxToolSteps in *; lia)) as (o & t' & k & t2 & Hl & Hr & Hk & Hlt & Hok & Hlast).
    exists o, t', (S k), t2. split_and!; [done | | lia | lia | done | done]. by eapply rounds_tool.
  - eapply Hend; [done|]. right. split; [lia|done].
Qed.

Lemma last_round_ok query history t1 o t : turn_ok t1 -> last_round query history t1 o t ->
  turn_ok t /\ t_tools t = t_tools t1 /\
  (o = TurnCancelled \/ exists reason, o = Finish reason t /\ (reason = StepCapReached -> t_tools t1 = MaxToolSteps)).
Proof.
  intros Hok Hlast. unfold last_round in Hlast. destruct (DecideAsync _ _ _) as [d w'].
  pose proof (turn_ok_world w' t1 Hok) as Hw. destruct d as [d|ex|].
  - assert (forall r, (o, t) = answer_and_finish query history r (set_world w' t1) -> (r = StepCapReached -> t_tools t1 = MaxToolSteps) ->
      turn_ok t /\ t_tools t = t_tools t1 /\
      (o = TurnCancelled \/ exists reason, o = Finish reason t /\ (reason = StepCapReached -> t_tools t1 = MaxToolSteps))) as Hans.
    { intros r E Hcap. symmetry in E. apply answer_ok in E as (H1 & H2 & H3); [|done]. split_and!; [done | by rewrite H2 |].
      destruct H3 as [H3|(reason & [->| ->] & ->)]; [by left | right; by exists r | right; by exists Error]. }
    destruct (IsAnswer d); [by apply (Hans Answered)|]. destruct (Call d) as [call|]; [|by apply (Hans Answered)].
    destruct Hlast as [[Hn E]|(Hn & E & ->)]; [by apply (Hans StepCapReached)|].
    apply run_tool_ok in E as [H1 H2]; [|done]. split_and!; [done | by rewrite H2 | by left].
  - destruct Hlast as [-> ->]. split_and!; [by apply turn_ok_sink | done | right; by exists Error].
  - destruct Hlast as [-> ->]. split_and!; [done | done | by left].
Qed.

Definition turn_start (query : text) (w : W) : turn := Turn [] [] [] 0 [AgentTurn (length query)] w.

Lemma turn_start_ok query w : turn_ok (turn_start query w).
Proof. split; simpl; [split; [done | intros i Hi; simpl in Hi; lia] | done | by apply Forall_singleton]. Qed.

Definition recorded (conversation : option (list ConversationTurn)) (query : text) (o : turn_outcome) : option (list ConversationTurn) :=
  match o with Completed r => Append query (Answer_ r) <$> conversation | TurnCancelled => conversation end.

Lemma RunTurnAsync_loop conversation query w o t :
  turn_loop query (default [] conversation) (S MaxToolSteps) (turn_start query w) = Some (o, t) ->
  RunTurnAsync conversation query w = Some (o, t, recorded conversation query o).
Proof.
  intros H. unfold RunTurnAsync, Snapshot, record_event. simpl. destruct conversation as [c|]; simpl in H |- *;
    change (Turn [] [] [] 0 [AgentTurn (length query)] w) with (turn_start query w); rewrite H; by destruct o.
Qed.

(** What a client of the turn relies on. *)
Lemma turn_spec conversation query w : exists o t,
  RunTurnAsync conversation query w = Some (o, t, recorded conversation query o) /\
  forall r, o = Completed r -> concat (t_sink t) = Answer_ r.
Proof.
  destruct (loop_refines query (default [] conversation) (S MaxToolSteps) (turn_start query w) (turn_start_ok query w) eq_refl ltac:(lia))
    as (o & t & k & t1 & Hl & _ & _ & _ & Hok & Hlast).
  exists o, t. split; [by apply RunTurnAsync_loop|]. intros r ->. apply last_round_ok in Hlast as ([_ Ha _] & _ & [?|(reason & E & _)]); [done| |done].
  unfold Finish in E. simplify_eq/=. done.
Qed.

(** C23: A turn always ends (six questions to the brain at most), and it is what the specification says: at
    most five rounds, in each of which the brain calls a tool and the tool's result, or an error in its place,
    is recorded; then the last question.  No exception escapes but a cancellation.  A completed turn's answer
    is exactly what reached the sink, the turn is appended to the conversation once, and a cancelled
    turn is not appended; the step cap is reported only after five tools; the tags of the trace are
    bounded. *)
Theorem turn_is_bounded (conversation : option (list ConversationTurn)) (query : text) (w : W) :
  exists o t k t1,
    RunTurnAsync conversation query w = Some (o, t, recorded conversation query o) /\
    rounds query (default [] conversation) k (turn_start query w) t1 /\
    last_round query (default [] conversation) t1 o t /\
    k <= MaxToolSteps /\ t_tools t = k /\ paired (t_steps t) k /\ Forall bounded_event (t_events t) /\
    forall r, o = Completed r -> Answer_ r = concat (t_sink t) /\ ToolSteps r = k /\
                                 (StopReason r = StepCapReached -> k = MaxToolSteps).
Proof.
  destruct (loop_refines query (default [] conversation) (S MaxToolSteps) (turn_start query w) (turn_start_ok query w) eq_refl ltac:(lia))
    as (o & t & k & t1 & Hl & Hr & Hk & Hlt & Hok & Hlast).
  simpl in Hk. pose proof (last_round_ok _ _ _ _ _ Hok Hlast) as ([Hp Ha He] & Hkt & Ho). rewrite Hkt, Hk in Hp. rewrite Hk in *.
  exists o, t, k, t1. split_and!; [by apply RunTurnAsync_loop | done | done | lia | done | done | done |].
  intros r ->. destruct Ho as [?|(reason & E & Hcap)]; [done|]. unfold Finish in E. simplify_eq/=. done.
Qed.
End Turn.

(** ** The conversation is a window *)

Lemma evict_drop l : evict l = drop (length l - MaxTurns) l.
Proof.
  induction l as [|x l IH]; [done|]. cbn [evict]. case_bool_decide as Hl.
  - rewrite IH. change (length (x :: l)) with (S (length l)) in *. by rewrite Nat.sub_succ_l by lia.
  - replace (length (x :: l) - MaxTurns) with 0 by lia. done.
Qed.

Definition newest (l : list ConversationTurn) : list ConversationTurn := drop (length l - MaxTurns) l.

Lemma Append_newest q a l : Append q a (newest l) = newest (l ++ [clamped q a]).
Proof.
  unfold Append, newest. rewrite evict_drop, !length_app, length_drop. simpl length.
  destruct (decide (length l <= MaxTurns)) as [Hle|Hgt].
  - replace (length l - MaxTurns) with 0 by lia. rewrite drop_0. f_equal. lia.
  - rewrite <- drop_app_le by lia. rewrite drop_drop. f_equal. lia.
Qed.

Lemma ops_newest ops acc : fold_left apply_op ops (newest acc) = newest (since_reset acc ops).
Proof.
  revert acc. induction ops as [|[q a|] ops IH]; intros acc; [done| |]; cbn [fold_left apply_op since_reset].
  - by rewrite Append_newest, IH.
  - unfold Reset. by rewrite <- (IH []).
Qed.

Lemma since_reset_clamped acc ops :
  Forall (fun t => exists q a, t = clamped q a) acc -> Forall (fun t => exists q a, t = clamped q a) (since_reset acc ops).
Proof.
  revert acc. induction ops as [|[q a|] ops IH]; intros acc Ha; [done| |]; cbn [since_reset]; apply IH; [|done].
  apply Forall_app. split; [done|]. apply Forall_singleton. by exists q, a.
Qed.

(** Whatever turns complete and whoever resets, in whatever order they get the lock, the history is the
    newest six turns completed since the last reset, oldest first, each clamped to 500 and 800 characters plus
    the truncation mark. *)
Theorem conversation_is_a_window (ops : list memory_op) :
  let turns := fold_left apply_op ops [] in
  turns = newest (since_reset [] ops) /\ length turns <= MaxTurns /\
  Forall (fun t => length (cQuery t) <= MaxQueryChars + length TruncatedSuffix /\
                   length (cAnswer t) <= MaxAnswerChars + length TruncatedSuffix) turns.
Proof.
  intros turns. assert (turns = newest (since_reset [] ops)) as E by apply (ops_newest ops []).
  rewrite E. split_and!; [done | unfold newest; rewrite length_drop; lia|]. unfold newest. apply Forall_drop.
  eapply Forall_impl; [by apply since_reset_clamped|]. intros t (q & a & ->). split; apply Clamp_length.
Qed.
