(* ===== verification/Foreman.v ===== *)
(** * Foreman: the brains, tools and language model of the agent

    [ToolCallParser], [DeterministicRouter], [RouterBrain], [GrammarBrain], [ForemanTools], the tool bindings and
    the prose of [ForemanHost], [ExtractiveLanguageModel.Compose], and [ForemanLanguageModel], which makes a
    turn of [Agent] a token stream.  The text encoder (an ONNX model) and the cosine of the tensor library are
    parameters; similarities are binary32 values compared as IEEE compares them, so a NaN is never better. *)

From S2P Require Import Prelude Utf8 Json Text Agent.
From Stdlib Require Import Floats.SpecFloat.
Local Open Scope Z_scope.
#[local] Set Warnings "-clear-no-such-hyp".

Definition InvalidOperationException : text := lit "InvalidOperationException".
(** What [JsonDocument.Parse] throws on a surrogate without its partner; nothing here catches it. *)
Definition InvalidUtf16 : text := lit "ArgumentException".

(** ** Reading tool calls (ToolCallParser.cs) *)

Definition Parse (t : text) : res AgentDecision :=
  match JsonDocument_Parse t with
  | Root (JObject ms) =>
      match TryGetProperty (lit "tool") ms, TryGetProperty (lit "args") ms with
      | Some (_, JString raw), Some (args, _) =>
          match unescape raw with
          | Some name => Ok (DecideTool (MkToolCall name args))
          | None => Throw InvalidOperationException
          end
      | _, _ => Ok DecideAnswer
      end
  | ArgumentException => Throw InvalidUtf16
  | _ => Ok DecideAnswer
  end.

(** [GetString] of ForemanTools.cs: a string member of an arguments object, "" for anything else. *)
Definition GetString (argsJson name : text) : res text :=
  match JsonDocument_Parse argsJson with
  | Root (JObject ms) =>
      match TryGetProperty name ms with
      | Some (_, JString raw) =>
          match unescape raw with Some s => Ok s | None => Throw InvalidOperationException end
      | _ => Ok []
      end
  | ArgumentException => Throw InvalidUtf16
  | _ => Ok []
  end.

(** [r], unless the text read is not well-formed UTF-16. *)
Definition checked {A} (t : text) (r : res A) : res A := if utf16_valid t then r else Throw InvalidUtf16.

(** ** The tools (ForemanTools.cs, ForemanHost.cs) *)

Section Tools.
  Context {W : Type}.

Definition with_arg (name : text) (f : text -> W -> res text * W) (args : text) (w : W) : res text * W :=
  match GetString args name with
  | Ok s => f s w
  | Throw ex => (Throw ex, w)
  | Cancelled => (Cancelled, w)
  end.

Definition Build (searchManuals runFeature : text -> W -> res text * W) (engineStats : W -> res text * W)
  : list (ToolDefinition W) :=
  [MkTool (lit "search_manuals") (lit "search the maintenance manuals for a fault or procedure")
     [MkParam (lit "query") (lit "string") true] (with_arg (lit "query") searchManuals);
   MkTool (lit "run_feature") (lit "run a named C#/.NET feature demo and return its result")
     [MkParam (lit "id") (lit "string") true] (with_arg (lit "id") runFeature);
   MkTool (lit "engine_stats") (lit "current runtime memory, GC, and thread stats") []
     (fun _ w => engineStats w)].

(** [ShowcaseCommand.IsCommand]: does the id contain '~'? *)
Definition IsCommand (id : text) : bool := bool_decide (126 ∈ id).

Definition not_a_demo : text :=
  [123; 34] ++ lit "error" ++ [34; 58; 34] ++ lit "run_feature only runs catalog demos, not command-grammar ids" ++ [34; 125].

(** [catalog] is [LanguageFeatureCatalog.Run] with its serialization. *)
Definition RunFeatureAsync (catalog : text -> W -> res text * W) (id : text) (w : W) : res text * W :=
  if IsCommand id then (Ok not_a_demo, w) else catalog id w.
End Tools.

(** ** The router (DeterministicRouter.cs) *)

Section Router.
  Context {W V : Type} (embed : text -> V) (cosine : V -> V -> spec_float).
  Context (threshold hintGate : spec_float) (tools : list (ToolDefinition W)).

Definition routed_text (query : text) (hint : option text) : text :=
  match hint with
  | Some (c :: h) => if SFleb hintGate (cosine (embed query) (embed (c :: h))) then (c :: h) ++ [10] ++ query else query
  | _ => query
  end.

(** [if (sim > best) { best = sim; pick = tool; }] over the tools. *)
Definition consider (q : V) (acc : spec_float * option (ToolDefinition W)) (tool : ToolDefinition W)
  : spec_float * option (ToolDefinition W) :=
  let sim := cosine q (embed (Description tool)) in
  if SFltb acc.1 sim then (sim, Some tool) else acc.

Definition Route (query : text) (hint : option text) : option ToolCall :=
  let t := routed_text query hint in
  let '(best, pick) := fold_left (consider (embed t)) tools (S754_infinity true, None) in
  match pick with
  | Some tool =>
      if SFltb best threshold then None
      else
        Some (MkToolCall (Name tool)
          (match Params tool with
           | p :: _ => [123; 34] ++ pName p ++ [34; 58] ++ JsonString t ++ [125]
           | [] => [123; 125]
           end))
  | None => None
  end.
End Router.

(** ** The two brains (RouterBrain.cs, GrammarBrain.cs) *)

Definition is_result (s : AgentStep) : bool := bool_decide (Kind s = KindToolResult).

Record RouterBrain (W : Type) := MkRouter {
  route : text -> option text -> option ToolCall;       (* router.Route *)
  prose : text -> res text }.
Arguments MkRouter {W}. Arguments route {W}. Arguments prose {W}.

Definition LastTurnHint (t : ConversationTurn) : text := cQuery t ++ [32] ++ cAnswer t.

Definition tool_results (c : AgentContext) : text :=
  join [32] (map (fun s => default [] (Result s)) (filter (fun s => is_result s = true) (Steps c))).
(** What [StreamAnswerAsync] hands to the prose function. *)
Definition prose_prompt (c : AgentContext) : text := Query c ++ [10] ++ tool_results c.

#[export] Instance router_brain {W} : IAgentBrain W (RouterBrain W) := {
  DecideAsync b c w :=
    (Ok (if existsb is_result (Steps c) then DecideAnswer
         else match route b (Query c) (LastTurnHint <$> last (History c)) with
              | Some call => DecideTool call
              | None => DecideAnswer
              end), w);
  StreamAnswerAsync b c w :=
    match prose b (prose_prompt c) with
    | Ok s => ([s], Ok tt, w)
    | Throw ex => ([], Throw ex, w)
    | Cancelled => ([], Cancelled, w)
    end;
  BackendBadge _ := lit "scripted routing " ++ [0x2014] ++ lit " no on-device LLM present" }.

Record GrammarBrain (W : Type) := MkGrammarBrain {
  complete : AgentContext -> W -> res text * W;
  streamAnswer : AgentContext -> W -> list text * res unit * W;
  badge : text }.
Arguments MkGrammarBrain {W}. Arguments complete {W}. Arguments streamAnswer {W}. Arguments badge {W}.

#[export] Instance grammar_brain {W} : IAgentBrain W (GrammarBrain W) := {
  DecideAsync b c w :=
    match complete b c w with
    | (Ok t, w') => (Parse t, w')
    | (Throw ex, w') => (Throw ex, w')
    | (Cancelled, w') => (Cancelled, w')
    end;
  StreamAnswerAsync b c w := streamAnswer b c w;
  BackendBadge b := badge b }.

(** ** The router's prose (ForemanHost.cs, ExtractiveLanguageModel.cs) *)

(** [prompt.IndexOf('\n')] and the rest after it, or the whole prompt. *)
Fixpoint after_newline (s : text) : option text :=
  match s with [] => None | c :: r => if c =? 10 then Some r else after_newline r end.

Definition Compose (hits : list text) : text :=
  match hits with
  | [] => lit "I couldn't find anything about that in the manuals."
  | h :: rest => lit "Based on the manuals: " ++ h ++ concat (map (fun x => lit " Related: " ++ x) rest)
  end.

(** The elements of [TryReadSnippets], in order: [Ok None] is its [return false]. *)
Fixpoint snippets (es : list json) : res (option (list text)) :=
  match es with
  | [] => Ok (Some [])
  | JObject ms :: rest =>
      match TryGetProperty (lit "text") ms with
      | Some (_, JString raw) =>
          match unescape raw with
          | Some s => match snippets rest with
                      | Ok (Some l) => Ok (Some (s :: l))
                      | r => r
                      end
          | None => Throw InvalidOperationException
          end
      | _ => Ok None
      end
  | _ => Ok None
  end.

Definition TryReadSnippets (t : text) : res (option (list text)) :=
  match JsonDocument_Parse t with
  | Root (JArray es) =>
      match snippets es with
      | Ok (Some []) => Ok None
      | r => r
      end
  | ArgumentException => Throw InvalidUtf16
  | _ => Ok None
  end.

Definition ComposeProse (prompt : text) : res text :=
  let results := Trim (default prompt (after_newline prompt)) in
  match results with
  | [] => Ok (lit "I couldn't find anything in the tools to answer that.")
  | _ =>
      match TryReadSnippets results with
      | Ok (Some hits) => Ok (Compose hits)
      | Ok None => Ok (lit "Based on the tools: " ++ results)
      | Throw ex => Throw ex
      | Cancelled => Cancelled
      end
  end.

(** ** A turn as a token stream (ForemanLanguageModel.cs) *)

Definition StatusMarker : text := 1 :: lit "dni.agent.status".

Record AgentSessionStatus := MkStatus { sStopReason : ForemanStopReason; sToolSteps : nat; sBackend : text }.

(** What [GenerateAsync] writes to its (unbounded) channel before completing it, and the conversation after
    it; [serialize] is the source-generated serializer. *)
Definition GenerateAsync {W B} `{IAgentBrain W B} (serialize : AgentSessionStatus -> text)
    (tools : list (ToolDefinition W)) (brain : B) (conversation : option (list ConversationTurn)) (prompt : text) (w : W)
  : option (list text * option (list ConversationTurn)) :=
  match RunTurnAsync tools brain conversation prompt w with
  | Some (Completed r, t, c) =>
      Some (t_sink t ++ [StatusMarker ++ serialize (MkStatus (StopReason r) (ToolSteps r) (BackendBadge brain))], c)
  | Some (TurnCancelled, t, c) => Some (t_sink t, c)
  | None => None
  end.

(** ** Comparing similarities *)

(** Numbers in their order: sign class, then exponent, then mantissa. *)
Definition fkey (f : spec_float) : option (Z * Z * Z) :=
  match f with
  | S754_nan => None
  | S754_infinity s => Some (if s then -2 else 2, 0, 0)
  | S754_zero _ => Some (0, 0, 0)
  | S754_finite s m e => Some (if s then (-1, - e, - Z.pos m) else (1, e, Z.pos m))
  end.
Definition klt (a b : Z * Z * Z) : Prop :=
  let '(a1, a2, a3) := a in let '(b1, b2, b3) := b in a1 < b1 \/ a1 = b1 /\ (a2 < b2 \/ a2 = b2 /\ a3 < b3).

Lemma SFltb_spec a b : SFltb a b = true <-> exists x y, fkey a = Some x /\ fkey b = Some y /\ klt x y.
Proof.
  assert (forall x y, (exists u v, Some x = Some u /\ Some y = Some v /\ klt u v) <-> klt x y) as Hs
    by (intros x y; split; [intros (u & v & [= ->] & [= ->] & H); exact H | by exists x, y]).
  unfold SFltb, SFcompare.
  destruct a as [s1|s1| |s1 m1 e1], b as [s2|s2| |s2 m2 e2]; cbn [fkey];
    try (split; [done | by intros (x & y & ? & ? & _)]); rewrite Hs; unfold klt;
    try destruct s1; try destruct s2; try (split; (lia || done)); try (split; intros; (lia || done)).
  all: destruct (Z.compare_spec e1 e2) as [->|?|?]; try (split; (lia || done)).
  all: rewrite <- Pos.compare_antisym || idtac; change (Pos.compare_cont Eq m1 m2) with (m1 ?= m2)%positive.
  - destruct (Pos.compare_spec m2 m1); simpl; split; (lia || done).
  - destruct (Pos.compare_spec m1 m2); simpl; split; (lia || done).
Qed.

Definition is_nan (f : spec_float) : Prop := f = S754_nan.

Lemma fkey_nan f : fkey f = None <-> is_nan f.
Proof. unfold is_nan. by destruct f. Qed.

Lemma SFltb_trans a b c : SFltb a b = true -> SFltb b c = true -> SFltb a c = true.
Proof.
  rewrite !SFltb_spec. intros (x & y & Hx & Hy & H1) (y' & z & Hy' & Hz & H2). exists x, z. split_and!; [done..|].
  assert (y' = y) as -> by congruence. destruct x as [[? ?] ?], y as [[? ?] ?], z as [[? ?] ?]. simpl in *. lia.
Qed.

(** What is not better than [b] is worse than what is. *)
Lemma SFltb_other a b c : SFltb b c = true -> SFltb b a = false -> is_nan a \/ SFltb a c = true.
Proof.
  intros Hbc Hba. rewrite <- fkey_nan. destruct (fkey a) as [x|] eqn:Ha; [right|by left].
  apply SFltb_spec in Hbc as (y & z & Hy & Hz & H). rewrite SFltb_spec. exists x, z. split_and!; [done..|].
  assert (~ klt y x) as Hn.
  { intros Hyx. assert (SFltb b a = true) by (rewrite SFltb_spec; by exists y, x). congruence. }
  destruct x as [[? ?] ?], y as [[? ?] ?], z as [[? ?] ?]. simpl in *. lia.
Qed.

Lemma SFltb_below a b c : SFltb a c = true -> SFltb a b = false -> is_nan b \/ SFltb b c = true.
Proof. intros H1 H2. by apply (SFltb_other b a c). Qed.

Lemma SFltb_irrefl a : SFltb a a = false.
Proof.
  destruct (SFltb a a) eqn:E; [|done]. apply SFltb_spec in E as (x & y & Hx & Hy & H).
  assert (x = y) as -> by congruence. destruct y as [[? ?] ?]. simpl in H. lia.
Qed.

(** ** The router picks the nearest tool *)

Section RouterSpec.
  Context {W V : Type} (embed : text -> V) (cosine : V -> V -> spec_float).
  Context (threshold hintGate : spec_float) (tools : list (ToolDefinition W)).
Let sim (q : V) (tool : ToolDefinition W) : spec_float := cosine q (embed (Description tool)).

(** [tool] is the first of the best among [l]. *)
Definition first_best (q : V) (l : list (ToolDefinition W)) (tool : ToolDefinition W) : Prop :=
  exists before after, l = before ++ tool :: after /\
    (forall o, o ∈ before -> is_nan (sim q o) \/ SFltb (sim q o) (sim q tool) = true) /\
    (forall o, o ∈ after -> SFltb (sim q tool) (sim q o) = false).

Lemma consider_spec q l :
  match fold_left (consider embed cosine q) l (S754_infinity true, None) with
  | (best, None) => best = S754_infinity true /\ forall o, o ∈ l -> SFltb best (sim q o) = false
  | (best, Some tool) => best = sim q tool /\ first_best q l tool
  end.
Proof.
  induction l as [|x l IH] using rev_ind; [split; [done | intros o Ho; by apply not_elem_of_nil in Ho]|].
  rewrite fold_left_app. cbn [fold_left]. destruct (fold_left _ l _) as [best pick] eqn:E. unfold consider at 1.
  cbn [fst snd]. fold (sim q x). destruct (SFltb best (sim q x)) eqn:Hx.
  - split; [done|]. exists l, []. split_and!; [done | | intros o Ho; by apply not_elem_of_nil in Ho].
    intros o Ho. destruct pick as [tool|].
    + destruct IH as (-> & before & after & -> & Hb & Ha). apply elem_of_app in Ho as [Ho|Ho].
      * destruct (Hb o Ho) as [?|Ho']; [by left | right]. by eapply SFltb_trans.
      * apply elem_of_cons in Ho as [->|Ho]; [by right|]. by eapply SFltb_other, Ha.
    + destruct IH as [-> Hn]. eapply SFltb_other; [exact Hx | by apply Hn].
  - destruct pick as [tool|].
    + destruct IH as (-> & before & after & -> & Hb & Ha). split; [done|]. exists before, (after ++ [x]).
      split_and!; [by rewrite <- app_assoc | done |]. intros o [Ho|Ho%list_elem_of_singleton]%elem_of_app; [by apply Ha | by subst].
    + destruct IH as [-> Hn]. split; [done|]. intros o [Ho|Ho%list_elem_of_singleton]%elem_of_app; [by apply Hn | by subst].
Qed.

Definition call_of (tool : ToolDefinition W) (t : text) : ToolCall :=
  MkToolCall (Name tool) (match Params tool with p :: _ => member_object (pName p) t | [] => [123; 125] end).

(** The router answers the first of the tools whose description is most similar to the routed text, and
    passes that text as its argument, unless even the best similarity is below the threshold; then every
    tool's is (or is not a number), and it answers nothing.  The text is the query, with the hint in front
    exactly when the query is close enough to it. *)
Theorem router_picks_nearest (query : text) (hint : option text) :
  let t := routed_text embed cosine hintGate query hint in
  let q := embed t in
  match Route embed cosine threshold hintGate tools query hint with
  | Some call => exists tool, first_best q tools tool /\ SFltb (sim q tool) threshold = false /\ call = call_of tool t
  | None => forall tool, tool ∈ tools ->
      is_nan (sim q tool) \/ SFltb (S754_infinity true) (sim q tool) = false \/ SFltb (sim q tool) threshold = true
  end /\
  (t = query \/ exists h, hint = Some h /\ h <> [] /\ t = h ++ [10] ++ query /\ SFleb hintGate (cosine (embed query) (embed h)) = true).
Proof.
  intros t q. split.
  - unfold Route. fold t. fold q. pose proof (consider_spec q tools) as H. destruct (fold_left _ tools _) as [best [tool|]].
    + destruct H as [-> Hf]. destruct (SFltb (sim q tool) threshold) eqn:Et; [|by exists tool].
      intros o Ho. destruct Hf as (before & after & -> & Hb & Ha).
      apply elem_of_app in Ho as [Ho|Ho]; [destruct (Hb o Ho); [by left | right; right; by eapply SFltb_trans]|].
      apply elem_of_cons in Ho as [->|Ho]; [by right; right|]. destruct (SFltb_below (sim q tool) (sim q o) threshold Et (Ha o Ho)); auto.
    + destruct H as [-> Hn]. intros o Ho. right; left. by apply Hn.
  - subst t q. unfold routed_text. destruct hint as [[|c h]|]; [by left| |by left].
    destruct (SFleb hintGate _) eqn:E; [right | by left]. by exists (c :: h).
Qed.

Lemma Route_call query hint call : Route embed cosine threshold hintGate tools query hint = Some call ->
  exists tool, tool ∈ tools /\ call = call_of tool (routed_text embed cosine hintGate query hint).
Proof.
  unfold Route. set (t := routed_text _ _ _ _ _). pose proof (consider_spec (embed t) tools) as H.
  destruct (fold_left _ tools _) as [best [tool|]]; [|done]. destruct (SFltb best threshold); [done|]. intros [= <-].
  exists tool. split; [|done]. destruct H as (_ & before & after & -> & _). set_solver.
Qed.
End RouterSpec.

(** ** From the router to the tool *)

Lemma GetString_member name t : Forall plain name -> utf16_valid name = true -> units16 t ->
  GetString (member_object name t) name = if utf16_valid t then Ok t else Throw InvalidUtf16.
Proof.
  intros Hn Hv Ht. unfold GetString. rewrite (parse_read _ _ (parse_member_object name t Hn Ht)), member_object_valid, Hv by done.
  cbn [andb]. destruct (utf16_valid t); [|done]. rewrite find_property by done. by rewrite unescape_body.
Qed.

Definition plainb (s : text) : bool := forallb (fun c => (0x20 <=? c) && negb (c =? 34) && negb (c =? 92)) s.
Lemma plainb_plain s : plainb s = true -> Forall plain s.
Proof.
  intros H. apply Forall_forall. intros c Hc. unfold plainb in H. rewrite forallb_forall in H.
  specialize (H c (proj1 (list_elem_of_In _ _) Hc)). unfold plain. lia.
Qed.
Lemma plain_lit s : plainb (lit s) = true -> Forall plain (lit s).
Proof. apply plainb_plain. Qed.

(** A call the router makes reaches the tool it names with the routed text, unchanged, as its argument:
    the hand-made arguments object is parsed back to the same string whatever characters it holds (a text that
    is not well-formed UTF-16 is refused by the tool). *)
Theorem routed_text_reaches_tool {W V} (embed : text -> V) cosine threshold hintGate
    (searchManuals runFeature : text -> W -> res text * W) (engineStats : W -> res text * W) query hint call :
  let tools := Build searchManuals runFeature engineStats in
  let t := routed_text embed cosine hintGate query hint in
  Forall (fun c => 0 <= c) t ->
  Route embed cosine threshold hintGate tools query hint = Some call ->
  exists tool, FindTool tools (Tool call) = Some tool /\ forall w,
    Invoke tool (ArgsJson call) w =
      if bool_decide (Tool call = lit "engine_stats") then engineStats w
      else if negb (utf16_valid t) then (Throw InvalidUtf16, w)
      else if bool_decide (Tool call = lit "search_manuals") then searchManuals t w
      else runFeature t w.
Proof.
  intros tools t Ht (tool & Hin & ->)%Route_call. fold t. exists tool.
  assert (forall (f : text -> W -> res text * W) (w : W) name, Forall plain name -> utf16_valid name = true ->
    with_arg name f (member_object name t) w = if negb (utf16_valid t) then (Throw InvalidUtf16, w) else f t w) as Harg
    by (intros f w name Hn Hv; unfold with_arg; rewrite GetString_member by done; by destruct (utf16_valid t)).
  apply elem_of_cons in Hin as [->|Hin]; [|apply elem_of_cons in Hin as [->|Hin%list_elem_of_singleton]; [|subst tool]];
    (split; [reflexivity|]); intros w; [| |done].
  - etrans; [exact (Harg searchManuals w (lit "query") (plain_lit "query" eq_refl) eq_refl)|]. done.
  - etrans; [exact (Harg runFeature w (lit "id") (plain_lit "id" eq_refl) eq_refl)|]. done.
Qed.

(** The agent's [run_feature] cannot reach the command grammar: what the catalog would do with an id
    containing '~' never matters, and a call with such an id answers the refusal and changes nothing. *)
Theorem run_feature_is_scoped {W} (cat1 cat2 : text -> W -> res text * W) searchManuals engineStats :
  (forall id w, IsCommand id = false -> cat1 id w = cat2 id w) ->
  let tools cat := Build searchManuals (RunFeatureAsync cat) engineStats in
  (forall name args w,
     (fun t => Invoke t args w) <$> FindTool (tools cat1) name = (fun t => Invoke t args w) <$> FindTool (tools cat2) name) /\
  (forall id w tool, IsCommand id = true -> Forall (fun c => 0 <= c) id ->
     FindTool (tools cat1) (lit "run_feature") = Some tool ->
     Invoke tool (member_object (lit "id") id) w = (if utf16_valid id then Ok not_a_demo else Throw InvalidUtf16, w)).
Proof.
  intros Hcat tools. split.
  - intros name args w. unfold tools, Build. cbn [FindTool Name].
    destruct (bool_decide (lit "search_manuals" = name)); [done|].
    destruct (bool_decide (lit "run_feature" = name)); [|by destruct (bool_decide _)].
    cbn [fmap option_fmap option_map Invoke]. f_equal. unfold with_arg, RunFeatureAsync.
    destruct (GetString args (lit "id")) as [id|ex|]; [|done..]. destruct (IsCommand id) eqn:E; [done | by apply Hcat].
  - intros id w tool Hid Hu [= <-].
    change (with_arg (lit "id") (RunFeatureAsync cat1) (member_object (lit "id") id) w = (if utf16_valid id then Ok not_a_demo else Throw InvalidUtf16, w)).
    unfold with_arg, RunFeatureAsync. rewrite GetString_member by (apply (plain_lit "id" eq_refl) || done).
    destruct (utf16_valid id); [by rewrite Hid | done].
Qed.

(** ** The status fragment *)

Definition is_status (f : text) : bool := match f with c :: _ => c =? 1 | [] => false end.

(** A turn streams its answer, fragment by fragment, and then exactly one status fragment, which carries
    the stop reason, the number of tool calls and the badge of the turn; provided no answer fragment begins
    with U+0001 the client finds it as the only fragment that does.  A turn that ends in a cancellation, its
    own or one that escapes from a tool, streams no status at all. *)
Theorem status_closes_the_stream {W B} `{IAgentBrain W B} serialize (tools : list (ToolDefinition W)) (brain : B)
    conversation prompt w :
  exists answers l c,
    GenerateAsync serialize tools brain conversation prompt w = Some (l, c) /\
    ((exists r t, RunTurnAsync tools brain conversation prompt w = Some (Completed r, t, c) /\ concat answers = Answer_ r /\
        let status := StatusMarker ++ serialize (MkStatus (StopReason r) (ToolSteps r) (BackendBadge brain)) in
        l = answers ++ [status] /\
        (Forall (fun f => is_status f = false) answers -> filter (fun f => is_status f = true) l = [status])) \/
     (exists t, RunTurnAsync tools brain conversation prompt w = Some (TurnCancelled, t, c) /\ c = conversation /\
        l = answers /\ (Forall (fun f => is_status f = false) answers -> filter (fun f => is_status f = true) l = []))).
Proof.
  destruct (turn_spec tools brain conversation prompt w) as (o & t & Hr & Ho).
  assert (forall answers, Forall (fun f => is_status f = false) answers -> filter (fun f => is_status f = true) answers = []) as Hf.
  { intros answers. induction 1 as [|f l Hf _ IH]; [done|]. by rewrite filter_cons_False by congruence. }
  unfold GenerateAsync. rewrite Hr. exists (t_sink t). destruct o as [r|]; do 2 eexists; (split; [done|]).
  - left. exists r, t. split_and!; [done | by apply Ho | done|]. intros Hn. by rewrite filter_app, Hf.
  - right. exists t. split_and!; [done..|]. by apply Hf.
Qed.

(** The parser of tool calls is documented never to throw; on a tool name that is an escaped surrogate
    without its partner it does, and the turn ends with an error instead of falling back to an answer. *)
Theorem parser_can_throw {W} (tools : list (ToolDefinition W)) conversation query w stream name :
  let emission := [123; 34] ++ lit "tool" ++ [34; 58; 34; 92] ++ lit "ud800" ++ [34; 44; 34] ++ lit "args" ++ [34; 58; 123; 125; 125] in
  let brain := MkGrammarBrain (fun _ w => (Ok emission, w)) stream name in
  Parse emission = Throw InvalidOperationException /\
  exists t c, RunTurnAsync tools brain conversation query w =
    Some (Completed (MkResult (agent_error InvalidOperationException) Error 0), t, c).
Proof.
  intros emission brain. assert (Parse emission = Throw InvalidOperationException) as E by reflexivity.
  split; [exact E|]. unfold RunTurnAsync. cbn [turn_loop]. change (DecideAsync brain ?c ?w) with (Parse emission, w).
  rewrite E. by do 2 eexists.
Qed.

(** ** The router's prose *)

Lemma after_newline_app q rest : 10 ∉ q -> after_newline (q ++ 10 :: rest) = Some rest.
Proof.
  induction q as [|c q IH]; intros Hq; [done|]. cbn [app after_newline].
  destruct (Z.eqb_spec c 10) as [->|]; [set_solver|]. apply IH. set_solver.
Qed.

(** The prose for the results of the tools. *)
Definition grounded (results : text) : res text :=
  match Trim results with
  | [] => Ok (lit "I couldn't find anything in the tools to answer that.")
  | r => match TryReadSnippets r with
         | Ok (Some hits) => Ok (Compose hits)
         | Ok None => Ok (lit "Based on the tools: " ++ r)
         | Throw ex => Throw ex
         | Cancelled => Cancelled
         end
  end.

(** The router answers from the tool results when the query is a single line.  Of a query with several
    lines it takes everything after the first line break for tool results: the same search result that is
    presented as manual prose for a one-line query comes back as raw JSON with half the question in front. *)
Theorem prose_of_a_query (c : AgentContext) (line rest : text) :
  10 ∉ line ->
  (Query c = line -> ComposeProse (prose_prompt c) = grounded (tool_results c)) /\
  (Query c = line ++ [10] ++ rest -> ComposeProse (prose_prompt c) = grounded (rest ++ [10] ++ tool_results c)) /\
  let hit := [91; 123; 34] ++ lit "text" ++ [34; 58; 34] ++ lit "Reset the unit." ++ [34; 125; 93] in
  grounded hit = Ok (lit "Based on the manuals: Reset the unit.") /\
  grounded (lit "Now." ++ [10] ++ hit) = Ok (lit "Based on the tools: Now." ++ [10] ++ hit).
Proof.
  intros Hq. unfold ComposeProse, prose_prompt, grounded. split_and!; [intros -> | intros ->; rewrite <- app_assoc | reflexivity..].
  all: cbn [app]; rewrite after_newline_app by done; cbn [default from_option id]; by destruct (Trim _).
Qed.

(** ** Concrete instances *)

(** A toy encoder: the length of the text, compared by nearness. *)
Definition demo_cosine (a b : nat) : spec_float := if Nat.eqb a b then S754_finite false 1 0 else S754_zero false.
Definition demo_search (t : text) (w : unit) : res text * unit := (Ok ([34] ++ lit "hit" ++ [34]), w).
Definition demo_tools : list (ToolDefinition unit) :=
  Build demo_search (RunFeatureAsync (fun id w => (Ok id, w))) (fun w => (Ok [123; 125], w)).

(** A query as long as the description of the first tool, with characters that need escaping. *)
Definition demo_query : text := replicate 55 34.

Lemma routed_text_witness :
  exists call tool,
    Route length demo_cosine (S754_finite false 1 (-2)) (S754_finite false 1 (-5)) demo_tools demo_query None = Some call /\
    FindTool demo_tools (Tool call) = Some tool /\
    forall w, Invoke tool (ArgsJson call) w = demo_search demo_query w.
Proof.
  eexists. assert (Forall (fun c => 0 <= c) demo_query) as Hu.
  { unfold demo_query. apply Forall_forall. intros c Hc. apply elem_of_replicate_inv in Hc. lia. }
  destruct (routed_text_reaches_tool length demo_cosine (S754_finite false 1 (-2)) (S754_finite false 1 (-5))
    demo_search (RunFeatureAsync (fun id w => (Ok id, w))) (fun w => (Ok [123; 125], w)) demo_query None _ Hu eq_refl)
    as (tool & Hf & Hi).
  exists tool. split; [reflexivity|]. split; [exact Hf|]. intros w. rewrite Hi. reflexivity.
Defined.

Lemma run_feature_witness : exists tool : ToolDefinition unit,
  FindTool demo_tools (lit "run_feature") = Some tool /\
  Invoke tool (member_object (lit "id") (lit "agent~reset")) tt = (Ok not_a_demo, tt).
Proof.
  destruct (run_feature_is_scoped (fun id w => (Ok id, w)) (fun id w => (Ok id, w)) demo_search (fun w => (Ok [123; 125], w)))
    as [_ H]; [reflexivity|].
  eexists. split; [reflexivity|]. apply H; [reflexivity | | reflexivity].
  vm_compute. repeat constructor; discriminate.
Defined.

Lemma prose_of_a_query_witness :
  ComposeProse (prose_prompt (MkContext (lit "How?") [] [])) = grounded [] /\
  ComposeProse (prose_prompt (MkContext (lit "How?" ++ [10] ++ lit "Now.") [] [])) = grounded (lit "Now." ++ [10] ++ []).
Proof.
  assert (10 ∉ lit "How?") as Hq by (vm_decide).
  destruct (prose_of_a_query (MkContext (lit "How?") [] []) (lit "How?") [] Hq) as [H1 _].
  destruct (prose_of_a_query (MkContext (lit "How?" ++ [10] ++ lit "Now.") [] []) (lit "How?") (lit "Now.") Hq) as (_ & H2 & _).
  split; [apply H1 | apply H2]; reflexivity.
Defined.

(** One turn of the router brain: it calls the search, records the pair of steps, answers. *)
Example demo_turn :
  let brain := MkRouter (Route length demo_cosine (S754_finite false 1 (-2)) (S754_finite false 1 (-5)) demo_tools) ComposeProse in
  match RunTurnAsync demo_tools brain (Some []) demo_query tt with
  | Some (Completed r, t, Some [turn]) => ToolSteps r = 1%nat /\ StopReason r = Answered /\ length (t_events t) = 3%nat
  | _ => False
  end.
Proof. vm_compute. done. Qed.
