(* ===== verification/Grammar.v ===== *)
(** * Grammar: the grammar of a Foreman turn and what parsing its emissions gives

    [GbnfGrammar.Build] writes a GBNF grammar that the llama sampler enforces on a decision turn; the emission
    is read by [ToolCallParser].  The grammar is modelled twice: as the text the code appends piece by piece,
    and as rules with the usual meaning of a context-free grammar; the first is shown to be the rendering
    of the second in the notation llama.cpp documents (terminals in double quotes with backslash escapes,
    [[^...]] for any other character, [.] for any character, [*], [|]), so the theorems about the
    language are about what is sent. *)

From S2P Require Import Prelude Utf8 Json Agent Text Foreman.
Local Open Scope Z_scope.
#[local] Set Warnings "-clear-no-such-hyp,-register-all".

(** A literal in which an apostrophe stands for a double quote. *)
Definition quo (s : string) : text := map (fun c => if c =? 39 then 34 else c) (lit s).

Definition string_rule : text := quo "string ::= '\'' ([^'\\] | '\\' .)* '\''" ++ [10].
Definition answer_rule : text := quo "answer ::= '{\'answer\':' string '}'" ++ [10].

Section Build.
  Context {W : Type}.

(** [ArgsRule]: the parameters in order, a comma between two. *)
Fixpoint args_params (first : bool) (ps : list ToolParam) : text :=
  match ps with
  | [] => []
  | p :: rest =>
      (if first then [] else quo " ',' ") ++ quo "'\'" ++ pName p ++ quo "\':' string" ++ args_params false rest
  end.
Definition ArgsRule (t : ToolDefinition W) : text :=
  match Params t with
  | [] => quo "'{}'"
  | ps => quo "'{' " ++ args_params true ps ++ quo " '}'"
  end.

Fixpoint alternatives (first : bool) (tools : list (ToolDefinition W)) : text :=
  match tools with
  | [] => []
  | t :: rest => (if first then [] else lit " | ") ++ lit "tc_" ++ Name t ++ alternatives false rest
  end.

Definition tool_rule (t : ToolDefinition W) : text :=
  lit "tc_" ++ Name t ++ quo " ::= '{\'tool\':\'" ++ Name t ++ quo "\',\'args\':' " ++ ArgsRule t ++ quo " '}'" ++ [10].

(** [GbnfGrammar.Build] *)
Definition BuildGrammar (tools : list (ToolDefinition W)) : text :=
  match tools with
  | [] => lit "root ::= answer" ++ [10] ++ answer_rule ++ string_rule
  | _ =>
      lit "root ::= toolcall | answer" ++ [10] ++ answer_rule ++
      lit "toolcall ::= " ++ alternatives true tools ++ [10] ++
      concat (map tool_rule tools) ++ string_rule
  end.

(** ** The same grammar as rules *)

Inductive gbnf :=
| Term (s : text)
| NotOf (cs : text)
| AnyChar
| Ref (rule : text)
| Seq (es : list gbnf)
| Alt (es : list gbnf)
| Star (e : gbnf).

Definition quote_char (c : Z) : text := if c =? 34 then [92; 34] else if c =? 92 then [92; 92] else [c].
Definition class_char (c : Z) : text := if c =? 92 then [92; 92] else [c].

Fixpoint render (e : gbnf) : text :=
  match e with
  | Term s => [34] ++ concat (map quote_char s) ++ [34]
  | NotOf cs => lit "[^" ++ concat (map class_char cs) ++ lit "]"
  | AnyChar => lit "."
  | Ref rule => rule
  | Seq es => join (lit " ") (map render es)
  | Alt es => join (lit " | ") (map render es)
  | Star e => lit "(" ++ render e ++ lit ")*"
  end.
Definition render_rule (r : text * gbnf) : text := r.1 ++ lit " ::= " ++ render r.2 ++ [10].
Definition render_rules (g : list (text * gbnf)) : text := concat (map render_rule g).

Definition rule_string : gbnf :=
  Seq [Term [34]; Star (Alt [NotOf [34; 92]; Seq [Term [92]; AnyChar]]); Term [34]].
Definition rule_answer : gbnf := Seq [Term ([123; 34] ++ lit "answer" ++ [34; 58]); Ref (lit "string"); Term [125]].
Definition tc (t : ToolDefinition W) : text := lit "tc_" ++ Name t.

Definition key (p : ToolParam) : text := [34] ++ pName p ++ [34; 58].
Fixpoint param_items (first : bool) (ps : list ToolParam) : list gbnf :=
  match ps with
  | [] => []
  | p :: rest => (if first then [] else [Term [44]]) ++ [Term (key p); Ref (lit "string")] ++ param_items false rest
  end.
Definition args_items (t : ToolDefinition W) : list gbnf :=
  match Params t with
  | [] => [Term [123; 125]]
  | ps => [Term [123]] ++ param_items true ps ++ [Term [125]]
  end.
Definition call_head (t : ToolDefinition W) : text :=
  [123; 34] ++ lit "tool" ++ [34; 58; 34] ++ Name t ++ [34; 44; 34] ++ lit "args" ++ [34; 58].
Definition rule_tool (t : ToolDefinition W) : gbnf := Seq ([Term (call_head t)] ++ args_items t ++ [Term [125]]).

Definition grammar (tools : list (ToolDefinition W)) : list (text * gbnf) :=
  match tools with
  | [] => [(lit "root", Ref (lit "answer")); (lit "answer", rule_answer); (lit "string", rule_string)]
  | _ => [(lit "root", Alt [Ref (lit "toolcall"); Ref (lit "answer")]); (lit "answer", rule_answer);
          (lit "toolcall", Alt (map (fun t => Ref (tc t)) tools))] ++
         map (fun t => (tc t, rule_tool t)) tools ++ [(lit "string", rule_string)]
  end.

(** The language of an expression, with rules found by name. *)
Section Language.
  Context (g : list (text * gbnf)).
Inductive derives : gbnf -> text -> Prop :=
| d_term s : derives (Term s) s
| d_not cs c : c ∉ cs -> derives (NotOf cs) [c]
| d_any c : derives AnyChar [c]
| d_ref n e s : (n, e) ∈ g -> derives e s -> derives (Ref n) s
| d_seq_nil : derives (Seq []) []
| d_seq_cons e es s t : derives e s -> derives (Seq es) t -> derives (Seq (e :: es)) (s ++ t)
| d_alt es e s : e ∈ es -> derives e s -> derives (Alt es) s
| d_star_nil e : derives (Star e) []
| d_star_cons e s t : derives e s -> derives (Star e) t -> derives (Star e) (s ++ t).
End Language.

(** ** The text is the rendering of the rules *)

Lemma quote_plain s : Forall plain s -> concat (map quote_char s) = s.
Proof.
  induction 1 as [|c s (_ & H1 & H2) _ IH]; [done|]. cbn [map concat]. rewrite IH. unfold quote_char.
  by rewrite (proj2 (Z.eqb_neq c 34)), (proj2 (Z.eqb_neq c 92)).
Qed.

Definition plain_tool (t : ToolDefinition W) : Prop := Forall plain (Name t) /\ Forall (fun p => Forall plain (pName p)) (Params t).

Lemma join_cons sep x l : l <> [] -> join sep (x :: l) = x ++ sep ++ join sep l.
Proof. by destruct l. Qed.

Lemma join_app sep l1 l2 : l1 <> [] -> l2 <> [] -> join sep (l1 ++ l2) = join sep l1 ++ sep ++ join sep l2.
Proof.
  induction l1 as [|x l1 IH]; [done|]. intros _ H2. destruct (decide (l1 = [])) as [->|H1]; [by apply join_cons|].
  cbn [app]. rewrite !join_cons; [|done|by destruct l1]. rewrite IH by done. by rewrite !app_assoc.
Qed.

Lemma render_term_key p : Forall plain (pName p) -> render (Term (key p)) = quo "'\'" ++ pName p ++ quo "\':'".
Proof.
  intros Hp. unfold key. cbn [render]. rewrite !map_app, !concat_app, (quote_plain (pName p)) by done. by rewrite <- !app_assoc.
Qed.

Lemma param_items_nonempty first p ps : map render (param_items first (p :: ps)) <> [].
Proof. by destruct first. Qed.

Lemma args_params_render ps : forall first, Forall (fun p => Forall plain (pName p)) ps -> ps <> [] ->
  args_params first ps = (if first then [] else lit " ") ++ join (lit " ") (map render (param_items first ps)).
Proof.
  induction ps as [|p ps IH]; [done|]. intros first Hps _. apply Forall_cons in Hps as [Hp Hps].
  assert (join (lit " ") (map render ([Term (key p); Ref (lit "string")] ++ param_items false ps)) =
    quo "'\'" ++ pName p ++ quo "\':' string" ++ args_params false ps) as E.
  { destruct (decide (ps = [])) as [->|Hne].
    - cbn [param_items args_params app map join]. rewrite render_term_key by done. by rewrite <- !app_assoc.
    - rewrite map_app, join_app; [|done | by destruct ps].
      rewrite (IH false Hps Hne). cbn [map join]. rewrite render_term_key by done. by rewrite <- !app_assoc. }
  cbn [args_params param_items]. destruct first; [cbn [app] in E |- *; by rewrite <- E|].
  rewrite <- E. by rewrite (map_app _ [Term [44]]), join_app.
Qed.

Lemma tool_rule_render t : plain_tool t -> tool_rule t = tc t ++ lit " ::= " ++ render (rule_tool t) ++ [10].
Proof.
  intros [Hn Hps]. unfold tool_rule, tc, rule_tool. change (quo " ::= '{\'tool\':\'") with (lit " ::= " ++ quo "'{\'tool\':\'").
  rewrite <- !app_assoc. do 3 (apply f_equal).
  change (render (Seq ?es)) with (join (lit " ") (map render es)).
  assert (render (Term (call_head t)) = quo "'{\'tool\':\'" ++ Name t ++ quo "\',\'args\':'") as Ehead.
  { unfold call_head. cbn [render]. rewrite !map_app, !concat_app, (quote_plain (Name t)) by done. by rewrite <- !app_assoc. }
  assert (join (lit " ") (map render (args_items t)) = ArgsRule t /\ map render (args_items t) <> []) as [Eargs Hne].
  { unfold args_items, ArgsRule. destruct (Params t) as [|p ps] eqn:Ep; [done|]. split; [|done].
    rewrite !map_app, join_app, join_app; [|apply param_items_nonempty | done | done | by destruct (map render _)].
    by rewrite (args_params_render (p :: ps) true Hps ltac:(done)). }
  rewrite !map_app, join_app; [|done | by destruct (map render (args_items t))].
  rewrite join_app, Eargs by done. cbn [map join]. rewrite Ehead. by rewrite <- !app_assoc.
Qed.

Lemma alternatives_render tools : forall first,
  alternatives first tools = (if first then [] else match tools with [] => [] | _ => lit " | " end) ++
    join (lit " | ") (map render (map (fun t => Ref (tc t)) tools)).
Proof.
  induction tools as [|t tools IH]; intros first; [by destruct first|]. cbn [alternatives map render].
  rewrite (IH false). unfold tc at 2. destruct tools as [|t' tools]; [by destruct first; cbn [map join app]; rewrite ?app_nil_r|].
  rewrite (join_cons _ (lit "tc_" ++ Name t)) by done. by rewrite <- (app_assoc _ (Name t)).
Qed.

Lemma BuildGrammar_render tools : Forall plain_tool tools -> BuildGrammar tools = render_rules (grammar tools).
Proof.
  intros Ht. unfold BuildGrammar, grammar, render_rules. destruct tools as [|t tools]; [reflexivity|].
  set (ts := t :: tools) in *. rewrite !map_app, !concat_app. rewrite (alternatives_render ts true).
  assert (concat (map render_rule (map (fun t => (tc t, rule_tool t)) ts)) = concat (map tool_rule ts)) as ->.
  { f_equal. rewrite map_map. apply map_ext_in. intros x Hx. rewrite tool_rule_render; [done|].
    rewrite Forall_forall in Ht. by apply Ht, list_elem_of_In. }
  cbn [map concat]. rewrite !app_nil_r.
  change (render_rule (lit "toolcall", ?e)) with (lit "toolcall ::= " ++ render e ++ [10]).
  rewrite <- !app_assoc. reflexivity.
Qed.

(** ** The emissions *)

(** The rules of a nonterminal. *)
Lemma grammar_inv tools n e : (n, e) ∈ grammar tools ->
  (n = lit "root" /\ (e = Ref (lit "answer") \/ e = Alt [Ref (lit "toolcall"); Ref (lit "answer")])) \/
  (n = lit "answer" /\ e = rule_answer) \/
  (n = lit "toolcall" /\ e = Alt (map (fun t => Ref (tc t)) tools)) \/
  (exists t, t ∈ tools /\ n = tc t /\ e = rule_tool t) \/
  (n = lit "string" /\ e = rule_string).
Proof.
  unfold grammar. destruct tools as [|t tools].
  - rewrite !elem_of_cons. intros [[= -> ->]|[[= -> ->]|[[= -> ->]|H]]]; [auto 8..|]. by apply not_elem_of_nil in H.
  - set (ts := t :: tools). rewrite !elem_of_app, !elem_of_cons, list_elem_of_fmap.
    intros [[[= -> ->]|[[= -> ->]|[[= -> ->]|H]]]|[H|[[= -> ->]|H]]]; auto 8; [by apply not_elem_of_nil in H | | by apply not_elem_of_nil in H].
    destruct H as (x & [= -> ->] & Hx). right; right; right; left. by exists x.
Qed.

Section Emission.
  Context (tools : list (ToolDefinition W)).
Notation "e '~>' s" := (derives (grammar tools) e s) (at level 70).

Lemma term_inv a s : Term a ~> s -> s = a.
Proof. by inversion 1. Qed.
Lemma seq_cons_inv e es s : Seq (e :: es) ~> s -> exists s1 s2, s = s1 ++ s2 /\ e ~> s1 /\ Seq es ~> s2.
Proof. inversion 1; subst. by eauto 6. Qed.
Lemma seq_nil_inv s : Seq [] ~> s -> s = [].
Proof. by inversion 1. Qed.
Lemma seq_app_inv es1 es2 s : Seq (es1 ++ es2) ~> s -> exists s1 s2, s = s1 ++ s2 /\ Seq es1 ~> s1 /\ Seq es2 ~> s2.
Proof.
  revert s. induction es1 as [|e es1 IH]; intros s H; [exists [], s; by repeat constructor|].
  apply seq_cons_inv in H as (s1 & s2 & -> & H1 & (s3 & s4 & -> & H2 & H3)%IH).
  exists (s1 ++ s3), s4. rewrite <- app_assoc. by repeat constructor.
Qed.
Lemma ref_inv n s : Ref n ~> s -> exists e, (n, e) ∈ grammar tools /\ e ~> s.
Proof. inversion 1; subst. by eauto. Qed.
Lemma alt_inv es s : Alt es ~> s -> exists e, e ∈ es /\ e ~> s.
Proof. inversion 1; subst. by eauto. Qed.

(** What stands between the quotes of a string: characters other than quote and backslash, and pairs. *)
Inductive pieces : text -> Prop :=
| p_nil : pieces []
| p_plain c r : c <> 34 -> c <> 92 -> pieces r -> pieces (c :: r)
| p_escape c r : pieces r -> pieces (92 :: c :: r).

Lemma star_pieces e s : e ~> s -> e = Star (Alt [NotOf [34; 92]; Seq [Term [92]; AnyChar]]) -> pieces s.
Proof.
  induction 1 as [| | | | | | |e|e s t H1 _ _ IH]; try done; intros E; [constructor|]. specialize (IH E). injection E as ->.
  apply alt_inv in H1 as (x & Hx & H1). apply elem_of_cons in Hx as [->|Hx].
  - inversion H1; subst. apply p_plain; [set_solver | set_solver | done].
  - apply list_elem_of_singleton in Hx as ->.
    apply seq_cons_inv in H1 as (s1 & s2 & -> & ->%term_inv & (s3 & s4 & -> & H3 & ->%seq_nil_inv)%seq_cons_inv).
    inversion H3; subst. by apply p_escape.
Qed.

Lemma string_inv s : Ref (lit "string") ~> s -> exists raw, s = [34] ++ raw ++ [34] /\ pieces raw.
Proof.
  intros (e & [[? _]|[[? _]|[[? _]|[(t & _ & ? & _)|[_ ->]]]]]%grammar_inv & Hd)%ref_inv; try done.
  apply seq_cons_inv in Hd as (s1 & s2 & -> & ->%term_inv & (s3 & s4 & -> & H3 & (s5 & s6 & -> & ->%term_inv & ->%seq_nil_inv)%seq_cons_inv)%seq_cons_inv).
  exists s3. split; [done|]. by eapply star_pieces.
Qed.

(** The members of the arguments object for raw strings [raws]. *)
Fixpoint fields (first : bool) (ps : list ToolParam) (raws : list text) : text :=
  match ps, raws with
  | p :: ps', raw :: raws' =>
      (if first then [] else [44]) ++ key p ++ ([34] ++ raw ++ [34]) ++ fields false ps' raws'
  | _, _ => []
  end.
Definition args_text (t : ToolDefinition W) (raws : list text) : text :=
  match Params t with
  | [] => [123; 125]
  | ps => [123] ++ fields true ps raws ++ [125]
  end.
Definition answer_object (raw : text) : text := [123; 34] ++ lit "answer" ++ [34; 58; 34] ++ raw ++ [34; 125].

Lemma param_items_inv ps : forall first s, Seq (param_items first ps) ~> s ->
  exists raws, length raws = length ps /\ Forall pieces raws /\ s = fields first ps raws.
Proof.
  induction ps as [|p ps IH]; intros first s H; [apply seq_nil_inv in H as ->; by exists []|].
  cbn [param_items] in H. apply seq_app_inv in H as (s1 & s2 & -> & H1 & H2).
  apply seq_cons_inv in H2 as (s3 & s4 & -> & ->%term_inv & (s5 & s6 & -> & (raw & -> & Hraw)%string_inv & (raws & Hl & Hr & ->)%IH)%seq_cons_inv).
  exists (raw :: raws). split_and!; [simpl; lia | by constructor |].
  assert (s1 = if first then [] else [44]) as ->.
  { destruct first; [by apply seq_nil_inv|]. apply seq_cons_inv in H1 as (x & y & -> & ->%term_inv & ->%seq_nil_inv). done. }
  done.
Qed.

Lemma root_inv s : Ref (lit "root") ~> s ->
  (exists raw, pieces raw /\ s = answer_object raw) \/
  (exists t raws, t ∈ tools /\ length raws = length (Params t) /\ Forall pieces raws /\ s = call_head t ++ args_text t raws ++ [125]).
Proof.
  assert (forall s, Ref (lit "answer") ~> s -> exists raw, pieces raw /\ s = answer_object raw) as Hanswer.
  { clear s. intros s (e & [[? _]|[[_ ->]|[[? _]|[(t & _ & ? & _)|[? _]]]]]%grammar_inv & Hd)%ref_inv; try done.
    apply seq_cons_inv in Hd as (s1 & s2 & -> & ->%term_inv & (s3 & s4 & -> & (raw & -> & Hraw)%string_inv & (s5 & s6 & -> & ->%term_inv & ->%seq_nil_inv)%seq_cons_inv)%seq_cons_inv).
    exists raw. split; [done|]. unfold answer_object. by rewrite <- !app_assoc. }
  intros (e & [[_ He]|[[? _]|[[? _]|[(t & _ & ? & _)|[? _]]]]]%grammar_inv & Hd)%ref_inv; try done.
  destruct He as [->| ->]; [by left; apply Hanswer|]. apply alt_inv in Hd as (e & He & Hd).
  apply elem_of_cons in He as [->|He%list_elem_of_singleton]; [|subst e; by left; apply Hanswer]. right.
  apply ref_inv in Hd as (e & [[? _]|[[? _]|[[_ ->]|[(t & _ & ? & _)|[? _]]]]]%grammar_inv & Hd); try done.
  apply alt_inv in Hd as (e & (t & -> & Ht)%list_elem_of_fmap & Hd).
  apply ref_inv in Hd as (e & [[? _]|[[? _]|[[? _]|[(t' & Ht' & _ & ->)|[? _]]]]]%grammar_inv & Hd); try done.
  unfold rule_tool in Hd. apply seq_cons_inv in Hd as (s1 & s2 & -> & ->%term_inv & (s3 & s4 & -> & H3 & (s5 & s6 & -> & ->%term_inv & ->%seq_nil_inv)%seq_cons_inv)%seq_app_inv).
  exists t'. unfold args_items, args_text in *. destruct (Params t') as [|p ps].
  - exists []. apply seq_cons_inv in H3 as (x & y & -> & ->%term_inv & ->%seq_nil_inv). done.
  - apply seq_cons_inv in H3 as (x & y & -> & ->%term_inv & (z & u & -> & (raws & Hl & Hr & ->)%param_items_inv & (v & v' & -> & ->%term_inv & ->%seq_nil_inv)%seq_cons_inv)%seq_app_inv).
    exists raws. split_and!; [done..|]. by rewrite <- !app_assoc.
Qed.
End Emission.

(** ** Reading an emission *)

Lemma pieces_plain c r : pieces (c :: r) -> c <> 92 -> c <> 34 /\ pieces r.
Proof. inversion 1; subst; [by split | done]. Qed.

Lemma hex_not_special c : is_hex c = true -> c <> 34 /\ c <> 92.
Proof. intros H. split; intros ->; done. Qed.

(** A JSON reader either stops at the closing quote or refuses, whatever follows. *)
Lemma pieces_read raw : pieces raw ->
  (forall rest, string_body (raw ++ 34 :: rest) = Some (raw, rest)) \/ (forall rest, string_body (raw ++ 34 :: rest) = None).
Proof.
  remember (length raw) as n eqn:Hn. revert raw Hn. induction (lt_wf n) as [n _ IH]. intros raw -> Hp.
  destruct Hp as [|c r H34 H92 Hp|c r Hp]; [by left| |].
  - cbn [app string_body]. rewrite (proj2 (Z.eqb_neq c 34)), (proj2 (Z.eqb_neq c 92)) by done.
    destruct (c <? 0x20); [by right|]. destruct (IH (length r) ltac:(simpl; lia) r eq_refl Hp) as [H|H];
      [left | right]; intros rest; by rewrite H.
  - cbn [app string_body]. change (92 =? 34) with false. change (92 =? 92) with true. cbn iota.
    destruct (Z.eqb_spec c 117) as [->|Hu].
    + destruct r as [|h1 [|h2 [|h3 [|h4 r']]]]; cbn [app].
      5: { destruct (forallb is_hex [h1; h2; h3; h4]) eqn:Hh; [|by right].
        cbn [forallb] in Hh. rewrite !andb_true_iff in Hh. destruct Hh as (H1 & H2 & H3 & H4 & _).
        apply hex_not_special in H1 as [? ?], H2 as [? ?], H3 as [? ?], H4 as [? ?].
        do 4 (apply pieces_plain in Hp as [_ Hp]; [|done]).
        destruct (IH (length r') ltac:(simpl; lia) r' eq_refl Hp) as [H'|H']; [left | right]; intros rest; by rewrite H'. }
      all: right; intros rest; destruct rest as [|a [|b [|c' rest]]]; try done; cbn [forallb]; change (is_hex 34) with false;
        cbn [andb]; by rewrite ?andb_false_r.
    + destruct (simple_escape c); [|by right]. destruct (IH (length r) ltac:(simpl; lia) r eq_refl Hp) as [H|H];
        [left | right]; intros rest; by rewrite H.
Qed.

(** Is the raw text between the quotes a JSON string? *)
Definition valid (raw : text) : bool := bool_decide (string_body (raw ++ [34]) = Some (raw, [])).

Lemma string_body_valid raw rest : pieces raw -> string_body (raw ++ 34 :: rest) = if valid raw then Some (raw, rest) else None.
Proof.
  intros Hp. unfold valid. destruct (pieces_read raw Hp) as [H|H]; rewrite !H; [by rewrite bool_decide_true | by rewrite bool_decide_false].
Qed.

Lemma value_raw n d raw rest : pieces raw ->
  value (S n) d (34 :: raw ++ 34 :: rest) = if valid raw then Parsed (JString raw) rest else Malformed.
Proof. intros Hp. read_tests value. rewrite string_body_valid by done. by destruct (valid raw). Qed.

Fixpoint entries (ps : list ToolParam) (raws : list text) : list (text * (text * json)) :=
  match ps, raws with
  | p :: ps', raw :: raws' => (pName p, ([34] ++ raw ++ [34], JString raw)) :: entries ps' raws'
  | _, _ => []
  end.

(** A member whose value does not parse. *)
Lemma members_bad n d r name r2 : string_body r = Some (name, 58 :: r2) -> value n d r2 = Malformed ->
  members (S n) d (34 :: r) = Malformed.
Proof. intros H1 H2. read_tests members. rewrite H1. read_tests members. by rewrite H2. Qed.

Lemma members_next_bad n d r name r2 v r3 : string_body r = Some (name, 58 :: r2) ->
  value n d r2 = Parsed v (44 :: r3) -> members n d r3 = Malformed -> members (S n) d (34 :: r) = Malformed.
Proof. intros H1 H2 H3. read_tests members. rewrite H1. read_tests members. rewrite H2. read_tests members. by rewrite H3. Qed.

Lemma members_fields ps : forall raws n d rest,
  Forall (fun p => Forall plain (pName p)) ps -> length raws = length ps -> ps <> [] -> Forall pieces raws -> (length ps < n)%nat ->
  members n d (fields true ps raws ++ 125 :: rest) = if forallb valid raws then Parsed (entries ps raws) rest else Malformed.
Proof.
  induction ps as [|p ps IH]; [done|]. intros [|raw raws] n d rest Hps Hl _ Hr Hn; [done|].
  apply Forall_cons in Hps as [Hp Hps]. apply Forall_cons in Hr as [Hraw Hr]. destruct n as [|[|n]]; [simpl in Hn; lia..|].
  set (tail := fields false ps raws ++ 125 :: rest).
  assert (fields true (p :: ps) (raw :: raws) ++ 125 :: rest = 34 :: pName p ++ 34 :: 58 :: 34 :: raw ++ 34 :: tail) as ->.
  { unfold tail. cbn [fields]. unfold key. rewrite <- !app_assoc. cbn [app]. rewrite <- ?app_assoc. done. }
  assert (string_body (pName p ++ 34 :: 58 :: 34 :: raw ++ 34 :: tail) = Some (pName p, 58 :: 34 :: raw ++ 34 :: tail)) as H1
    by by apply string_body_plain.
  pose proof (value_raw n d raw tail Hraw) as H2. cbn [forallb]. destruct (valid raw); [|by eapply members_bad].
  assert (consumed (skip_ws (34 :: raw ++ 34 :: tail)) tail = [34] ++ raw ++ [34]) as Hraw'.
  { change (skip_ws (34 :: raw ++ 34 :: tail)) with (34 :: raw ++ 34 :: tail). 
    replace (34 :: raw ++ 34 :: tail) with (([34] ++ raw ++ [34]) ++ tail) by (by rewrite <- !app_assoc). apply consumed_app. }
  destruct (decide (ps = [])) as [->|Hne].
  - destruct raws; [|done]. unfold tail in *. cbn [fields app] in *.
    rewrite (members_last _ _ _ _ _ _ _ H1 H2), Hraw'. done.
  - assert (tail = 44 :: fields true ps raws ++ 125 :: rest) as Et by (unfold tail; destruct ps, raws; done).
    specialize (IH raws (S n) d rest Hps ltac:(simpl in Hl; lia) Hne Hr ltac:(simpl in Hn; lia)).
    clearbody tail. subst tail. destruct (forallb valid raws); cbn [andb].
    + by rewrite (members_next _ _ _ _ _ _ _ _ _ H1 H2 IH), Hraw'.
    + exact (members_next_bad _ _ _ _ _ _ _ H1 H2 IH).
Qed.

Lemma args_text_value t raws n d rest : plain_tool t -> length raws = length (Params t) -> Forall pieces raws ->
  (S d < max_depth)%nat -> (length (Params t) < n)%nat ->
  value (S n) d (args_text t raws ++ rest) =
    if forallb valid raws then Parsed (JObject (entries (Params t) raws)) rest else Malformed.
Proof.
  intros [_ Hps] Hl Hr Hd Hn. unfold args_text. destruct (Params t) as [|p ps] eqn:Ep.
  - destruct raws; [|done]. cbn [app]. apply value_empty_object. lia.
  - assert (forall first : bool, exists s, fields true (p :: ps) raws = 34 :: s) as Hf by (destruct raws; [done | by eexists]).
    destruct (Hf true) as [s Es]. pose proof (members_fields (p :: ps) raws n (S d) rest Hps Hl ltac:(done) Hr Hn) as H.
    replace (([123] ++ fields true (p :: ps) raws ++ [125]) ++ rest) with (123 :: fields true (p :: ps) raws ++ 125 :: rest)
      by (cbn [app]; by rewrite <- app_assoc).
    rewrite Es in H |- *. cbn [app] in H |- *. destruct (forallb valid raws).
    + apply value_object; [lia | done].
    + read_tests value. rewrite bool_decide_true by lia. by rewrite H.
Qed.

Lemma fields_length first ps raws : length raws = length ps -> (length ps <= length (fields first ps raws))%nat.
Proof.
  revert first raws. induction ps as [|p ps IH]; intros first [|raw raws] Hl; try done.
  cbn [fields]. rewrite !length_app. specialize (IH false raws ltac:(simpl in Hl; lia)). unfold key. simpl. lia.
Qed.

Lemma parse_call t raws : plain_tool t -> length raws = length (Params t) -> Forall pieces raws ->
  let s := call_head t ++ args_text t raws ++ [125] in
  read_json s =
    if forallb valid raws
    then Some (JObject [(lit "tool", ([34] ++ Name t ++ [34], JString (Name t)));
                        (lit "args", (args_text t raws, JObject (entries (Params t) raws)))])
    else None.
Proof.
  intros Ht Hl Hr s. destruct (Ht) as [Hname _].
  assert (length (Params t) + 8 <= length s)%nat as Hlen.
  { unfold s, call_head, args_text. rewrite !length_app. pose proof (fields_length true _ _ Hl).
    destruct (Params t); rewrite ?length_app; simpl in *; lia. }
  assert (exists k, parse_fuel s = S (S (S (S k))) /\ (length (Params t) < k)%nat) as (k & Hfuel & Hk).
  { exists (2 * length s - 2)%nat. unfold parse_fuel. lia. }
  unfold read_json, parse_with. rewrite Hfuel.
  set (args := args_text t raws ++ [125]).
  set (r2 := 34 :: lit "args" ++ 34 :: 58 :: args).
  set (r1 := 34 :: Name t ++ 34 :: 44 :: r2).
  assert (s = 123 :: 34 :: lit "tool" ++ 34 :: 58 :: r1) as ->.
  { unfold s, r1, r2, args, call_head. rewrite <- !app_assoc. cbn [app]. rewrite <- ?app_assoc. done. }
  assert (string_body (lit "tool" ++ 34 :: 58 :: r1) = Some (lit "tool", 58 :: r1)) as H1
    by by apply string_body_plain, (plain_lit "tool").
  assert (value (S (S k)) 1 r1 = Parsed (JString (Name t)) (44 :: r2)) as H2 by by apply value_string, string_body_plain.
  assert (string_body (lit "args" ++ 34 :: 58 :: args) = Some (lit "args", 58 :: args)) as H3
    by by apply string_body_plain, (plain_lit "args").
  pose proof (args_text_value t raws k 1 [125] Ht Hl Hr ltac:(unfold max_depth; lia) Hk) as H4. fold args in H4.
  assert (skip_ws args = args) as Hskip by (unfold args, args_text; by destruct (Params t)).
  assert (skip_ws r1 = r1) as Hskip1 by done.
  assert (consumed r1 (44 :: r2) = [34] ++ Name t ++ [34]) as Hc.
  { replace r1 with (([34] ++ Name t ++ [34]) ++ 44 :: r2); [apply consumed_app|]. unfold r1. cbn [app]. by rewrite <- app_assoc. }
  destruct (forallb valid raws).
  - pose proof (members_last _ _ _ _ _ _ _ H3 H4) as H5. rewrite Hskip in H5.
    assert (consumed args [125] = args_text t raws) as Hca by apply consumed_app. rewrite Hca in H5.
    pose proof (members_next _ _ _ _ _ _ _ _ _ H1 H2 H5) as H6. rewrite Hskip1, Hc in H6.
    rewrite (value_object _ 0 _ _ _ ltac:(unfold max_depth; lia) H6). done.
  - pose proof (members_bad _ _ _ _ _ H3 H4) as H5. pose proof (members_next_bad _ _ _ _ _ _ _ H1 H2 H5) as H6.
    read_tests value. by rewrite H6.
Qed.
Lemma Parse_read t : Parse t = checked t
  match read_json t with
  | Some (JObject ms) =>
      match TryGetProperty (lit "tool") ms, TryGetProperty (lit "args") ms with
      | Some (_, JString raw), Some (args, _) =>
          match unescape raw with
          | Some name => Ok (DecideTool (MkToolCall name args))
          | None => Throw InvalidOperationException
          end
      | _, _ => Ok DecideAnswer
      end
  | _ => Ok DecideAnswer
  end.
Proof. unfold Parse, JsonDocument_Parse, checked. destruct (utf16_valid t); [|done]. by destruct (read_json t). Qed.

Lemma parse_answer raw : pieces raw -> Parse (answer_object raw) = checked (answer_object raw) (Ok DecideAnswer).
Proof.
  intros Hr. rewrite Parse_read. f_equal. unfold read_json, parse_with.
  assert (exists k, parse_fuel (answer_object raw) = S (S (S k))) as [k ->].
  { exists (2 * length (answer_object raw) - 1)%nat. unfold parse_fuel, answer_object. rewrite !length_app. simpl. lia. }
  assert (answer_object raw = 123 :: 34 :: lit "answer" ++ 34 :: 58 :: 34 :: raw ++ 34 :: [125]) as ->.
  { unfold answer_object. cbn [app]. rewrite <- ?app_assoc. done. }
  assert (string_body (lit "answer" ++ 34 :: 58 :: 34 :: raw ++ 34 :: [125]) = Some (lit "answer", 58 :: 34 :: raw ++ 34 :: [125])) as H1
    by by apply string_body_plain, (plain_lit "answer").
  pose proof (value_raw k 1 raw [125] Hr) as H2. destruct (valid raw).
  - rewrite (value_object _ 0 _ _ _ ltac:(unfold max_depth; lia) (members_last _ _ _ _ _ _ _ H1 H2)). reflexivity.
  - read_tests value. by rewrite (members_bad _ _ _ _ _ H1 H2).
Qed.

Lemma Parse_call t raws : plain_tool t -> length raws = length (Params t) -> Forall pieces raws ->
  Parse (call_head t ++ args_text t raws ++ [125]) = checked (call_head t ++ args_text t raws ++ [125])
    (Ok (if forallb valid raws then DecideTool (MkToolCall (Name t) (args_text t raws)) else DecideAnswer)).
Proof.
  intros Ht Hl Hr. rewrite Parse_read. f_equal. rewrite (parse_call t raws Ht Hl Hr). destruct (forallb valid raws); [|done].
  cbn [TryGetProperty]. change (TryGetProperty (lit "tool") [(lit "tool", ?x); (lit "args", ?y)]) with (Some x).
  change (TryGetProperty (lit "args") [(lit "tool", ?x); (lit "args", ?y)]) with (Some y).
  cbn beta iota. by rewrite unescape_plain by apply Ht.
Qed.

Lemma GetString_args t p raw : plain_tool t -> Params t = [p] -> pieces raw -> valid raw = true ->
  GetString (args_text t [raw]) (pName p) =
    checked (args_text t [raw]) match unescape raw with Some v => Ok v | None => Throw InvalidOperationException end.
Proof.
  intros Ht Hp Hr Hv. unfold GetString, JsonDocument_Parse, checked. destruct (utf16_valid _); [|done]. unfold read_json, parse_with.
  assert (exists k, parse_fuel (args_text t [raw]) = S (S (S k))) as [k ->].
  { exists (2 * length (args_text t [raw]) - 1)%nat. unfold parse_fuel, args_text. rewrite Hp, !length_app. simpl. lia. }
  pose proof (args_text_value t [raw] (S (S k)) 0 [] Ht) as H. rewrite app_nil_r, Hp in H.
  rewrite H; [|done|by constructor|unfold max_depth; lia|simpl; lia]. cbn [forallb andb]. rewrite Hv. cbn [andb skip_ws entries].
  rewrite TryGetProperty_single; [done|]. apply unescape_plain. destruct Ht as [_ Ht]. rewrite Hp in Ht. by inversion Ht.
Qed.

(** C24: Every emission of the grammar [Build] writes is an answer object or a call of one of the tools with all
    its parameters, in order.  An answer is parsed as an answer; a call whose strings are JSON strings is parsed
    as that call with the arguments as emitted, from which a one-parameter tool reads the string's value; a
    call with any other string is parsed as an answer.  (A text that is not well-formed UTF-16 is refused with an
    exception in all three cases; what the model emits is decoded from UTF-8, so it never is one.) *)
Theorem emissions_are_parsed (tools : list (ToolDefinition W)) (s : text) :
  Forall plain_tool tools -> derives (grammar tools) (Ref (lit "root")) s ->
  BuildGrammar tools = render_rules (grammar tools) /\
  ((exists raw, s = answer_object raw /\ Parse s = checked s (Ok DecideAnswer)) \/
   exists t raws, t ∈ tools /\ length raws = length (Params t) /\ s = call_head t ++ args_text t raws ++ [125] /\
     Parse s = checked s (Ok (if forallb valid raws then DecideTool (MkToolCall (Name t) (args_text t raws)) else DecideAnswer)) /\
     forall p raw, Params t = [p] -> raws = [raw] -> valid raw = true ->
       GetString (args_text t raws) (pName p) =
         checked (args_text t raws) match unescape raw with Some v => Ok v | None => Throw InvalidOperationException end).
Proof.
  intros Ht Hd. split; [by apply BuildGrammar_render|].
  destruct (root_inv tools s Hd) as [(raw & Hr & ->)|(t & raws & Hin & Hl & Hr & ->)].
  - left. exists raw. split; [done | by apply parse_answer].
  - right. exists t, raws. assert (plain_tool t) as Hpt by (rewrite Forall_forall in Ht; by apply Ht).
    split_and!; [done | done | done | by apply Parse_call |]. intros p raw Hp -> Hv.
    apply GetString_args; [done | done | by inversion Hr | done].
Qed.

(** ** What the grammar lets through *)

Lemma pieces_star g raw : pieces raw -> derives g (Star (Alt [NotOf [34; 92]; Seq [Term [92]; AnyChar]])) raw.
Proof.
  induction 1 as [|c r H34 H92 _ IH|c r _ IH]; [constructor| |].
  - change (c :: r) with ([c] ++ r). apply d_star_cons; [|done]. apply d_alt with (NotOf [34; 92]); [by left|]. apply d_not. set_solver.
  - change (92 :: c :: r) with (([92] ++ [c] ++ []) ++ r). apply d_star_cons; [|done].
    apply d_alt with (Seq [Term [92]; AnyChar]); [by right; left|]. by repeat constructor.
Qed.

Lemma derives_string g raw : (lit "string", rule_string) ∈ g -> pieces raw -> derives g (Ref (lit "string")) ([34] ++ raw ++ [34]).
Proof.
  intros Hg Hr. apply d_ref with rule_string; [done|]. change ([34] ++ raw ++ [34]) with ([34] ++ raw ++ ([34] ++ [])).
  apply d_seq_cons; [constructor|]. apply d_seq_cons; [by apply pieces_star|]. by repeat constructor.
Qed.

Lemma seq_app g es1 es2 s1 s2 : derives g (Seq es1) s1 -> derives g (Seq es2) s2 -> derives g (Seq (es1 ++ es2)) (s1 ++ s2).
Proof.
  revert s1. induction es1 as [|e es1 IH]; intros s1 H1 H2; [by inversion H1|].
  inversion H1; subst. rewrite <- app_assoc. apply d_seq_cons; [done | by apply IH].
Qed.

Lemma seq_single g e s : derives g e s -> derives g (Seq [e]) s.
Proof. intros H. rewrite <- (app_nil_r s). by repeat constructor. Qed.

Lemma derives_fields g ps : (lit "string", rule_string) ∈ g -> forall first raws,
  length raws = length ps -> Forall pieces raws -> derives g (Seq (param_items first ps)) (fields first ps raws).
Proof.
  intros Hg. induction ps as [|p ps IH]; intros first [|raw raws] Hl Hr; try done; [constructor|].
  apply Forall_cons in Hr as [Hraw Hr]. cbn [param_items fields]. apply seq_app; [destruct first; [apply d_seq_nil | apply seq_single, d_term]|].
  apply d_seq_cons; [constructor|]. apply d_seq_cons; [by apply derives_string|].
  apply IH; [simpl in Hl; lia | done].
Qed.

Lemma call_is_derived tools t raws : t ∈ tools -> length raws = length (Params t) -> Forall pieces raws ->
  derives (grammar tools) (Ref (lit "root")) (call_head t ++ args_text t raws ++ [125]).
Proof.
  intros Hin Hl Hr. destruct tools as [|t0 tools]; [by apply not_elem_of_nil in Hin|]. set (ts := t0 :: tools) in *.
  assert ((lit "string", rule_string) ∈ grammar ts) as Hs by (unfold grammar, ts; set_solver).
  assert ((tc t, rule_tool t) ∈ grammar ts) as Ht.
  { unfold grammar, ts. rewrite !elem_of_app, list_elem_of_fmap. right; left. by exists t. }
  apply d_ref with (Alt [Ref (lit "toolcall"); Ref (lit "answer")]); [unfold grammar, ts; set_solver|].
  apply d_alt with (Ref (lit "toolcall")); [by left|].
  apply d_ref with (Alt (map (fun t => Ref (tc t)) ts)); [unfold grammar, ts; set_solver|].
  apply d_alt with (Ref (tc t)); [apply list_elem_of_fmap; by exists t|]. apply d_ref with (rule_tool t); [done|].
  unfold rule_tool. apply seq_app; [apply seq_single, d_term|]. apply seq_app; [|apply seq_single, d_term].
  unfold args_items, args_text. destruct (Params t) as [|p ps]; [apply seq_single, d_term|].
  apply seq_app; [apply seq_single, d_term|]. apply seq_app; [by apply derives_fields | apply seq_single, d_term].
Qed.

(** The constraint does not make malformed JSON impossible, as the host claims: for every tool with a
    parameter the grammar admits a call whose string holds the escape [\q], which no JSON reader accepts; the
    parser turns it into an answer and the tool is never called. *)
Theorem grammar_admits_malformed_calls (tools : list (ToolDefinition W)) (t : ToolDefinition W) :
  Forall plain_tool tools -> t ∈ tools -> Params t <> [] ->
  exists s, derives (grammar tools) (Ref (lit "root")) s /\ call_head t `prefix_of` s /\
    read_json s = None /\ Parse s = checked s (Ok DecideAnswer).
Proof.
  intros Ht Hin Hp. assert (plain_tool t) as Hpt by (rewrite Forall_forall in Ht; by apply Ht).
  set (raws := replicate (length (Params t)) [92; 113]).
  assert (length raws = length (Params t)) as Hl by apply length_replicate.
  assert (Forall pieces raws) as Hr by (apply Forall_replicate, p_escape, p_nil).
  assert (forallb valid raws = false) as Hv by (unfold raws; destruct (Params t); done).
  exists (call_head t ++ args_text t raws ++ [125]). split_and!; [by apply call_is_derived | by apply prefix_app_r | |].
  - rewrite parse_call by done. by rewrite Hv.
  - rewrite Parse_call by done. by rewrite Hv.
Qed.
End Build.

(** ** The engine's tools *)

Section Engine.
  Context {W : Type} (searchManuals runFeature : text -> W -> res text * W) (engineStats : W -> res text * W).

Lemma engine_tools_plain : Forall plain_tool (Build searchManuals runFeature engineStats).
Proof.
  assert (forall s, plainb (lit s) = true -> Forall plain (lit s)) as H by (intros s; apply plain_lit).
  unfold Build. apply Forall_cons_2; [|apply Forall_cons_2; [|apply Forall_singleton]];
    (split; cbn [Name Params]; [by apply H|]); [apply Forall_singleton | apply Forall_singleton | constructor]; by apply H.
Qed.

(** llama.cpp documents the name of a nonterminal as a dashed lowercase word. *)
Definition dashed_word (n : text) : bool := forallb (fun c => (97 <=? c) && (c <=? 122) || (c =? 45)) n.

(** The rules named after the engine's tools are not, because of their underscores. *)
Lemma engine_rule_names :
  filter (fun n => dashed_word n = false) (map fst (grammar (Build searchManuals runFeature engineStats))) =
  [lit "tc_search_manuals"; lit "tc_run_feature"; lit "tc_engine_stats"].
Proof. reflexivity. Qed.
End Engine.

Lemma emissions_witness :
  let s := call_head (hd (MkTool [] [] [] (fun _ w => (Cancelled, w))) demo_tools) ++ [123] ++ fields true [MkParam (lit "query") (lit "string") true] [lit "E3"] ++ [125; 125] in
  Parse s = Ok (DecideTool (MkToolCall (lit "search_manuals") ([123] ++ fields true [MkParam (lit "query") (lit "string") true] [lit "E3"] ++ [125]))) /\
  BuildGrammar demo_tools = render_rules (grammar demo_tools).
Proof.
  intros s. assert (Forall plain_tool demo_tools) as Hp by apply engine_tools_plain.
  split; [reflexivity|].
  apply (emissions_are_parsed demo_tools s Hp).
  apply (call_is_derived demo_tools (hd (MkTool [] [] [] (fun _ w => (Cancelled, w))) demo_tools) [lit "E3"]);
    [by left | reflexivity | repeat constructor; discriminate].
Defined.

Lemma malformed_call_witness : exists s,
  derives (grammar demo_tools) (Ref (lit "root")) s /\ read_json s = None /\ Parse s = checked s (Ok DecideAnswer).
Proof.
  destruct (grammar_admits_malformed_calls demo_tools (hd (MkTool [] [] [] (fun _ w => (Cancelled, w))) demo_tools)) as (s & H1 & _ & H2 & H3);
    [apply engine_tools_plain | by left | discriminate |].
  exists s. exact (conj H1 (conj H2 H3)).
Defined.
