(* ===== verification/HttpRaw.v ===== *)
(** * HttpRaw: the raw HTTP server (NativeBridge/HttpRaw/Exports.HttpRaw.cs)

    [ReadRequestAsync] and [ParseRequest] over a socket that delivers the client's bytes in arbitrary pieces,
    the routing of [HandleClientAsync], the server-sent events it writes for a token, and [Start] / [Stop].
    Percent-decoding and the payloads of the two JSON routes are parameters. *)

From S2P Require Import Prelude Utf8 Json Text Foreman Session.
Local Open Scope Z_scope.
#[local] Set Warnings "-clear-no-such-hyp".

(** ** Strings *)

(** [Encoding.ASCII.GetString]: a byte that is not ASCII becomes '?'. *)
Definition ascii (bytes : list Z) : text := map (fun b => if b <? 0x80 then b else 63) bytes.

(** [string.Split] at CR LF. *)
Fixpoint split_crlf (s : text) : list text :=
  match s with
  | [] => [[]]
  | c :: r =>
      match r with
      | d :: r' =>
          if (c =? 13) && (d =? 10) then [] :: split_crlf r'
          else match split_crlf r with l :: ls => (c :: l) :: ls | [] => [[c]] end
      | [] => [[c]]
      end
  end.

(** [text.Contains("\r\n\r\n")] *)
Fixpoint contains_end (s : text) : bool :=
  match s with
  | [] => false
  | c :: r => bool_decide (starts_with [13; 10; 13; 10] s <> None) || contains_end r
  end.

(** ** Reading a request *)

Definition headerName : text := lit "X-Dni-Request-Id:".

(** The first header line of that name, in lines 1 and after. *)
Fixpoint find_header (lines : list text) : option text :=
  match lines with
  | [] => None
  | l :: rest => match starts_with_ignoring_case headerName l with Some v => Some (Trim v) | None => find_header rest end
  end.

Definition ParseRequest (head : text) : text * option text :=
  match split_crlf head with
  | line :: lines =>
      (match split_char 32 line with _ :: path :: _ => path | _ => [47] end, find_header lines)
  | [] => ([47], None)
  end.

Definition buffer_size : nat := 2048.

(** [ReadRequestAsync]: [pending] is what the network delivers, one non-empty piece per read at most; no piece
    left is the end of the stream.  A read takes what fits into the rest of the buffer. *)
Fixpoint read_loop (seen : list Z) (pending : list (list Z)) : text * option text :=
  let finish (seen : list Z) := match seen with [] => ([47], None) | _ => ParseRequest (ascii seen) end in
  match pending with
  | [] => finish seen
  | piece :: rest =>
      if bool_decide (buffer_size <= length seen)%nat then finish seen
      else
        let seen' := seen ++ take (buffer_size - length seen) piece in
        if contains_end (ascii seen') then ParseRequest (ascii seen')
        else if bool_decide (length piece <= buffer_size - length seen)%nat then read_loop seen' rest
        else finish seen'                  (* the buffer is full: the loop ends *)
  end.
Definition ReadRequestAsync (pending : list (list Z)) : text * option text := read_loop [] pending.

(** ** Routing *)

Inductive response :=
| Features
| FeatureRun (id : text)
| Rag (query : text)
| Showcase.

Section Routing.
  Context (UnescapeDataString : text -> text).

Definition route_of (path : text) : response :=
  if bool_decide (path = lit "/features") then Features
  else match starts_with (lit "/feature/run/") path with
       | Some id => FeatureRun (UnescapeDataString id)
       | None => match starts_with (lit "/rag?q=") path with
                 | Some q => Rag (UnescapeDataString q)
                 | None => Showcase
                 end
       end.
End Routing.

(** ** Writing *)

(** A non-negative [int] in decimal. *)
Fixpoint decimal (fuel : nat) (n : Z) : text :=
  match fuel with
  | O => []
  | S f => (if n <? 10 then [] else decimal f (n / 10)) ++ [48 + n mod 10]
  end.
Definition int_text (n : Z) : text := decimal 10 n.

(** One token as a server-sent event. *)
Definition event_json (index : Z) (txt : text) (final : bool) : text :=
  [123; 34] ++ lit "index" ++ [34; 58] ++ int_text index ++ [44; 34] ++ lit "text" ++ [34; 58] ++ JsonString txt ++
  [44; 34] ++ lit "final" ++ [34; 58] ++ (if final then lit "true" else lit "false") ++ [125].
Definition sse (index : Z) (txt : text) (final : bool) : text := lit "data: " ++ event_json index txt final ++ [10; 10].

Definition crlf : text := [13; 10].
Definition stream_head : text :=
  lit "HTTP/1.1 200 OK" ++ crlf ++ lit "Content-Type: text/event-stream" ++ crlf ++ lit "Cache-Control: no-cache" ++ crlf ++
  lit "Connection: close" ++ crlf ++ crlf.

(** [WriteJsonAsync], as the bytes written. *)
Definition WriteJsonAsync (json : text) : list Z :=
  let body := GetBytes json in
  GetBytes (lit "HTTP/1.1 200 OK" ++ crlf ++ lit "Content-Type: application/json" ++ crlf ++ lit "Content-Length: " ++
            int_text (Z.of_nat (length body)) ++ crlf ++ lit "Connection: close" ++ crlf ++ crlf) ++ body.

(** ** Handling a connection *)

(** One token as the client sees it: index, text and final flag. *)
Record sse_token := SseToken { sse_index : Z; sse_text : text; sse_final : bool }.
Definition sse_of (t : sse_token) : text := sse (sse_index t) (sse_text t) (sse_final t).

(** The engine behind the routes: the two JSON payloads, and for the streams the tokens the session's reader
    delivers; [None] when the orchestrator's getter throws because the engine is not initialised. *)
Record engine := Engine {
  features_json : text;
  feature_run_json : text -> text;
  rag_tokens : option (text -> list sse_token);
  showcase_tokens : option (list sse_token) }.

Definition write_stream (ts : option (list sse_token)) : list Z :=
  GetBytes stream_head ++ match ts with Some ts => concat (map (fun t => GetBytes (sse_of t)) ts) | None => [] end.

(** [HandleClientAsync] for a client that stays connected and is not cancelled: all bytes it is sent.  The head
    of a stream is written before the orchestrator is asked for. *)
Definition HandleClientAsync (UnescapeDataString : text -> text) (e : engine) (pending : list (list Z)) : list Z :=
  let '(path, _) := ReadRequestAsync pending in
  match route_of UnescapeDataString path with
  | Features => WriteJsonAsync (features_json e)
  | FeatureRun id => WriteJsonAsync (feature_run_json e id)
  | Rag query => write_stream ((fun g => g query) <$> rag_tokens e)
  | Showcase => write_stream (showcase_tokens e)
  end.

(** ** Reading: which bytes decide *)

Lemma starts_with_app p s t : starts_with p s <> None -> starts_with p (s ++ t) <> None.
Proof.
  unfold starts_with. revert s. induction p as [|x p IH]; intros [|y s]; simpl; try done. destruct (x =? y); [apply IH | done].
Qed.

Lemma contains_end_app s t : contains_end s = true -> contains_end (s ++ t) = true.
Proof.
  induction s as [|c s IH]; [done|]. cbn [contains_end app]. rewrite !orb_true_iff, !bool_decide_eq_true.
  intros [H|H]; [left | right; by apply IH]. by apply (starts_with_app _ (c :: s) t).
Qed.

Fixpoint has_crlf (s : text) : bool :=
  match s with c :: r => match r with d :: _ => (c =? 13) && (d =? 10) || has_crlf r | [] => false end | [] => false end.

Lemma contains_end_crlf s : contains_end s = true -> has_crlf s = true.
Proof.
  induction s as [|c s IH]; [done|]. cbn [contains_end]. rewrite orb_true_iff, bool_decide_eq_true. intros [H|H].
  - unfold starts_with in H. cbn [after_prefix] in H. destruct (Z.eqb_spec 13 c) as [<-|]; [|done].
    destruct s as [|d s]; [done|]. cbn [after_prefix] in H. destruct (Z.eqb_spec 10 d) as [<-|]; done.
  - apply IH in H. cbn [has_crlf]. destruct s; [done|]. rewrite H. apply orb_true_r.
Qed.

Definition first_line (s : text) : text := hd [] (split_crlf s).

Lemma split_crlf_cons c r : (forall d r', r = d :: r' -> (c =? 13) && (d =? 10) = false) ->
  split_crlf (c :: r) = (c :: hd [] (split_crlf r)) :: tail (split_crlf r).
Proof.
  intros H. cbn [split_crlf]. destruct r as [|d r']; [done|]. rewrite (H d r') by done.
  assert (split_crlf (d :: r') <> []) as Hne by (cbn [split_crlf]; repeat case_match; done).
  by destruct (split_crlf (d :: r')).
Qed.

Lemma first_line_app a b : has_crlf a = true -> first_line (a ++ b) = first_line a.
Proof.
  unfold first_line. induction a as [|c a IH]; [done|]. intros H. cbn [has_crlf] in H. destruct a as [|d a]; [done|].
  destruct ((c =? 13) && (d =? 10)) eqn:E; [cbn [split_crlf app]; by rewrite E|]. cbn [orb] in H. cbn [app] in IH |- *.
  rewrite (split_crlf_cons c (d :: a ++ b)), (split_crlf_cons c (d :: a)) by (intros d' r' [= <- <-]; done).
  cbn [hd]. by rewrite IH.
Qed.

Lemma ParseRequest_path s : (ParseRequest s).1 = match split_char 32 (first_line s) with _ :: path :: _ => path | _ => [47] end.
Proof. unfold ParseRequest, first_line. by destruct (split_crlf s). Qed.

(** Splitting at a CR LF that is there. *)
Lemma split_crlf_app a b : split_crlf (a ++ 13 :: 10 :: b) = split_crlf a ++ split_crlf b.
Proof.
  remember (length a) as n eqn:Hn. revert a Hn. induction (lt_wf n) as [n _ IH]. intros a ->. destruct a as [|c [|d a]]; [done| |].
  - cbn [app]. rewrite split_crlf_cons; [done|]. intros d r' [= <- <-]. change (13 =? 10) with false. by rewrite andb_false_r.
  - destruct ((c =? 13) && (d =? 10)) eqn:E.
    + cbn [app split_crlf]. rewrite E. rewrite (IH (length a)) by (done || (simpl; lia)). done.
    + change ((c :: d :: a) ++ 13 :: 10 :: b) with (c :: ((d :: a) ++ 13 :: 10 :: b)).
      rewrite (split_crlf_cons c ((d :: a) ++ _)), (split_crlf_cons c (d :: a)) by (intros d' r' [= <- <-]; done).
      rewrite (IH (length (d :: a))) by (done || (simpl; lia)).
      assert (split_crlf (d :: a) <> []) as Hne by (cbn [split_crlf]; repeat case_match; done).
      by destruct (split_crlf (d :: a)).
Qed.

Lemma find_header_app l1 l2 v : find_header l1 = Some v -> find_header (l1 ++ l2) = Some v.
Proof. induction l1 as [|l l1 IH]; [done|]. simpl. by destruct (starts_with_ignoring_case _ l). Qed.

(** The loop ends with a prefix of the first 2048 bytes: all of them, or one that contains the blank line. *)
Lemma read_loop_prefix pending : forall seen, Forall (fun p => p <> []) pending -> (length seen <= buffer_size)%nat ->
  exists taken, read_loop seen pending = ParseRequest (ascii taken) /\
    taken `prefix_of` take buffer_size (seen ++ concat pending) /\
    (taken = take buffer_size (seen ++ concat pending) \/ contains_end (ascii taken) = true).
Proof.
  induction pending as [|piece rest IH]; intros seen Hne Hl; cbn [read_loop concat].
  - exists seen. rewrite app_nil_r, take_ge by done. by split_and!; [by destruct seen|done|left].
  - apply Forall_cons in Hne as [Hp Hne]. case_bool_decide as Hfull.
    + exists seen. rewrite take_app_le, take_ge by lia. by split_and!; [by destruct seen|done|left].
    + set (k := (buffer_size - length seen)%nat).
      assert (take buffer_size (seen ++ piece ++ concat rest) = seen ++ take k (piece ++ concat rest)) as E.
      { rewrite take_app, (take_ge seen) by lia. done. }
      assert (seen ++ take k piece `prefix_of` take buffer_size (seen ++ piece ++ concat rest)) as Hpre.
      { rewrite E, take_app. exists (take (k - length piece) (concat rest)). by rewrite app_assoc. }
      destruct (contains_end (ascii (seen ++ take k piece))) eqn:Hc.
      * exists (seen ++ take k piece). split_and!; [done|done|by right].
      * case_bool_decide as Hfit.
        -- fold k in Hfit. rewrite (take_ge piece) in * by done.
           destruct (IH (seen ++ piece) Hne) as (taken & Hr & Hpr & Hor); [rewrite length_app; lia|].
           rewrite <- app_assoc in Hpr, Hor. by exists taken.
        -- exists (seen ++ take k piece). fold k in Hfit. split_and!; [by destruct (seen ++ take k piece) | done | left].
           rewrite E, take_app_le by lia. done.
Qed.

Lemma ascii_app a b : ascii (a ++ b) = ascii a ++ ascii b.
Proof. apply map_app. Qed.

Lemma head_of_prefix (a b t u : text) : a ++ [13; 10; 13; 10] ++ b = t ++ u -> contains_end (a ++ [13; 10; 13]) = false ->
  contains_end t = true -> exists b', t = a ++ [13; 10; 13; 10] ++ b'.
Proof.
  intros E Hn Hc.
  destruct (prefix_weak_total t (a ++ [13; 10; 13; 10]) (t ++ u)) as [[w Hw]|[w ->]].
  - by exists u.
  - exists b. by rewrite <- E, <- app_assoc.
  - change [13; 10; 13; 10] with ([13; 10; 13] ++ [10]) in Hw. rewrite app_assoc in Hw.
    destruct w as [|x w _] using rev_ind.
    + exists []. rewrite app_nil_r in Hw. by rewrite <- Hw, <- app_assoc.
    + rewrite app_assoc in Hw. apply app_inj_tail in Hw as [Hw _].
      rewrite Hw in Hn. by rewrite (contains_end_app t w Hc) in Hn.
  - exists w. by rewrite <- app_assoc.
Qed.

(** However the network cuts the request into pieces, the path is that of the request line in the first
    2048 bytes, and a correlation header that stands in a head of at most 2048 bytes is found.  Without one
    the pieces matter: the lines after the blank line are searched too, so far as they arrived with it. *)
Theorem request_reading (pending : list (list Z)) :
  Forall (fun p => p <> []) pending ->
  let head := ascii (take buffer_size (concat pending)) in
  (ReadRequestAsync pending).1 = (ParseRequest head).1 /\
  (forall a b v, head = a ++ [13; 10; 13; 10] ++ b -> contains_end (a ++ [13; 10; 13]) = false ->
     find_header (tail (split_crlf a)) = Some v -> (ReadRequestAsync pending).2 = Some v) /\
  let get := lit "GET / HTTP/1.1" ++ [13; 10; 13; 10] in
  (ReadRequestAsync [get ++ headerName ++ lit " 7"]).2 = Some (lit "7") /\
  (ReadRequestAsync [get; headerName ++ lit " 7"]).2 = None.
Proof.
  intros Hne head. unfold ReadRequestAsync.
  destruct (read_loop_prefix pending [] Hne ltac:(simpl; lia)) as (taken & -> & [rest Hrest] & Hor). cbn [app] in Hrest, Hor.
  assert (head = ascii taken ++ ascii rest) as Hh by (unfold head; by rewrite Hrest, ascii_app).
  split_and!; [| |reflexivity..].
  - rewrite Hh, !ParseRequest_path. destruct Hor as [Hor|Hc].
    + rewrite Hor in Hrest at 1. rewrite <- Hor in Hrest. apply (f_equal length) in Hrest. rewrite length_app in Hrest.
      assert (rest = []) as -> by (apply nil_length_inv; lia). unfold ascii at 3. by rewrite app_nil_r.
    + by rewrite first_line_app by (by apply contains_end_crlf).
  - intros a b v E Hn Hf.
    assert (exists b', ascii taken = a ++ [13; 10; 13; 10] ++ b') as [b' E'].
    { destruct Hor as [Hor|Hc]; [exists b; rewrite <- E; unfold head; by rewrite <- Hor|].
      eapply head_of_prefix; [|exact Hn|exact Hc]. rewrite <- E. exact Hh. }
    rewrite E'. unfold ParseRequest. change ([13; 10; 13; 10] ++ b') with (13 :: 10 :: 13 :: 10 :: b').
    rewrite split_crlf_app. destruct (split_crlf a) as [|l ls]; [done|]. cbn [app snd]. by apply find_header_app.
Qed.

(** A request in three pieces, cut in the request line and after the first header. *)
Definition sample_pieces : list (list Z) :=
  [lit "GET /fea"; lit "tures HTTP/1.1" ++ [13; 10] ++ lit "x-dni-request-id:  4"; lit "2" ++ [13; 10; 13; 10]].

Lemma request_reading_witness : (ReadRequestAsync sample_pieces).1 = lit "/features" /\
  (ReadRequestAsync sample_pieces).2 = Some (lit "42").
Proof.
  assert (Forall (fun p => p <> []) sample_pieces) as Hne by (repeat constructor; discriminate).
  destruct (request_reading sample_pieces Hne) as (Hp & Hh & _).
  split.
  - etrans; [exact Hp|]. vm_compute. reflexivity.
  - eapply (Hh (lit "GET /features HTTP/1.1" ++ [13; 10] ++ lit "x-dni-request-id:  42") []); vm_compute; reflexivity.
Defined.

(** ** Server-sent events *)

(** What a client does with the stream: an event ends at an empty line. *)
Fixpoint events (acc : text) (s : text) : list text * text :=
  match s with
  | [] => ([], acc)
  | c :: r =>
      match r with
      | d :: r' =>
          if (c =? 10) && (d =? 10) then let '(es, rest) := events [] r' in (acc :: es, rest)
          else events (acc ++ [c]) r
      | [] => ([], acc ++ [c])
      end
  end.

Definition no_break (s : text) : Prop := Forall (fun c => c <> 10) s.

Lemma events_event e : forall acc s, no_break e ->
  events acc (e ++ 10 :: 10 :: s) = ((acc ++ e) :: (events [] s).1, (events [] s).2).
Proof.
  induction e as [|c e IH]; intros acc s Hn.
  - cbn [events app Z.eqb Pos.eqb andb]. rewrite app_nil_r. by destruct (events [] s).
  - apply Forall_cons in Hn as [Hc Hn]. specialize (IH (acc ++ [c]) s Hn). rewrite <- app_assoc in IH.
    etrans; [|exact IH].
    cbn [events app]. apply Z.eqb_neq in Hc. rewrite Hc. by destruct (e ++ 10 :: 10 :: s) eqn:E; [destruct e|].
Qed.

(** *** Decimal numbers *)

Definition decimal_value (s : text) : Z := fold_left (fun a c => 10 * a + (c - 48)) s 0.

Lemma decimal_spec f : forall n, 0 <= n < 10 ^ Z.of_nat f -> (0 < f)%nat ->
  Forall (fun c => 48 <= c <= 57) (decimal f n) /\ decimal_value (decimal f n) = n /\
  (exists d r, decimal f n = d :: r /\ (d = 48 -> r = [])).
Proof.
  induction f as [|f IH]; [lia|]. intros n Hn _. rewrite Nat2Z.inj_succ, Z.pow_succ_r in Hn by lia. cbn [decimal].
  assert (0 <= n mod 10 < 10) as Hm by (apply Z.mod_pos_bound; lia).
  destruct (Z.ltb_spec n 10) as [Hlt|Hge].
  - rewrite Z.mod_small by lia. split_and!; [repeat constructor; lia | unfold decimal_value; simpl; lia |]. by eexists _, _.
  - assert (0 < f)%nat as Hf by (destruct f; simpl in Hn; lia).
    destruct (IH (n / 10)) as (Hd & Hv & d & r & E & Hz); [|done|].
    { split; [apply Z.div_pos; lia | apply Z.div_lt_upper_bound; lia]. }
    split_and!.
    + apply Forall_app. split; [done|]. repeat constructor; lia.
    + unfold decimal_value in *. rewrite fold_left_app, Hv. simpl. pose proof (Z.div_mod n 10). lia.
    + rewrite E. exists d, (r ++ [48 + n mod 10]). split; [done|]. intros ->. rewrite Hz in E by done.
      rewrite E in Hv. unfold decimal_value in Hv. simpl in Hv. assert (1 <= n / 10) by (apply Z.div_le_lower_bound; lia). lia.
Qed.

Lemma digits_app ds r : Forall (fun c => 48 <= c <= 57) ds -> match r with c :: _ => is_digit c = false | [] => True end ->
  digits (ds ++ r) = (ds, r).
Proof.
  intros Hd Hr. induction Hd as [|c ds Hc _ IH]; simpl; [destruct r as [|c r]; simpl; [done | by rewrite Hr]|].
  assert (is_digit c = true) as -> by (unfold is_digit; apply andb_true_iff; split; apply Z.leb_le; lia). by rewrite IH.
Qed.

(** A number of digits only, without a leading zero, in front of a comma. *)
Lemma number_digits ds r : Forall (fun c => 48 <= c <= 57) ds -> (exists d r', ds = d :: r' /\ (d = 48 -> r' = [])) ->
  number (ds ++ 44 :: r) = Some (ds, 44 :: r).
Proof.
  intros Hd (d & ds' & -> & Hz). pose proof (Forall_inv Hd) as Hb. simpl in Hb.
  assert (digits (d :: ds' ++ 44 :: r) = (d :: ds', 44 :: r)) as E by (by apply (digits_app (d :: ds'))).
  destruct (decide (d = 48)) as [->|Hne]; [by rewrite (Hz eq_refl)|].
  assert (digits1 (d :: ds' ++ 44 :: r) = Some (d :: ds', 44 :: r)) as E1 by (unfold digits1; by rewrite E).
  unfold number, first_is. cbn [app]. rewrite (proj2 (Z.eqb_neq d 45)), (proj2 (Z.eqb_neq d 48)), E1 by lia.
  cbn. by rewrite !app_nil_r.
Qed.

Lemma literal_digit w c r : 48 <= c <= 57 -> (exists x w', w = x :: w' /\ 57 < x) -> literal w (c :: r) = None.
Proof. intros Hc (x & w' & -> & Hx). cbn [literal]. by destruct (Z.eqb_spec x c); [lia|]. Qed.

Lemma value_digits n dep ds r : Forall (fun c => 48 <= c <= 57) ds -> (exists d r', ds = d :: r' /\ (d = 48 -> r' = [])) ->
  value (S n) dep (ds ++ 44 :: r) = Parsed (JNumber ds) (44 :: r).
Proof.
  intros Hd Hz. pose proof (number_digits ds r Hd Hz) as E. destruct Hz as (d & ds' & -> & _).
  apply Forall_inv in Hd. simpl in Hd. cbn [app] in *. cbn [value skip_ws].
  assert (is_ws d = false) as -> by (unfold is_ws; rewrite !orb_false_iff, !Z.eqb_neq; lia).
  destruct (Z.eqb_spec d 34), (Z.eqb_spec d 123), (Z.eqb_spec d 91); try lia.
  rewrite !literal_digit by (done || (eexists _, _; split; [reflexivity | reflexivity])). by rewrite E.
Qed.

Definition bool_text (b : bool) : text := if b then lit "true" else lit "false".

(** What a client gets from the JSON of an event. *)
Definition event_members (index : Z) (txt : text) (final : bool) : list (text * (text * json)) :=
  [(lit "index", (int_text index, JNumber (int_text index))); (lit "text", (JsonString txt, JString (body txt)));
   (lit "final", (bool_text final, JBool final))].

Definition int_range (n : Z) : Prop := 0 <= n < 2 ^ 31.

Lemma int_text_spec n : int_range n ->
  Forall (fun c => 48 <= c <= 57) (int_text n) /\ decimal_value (int_text n) = n /\
  (exists d r, int_text n = d :: r /\ (d = 48 -> r = [])).
Proof. intros Hn. apply decimal_spec; [unfold int_range in Hn; simpl; lia | lia]. Qed.

Lemma final_member n final : members (S (S n)) 1 (34 :: lit "final" ++ [34; 58] ++ bool_text final ++ [125]) =
  Parsed [(lit "final", (bool_text final, JBool final))] [].
Proof. by destruct final. Qed.

Lemma text_member n txt final : units16 txt ->
  members (S (S (S n))) 1 (34 :: lit "text" ++ [34; 58] ++ JsonString txt ++ [44; 34] ++ lit "final" ++ [34; 58] ++ bool_text final ++ [125]) =
  Parsed [(lit "text", (JsonString txt, JString (body txt))); (lit "final", (bool_text final, JBool final))] [].
Proof.
  intros Ht. set (more := lit "final" ++ [34; 58] ++ bool_text final ++ [125]).
  assert (value (S (S n)) 1 (JsonString txt ++ 44 :: 34 :: more) = Parsed (JString (body txt)) (44 :: 34 :: more)) as H2.
  { unfold JsonString. cbn [app]. apply value_string. rewrite <- app_assoc. by apply string_body_body. }
  etrans; [apply (members_next (S (S n)) 1 _ (lit "text") _ _ (34 :: more) _ _ (string_body_plain _ _ (plain_lit "text" eq_refl)) H2 (final_member n final))|].
  do 4 f_equal. exact (consumed_app (JsonString txt) (44 :: 34 :: more)).
Qed.

Lemma event_parse index txt final : int_range index -> units16 txt ->
  read_json (event_json index txt final) = Some (JObject (event_members index txt final)).
Proof.
  intros Hi Ht. destruct (int_text_spec index Hi) as (Hd & _ & Hz).
  set (more := lit "text" ++ [34; 58] ++ JsonString txt ++ [44; 34] ++ lit "final" ++ [34; 58] ++ bool_text final ++ [125]).
  assert (event_json index txt final = 123 :: 34 :: lit "index" ++ [34; 58] ++ int_text index ++ 44 :: 34 :: more) as E by done.
  assert (skip_ws (int_text index ++ 44 :: 34 :: more) = int_text index ++ 44 :: 34 :: more) as Hs.
  { destruct Hz as (d & r & Ed & _). rewrite Ed in Hd |- *. apply Forall_inv in Hd. simpl in Hd. cbn [app skip_ws].
    unfold is_ws. by destruct (Z.eqb_spec d 32), (Z.eqb_spec d 9), (Z.eqb_spec d 10), (Z.eqb_spec d 13); try lia. }
  unfold read_json, parse_with, parse_fuel.
  assert (exists n, (2 * length (event_json index txt final) + 2 = S (S (S (S (S n)))))%nat) as [n ->].
  { rewrite E. exists (2 * length (event_json index txt final) + 2 - 5)%nat. rewrite E. simpl. lia. }
  rewrite E. pose proof (value_digits (S (S n)) 1 (int_text index) (34 :: more) Hd Hz) as H2.
  assert (value (S (S (S (S (S n))))) 0 (123 :: 34 :: lit "index" ++ [34; 58] ++ int_text index ++ 44 :: 34 :: more) =
          Parsed (JObject (event_members index txt final)) []) as ->; [|done].
  etrans; [apply (value_object _ 0 _ _ _ ltac:(unfold max_depth; lia)
    (members_next _ _ _ (lit "index") _ _ _ _ _ (string_body_plain _ _ (plain_lit "index" eq_refl)) H2 (text_member n txt final Ht)))|].
  do 4 f_equal. rewrite Hs. unfold event_members. do 3 f_equal. exact (consumed_app (int_text index) (44 :: 34 :: more)).
Qed.

Lemma event_no_break index txt final : int_range index -> units16 txt -> no_break (lit "data: " ++ event_json index txt final).
Proof.
  intros Hi Ht. destruct (int_text_spec index Hi) as (Hd & _). unfold no_break, event_json.
  assert (Forall (fun c => c <> 10) (JsonString txt)) as Hj
    by (eapply Forall_impl; [by apply JsonString_printable | simpl; intros; lia]).
  assert (Forall (fun c => c <> 10) (int_text index)) as Hx by (eapply Forall_impl; [exact Hd | simpl; intros; lia]).
  rewrite !Forall_app. split_and!; try assumption; try (by destruct final; repeat constructor); repeat constructor; discriminate.
Qed.

(** *** What goes over the wire is well-formed text *)

Definition token_ok (t : sse_token) : Prop := int_range (sse_index t) /\ well_formed (sse_text t).

Lemma well_formed_app a b : well_formed a -> well_formed b -> well_formed (a ++ b).
Proof.
  intros (ca & Ha & ->) (cb & Hb & ->). exists (ca ++ cb). split; [by apply Forall_app|].
  unfold to_utf16. by rewrite map_app, concat_app.
Qed.

Lemma well_formed_ascii s : Forall (fun c => 0 <= c < 128) s -> well_formed s.
Proof.
  intros H. exists s. split; [eapply Forall_impl; [exact H | unfold scalar; simpl; lia]|].
  unfold to_utf16. induction H as [|c s Hc _ IH]; [done|]. cbn [map concat]. rewrite <- IH.
  unfold units. by destruct (Z.ltb_spec c 0x10000); [|lia].
Qed.

Ltac wf_parts := repeat match goal with |- well_formed (_ ++ _) => apply well_formed_app end.

(** Closed text, by evaluation. *)
Lemma well_formed_literal s : forallb (fun c => (0 <=? c) && (c <? 128)) s = true -> well_formed s.
Proof.
  intros H. apply well_formed_ascii, Forall_forall. intros c Hc. rewrite forallb_forall in H.
  apply list_elem_of_In, H in Hc. lia.
Qed.

Lemma well_formed_units16 s : well_formed s -> units16 s.
Proof.
  intros (cs & H & ->). unfold units16, to_utf16. induction H as [|c cs Hc _ IH]; [constructor|].
  cbn [map concat]. apply Forall_app. split; [|done]. unfold scalar in Hc. unfold units.
  destruct (Z.ltb_spec c 0x10000); repeat constructor; try lia;
    [pose proof (Z.div_pos (c - 0x10000) 1024) | pose proof (Z.mod_pos_bound (c - 0x10000) 1024)]; lia.
Qed.

Lemma escape_char_plain c : 128 <= c -> escape_char c = [c].
Proof.
  intros H. unfold escape_char.
  by destruct (Z.eqb_spec c 34), (Z.eqb_spec c 92), (Z.eqb_spec c 10), (Z.eqb_spec c 13), (Z.eqb_spec c 9), (Z.ltb_spec c 0x20); try lia.
Qed.

Lemma escape_char_ascii c : 0 <= c < 128 -> Forall (fun c => 0 <= c < 128) (escape_char c).
Proof.
  intros H. unfold escape_char. repeat case_match; try (repeat constructor; lia).
  assert (forall n, 0 <= n < 16 -> 0 <= hex_digit n < 128) as Hx by (intros n Hn; unfold hex_digit; case_match; lia).
  assert (forall n, 0 <= n mod 16 < 16) as Hm by (intros n; apply Z.mod_pos_bound; lia).
  assert (0 <= c / 4096 < 16) by (split; [apply Z.div_pos; lia | apply Z.div_lt_upper_bound; lia]).
  apply Forall_app. split; [repeat constructor; lia|]. unfold x4. repeat constructor; apply Hx; auto.
Qed.

Lemma body_well_formed s : well_formed s -> well_formed (body s).
Proof.
  intros (cs & H & ->). unfold to_utf16. induction H as [|c cs Hc _ IH]; [by exists []|].
  unfold body in *. cbn [map concat]. rewrite map_app, concat_app. apply well_formed_app; [|done].
  destruct (decide (c < 128)) as [Hl|Hl].
  - unfold scalar in Hc. unfold units. destruct (Z.ltb_spec c 0x10000); [|lia]. cbn [map concat]. rewrite app_nil_r.
    apply well_formed_ascii, escape_char_ascii. lia.
  - assert (concat (map escape_char (units c)) = units c) as ->.
    { unfold units. destruct (Z.ltb_spec c 0x10000); cbn [map concat]; rewrite !escape_char_plain; try done; try lia.
      - pose proof (Z.mod_pos_bound (c - 0x10000) 1024). lia.
      - pose proof (Z.div_pos (c - 0x10000) 1024). lia. }
    exists [c]. split; [by constructor | unfold to_utf16; simpl; by rewrite app_nil_r].
Qed.

Lemma event_well_formed t : token_ok t -> well_formed (event_json (sse_index t) (sse_text t) (sse_final t)).
Proof.
  intros [Hi Ht]. destruct (int_text_spec _ Hi) as (Hd & _). unfold event_json.
  assert (well_formed (int_text (sse_index t))) by (apply well_formed_ascii; eapply Forall_impl; [exact Hd | simpl; lia]).
  assert (well_formed (JsonString (sse_text t))).
  { unfold JsonString. wf_parts; [by apply well_formed_literal | by apply body_well_formed | by apply well_formed_literal]. }
  wf_parts; try assumption; apply well_formed_literal; by destruct (sse_final t).
Qed.

Lemma sse_well_formed t : token_ok t -> well_formed (sse_of t).
Proof.
  intros Ht. unfold sse_of, sse. pose proof (event_well_formed t Ht). wf_parts; try assumption; by apply well_formed_literal.
Qed.

Lemma GetBytes_events ts : Forall token_ok ts ->
  concat (map (fun t => GetBytes (sse_of t)) ts) = GetBytes (concat (map sse_of ts)) /\ well_formed (concat (map sse_of ts)).
Proof.
  induction 1 as [|t ts Ht _ [IH1 IH2]]; [split; [done | by exists []]|]. cbn [map concat].
  pose proof (sse_well_formed t Ht) as Hw. split; [by rewrite IH1, GetBytes_app | by apply well_formed_app].
Qed.

(** The data of an event, read as JSON. *)
Definition carries (t : sse_token) : Prop := exists ms,
  JsonDocument_Parse (event_json (sse_index t) (sse_text t) (sse_final t)) = Root (JObject ms) /\
  (exists raw, TryGetProperty (lit "index") ms = Some (raw, JNumber raw) /\ decimal_value raw = sse_index t) /\
  (exists raw r, TryGetProperty (lit "text") ms = Some (raw, JString r) /\ unescape r = Some (sse_text t)) /\
  (exists raw, TryGetProperty (lit "final") ms = Some (raw, JBool (sse_final t))).

Lemma event_carries t : token_ok t -> carries t.
Proof.
  intros Ht. pose proof (well_formed_valid _ (event_well_formed t Ht)) as Hv. destruct t as [i txt fin]. destruct Ht as [Hi Ht].
  cbn [sse_index sse_text sse_final] in *. apply well_formed_units16 in Ht.
  exists (event_members i txt fin). cbn [sse_index sse_text sse_final]. split_and!; [by rewrite (parse_read _ _ (event_parse i txt fin Hi Ht)), Hv | | |].
  - exists (int_text i). split; [done | apply int_text_spec, Hi].
  - exists (JsonString txt), (body txt). split; [done | by apply unescape_body].
  - by exists (bool_text fin).
Qed.

Lemma events_of_tokens ts : Forall token_ok ts ->
  events [] (concat (map sse_of ts)) =
  (map (fun t => lit "data: " ++ event_json (sse_index t) (sse_text t) (sse_final t)) ts, []).
Proof.
  induction 1 as [|t ts [Hi Ht] _ IH]; [done|]. cbn [map concat]. unfold sse_of at 1, sse. apply well_formed_units16 in Ht.
  rewrite <- !app_assoc, (app_assoc (lit "data: ")). cbn [app].
  rewrite events_event by by apply event_no_break. by rewrite IH.
Qed.

(** C26: What a client decodes from the bytes of a manuals query: the head of an event stream, then exactly one
    event per token, in order and with nothing left over, whatever characters the texts contain; the data of
    each event is JSON from which index, text and final flag are read back unchanged.  Against an engine that
    is not initialised the query is answered with the success head and no event at all. *)
Theorem rag_stream_delivers (U : text -> text) (e : engine) (pending : list (list Z)) (query : text) :
  route_of U (ReadRequestAsync pending).1 = Rag query ->
  (forall g, rag_tokens e = Some g -> Forall token_ok (g query) ->
     exists stream, Utf8.GetString (HandleClientAsync U e pending) = stream_head ++ stream /\
       events [] stream =
         (map (fun t => lit "data: " ++ event_json (sse_index t) (sse_text t) (sse_final t)) (g query), []) /\
       Forall carries (g query)) /\
  (rag_tokens e = None -> Utf8.GetString (HandleClientAsync U e pending) = stream_head).
Proof.
  intros Hr. unfold HandleClientAsync. destruct (ReadRequestAsync pending) as [path id]. simpl in Hr. rewrite Hr.
  assert (well_formed stream_head) as Hh by by apply well_formed_literal.
  split.
  - intros g -> Hg. destruct (GetBytes_events _ Hg) as [Hb Hw]. exists (concat (map sse_of (g query))). split_and!.
    + unfold write_stream. cbn [fmap option_fmap option_map]. rewrite Hb, <- GetBytes_app by done.
      by apply GetString_GetBytes, well_formed_app.
    + by apply events_of_tokens.
    + eapply Forall_impl; [exact Hg | apply event_carries].
  - intros ->. unfold write_stream. cbn [fmap option_fmap option_map]. rewrite app_nil_r. by apply GetString_GetBytes.
Qed.

Definition sample_engine : engine :=
  Engine (lit "[]") (fun id => id) (Some (fun q => [SseToken 0 (q ++ [10; 34]) false; SseToken 1 [] true])) None.

Lemma rag_stream_witness :
  exists stream, Utf8.GetString (HandleClientAsync (fun s => s) sample_engine [lit "GET /rag?q=valve HTTP/1.1" ++ [13; 10; 13; 10]]) =
    stream_head ++ stream /\ length (events [] stream).1 = 2%nat.
Proof.
  destruct (rag_stream_delivers (fun s => s) sample_engine [lit "GET /rag?q=valve HTTP/1.1" ++ [13; 10; 13; 10]] (lit "valve")
    ltac:(vm_compute; reflexivity)) as [H _].
  assert (Forall token_ok [SseToken 0 (lit "valve" ++ [10; 34]) false; SseToken 1 [] true]) as Hok.
  { repeat constructor; unfold int_range; simpl; try lia; [|by exists []].
    by apply well_formed_literal. }
  destruct (H _ eq_refl Hok) as (stream & E & Ev & _). exists stream. split; [exact E|]. by rewrite Ev.
Defined.
