(* ===== verification/Listeners.v ===== *)
(** * Listeners: the lifecycle of the two socket servers next to the engine's

    [RawHttpServer] (Exports.HttpRaw.cs) and [PbFrameServer] keep a listener, a cancellation source and, for the
    post-quantum posture, an identity in static fields.  Here their [Start] and [Stop], the exports around them
    and the accept loops run interleaved with the exports of [Registry] on one process-wide state, so that what
    [dni_shutdown] does to a server that is still up can be stated. *)

From S2P Require Import Prelude Abi Session Registry Trust.
Local Open Scope Z_scope.
#[local] Set Warnings "-clear-no-such-hyp".

(** ** State *)

(** A listener is known by its port.  [_cts] is not null exactly when [_listener] is not: both are assigned last
    in [Start] and cleared together in [Stop]. *)
Record world := World {
  w_engine : host;
  h_listener : option Z;      (* RawHttpServer._listener *)
  p_listener : option Z;      (* PbFrameServer._listener *)
  p_requirePq : bool;         (* PbFrameServer._requirePq *)
  p_provider : bool;          (* PbFrameServer._pqcProvider is not null *)
  p_identity : option Z;      (* PbFrameServer._pqcIdentity *)
  w_channel : option PqChannelParams;  (* TrustPosture._binaryPqChannel *)
  w_open : gset Z;            (* listening sockets *)
  w_loops : gset Z;           (* accept loops whose token is not cancelled *)
  w_serving : list rag_model  (* answers under way on either server, with the model that generates them *) }.

Definition set_host h (w : world) : world :=
  World h (h_listener w) (p_listener w) (p_requirePq w) (p_provider w) (p_identity w) (w_channel w) (w_open w) (w_loops w)
    (w_serving w).

(** ** The raw HTTP server *)

(** [RawHttpServer.Start] and the export around it; [bind] is the port of the new listener, [None] when
    [TcpListener.Start] throws. *)
Definition http_Start (a : assets) (bind : option Z) (w : world) : Z * world :=
  match h_listener w with
  | Some port => (port, w)
  | None =>
      let w1 := set_host (Initialize a (w_engine w)) w in
      match bind with
      | None => (NativeStatus.Internal, w1)
      | Some port =>
          (port, World (w_engine w1) (Some port) (p_listener w1) (p_requirePq w1) (p_provider w1) (p_identity w1)
                   (w_channel w1) ({[port]} ∪ w_open w1) ({[port]} ∪ w_loops w1) (w_serving w1))
      end
  end.

Definition http_Stop (w : world) : Z * world :=
  let gone := match h_listener w with Some port => {[port]} | None => ∅ end in
  (NativeStatus.Ok,
   World (w_engine w) None (p_listener w) (p_requirePq w) (p_provider w) (p_identity w) (w_channel w)
     (w_open w ∖ gone) (w_loops w ∖ gone) (w_serving w)).

(** ** The framed-protobuf server *)

Definition wants_pq (flags : Z) : bool := negb (Z.land flags 1 =? 0).

(** [PbFrameServer.Start] and its export; [create] is the identity the provider makes, [None] when it throws. *)
Definition pb_Start (a : assets) (flags : Z) (create bind : option Z) (w : world) : Z * world :=
  match p_listener w with
  | Some port => if negb (Bool.eqb (wants_pq flags) (p_requirePq w)) then (NativeStatus.InvalidArgument, w) else (port, w)
  | None =>
      let h := Initialize a (w_engine w) in
      let pq := wants_pq flags in
      let keep provider ident port opened :=
        World h (h_listener w) port pq provider ident (w_channel w) (opened ∪ w_open w) (opened ∪ w_loops w) (w_serving w) in
      let listen provider ident :=
        match bind with
        | None => (NativeStatus.Internal, keep provider ident None ∅)
        | Some port => (port, keep provider ident (Some port) {[port]})
        end in
      if pq then
        match create with
        | None => (NativeStatus.Internal, keep true (p_identity w) None ∅)
        | Some ident => listen true (Some ident)
        end
      else listen (p_provider w) (p_identity w)
  end.

Definition pb_Stop (w : world) : world :=
  let gone := match p_listener w with Some port => {[port]} | None => ∅ end in
  World (w_engine w) (h_listener w) None (p_requirePq w) false None None (w_open w ∖ gone) (w_loops w ∖ gone) (w_serving w).

(** ** The accept loops (the two are the same) *)

Inductive accepted := Client (conn : Z) | SocketError | Canceled | ObjectDisposed.

(** The connections handed to [HandleClientAsync]; a pass of the loop checks the token, then accepts. *)
Fixpoint AcceptLoopAsync (passes : list (bool * accepted)) : list Z :=
  match passes with
  | [] => []
  | (cancelled, r) :: rest =>
      if cancelled then []
      else match r with
           | Client c => c :: AcceptLoopAsync rest
           | SocketError => AcceptLoopAsync rest
           | Canceled | ObjectDisposed => []
           end
  end.

(** ** Executions *)

Inductive wstep : world -> world -> Prop :=
(* an export of [Registry], or a task of one of its sessions *)
| w_host h' w : hstep (w_engine w) h' -> wstep w (set_host h' w)
| w_http_start a bind w : (forall p, bind = Some p -> 0 < p /\ p ∉ w_open w) -> wstep w (http_Start a bind w).2
| w_http_stop w : wstep w (http_Stop w).2
| w_pb_start a flags create bind w : (forall p, bind = Some p -> 0 < p /\ p ∉ w_open w) ->
    wstep w (pb_Start a flags create bind w).2
| w_pb_stop w : wstep w (pb_Stop w)
(* a connection of the server that runs completed the handshake: TryHandshakeAsync publishes the parameters
   under the lock if the connection's token, which Stop cancels, is not cancelled *)
| w_handshake port pq w : p_listener w = Some port -> p_requirePq w = true ->
    wstep w (World (w_engine w) (h_listener w) (p_listener w) (p_requirePq w) (p_provider w) (p_identity w)
               (Some pq) (w_open w) (w_loops w) (w_serving w))
(* a manuals query arrives over an accept loop, and starts on the orchestrator's model *)
| w_query port m w : port ∈ w_loops w -> ragOrchestrator (w_engine w) = Some m ->
    wstep w (World (w_engine w) (h_listener w) (p_listener w) (p_requirePq w) (p_provider w) (p_identity w)
               (w_channel w) (w_open w) (w_loops w) (m :: w_serving w))
(* its answer ends *)
| w_answered l1 m l2 w : w_serving w = l1 ++ m :: l2 ->
    wstep w (World (w_engine w) (h_listener w) (p_listener w) (p_requirePq w) (p_provider w) (p_identity w)
               (w_channel w) (w_open w) (w_loops w) (l1 ++ l2)).

Definition start_world : world := World initial None None false false None None ∅ ∅ [].

(** ** The invariant *)

Definition listening (l : option Z) : gset Z := match l with Some port => {[port]} | None => ∅ end.

Definition rag_retained (h : host) : Prop := forall p, ragOrchestrator h = Some (RagLlama p) -> ragModelDisposable h = Some p.

Record world_ok (w : world) : Prop := {
  ok_engine : host_wf (w_engine w);
  ok_retained : rag_retained (w_engine w);
  ok_open : w_open w = listening (h_listener w) ∪ listening (p_listener w);
  ok_loops : w_loops w = w_open w;
  ok_apart : forall p, h_listener w = Some p -> p_listener w <> Some p;
  ok_ports : forall p, h_listener w = Some p \/ p_listener w = Some p -> 0 < p;
  ok_identity : forall p, p_listener w = Some p -> p_requirePq w = true -> is_Some (p_identity w) /\ p_provider w = true;
  ok_channel : is_Some (w_channel w) -> is_Some (p_listener w) /\ p_requirePq w = true }.

(** The engine's fields that [Initialize] and [Shutdown] alone change. *)
Definition same_engine (h h' : host) : Prop :=
  ragOrchestrator h' = ragOrchestrator h /\ ragModelDisposable h' = ragModelDisposable h.

Lemma register_engine g h : same_engine h (register g h).2.
Proof. unfold register, Registry_Add. done. Qed.

Lemma Agent_engine b h : same_engine h (Agent b h).2.
Proof. unfold Agent. destruct (agent _); [done|]. by destruct (BuildBrain b). Qed.

Lemma hstep_engine h h' : hstep h h' ->
  (exists a, h' = Initialize a h) \/ h' = Shutdown h \/ same_engine h h'.
Proof.
  intros Hs. destruct Hs as [a h| |pn cn mt t th g h _|qn cn th b st g h _|b h|p h|l1 p l2 h _|pn cn mt th g h _|id h|id h|id s s' h _ _|l1 s s' l2 h _ _].
  - left. by exists a.
  - right; by left.
  - right; right. unfold SessionStart. repeat case_match; try done; apply register_engine.
  - right; right. unfold AgentSessionStart. pose proof (Agent_engine b h) as Ha. destruct (Agent b h) as [built h1].
    repeat case_match; try done; simplify_eq; try exact Ha.
  - right; right. apply Agent_engine.
  - by right; right.
  - by right; right.
  - right; right. unfold StreamStart. repeat case_match; try done; apply register_engine.
  - right; right. unfold SessionCancel, TryGet. by destruct (Sessions h !! id).
  - right; right. unfold SessionFree, RemoveAsync. by repeat case_match; simplify_eq.
  - by right; right.
  - by right; right.
Qed.

Lemma Initialize_retained a h : host_wf h -> rag_retained h -> rag_retained (Initialize a h).
Proof.
  intros Hw Hr. unfold Initialize. destruct (IsInitialized h); [done|]. destruct (ragOrchestrator h) as [r|] eqn:Er.
  - intros p. simpl. intros [= ->]. by apply Hr.
  - unfold BuildRagModel. repeat case_match; simplify_eq; intros p; simpl; congruence.
Qed.

Lemma hstep_retained h h' : hstep h h' -> host_wf h -> rag_retained h -> rag_retained h'.
Proof.
  intros Hs Hw Hr. destruct (hstep_engine h h' Hs) as [[a ->]|[->|[E1 E2]]].
  - by apply Initialize_retained.
  - by intros p.
  - intros p. rewrite E1, E2. apply Hr.
Qed.

Lemma set_host_ok h w : host_wf h -> rag_retained h -> world_ok w -> world_ok (set_host h w).
Proof. intros Hw Hr [_ _ Ho Hl Ha Hp Hi]. by split. Qed.

Lemma Initialize_ok a w : world_ok w -> host_wf (Initialize a (w_engine w)) /\ rag_retained (Initialize a (w_engine w)).
Proof. intros [Hw Hr _ _ _ _ _]. split; [by apply Initialize_wf | by apply Initialize_retained]. Qed.

Lemma http_Start_ok a bind w : (forall p, bind = Some p -> 0 < p /\ p ∉ w_open w) -> world_ok w -> world_ok (http_Start a bind w).2.
Proof.
  intros Hb Hw. unfold http_Start. destruct (h_listener w) as [q|] eqn:Eh; [done|].
  destruct (Initialize_ok a w Hw) as [Hi Hr]. destruct bind as [p|]; [|by apply set_host_ok].
  destruct (Hb p eq_refl) as [Hp Hn]. destruct Hw as [_ _ Ho Hl Ha Hps Hid]. rewrite Eh in *. simpl in Ho.
  split; simpl; try done.
  - set_solver.
  - by rewrite Hl.
  - intros p' [= <-] E. rewrite E in Ho. set_solver.
  - intros p' [[= <-]|E]; [done | apply Hps; by right].
Qed.

Lemma http_Stop_ok w : world_ok w -> world_ok (http_Stop w).2.
Proof.
  intros [Hw Hr Ho Hl Ha Hp Hi]. split; simpl; try done.
  - rewrite Ho. destruct (h_listener w) as [p|], (p_listener w) as [q|]; simpl; set_solver.
  - by rewrite Hl.
  - intros p [?|E]; [done | apply Hp; by right].
Qed.

Lemma pb_Start_ok a flags create bind w : (forall p, bind = Some p -> 0 < p /\ p ∉ w_open w) -> world_ok w ->
  world_ok (pb_Start a flags create bind w).2.
Proof.
  intros Hb Hw. unfold pb_Start. destruct (p_listener w) as [q|] eqn:Ep; [by destruct (negb _)|].
  destruct (Initialize_ok a w Hw) as [Hi Hr]. destruct Hw as [_ _ Ho Hl Ha Hps Hid Hc]. rewrite Ep in *. simpl in Ho.
  assert (forall pv ident o, (forall p, o = Some p -> 0 < p /\ p ∉ w_open w) ->
    (is_Some o -> wants_pq flags = true -> is_Some ident /\ pv = true) ->
    world_ok (World (Initialize a (w_engine w)) (h_listener w) o (wants_pq flags) pv ident (w_channel w)
                (listening o ∪ w_open w) (listening o ∪ w_loops w) (w_serving w))) as Hkeep.
  { intros pv ident o Hn Hid'. split; simpl; try done.
    - rewrite Ho. set_solver.
    - by rewrite Hl.
    - intros p E ->. destruct (Hn p eq_refl) as [_ Hout]. rewrite E in Ho. simpl in Ho. set_solver.
    - intros p [E|E]; [apply Hps; by left | by apply Hn].
    - intros p E Hq. apply Hid'; [by exists p | done].
    - intros E. by destruct (Hc E) as [[? ?] _]. }
  destruct (wants_pq flags) eqn:Eq; [destruct create as [ident|]|].
  - destruct bind as [p|].
    + apply (Hkeep true (Some ident) (Some p)); [done | intros _ _; split; [by exists ident | done]].
    + apply (Hkeep true (Some ident) None); [done | by intros [? ?]].
  - apply (Hkeep true (p_identity w) None); [done | by intros [? ?]].
  - destruct bind as [p|]; [apply (Hkeep (p_provider w) (p_identity w) (Some p)) | apply (Hkeep (p_provider w) (p_identity w) None)]; done.
Qed.

Lemma pb_Stop_ok w : world_ok w -> world_ok (pb_Stop w).
Proof.
  intros [Hw Hr Ho Hl Ha Hp Hi]. split; simpl; try done.
  - rewrite Ho. destruct (h_listener w) as [p|], (p_listener w) as [q|]; simpl; set_solver.
  - by rewrite Hl.
  - intros p [E|?]; [apply Hp; by left | done].
Qed.

Create HintDb listeners.
#[export] Hint Resolve http_Start_ok http_Stop_ok pb_Start_ok pb_Stop_ok : listeners.

Lemma wstep_ok w w' : wstep w w' -> world_ok w -> world_ok w'.
Proof.
  intros Hs Hw. destruct Hs as [h' w Hh| | | | |port pq w Ep Eq|port m w _ _|l1 m l2 w _]; eauto with listeners.
  - destruct (Hw) as [Hwf Hret _ _ _ _ _]. apply set_host_ok; [by eapply hstep_wf | by eapply hstep_retained | done].
  - destruct Hw. split; by simpl.
  - destruct Hw. by split.
  - destruct Hw. by split.
Qed.

Lemma start_world_ok : world_ok start_world.
Proof. split; try done; [by intros ? [?|?] | by intros [? ?]]. Qed.

Lemma reach_ok w : rtc wstep start_world w -> world_ok w.
Proof.
  intros Hr. remember start_world as w0 eqn:E. assert (world_ok w0) as H0 by (subst; apply start_world_ok). clear E.
  induction Hr as [|w1 w2 w3 Hs _ IH]; [done|]. apply IH. by eapply wstep_ok.
Qed.

(** C9: After any interleaving of the exports, the session tasks and the two servers: the sockets that listen and
    the accept loops that run are exactly those of the two static listener fields, on two different ports; a
    server whose connections must do the post-quantum handshake has the identity to do it with; and the
    engine's own invariant holds throughout. *)
Theorem listeners_invariant (w : world) : rtc wstep start_world w -> world_ok w.
Proof. apply reach_ok. Qed.

(** C12: The Trust inspector never reports an encrypted binary transport without a server that demands the handshake
    and has an identity for it: not before a handshake of that server, not after a stop, and in no order of
    starts, stops and handshakes that finish late; HTTP is always reported as plaintext. *)
Theorem trust_posture_is_honest (w : world) : rtc wstep start_world w ->
  ("binary" ∈ reported_encrypted (Report (w_channel w)) ->
     exists port, p_listener w = Some port /\ port ∈ w_loops w /\ p_requirePq w = true /\ is_Some (p_identity w)) /\
  ~ "binary" ∈ reported_encrypted (Report (w_channel (pb_Stop w))) /\
  ~ "http" ∈ reported_encrypted (Report (w_channel w)) /\
  (forall a flags create bind, p_listener w = None -> w_channel (pb_Start a flags create bind w).2 = None).
Proof.
  intros Hw%reach_ok. rewrite !reported_encrypted_spec. split_and!.
  - intros Hin. assert (is_Some (w_channel w)) as Hc by (destruct (w_channel w); [by eexists|]; set_solver).
    destruct (ok_channel _ Hw Hc) as [[port Ep] Eq]. exists port. split_and!; [done| |done|].
    + rewrite (ok_loops _ Hw), (ok_open _ Hw), Ep. simpl. set_solver.
    + by apply (ok_identity _ Hw port).
  - simpl. set_solver.
  - destruct (w_channel w); set_solver.
  - intros a flags create bind Hn. assert (w_channel w = None) as Hc.
    { destruct (w_channel w) eqn:E; [|done]. destruct (ok_channel _ Hw) as [[? ?] _]; [rewrite E; by eexists | congruence]. }
    unfold pb_Start. rewrite Hn, Hc. by destruct (wants_pq flags), create, bind.
Qed.

(** ** What starting promises *)

(** What [dni_pb_start] returns: a positive port exactly when the server now listens there, accepts, and asks for
    the posture the caller wanted, with an identity if that posture needs one; starting again with the same
    flag returns the same port and changes nothing, with the other flag it is refused and changes nothing.
    Otherwise the answer is [InvalidArgument], for a server that runs with the other posture, or [Internal],
    and then no server runs.  After a stop, either posture can be started. *)
Theorem pb_start_contract (w : world) (a : assets) (flags : Z) (create bind : option Z) :
  rtc wstep start_world w -> (forall p, bind = Some p -> 0 < p /\ p ∉ w_open w) ->
  let r := (pb_Start a flags create bind w).1 in
  let w' := (pb_Start a flags create bind w).2 in
  (0 < r -> p_listener w' = Some r /\ r ∈ w_loops w' /\ p_requirePq w' = wants_pq flags /\
     (wants_pq flags = true -> is_Some (p_identity w')) /\
     forall a' flags' create' bind', pb_Start a' flags' create' bind' w' =
       (if Bool.eqb (wants_pq flags') (wants_pq flags) then r else NativeStatus.InvalidArgument, w')) /\
  (r <= 0 -> (r = NativeStatus.InvalidArgument /\ w' = w /\ is_Some (p_listener w) /\ p_requirePq w <> wants_pq flags) \/
             (r = NativeStatus.Internal /\ p_listener w' = None)) /\
  (forall flags' ident port, (pb_Start a flags' (Some ident) (Some port) (pb_Stop w')).1 = port /\
     p_requirePq (pb_Start a flags' (Some ident) (Some port) (pb_Stop w')).2 = wants_pq flags').
Proof.
  intros Hw%reach_ok Hb.
  intros r w'. assert (world_ok w') as Hw' by by apply pb_Start_ok.
  assert (0 < r -> p_listener w' = Some r /\ p_requirePq w' = wants_pq flags) as Hpos.
  { subst r w'. unfold pb_Start. destruct (p_listener w) as [q|] eqn:Ep.
    - destruct (Bool.eqb (wants_pq flags) (p_requirePq w)) eqn:Eq; [|done]. simpl. intros _.
      by apply eqb_prop in Eq.
    - destruct (wants_pq flags), create, bind; simpl; try done. }
  split_and!.
  - intros H0. destruct (Hpos H0) as [E1 E2]. split_and!; [done| |done| |].
    + rewrite (ok_loops _ Hw'), (ok_open _ Hw'), E1. simpl. set_solver.
    + intros Eq. apply (ok_identity _ Hw' r E1). by rewrite E2.
    + intros a' flags' create' bind'. unfold pb_Start at 1. rewrite E1, E2. by destruct (Bool.eqb _ _).
  - subst r w'. unfold pb_Start. destruct (p_listener w) as [q|] eqn:Ep.
    + destruct (Bool.eqb (wants_pq flags) (p_requirePq w)) eqn:Eq; simpl; intros H0.
      * pose proof (ok_ports _ Hw q (or_intror Ep)). lia.
      * left. split_and!; [done|done|by exists q|]. intros E. rewrite E, eqb_reflx in Eq. done.
    + destruct (wants_pq flags), create, bind as [p|]; simpl; intros H0; try (by right); by destruct (Hb p eq_refl); lia.
  - intros flags' ident port. unfold pb_Start, pb_Stop. simpl. by destruct (wants_pq flags').
Qed.

(** ** Shutting the engine down under a server *)

(** [dni_shutdown], which knows neither server. *)
Definition dni_shutdown (w : world) : world := set_host (Shutdown (w_engine w)) w.

(** The connections accepted before the loop ends. *)
Definition connections (rs : list accepted) : list Z := rs ≫= fun r => match r with Client c => [c] | _ => [] end.

(** An accept that fails for a transient reason costs no other connection; the loop ends with the token or the
    listener, and not before. *)
Lemma accept_loop_survives rs rest : Forall (fun r => r <> Canceled /\ r <> ObjectDisposed) rs ->
  AcceptLoopAsync (map (pair false) rs ++ rest) = connections rs ++ AcceptLoopAsync rest.
Proof. induction 1 as [|[c| | |] rs [Hc Hd] _ IH]; [done| | |done|done]; unfold connections in *; simpl; by rewrite IH. Qed.

(** C11: Shutting the engine down stops neither server and waits for none of its answers.  The HTTP server stays up on
    its port, and [dni_http_start] goes on returning that port without initialising the engine again, so every
    manuals query until the next [dni_initialize] finds no orchestrator.  And the llama model that an answer
    under way generates with is freed while it does: only the sessions of the FFI transport are drained
    before. *)
Theorem shutdown_under_a_server (w : world) (port : Z) :
  rtc wstep start_world w -> h_listener w = Some port ->
  let w' := dni_shutdown w in
  Sessions (w_engine w') = ∅ /\ IsInitialized (w_engine w') = false /\ port ∈ w_loops w' /\
  (forall a bind, http_Start a bind w' = (port, w')) /\
  (forall p, RagLlama p ∈ w_serving w -> ragOrchestrator (w_engine w) = Some (RagLlama p) ->
     p ∈ llama_freed (w_engine w') /\ RagLlama p ∈ w_serving w').
Proof.
  intros Hw%reach_ok Hh w'. destruct (Hw) as [Hwf Hret Ho Hl _ _ _]. split_and!.
  - by apply Shutdown_sessions.
  - done.
  - simpl. rewrite Hl, Ho, Hh. simpl. set_solver.
  - intros a bind. unfold http_Start. simpl. by rewrite Hh.
  - intros p Hs Hm. split; [|done]. simpl. unfold Shutdown, Reset. simpl. rewrite remove_all_engine. simpl.
    rewrite (Hret p Hm). set_solver.
Qed.

(** ** A run *)

(** HTTP is started with a llama model behind it, and a query is being answered; then the framed-protobuf server is
    started with the handshake required. *)
Definition serving_world : world :=
  World (Initialize demo_assets initial) (Some 40001) None false false None None ({[40001]} ∪ ∅) ({[40001]} ∪ ∅) [RagLlama 4096].
Definition both_world : world := (pb_Start demo_assets 1 (Some 7) (Some 40002) serving_world).2.

Lemma serving_steps : rtc wstep start_world serving_world.
Proof.
  eapply rtc_l; [apply (w_http_start demo_assets (Some 40001)); intros p [= <-]; set_solver by lia|].
  eapply rtc_l; [apply (w_query 40001 (RagLlama 4096)); [set_solver | done]|]. apply rtc_refl.
Qed.

Lemma both_bind : forall p, Some 40002 = Some p -> 0 < p /\ p ∉ w_open serving_world.
Proof. intros p [= <-]. simpl. split; [lia | set_solver by lia]. Qed.

Lemma listeners_invariant_witness : world_ok both_world.
Proof.
  apply listeners_invariant. eapply rtc_r; [apply serving_steps|]. apply (w_pb_start demo_assets 1 (Some 7) (Some 40002)). apply both_bind.
Defined.

Lemma trust_posture_is_honest_witness :
  let pq := PqParams "ML-KEM-768" "ML-DSA-65" "AES-256-GCM" 1184 1088 32 in
  let w := World (w_engine both_world) (h_listener both_world) (p_listener both_world) (p_requirePq both_world) (p_provider both_world)
             (p_identity both_world) (Some pq) (w_open both_world) (w_loops both_world) (w_serving both_world) in
  reported_encrypted (Report (w_channel w)) = ["sqlcipher"; "binary"] /\ is_Some (p_identity w).
Proof.
  intros pq w. split; [reflexivity|]. destruct (trust_posture_is_honest w) as [H _].
  - eapply rtc_r; [eapply rtc_r; [apply serving_steps | apply (w_pb_start demo_assets 1 (Some 7) (Some 40002)), both_bind]|].
    by apply (w_handshake 40002 pq).
  - destruct H as (port & _ & _ & _ & H); [|exact H]. rewrite reported_encrypted_spec. simpl. set_solver.
Defined.

Lemma pb_start_witness : p_listener both_world = Some 40002 /\
  pb_Start demo_assets 0 (Some 7) (Some 40002) both_world = (NativeStatus.InvalidArgument, both_world).
Proof.
  destruct (pb_start_contract serving_world demo_assets 1 (Some 7) (Some 40002) serving_steps both_bind) as [H _].
  destruct (H ltac:(reflexivity)) as (E & _ & _ & _ & Hagain). split; [exact E | apply Hagain].
Defined.

Lemma shutdown_under_a_server_witness :
  4096 ∈ llama_freed (w_engine (dni_shutdown serving_world)) /\ RagLlama 4096 ∈ w_serving (dni_shutdown serving_world).
Proof.
  destruct (shutdown_under_a_server serving_world 40001 serving_steps eq_refl) as (_ & _ & _ & _ & H).
  apply H; [set_solver | reflexivity].
Defined.
