(* ===== verification/Publisher.v ===== *)
(** * Publisher: the edge index

    The build-time tool that turns the maintenance manuals into the chunks of the edge index: [Frontmatter]
    (the fenced header of a manual), [MarkdownChunker] (its sections) and the loop of [Program] with
    [IndexWriter]'s table.  Text is UTF-16 ([Json.text]); the prefix tests are ordinal, as the build's
    invariant globalization makes them.  The encoder, a floating-point vector per text, is a parameter. *)

From S2P Require Import Prelude Json Text HttpRaw.
Local Open Scope Z_scope.
#[local] Set Warnings "-clear-no-such-hyp".

Definition nl : Z := 10.

(** [Replace("\r\n", "\n")] *)
Fixpoint unix_lines (s : text) : text :=
  match s with
  | c :: r =>
      match r with
      | d :: r' => if (c =? 13) && (d =? nl) then nl :: unix_lines r' else c :: unix_lines r
      | [] => [c]
      end
  | [] => []
  end.
(** [TrimStart('\n')] *)
Fixpoint skip_newlines (s : text) : text :=
  match s with c :: r => if c =? nl then skip_newlines r else s | [] => [] end.

(** ** Front matter *)

Record DocFrontmatter := Front { DocumentId : text; Title : text; ErrorCodes : list text; ToolsRequired : list text }.
Definition no_front : DocFrontmatter := Front [] [] [] [].

Definition quoted_by (q : Z) (s : text) : bool :=
  match s with
  | c :: r => (2 <=? Z.of_nat (length s)) && (c =? q) && bool_decide (last s = Some q)
  | [] => false
  end.
Definition middle (s : text) : text := removelast (tl s).
Definition Unquote (s : text) : text := if quoted_by 34 s || quoted_by 39 s then middle s else s.

(** A block list: the items of the lines that follow. *)
Fixpoint block_items (rest : list text) : list text :=
  match rest with
  | l :: rest => match starts_with (lit "- ") (TrimStart l) with
                 | Some item => Unquote (Trim item) :: block_items rest
                 | None => []
                 end
  | [] => []
  end.
Definition ReadList (value : text) (rest : list text) : list text :=
  if bool_decide (head value = Some 91) && bool_decide (last value = Some 93)
  then map Unquote (split_clean 44 (middle value))
  else block_items rest.

Definition set_field (key value : text) (rest : list text) (f : DocFrontmatter) : DocFrontmatter :=
  if bool_decide (key = lit "document_id") then Front (Unquote value) (Title f) (ErrorCodes f) (ToolsRequired f)
  else if bool_decide (key = lit "title") then Front (DocumentId f) (Unquote value) (ErrorCodes f) (ToolsRequired f)
  else if bool_decide (key = lit "error_codes") then Front (DocumentId f) (Title f) (ReadList value rest) (ToolsRequired f)
  else if bool_decide (key = lit "tools_required") then Front (DocumentId f) (Title f) (ErrorCodes f) (ReadList value rest)
  else f.
Definition read_line (line : text) (rest : list text) (f : DocFrontmatter) : DocFrontmatter :=
  match line with
  | [] => f
  | c :: _ =>
      if (c =? 32) || (c =? 45) then f
      else match IndexOf [58] line 0 with
           | None => f
           | Some colon => set_field (Trim (take colon line)) (Trim (drop (S colon) line)) rest f
           end
  end.
Fixpoint fields (lines : list text) (f : DocFrontmatter) : DocFrontmatter :=
  match lines with
  | l :: rest => fields rest (read_line l rest f)
  | [] => f
  end.

(** The closing fence: where the header ends and where the body starts. *)
Definition closing_line : text := nl :: lit "---" ++ [nl].
Definition closing_line_at_end : text := nl :: lit "---".
Definition closing_fence (s : text) : option (nat * nat) :=
  match IndexOf closing_line s 4 with
  | Some e => Some (e, (e + 5)%nat)
  | None => match IndexOf closing_line_at_end s 4 with
            | Some e => if (e + 4 =? length s)%nat then Some (e, length s) else None
            | None => None
            end
  end.
Definition Frontmatter_Parse (markdown : text) : DocFrontmatter * text :=
  let s := skip_newlines (unix_lines markdown) in
  match starts_with (lit "---" ++ [nl]) s with
  | None => (no_front, markdown)
  | Some _ =>
      match closing_fence s with
      | None => (no_front, markdown)
      | Some (e, start) =>
          (fields (split_char nl (take (e - 4) (drop 4 s))) no_front,
           if (length s <=? start)%nat then [] else skip_newlines (drop start s))
      end
  end.

(** ** Sections *)

Record DocChunk := Chunk_ { SectionTitle : text; Body : text }.

Definition heading (l : text) : option text :=
  match starts_with (lit "## ") l with
  | Some t => match starts_with (lit "### ") l with Some _ => None | None => Some t end
  | None => None
  end.
Definition flush (title : option text) (sb : text) (chunks : list DocChunk) : list DocChunk :=
  match title with Some t => chunks ++ [Chunk_ t (Trim sb)] | None => chunks end.
Fixpoint chunk_lines (lines : list text) (title : option text) (sb : text) (chunks : list DocChunk) : list DocChunk :=
  match lines with
  | [] => flush title sb chunks
  | l :: lines =>
      match heading l with
      | Some t => chunk_lines lines (Some (Trim t)) [] (flush title sb chunks)
      | None => chunk_lines lines title (match title with Some _ => sb ++ l ++ [nl] | None => sb end) chunks
      end
  end.
Definition Chunk (body : text) : list DocChunk := chunk_lines (split_char nl (unix_lines body)) None [] [].

(** ** The index *)

Section Index.
  Context {vector : Type} (Encode : text -> vector).

Record IndexRow := Row_ {
  r_DocumentId : text; r_SectionTitle : text; r_ContentText : text; r_Embedding : vector;
  r_ErrorCodes : list text; r_ToolsRequired : list text }.

Definition chunk_id (doc : text) (i : nat) : text := doc ++ [35] ++ int_text (Z.of_nat i).
Definition rows_of (markdown : text) : list (text * IndexRow) :=
  let '(front, body) := Frontmatter_Parse markdown in
  imap (fun i c => (chunk_id (DocumentId front) i,
                    Row_ (DocumentId front) (SectionTitle c) (Body c)
                      (Encode (SectionTitle c ++ lit ". " ++ Body c)) (ErrorCodes front) (ToolsRequired front)))
    (Chunk body).

(** [INSERT]s in one transaction into a table keyed by [ChunkId]: a repeated key fails it, and nothing is
    written. *)
Fixpoint insert_rows (rows : list (text * IndexRow)) (table : gmap text IndexRow) : option (gmap text IndexRow) :=
  match rows with
  | [] => Some table
  | (id, r) :: rows => match table !! id with Some _ => None | None => insert_rows rows (<[id := r]> table) end
  end.
Definition Write (rows : list (text * IndexRow)) : option (gmap text IndexRow) := insert_rows rows ∅.
Definition publish (corpus : list text) : option (gmap text IndexRow) := Write (corpus ≫= rows_of).
End Index.

(** ** Lemmas: the fences *)

Lemma unix_lines_id s : 13 ∉ s -> unix_lines s = s.
Proof.
  induction s as [|c s IH]; [done|]. intros H. assert (13 ∉ s) as Hs by set_solver. specialize (IH Hs). simpl.
  destruct s as [|d s]; [done|]. destruct (Z.eqb_spec c 13) as [->|]; [set_solver|]. simpl in IH |- *. by rewrite IH.
Qed.

Lemma skip_newlines_id s : head s <> Some nl -> skip_newlines s = s.
Proof. destruct s as [|c s]; [done|]. simpl. intros H. destruct (Z.eqb_spec c nl) as [->|]; done. Qed.

(** A fence that starts inside [h] starts a line of it. *)
Lemma fence_inside h b r : starts_with closing_line (nl :: h ++ closing_line ++ b) = Some r -> head (split_char nl h) = Some (lit "---").
Proof.
  intros H%starts_with_spec. destruct h as [|c1 [|c2 [|c3 [|c4 h]]]]; simpl in H; try discriminate H; injection H as ?; subst; [done|]. simpl.
  by destruct (split_char nl h).
Qed.

Lemma index_fence h b : forall k, Forall (fun l => l <> lit "---") (tl (split_char nl h)) ->
  index_of_at closing_line (h ++ closing_line ++ b) k = Some (k + length h)%nat.
Proof.
  induction h as [|c h IH]; intros k Hl; [simpl; by rewrite Nat.add_0_r|].
  assert (Forall (fun l => l <> lit "---") (tl (split_char nl h))) as Hl'.
  { simpl in Hl. destruct (c =? nl); simpl in Hl; destruct (split_char nl h); try done. by apply Forall_cons in Hl as [_ ?]. }
  change (index_of_at closing_line ((c :: h) ++ closing_line ++ b) k) with
    (match starts_with closing_line (c :: h ++ closing_line ++ b) with Some _ => Some k | None => index_of_at closing_line (h ++ closing_line ++ b) (S k) end).
  destruct (starts_with closing_line (c :: h ++ closing_line ++ b)) as [r|] eqn:E.
  - pose proof E as Hc. apply starts_with_spec in Hc. injection Hc as -> _. pose proof (fence_inside h b r E) as Hh.
    simpl in Hl. destruct (split_char nl h); [done|]. simplify_eq/=. by apply Forall_cons in Hl as [? _].
  - rewrite IH by done. f_equal. simpl. lia.
Qed.

(** The header is what is between the fences. *)
Lemma parse_structure h b : 13 ∉ h -> 13 ∉ b -> Forall (fun l => l <> lit "---") (tl (split_char nl h)) ->
  Frontmatter_Parse (lit "---" ++ [nl] ++ h ++ closing_line ++ b) = (fields (split_char nl h) no_front, skip_newlines b).
Proof.
  intros Hh Hb Hl. unfold Frontmatter_Parse. rewrite unix_lines_id by (simpl; set_solver). rewrite skip_newlines_id by done.
  set (s := lit "---" ++ [nl] ++ h ++ closing_line ++ b). assert (closing_fence s = Some (4 + length h, 4 + length h + 5)%nat) as ->.
  { unfold closing_fence, IndexOf. change (drop 4 s) with (h ++ closing_line ++ b). by rewrite index_fence. }
  change (starts_with (lit "---" ++ [nl]) s) with (Some (h ++ closing_line ++ b)). cbv iota beta.
  replace (4 + length h - 4)%nat with (length h) by lia. change (drop 4 s) with (h ++ closing_line ++ b). rewrite take_app_length. f_equal.
  assert (s = (lit "---" ++ [nl] ++ h ++ closing_line) ++ b) as Hs by (unfold s; by rewrite <- !app_assoc).
  assert (length (lit "---" ++ [nl] ++ h ++ closing_line) = 4 + length h + 5)%nat as Hn by (rewrite !length_app; simpl; lia).
  rewrite Hs, <- Hn, drop_app_length, length_app. destruct (Nat.leb_spec (length (lit "---" ++ [nl] ++ h ++ closing_line) + length b) (length (lit "---" ++ [nl] ++ h ++ closing_line))); [|done].
  destruct b; [done | simpl in *; lia].
Qed.

(** ** Lemmas: fields *)

(** A value that needs no quotes: on one line, without white space at its ends, not quoted. *)
Definition plain_value (v : text) : Prop := ~ nl ∈ v /\ ~ 13 ∈ v /\ trimmed v /\ Unquote v = v.
Definition plain_item (v : text) : Prop := plain_value v /\ v <> [] /\ 44 ∉ v.
Definition plain_front (f : DocFrontmatter) : Prop :=
  plain_value (DocumentId f) /\ plain_value (Title f) /\ Forall plain_item (ErrorCodes f) /\ Forall plain_value (ToolsRequired f).

(** A manual with these fields: one list inline, one as a block. *)
Definition tool_line (t : text) : text := lit "  - " ++ t.
Definition header_lines (f : DocFrontmatter) : list text :=
  [ lit "document_id: " ++ DocumentId f; lit "title: " ++ Title f;
    lit "error_codes: [" ++ join [44; 32] (ErrorCodes f) ++ [93]; lit "tools_required:" ] ++ map tool_line (ToolsRequired f).
Definition render (f : DocFrontmatter) (body : text) : text :=
  lit "---" ++ [nl] ++ join [nl] (header_lines f) ++ closing_line ++ body.

Lemma Trim_after_space v : trimmed v -> Trim (32 :: v) = v.
Proof. intros H. change (Trim (32 :: v)) with (Trim v). by apply Trim_trimmed. Qed.

Lemma split_comma items : Forall (fun v => 44 ∉ v) items ->
  split_char 44 (join [44; 32] items) = match items with [] => [[]] | v :: vs => v :: map (cons 32) vs end.
Proof.
  induction items as [|v [|w items] IH]; intros H; [done | |]; apply Forall_cons in H as [Hv H]; [by apply split_char_none|].
  change (join [44; 32] (v :: w :: items)) with (v ++ 44 :: 32 :: join [44; 32] (w :: items)).
  rewrite split_char_app by done. f_equal. specialize (IH H).
  change (split_char 44 (32 :: join [44; 32] (w :: items))) with
    (match split_char 44 (join [44; 32] (w :: items)) with l :: ls => (32 :: l) :: ls | [] => [[32]] end).
  by rewrite IH.
Qed.

Lemma clean_items items : Forall plain_item items -> map Unquote (split_clean 44 (join [44; 32] items)) = items.
Proof.
  intros H. assert (map Trim (split_char 44 (join [44; 32] items)) = match items with [] => [[]] | _ => items end) as E.
  { rewrite split_comma by (eapply Forall_impl; [exact H | by intros v (_ & _ & ?)]).
    destruct H as [|v items Hv H]; [done|]. simpl. f_equal; [by apply Trim_trimmed, Hv|].
    induction H as [|w items Hw _ IH]; [done|]. simpl. rewrite Trim_after_space by apply Hw. by rewrite IH. }
  assert (filter (fun x : text => x <> []) items = items) as Hf.
  { clear E. induction H as [|v items (_ & Hne & _) _ IH]; [done|]. by rewrite filter_cons_True, IH. }
  assert (map Unquote items = items) as Hu.
  { clear E Hf. induction H as [|v items [Hv _] _ IH]; [done|]. simpl. rewrite IH. f_equal. apply Hv. }
  unfold split_clean. rewrite E. destruct items as [|v0 items0]; [done|].
  transitivity (map Unquote (v0 :: items0)); [f_equal; exact Hf | exact Hu].
Qed.

Lemma block_tools tools : Forall plain_value tools -> block_items (map tool_line tools) = tools.
Proof.
  induction 1 as [|t tools (_ & _ & Ht & Hq) _ IH]; [done|]. simpl map. unfold block_items; fold block_items.
  change (starts_with (lit "- ") (TrimStart (tool_line t))) with (Some t). cbv iota beta. by rewrite Trim_trimmed, Hq, IH.
Qed.

Lemma bracketed v rest : ReadList (91 :: v ++ [93]) rest = map Unquote (split_clean 44 v).
Proof.
  unfold ReadList. assert (last (91 :: v ++ [93]) = Some 93) as -> by (change (91 :: v ++ [93]) with ((91 :: v) ++ [93]); apply last_snoc).
  simpl. unfold middle. simpl. by rewrite removelast_last.
Qed.

Lemma bracketed_trimmed v : trimmed (91 :: v ++ [93]).
Proof. split; [done|]. intros d r. simpl. rewrite rev_app_distr. simpl. by intros [= <- _]. Qed.

Lemma skip_tools tools f : fields (map tool_line tools) f = f.
Proof. induction tools as [|t tools IH]; [done|]. apply IH. Qed.

Lemma header_fields f : plain_front f -> fields (header_lines f) no_front = f.
Proof.
  destruct f as [id title codes tools]. intros (Hid & Ht & Hc & Hl). unfold header_lines. simpl app. cbn [DocumentId Title ErrorCodes ToolsRequired] in *.
  unfold fields; fold fields. rewrite skip_tools.
  set (inner := join [44; 32] codes).
  assert (forall rest g, read_line (lit "tools_required:") rest g = Front (DocumentId g) (Title g) (ErrorCodes g) (block_items rest)) as -> by done.
  assert (forall rest g, read_line (lit "error_codes: [" ++ inner ++ [93]) rest g =
    Front (DocumentId g) (Title g) (ReadList (Trim (32 :: 91 :: inner ++ [93])) rest) (ToolsRequired g)) as -> by done.
  assert (forall rest g, read_line (lit "title: " ++ title) rest g = Front (DocumentId g) (Unquote (Trim (32 :: title))) (ErrorCodes g) (ToolsRequired g)) as -> by done.
  assert (forall rest g, read_line (lit "document_id: " ++ id) rest g = Front (Unquote (Trim (32 :: id))) (Title g) (ErrorCodes g) (ToolsRequired g)) as -> by done.
  cbn [DocumentId Title ErrorCodes ToolsRequired]. rewrite block_tools, !Trim_after_space by first [done | apply Hid | apply Ht | apply bracketed_trimmed].
  unfold inner. rewrite bracketed, clean_items by done. f_equal; [apply Hid | apply Ht].
Qed.

(** Lines of a header: no line break inside, and none is a fence. *)
Definition line_ok (l : text) : Prop := ~ nl ∈ l /\ ~ 13 ∈ l /\ l <> lit "---".

Lemma labelled_ok (label v : text) : ~ nl ∈ label -> ~ 13 ∈ label -> head label <> Some 45 -> label <> [] ->
  ~ nl ∈ v -> ~ 13 ∈ v -> line_ok (label ++ v).
Proof.
  intros H1 H2 H3 H4 H5 H6. repeat split; [set_solver | set_solver|]. destruct label as [|c label]; [done|]. change (lit "---") with [45; 45; 45]. simpl in *. congruence.
Qed.

Lemma header_lines_ok f : plain_front f -> Forall line_ok (header_lines f).
Proof.
  intros ((H1 & H2 & _) & (H3 & H4 & _) & Hc & Ht).
  assert (forall x, x = nl \/ x = 13 -> ~ x ∈ join [44; 32] (ErrorCodes f) ++ [93]) as Hj.
  { intros x Hx. rewrite elem_of_app, list_elem_of_singleton. intros [Hin|E]; [|destruct Hx; simplify_eq].
    revert Hin. apply not_elem_of_join; [unfold nl in Hx; set_solver|]. eapply Forall_impl; [exact Hc|].
    intros v ((Hv1 & Hv2 & _) & _). by destruct Hx as [->| ->]. }
  unfold header_lines. simpl app. repeat apply Forall_cons_2.
  - apply (labelled_ok (lit "document_id: ")); first [done | vm_decide].
  - apply (labelled_ok (lit "title: ")); first [done | vm_decide].
  - apply (labelled_ok (lit "error_codes: [")); first [by apply Hj; auto | done | vm_decide].
  - repeat split; [vm_decide.. | done].
  - apply Forall_map. eapply Forall_impl; [exact Ht|]. intros t (Ht1 & Ht2 & _). apply (labelled_ok (lit "  - ")); first [done | vm_decide].
Qed.

(** ** Lemmas: sections *)

Definition section_lines (q : text * list text) : list text := (lit "## " ++ q.1) :: q.2.
Definition unlines (ls : list text) : text := concat (map (fun l => l ++ [nl]) ls).
Definition prose (l : text) : Prop := heading l = None.
Definition chunk_of (q : text * list text) : DocChunk := Chunk_ (Trim q.1) (Trim (unlines q.2)).

Lemma heading_spec l t : heading l = Some t <-> l = lit "## " ++ t.
Proof.
  unfold heading. split.
  - destruct (starts_with (lit "## ") l) as [r|] eqn:E; [|done]. apply starts_with_spec in E.
    destruct (starts_with (lit "### ") l); [done|]. congruence.
  - intros ->. done.
Qed.

Lemma chunk_prose ls rest title sb chunks : Forall prose ls ->
  chunk_lines (ls ++ rest) title sb chunks = chunk_lines rest title (match title with Some _ => sb ++ unlines ls | None => sb end) chunks.
Proof.
  intros H. revert sb. induction H as [|l ls Hl _ IH]; intros sb; [by destruct title; rewrite ?app_nil_r|].
  simpl. rewrite Hl, IH. destruct title; [|done]. unfold unlines. simpl. by rewrite <- !app_assoc.
Qed.

Lemma chunk_sections secs : Forall (fun q => Forall prose q.2) secs -> forall title sb chunks,
  chunk_lines (secs ≫= section_lines) title sb chunks = flush title sb chunks ++ map chunk_of secs.
Proof.
  induction 1 as [|[t ls] secs Hls _ IH]; intros title sb chunks; [symmetry; apply app_nil_r|].
  change (((t, ls) :: secs) ≫= section_lines) with (((lit "## " ++ t) :: ls) ++ (secs ≫= section_lines)).
  cbn [app chunk_lines]. rewrite (proj2 (heading_spec (lit "## " ++ t) t) eq_refl).
  rewrite chunk_prose, IH by done. simpl. by rewrite <- app_assoc.
Qed.

(** Any lines are a preamble and sections. *)
Lemma lines_are_sections lines : exists pre secs,
  lines = pre ++ (secs ≫= section_lines) /\ Forall prose pre /\ Forall (fun q => Forall prose q.2) secs.
Proof.
  induction lines as [|l lines (pre & secs & -> & Hp & Hs)]; [by exists [], []|]. destruct (heading l) as [t|] eqn:E.
  - exists [], ((t, pre) :: secs). apply heading_spec in E as ->. split; [done|]. split; [done | by constructor].
  - exists (l :: pre), secs. split; [done|]. split; [by constructor | done].
Qed.

(** ** Lemmas: keys *)

Definition count_ok (n : nat) : Prop := Z.of_nat n <= 2 ^ 31.

Lemma int_text_digits i n : count_ok n -> (i < n)%nat ->
  Forall (fun c => 48 <= c <= 57) (int_text (Z.of_nat i)) /\ decimal_value (int_text (Z.of_nat i)) = Z.of_nat i.
Proof. unfold count_ok. intros Hn Hi. destruct (int_text_spec (Z.of_nat i)) as (H1 & H2 & _); [unfold int_range; lia | done]. Qed.

Lemma chunk_id_inj d d' i j n m : count_ok n -> count_ok m -> (i < n)%nat -> (j < m)%nat ->
  chunk_id d i = chunk_id d' j -> d = d' /\ i = j.
Proof.
  intros Hn Hm Hi Hj E. destruct (int_text_digits i n Hn Hi) as [Di Vi], (int_text_digits j m Hm Hj) as [Dj Vj].
  assert (forall s, Forall (fun c => 48 <= c <= 57) s -> 35 ∉ rev s) as Hs.
  { intros s Hs Hin. apply list_elem_of_In, in_rev, list_elem_of_In in Hin. rewrite Forall_forall in Hs. specialize (Hs _ Hin). lia. }
  assert (int_text (Z.of_nat i) = int_text (Z.of_nat j)) as Et.
  { apply (f_equal (fun s => head (split_char 35 (rev s)))) in E. unfold chunk_id in E.
    rewrite !rev_app_distr, <- !app_assoc in E. simpl in E. rewrite !split_char_app in E by by apply Hs.
    simpl in E. injection E as E. by rewrite <- (rev_involutive (int_text _)), E, rev_involutive. }
  split; [|rewrite Et in Vi; lia]. unfold chunk_id in E. rewrite Et in E. by apply app_inv_tail in E.
Qed.

Definition ids (q : text * nat) : list text := map (chunk_id q.1) (seq 0 q.2).

Lemma ids_elem x q : x ∈ ids q <-> exists i, (i < q.2)%nat /\ x = chunk_id q.1 i.
Proof.
  unfold ids. rewrite list_elem_of_In, in_map_iff. setoid_rewrite in_seq. split; intros (i & H1 & H2); exists i; split; by (lia || auto).
Qed.

Lemma ids_NoDup q : count_ok q.2 -> NoDup (ids q).
Proof.
  intros Hq. change (NoDup (chunk_id q.1 <$> seq 0 q.2)). apply NoDup_fmap_2_strong; [|apply NoDup_seq].
  intros i j Hi%elem_of_seq Hj%elem_of_seq E. apply (chunk_id_inj _ _ _ _ q.2 q.2) in E; [tauto | done | done | lia | lia].
Qed.

Lemma imap_index {A B} (g : nat -> B) (l : list A) : imap (fun i _ => g i) l = map g (seq 0 (length l)).
Proof. revert g. induction l as [|x l IH]; intros g; [done|]. simpl. f_equal. rewrite <- seq_shift, map_map. apply (IH (g ∘ S)). Qed.

(** Keys are distinct exactly when the manuals that have a section have distinct identifiers. *)
Definition has_section (q : text * nat) : Prop := q.2 <> O.
Lemma keys_NoDup docs : Forall (fun q => count_ok q.2) docs ->
  NoDup (docs ≫= ids) <-> NoDup (filter (fun q => q.2 <> O) docs).*1.
Proof.
  induction 1 as [|[d n] docs Hn Hdocs IH]; [simpl; split; constructor|].
  change (((d, n) :: docs) ≫= ids) with (ids (d, n) ++ (docs ≫= ids)). rewrite NoDup_app, IH. clear IH.
  rewrite Forall_forall in Hdocs. destruct n as [|n].
  - rewrite filter_cons_False by (simpl; auto). simpl. split; [by intros (_ & _ & ?) | intros H; split; [constructor|]; split; [by intros x ?%not_elem_of_nil | done]].
  - rewrite filter_cons_True by done. simpl. rewrite NoDup_cons. split.
    + intros (_ & Hd & Hrest). split; [|done]. intros ([d' m] & E & [Hm Hin]%list_elem_of_filter)%list_elem_of_fmap. simpl in E. subst d'.
      apply (Hd (chunk_id d 0)); [by left|]. apply list_elem_of_bind. exists (d, m). split; [|done].
      apply ids_elem. exists O. simpl in *. split; [lia | done].
    + intros [Hd Hrest]. split; [by apply ids_NoDup|]. split; [|done].
      intros x (i & Hi & ->)%ids_elem ([d' m] & (j & Hj & E)%ids_elem & Hin)%list_elem_of_bind.
      simpl in E, Hj. apply (chunk_id_inj _ _ _ _ (S n) m) in E as [<- _]; [|done|by apply (Hdocs (d', m))|done|done]. apply Hd.
      apply list_elem_of_fmap. exists (d, m). split; [done|]. apply list_elem_of_filter. split; [simpl in *; lia | done].
Qed.

Section Rows.
  Context {vector : Type} (Encode : text -> vector).

Lemma insert_rows_spec (rows : list (text * IndexRow (vector := vector))) : forall table,
  match insert_rows rows table with
  | Some t => NoDup rows.*1 /\ (forall id, id ∈ rows.*1 -> table !! id = None) /\
              forall id r, t !! id = Some r <-> table !! id = Some r \/ (id, r) ∈ rows
  | None => ~ (NoDup rows.*1 /\ forall id, id ∈ rows.*1 -> table !! id = None)
  end.
Proof.
  induction rows as [|[id0 r0] rows IH]; intros table; simpl.
  - split; [constructor|]. split; [by intros id ?%not_elem_of_nil|]. intros id r. split; [by left | by intros [|?%not_elem_of_nil]].
  - destruct (table !! id0) eqn:E.
    + intros [_ Hf]. rewrite (Hf id0) in E by left. done.
    + specialize (IH (<[id0 := r0]> table)). destruct (insert_rows rows _) as [t|].
      * destruct IH as (Hn & Hf & Ht). assert (id0 ∉ rows.*1) as H0 by (intros Hin; specialize (Hf _ Hin); by rewrite lookup_insert_eq in Hf).
        split; [by constructor|]. split.
        { intros id [->|Hin]%elem_of_cons; [done|]. specialize (Hf _ Hin). by apply lookup_insert_None in Hf as [? _]. }
        intros id r. rewrite Ht, elem_of_cons, lookup_insert_Some. split.
        { intros [[[-> ->]|[_ ?]]|?]; auto. }
        intros [Hid|[[= -> ->]|?]]; auto. left. right. split; [by intros ->; congruence | done].
      * intros [[H0 Hn]%NoDup_cons Hf]. apply IH. split; [done|]. intros id Hin. apply lookup_insert_None. split; [apply Hf; by right | by intros ->].
Qed.

Definition sections_of (markdown : text) : text * nat := let '(f, b) := Frontmatter_Parse markdown in (DocumentId f, length (Chunk b)).
Lemma rows_ids markdown : (rows_of Encode markdown).*1 = ids (sections_of markdown).
Proof.
  unfold rows_of, sections_of, ids. destruct (Frontmatter_Parse markdown) as [f b]. rewrite fmap_imap. exact (imap_index (chunk_id (DocumentId f)) (Chunk b)).
Qed.
End Rows.

(** ** Properties *)

(** A manual with plain fields is read back as it is written, list fields inline or as a block, whatever its
    body says: a fence inside the body does not end it, and the body comes out unchanged. *)
Theorem front_matter_round_trip f b :
  plain_front f -> ~ 13 ∈ b -> head b <> Some nl -> Frontmatter_Parse (render f b) = (f, b).
Proof.
  intros Hf Hb Hn. pose proof (header_lines_ok f Hf) as Hl. unfold render.
  assert (split_char nl (join [nl] (header_lines f)) = header_lines f) as Hs.
  { apply split_join; [done|]. eapply Forall_impl; [exact Hl | by intros l (? & _)]. }
  rewrite parse_structure, Hs, header_fields, skip_newlines_id; try done.
  - apply not_elem_of_join; [vm_decide|]. eapply Forall_impl; [exact Hl | by intros l (_ & ? & _)].
  - rewrite Hs. apply Forall_cons in Hl as [_ Hl]. eapply Forall_impl; [exact Hl | by intros l (_ & _ & ?)].
Qed.

Definition demo_front : DocFrontmatter := Front (lit "pump-1") (lit "Pump: manual") [lit "E1"; lit "E 2"] [lit "wrench"; lit "seal kit"].
Ltac plain := repeat split; first [vm_decide | done | by intros d r [= <- _]].

(** A body that itself contains a fence. *)
Lemma front_matter_round_trip_witness :
  let body := lit "## A" ++ closing_line ++ lit "title: other" ++ closing_line in Frontmatter_Parse (render demo_front body) = (demo_front, body).
Proof.
  intros body. apply front_matter_round_trip; [|vm_decide | discriminate].
  split; [plain|]. split; [plain|]. split; repeat apply Forall_cons_2; try apply Forall_nil_2; plain.
Defined.

(** Whatever a manual's body is, its lines are a preamble without a heading, which is dropped, and then
    sections, each a heading line and the lines up to the next; the chunks are these sections, in order, each
    with its trimmed title and all its lines. *)
Theorem chunks_are_sections body : exists pre secs,
  split_char nl (unix_lines body) = pre ++ (secs ≫= section_lines) /\
  Forall prose pre /\ Forall (fun q => Forall prose q.2) secs /\ Chunk body = map chunk_of secs.
Proof.
  destruct (lines_are_sections (split_char nl (unix_lines body))) as (pre & secs & E & Hp & Hs).
  exists pre, secs. split; [done|]. split; [done|]. split; [done|].
  unfold Chunk. rewrite E, chunk_prose by done. by rewrite chunk_sections.
Qed.

(** Publishing a corpus succeeds exactly when the manuals that have a section have distinct identifiers, and
    the index then has exactly one row for each section of each manual; otherwise nothing is written.  Two
    manuals without front matter both have the empty identifier. *)
Theorem publish_spec {vector} (Encode : text -> vector) corpus :
  Forall (fun md => count_ok (sections_of md).2) corpus ->
  match publish Encode corpus with
  | Some index => NoDup (filter (fun q => q.2 <> O) (map sections_of corpus)).*1 /\
                  forall id r, index !! id = Some r <-> exists md, md ∈ corpus /\ (id, r) ∈ rows_of Encode md
  | None => ~ NoDup (filter (fun q => q.2 <> O) (map sections_of corpus)).*1
  end.
Proof.
  intros Hc. assert ((corpus ≫= rows_of Encode).*1 = map sections_of corpus ≫= ids) as Hk.
  { clear Hc. induction corpus as [|md corpus IH]; [done|]. by rewrite bind_cons, fmap_app, IH, rows_ids. }
  assert (NoDup (corpus ≫= rows_of Encode).*1 <-> NoDup (filter (fun q => q.2 <> O) (map sections_of corpus)).*1) as Hd
    by (rewrite Hk; apply keys_NoDup; by apply Forall_map).
  unfold publish, Write. pose proof (insert_rows_spec (corpus ≫= rows_of Encode) ∅) as H.
  destruct (insert_rows _ _) as [t|]; rewrite <- Hd.
  - destruct H as (Hn & _ & Ht). split; [done|]. intros id r. rewrite Ht, lookup_empty, list_elem_of_bind.
    split; [intros [?|(md & ? & ?)]; [done | by exists md] | intros (md & ? & ?); right; by exists md].
  - intros Hn. apply H. split; [done|]. intros id _. apply lookup_empty.
Qed.

Definition demo_corpus : list text :=
  [ render demo_front (lit "intro" ++ [nl] ++ lit "## Start" ++ [nl] ++ lit "press" ++ [nl] ++ lit "## Stop");
    lit "no front matter, no section"; lit "## Only" ++ [nl] ++ lit "text" ].
Lemma publish_spec_witness :
  exists index r, publish length demo_corpus = Some index /\ index !! lit "pump-1#0" = Some r /\
    exists md, md ∈ demo_corpus /\ (lit "pump-1#0", r) ∈ rows_of length md.
Proof.
  assert (Forall (fun md => count_ok (sections_of md).2) demo_corpus) as Hc by (repeat apply Forall_cons_2; first [done | apply Forall_nil_2]).
  pose proof (publish_spec length demo_corpus Hc) as H. destruct (publish length demo_corpus) as [index|].
  - destruct H as [_ H].
    match eval vm_compute in (rows_of length (hd [] demo_corpus)) with
    | (_, ?r) :: _ => assert ((lit "pump-1#0", r) ∈ rows_of length (hd [] demo_corpus)) as Hr by (vm_compute; apply list_elem_of_here); exists index, r
    end.
    assert (hd [] demo_corpus ∈ demo_corpus) as Hm by apply list_elem_of_here.
    split; [done|]. split; [apply H|]; by exists (hd [] demo_corpus).
  - destruct H. vm_decide.
Defined.

(** Two manuals without front matter cannot be published together once each has a section. *)
Lemma untitled_manuals {vector} (Encode : text -> vector) :
  publish Encode [lit "## A" ++ [nl]; lit "## B" ++ [nl]] = None.
Proof. reflexivity. Qed.

(** Fences that are not seen: the closing one of an empty header, and one at the end of a manual whose header
    has a line that starts with dashes; such a manual is taken to have no front matter. *)
Theorem fences_not_seen :
  (let md := lit "---" ++ [nl] ++ lit "---" ++ [nl] ++ lit "text" in Frontmatter_Parse md = (no_front, md)) /\
  (let md := lit "---" ++ [nl] ++ lit "title: Pump" ++ [nl] ++ lit "---- note" ++ closing_line_at_end in Frontmatter_Parse md = (no_front, md)).
Proof. split; reflexivity. Qed.
