(* ===== verification/Showcase.v ===== *)
(** * Showcase: feature runs and parametric commands

    [ShowcaseCommand]: the ids by which the applications drive visualizations, benchmarks and engine reports
    over the feature-run entry points, [name~key_value~...].  [LanguageFeatureCatalog.Run]: the demos and
    commands by id.  What a command computes (renderers, benchmarks, reports, the demos) is a parameter; what
    it is asked to compute is the subject of this file. *)

From S2P Require Import Prelude Json Text HttpRaw Foreman.
Local Open Scope Z_scope.
#[local] Set Warnings "-clear-no-such-hyp".

(** ** Numbers *)

(** [int.TryParse] with [NumberStyles.Integer] and the invariant culture: white space, a sign, digits, white
    space, then nothing but NULs; in the range of [int]. *)
Definition number_white (c : Z) : bool := ((9 <=? c) && (c <=? 13)) || (c =? 32).
Fixpoint skip_white (s : text) : text :=
  match s with c :: r => if number_white c then skip_white r else s | [] => [] end.
Fixpoint read_digits (s : text) (acc : Z) : Z * text :=
  match s with
  | c :: r => if (48 <=? c) && (c <=? 57) then read_digits r (10 * acc + (c - 48)) else (acc, s)
  | [] => (acc, [])
  end.
Definition read_sign (s : text) : bool * text :=
  match s with
  | c :: r => if c =? 45 then (true, r) else if c =? 43 then (false, r) else (false, s)
  | [] => (false, s)
  end.
Definition TryParse (s : text) : option Z :=
  let '(negative, s) := read_sign (skip_white s) in
  match s with
  | c :: _ =>
      if (48 <=? c) && (c <=? 57) then
        let '(n, rest) := read_digits s 0 in
        let v := if negative : bool then - n else n in
        if forallb (fun c => c =? 0) (skip_white rest) && (- 2 ^ 31 <=? v) && (v <? 2 ^ 31) then Some v else None
      else None
  | [] => None
  end.

(** [Math.Clamp] *)
Definition Clamp (v lo hi : Z) : Z := if v <? lo then lo else if hi <? v then hi else v.

(** ** Parameters *)

Definition ParseParams (fields : list text) : gmap text text :=
  foldl (fun d f => match IndexOf [95] f 0 with
                    | Some (S u) => <[take (S u) f := drop (S (S u)) f]> d
                    | _ => d
                    end) ∅ fields.

Definition GetS (p : gmap text text) (key fallback : text) : text := from_option id fallback (p !! key).
Definition GetIRaw (p : gmap text text) (key : text) (fallback : Z) : Z :=
  match p !! key ≫= TryParse with Some v => v | None => fallback end.
Definition GetI (p : gmap text text) (key : text) (fallback lo hi : Z) : Z := Clamp (GetIRaw p key fallback) lo hi.

(** ** Commands *)

Section Commands.
  Context {double : Type} (TryParseDouble : text -> option double) (constant : Z -> Z -> double).

Definition GetD (p : gmap text text) (key : text) (fallback : double) : double :=
  match p !! key ≫= TryParseDouble with Some v => v | None => fallback end.

(** What a command asks for. *)
Inductive job :=
| Mandelbrot (cx cy zoom : double) (iters w h : Z)
| Raymarch (angle : double) (w h : Z)
| MatmulGflops (max : Z)
| ParallelScaling (size : Z)
| Echo (bytes : Z)
| RealPayload (kind : text) (reps : Z) (clamped : bool)
| GcStorm (preset : text) (mb secs : Z) (clamped : bool)
| Posture | TraceStats | MetricsSnapshot | LogStats | ResetConversation
| Refused (message : text).

Definition unknown (what : text) : job := Refused (lit "Unknown showcase command: " ++ what).
Definition RunBenchReal (p : gmap text text) : job :=
  let kind := GetS p (lit "kind") (lit "catalog") in
  if bool_decide (kind ∈ [lit "catalog"; lit "ragctx"; lit "mixed"]) then
    let raw := GetIRaw p (lit "reps") 5 in
    let reps := Clamp raw 1 25 in
    RealPayload kind reps (negb (reps =? raw))
  else unknown (lit "bench-real (kind=" ++ kind ++ lit ")").
Definition RunGcLab (p : gmap text text) : job :=
  let preset := GetS p (lit "preset") (lit "gen0") in
  if bool_decide (preset ∈ [lit "gen0"; lit "loh"; lit "pinned"]) then
    let rawMb := GetIRaw p (lit "mb") 64 in
    let rawSecs := GetIRaw p (lit "secs") 5 in
    let mb := Clamp rawMb 1 256 in
    let secs := Clamp rawSecs 1 30 in
    GcStorm preset mb secs (negb (mb =? rawMb) || negb (secs =? rawSecs))
  else unknown (lit "gclab (preset=" ++ preset ++ lit ")").
(** [trust~posture], [trace~stats], [metrics~snapshot], [log~stats], [agent~reset]. *)
Definition run_sub (parts : list text) (name expected : text) (j : job) : job :=
  let sub := from_option id [] (parts !! 1%nat) in
  if bool_decide (sub = expected) then j else unknown (name ++ lit " (sub=" ++ sub ++ lit ")").

Definition parse_command (parts : list text) : job :=
  let name := from_option id [] (parts !! 0%nat) in
  let p := ParseParams (tl parts) in
  if bool_decide (name = lit "viz-mandelbrot") then
    Mandelbrot (GetD p (lit "cx") (constant (-5) (-1))) (GetD p (lit "cy") (constant 0 0)) (GetD p (lit "zoom") (constant 1 0))
      (GetI p (lit "iters") 200 16 2000) (GetI p (lit "w") 256 32 512) (GetI p (lit "h") 256 32 512)
  else if bool_decide (name = lit "viz-raymarch") then
    Raymarch (GetD p (lit "angle") (constant 0 0)) (GetI p (lit "w") 220 32 512) (GetI p (lit "h") 220 32 512)
  else if bool_decide (name = lit "bench-matmul") then MatmulGflops (GetI p (lit "max") 384 64 512)
  else if bool_decide (name = lit "bench-parallel") then ParallelScaling (GetI p (lit "size") 480 64 1024)
  else if bool_decide (name = lit "bench-echo") then Echo (GetI p (lit "bytes") 1024 1 1048576)
  else if bool_decide (name = lit "bench-real") then RunBenchReal p
  else if bool_decide (name = lit "gclab") then RunGcLab p
  else if bool_decide (name = lit "trust") then run_sub parts name (lit "posture") Posture
  else if bool_decide (name = lit "trace") then run_sub parts name (lit "stats") TraceStats
  else if bool_decide (name = lit "metrics") then run_sub parts name (lit "snapshot") MetricsSnapshot
  else if bool_decide (name = lit "log") then run_sub parts name (lit "stats") LogStats
  else if bool_decide (name = lit "agent") then run_sub parts name (lit "reset") ResetConversation
  else unknown name.

(** ** Runs *)

Record FeatureRun := Run_ { r_Id : text; r_Result : text; r_ElapsedMs : double; r_Ok : bool }.
Record LanguageFeature := Feature { f_Id : text; f_Title : text; f_Version : text; f_Code : text }.

(** The engine behind the commands, over its state [W]: a payload, or an exception with its message; a storm
    can be refused; [Execute] runs a demo; [elapsed] is the stopwatch. *)
Context {W : Type}.
Inductive attempt := Payload (result : text) | Threw (message : text).
Context (perform : job -> W -> attempt * W) (storm : job -> W -> option attempt * W) (reset : W -> W)
  (Execute : text -> W -> attempt * W) (elapsed : W -> double).

Definition StartsWith (p s : text) : bool := match starts_with p s with Some _ => true | None => false end.

Definition answer (j : job) (w : W) : attempt * W :=
  match j with
  | Echo bytes => (Payload (repeat 120 (Z.to_nat bytes)), w)
  | Refused message => (Payload message, w)
  | ResetConversation => (Payload ([123; 34] ++ lit "reset" ++ [34; 58] ++ lit "true}"), reset w)
  | GcStorm _ _ _ _ =>
      match storm j w with
      | (Some a, w) => (a, w)
      | (None, w) => (Payload (lit "Unknown showcase command: gclab (already running " ++ [8212] ++ lit " one storm per process at a time)"), w)
      end
  | _ => perform j w
  end.

Definition Command_Run (id : text) (w : W) : FeatureRun * W :=
  match answer (parse_command (split_char 126 id)) w with
  | (Payload result, w) => (Run_ id result (elapsed w) (negb (StartsWith (lit "Unknown showcase command") result)), w)
  | (Threw message, w) => (Run_ id message (elapsed w) false, w)
  end.

(** [Expected] is what the descriptors captured when they were first asked for. *)
Definition Catalog_Run (features : list LanguageFeature) (Expected : text -> text) (id : text) (w : W) : FeatureRun * W :=
  if IsCommand id then Command_Run id w
  else match list_find (fun f => f_Id f = id) features with
       | None => (Run_ id (lit "Unknown feature id: " ++ id) (constant 0 0) false, w)
       | Some _ =>
           match Execute id w with
           | (Payload result, w) => (Run_ id result (elapsed w) (bool_decide (result = Expected id)), w)
           | (Threw message, w) => (Run_ id message (elapsed w) false, w)
           end
       end.
End Commands.

(** ** Lemmas: numbers *)

Lemma Clamp_range v lo hi : lo <= hi -> lo <= Clamp v lo hi <= hi.
Proof. unfold Clamp. intros H. destruct (Z.ltb_spec v lo); [lia|]. destruct (Z.ltb_spec hi v); lia. Qed.
Lemma Clamp_id v lo hi : lo <= v <= hi -> Clamp v lo hi = v.
Proof. unfold Clamp. intros H. destruct (Z.ltb_spec v lo); [lia|]. destruct (Z.ltb_spec hi v); lia. Qed.

Definition digits_only (s : text) : Prop := Forall (fun c => 48 <= c <= 57) s.

Lemma read_digits_spec s : digits_only s -> forall acc, read_digits s acc = (fold_left (fun a c => 10 * a + (c - 48)) s acc, []).
Proof.
  induction 1 as [|c s Hc _ IH]; intros acc; [done|]. simpl.
  destruct (Z.leb_spec 48 c); [|lia]. destruct (Z.leb_spec c 57); [|lia]. apply IH.
Qed.

(** A signed decimal. *)
Definition signed_text (n : Z) : text := if n <? 0 then 45 :: int_text (- n) else int_text n.

Lemma TryParse_signed n : - 2 ^ 31 < n < 2 ^ 31 -> TryParse (signed_text n) = Some n.
Proof.
  intros Hn. assert (forall m, 0 <= m < 2 ^ 31 -> digits_only (int_text m) /\ decimal_value (int_text m) = m /\ exists d r, int_text m = d :: r) as Hm.
  { intros m Hm. destruct (int_text_spec m) as (H1 & H2 & d & r & H3 & _); [unfold int_range; lia|]. eauto. }
  assert (forall (neg : bool) m, 0 <= m < 2 ^ 31 ->
    match int_text m with
    | c :: _ => if (48 <=? c) && (c <=? 57) then
        let '(k, rest) := read_digits (int_text m) 0 in let v := if neg then - k else k in
        if forallb (fun c => c =? 0) (skip_white rest) && (- 2 ^ 31 <=? v) && (v <? 2 ^ 31) then Some v else None else None
    | [] => None
    end = Some (if neg then - m else m)) as Hp.
  { intros neg m Hr. destruct (Hm m Hr) as (Hd & Hv & d & r & E). rewrite (read_digits_spec _ Hd). unfold decimal_value in Hv. rewrite Hv.
    rewrite E in Hd |- *. apply Forall_cons in Hd as [Hd _].
    assert ((48 <=? d) && (d <=? 57) = true) as -> by lia. cbv beta iota. cbn [skip_white forallb andb].
    assert ((- 2 ^ 31 <=? (if neg then - m else m)) && ((if neg then - m else m) <? 2 ^ 31) = true) as -> by (destruct neg; lia). done. }
  unfold TryParse, signed_text. destruct (Z.ltb_spec n 0).
  - pose proof (Hp true (- n) ltac:(lia)) as H'. rewrite Z.opp_involutive in H'. exact H'.
  - destruct (Hm n) as (Hd & _ & d & r & E); [lia|]. pose proof (Hp false n ltac:(lia)) as H'. rewrite E in Hd, H' |- *.
    apply Forall_cons in Hd as [Hd _]. assert (number_white d = false) as Hw by (unfold number_white; lia).
    cbn [skip_white]. rewrite Hw. unfold read_sign.
    destruct (Z.eqb_spec d 45); [lia|]. destruct (Z.eqb_spec d 43); [lia|]. exact H'.
Qed.

(** ** Lemmas: parameters *)

Definition field (q : text * text) : text := q.1 ++ 95 :: q.2.
Definition key_ok (k : text) : Prop := k <> [] /\ ~ 95 ∈ k /\ ~ 126 ∈ k.
Definition command_text (name : text) (ps : list (text * text)) : text := name ++ concat (map (fun q => 126 :: field q) ps).

Lemma index_key k v n : ~ 95 ∈ k -> index_of_at [95] (k ++ 95 :: v) n = Some (n + length k)%nat.
Proof.
  revert n. induction k as [|c k IH]; intros n H; [simpl; f_equal; lia|].
  change ((c :: k) ++ 95 :: v) with (c :: (k ++ 95 :: v)).
  change (index_of_at [95] (c :: (k ++ 95 :: v)) n) with
    (match (if 95 =? c then Some (k ++ 95 :: v) else None) with Some _ => Some n | None => index_of_at [95] (k ++ 95 :: v) (S n) end).
  destruct (Z.eqb_spec 95 c) as [<-|]; [destruct H; left|]. rewrite IH by (intros ?; apply H; by right). f_equal. simpl. lia.
Qed.

Lemma split_command name ps : ~ 126 ∈ name -> Forall (fun q => key_ok q.1 /\ ~ 126 ∈ q.2) ps ->
  split_char 126 (command_text name ps) = name :: map field ps.
Proof.
  intros Hn H. unfold command_text. revert name Hn.
  induction H as [|[k v] ps [(_ & _ & Hk) Hv] _ IH]; intros name Hn; simpl.
  - rewrite app_nil_r. by apply split_char_none.
  - rewrite split_char_app by done. f_equal. change (field (k, v) ++ concat (map (fun q => 126 :: field q) ps)) with
      (field (k, v) ++ concat (map (fun q => 126 :: field q) ps)). rewrite IH; [done|]. unfold field. simpl in *. set_solver.
Qed.

(** The last value of a key counts. *)
Lemma ParseParams_fields ps : Forall (fun q => key_ok q.1 /\ ~ 126 ∈ q.2) ps ->
  ParseParams (map field ps) = foldl (fun d q => <[q.1 := q.2]> d) ∅ ps.
Proof.
  intros H. unfold ParseParams. generalize (∅ : gmap text text). induction H as [|[k v] ps [(Hne & Hk & _) _] _ IH]; intros d; [done|].
  cbn [map foldl]. rewrite <- IH. f_equal. unfold IndexOf. rewrite drop_0. unfold field. cbn [fst snd] in *.
  rewrite index_key by done. destruct k as [|c k]; [done|]. cbn [Nat.add length].
  assert (take (S (length k)) ((c :: k) ++ 95 :: v) = c :: k) as -> by exact (take_app_length (c :: k) (95 :: v)).
  assert (drop (S (S (length k))) ((c :: k) ++ 95 :: v) = v) as ->; [|done].
  replace ((c :: k) ++ 95 :: v) with ((c :: k ++ [95]) ++ v) by (simpl; by rewrite <- app_assoc).
  replace (S (S (length k))) with (length (c :: k ++ [95])) by (simpl; rewrite length_app; simpl; lia). apply drop_app_length.
Qed.

Lemma insert_all_lookup ps k : NoDup ps.*1 -> forall d : gmap text text,
  foldl (fun d q => <[q.1 := q.2]> d) d ps !! k = match list_find (fun q => q.1 = k) ps with Some (_, q) => Some q.2 | None => d !! k end.
Proof.
  induction ps as [|[k' v] ps IH]; intros Hn d; [done|]. apply NoDup_cons in Hn as [Hk Hn]. simpl. rewrite (IH Hn). clear IH.
  destruct (decide (k' = k)) as [->|Hne].
  - destruct (list_find _ ps) as [[i q]|] eqn:E; simpl; [|by rewrite lookup_insert_eq].
    apply list_find_Some in E as (Hi & <- & _). destruct Hk. apply list_elem_of_fmap. exists q. split; [done|]. by eapply list_elem_of_lookup_2.
  - destruct (list_find _ ps) as [[i q]|]; simpl; [done|]. by rewrite lookup_insert_ne.
Qed.

Lemma insert_all_elem ps q : NoDup ps.*1 -> q ∈ ps -> foldl (fun d q => <[q.1 := q.2]> d) (∅ : gmap text text) ps !! q.1 = Some q.2.
Proof.
  intros Hn Hq. rewrite insert_all_lookup by done. destruct (list_find (fun q' => q'.1 = q.1) ps) as [[i q']|] eqn:E.
  - apply list_find_Some in E as (Hi & Hk & _). f_equal. apply list_elem_of_lookup in Hq as [j Hj].
    assert (i = j) as ->; [|by simplify_eq]. apply (NoDup_lookup ps.*1 i j q.1); [done|..]; by rewrite list_lookup_fmap, ?Hi, ?Hj; simpl; rewrite ?Hk.
  - apply list_find_None in E. rewrite Forall_forall in E. by destruct (E q Hq).
Qed.

Lemma insert_all_none ps k : ~ k ∈ ps.*1 -> NoDup ps.*1 -> foldl (fun d q => <[q.1 := q.2]> d) (∅ : gmap text text) ps !! k = None.
Proof.
  intros Hk Hn. rewrite insert_all_lookup by done. destruct (list_find _ ps) as [[i q]|] eqn:E; [|apply lookup_empty].
  apply list_find_Some in E as (Hi & <- & _). destruct Hk. apply list_elem_of_fmap. exists q. split; [done|]. by eapply list_elem_of_lookup_2.
Qed.

(** ** Properties *)

(** What the engine can bear. *)
Definition within {double} (j : job (double := double)) : Prop :=
  match j with
  | Mandelbrot _ _ _ iters w h => 16 <= iters <= 2000 /\ 32 <= w <= 512 /\ 32 <= h <= 512
  | Raymarch _ w h => 32 <= w <= 512 /\ 32 <= h <= 512
  | MatmulGflops max => 64 <= max <= 512
  | ParallelScaling size => 64 <= size <= 1024
  | Echo bytes => 1 <= bytes <= 1048576
  | RealPayload kind reps _ => kind ∈ [lit "catalog"; lit "ragctx"; lit "mixed"] /\ 1 <= reps <= 25
  | GcStorm preset mb secs _ => preset ∈ [lit "gen0"; lit "loh"; lit "pinned"] /\ 1 <= mb <= 256 /\ 1 <= secs <= 30
  | _ => True
  end.

(** Whatever id arrives, the work a command asks for is within the engine's limits: picture sizes, iterations,
    matrix and payload sizes, repetitions and the length of an allocation storm. *)
Theorem commands_are_bounded {double} (TryParseDouble : text -> option double) constant id :
  within (parse_command TryParseDouble constant (split_char 126 id)).
Proof.
  unfold parse_command, RunBenchReal, RunGcLab, run_sub, unknown, GetI.
  repeat case_bool_decide; cbn [within]; repeat split; first [done | apply Clamp_range; lia].
Qed.

(** A command written with a name and parameters is read back: the name, each value, and each integer,
    clamped; a parameter that is not written has its default. *)
Theorem parameters_round_trip name ps :
  ~ 126 ∈ name -> Forall (fun q => key_ok q.1 /\ ~ 126 ∈ q.2) ps -> NoDup ps.*1 ->
  let parts := split_char 126 (command_text name ps) in
  let p := ParseParams (tl parts) in
  head parts = Some name /\
  (forall k v, (k, v) ∈ ps -> p !! k = Some v /\ forall fallback, GetS p k fallback = v) /\
  (forall k n fallback lo hi, (k, signed_text n) ∈ ps -> - 2 ^ 31 < n < 2 ^ 31 -> GetI p k fallback lo hi = Clamp n lo hi) /\
  (forall k fallback lo hi, ~ k ∈ ps.*1 -> GetI p k fallback lo hi = Clamp fallback lo hi).
Proof.
  intros Hn H Hd parts p. assert (parts = name :: map field ps) as E by by apply split_command.
  assert (p = foldl (fun d q => <[q.1 := q.2]> d) ∅ ps) as Ep by (unfold p; rewrite E; by apply ParseParams_fields).
  assert (forall k v, (k, v) ∈ ps -> p !! k = Some v) as Hp by (intros k v Hin; rewrite Ep; by apply (insert_all_elem ps (k, v))).
  rewrite E. split; [done|]. split; [|split].
  - intros k v Hin. specialize (Hp _ _ Hin). split; [done|]. intros f. unfold GetS. by rewrite Hp.
  - intros k n f lo hi Hin Hr. unfold GetI, GetIRaw. rewrite (Hp _ _ Hin). simpl. by rewrite TryParse_signed.
  - intros k f lo hi Hk. unfold GetI, GetIRaw. rewrite Ep, insert_all_none by done. done.
Qed.

Definition demo_params : list (text * text) := [(lit "cx", lit "-0.5"); (lit "iters", signed_text 500); (lit "w", signed_text (-3))].
Lemma parameters_round_trip_witness :
  let p := ParseParams (tl (split_char 126 (command_text (lit "viz-mandelbrot") demo_params))) in
  GetI p (lit "iters") 200 16 2000 = Clamp 500 16 2000 /\ GetI p (lit "w") 256 32 512 = Clamp (-3) 32 512 /\
  GetI p (lit "h") 256 32 512 = Clamp 256 32 512.
Proof.
  assert (Forall (fun q => key_ok q.1 /\ ~ 126 ∈ q.2) demo_params) as Hf
    by (repeat apply Forall_cons_2; try apply Forall_nil_2; repeat split; first [discriminate | vm_decide]).
  destruct (parameters_round_trip (lit "viz-mandelbrot") demo_params ltac:(vm_decide) Hf ltac:(vm_decide)) as (_ & _ & Hi & Hd).
  split; [|split]; [apply Hi; [vm_decide | lia] | apply Hi; [vm_decide | lia] | apply Hd; vm_decide].
Defined.

(** ** What a run does *)

Section Runs.
  Context {double W : Type} (TryParseDouble : text -> option double) (constant : Z -> Z -> double).
  Context (perform : job (double := double) -> W -> attempt * W) (storm : job (double := double) -> W -> option attempt * W) (reset : W -> W)
    (Execute : text -> W -> attempt * W) (elapsed : W -> double) (features : list LanguageFeature) (Expected : text -> text).
  Local Abbreviation run := (Catalog_Run TryParseDouble constant perform storm reset Execute elapsed features Expected).
  Local Abbreviation parsed id := (parse_command TryParseDouble constant (split_char 126 id)).

Lemma refused_prefix id m : parsed id = Refused m -> StartsWith (lit "Unknown showcase command") m = true.
Proof.
  unfold parse_command, RunBenchReal, RunGcLab, run_sub, unknown, StartsWith.
  repeat case_bool_decide; intros [= <-]; reflexivity.
Qed.

Lemma run_id id w : r_Id (run id w).1 = id.
Proof.
  unfold Catalog_Run, Command_Run. destruct (IsCommand id).
  - by destruct (answer _ _ _ _ _) as [[]].
  - destruct (list_find _ _); [|done]. by destruct (Execute id w) as [[]].
Qed.

(** A run answers for the id it was asked for.  A command that is not known, or has a wrong subcommand or kind,
    does nothing and is not ok, and so is an id that is neither a command nor a demo; a storm that is refused
    because one is running is not ok; an exception becomes a result that is not ok; a demo is ok exactly when
    it gives what it is expected to. *)
Theorem runs_are_honest id w :
  r_Id (run id w).1 = id /\
  (forall m, IsCommand id = true -> parsed id = Refused m -> (run id w).2 = w /\ r_Ok (run id w).1 = false) /\
  (IsCommand id = false -> (forall f, f ∈ features -> f_Id f <> id) -> (run id w).2 = w /\ r_Ok (run id w).1 = false) /\
  (forall p mb secs c w', IsCommand id = true -> parsed id = GcStorm p mb secs c -> storm (parsed id) w = (None, w') -> r_Ok (run id w).1 = false) /\
  (forall m w', IsCommand id = true -> answer perform storm reset (parsed id) w = (Threw m, w') ->
     r_Ok (run id w).1 = false /\ r_Result (run id w).1 = m) /\
  (forall f, IsCommand id = false -> f ∈ features -> f_Id f = id ->
     (r_Ok (run id w).1 = true <-> exists w', Execute id w = (Payload (Expected id), w'))).
Proof.
  split; [apply run_id|]. unfold Catalog_Run, Command_Run. split; [|split; [|split; [|split]]].
  - intros m -> Hp. rewrite Hp. simpl. by rewrite (refused_prefix _ _ Hp).
  - intros -> Hf. destruct (list_find _ features) as [[i f]|] eqn:E; [|done].
    apply list_find_Some in E as (Hi & Hid & _). by destruct (Hf f (list_elem_of_lookup_2 _ _ _ Hi)).
  - intros p mb secs c w' -> Hp Hs. unfold answer. rewrite Hs, Hp. done.
  - intros m w' -> Ha. by rewrite Ha.
  - intros f -> Hf Hid. destruct (list_find _ features) as [[i g]|] eqn:E.
    + destruct (Execute id w) as [[result|m] w'] eqn:Ex; simpl; split; try done.
      * rewrite bool_decide_eq_true. intros ->. by exists w'.
      * intros [w'' [= -> _]]. by apply bool_decide_eq_true.
      * by intros [w'' ?].
    + apply list_find_None in E. rewrite Forall_forall in E. by destruct (E f Hf).
Qed.
End Runs.

(** What other components need of the catalog. *)
Class Catalog (W double : Type) := {
  catalog_run : text -> W -> FeatureRun (double := double) * W;
  catalog_id id w : r_Id (catalog_run id w).1 = id }.
#[export] Instance showcase_catalog {double W} TryParseDouble constant perform storm reset Execute elapsed features Expected : Catalog W double :=
  {| catalog_run := Catalog_Run TryParseDouble constant perform storm reset Execute elapsed features Expected;
     catalog_id := run_id TryParseDouble constant perform storm reset Execute elapsed features Expected |}.
