(* ===== verification/SqlFunctions.v ===== *)
(** * SqlFunctions: feature runs and manuals answers through the encrypted databases

    [FeatureSqliteExports] and [RagSqliteExports]: each export works on a cached connection, writes what it
    computed, reads it back and returns it.  Any statement may fail: a script of faults, one entry per
    statement, decides which; an exception ends the export with 0.  Serialization to JSON is not modelled. *)

From S2P Require Import Prelude Json Showcase Session.
Local Open Scope Z_scope.
#[local] Set Warnings "-clear-no-such-hyp".

(** ** Exceptions over a state *)

Section Effects.
  Context {S : Type}.
Definition M (A : Type) : Type := S -> option A * S.
Definition ret {A} (x : A) : M A := fun s => (Some x, s).
Definition bind {A B} (m : M A) (f : A -> M B) : M B :=
  fun s => match m s with (Some x, s) => f x s | (None, s) => (None, s) end.
Definition throw {A} : M A := fun s => (None, s).
Definition get : M S := fun s => (Some s, s).
Definition modify (f : S -> S) : M unit := fun s => (Some tt, f s).
End Effects.
Local Notation "x <- m ;; k" := (bind m (fun x => k)) (at level 80, m at next level, right associativity).
Local Notation "m ;;; k" := (bind m (fun _ => k)) (at level 80, right associativity).

(** ** FeatureSqlite *)

Section Features.
  Context {W double : Type} `{Catalog W double}.

Record FeatureDescriptor := Descriptor { d_Id : text; d_Title : text; d_Version : text; d_Code : text; d_Expected : text }.
Record run_row := RunRow { row_result : text; row_elapsed : double; row_ok : Z }.

(** The tables are in the file; [conn] is [_conn], [unused] counts connections that were opened and never
    cached; [engine] is what the catalog's runs work on. *)
Record fdb := Fdb {
  faults : list bool; conn : bool; unused : nat;
  features : gmap text FeatureDescriptor; feature_runs : gmap text run_row; engine : W }.

(** A statement: it takes the next entry of the script. *)
Definition statement : M (S := fdb) unit := fun s =>
  match faults s with
  | [] => (Some tt, s)
  | f :: r => (if f : bool then None else Some tt, Fdb r (conn s) (unused s) (features s) (feature_runs s) (engine s))
  end.
Definition set_conn (c : bool) (n : nat) : fdb -> fdb := fun s => Fdb (faults s) c n (features s) (feature_runs s) (engine s).
Definition set_features (m : gmap text FeatureDescriptor) : fdb -> fdb := fun s => Fdb (faults s) (conn s) (unused s) m (feature_runs s) (engine s).
Definition set_runs (m : gmap text run_row) : fdb -> fdb := fun s => Fdb (faults s) (conn s) (unused s) (features s) m (engine s).
Definition set_engine (w : W) : fdb -> fdb := fun s => Fdb (faults s) (conn s) (unused s) (features s) (feature_runs s) w.

  Context (Descriptors : list FeatureDescriptor).

(** One transaction of upserts: a failure rolls it back. *)
Definition Seed : M (S := fdb) unit :=
  statement ;;; modify (fun s => set_features (foldl (fun m d => <[d_Id d := d]> m) (features s) Descriptors) s).
Definition EnsureConnection : M (S := fdb) unit :=
  s <- get ;;
  if conn s then ret tt
  else
    statement ;;; modify (fun s => set_conn false (Datatypes.S (unused s)) s) ;;;
    statement ;;; statement ;;; Seed ;;;
    modify (fun s => set_conn true (pred (unused s)) s).
(** The rows of the table, in an order the query does not fix. *)
Definition ReadDescriptors : M (S := fdb) (gmap text FeatureDescriptor) := statement ;;; s <- get ;; ret (features s).
Definition Features : M (S := fdb) (gmap text FeatureDescriptor) := EnsureConnection ;;; ReadDescriptors.

Definition row_of (r : FeatureRun (double := double)) : run_row := RunRow (r_Result r) (r_ElapsedMs r) (if r_Ok r then 1 else 0).
Definition of_row (id : text) (row : run_row) : FeatureRun (double := double) :=
  Run_ id (row_result row) (row_elapsed row) (negb (row_ok row =? 0)).
Definition WriteRun (r : FeatureRun (double := double)) : M (S := fdb) unit :=
  statement ;;; modify (fun s => set_runs (<[r_Id r := row_of r]> (feature_runs s)) s).
Definition ReadRun (id : text) : M (S := fdb) (option (FeatureRun (double := double))) :=
  statement ;;; s <- get ;; ret (of_row id <$> feature_runs s !! id).
Definition Catalog_run (id : text) : M (S := fdb) (FeatureRun (double := double)) := fun s =>
  let '(r, w) := catalog_run id (engine s) in (Some r, set_engine w s).
Definition Run (id : text) : M (S := fdb) (FeatureRun (double := double)) :=
  EnsureConnection ;;;
  run <- Catalog_run id ;;
  WriteRun run ;;;
  stored <- ReadRun id ;;
  ret (from_option (fun r => r) run stored).
End Features.

(** ** RagSqlite *)

Section Rag.
  Context {W : Type} (Initialize : W -> option W) (GenerateAsync : text -> W -> list string * model_end * W).

Record rdb := Rdb { r_faults : list bool; r_conn : bool; r_unused : nat; rag_answers : gmap text string; r_engine : W }.

Definition rag_statement : M (S := rdb) unit := fun s =>
  match r_faults s with
  | [] => (Some tt, s)
  | f :: r => (if f : bool then None else Some tt, Rdb r (r_conn s) (r_unused s) (rag_answers s) (r_engine s))
  end.
Definition set_rag_conn (c : bool) (n : nat) : rdb -> rdb := fun s => Rdb (r_faults s) c n (rag_answers s) (r_engine s).
Definition rag_EnsureConnection : M (S := rdb) unit :=
  s <- get ;;
  if r_conn s then ret tt
  else
    rag_statement ;;; modify (fun s => set_rag_conn false (S (r_unused s)) s) ;;;
    rag_statement ;;; modify (fun s => set_rag_conn true (pred (r_unused s)) s).

(** The answer so far: the text of the tokens that are not final; the model's exception ends the drain. *)
Definition append_token (sb : string) (t : token) : string := if IsFinal t then sb else String.append sb (Text t).
Definition GenerateFull (query : text) : M (S := rdb) string := fun s =>
  let '(fragments, e, w) := GenerateAsync query (r_engine s) in
  let s := Rdb (r_faults s) (r_conn s) (r_unused s) (rag_answers s) w in
  match e with
  | Completes => (Some (foldl append_token "" (RunAsync fragments)), s)
  | Throws => (None, s)
  end.
Definition rag_Initialize : M (S := rdb) unit := fun s =>
  match Initialize (r_engine s) with
  | Some w => (Some tt, Rdb (r_faults s) (r_conn s) (r_unused s) (rag_answers s) w)
  | None => (None, s)
  end.
Definition WriteAnswer (query : text) (answer : string) : M (S := rdb) unit :=
  rag_statement ;;; modify (fun s => Rdb (r_faults s) (r_conn s) (r_unused s) (<[query := answer]> (rag_answers s)) (r_engine s)).
Definition ReadAnswer (query : text) : M (S := rdb) (option string) := rag_statement ;;; s <- get ;; ret (rag_answers s !! query).
Definition Rag (query : text) : M (S := rdb) string :=
  rag_Initialize ;;;
  rag_EnsureConnection ;;;
  answer <- GenerateFull query ;;
  WriteAnswer query answer ;;;
  stored <- ReadAnswer query ;;
  ret (from_option (fun a => a) answer stored).
End Rag.

(** ** Lemmas *)

Section FeatureLemmas.
  Context {W double : Type} `{Catalog W double} (Descriptors : list FeatureDescriptor).
  Implicit Type s : fdb (W := W) (double := double).

Definition with_faults (r : list bool) s := Fdb r (conn s) (unused s) (features s) (feature_runs s) (engine s).
Lemma statement_cases s : exists r, statement s = (Some tt, with_faults r s) \/ statement s = (None, with_faults r s).
Proof. unfold statement. destruct s as [[|[] r] c n f g w]; simpl; [exists []; by left | exists r; by right | exists r; by left]. Qed.

Definition seeded (m : gmap text FeatureDescriptor) := foldl (fun m d => <[d_Id d := d]> m) m Descriptors.

Lemma EnsureConnection_cases s :
  (exists s', EnsureConnection Descriptors s = (Some tt, s') /\ conn s' = true /\ unused s' = unused s /\
     feature_runs s' = feature_runs s /\ engine s' = engine s /\
     features s' = if conn s then features s else seeded (features s)) \/
  (exists s', EnsureConnection Descriptors s = (None, s') /\ conn s = false /\ conn s' = false /\
     (unused s' = unused s \/ unused s' = S (unused s)) /\ features s' = features s /\
     feature_runs s' = feature_runs s /\ engine s' = engine s).
Proof.
  unfold EnsureConnection, Seed, bind, get, ret, modify. destruct (conn s) eqn:Hc; [left; by exists s|].
  destruct (statement_cases s) as [r1 [E1|E1]]; rewrite E1; [|right; eexists; split; [done|]; simpl; auto 10].
  match goal with |- context [statement ?s1] => destruct (statement_cases s1) as [r2 [E2|E2]]; rewrite E2 end;
    [|right; eexists; split; [done|]; simpl; auto 10].
  match goal with |- context [statement ?s1] => destruct (statement_cases s1) as [r3 [E3|E3]]; rewrite E3 end;
    [|right; eexists; split; [done|]; simpl; auto 10].
  match goal with |- context [statement ?s1] => destruct (statement_cases s1) as [r4 [E4|E4]]; rewrite E4 end;
    [|right; eexists; split; [done|]; simpl; auto 10].
  left. eexists. split; [done|]. simpl. auto 10.
Qed.

Lemma seeded_other m id : ~ id ∈ map d_Id Descriptors -> seeded m !! id = m !! id.
Proof.
  unfold seeded. revert m. induction Descriptors as [|d l IH]; intros m Hn; [done|]. simpl in *.
  rewrite IH by set_solver. apply lookup_insert_ne. set_solver.
Qed.
Lemma seeded_in m d : NoDup (map d_Id Descriptors) -> d ∈ Descriptors -> seeded m !! d_Id d = Some d.
Proof.
  unfold seeded. revert m. induction Descriptors as [|d' l IH]; intros m Hn Hd; [by apply not_elem_of_nil in Hd|].
  apply NoDup_cons in Hn as [Hd' Hn]. apply elem_of_cons in Hd as [->|Hd]; [|by apply IH]. simpl.
  clear IH Hn. revert m. induction l as [|e l IH]; intros m; [apply lookup_insert_eq|]. simpl in *.
  rewrite (insert_insert_ne m) by set_solver. apply IH. set_solver.
Qed.

Lemma of_row_of r : of_row (r_Id r) (row_of r) = (r : FeatureRun (double := double)).
Proof. destruct r as [id res el []]; done. Qed.

(** The cached connection has a seeded table. *)
Definition open_seeded s : Prop := conn s = true -> forall d, d ∈ Descriptors -> features s !! d_Id d = Some d.

Lemma EnsureConnection_seeded s x s' : NoDup (map d_Id Descriptors) -> open_seeded s -> EnsureConnection Descriptors s = (x, s') -> open_seeded s'.
Proof.
  intros Hn Ho E Hc d Hd. destruct (EnsureConnection_cases s) as [(s1 & E1 & _ & _ & _ & _ & Hf)|(s1 & E1 & _ & Hc1 & _)];
    rewrite E1 in E; simplify_eq; [|congruence]. rewrite Hf. destruct (conn s) eqn:E; [by apply Ho | by apply seeded_in].
Qed.
End FeatureLemmas.

Lemma answer_text l : forall i sb, foldl append_token sb (run_from i l) = foldl String.append sb l.
Proof. induction l as [|f l IH]; intros i sb; [done|]. simpl. apply IH. Qed.

Section RagLemmas.
  Context {W : Type}.
  Implicit Type s : rdb (W := W).

Definition with_rag_faults (r : list bool) s := Rdb r (r_conn s) (r_unused s) (rag_answers s) (r_engine s).
Lemma rag_statement_cases s : exists r, rag_statement s = (Some tt, with_rag_faults r s) \/ rag_statement s = (None, with_rag_faults r s).
Proof. unfold rag_statement. destruct s as [[|[] r] c n a w]; simpl; [exists []; by left | exists r; by right | exists r; by left]. Qed.

Lemma rag_EnsureConnection_cases s : exists x s', rag_EnsureConnection s = (x, s') /\ rag_answers s' = rag_answers s /\ r_engine s' = r_engine s.
Proof.
  unfold rag_EnsureConnection, bind, get, ret, modify. destruct (r_conn s) eqn:Hc; [by eexists _, _|].
  destruct (rag_statement_cases s) as [r1 [E1|E1]]; rewrite E1; [|by eexists _, _].
  match goal with |- context [rag_statement ?s1] => destruct (rag_statement_cases s1) as [r2 [E2|E2]]; rewrite E2 end; by eexists _, _.
Qed.
End RagLemmas.

(** ** Properties *)

(** C27: Whatever statements fail, [dni_sqlite_run] either answers exactly what the catalog's run gave, identifier,
    result, time and outcome, having stored it under its identifier and nothing else, or answers 0, and then
    nothing but that row may have been written. *)
Theorem sqlite_run_round_trip {W double} `{Catalog W double} Descriptors id (s : fdb (W := W) (double := double)) :
  let '(r, w) := catalog_run id (engine s) in
  match Run Descriptors id s with
  | (Some stored, s') => stored = r /\ engine s' = w /\ feature_runs s' = <[id := row_of r]> (feature_runs s)
  | (None, s') =>
      (feature_runs s' = feature_runs s \/ feature_runs s' = <[id := row_of r]> (feature_runs s)) /\
      (engine s' = engine s \/ engine s' = w)
  end.
Proof.
  pose proof (catalog_id id (engine s)) as Hid. unfold Run, Catalog_run, WriteRun, ReadRun, bind, get, ret, modify.
  destruct (catalog_run id (engine s)) as [r w] eqn:Er. simpl in Hid.
  destruct (EnsureConnection_cases Descriptors s) as [(s1 & E & _ & _ & Hr & He & _)|(s1 & E & _ & _ & _ & _ & Hr & He)]; rewrite E; [|by auto].
  rewrite He, Er.
  match goal with |- context [statement ?s2] => destruct (statement_cases s2) as [r2 [E2|E2]]; rewrite E2 end; [|simpl; rewrite Hr; by auto].
  match goal with |- context [statement ?s3] => destruct (statement_cases s3) as [r3 [E3|E3]]; rewrite E3 end; simpl; rewrite Hr, Hid; [|by auto].
  rewrite lookup_insert_eq. simpl. split; [|done]. rewrite <- Hid. apply of_row_of.
Qed.

Lemma sqlite_run_round_trip_witness :
  exists c : Catalog unit Z, let s := Fdb [] false 0 ∅ ∅ tt in
  exists s', Run [] (lit "bench-echo~bytes_3") s = (Some (Run_ (lit "bench-echo~bytes_3") (lit "xxx") 7 true), s') /\
    feature_runs s' !! lit "bench-echo~bytes_3" = Some (RunRow (lit "xxx") 7 1).
Proof.
  pose (c := showcase_catalog (fun _ => None) (fun _ _ => 0) (fun _ (w : unit) => (Payload [], w)) (fun _ w => (None, w)) id (fun _ w => (Payload [], w)) (fun _ => 7) [] id).
  exists c.
  intros s. pose proof (sqlite_run_round_trip [] (lit "bench-echo~bytes_3") s) as H.
  destruct (Run [] (lit "bench-echo~bytes_3") s) as [[r|] s'] eqn:E; [|vm_compute in E; discriminate E].
  destruct (catalog_run (lit "bench-echo~bytes_3") (engine s)) as [r' w] eqn:Ec. vm_compute in Ec. injection Ec as <- <-.
  destruct H as (-> & _ & Hr). exists s'. split; [done|]. rewrite Hr. apply lookup_insert_eq.
Defined.

(** The catalog the encrypted database gives back has every feature of the engine's catalog as it is now, once,
    however many calls and failed statements came before; rows of features the catalog no longer has are still
    there. *)
Theorem sqlite_features_seeded {W double} `{Catalog W double} Descriptors (s : fdb (W := W) (double := double)) :
  NoDup (map d_Id Descriptors) -> open_seeded Descriptors s ->
  match Features Descriptors s with
  | (Some m, s') =>
      open_seeded Descriptors s' /\ m = features s' /\ (forall d, d ∈ Descriptors -> m !! d_Id d = Some d) /\
      (forall id, ~ id ∈ map d_Id Descriptors -> m !! id = features s !! id)
  | (None, s') => open_seeded Descriptors s' /\ (conn s = false -> conn s' = false -> features s' = features s)
  end.
Proof.
  intros Hn Ho. unfold Features, ReadDescriptors, bind, get, ret. destruct (EnsureConnection Descriptors s) as [x s1] eqn:E.
  pose proof (EnsureConnection_seeded Descriptors s x s1 Hn Ho E) as Ho1.
  destruct (EnsureConnection_cases Descriptors s) as [(s2 & E2 & Hc & _ & _ & _ & Hf)|(s2 & E2 & _ & _ & _ & Hf & _)]; rewrite E2 in E; simplify_eq; [|by split].
  destruct (statement_cases s1) as [r [Es|Es]]; rewrite Es.
  - split; [exact Ho1|]. split; [done|]. split; [by apply Ho1|]. intros id Hid. simpl. rewrite Hf. destruct (conn s); [done | by apply seeded_other].
  - split; [exact Ho1|]. simpl. congruence.
Qed.

(** Each call whose first open succeeds and whose first statement fails leaves a connection open that nothing
    refers to any more. *)
Theorem failed_calls_leak {W double} `{Catalog W double} Descriptors n : forall s : fdb (W := W) (double := double),
  conn s = false -> faults s = concat (repeat [false; true] n) ->
  unused (Nat.iter n (fun s => (Features Descriptors s).2) s) = (unused s + n)%nat.
Proof.
  induction n as [|n IH]; intros s Hc Hf; [simpl; lia|]. rewrite Nat.iter_succ_r.
  assert ((Features Descriptors s).2 = Fdb (concat (repeat [false; true] n)) false (S (unused s)) (features s) (feature_runs s) (engine s)) as ->.
  { destruct s as [f c u a b w]. simpl in *. subst. reflexivity. }
  rewrite IH by done. simpl. lia.
Qed.

(** Whatever fails, [dni_sqlite_rag] answers the whole text the model generated for the query, having stored
    it as the query's answer and changed no other, or 0; it answers 0 whenever the engine cannot be initialized
    or the model fails, and then stores nothing. *)
Theorem sqlite_rag_round_trip {W} (Initialize : W -> option W) GenerateAsync query (s : rdb (W := W)) :
  match Rag Initialize GenerateAsync query s with
  | (Some answer, s') => exists w1 fragments w2,
      Initialize (r_engine s) = Some w1 /\ GenerateAsync query w1 = (fragments, Completes, w2) /\
      answer = foldl String.append "" fragments /\ rag_answers s' = <[query := answer]> (rag_answers s) /\ r_engine s' = w2
  | (None, s') => rag_answers s' = rag_answers s \/ exists w1 fragments w2,
      Initialize (r_engine s) = Some w1 /\ GenerateAsync query w1 = (fragments, Completes, w2) /\
      rag_answers s' = <[query := foldl String.append "" fragments]> (rag_answers s)
  end.
Proof.
  unfold Rag, rag_Initialize, bind. destruct (Initialize (r_engine s)) as [w1|] eqn:Ei; [|by left].
  match goal with |- context [rag_EnsureConnection ?s0] => destruct (rag_EnsureConnection_cases s0) as (x & s1 & E & Ha & He); rewrite E end.
  simpl in Ha, He. destruct x; [|by left]. unfold GenerateFull. rewrite He.
  destruct (GenerateAsync query w1) as [[fragments []] w2] eqn:Eg; [|by left]. unfold RunAsync. rewrite answer_text.
  unfold WriteAnswer, ReadAnswer, bind, get, ret, modify.
  match goal with |- context [rag_statement ?s2] => destruct (rag_statement_cases s2) as [r2 [E2|E2]]; rewrite E2 end; [|by left].
  match goal with |- context [rag_statement ?s3] => destruct (rag_statement_cases s3) as [r3 [E3|E3]]; rewrite E3 end; simpl; rewrite Ha.
  - rewrite lookup_insert_eq. simpl. by exists w1, fragments, w2.
  - right. by exists w1, fragments, w2.
Qed.
