(* ===== verification/Broker.v ===== *)
(** * Broker: the SQLite message broker (NativeBridge/Sqlite/SqliteBroker.cs, BrokerSchema.cs, Exports.Sqlite.cs)

    The poll loop claims the oldest pending row of [requests], runs the engine and writes one row of
    [response_tokens] per token, while the host application inserts requests, puts rows back to pending and
    reads.  The database is shared state: the two tables as maps by primary key.  An engine's answer is chosen
    when a request is claimed; a database call may fail at any time. *)

From S2P Require Import Prelude Abi Session Registry Liveness.
Local Open Scope Z_scope.
#[local] Set Warnings "-clear-no-such-hyp".

(** ** The database *)

(** A row of [requests], without the columns that only travel to the engine or record the time. *)
Record request := Request { prompt : string; status : string }.
(** The columns of [response_tokens] outside its key [(request_id, idx)]. *)
Record row := Row { row_text : string; row_final : bool }.

Record db := Db { requests : gmap Z request; response_tokens : gmap (Z * Z) row }.

Definition script : Type := list string * model_end.

(** [SELECT ... WHERE status = 'pending' ORDER BY id ASC LIMIT 1] *)
Definition oldest_pending (d : db) (id : Z) : Prop :=
  (exists p, requests d !! id = Some (Request p "pending")) /\
  forall id' p, requests d !! id' = Some (Request p "pending") -> id <= id'.

(** [UPDATE requests SET status = $status WHERE id = $id] *)
Definition MarkStatus (id : Z) (s : string) (d : db) : db :=
  Db (alter (fun r => Request (prompt r) s) id (requests d)) (response_tokens d).

(** [INSERT INTO response_tokens]; [None]: the primary key is taken. *)
Definition InsertToken (id : Z) (t : token) (d : db) : option db :=
  match response_tokens d !! (id, Index t) with
  | Some _ => None
  | None => Some (Db (requests d) (<[(id, Index t) := Row (Text t) (IsFinal t)]> (response_tokens d)))
  end.

(** ** The poll loop *)

Inductive loop_state :=
| Polling                                       (* at the head of the loop *)
| Claimed (id : Z)                              (* the row was read *)
| Streaming (id : Z) (rest : list string) (e : model_end) (index : Z)
| Finishing (id : Z)                            (* the stream ended: MarkStatus done *)
| Failing (id : Z)                              (* in the catch block: MarkStatus error *)
| Delaying                                      (* Task.Delay *)
| LoopEnded                                     (* returned, or cancelled *)
| LoopFaulted.                                  (* an exception left the loop *)

Record broker := Broker {
  b_db : db;
  b_seq : Z;                  (* sqlite_sequence: the largest id ever given *)
  b_loop : loop_state;
  b_cancel : bool;
  b_given : gmap Z script     (* what the engine answered when the row's first token was due; not program state *) }.

Definition at_loop (l : loop_state) (b : broker) : broker := Broker (b_db b) (b_seq b) l (b_cancel b) (b_given b).
Definition with_db (d : db) (b : broker) : broker := Broker d (b_seq b) (b_loop b) (b_cancel b) (b_given b).

Definition no_tokens (id : Z) (d : db) : Prop := forall i, response_tokens d !! (id, i) = None.

(** An answer's tokens are numbered with a C# [int]. *)
Definition max_fragments : Z := 2 ^ 31 - 1.

(** Who acts: the loop's task, a failing database call, the host inserting a request or setting a status,
    [Stop]. *)
Inductive actor := Loop | Disk | Inserter | Updater | Stopper.
#[export] Instance actor_eq_dec : EqDecision actor.
Proof. solve_decision. Defined.

Inductive bstep : actor -> broker -> broker -> Prop :=
(* while (!ct.IsCancellationRequested) *)
| b_leave b : b_loop b = Polling -> b_cancel b = true -> bstep Loop b (at_loop LoopEnded b)
| b_empty b : b_loop b = Polling -> b_cancel b = false ->
    (forall id p, requests (b_db b) !! id <> Some (Request p "pending")) -> bstep Loop b (at_loop Delaying b)
| b_claim id b : b_loop b = Polling -> b_cancel b = false -> oldest_pending (b_db b) id -> bstep Loop b (at_loop (Claimed id) b)
| b_running id s g b : b_loop b = Claimed id -> Z.of_nat (length s.1) < max_fragments ->
    (no_tokens id (b_db b) /\ g = <[id := s]> (b_given b) \/ ~ no_tokens id (b_db b) /\ g = b_given b) ->
    bstep Loop b (Broker (MarkStatus id "running" (b_db b)) (b_seq b) (Streaming id s.1 s.2 0) (b_cancel b) g)
| b_token id f rest e i d b : b_loop b = Streaming id (f :: rest) e i -> InsertToken id (Token i f false) (b_db b) = Some d ->
    bstep Loop b (at_loop (Streaming id rest e (next_index i)) (with_db d b))
| b_final id i d b : b_loop b = Streaming id [] Completes i -> InsertToken id (Final i) (b_db b) = Some d ->
    bstep Loop b (at_loop (Finishing id) (with_db d b))
| b_throws id i b : b_loop b = Streaming id [] Throws i -> bstep Loop b (at_loop (Failing id) b)
| b_duplicate id rest e i t b : b_loop b = Streaming id rest e i -> head (run_from i rest) = Some t ->
    (rest = [] -> e = Completes) -> InsertToken id t (b_db b) = None -> bstep Loop b (at_loop (Failing id) b)
| b_canceled id rest e i b : b_loop b = Streaming id rest e i -> b_cancel b = true -> bstep Loop b (at_loop LoopEnded b)
| b_done id b : b_loop b = Finishing id -> bstep Loop b (at_loop Delaying (with_db (MarkStatus id "done" (b_db b)) b))
| b_error id b : b_loop b = Failing id -> bstep Loop b (at_loop Delaying (with_db (MarkStatus id "error" (b_db b)) b))
| b_delayed b : b_loop b = Delaying -> bstep Loop b (at_loop Polling b)
| b_delay_canceled b : b_loop b = Delaying -> b_cancel b = true -> bstep Loop b (at_loop LoopEnded b)
(* a call on the connection throws: outside the try block, and in the catch block, it ends the loop *)
| b_unclaimed b : b_loop b = Polling \/ (exists id, b_loop b = Claimed id \/ b_loop b = Failing id) ->
    bstep Disk b (at_loop LoopFaulted b)
| b_contained id b : (exists rest e i, b_loop b = Streaming id rest e i) \/ b_loop b = Finishing id -> bstep Disk b (at_loop (Failing id) b)
(* the host: INSERT INTO requests (AUTOINCREMENT), and UPDATE of a status *)
| b_insert p b :
    bstep Inserter b (Broker (Db (<[b_seq b + 1 := Request p "pending"]> (requests (b_db b))) (response_tokens (b_db b)))
                    (b_seq b + 1) (b_loop b) (b_cancel b) (b_given b))
| b_requeue id s b : s = "pending" \/ s = "canceled" -> bstep Updater b (with_db (MarkStatus id s (b_db b)) b)
| b_stop b : bstep Stopper b (Broker (b_db b) (b_seq b) (b_loop b) true (b_given b)).

Definition fresh_broker : broker := Broker (Db ∅ ∅) 0 Polling false ∅.
Definition breach (b : broker) : Prop := rtc (fun s s' => exists a, bstep a s s') fresh_broker b.

(** ** The exports *)

(** The engine, [SqliteExports._broker] by the state of its loop, and the connections left open by a broker the
    field no longer names. *)
Record broker_host := BrokerHost { bh_engine : host; bh_broker : option loop_state; bh_leaked : nat }.

(** [Start]: [blank] is the null, empty or white path; [opens] whether the database opens and its schema can be made. *)
Definition broker_Start (blank opens : bool) (a : assets) (h : broker_host) : Z * broker_host :=
  if blank then (NativeStatus.InvalidArgument, h)
  else match bh_broker h with
       | Some _ => (NativeStatus.AlreadyRunning, h)
       | None =>
           let e := Initialize a (bh_engine h) in
           if opens then (NativeStatus.Ok, BrokerHost e (Some Polling) (bh_leaked h))
           else (NativeStatus.Internal, BrokerHost e None (bh_leaked h))
       end.

(** [Stop]: [ended] is how the loop is found when it has been awaited.  [SqliteBroker.Stop] rethrows what made the
    loop fault, and then [Dispose] is not reached. *)
Definition broker_Stop (ended : loop_state) (h : broker_host) : Z * broker_host :=
  match bh_broker h with
  | None => (NativeStatus.Ok, h)
  | Some _ =>
      match ended with
      | LoopFaulted => (NativeStatus.Internal, BrokerHost (bh_engine h) None (S (bh_leaked h)))
      | _ => (NativeStatus.Ok, BrokerHost (bh_engine h) None (bh_leaked h))
      end
  end.

(** ** Tokens as rows *)

Definition row_of (t : token) : row := Row (Text t) (IsFinal t).

(** The rows of a request are the tokens [ts], numbered from 0. *)
Definition rows_are (id : Z) (ts : list token) (d : db) : Prop :=
  forall i, response_tokens d !! (id, i) = if 0 <=? i then row_of <$> ts !! Z.to_nat i else None.

Lemma rows_are_nil id d : rows_are id [] d <-> no_tokens id d.
Proof. unfold rows_are, no_tokens. split; intros H i; rewrite H; by destruct (0 <=? i). Qed.

Lemma rows_are_head id t ts d : rows_are id (t :: ts) d -> ~ no_tokens id d.
Proof. intros H Hn. specialize (H 0). by rewrite Hn in H. Qed.

Lemma rows_are_length id ts ts' d : rows_are id ts d -> rows_are id ts' d -> length ts = length ts'.
Proof.
  intros H H'. assert (forall n, ts !! n = None <-> ts' !! n = None) as Hn.
  { intros n. specialize (H (Z.of_nat n)). specialize (H' (Z.of_nat n)). rewrite H in H'.
    replace (0 <=? Z.of_nat n) with true in H' by (symmetry; apply Z.leb_le; lia). rewrite Nat2Z.id in H'.
    by destruct (ts !! n), (ts' !! n). }
  setoid_rewrite lookup_ge_None in Hn. pose proof (proj1 (Hn (length ts))). pose proof (proj2 (Hn (length ts'))). lia.
Qed.

Lemma rows_are_dec id ts d : rows_are id ts d -> {no_tokens id d} + {~ no_tokens id d}.
Proof. intros H. destruct ts as [|t ts]; [left; by apply rows_are_nil | right; by eapply rows_are_head]. Qed.

Lemma InsertToken_rows id ts t d d' : rows_are id ts d -> Index t = Z.of_nat (length ts) -> InsertToken id t d = Some d' ->
  rows_are id (ts ++ [t]) d'.
Proof.
  unfold InsertToken. intros H Hi Hd. destruct (response_tokens d !! (id, Index t)); [done|]. injection Hd as <-.
  intros i. simpl. destruct (decide (i = Index t)) as [->|Hne].
  - rewrite lookup_insert_eq, Hi, Nat2Z.id. replace (0 <=? Z.of_nat (length ts)) with true by (symmetry; apply Z.leb_le; lia).
    by rewrite list_lookup_middle.
  - rewrite lookup_insert_ne, H by congruence. destruct (Z.leb_spec 0 i) as [Hp|]; [|done]. f_equal.
    rewrite lookup_app. destruct (ts !! Z.to_nat i) eqn:E; [done|]. apply lookup_ge_None in E.
    destruct (Z.to_nat i - length ts)%nat eqn:E'; [lia | done].
Qed.

Lemma InsertToken_other id id' ts t d d' : id' <> id -> InsertToken id t d = Some d' -> rows_are id' ts d -> rows_are id' ts d'.
Proof.
  unfold InsertToken. intros Hne Hd H. destruct (response_tokens d !! (id, Index t)); [done|]. injection Hd as <-.
  intros i. simpl. rewrite lookup_insert_ne by congruence. apply H.
Qed.

Lemma InsertToken_fresh id ts t d : rows_are id ts d -> Index t = Z.of_nat (length ts) -> is_Some (InsertToken id t d).
Proof.
  intros H Hi. unfold InsertToken. rewrite H, Hi, Nat2Z.id, lookup_ge_None_2 by done.
  by destruct (0 <=? _); eexists.
Qed.

Lemma InsertToken_taken id t d : rows_are id [] d -> InsertToken id t d <> None.
Proof. intros H. unfold InsertToken. rewrite (proj1 (rows_are_nil id d) H). done. Qed.

Lemma InsertToken_requests id t d d' : InsertToken id t d = Some d' -> requests d' = requests d.
Proof. unfold InsertToken. destruct (response_tokens d !! _); [done|]. by intros [= <-]. Qed.

Lemma index_after_small n : Z.of_nat n < 2 ^ 31 -> index_after n 0 = Z.of_nat n.
Proof.
  induction n as [|n IH]; intros Hn; [done|]. unfold index_after in *. simpl. rewrite IH by lia.
  unfold next_index. rewrite wrap_s_id; [lia | lia | unfold in_s; lia].
Qed.

(** ** The invariant *)

(** The tokens of a request are those of an answer, as far as it came. *)
Definition partial (id : Z) (b : broker) : Prop :=
  match b_given b !! id with
  | None => rows_are id [] (b_db b)
  | Some s => exists ts, rows_are id ts (b_db b) /\ ts `prefix_of` stream s.1 s.2
  end.

Definition loop_inv (b : broker) : Prop :=
  match b_loop b with
  | Claimed id => id <= b_seq b
  | Streaming id rest e i =>
      (exists pre, b_given b !! id = Some (pre ++ rest, e) /\ Z.of_nat (length (pre ++ rest)) < max_fragments /\
         i = Z.of_nat (length pre) /\ rows_are id (yielded_from 0 pre) (b_db b)) \/
      (i = 0 /\ ~ no_tokens id (b_db b))
  | Finishing id => exists frs, b_given b !! id = Some (frs, Completes) /\ rows_are id (RunAsync frs) (b_db b)
  | _ => True
  end.

Record binv (b : broker) : Prop := {
  bi_partial : forall id, partial id b;
  bi_done : forall id p, requests (b_db b) !! id = Some (Request p "done") ->
              exists frs, b_given b !! id = Some (frs, Completes) /\ rows_are id (RunAsync frs) (b_db b);
  bi_seq : forall id, is_Some (requests (b_db b) !! id) \/ is_Some (b_given b !! id) -> id <= b_seq b;
  bi_loop : loop_inv b }.

Lemma partial_rows id b : partial id b -> exists ts, rows_are id ts (b_db b).
Proof. unfold partial. destruct (b_given b !! id); [intros (ts & H & _) | intros H]; eauto. Qed.

(** Rows that are there stay as they are, for every request but the one being written. *)
Lemma rows_are_mark id ts id' s d : rows_are id ts (MarkStatus id' s d) <-> rows_are id ts d.
Proof. done. Qed.

Lemma mark_lookup id s d id' r : requests (MarkStatus id s d) !! id' = Some r ->
  (id' = id /\ status r = s /\ is_Some (requests d !! id)) \/ (id' <> id /\ requests d !! id' = Some r).
Proof.
  simpl. destruct (decide (id' = id)) as [->|Hne].
  - rewrite lookup_alter_eq. destruct (requests d !! id) as [r'|]; simpl; [intros [= <-]; left; by eauto | done].
  - rewrite lookup_alter_ne by done. intros H. by right.
Qed.

Lemma at_loop_inv l b : binv b -> loop_inv (at_loop l b) -> binv (at_loop l b).
Proof. intros [Hp Hd Hs _] Hl. by split. Qed.

(** Setting a status other than done, or done at the end of a complete answer. *)
Lemma mark_inv id s l b : binv b -> (s = "done" -> b_loop b = Finishing id) ->
  loop_inv (at_loop l (with_db (MarkStatus id s (b_db b)) b)) -> binv (at_loop l (with_db (MarkStatus id s (b_db b)) b)).
Proof.
  intros [Hp Hd Hs Hloop] Hdone Hl. split; [exact Hp| | |exact Hl].
  - intros id' p H. apply mark_lookup in H as [(-> & E & _)|[_ H]]; [|by eapply Hd]. simpl in E.
    unfold loop_inv in Hloop. rewrite (Hdone (eq_sym E)) in Hloop. destruct Hloop as (frs & ? & ?). by exists frs.
  - intros id' [[r H]|H]; apply Hs; [|by right]. left. apply mark_lookup in H as [(-> & _ & ?)|[_ H]]; eauto.
Qed.

(** A token of the request being answered. *)
Lemma token_inv id pre rest e t d l b : binv b -> b_given b !! id = Some (pre ++ rest, e) ->
  rows_are id (yielded_from 0 pre) (b_db b) -> Index t = Z.of_nat (length pre) ->
  (yielded_from 0 pre ++ [t]) `prefix_of` stream (pre ++ rest) e -> InsertToken id t (b_db b) = Some d ->
  loop_inv (at_loop l (with_db d b)) -> binv (at_loop l (with_db d b)).
Proof.
  intros [Hp Hd Hs _] Hg Hr Hi Hpre Hins Hl. pose proof (InsertToken_requests _ _ _ _ Hins) as Hreq.
  assert (rows_are id (yielded_from 0 pre ++ [t]) d) as Hnew
    by (eapply InsertToken_rows; [exact Hr | by rewrite length_yielded | done]).
  split; [| | |exact Hl]; simpl.
  - intros id'. unfold partial. simpl. destruct (decide (id' = id)) as [->|Hne]; [rewrite Hg; by eexists|].
    specialize (Hp id'). unfold partial in Hp. destruct (b_given b !! id') as [s|].
    + destruct Hp as (ts & Ht & ?). exists ts. split; [|done]. by eapply InsertToken_other.
    + by eapply InsertToken_other.
  - intros id' p H. rewrite Hreq in H. destruct (Hd id' p H) as (frs & Hg' & Hr'). exists frs. split; [done|].
    destruct (decide (id' = id)) as [->|Hne]; [|by eapply InsertToken_other].
    exfalso. rewrite Hg in Hg'. injection Hg' as <- ->. pose proof (rows_are_length _ _ _ _ Hr Hr') as E.
    unfold RunAsync in E. rewrite run_split, length_app, !length_yielded, length_app in E. simpl in E. lia.
  - intros id'. rewrite Hreq. apply Hs.
Qed.

Lemma prefix_of_lookup_stream pre f rest e : Z.of_nat (length (pre ++ f :: rest)) < max_fragments ->
  (yielded_from 0 pre ++ [Token (Z.of_nat (length pre)) f false]) `prefix_of` stream (pre ++ f :: rest) e.
Proof.
  unfold max_fragments. rewrite length_app. simpl. intros Hl.
  replace (yielded_from 0 pre ++ [Token (Z.of_nat (length pre)) f false]) with (yielded_from 0 (pre ++ [f]))
    by (rewrite yielded_snoc, index_after_small by lia; done).
  replace (pre ++ f :: rest) with ((pre ++ [f]) ++ rest) by (by rewrite <- app_assoc). unfold stream, RunAsync.
  destruct e; [rewrite (run_from_yielded (pre ++ [f])) | rewrite (yielded_app (pre ++ [f]))]; by apply prefix_app_r.
Qed.

Lemma next_index_small n : Z.of_nat n < 2 ^ 31 - 1 -> next_index (Z.of_nat n) = Z.of_nat (S n).
Proof. intros H. unfold next_index. rewrite wrap_s_id; [lia | lia | unfold in_s; lia]. Qed.

(** The first token of a second answer meets the first row of the earlier one. *)
Lemma taken_first id t b : binv b -> ~ no_tokens id (b_db b) -> Index t = 0 -> InsertToken id t (b_db b) = None.
Proof.
  intros Hb Hy Hx. destruct (partial_rows id b (bi_partial b Hb id)) as [[|t' ts] Hr]; [by destruct Hy; apply rows_are_nil|].
  specialize (Hr 0). unfold InsertToken. simpl in Hr. by rewrite Hx, Hr.
Qed.

Lemma bstep_inv a b b' : bstep a b b' -> binv b -> binv b'.
Proof.
  intros Hs Hb. pose proof (bi_loop b Hb) as Hl. unfold loop_inv in Hl.
  destruct Hs as [b E _|b E _ _|id b E _ [[p Hp] _]|id s g b E Hn Hg|id f rest e i d b E Hi|id i d b E Hi|id i b E|id rest e i t b E _ _ _
    |id rest e i b E _|id b E|id b E|b E|b E _|b _|id b _|p b|id s b Hst|b]; try rewrite E in Hl.
  - by apply at_loop_inv.
  - by apply at_loop_inv.
  - apply at_loop_inv; [done|]. apply (bi_seq b Hb). left. by eexists.
  - assert (forall id', id' <> id -> g !! id' = b_given b !! id') as Hoth
      by (intros id' ?; destruct Hg as [[_ ->]|[_ ->]]; [by apply lookup_insert_ne | done]).
    destruct Hb as [Hpa Hd Hsq _]. split; simpl.
    + intros id'. specialize (Hpa id'). unfold partial in *. simpl. destruct (decide (id' = id)) as [->|Hne]; [|by rewrite Hoth].
      destruct Hg as [[Hno ->]|[_ ->]]; [|done]. rewrite lookup_insert_eq. exists []. split; [by apply rows_are_nil | by eexists].
    + intros id' p H. apply mark_lookup in H as [(-> & Ed & _)|[Hne H]]; [done|]. rewrite Hoth by done. by eapply Hd.
    + intros id' [[r H]|H].
      * apply Hsq. left. apply mark_lookup in H as [(-> & _ & ?)|[_ H]]; eauto.
      * destruct (decide (id' = id)) as [->|Hne]; [done|]. apply Hsq. right. by rewrite <- Hoth.
    + destruct Hg as [[Hno ->]|[Hy ->]]; [left; exists []|right].
      * simpl. rewrite lookup_insert_eq. destruct s as [frs e]. split_and!; [done | exact Hn | done | by apply rows_are_nil].
      * done.
  - destruct Hl as [(pre & Hgv & Hlen & -> & Hr)|[-> Hy]].
    + apply (token_inv id pre (f :: rest) e (Token (Z.of_nat (length pre)) f false));
        [done | exact Hgv | done | done | by apply prefix_of_lookup_stream | done |].
      left. exists (pre ++ [f]). simpl. rewrite <- app_assoc. split_and!; [done | done | |].
      * rewrite length_app in Hlen. simpl in Hlen. unfold max_fragments in Hlen. rewrite next_index_small, length_app by lia. simpl. f_equal. lia.
      * rewrite yielded_snoc, index_after_small by (rewrite length_app in Hlen; unfold max_fragments in Hlen; lia).
        eapply InsertToken_rows; [done | by rewrite length_yielded | done].
    + by rewrite (taken_first id (Token 0 f false) b Hb Hy) in Hi.
  - destruct Hl as [(pre & Hgv & Hlen & -> & Hr)|[-> Hy]].
    + assert (Index (Final (Z.of_nat (length pre))) = Z.of_nat (length pre)) as Hix by done.
      assert (RunAsync (pre ++ []) = yielded_from 0 pre ++ [Final (Z.of_nat (length pre))]) as Hrun.
      { rewrite app_nil_r in Hlen |- *. unfold RunAsync. rewrite run_split, index_after_small by (unfold max_fragments in Hlen; lia). done. }
      apply (token_inv id pre [] Completes (Final (Z.of_nat (length pre)))); try done; [simpl; by rewrite Hrun|].
      exists (pre ++ []). rewrite Hrun. split; [done|]. eapply InsertToken_rows; [done | by rewrite length_yielded | done].
    + by rewrite (taken_first id (Final 0) b Hb Hy) in Hi.
  - by apply at_loop_inv.
  - by apply at_loop_inv.
  - by apply at_loop_inv.
  - apply mark_inv; [done | done | done].
  - apply mark_inv; [done | done | done].
  - by apply at_loop_inv.
  - by apply at_loop_inv.
  - by apply at_loop_inv.
  - by apply at_loop_inv.
  - destruct Hb as [Hpa Hd Hsq _]. split; simpl; [exact Hpa | | | ].
    + intros id p'. destruct (decide (id = b_seq b + 1)) as [->|Hne]; [rewrite lookup_insert_eq; done|].
      rewrite lookup_insert_ne by congruence. apply Hd.
    + intros id [H|H]; [|specialize (Hsq id (or_intror H)); lia].
      destruct (decide (id = b_seq b + 1)) as [->|Hne]; [lia|]. rewrite lookup_insert_ne in H by congruence.
      specialize (Hsq id (or_introl H)). lia.
    + unfold loop_inv. simpl. destruct (b_loop b); try done. lia.
  - apply (mark_inv id s (b_loop b) b); [done | by destruct Hst as [-> | ->] | exact Hl].
  - destruct Hb as [Hpa Hd Hsq _]. by split.
Qed.

Lemma fresh_inv : binv fresh_broker.
Proof.
  split; simpl; [intros id; by apply rows_are_nil | done | intros id [[? H]|[? H]]; done | done].
Qed.

Lemma breach_inv b : breach b -> binv b.
Proof.
  unfold breach. intros Hr. remember fresh_broker as b0 eqn:E. assert (binv b0) as H0 by (subst; apply fresh_inv). clear E.
  induction Hr as [|b1 b2 b3 [a Hs] _ IH]; [done|]. apply IH. by eapply bstep_inv.
Qed.

Lemma bstep_tokens a b b' : bstep a b b' -> response_tokens (b_db b) ⊆ response_tokens (b_db b').
Proof.
  intros Hs. destruct Hs as [| | | |id f rest e i d b _ Hi|id i d b _ Hi| | | | | | | | | | | |]; try done; simpl;
    unfold InsertToken in Hi; destruct (response_tokens (b_db b) !! _) eqn:E; simplify_eq; simpl; by apply insert_subseteq.
Qed.

(** C15: Whatever the host does, wherever a database call fails and whenever the broker is stopped: the token rows of
    every request are numbered from 0 without gaps and are the beginning of one answer of the engine; rows
    that were written stay; and a request marked done has exactly the rows of a complete answer, of which
    the last and no other is marked final. *)
Theorem broker_rows_are_answers (b : broker) (id : Z) :
  breach b ->
  (forall b', rtc (fun s s' => exists a, bstep a s s') b b' -> response_tokens (b_db b) ⊆ response_tokens (b_db b')) /\
  exists ts frs e, rows_are id ts (b_db b) /\ ts `prefix_of` stream frs e /\
    (status <$> requests (b_db b) !! id = Some "done" ->
       ts = RunAsync frs /\ exists front i, ts = front ++ [Final i] /\ Forall (fun t => IsFinal t = false) front).
Proof.
  intros Hb%breach_inv. split.
  { induction 1 as [|b1 b2 b3 [a Hs] _ IH]; [done|]. etrans; [by eapply bstep_tokens | apply IH; by eapply bstep_inv]. }
  destruct (decide (status <$> requests (b_db b) !! id = Some "done")) as [Hd|Hno].
  - destruct (requests (b_db b) !! id) as [[p st]|] eqn:E; [|done]. injection Hd as ->.
    destruct (bi_done b Hb id p E) as (frs & Hg & Hr). exists (RunAsync frs), frs, Completes. split_and!; [done | done |].
    intros _. split; [done|]. unfold RunAsync. rewrite run_split. eexists _, _. split; [done | apply yielded_not_final].
  - pose proof (bi_partial b Hb id) as Hpa. unfold partial in Hpa. destruct (b_given b !! id) as [s|].
    + destruct Hpa as (ts & Hr & Hpre). by exists ts, s.1, s.2.
    + exists [], [], Completes. split_and!; [done | apply prefix_nil | done].
Qed.

(** ** A request that is put back to pending *)

(** The request has rows, and no answer to it is past its first token. *)
Record stuck (id : Z) (b : broker) : Prop := {
  st_inv : binv b;
  st_rows : ~ no_tokens id (b_db b);
  st_done : status <$> requests (b_db b) !! id <> Some "done";
  st_loop : match b_loop b with
            | Streaming id' _ _ i => id' = id -> i = 0
            | Finishing id' => id' <> id
            | _ => True
            end }.

Definition same_rows (id : Z) (b b' : broker) : Prop := forall i, response_tokens (b_db b') !! (id, i) = response_tokens (b_db b) !! (id, i).

Lemma mark_status id s d id' : status <$> requests (MarkStatus id s d) !! id' = Some "done" ->
  s = "done" /\ id' = id \/ status <$> requests d !! id' = Some "done".
Proof.
  simpl. destruct (decide (id' = id)) as [->|Hne]; [rewrite lookup_alter_eq | rewrite lookup_alter_ne by done; by right].
  destruct (requests d !! id); simpl; [intros [= ->]; by left | done].
Qed.

Lemma InsertToken_elsewhere id id' t d d' i : InsertToken id t d = Some d' -> id' <> id ->
  response_tokens d' !! (id', i) = response_tokens d !! (id', i).
Proof.
  unfold InsertToken. intros Hd Hne. destruct (response_tokens d !! (id, Index t)); simplify_eq. simpl. apply lookup_insert_ne. congruence.
Qed.

Lemma stuck_step id a b b' : bstep a b b' -> stuck id b -> stuck id b' /\ same_rows id b b'.
Proof.
  intros Hs [Hb Hy Hd Hl]. pose proof (bstep_inv _ _ _ Hs Hb) as Hb'.
  enough (status <$> requests (b_db b') !! id <> Some "done" /\ same_rows id b b' /\
    match b_loop b' with Streaming id' _ _ i => id' = id -> i = 0 | Finishing id' => id' <> id | _ => True end) as (H1 & H2 & H3).
  { split; [|done]. split; [done | intros Hn; apply Hy; intros i; by rewrite <- H2 | done | done]. }
  clear Hb'. destruct Hs as [b E _|b E _ _|id' b E _ _|id' s g b E _ _|id' f rest e i d b E Hi|id' i d b E Hi|id' i b E|id' rest e i t b E _ _ _
    |id' rest e i b E _|id' b E|id' b E|b E|b E _|b _|id' b _|p b|id' s b Hst|b]; try rewrite E in Hl; simpl;
    try (by split_and!); try (split_and!; [|done|done]; intros [[? ?]|?]%mark_status; naive_solver).
  - assert (id' <> id) as Hne by (intros ->; rewrite (taken_first id (Token i f false) b Hb Hy (Hl eq_refl)) in Hi; done).
    rewrite (InsertToken_requests _ _ _ _ Hi). split_and!; [done | intros j; by eapply InsertToken_elsewhere | done].
  - assert (id' <> id) as Hne by (intros ->; rewrite (taken_first id (Final i) b Hb Hy (Hl eq_refl)) in Hi; done).
    rewrite (InsertToken_requests _ _ _ _ Hi). split_and!; [done | intros j; by eapply InsertToken_elsewhere | done].
  - split_and!; [|done|done]. destruct (decide (id = b_seq b + 1)) as [->|Hne]; [by rewrite lookup_insert_eq | by rewrite lookup_insert_ne].
Qed.

(** C17: A request that was answered in part (or in full) and is put back to pending, which the code leaves to the host
    after a shutdown, is never answered: whatever answer the engine gives, the first token meets the primary
    key of the earlier row and the request ends in error; and no behaviour of anybody adds a row to it or
    marks it done. *)
Theorem requeued_request_is_refused (b : broker) (id : Z) (s : script) :
  breach b -> b_loop b = Polling -> b_cancel b = false -> oldest_pending (b_db b) id -> ~ no_tokens id (b_db b) ->
  Z.of_nat (length s.1) < max_fragments ->
  (forall b', rtc (fun s s' => exists a, bstep a s s') b b' ->
     same_rows id b b' /\ status <$> requests (b_db b') !! id <> Some "done") /\
  exists b', rtc (bstep Loop) b b' /\ b_loop b' = Delaying /\ status <$> requests (b_db b') !! id = Some "error".
Proof.
  intros Hb%breach_inv El Ec Ho Hy Hn. destruct (Ho) as [[p Hp] _].
  assert (stuck id b) as Hst by (split; [done | done | by rewrite Hp | by rewrite El]). split.
  - intros b' Hr. assert (stuck id b' /\ same_rows id b b') as [[_ _ ? _] ?]; [|done].
    clear -Hr Hst. induction Hr as [|b1 b2 b3 [a Hs] _ IH]; [done|]. destruct (stuck_step id a b1 b2 Hs Hst) as [H1 H2].
    destruct (IH H1) as [H3 H4]. split; [done|]. intros i. by rewrite H4.
  - set (b2 := Broker (MarkStatus id "running" (b_db b)) (b_seq b) (Streaming id s.1 s.2 0) (b_cancel b) (b_given b)).
    assert (rtc (bstep Loop) b b2) as H2.
    { eapply rtc_l; [by apply (b_claim id)|]. apply rtc_once. apply (b_running id s (b_given b) (at_loop (Claimed id) b)); auto. }
    assert (forall t, Index t = 0 -> InsertToken id t (b_db b2) = None) as Htaken.
    { intros t Ht. apply taken_first; [|exact Hy|done]. eapply bstep_inv; [|eapply bstep_inv; [by apply (b_claim id) | done]].
      apply (b_running id s (b_given b) (at_loop (Claimed id) b)); auto. }
    assert (bstep Loop b2 (at_loop (Failing id) b2)) as H3.
    { destruct s as [[|f rest] []].
      - apply (b_duplicate id [] Completes 0 (Final 0)); try done; by apply Htaken.
      - by apply (b_throws id 0).
      - apply (b_duplicate id (f :: rest) Completes 0 (Token 0 f false)); try done; by apply Htaken.
      - apply (b_duplicate id (f :: rest) Throws 0 (Token 0 f false)); try done; by apply Htaken. }
    eexists. split_and!; [eapply rtc_r; [eapply rtc_r; [exact H2 | exact H3] | by apply (b_error id)] | done |].
    simpl. rewrite !lookup_alter_eq, Hp. done.
Qed.

(** ** Every request is answered *)

#[export] Instance model_end_eq_dec : EqDecision model_end.
Proof. solve_decision. Defined.
#[export] Instance loop_state_eq_dec : EqDecision loop_state.
Proof. solve_decision. Defined.

(** A broker that nobody stops, over a database that answers, while the host goes on inserting requests and
    setting statuses, but neither that of [id] nor an earlier one back to pending. *)
Definition calm (id : Z) (a : actor) (b b' : broker) : Prop :=
  bstep a b b' /\
  match a with
  | Loop | Inserter => True
  | Updater => exists k s, k <> id /\ (s = "canceled" \/ id < k) /\ b' = with_db (MarkStatus k s (b_db b)) b
  | Disk | Stopper => False
  end.

#[local] Opaque max_fragments.

Section Served.
  Context (id : Z).

Definition served (b : broker) : Prop :=
  status <$> requests (b_db b) !! id = Some "done" \/ status <$> requests (b_db b) !! id = Some "error".
#[local] Instance served_dec b : Decision (served b).
Proof. unfold served. apply _. Defined.

(** The request is waiting, or it is the one being answered. *)
Definition in_turn (b : broker) : Prop :=
  match b_loop b with
  | Polling | Delaying | Claimed _ => status <$> requests (b_db b) !! id = Some "pending"
  | Streaming k _ _ _ | Finishing k | Failing k =>
      k = id /\ status <$> requests (b_db b) !! id = Some "running" \/ k <> id /\ status <$> requests (b_db b) !! id = Some "pending"
  | LoopEnded | LoopFaulted => False
  end.

Definition to_serve (b : broker) : Prop := binv b /\ b_cancel b = false /\ (served b \/ in_turn b).

(** The pending requests that come no later, but the one just read. *)
Definition waiting (b : broker) : gset Z :=
  dom (filter (fun kr => kr.1 <= id /\ status kr.2 = "pending" /\ b_loop b <> Claimed kr.1) (requests (b_db b))).

Lemma elem_of_waiting k b : k ∈ waiting b <->
  k <= id /\ b_loop b <> Claimed k /\ status <$> requests (b_db b) !! k = Some "pending".
Proof.
  unfold waiting. rewrite elem_of_dom. split.
  - intros [r Hr]. apply map_lookup_filter_Some in Hr as (Hr & H1 & H2 & H3). simpl in *. rewrite Hr. simpl. by rewrite H2.
  - intros (H1 & H2 & H3). destruct (requests (b_db b) !! k) as [r|] eqn:E; [|done]. injection H3 as H3.
    exists r. by apply map_lookup_filter_Some.
Qed.

Definition loop_work (l : loop_state) : nat :=
  match l with
  | Polling => 1
  | Claimed _ => Z.to_nat max_fragments + 6
  | Streaming _ rest _ _ => length rest + 5
  | Finishing _ => 4
  | Failing _ => 3
  | Delaying => 2
  | LoopEnded | LoopFaulted => 0
  end.
Definition broker_work (b : broker) : nat := size (waiting b) * (Z.to_nat max_fragments + 6) + loop_work (b_loop b).

Lemma waiting_mono b b' : (forall k, k ∈ waiting b' -> k ∈ waiting b) -> (size (waiting b') <= size (waiting b))%nat.
Proof. intros H. by apply subseteq_size. Qed.

Lemma work_mono b b' : (forall k, k ∈ waiting b' -> k ∈ waiting b) -> (loop_work (b_loop b') < loop_work (b_loop b))%nat ->
  (broker_work b' < broker_work b)%nat.
Proof. intros H%waiting_mono Hl. unfold broker_work. nia. Qed.

(** Marking a request anything but pending lets nobody else wait. *)
Lemma waiting_mark k s l b : s <> "pending" -> (forall j, b_loop b <> Claimed j \/ j = k) -> (forall j, l <> Claimed j) ->
  forall j, j ∈ waiting (at_loop l (with_db (MarkStatus k s (b_db b)) b)) -> j ∈ waiting b.
Proof.
  intros Hs Hc Hl j. rewrite !elem_of_waiting. simpl. intros (H1 & _ & H3).
  destruct (decide (j = k)) as [->|Hne].
  - rewrite lookup_alter_eq in H3. destruct (requests (b_db b) !! k); simpl in H3; [|done]. injection H3 as H3. by destruct (Hs H3).
  - rewrite lookup_alter_ne in H3 by done. split_and!; [done | by destruct (Hc j) | done].
Qed.

Lemma status_mark_eq k s d x : status <$> requests d !! k = Some x -> status <$> requests (MarkStatus k s d) !! k = Some s.
Proof. simpl. rewrite lookup_alter_eq. by destruct (requests d !! k). Qed.
Lemma status_mark_ne k s d j : j <> k -> status <$> requests (MarkStatus k s d) !! j = status <$> requests d !! j.
Proof. intros Hne. simpl. by rewrite lookup_alter_ne. Qed.

(** The requests stay as they are, and the loop gets on. *)
Ltac calm_work E Hreq :=
  apply work_mono; [intros j; rewrite !elem_of_waiting; simpl; rewrite ?Hreq, ?E; naive_solver | simpl; rewrite E; simpl; lia].

(** An answer ends: the request answered is marked, and it is this one or this one still waits. *)
Lemma mark_serves k s b : s = "done" \/ s = "error" -> in_turn b -> (b_loop b = Finishing k \/ b_loop b = Failing k) ->
  (served (at_loop Delaying (with_db (MarkStatus k s (b_db b)) b)) \/ in_turn (at_loop Delaying (with_db (MarkStatus k s (b_db b)) b))) /\
  (broker_work (at_loop Delaying (with_db (MarkStatus k s (b_db b)) b)) < broker_work b)%nat.
Proof.
  intros Hs Ht E.
  assert (k = id /\ status <$> requests (b_db b) !! id = Some "running" \/ k <> id /\ status <$> requests (b_db b) !! id = Some "pending") as Hk
    by (unfold in_turn in Ht; by destruct E as [E|E]; rewrite E in Ht). split.
  - destruct Hk as [[-> Hk]|[Hne Hk]]; [left | right].
    + apply (status_mark_eq id s) in Hk. unfold served. simpl in *. destruct Hs as [-> | ->]; auto.
    + unfold in_turn. simpl b_loop. cbv iota. simpl b_db. by rewrite status_mark_ne.
  - apply work_mono.
    + apply waiting_mark; [by destruct Hs as [-> | ->] | intros j; left; by destruct E as [-> | ->] | done].
    + by destruct E as [-> | ->]; simpl; lia.
Qed.

(** One step of the loop before the request is served. *)
Lemma loop_serves b b' : binv b -> b_cancel b = false -> ~ served b -> in_turn b -> bstep Loop b b' ->
  b_cancel b' = false /\ (served b' \/ in_turn b') /\ (broker_work b' < broker_work b)%nat.
Proof.
  intros Hb Hc Hns Ht Hs. unfold in_turn in Ht.
  inversion Hs as [b0 E Ex|b0 E _ Hno|k b0 E _ Ho|k s g b0 E Hn Hg|k f rest e i d b0 E Hi|k i d b0 E Hi|k i b0 E|k rest e i t b0 E _ _ _
    |k rest e i b0 E Ex|k b0 E|k b0 E|b0 E|b0 E Ex| | | | |]; subst; try congruence; rewrite E in Ht; (split; [exact Hc|]).
  - exfalso. destruct (requests (b_db b) !! id) as [[p st]|] eqn:Er; [|done]. injection Ht as ->. by eapply Hno.
  - split; [by right|]. destruct Ho as [[p Hp] Hmin]. assert (k <= id) as Hk.
    { destruct (requests (b_db b) !! id) as [[p' st]|] eqn:Er; [|done]. injection Ht as ->. by eapply Hmin. }
    assert (size (waiting (at_loop (Claimed k) b)) < size (waiting b))%nat as Hsz.
    { apply subset_size. split.
      - intros j. rewrite !elem_of_waiting. simpl. intros (? & _ & ?). split_and!; [done | by rewrite E | done].
      - intros Hsub. assert (k ∈ waiting (at_loop (Claimed k) b)) as Hin.
        { apply Hsub, elem_of_waiting. split_and!; [done | by rewrite E | by rewrite Hp]. }
        apply elem_of_waiting in Hin as (_ & Hx & _). by destruct Hx. }
    unfold broker_work. simpl. rewrite E. simpl. nia.
  - split.
    + right. unfold in_turn. cbn [b_loop b_db]. destruct (decide (k = id)) as [->|Hne]; [left | right].
      * split; [done | by eapply status_mark_eq].
      * split; [done | by rewrite status_mark_ne].
    + apply work_mono; [|cbn [b_loop]; rewrite E; cbn [loop_work]; lia].
      apply (waiting_mark k "running" (Streaming k s.1 s.2 0));
        [done | intros j; rewrite E; destruct (decide (j = k)); [by right | left; congruence] | done].
  - pose proof (InsertToken_requests _ _ _ _ Hi) as Hreq. split; [right; unfold in_turn; simpl; by rewrite Hreq | calm_work E Hreq].
  - pose proof (InsertToken_requests _ _ _ _ Hi) as Hreq. split; [right; unfold in_turn; simpl; by rewrite Hreq | calm_work E Hreq].
  - split; [by right | calm_work E E].
  - split; [by right | calm_work E E].
  - apply mark_serves; auto. unfold in_turn. by rewrite E.
  - apply mark_serves; auto. unfold in_turn. by rewrite E.
  - split; [by right | calm_work E E].
Qed.

Lemma oldest_exists d : (exists j p, requests d !! j = Some (Request p "pending")) -> exists k, oldest_pending d k.
Proof.
  intros (j & p & Hj). set (X := dom (filter (fun kr => status kr.2 = "pending") (requests d)) : gset Z).
  assert (forall k, k ∈ X <-> exists p, requests d !! k = Some (Request p "pending")) as HX.
  { intros k. unfold X. rewrite elem_of_dom. split.
    - intros [[q st] Hr]. apply map_lookup_filter_Some in Hr as [Hr E]. simpl in E. subst. by exists q.
    - intros [q Hq]. exists (Request q "pending"). by apply map_lookup_filter_Some. }
  destruct (minimal_exists_elem_of Z.le X) as (k & Hk & Hmin).
  { intros E. assert (j ∈ X) as Hin by (apply HX; by exists p). rewrite E in Hin. by apply not_elem_of_empty in Hin. }
  exists k. split; [by apply HX|]. intros k' p' Hk'. destruct (Z.le_ge_cases k k') as [?|Hge]; [done|].
  apply (Hmin k'); [apply HX; by exists p' | done].
Qed.

(** Before the request is served the loop can always go on. *)
Lemma loop_goes_on b : binv b -> b_cancel b = false -> in_turn b -> exists b', bstep Loop b b'.
Proof.
  intros Hb Hc Ht. unfold in_turn in Ht. destruct (b_loop b) as [|k|k rest e i|k|k| | |] eqn:E.
  - destruct (requests (b_db b) !! id) as [[p st]|] eqn:Er; [|done]. injection Ht as ->.
    destruct (oldest_exists (b_db b)) as [k Hk]; [by eexists _, _|]. eexists. by apply (b_claim k).
  - destruct (partial_rows k b (bi_partial b Hb k)) as [ts Hts]. destruct (rows_are_dec k ts (b_db b) Hts) as [Hn|Hy].
    + eexists. apply (b_running k ([], Completes) (<[k := ([], Completes)]> (b_given b))); [done | done | by left].
    + eexists. apply (b_running k ([], Completes) (b_given b)); [done | done | by right].
  - destruct rest as [|f rest].
    + destruct e; [|eexists; by eapply b_throws]. destruct (InsertToken k (Final i) (b_db b)) eqn:Ei.
      * eexists. by eapply b_final.
      * eexists. by eapply b_duplicate.
    + destruct (InsertToken k (Token i f false) (b_db b)) eqn:Ei.
      * eexists. by eapply b_token.
      * eexists. by eapply b_duplicate.
  - eexists. by eapply b_done.
  - eexists. by eapply b_error.
  - eexists. by eapply b_delayed.
  - done.
  - done.
Qed.

Lemma insert_waits b b' : binv b -> served b \/ in_turn b -> bstep Inserter b b' ->
  b_cancel b' = b_cancel b /\ (served b <-> served b') /\ (in_turn b -> in_turn b') /\ (broker_work b' <= broker_work b)%nat.
Proof.
  intros Hb Ht Hs. inversion Hs; subst.
  assert (is_Some (requests (b_db b) !! id)) as Hid.
  { unfold served, in_turn in Ht. destruct (requests (b_db b) !! id); [done|]. simpl in Ht. destruct (b_loop b); naive_solver. }
  pose proof (bi_seq b Hb id (or_introl Hid)) as Hle.
  assert (status <$> <[b_seq b + 1 := Request p "pending"]> (requests (b_db b)) !! id = status <$> requests (b_db b) !! id) as E
    by (rewrite lookup_insert_ne by lia; done).
  split_and!; [done | unfold served; simpl; by rewrite E | unfold in_turn; simpl; by rewrite E |].
  unfold broker_work. apply Nat.add_le_mono; [|done]. apply Nat.mul_le_mono_r, waiting_mono. intros k. rewrite !elem_of_waiting. simpl.
  intros (H1 & H2 & H3). rewrite lookup_insert_ne in H3 by lia. done.
Qed.

(** The host sets the status of another request: a later one, or one that it gives up. *)
Lemma update_waits k st b : (st = "canceled" \/ id < k) -> k <> id ->
  let b' := with_db (MarkStatus k st (b_db b)) b in
  (served b <-> served b') /\ (in_turn b -> in_turn b') /\ (broker_work b' <= broker_work b)%nat.
Proof.
  intros Hk Hne b'.
  assert (status <$> requests (b_db b') !! id = status <$> requests (b_db b) !! id) as E by (by apply status_mark_ne).
  split_and!; [unfold served; by rewrite E | unfold in_turn; simpl b_loop; by rewrite E |].
  unfold broker_work. apply Nat.add_le_mono; [|done]. apply Nat.mul_le_mono_r, waiting_mono. intros j. rewrite !elem_of_waiting. simpl.
  intros (H1 & H2 & H3). split_and!; [done..|]. destruct (decide (j = k)) as [->|Hj]; [|by rewrite lookup_alter_ne in H3].
  rewrite lookup_alter_eq in H3. destruct Hk as [->|?]; [|lia]. by destruct (requests (b_db b) !! k).
Qed.

Lemma host_waits a b b' : binv b -> served b \/ in_turn b -> a <> Loop -> calm id a b b' ->
  b_cancel b' = b_cancel b /\ (served b <-> served b') /\ (in_turn b -> in_turn b') /\ (broker_work b' <= broker_work b)%nat.
Proof.
  intros Hb Ht Ha [Hs Hc]. destruct a; try done; [by apply insert_waits|].
  destruct Hc as (k & s & Hne & Hk & ->). split; [done|]. by apply update_waits.
Qed.

Lemma calm_keeps a b b' : to_serve b -> ~ served b -> calm id a b b' -> to_serve b' /\ (broker_work b' <= broker_work b)%nat.
Proof.
  intros (Hi & Hc & Hor) Hns Hs. pose proof (bstep_inv _ _ _ (proj1 Hs) Hi) as Hi'.
  destruct Hor as [|Ht]; [done|]. destruct (decide (a = Loop)) as [->|Ha].
  - destruct (loop_serves b b') as (? & ? & ?); try done; [apply Hs|]. split; [done | lia].
  - destruct (host_waits a b b') as (Ec & _ & Hit & ?); [done | by right | done..|]. rewrite <- Ec in Hc.
    split; [split_and!; [done | done | right; by apply Hit] | done].
Qed.
End Served.

(** C16: Liveness: every pending request is brought to done or to error, in every execution that is fair to the loop,
    in which nobody stops the broker, the database answers, and the host does what it likes except changing
    the status of this request and putting an earlier one back to pending: it may insert requests, requeue
    and cancel later ones, and cancel earlier ones.  (A host that requeues an earlier request for ever starves
    this one: [requeue_starves].) *)
Theorem every_request_is_served (sigma : nat -> broker) (id : Z) :
  breach (sigma 0%nat) -> b_cancel (sigma 0%nat) = false -> in_turn id (sigma 0%nat) ->
  execution (calm id) sigma -> fair_to (calm id) Loop sigma ->
  exists n, status <$> requests (b_db (sigma n)) !! id = Some "done" \/ status <$> requests (b_db (sigma n)) !! id = Some "error".
Proof.
  intros Hb%breach_inv Hc Ht He Hf.
  assert (forall s, Decision (served id s)) as Hdec by (intros s; unfold served; apply _).
  destruct (fair_reaches_until (calm id) (fun a => a = Loop) (to_serve id) (served id) (broker_work id)) with (sigma := sigma) (n := 0%nat)
    as (n & _ & Hn); [..| by exists n].
  - intros a s s' Hi Hns Hs. by apply (calm_keeps id a s s').
  - intros a s s' (Hi & Hcs & Hor) Hns -> [Hs _]. destruct Hor as [|Hit]; [done|]. by destruct (loop_serves id s s') as (_ & _ & ?).
  - intros a s s' Hi Hns Hs. by apply (calm_keeps id a s s').
  - intros a c s s' (Hi & Hcs & Hor) Hns -> _ Hs Hne. pose proof (bstep_inv _ _ _ (proj1 Hs) Hi) as Hi'.
    destruct (host_waits id c s s') as (Ec & _ & Hit & _); [done..|]. destruct Hor as [|Ht']; [done|].
    destruct (loop_goes_on id s') as [s2 H2]; [done | by rewrite Ec | by apply Hit | by exists s2].
  - intros s (Hi & Hcs & Hor) Hns. destruct Hor as [|Hit]; [done|].
    destruct (loop_goes_on id s Hi Hcs Hit) as [s2 H2]. exists Loop. split; [done|]. by exists s2.
  - done.
  - by intros a ->.
  - split_and!; [done | done | by right].
Qed.

(** ** A loop that has faulted *)

(** A faulted loop never acts again. *)
Lemma faulted_for_good a b b' : bstep a b b' -> b_loop b = LoopFaulted -> b_loop b' = LoopFaulted.
Proof. intros Hs E. destruct Hs; simpl; try congruence; repeat match goal with H : _ \/ _ |- _ => destruct H | H : exists _, _ |- _ => destruct H end; congruence. Qed.

(** One failing database call outside the try block (the claim, or marking a request running) ends the loop for
    good: no pending request is served any more, whatever happens; yet [dni_broker_start] answers that the
    broker is running, and [dni_broker_stop] answers an internal error and leaves the connection open.  After
    that a broker can be started again. *)
Theorem faulted_broker (b : broker) (id : Z) (h : broker_host) (a : assets) :
  breach b -> status <$> requests (b_db b) !! id = Some "pending" -> b_loop b = Polling -> bh_broker h = Some (b_loop b) ->
  exists b1, bstep Disk b b1 /\ b_loop b1 = LoopFaulted /\
    (forall b2, rtc (fun s s' => exists x, bstep x s s') b1 b2 ->
       status <$> requests (b_db b2) !! id = Some "pending" \/ status <$> requests (b_db b2) !! id = Some "canceled") /\
    broker_Start false true a h = (NativeStatus.AlreadyRunning, h) /\
    (broker_Stop LoopFaulted h).1 = NativeStatus.Internal /\ bh_leaked (broker_Stop LoopFaulted h).2 = S (bh_leaked h) /\
    (broker_Start false true a (broker_Stop LoopFaulted h).2).1 = NativeStatus.Ok.
Proof.
  intros Hb Hp El Hh. exists (at_loop LoopFaulted b). split_and!; [apply b_unclaimed; by left | done | | | | |];
    try (unfold broker_Start, broker_Stop; by rewrite Hh).
  assert (binv (at_loop LoopFaulted b)) as Hi by (eapply bstep_inv; [apply b_unclaimed; by left | by apply breach_inv]).
  intros b2 Hr. remember (at_loop LoopFaulted b) as b1 eqn:E1.
  assert (b_loop b1 = LoopFaulted /\ (status <$> requests (b_db b1) !! id = Some "pending" \/ status <$> requests (b_db b1) !! id = Some "canceled"))
    as [Hl Hs] by (subst; split; [done | by left]). clear E1 Hp El Hb b Hh.
  induction Hr as [|b1 b2 b3 [x Hx] _ IH]; [done|]. apply IH; [by eapply bstep_inv | by eapply faulted_for_good |].
  clear IH. destruct Hx as [| | | | | | | | | | | | | | |p b|k st b Hst|]; simpl in *; try done; try congruence.
  - assert (is_Some (requests (b_db b) !! id)) as Hid by (destruct (requests (b_db b) !! id); [done | by destruct Hs]).
    pose proof (bi_seq b Hi id (or_introl Hid)). rewrite lookup_insert_ne by lia. done.
  - destruct (decide (k = id)) as [->|Hne]; [|by rewrite lookup_alter_ne].
    rewrite lookup_alter_eq. destruct (requests (b_db b) !! id); [|by destruct Hs]. simpl. destruct Hst as [-> | ->]; auto.
Qed.

(** ** Concrete runs *)

(** One request, answered by one fragment, and put back to pending afterwards. *)
Definition demo_db (st : string) (n : nat) : db :=
  Db {[1 := Request "q" st]}
    (list_to_map (take n [((1, 0), Row "hi" false); ((1, 1), Row "" true)])).
Definition demo_at (st : string) (n : nat) (l : loop_state) (g : gmap Z script) : broker := Broker (demo_db st n) 1 l false g.
Definition demo_script : script := (["hi"], Completes).
Definition demo_given : gmap Z script := {[1 := demo_script]}.

Definition any_bstep (s s' : broker) : Prop := exists a, bstep a s s'.

Lemma demo_insert : any_bstep fresh_broker (demo_at "pending" 0 Polling ∅).
Proof. exists Inserter. exact (b_insert "q" fresh_broker). Qed.

Lemma demo_pending_oldest n l g : oldest_pending (b_db (demo_at "pending" n l g)) 1.
Proof. split; [by exists "q" |]. intros id' p H. simpl in H. apply lookup_singleton_Some in H as [<- _]. lia. Qed.

Lemma demo_claim n g : bstep Loop (demo_at "pending" n Polling g) (demo_at "pending" n (Claimed 1) g).
Proof. apply (b_claim 1); [done | done | apply demo_pending_oldest]. Qed.

Lemma demo_run_step : bstep Loop (demo_at "pending" 0 (Claimed 1) ∅) (demo_at "running" 0 (Streaming 1 ["hi"] Completes 0) demo_given).
Proof. apply (b_running 1 demo_script demo_given (demo_at "pending" 0 (Claimed 1) ∅)); [done | done | left; by split]. Qed.

Lemma demo_done_reach : breach (demo_at "done" 2 Delaying demo_given).
Proof.
  eapply rtc_l; [apply demo_insert|]. eapply rtc_l; [exists Loop; apply demo_claim|]. eapply rtc_l; [exists Loop; apply demo_run_step|].
  eapply rtc_l; [exists Loop; by apply (b_token 1 "hi" [] Completes 0)|].
  eapply rtc_l; [exists Loop; by apply (b_final 1 1)|]. apply rtc_once. exists Loop. by apply (b_done 1).
Qed.

Lemma demo_requeued_reach : breach (demo_at "pending" 2 Polling demo_given).
Proof.
  eapply rtc_r; [eapply rtc_r; [apply demo_done_reach|]|].
  - exists Loop. by apply b_delayed.
  - exists Updater. apply (b_requeue 1 "pending" (demo_at "done" 2 Polling demo_given)). by left.
Qed.

Lemma demo_pending_reach : breach (demo_at "pending" 0 Polling ∅).
Proof. apply rtc_once, demo_insert. Qed.

Lemma broker_rows_witness : exists ts front i, rows_are 1 ts (b_db (demo_at "done" 2 Delaying demo_given)) /\ ts = front ++ [Final i].
Proof.
  destruct (broker_rows_are_answers (demo_at "done" 2 Delaying demo_given) 1 demo_done_reach) as (_ & ts & frs & e & Hr & _ & Hd).
  destruct (Hd ltac:(reflexivity)) as (_ & front & i & E & _). exists ts, front, i. split; [exact Hr | exact E].
Defined.

Lemma requeued_request_witness :
  exists b', rtc (bstep Loop) (demo_at "pending" 2 Polling demo_given) b' /\ status <$> requests (b_db b') !! 1 = Some "error".
Proof.
  destruct (requeued_request_is_refused (demo_at "pending" 2 Polling demo_given) 1 demo_script) as [_ (b' & H1 & _ & H3)].
  - apply demo_requeued_reach.
  - reflexivity.
  - reflexivity.
  - apply demo_pending_oldest.
  - intros Hn. specialize (Hn 0). vm_compute in Hn. discriminate.
  - vm_compute. reflexivity.
  - exists b'. split; [exact H1 | exact H3].
Defined.

(** The request is served, and then the loop idles for ever. *)
Definition demo_life (n : nat) : broker :=
  match n with
  | 0 => demo_at "pending" 0 Polling ∅
  | 1 => demo_at "pending" 0 (Claimed 1) ∅
  | 2 => demo_at "running" 0 (Streaming 1 ["hi"] Completes 0) demo_given
  | 3 => demo_at "running" 1 (Streaming 1 [] Completes 1) demo_given
  | 4 => demo_at "running" 2 (Finishing 1) demo_given
  | S (S (S (S (S k)))) => if Nat.even k then demo_at "done" 2 Delaying demo_given else demo_at "done" 2 Polling demo_given
  end%nat.

Lemma demo_life_steps n : bstep Loop (demo_life n) (demo_life (S n)).
Proof.
  destruct n as [|[|[|[|[|k]]]]].
  - apply demo_claim.
  - apply demo_run_step.
  - by apply (b_token 1 "hi" [] Completes 0).
  - by apply (b_final 1 1).
  - by apply (b_done 1).
  - unfold demo_life. rewrite Nat.even_succ, <- Nat.negb_even. destruct (Nat.even k).
    + by apply b_delayed.
    + apply b_empty; [done | done |]. intros j p H. simpl in H. apply lookup_singleton_Some in H as [_ H]. done.
Qed.

Lemma every_request_witness :
  exists n, status <$> requests (b_db (demo_life n)) !! 1 = Some "done" \/ status <$> requests (b_db (demo_life n)) !! 1 = Some "error".
Proof.
  apply (every_request_is_served demo_life 1).
  - apply demo_pending_reach.
  - reflexivity.
  - reflexivity.
  - intros n. left. exists Loop. split; [apply demo_life_steps | done].
  - intros n. exists n. split; [done|]. left. split; [apply demo_life_steps | done].
Defined.

(** Two requests, of which the host puts the first, which has an answer, back to pending whenever it fails. *)
Definition two_at (st : string) (l : loop_state) : broker :=
  Broker (Db {[1 := Request "q" st; 2 := Request "r" "pending"]} (response_tokens (demo_db st 2))) 2 l false demo_given.
Definition starving (n : nat) : broker :=
  match (n mod 6)%nat with
  | 0 => two_at "pending" Polling
  | 1 => two_at "pending" (Claimed 1)
  | 2 => two_at "running" (Streaming 1 ["hi"] Completes 0)
  | 3 => two_at "running" (Failing 1)
  | 4 => two_at "error" Delaying
  | _ => two_at "pending" Delaying
  end%nat.

Lemma starving_cycle n : exists a, bstep a (starving n) (starving (S n)) /\ (a = Loop \/ a = Updater /\ (n mod 6 = 4)%nat).
Proof.
  assert (n mod 6 < 6)%nat as Hn by (by apply Nat.mod_upper_bound).
  unfold starving. replace (S n mod 6)%nat with ((n mod 6 + 1) mod 6)%nat by (rewrite Nat.Div0.add_mod_idemp_l, Nat.add_1_r; done).
  destruct (n mod 6)%nat as [|[|[|[|[|[|k]]]]]]; simpl; [..|lia].
  - exists Loop. split; [|by left]. apply (b_claim 1); [done | done |]. split; [by exists "q"|]. intros k p Hk. simpl in Hk.
    apply lookup_insert_Some in Hk as [[<- _]|[_ Hk]]; [done|]. apply lookup_singleton_Some in Hk as [<- _]. done.
  - exists Loop. split; [|by left]. apply (b_running 1 demo_script demo_given (two_at "pending" (Claimed 1))); [done | done |].
    right. split; [|done]. intros Hno. specialize (Hno 0). done.
  - exists Loop. split; [|by left]. by apply (b_duplicate 1 ["hi"] Completes 0 (Token 0 "hi" false)).
  - exists Loop. split; [|by left]. by apply (b_error 1).
  - exists Updater. split; [|by right]. apply (b_requeue 1 "pending" (two_at "error" Delaying)). by left.
  - exists Loop. split; [|by left]. by apply b_delayed.
Qed.

Lemma starving_reach : breach (starving 0).
Proof.
  unfold breach, starving. simpl.
  eapply rtc_l; [exists Inserter; exact (b_insert "q" fresh_broker)|].
  eapply rtc_l; [exists Inserter; apply (b_insert "r")|].
  eapply rtc_l; [exists Loop; apply (b_claim 1); [done | done |]|].
  { split; [by exists "q"|]. intros k p Hk. simpl in Hk.
    apply lookup_insert_Some in Hk as [[<- _]|[_ Hk]]; [lia|]. apply lookup_insert_Some in Hk as [[<- _]|[_ Hk]]; [lia|done]. }
  eapply rtc_l; [exists Loop; apply (b_running 1 demo_script demo_given); [done | done | left; by split]|].
  eapply rtc_l; [exists Loop; by apply (b_token 1 "hi" [] Completes 0)|].
  eapply rtc_l; [exists Loop; by apply (b_final 1 1)|].
  eapply rtc_l; [exists Loop; by apply (b_done 1)|].
  eapply rtc_l; [exists Loop; by apply b_delayed|].
  apply rtc_once. exists Updater.
  match goal with |- bstep _ ?b ?b' => replace b' with (with_db (MarkStatus 1 "pending" (b_db b)) b); [apply b_requeue; by left | vm_compute; reflexivity] end.
Qed.

(** An earlier request that the host requeues after every failure keeps the loop busy for ever: the loop is
    never stopped, never fails and always goes on, and a later request is not served. *)
Theorem requeue_starves :
  breach (starving 0) /\ execution bstep starving /\ fair_to bstep Loop starving /\
  forall n, b_cancel (starving n) = false /\ status <$> requests (b_db (starving n)) !! 2 = Some "pending".
Proof.
  split_and!; [apply starving_reach | | |].
  - intros n. left. destruct (starving_cycle n) as (a & Hs & _). by exists a.
  - intros n. destruct (starving_cycle n) as (a & Hs & [->|[-> Hn]]); [exists n; split; [lia|]; by left|].
    exists (S n). split; [lia|]. left. destruct (starving_cycle (S n)) as (a & Hs' & [->|[-> Hn']]); [done|].
    replace (S n mod 6)%nat with ((n mod 6 + 1) mod 6)%nat in Hn' by (rewrite Nat.Div0.add_mod_idemp_l, Nat.add_1_r; done).
    rewrite Hn in Hn'. done.
  - intros n. unfold starving. by destruct (n mod 6)%nat as [|[|[|[|[|k]]]]].
Qed.

Lemma faulted_broker_witness :
  (broker_Stop LoopFaulted (BrokerHost initial (Some Polling) 0)).1 = NativeStatus.Internal.
Proof.
  destruct (faulted_broker (demo_at "pending" 0 Polling ∅) 1 (BrokerHost initial (Some Polling) 0) demo_assets demo_pending_reach
    ltac:(reflexivity) ltac:(reflexivity) ltac:(reflexivity)) as (b1 & _ & _ & _ & _ & H & _). exact H.
Defined.
