(* ===== verification/OrtApi.v ===== *)
(** * OrtApi: the ONNX Runtime C interface the iOS encoder is compiled against

    The vtable [struct OrtApi] of onnxruntime_c_api.h, slot by slot in declaration order: the name, the
    return ([ORT_API2_STATUS] slots return an [OrtStatus*], NULL on success), the version the
    documentation tags the slot with, and every parameter with its SAL annotation, name and C type
    ([ORT_CLASS_RELEASE(X)] expands to a [ReleaseX] slot taking a [_Frees_ptr_opt_ OrtX*]).  The position
    of a slot in the list is its index in the table of function pointers a client reaches through
    [GetApi].  The element type and allocator enumerations the encoder passes are here as well, with the
    values C gives their enumerators. *)

From S2P Require Import Prelude.
From Stdlib Require Import Sorting.Sorted.
Local Open Scope Z_scope.

Definition ORT_API_VERSION : Z := 20.

(** ** Types *)

#[warnings="-register-all"]
Inductive cty :=
| Ty (name : string)                   (* a named type *)
| Const (t : cty)
| Ptr (t : cty)                        (* t*, or a parameter declared t[] *)
| Fn (ret : cty) (params : list cty).  (* pointer to function *)

(** The SAL annotations that occur in the table; those of buffers carry the length expression. *)
Inductive sal :=
| No_sal | In_ | In_z_ | In_opt_ | Out_ | Outptr_ | Inout_ | Frees_ptr_opt_ | Outptr_result_maybenull_
| In_reads_ (len : string) | Inout_updates_all_ (len : string) | Out_writes_all_ (len : string)
| Out_writes_bytes_all_ (len : string) | Outptr_result_buffer_maybenull_ (len : string).

Record sparam := Par { p_sal : sal; p_arg : string; p_ty : cty }.

Inductive sret := R_status | R_void | R_type (t : cty).

Record slot := Slot { s_name : string; s_ret : sret; s_since : option Z; s_params : list sparam }.

(** ** Enumerations *)

(** The enumerators of a C [enum], each with its initializer if it has one. *)
Definition enum_decl : Type := list (string * option Z).

(** C's numbering: an enumerator without initializer is one more than the one before it. *)
Fixpoint number_from (next : Z) (e : enum_decl) : list (string * Z) :=
  match e with
  | [] => []
  | (n, None) :: rest => (n, next) :: number_from (next + 1) rest
  | (n, Some v) :: rest => (n, v) :: number_from (v + 1) rest
  end.
Definition enum_value (e : enum_decl) (n : string) : option Z :=
  match list_find (fun p => p.1 = n) (number_from 0 e) with
  | Some (_, (_, v)) => Some v
  | None => None
  end.

Definition ONNXTensorElementDataType : enum_decl :=
  [ ("ONNX_TENSOR_ELEMENT_DATA_TYPE_UNDEFINED", None);
    ("ONNX_TENSOR_ELEMENT_DATA_TYPE_FLOAT", None); ("ONNX_TENSOR_ELEMENT_DATA_TYPE_UINT8", None);
    ("ONNX_TENSOR_ELEMENT_DATA_TYPE_INT8", None); ("ONNX_TENSOR_ELEMENT_DATA_TYPE_UINT16", None);
    ("ONNX_TENSOR_ELEMENT_DATA_TYPE_INT16", None); ("ONNX_TENSOR_ELEMENT_DATA_TYPE_INT32", None);
    ("ONNX_TENSOR_ELEMENT_DATA_TYPE_INT64", None); ("ONNX_TENSOR_ELEMENT_DATA_TYPE_STRING", None);
    ("ONNX_TENSOR_ELEMENT_DATA_TYPE_BOOL", None); ("ONNX_TENSOR_ELEMENT_DATA_TYPE_FLOAT16", None);
    ("ONNX_TENSOR_ELEMENT_DATA_TYPE_DOUBLE", None); ("ONNX_TENSOR_ELEMENT_DATA_TYPE_UINT32", None);
    ("ONNX_TENSOR_ELEMENT_DATA_TYPE_UINT64", None);
    ("ONNX_TENSOR_ELEMENT_DATA_TYPE_COMPLEX64", None);
    ("ONNX_TENSOR_ELEMENT_DATA_TYPE_COMPLEX128", None);
    ("ONNX_TENSOR_ELEMENT_DATA_TYPE_BFLOAT16", None);
    ("ONNX_TENSOR_ELEMENT_DATA_TYPE_FLOAT8E4M3FN", None);
    ("ONNX_TENSOR_ELEMENT_DATA_TYPE_FLOAT8E4M3FNUZ", None);
    ("ONNX_TENSOR_ELEMENT_DATA_TYPE_FLOAT8E5M2", None);
    ("ONNX_TENSOR_ELEMENT_DATA_TYPE_FLOAT8E5M2FNUZ", None);
    ("ONNX_TENSOR_ELEMENT_DATA_TYPE_UINT4", None); ("ONNX_TENSOR_ELEMENT_DATA_TYPE_INT4", None) ].

Definition ONNXType : enum_decl :=
  [ ("ONNX_TYPE_UNKNOWN", None); ("ONNX_TYPE_TENSOR", None); ("ONNX_TYPE_SEQUENCE", None);
    ("ONNX_TYPE_MAP", None); ("ONNX_TYPE_OPAQUE", None); ("ONNX_TYPE_SPARSETENSOR", None);
    ("ONNX_TYPE_OPTIONAL", None) ].

Definition OrtSparseFormat : enum_decl :=
  [ ("ORT_SPARSE_UNDEFINED", Some 0); ("ORT_SPARSE_COO", Some 1); ("ORT_SPARSE_CSRC", Some 2);
    ("ORT_SPARSE_BLOCK_SPARSE", Some 4) ].

Definition OrtSparseIndicesFormat : enum_decl :=
  [ ("ORT_SPARSE_COO_INDICES", None); ("ORT_SPARSE_CSR_INNER_INDICES", None);
    ("ORT_SPARSE_CSR_OUTER_INDICES", None); ("ORT_SPARSE_BLOCK_SPARSE_INDICES", None) ].

Definition OrtLoggingLevel : enum_decl :=
  [ ("ORT_LOGGING_LEVEL_VERBOSE", None); ("ORT_LOGGING_LEVEL_INFO", None);
    ("ORT_LOGGING_LEVEL_WARNING", None); ("ORT_LOGGING_LEVEL_ERROR", None);
    ("ORT_LOGGING_LEVEL_FATAL", None) ].

Definition OrtErrorCode : enum_decl :=
  [ ("ORT_OK", None); ("ORT_FAIL", None); ("ORT_INVALID_ARGUMENT", None); ("ORT_NO_SUCHFILE", None);
    ("ORT_NO_MODEL", None); ("ORT_ENGINE_ERROR", None); ("ORT_RUNTIME_EXCEPTION", None);
    ("ORT_INVALID_PROTOBUF", None); ("ORT_MODEL_LOADED", None); ("ORT_NOT_IMPLEMENTED", None);
    ("ORT_INVALID_GRAPH", None); ("ORT_EP_FAIL", None) ].

Definition OrtOpAttrType : enum_decl :=
  [ ("ORT_OP_ATTR_UNDEFINED", Some 0); ("ORT_OP_ATTR_INT", None); ("ORT_OP_ATTR_INTS", None);
    ("ORT_OP_ATTR_FLOAT", None); ("ORT_OP_ATTR_FLOATS", None); ("ORT_OP_ATTR_STRING", None);
    ("ORT_OP_ATTR_STRINGS", None) ].

Definition GraphOptimizationLevel : enum_decl :=
  [ ("ORT_DISABLE_ALL", Some 0); ("ORT_ENABLE_BASIC", Some 1); ("ORT_ENABLE_EXTENDED", Some 2);
    ("ORT_ENABLE_ALL", Some 99) ].

Definition ExecutionMode : enum_decl :=
  [ ("ORT_SEQUENTIAL", Some 0); ("ORT_PARALLEL", Some 1) ].

Definition OrtLanguageProjection : enum_decl :=
  [ ("ORT_PROJECTION_C", Some 0); ("ORT_PROJECTION_CPLUSPLUS", Some 1);
    ("ORT_PROJECTION_CSHARP", Some 2); ("ORT_PROJECTION_PYTHON", Some 3);
    ("ORT_PROJECTION_JAVA", Some 4); ("ORT_PROJECTION_WINML", Some 5);
    ("ORT_PROJECTION_NODEJS", Some 6) ].

Definition OrtAllocatorType : enum_decl :=
  [ ("OrtInvalidAllocator", Some (-1)); ("OrtDeviceAllocator", Some 0);
    ("OrtArenaAllocator", Some 1) ].

Definition OrtMemType : enum_decl :=
  [ ("OrtMemTypeCPUInput", Some (-2)); ("OrtMemTypeCPUOutput", Some (-1));
    ("OrtMemTypeCPU", Some (-1)); ("OrtMemTypeDefault", Some 0) ].

Definition OrtMemoryInfoDeviceType : enum_decl :=
  [ ("OrtMemoryInfoDeviceType_CPU", Some 0); ("OrtMemoryInfoDeviceType_GPU", Some 1);
    ("OrtMemoryInfoDeviceType_FPGA", Some 2) ].

Definition OrtCudnnConvAlgoSearch : enum_decl :=
  [ ("OrtCudnnConvAlgoSearchExhaustive", None); ("OrtCudnnConvAlgoSearchHeuristic", None);
    ("OrtCudnnConvAlgoSearchDefault", None) ].

(** ** The slots of struct OrtApi, in order *)

(** Lines 737-870. *)
Definition ort_slots_1 : list slot :=
  [ Slot "CreateStatus" (R_type (Ptr (Ty "OrtStatus"))) None [Par No_sal "code" (Ty "OrtErrorCode");
      Par In_ "msg" (Ptr (Const (Ty "char")))];
    Slot "GetErrorCode" (R_type (Ty "OrtErrorCode")) None [Par In_ "status" (Ptr (Const (Ty "OrtStatus")))];
    Slot "GetErrorMessage" (R_type (Ptr (Const (Ty "char")))) None [Par In_ "status" (Ptr (Const (Ty "OrtStatus")))];
    Slot "CreateEnv" R_status None [Par No_sal "log_severity_level" (Ty "OrtLoggingLevel");
      Par In_ "logid" (Ptr (Const (Ty "char"))); Par Outptr_ "out" (Ptr (Ptr (Ty "OrtEnv")))];
    Slot "CreateEnvWithCustomLogger" R_status None [Par In_ "logging_function" (Ty "OrtLoggingFunction");
      Par In_opt_ "logger_param" (Ptr (Ty "void")); Par In_ "log_severity_level" (Ty "OrtLoggingLevel");
      Par In_ "logid" (Ptr (Const (Ty "char"))); Par Outptr_ "out" (Ptr (Ptr (Ty "OrtEnv")))];
    Slot "EnableTelemetryEvents" R_status None [Par In_ "env" (Ptr (Const (Ty "OrtEnv")))];
    Slot "DisableTelemetryEvents" R_status None [Par In_ "env" (Ptr (Const (Ty "OrtEnv")))];
    Slot "CreateSession" R_status None [Par In_ "env" (Ptr (Const (Ty "OrtEnv")));
      Par In_ "model_path" (Ptr (Const (Ty "ORTCHAR_T"))); Par In_ "options" (Ptr (Const (Ty "OrtSessionOptions")));
      Par Outptr_ "out" (Ptr (Ptr (Ty "OrtSession")))];
    Slot "CreateSessionFromArray" R_status None [Par In_ "env" (Ptr (Const (Ty "OrtEnv")));
      Par In_ "model_data" (Ptr (Const (Ty "void"))); Par No_sal "model_data_length" (Ty "size_t");
      Par In_ "options" (Ptr (Const (Ty "OrtSessionOptions"))); Par Outptr_ "out" (Ptr (Ptr (Ty "OrtSession")))];
    Slot "Run" R_status None [Par Inout_ "session" (Ptr (Ty "OrtSession"));
      Par In_opt_ "run_options" (Ptr (Const (Ty "OrtRunOptions")));
      Par (In_reads_ "input_len") "input_names" (Ptr (Const (Ptr (Const (Ty "char")))));
      Par (In_reads_ "input_len") "inputs" (Ptr (Const (Ptr (Const (Ty "OrtValue")))));
      Par No_sal "input_len" (Ty "size_t");
      Par (In_reads_ "output_names_len") "output_names" (Ptr (Const (Ptr (Const (Ty "char")))));
      Par No_sal "output_names_len" (Ty "size_t");
      Par (Inout_updates_all_ "output_names_len") "outputs" (Ptr (Ptr (Ty "OrtValue")))] ].

(** Lines 871-1013. *)
Definition ort_slots_2 : list slot :=
  [ Slot "CreateSessionOptions" R_status None [Par Outptr_ "options" (Ptr (Ptr (Ty "OrtSessionOptions")))];
    Slot "SetOptimizedModelFilePath" R_status None [Par Inout_ "options" (Ptr (Ty "OrtSessionOptions"));
      Par In_ "optimized_model_filepath" (Ptr (Const (Ty "ORTCHAR_T")))];
    Slot "CloneSessionOptions" R_status None [Par In_ "in_options" (Ptr (Const (Ty "OrtSessionOptions")));
      Par Outptr_ "out_options" (Ptr (Ptr (Ty "OrtSessionOptions")))];
    Slot "SetSessionExecutionMode" R_status None [Par Inout_ "options" (Ptr (Ty "OrtSessionOptions"));
      Par No_sal "execution_mode" (Ty "ExecutionMode")];
    Slot "EnableProfiling" R_status None [Par Inout_ "options" (Ptr (Ty "OrtSessionOptions"));
      Par In_ "profile_file_prefix" (Ptr (Const (Ty "ORTCHAR_T")))];
    Slot "DisableProfiling" R_status None [Par Inout_ "options" (Ptr (Ty "OrtSessionOptions"))];
    Slot "EnableMemPattern" R_status None [Par Inout_ "options" (Ptr (Ty "OrtSessionOptions"))];
    Slot "DisableMemPattern" R_status None [Par Inout_ "options" (Ptr (Ty "OrtSessionOptions"))];
    Slot "EnableCpuMemArena" R_status None [Par Inout_ "options" (Ptr (Ty "OrtSessionOptions"))];
    Slot "DisableCpuMemArena" R_status None [Par Inout_ "options" (Ptr (Ty "OrtSessionOptions"))];
    Slot "SetSessionLogId" R_status None [Par Inout_ "options" (Ptr (Ty "OrtSessionOptions"));
      Par No_sal "logid" (Ptr (Const (Ty "char")))];
    Slot "SetSessionLogVerbosityLevel" R_status None [Par Inout_ "options" (Ptr (Ty "OrtSessionOptions"));
      Par No_sal "session_log_verbosity_level" (Ty "int")];
    Slot "SetSessionLogSeverityLevel" R_status None [Par Inout_ "options" (Ptr (Ty "OrtSessionOptions"));
      Par No_sal "session_log_severity_level" (Ty "int")] ].

(** Lines 1014-1161. *)
Definition ort_slots_3 : list slot :=
  [ Slot "SetSessionGraphOptimizationLevel" R_status None [Par Inout_ "options" (Ptr (Ty "OrtSessionOptions"));
      Par No_sal "graph_optimization_level" (Ty "GraphOptimizationLevel")];
    Slot "SetIntraOpNumThreads" R_status None [Par Inout_ "options" (Ptr (Ty "OrtSessionOptions"));
      Par No_sal "intra_op_num_threads" (Ty "int")];
    Slot "SetInterOpNumThreads" R_status None [Par Inout_ "options" (Ptr (Ty "OrtSessionOptions"));
      Par No_sal "inter_op_num_threads" (Ty "int")];
    Slot "CreateCustomOpDomain" R_status None [Par In_ "domain" (Ptr (Const (Ty "char")));
      Par Outptr_ "out" (Ptr (Ptr (Ty "OrtCustomOpDomain")))];
    Slot "CustomOpDomain_Add" R_status None [Par Inout_ "custom_op_domain" (Ptr (Ty "OrtCustomOpDomain"));
      Par In_ "op" (Ptr (Const (Ty "OrtCustomOp")))];
    Slot "AddCustomOpDomain" R_status None [Par Inout_ "options" (Ptr (Ty "OrtSessionOptions"));
      Par In_ "custom_op_domain" (Ptr (Ty "OrtCustomOpDomain"))];
    Slot "RegisterCustomOpsLibrary" R_status None [Par Inout_ "options" (Ptr (Ty "OrtSessionOptions"));
      Par In_ "library_path" (Ptr (Const (Ty "char"))); Par Outptr_ "library_handle" (Ptr (Ptr (Ty "void")))];
    Slot "SessionGetInputCount" R_status None [Par In_ "session" (Ptr (Const (Ty "OrtSession")));
      Par Out_ "out" (Ptr (Ty "size_t"))];
    Slot "SessionGetOutputCount" R_status None [Par In_ "session" (Ptr (Const (Ty "OrtSession")));
      Par Out_ "out" (Ptr (Ty "size_t"))];
    Slot "SessionGetOverridableInitializerCount" R_status None [Par In_ "session" (Ptr (Const (Ty "OrtSession")));
      Par Out_ "out" (Ptr (Ty "size_t"))];
    Slot "SessionGetInputTypeInfo" R_status None [Par In_ "session" (Ptr (Const (Ty "OrtSession")));
      Par No_sal "index" (Ty "size_t"); Par Outptr_ "type_info" (Ptr (Ptr (Ty "OrtTypeInfo")))] ].

(** Lines 1162-1302. *)
Definition ort_slots_4 : list slot :=
  [ Slot "SessionGetOutputTypeInfo" R_status None [Par In_ "session" (Ptr (Const (Ty "OrtSession")));
      Par No_sal "index" (Ty "size_t"); Par Outptr_ "type_info" (Ptr (Ptr (Ty "OrtTypeInfo")))];
    Slot "SessionGetOverridableInitializerTypeInfo" R_status None [Par In_ "session" (Ptr (Const (Ty "OrtSession")));
      Par No_sal "index" (Ty "size_t"); Par Outptr_ "type_info" (Ptr (Ptr (Ty "OrtTypeInfo")))];
    Slot "SessionGetInputName" R_status None [Par In_ "session" (Ptr (Const (Ty "OrtSession")));
      Par No_sal "index" (Ty "size_t"); Par Inout_ "allocator" (Ptr (Ty "OrtAllocator"));
      Par Outptr_ "value" (Ptr (Ptr (Ty "char")))];
    Slot "SessionGetOutputName" R_status None [Par In_ "session" (Ptr (Const (Ty "OrtSession")));
      Par No_sal "index" (Ty "size_t"); Par Inout_ "allocator" (Ptr (Ty "OrtAllocator"));
      Par Outptr_ "value" (Ptr (Ptr (Ty "char")))];
    Slot "SessionGetOverridableInitializerName" R_status None [Par In_ "session" (Ptr (Const (Ty "OrtSession")));
      Par No_sal "index" (Ty "size_t"); Par Inout_ "allocator" (Ptr (Ty "OrtAllocator"));
      Par Outptr_ "value" (Ptr (Ptr (Ty "char")))];
    Slot "CreateRunOptions" R_status None [Par Outptr_ "out" (Ptr (Ptr (Ty "OrtRunOptions")))];
    Slot "RunOptionsSetRunLogVerbosityLevel" R_status None [Par Inout_ "options" (Ptr (Ty "OrtRunOptions"));
      Par No_sal "log_verbosity_level" (Ty "int")];
    Slot "RunOptionsSetRunLogSeverityLevel" R_status None [Par Inout_ "options" (Ptr (Ty "OrtRunOptions"));
      Par No_sal "log_severity_level" (Ty "int")];
    Slot "RunOptionsSetRunTag" R_status None [Par Inout_ "options" (Ptr (Ty "OrtRunOptions"));
      Par In_ "run_tag" (Ptr (Const (Ty "char")))];
    Slot "RunOptionsGetRunLogVerbosityLevel" R_status None [Par In_ "options" (Ptr (Const (Ty "OrtRunOptions")));
      Par Out_ "log_verbosity_level" (Ptr (Ty "int"))];
    Slot "RunOptionsGetRunLogSeverityLevel" R_status None [Par In_ "options" (Ptr (Const (Ty "OrtRunOptions")));
      Par Out_ "log_severity_level" (Ptr (Ty "int"))];
    Slot "RunOptionsGetRunTag" R_status None [Par In_ "options" (Ptr (Const (Ty "OrtRunOptions")));
      Par Out_ "run_tag" (Ptr (Ptr (Const (Ty "char"))))];
    Slot "RunOptionsSetTerminate" R_status None [Par Inout_ "options" (Ptr (Ty "OrtRunOptions"))] ].

(** Lines 1303-1450. *)
Definition ort_slots_5 : list slot :=
  [ Slot "RunOptionsUnsetTerminate" R_status None [Par Inout_ "options" (Ptr (Ty "OrtRunOptions"))];
    Slot "CreateTensorAsOrtValue" R_status None [Par Inout_ "allocator" (Ptr (Ty "OrtAllocator"));
      Par In_ "shape" (Ptr (Const (Ty "int64_t"))); Par No_sal "shape_len" (Ty "size_t");
      Par No_sal "type" (Ty "ONNXTensorElementDataType"); Par Outptr_ "out" (Ptr (Ptr (Ty "OrtValue")))];
    Slot "CreateTensorWithDataAsOrtValue" R_status None [Par In_ "info" (Ptr (Const (Ty "OrtMemoryInfo")));
      Par Inout_ "p_data" (Ptr (Ty "void")); Par No_sal "p_data_len" (Ty "size_t");
      Par In_ "shape" (Ptr (Const (Ty "int64_t"))); Par No_sal "shape_len" (Ty "size_t");
      Par No_sal "type" (Ty "ONNXTensorElementDataType"); Par Outptr_ "out" (Ptr (Ptr (Ty "OrtValue")))];
    Slot "IsTensor" R_status None [Par In_ "value" (Ptr (Const (Ty "OrtValue"))); Par Out_ "out" (Ptr (Ty "int"))];
    Slot "GetTensorMutableData" R_status None [Par In_ "value" (Ptr (Ty "OrtValue"));
      Par Outptr_ "out" (Ptr (Ptr (Ty "void")))];
    Slot "FillStringTensor" R_status None [Par Inout_ "value" (Ptr (Ty "OrtValue"));
      Par In_ "s" (Ptr (Const (Ptr (Const (Ty "char"))))); Par No_sal "s_len" (Ty "size_t")];
    Slot "GetStringTensorDataLength" R_status None [Par In_ "value" (Ptr (Const (Ty "OrtValue")));
      Par Out_ "len" (Ptr (Ty "size_t"))];
    Slot "GetStringTensorContent" R_status None [Par In_ "value" (Ptr (Const (Ty "OrtValue")));
      Par (Out_writes_bytes_all_ "s_len") "s" (Ptr (Ty "void")); Par No_sal "s_len" (Ty "size_t");
      Par (Out_writes_all_ "offsets_len") "offsets" (Ptr (Ty "size_t")); Par No_sal "offsets_len" (Ty "size_t")];
    Slot "CastTypeInfoToTensorInfo" R_status None [Par In_ "type_info" (Ptr (Const (Ty "OrtTypeInfo")));
      Par Outptr_result_maybenull_ "out" (Ptr (Ptr (Const (Ty "OrtTensorTypeAndShapeInfo"))))];
    Slot "GetOnnxTypeFromTypeInfo" R_status None [Par In_ "type_info" (Ptr (Const (Ty "OrtTypeInfo")));
      Par Out_ "out" (Ptr (Ty "ONNXType"))];
    Slot "CreateTensorTypeAndShapeInfo" R_status None [Par Outptr_ "out" (Ptr (Ptr (Ty "OrtTensorTypeAndShapeInfo")))] ].

(** Lines 1451-1593. *)
Definition ort_slots_6 : list slot :=
  [ Slot "SetTensorElementType" R_status None [Par Inout_ "info" (Ptr (Ty "OrtTensorTypeAndShapeInfo"));
      Par No_sal "type" (Ty "ONNXTensorElementDataType")];
    Slot "SetDimensions" R_status None [Par No_sal "info" (Ptr (Ty "OrtTensorTypeAndShapeInfo"));
      Par In_ "dim_values" (Ptr (Const (Ty "int64_t"))); Par No_sal "dim_count" (Ty "size_t")];
    Slot "GetTensorElementType" R_status None [Par In_ "info" (Ptr (Const (Ty "OrtTensorTypeAndShapeInfo")));
      Par Out_ "out" (Ptr (Ty "ONNXTensorElementDataType"))];
    Slot "GetDimensionsCount" R_status None [Par In_ "info" (Ptr (Const (Ty "OrtTensorTypeAndShapeInfo")));
      Par Out_ "out" (Ptr (Ty "size_t"))];
    Slot "GetDimensions" R_status None [Par In_ "info" (Ptr (Const (Ty "OrtTensorTypeAndShapeInfo")));
      Par Out_ "dim_values" (Ptr (Ty "int64_t")); Par No_sal "dim_values_length" (Ty "size_t")];
    Slot "GetSymbolicDimensions" R_status None [Par In_ "info" (Ptr (Const (Ty "OrtTensorTypeAndShapeInfo")));
      Par (Out_writes_all_ "dim_params_length") "dim_params" (Ptr (Ptr (Const (Ty "char"))));
      Par No_sal "dim_params_length" (Ty "size_t")];
    Slot "GetTensorShapeElementCount" R_status None [Par In_ "info" (Ptr (Const (Ty "OrtTensorTypeAndShapeInfo")));
      Par Out_ "out" (Ptr (Ty "size_t"))];
    Slot "GetTensorTypeAndShape" R_status None [Par In_ "value" (Ptr (Const (Ty "OrtValue")));
      Par Outptr_ "out" (Ptr (Ptr (Ty "OrtTensorTypeAndShapeInfo")))];
    Slot "GetTypeInfo" R_status None [Par In_ "value" (Ptr (Const (Ty "OrtValue")));
      Par Outptr_result_maybenull_ "out" (Ptr (Ptr (Ty "OrtTypeInfo")))];
    Slot "GetValueType" R_status None [Par In_ "value" (Ptr (Const (Ty "OrtValue")));
      Par Out_ "out" (Ptr (Ty "ONNXType"))];
    Slot "CreateMemoryInfo" R_status None [Par In_ "name" (Ptr (Const (Ty "char")));
      Par No_sal "type" (Ty "OrtAllocatorType"); Par No_sal "id" (Ty "int");
      Par No_sal "mem_type" (Ty "OrtMemType"); Par Outptr_ "out" (Ptr (Ptr (Ty "OrtMemoryInfo")))];
    Slot "CreateCpuMemoryInfo" R_status None [Par No_sal "type" (Ty "OrtAllocatorType");
      Par No_sal "mem_type" (Ty "OrtMemType"); Par Outptr_ "out" (Ptr (Ptr (Ty "OrtMemoryInfo")))] ].

(** Lines 1594-1742. *)
Definition ort_slots_7 : list slot :=
  [ Slot "CompareMemoryInfo" R_status None [Par In_ "info1" (Ptr (Const (Ty "OrtMemoryInfo")));
      Par In_ "info2" (Ptr (Const (Ty "OrtMemoryInfo"))); Par Out_ "out" (Ptr (Ty "int"))];
    Slot "MemoryInfoGetName" R_status None [Par In_ "ptr" (Ptr (Const (Ty "OrtMemoryInfo")));
      Par Out_ "out" (Ptr (Ptr (Const (Ty "char"))))];
    Slot "MemoryInfoGetId" R_status None [Par In_ "ptr" (Ptr (Const (Ty "OrtMemoryInfo")));
      Par Out_ "out" (Ptr (Ty "int"))];
    Slot "MemoryInfoGetMemType" R_status None [Par In_ "ptr" (Ptr (Const (Ty "OrtMemoryInfo")));
      Par Out_ "out" (Ptr (Ty "OrtMemType"))];
    Slot "MemoryInfoGetType" R_status None [Par In_ "ptr" (Ptr (Const (Ty "OrtMemoryInfo")));
      Par Out_ "out" (Ptr (Ty "OrtAllocatorType"))];
    Slot "AllocatorAlloc" R_status None [Par Inout_ "ort_allocator" (Ptr (Ty "OrtAllocator"));
      Par No_sal "size" (Ty "size_t"); Par Outptr_ "out" (Ptr (Ptr (Ty "void")))];
    Slot "AllocatorFree" R_status None [Par Inout_ "ort_allocator" (Ptr (Ty "OrtAllocator"));
      Par No_sal "p" (Ptr (Ty "void"))];
    Slot "AllocatorGetInfo" R_status None [Par In_ "ort_allocator" (Ptr (Const (Ty "OrtAllocator")));
      Par Outptr_ "out" (Ptr (Ptr (Const (Ty "OrtMemoryInfo"))))];
    Slot "GetAllocatorWithDefaultOptions" R_status None [Par Outptr_ "out" (Ptr (Ptr (Ty "OrtAllocator")))];
    Slot "AddFreeDimensionOverride" R_status None [Par Inout_ "options" (Ptr (Ty "OrtSessionOptions"));
      Par In_ "dim_denotation" (Ptr (Const (Ty "char"))); Par In_ "dim_value" (Ty "int64_t")];
    Slot "GetValue" R_status None [Par In_ "value" (Ptr (Const (Ty "OrtValue"))); Par No_sal "index" (Ty "int");
      Par Inout_ "allocator" (Ptr (Ty "OrtAllocator")); Par Outptr_ "out" (Ptr (Ptr (Ty "OrtValue")))];
    Slot "GetValueCount" R_status None [Par In_ "value" (Ptr (Const (Ty "OrtValue")));
      Par Out_ "out" (Ptr (Ty "size_t"))];
    Slot "CreateValue" R_status None [Par (In_reads_ "num_values") "in" (Ptr (Const (Ptr (Const (Ty "OrtValue")))));
      Par No_sal "num_values" (Ty "size_t"); Par No_sal "value_type" (Ty "ONNXType");
      Par Outptr_ "out" (Ptr (Ptr (Ty "OrtValue")))] ].

(** Lines 1743-1890. *)
Definition ort_slots_8 : list slot :=
  [ Slot "CreateOpaqueValue" R_status None [Par In_z_ "domain_name" (Ptr (Const (Ty "char")));
      Par In_z_ "type_name" (Ptr (Const (Ty "char"))); Par In_ "data_container" (Ptr (Const (Ty "void")));
      Par No_sal "data_container_size" (Ty "size_t"); Par Outptr_ "out" (Ptr (Ptr (Ty "OrtValue")))];
    Slot "GetOpaqueValue" R_status None [Par In_ "domain_name" (Ptr (Const (Ty "char")));
      Par In_ "type_name" (Ptr (Const (Ty "char"))); Par In_ "in" (Ptr (Const (Ty "OrtValue")));
      Par Out_ "data_container" (Ptr (Ty "void")); Par No_sal "data_container_size" (Ty "size_t")];
    Slot "KernelInfoGetAttribute_float" R_status None [Par In_ "info" (Ptr (Const (Ty "OrtKernelInfo")));
      Par In_ "name" (Ptr (Const (Ty "char"))); Par Out_ "out" (Ptr (Ty "float"))];
    Slot "KernelInfoGetAttribute_int64" R_status None [Par In_ "info" (Ptr (Const (Ty "OrtKernelInfo")));
      Par In_ "name" (Ptr (Const (Ty "char"))); Par Out_ "out" (Ptr (Ty "int64_t"))];
    Slot "KernelInfoGetAttribute_string" R_status None [Par In_ "info" (Ptr (Const (Ty "OrtKernelInfo")));
      Par In_ "name" (Ptr (Const (Ty "char"))); Par Out_ "out" (Ptr (Ty "char")); Par Inout_ "size" (Ptr (Ty "size_t"))];
    Slot "KernelContext_GetInputCount" R_status None [Par In_ "context" (Ptr (Const (Ty "OrtKernelContext")));
      Par Out_ "out" (Ptr (Ty "size_t"))];
    Slot "KernelContext_GetOutputCount" R_status None [Par In_ "context" (Ptr (Const (Ty "OrtKernelContext")));
      Par Out_ "out" (Ptr (Ty "size_t"))];
    Slot "KernelContext_GetInput" R_status None [Par In_ "context" (Ptr (Const (Ty "OrtKernelContext")));
      Par In_ "index" (Ty "size_t"); Par Out_ "out" (Ptr (Ptr (Const (Ty "OrtValue"))))];
    Slot "KernelContext_GetOutput" R_status None [Par Inout_ "context" (Ptr (Ty "OrtKernelContext"));
      Par In_ "index" (Ty "size_t"); Par In_ "dim_values" (Ptr (Const (Ty "int64_t")));
      Par No_sal "dim_count" (Ty "size_t"); Par Outptr_ "out" (Ptr (Ptr (Ty "OrtValue")))];
    Slot "ReleaseEnv" R_void None [Par Frees_ptr_opt_ "input" (Ptr (Ty "OrtEnv"))];
    Slot "ReleaseStatus" R_void None [Par Frees_ptr_opt_ "input" (Ptr (Ty "OrtStatus"))] ].

(** Lines 1891-2040. *)
Definition ort_slots_9 : list slot :=
  [ Slot "ReleaseMemoryInfo" R_void None [Par Frees_ptr_opt_ "input" (Ptr (Ty "OrtMemoryInfo"))];
    Slot "ReleaseSession" R_void None [Par Frees_ptr_opt_ "input" (Ptr (Ty "OrtSession"))];
    Slot "ReleaseValue" R_void None [Par Frees_ptr_opt_ "input" (Ptr (Ty "OrtValue"))];
    Slot "ReleaseRunOptions" R_void None [Par Frees_ptr_opt_ "input" (Ptr (Ty "OrtRunOptions"))];
    Slot "ReleaseTypeInfo" R_void None [Par Frees_ptr_opt_ "input" (Ptr (Ty "OrtTypeInfo"))];
    Slot "ReleaseTensorTypeAndShapeInfo" R_void None [Par Frees_ptr_opt_ "input" (Ptr (Ty "OrtTensorTypeAndShapeInfo"))];
    Slot "ReleaseSessionOptions" R_void None [Par Frees_ptr_opt_ "input" (Ptr (Ty "OrtSessionOptions"))];
    Slot "ReleaseCustomOpDomain" R_void None [Par Frees_ptr_opt_ "input" (Ptr (Ty "OrtCustomOpDomain"))];
    Slot "GetDenotationFromTypeInfo" R_status None [Par In_ "type_info" (Ptr (Const (Ty "OrtTypeInfo")));
      Par Out_ "denotation" (Const (Ptr (Ptr (Const (Ty "char"))))); Par Out_ "len" (Ptr (Ty "size_t"))];
    Slot "CastTypeInfoToMapTypeInfo" R_status None [Par In_ "type_info" (Ptr (Const (Ty "OrtTypeInfo")));
      Par Outptr_result_maybenull_ "out" (Ptr (Ptr (Const (Ty "OrtMapTypeInfo"))))];
    Slot "CastTypeInfoToSequenceTypeInfo" R_status None [Par In_ "type_info" (Ptr (Const (Ty "OrtTypeInfo")));
      Par Outptr_result_maybenull_ "out" (Ptr (Ptr (Const (Ty "OrtSequenceTypeInfo"))))];
    Slot "GetMapKeyType" R_status None [Par In_ "map_type_info" (Ptr (Const (Ty "OrtMapTypeInfo")));
      Par Out_ "out" (Ptr (Ty "ONNXTensorElementDataType"))];
    Slot "GetMapValueType" R_status None [Par In_ "map_type_info" (Ptr (Const (Ty "OrtMapTypeInfo")));
      Par Outptr_ "type_info" (Ptr (Ptr (Ty "OrtTypeInfo")))];
    Slot "GetSequenceElementType" R_status None [Par In_ "sequence_type_info" (Ptr (Const (Ty "OrtSequenceTypeInfo")));
      Par Outptr_ "type_info" (Ptr (Ptr (Ty "OrtTypeInfo")))];
    Slot "ReleaseMapTypeInfo" R_void None [Par Frees_ptr_opt_ "input" (Ptr (Ty "OrtMapTypeInfo"))];
    Slot "ReleaseSequenceTypeInfo" R_void None [Par Frees_ptr_opt_ "input" (Ptr (Ty "OrtSequenceTypeInfo"))];
    Slot "SessionEndProfiling" R_status None [Par In_ "session" (Ptr (Ty "OrtSession"));
      Par Inout_ "allocator" (Ptr (Ty "OrtAllocator")); Par Outptr_ "out" (Ptr (Ptr (Ty "char")))] ].

(** Lines 2041-2187. *)
Definition ort_slots_10 : list slot :=
  [ Slot "SessionGetModelMetadata" R_status None [Par In_ "session" (Ptr (Const (Ty "OrtSession")));
      Par Outptr_ "out" (Ptr (Ptr (Ty "OrtModelMetadata")))];
    Slot "ModelMetadataGetProducerName" R_status None [Par In_ "model_metadata" (Ptr (Const (Ty "OrtModelMetadata")));
      Par Inout_ "allocator" (Ptr (Ty "OrtAllocator")); Par Outptr_ "value" (Ptr (Ptr (Ty "char")))];
    Slot "ModelMetadataGetGraphName" R_status None [Par In_ "model_metadata" (Ptr (Const (Ty "OrtModelMetadata")));
      Par Inout_ "allocator" (Ptr (Ty "OrtAllocator")); Par Outptr_ "value" (Ptr (Ptr (Ty "char")))];
    Slot "ModelMetadataGetDomain" R_status None [Par In_ "model_metadata" (Ptr (Const (Ty "OrtModelMetadata")));
      Par Inout_ "allocator" (Ptr (Ty "OrtAllocator")); Par Outptr_ "value" (Ptr (Ptr (Ty "char")))];
    Slot "ModelMetadataGetDescription" R_status None [Par In_ "model_metadata" (Ptr (Const (Ty "OrtModelMetadata")));
      Par Inout_ "allocator" (Ptr (Ty "OrtAllocator")); Par Outptr_ "value" (Ptr (Ptr (Ty "char")))];
    Slot "ModelMetadataLookupCustomMetadataMap" R_status None [Par In_ "model_metadata" (Ptr (Const (Ty "OrtModelMetadata")));
      Par Inout_ "allocator" (Ptr (Ty "OrtAllocator")); Par In_ "key" (Ptr (Const (Ty "char")));
      Par Outptr_result_maybenull_ "value" (Ptr (Ptr (Ty "char")))];
    Slot "ModelMetadataGetVersion" R_status None [Par In_ "model_metadata" (Ptr (Const (Ty "OrtModelMetadata")));
      Par Out_ "value" (Ptr (Ty "int64_t"))];
    Slot "ReleaseModelMetadata" R_void None [Par Frees_ptr_opt_ "input" (Ptr (Ty "OrtModelMetadata"))];
    Slot "CreateEnvWithGlobalThreadPools" R_status None [Par No_sal "log_severity_level" (Ty "OrtLoggingLevel");
      Par In_ "logid" (Ptr (Const (Ty "char"))); Par In_ "tp_options" (Ptr (Const (Ty "OrtThreadingOptions")));
      Par Outptr_ "out" (Ptr (Ptr (Ty "OrtEnv")))];
    Slot "DisablePerSessionThreads" R_status None [Par Inout_ "options" (Ptr (Ty "OrtSessionOptions"))];
    Slot "CreateThreadingOptions" R_status None [Par Outptr_ "out" (Ptr (Ptr (Ty "OrtThreadingOptions")))];
    Slot "ReleaseThreadingOptions" R_void None [Par Frees_ptr_opt_ "input" (Ptr (Ty "OrtThreadingOptions"))];
    Slot "ModelMetadataGetCustomMetadataMapKeys" R_status None [Par In_ "model_metadata" (Ptr (Const (Ty "OrtModelMetadata")));
      Par Inout_ "allocator" (Ptr (Ty "OrtAllocator"));
      Par (Outptr_result_buffer_maybenull_ "*num_keys") "keys" (Ptr (Ptr (Ptr (Ty "char"))));
      Par Out_ "num_keys" (Ptr (Ty "int64_t"))] ].

(** Lines 2188-2332. *)
Definition ort_slots_11 : list slot :=
  [ Slot "AddFreeDimensionOverrideByName" R_status None [Par Inout_ "options" (Ptr (Ty "OrtSessionOptions"));
      Par In_ "dim_name" (Ptr (Const (Ty "char"))); Par In_ "dim_value" (Ty "int64_t")];
    Slot "GetAvailableProviders" R_status None [Par Outptr_ "out_ptr" (Ptr (Ptr (Ptr (Ty "char"))));
      Par Out_ "provider_length" (Ptr (Ty "int"))];
    Slot "ReleaseAvailableProviders" R_status None [Par In_ "ptr" (Ptr (Ptr (Ty "char")));
      Par In_ "providers_length" (Ty "int")];
    Slot "GetStringTensorElementLength" R_status None [Par In_ "value" (Ptr (Const (Ty "OrtValue")));
      Par No_sal "index" (Ty "size_t"); Par Out_ "out" (Ptr (Ty "size_t"))];
    Slot "GetStringTensorElement" R_status None [Par In_ "value" (Ptr (Const (Ty "OrtValue")));
      Par No_sal "s_len" (Ty "size_t"); Par No_sal "index" (Ty "size_t");
      Par (Out_writes_bytes_all_ "s_len") "s" (Ptr (Ty "void"))];
    Slot "FillStringTensorElement" R_status None [Par Inout_ "value" (Ptr (Ty "OrtValue"));
      Par In_ "s" (Ptr (Const (Ty "char"))); Par No_sal "index" (Ty "size_t")];
    Slot "AddSessionConfigEntry" R_status None [Par Inout_ "options" (Ptr (Ty "OrtSessionOptions"));
      Par In_z_ "config_key" (Ptr (Const (Ty "char"))); Par In_z_ "config_value" (Ptr (Const (Ty "char")))];
    Slot "CreateAllocator" R_status None [Par In_ "session" (Ptr (Const (Ty "OrtSession")));
      Par In_ "mem_info" (Ptr (Const (Ty "OrtMemoryInfo"))); Par Outptr_ "out" (Ptr (Ptr (Ty "OrtAllocator")))];
    Slot "ReleaseAllocator" R_void None [Par Frees_ptr_opt_ "input" (Ptr (Ty "OrtAllocator"))];
    Slot "RunWithBinding" R_status None [Par Inout_ "session" (Ptr (Ty "OrtSession"));
      Par In_ "run_options" (Ptr (Const (Ty "OrtRunOptions"))); Par In_ "binding_ptr" (Ptr (Const (Ty "OrtIoBinding")))];
    Slot "CreateIoBinding" R_status None [Par Inout_ "session" (Ptr (Ty "OrtSession"));
      Par Outptr_ "out" (Ptr (Ptr (Ty "OrtIoBinding")))] ].

(** Lines 2333-2470. *)
Definition ort_slots_12 : list slot :=
  [ Slot "ReleaseIoBinding" R_void None [Par Frees_ptr_opt_ "input" (Ptr (Ty "OrtIoBinding"))];
    Slot "BindInput" R_status None [Par Inout_ "binding_ptr" (Ptr (Ty "OrtIoBinding"));
      Par In_ "name" (Ptr (Const (Ty "char"))); Par In_ "val_ptr" (Ptr (Const (Ty "OrtValue")))];
    Slot "BindOutput" R_status None [Par Inout_ "binding_ptr" (Ptr (Ty "OrtIoBinding"));
      Par In_ "name" (Ptr (Const (Ty "char"))); Par In_ "val_ptr" (Ptr (Const (Ty "OrtValue")))];
    Slot "BindOutputToDevice" R_status None [Par Inout_ "binding_ptr" (Ptr (Ty "OrtIoBinding"));
      Par In_ "name" (Ptr (Const (Ty "char"))); Par In_ "mem_info_ptr" (Ptr (Const (Ty "OrtMemoryInfo")))];
    Slot "GetBoundOutputNames" R_status None [Par In_ "binding_ptr" (Ptr (Const (Ty "OrtIoBinding")));
      Par In_ "allocator" (Ptr (Ty "OrtAllocator")); Par Out_ "buffer" (Ptr (Ptr (Ty "char")));
      Par (Out_writes_all_ "count") "lengths" (Ptr (Ptr (Ty "size_t"))); Par Out_ "count" (Ptr (Ty "size_t"))];
    Slot "GetBoundOutputValues" R_status None [Par In_ "binding_ptr" (Ptr (Const (Ty "OrtIoBinding")));
      Par In_ "allocator" (Ptr (Ty "OrtAllocator"));
      Par (Out_writes_all_ "output_count") "output" (Ptr (Ptr (Ptr (Ty "OrtValue"))));
      Par Out_ "output_count" (Ptr (Ty "size_t"))];
    Slot "ClearBoundInputs" R_void None [Par Inout_ "binding_ptr" (Ptr (Ty "OrtIoBinding"))];
    Slot "ClearBoundOutputs" R_void None [Par Inout_ "binding_ptr" (Ptr (Ty "OrtIoBinding"))];
    Slot "TensorAt" R_status None [Par Inout_ "value" (Ptr (Ty "OrtValue"));
      Par No_sal "location_values" (Ptr (Const (Ty "int64_t"))); Par No_sal "location_values_count" (Ty "size_t");
      Par Outptr_ "out" (Ptr (Ptr (Ty "void")))];
    Slot "CreateAndRegisterAllocator" R_status None [Par Inout_ "env" (Ptr (Ty "OrtEnv"));
      Par In_ "mem_info" (Ptr (Const (Ty "OrtMemoryInfo"))); Par In_ "arena_cfg" (Ptr (Const (Ty "OrtArenaCfg")))] ].

(** Lines 2471-2614. *)
Definition ort_slots_13 : list slot :=
  [ Slot "SetLanguageProjection" R_status None [Par In_ "ort_env" (Ptr (Const (Ty "OrtEnv")));
      Par In_ "projection" (Ty "OrtLanguageProjection")];
    Slot "SessionGetProfilingStartTimeNs" R_status None [Par In_ "session" (Ptr (Const (Ty "OrtSession")));
      Par Outptr_ "out" (Ptr (Ty "uint64_t"))];
    Slot "SetGlobalIntraOpNumThreads" R_status None [Par Inout_ "tp_options" (Ptr (Ty "OrtThreadingOptions"));
      Par No_sal "intra_op_num_threads" (Ty "int")];
    Slot "SetGlobalInterOpNumThreads" R_status None [Par Inout_ "tp_options" (Ptr (Ty "OrtThreadingOptions"));
      Par No_sal "inter_op_num_threads" (Ty "int")];
    Slot "SetGlobalSpinControl" R_status None [Par Inout_ "tp_options" (Ptr (Ty "OrtThreadingOptions"));
      Par No_sal "allow_spinning" (Ty "int")];
    Slot "AddInitializer" R_status None [Par Inout_ "options" (Ptr (Ty "OrtSessionOptions"));
      Par In_z_ "name" (Ptr (Const (Ty "char"))); Par In_ "val" (Ptr (Const (Ty "OrtValue")))];
    Slot "CreateEnvWithCustomLoggerAndGlobalThreadPools" R_status None [Par No_sal "logging_function" (Ty "OrtLoggingFunction");
      Par In_opt_ "logger_param" (Ptr (Ty "void")); Par No_sal "log_severity_level" (Ty "OrtLoggingLevel");
      Par In_ "logid" (Ptr (Const (Ty "char"))); Par In_ "tp_options" (Ptr (Const (Ty "OrtThreadingOptions")));
      Par Outptr_ "out" (Ptr (Ptr (Ty "OrtEnv")))];
    Slot "SessionOptionsAppendExecutionProvider_CUDA" R_status None [Par In_ "options" (Ptr (Ty "OrtSessionOptions"));
      Par In_ "cuda_options" (Ptr (Const (Ty "OrtCUDAProviderOptions")))];
    Slot "SessionOptionsAppendExecutionProvider_ROCM" R_status None [Par In_ "options" (Ptr (Ty "OrtSessionOptions"));
      Par In_ "rocm_options" (Ptr (Const (Ty "OrtROCMProviderOptions")))] ].

(** Lines 2615-2755. *)
Definition ort_slots_14 : list slot :=
  [ Slot "SessionOptionsAppendExecutionProvider_OpenVINO" R_status None [Par In_ "options" (Ptr (Ty "OrtSessionOptions"));
      Par In_ "provider_options" (Ptr (Const (Ty "OrtOpenVINOProviderOptions")))];
    Slot "SetGlobalDenormalAsZero" R_status None [Par Inout_ "tp_options" (Ptr (Ty "OrtThreadingOptions"))];
    Slot "CreateArenaCfg" R_status None [Par In_ "max_mem" (Ty "size_t");
      Par No_sal "arena_extend_strategy" (Ty "int"); Par No_sal "initial_chunk_size_bytes" (Ty "int");
      Par No_sal "max_dead_bytes_per_chunk" (Ty "int"); Par Outptr_ "out" (Ptr (Ptr (Ty "OrtArenaCfg")))];
    Slot "ReleaseArenaCfg" R_void None [Par Frees_ptr_opt_ "input" (Ptr (Ty "OrtArenaCfg"))];
    Slot "ModelMetadataGetGraphDescription" R_status None [Par In_ "model_metadata" (Ptr (Const (Ty "OrtModelMetadata")));
      Par Inout_ "allocator" (Ptr (Ty "OrtAllocator")); Par Outptr_ "value" (Ptr (Ptr (Ty "char")))];
    Slot "SessionOptionsAppendExecutionProvider_TensorRT" R_status None [Par In_ "options" (Ptr (Ty "OrtSessionOptions"));
      Par In_ "tensorrt_options" (Ptr (Const (Ty "OrtTensorRTProviderOptions")))];
    Slot "SetCurrentGpuDeviceId" R_status None [Par In_ "device_id" (Ty "int")];
    Slot "GetCurrentGpuDeviceId" R_status None [Par In_ "device_id" (Ptr (Ty "int"))];
    Slot "KernelInfoGetAttributeArray_float" R_status None [Par In_ "info" (Ptr (Const (Ty "OrtKernelInfo")));
      Par In_ "name" (Ptr (Const (Ty "char"))); Par Out_ "out" (Ptr (Ty "float"));
      Par Inout_ "size" (Ptr (Ty "size_t"))] ].

(** Lines 2756-2886. *)
Definition ort_slots_15 : list slot :=
  [ Slot "KernelInfoGetAttributeArray_int64" R_status None [Par In_ "info" (Ptr (Const (Ty "OrtKernelInfo")));
      Par In_ "name" (Ptr (Const (Ty "char"))); Par Out_ "out" (Ptr (Ty "int64_t"));
      Par Inout_ "size" (Ptr (Ty "size_t"))];
    Slot "CreateArenaCfgV2" R_status None [Par (In_reads_ "num_keys") "arena_config_keys" (Ptr (Const (Ptr (Const (Ty "char")))));
      Par (In_reads_ "num_keys") "arena_config_values" (Ptr (Const (Ty "size_t"))); Par In_ "num_keys" (Ty "size_t");
      Par Outptr_ "out" (Ptr (Ptr (Ty "OrtArenaCfg")))];
    Slot "AddRunConfigEntry" R_status None [Par Inout_ "options" (Ptr (Ty "OrtRunOptions"));
      Par In_z_ "config_key" (Ptr (Const (Ty "char"))); Par In_z_ "config_value" (Ptr (Const (Ty "char")))];
    Slot "CreatePrepackedWeightsContainer" R_status None [Par Outptr_ "out" (Ptr (Ptr (Ty "OrtPrepackedWeightsContainer")))];
    Slot "ReleasePrepackedWeightsContainer" R_void None [Par Frees_ptr_opt_ "input" (Ptr (Ty "OrtPrepackedWeightsContainer"))];
    Slot "CreateSessionWithPrepackedWeightsContainer" R_status None [Par In_ "env" (Ptr (Const (Ty "OrtEnv")));
      Par In_ "model_path" (Ptr (Const (Ty "ORTCHAR_T"))); Par In_ "options" (Ptr (Const (Ty "OrtSessionOptions")));
      Par Inout_ "prepacked_weights_container" (Ptr (Ty "OrtPrepackedWeightsContainer"));
      Par Outptr_ "out" (Ptr (Ptr (Ty "OrtSession")))] ].

(** Lines 2887-3030. *)
Definition ort_slots_16 : list slot :=
  [ Slot "CreateSessionFromArrayWithPrepackedWeightsContainer" R_status None [Par In_ "env" (Ptr (Const (Ty "OrtEnv")));
      Par In_ "model_data" (Ptr (Const (Ty "void"))); Par No_sal "model_data_length" (Ty "size_t");
      Par In_ "options" (Ptr (Const (Ty "OrtSessionOptions")));
      Par Inout_ "prepacked_weights_container" (Ptr (Ty "OrtPrepackedWeightsContainer"));
      Par Outptr_ "out" (Ptr (Ptr (Ty "OrtSession")))];
    Slot "SessionOptionsAppendExecutionProvider_TensorRT_V2" R_status None [Par In_ "options" (Ptr (Ty "OrtSessionOptions"));
      Par In_ "tensorrt_options" (Ptr (Const (Ty "OrtTensorRTProviderOptionsV2")))];
    Slot "CreateTensorRTProviderOptions" R_status None [Par Outptr_ "out" (Ptr (Ptr (Ty "OrtTensorRTProviderOptionsV2")))];
    Slot "UpdateTensorRTProviderOptions" R_status None [Par Inout_ "tensorrt_options" (Ptr (Ty "OrtTensorRTProviderOptionsV2"));
      Par (In_reads_ "num_keys") "provider_options_keys" (Ptr (Const (Ptr (Const (Ty "char")))));
      Par (In_reads_ "num_keys") "provider_options_values" (Ptr (Const (Ptr (Const (Ty "char")))));
      Par In_ "num_keys" (Ty "size_t")];
    Slot "GetTensorRTProviderOptionsAsString" R_status None [Par In_ "tensorrt_options" (Ptr (Const (Ty "OrtTensorRTProviderOptionsV2")));
      Par Inout_ "allocator" (Ptr (Ty "OrtAllocator")); Par Outptr_ "ptr" (Ptr (Ptr (Ty "char")))];
    Slot "ReleaseTensorRTProviderOptions" R_void None [Par Frees_ptr_opt_ "input" (Ptr (Ty "OrtTensorRTProviderOptionsV2"))];
    Slot "EnableOrtCustomOps" R_status None [Par Inout_ "options" (Ptr (Ty "OrtSessionOptions"))];
    Slot "RegisterAllocator" R_status None [Par Inout_ "env" (Ptr (Ty "OrtEnv"));
      Par In_ "allocator" (Ptr (Ty "OrtAllocator"))];
    Slot "UnregisterAllocator" R_status None [Par Inout_ "env" (Ptr (Ty "OrtEnv"));
      Par In_ "mem_info" (Ptr (Const (Ty "OrtMemoryInfo")))] ].

(** Lines 3031-3176. *)
Definition ort_slots_17 : list slot :=
  [ Slot "IsSparseTensor" R_status None [Par In_ "value" (Ptr (Const (Ty "OrtValue")));
      Par Out_ "out" (Ptr (Ty "int"))];
    Slot "CreateSparseTensorAsOrtValue" R_status None [Par Inout_ "allocator" (Ptr (Ty "OrtAllocator"));
      Par In_ "dense_shape" (Ptr (Const (Ty "int64_t"))); Par No_sal "dense_shape_len" (Ty "size_t");
      Par No_sal "type" (Ty "ONNXTensorElementDataType"); Par Outptr_ "out" (Ptr (Ptr (Ty "OrtValue")))];
    Slot "FillSparseTensorCoo" R_status None [Par Inout_ "ort_value" (Ptr (Ty "OrtValue"));
      Par In_ "data_mem_info" (Ptr (Const (Ty "OrtMemoryInfo"))); Par In_ "values_shape" (Ptr (Const (Ty "int64_t")));
      Par No_sal "values_shape_len" (Ty "size_t"); Par In_ "values" (Ptr (Const (Ty "void")));
      Par In_ "indices_data" (Ptr (Const (Ty "int64_t"))); Par No_sal "indices_num" (Ty "size_t")];
    Slot "FillSparseTensorCsr" R_status None [Par Inout_ "ort_value" (Ptr (Ty "OrtValue"));
      Par In_ "data_mem_info" (Ptr (Const (Ty "OrtMemoryInfo"))); Par In_ "values_shape" (Ptr (Const (Ty "int64_t")));
      Par No_sal "values_shape_len" (Ty "size_t"); Par In_ "values" (Ptr (Const (Ty "void")));
      Par In_ "inner_indices_data" (Ptr (Const (Ty "int64_t"))); Par No_sal "inner_indices_num" (Ty "size_t");
      Par In_ "outer_indices_data" (Ptr (Const (Ty "int64_t"))); Par No_sal "outer_indices_num" (Ty "size_t")];
    Slot "FillSparseTensorBlockSparse" R_status None [Par Inout_ "ort_value" (Ptr (Ty "OrtValue"));
      Par In_ "data_mem_info" (Ptr (Const (Ty "OrtMemoryInfo"))); Par In_ "values_shape" (Ptr (Const (Ty "int64_t")));
      Par No_sal "values_shape_len" (Ty "size_t"); Par In_ "values" (Ptr (Const (Ty "void")));
      Par In_ "indices_shape_data" (Ptr (Const (Ty "int64_t"))); Par No_sal "indices_shape_len" (Ty "size_t");
      Par In_ "indices_data" (Ptr (Const (Ty "int32_t")))];
    Slot "CreateSparseTensorWithValuesAsOrtValue" R_status None [Par In_ "info" (Ptr (Const (Ty "OrtMemoryInfo")));
      Par Inout_ "p_data" (Ptr (Ty "void")); Par In_ "dense_shape" (Ptr (Const (Ty "int64_t")));
      Par No_sal "dense_shape_len" (Ty "size_t"); Par In_ "values_shape" (Ptr (Const (Ty "int64_t")));
      Par No_sal "values_shape_len" (Ty "size_t"); Par No_sal "type" (Ty "ONNXTensorElementDataType");
      Par Outptr_ "out" (Ptr (Ptr (Ty "OrtValue")))];
    Slot "UseCooIndices" R_status None [Par Inout_ "ort_value" (Ptr (Ty "OrtValue"));
      Par Inout_ "indices_data" (Ptr (Ty "int64_t")); Par No_sal "indices_num" (Ty "size_t")] ].

(** Lines 3177-3320. *)
Definition ort_slots_18 : list slot :=
  [ Slot "UseCsrIndices" R_status None [Par Inout_ "ort_value" (Ptr (Ty "OrtValue"));
      Par Inout_ "inner_data" (Ptr (Ty "int64_t")); Par No_sal "inner_num" (Ty "size_t");
      Par Inout_ "outer_data" (Ptr (Ty "int64_t")); Par No_sal "outer_num" (Ty "size_t")];
    Slot "UseBlockSparseIndices" R_status None [Par Inout_ "ort_value" (Ptr (Ty "OrtValue"));
      Par No_sal "indices_shape" (Ptr (Const (Ty "int64_t"))); Par No_sal "indices_shape_len" (Ty "size_t");
      Par Inout_ "indices_data" (Ptr (Ty "int32_t"))];
    Slot "GetSparseTensorFormat" R_status None [Par In_ "ort_value" (Ptr (Const (Ty "OrtValue")));
      Par Out_ "out" (Ptr (Ty "OrtSparseFormat"))];
    Slot "GetSparseTensorValuesTypeAndShape" R_status None [Par In_ "ort_value" (Ptr (Const (Ty "OrtValue")));
      Par Outptr_ "out" (Ptr (Ptr (Ty "OrtTensorTypeAndShapeInfo")))];
    Slot "GetSparseTensorValues" R_status None [Par In_ "ort_value" (Ptr (Const (Ty "OrtValue")));
      Par Outptr_ "out" (Ptr (Ptr (Const (Ty "void"))))];
    Slot "GetSparseTensorIndicesTypeShape" R_status None [Par In_ "ort_value" (Ptr (Const (Ty "OrtValue")));
      Par No_sal "indices_format" (Ty "OrtSparseIndicesFormat");
      Par Outptr_ "out" (Ptr (Ptr (Ty "OrtTensorTypeAndShapeInfo")))];
    Slot "GetSparseTensorIndices" R_status None [Par In_ "ort_value" (Ptr (Const (Ty "OrtValue")));
      Par No_sal "indices_format" (Ty "OrtSparseIndicesFormat"); Par Out_ "num_indices" (Ptr (Ty "size_t"));
      Par Outptr_ "indices" (Ptr (Ptr (Const (Ty "void"))))];
    Slot "HasValue" R_status None [Par In_ "value" (Ptr (Const (Ty "OrtValue"))); Par Out_ "out" (Ptr (Ty "int"))];
    Slot "KernelContext_GetGPUComputeStream" R_status None [Par In_ "context" (Ptr (Const (Ty "OrtKernelContext")));
      Par Outptr_ "out" (Ptr (Ptr (Ty "void")))];
    Slot "GetTensorMemoryInfo" R_status None [Par In_ "value" (Ptr (Const (Ty "OrtValue")));
      Par Out_ "mem_info" (Ptr (Ptr (Const (Ty "OrtMemoryInfo"))))];
    Slot "GetExecutionProviderApi" R_status None [Par In_ "provider_name" (Ptr (Const (Ty "char")));
      Par In_ "version" (Ty "uint32_t"); Par Outptr_ "provider_api" (Ptr (Ptr (Const (Ty "void"))))] ].

(** Lines 3321-3463. *)
Definition ort_slots_19 : list slot :=
  [ Slot "SessionOptionsSetCustomCreateThreadFn" R_status None [Par Inout_ "options" (Ptr (Ty "OrtSessionOptions"));
      Par In_ "ort_custom_create_thread_fn" (Ty "OrtCustomCreateThreadFn")];
    Slot "SessionOptionsSetCustomThreadCreationOptions" R_status None [Par Inout_ "options" (Ptr (Ty "OrtSessionOptions"));
      Par In_ "ort_custom_thread_creation_options" (Ptr (Ty "void"))];
    Slot "SessionOptionsSetCustomJoinThreadFn" R_status None [Par Inout_ "options" (Ptr (Ty "OrtSessionOptions"));
      Par In_ "ort_custom_join_thread_fn" (Ty "OrtCustomJoinThreadFn")];
    Slot "SetGlobalCustomCreateThreadFn" R_status None [Par Inout_ "tp_options" (Ptr (Ty "OrtThreadingOptions"));
      Par In_ "ort_custom_create_thread_fn" (Ty "OrtCustomCreateThreadFn")];
    Slot "SetGlobalCustomThreadCreationOptions" R_status None [Par Inout_ "tp_options" (Ptr (Ty "OrtThreadingOptions"));
      Par In_ "ort_custom_thread_creation_options" (Ptr (Ty "void"))];
    Slot "SetGlobalCustomJoinThreadFn" R_status None [Par Inout_ "tp_options" (Ptr (Ty "OrtThreadingOptions"));
      Par In_ "ort_custom_join_thread_fn" (Ty "OrtCustomJoinThreadFn")];
    Slot "SynchronizeBoundInputs" R_status None [Par Inout_ "binding_ptr" (Ptr (Ty "OrtIoBinding"))];
    Slot "SynchronizeBoundOutputs" R_status None [Par Inout_ "binding_ptr" (Ptr (Ty "OrtIoBinding"))];
    Slot "SessionOptionsAppendExecutionProvider_CUDA_V2" R_status (Some 11) [Par In_ "options" (Ptr (Ty "OrtSessionOptions"));
      Par In_ "cuda_options" (Ptr (Const (Ty "OrtCUDAProviderOptionsV2")))];
    Slot "CreateCUDAProviderOptions" R_status (Some 11) [Par Outptr_ "out" (Ptr (Ptr (Ty "OrtCUDAProviderOptionsV2")))];
    Slot "UpdateCUDAProviderOptions" R_status (Some 11) [Par Inout_ "cuda_options" (Ptr (Ty "OrtCUDAProviderOptionsV2"));
      Par (In_reads_ "num_keys") "provider_options_keys" (Ptr (Const (Ptr (Const (Ty "char")))));
      Par (In_reads_ "num_keys") "provider_options_values" (Ptr (Const (Ptr (Const (Ty "char")))));
      Par In_ "num_keys" (Ty "size_t")] ].

(** Lines 3464-3612. *)
Definition ort_slots_20 : list slot :=
  [ Slot "GetCUDAProviderOptionsAsString" R_status (Some 11) [Par In_ "cuda_options" (Ptr (Const (Ty "OrtCUDAProviderOptionsV2")));
      Par Inout_ "allocator" (Ptr (Ty "OrtAllocator")); Par Outptr_ "ptr" (Ptr (Ptr (Ty "char")))];
    Slot "ReleaseCUDAProviderOptions" R_void (Some 11) [Par Frees_ptr_opt_ "input" (Ptr (Ty "OrtCUDAProviderOptionsV2"))];
    Slot "SessionOptionsAppendExecutionProvider_MIGraphX" R_status (Some 11) [Par In_ "options" (Ptr (Ty "OrtSessionOptions"));
      Par In_ "migraphx_options" (Ptr (Const (Ty "OrtMIGraphXProviderOptions")))];
    Slot "AddExternalInitializers" R_status (Some 12) [Par In_ "options" (Ptr (Ty "OrtSessionOptions"));
      Par (In_reads_ "num_initializers") "initializer_names" (Ptr (Const (Ptr (Const (Ty "char")))));
      Par (In_reads_ "num_initializers") "initializers" (Ptr (Const (Ptr (Const (Ty "OrtValue")))));
      Par No_sal "num_initializers" (Ty "size_t")];
    Slot "CreateOpAttr" R_status (Some 12) [Par In_ "name" (Ptr (Const (Ty "char")));
      Par In_ "data" (Ptr (Const (Ty "void"))); Par In_ "len" (Ty "int"); Par In_ "type" (Ty "OrtOpAttrType");
      Par Outptr_ "op_attr" (Ptr (Ptr (Ty "OrtOpAttr")))];
    Slot "ReleaseOpAttr" R_void (Some 12) [Par Frees_ptr_opt_ "input" (Ptr (Ty "OrtOpAttr"))];
    Slot "CreateOp" R_status (Some 12) [Par In_ "info" (Ptr (Const (Ty "OrtKernelInfo")));
      Par In_z_ "op_name" (Ptr (Const (Ty "char"))); Par In_z_ "domain" (Ptr (Const (Ty "char")));
      Par No_sal "version" (Ty "int");
      Par (In_reads_ "type_constraint_count") "type_constraint_names" (Ptr (Ptr (Const (Ty "char"))));
      Par (In_reads_ "type_constraint_count") "type_constraint_values" (Ptr (Const (Ty "ONNXTensorElementDataType")));
      Par No_sal "type_constraint_count" (Ty "int");
      Par (In_reads_ "attr_count") "attr_values" (Ptr (Const (Ptr (Const (Ty "OrtOpAttr")))));
      Par No_sal "attr_count" (Ty "int"); Par No_sal "input_count" (Ty "int"); Par No_sal "output_count" (Ty "int");
      Par Outptr_ "ort_op" (Ptr (Ptr (Ty "OrtOp")))];
    Slot "InvokeOp" R_status (Some 12) [Par In_ "context" (Ptr (Const (Ty "OrtKernelContext")));
      Par In_ "ort_op" (Ptr (Const (Ty "OrtOp"))); Par In_ "input_values" (Ptr (Const (Ptr (Const (Ty "OrtValue")))));
      Par In_ "input_count" (Ty "int"); Par Inout_ "output_values" (Ptr (Const (Ptr (Ty "OrtValue"))));
      Par In_ "output_count" (Ty "int")];
    Slot "ReleaseOp" R_void (Some 12) [Par Frees_ptr_opt_ "input" (Ptr (Ty "OrtOp"))] ].

(** Lines 3613-3754. *)
Definition ort_slots_21 : list slot :=
  [ Slot "SessionOptionsAppendExecutionProvider" R_status (Some 12) [Par In_ "options" (Ptr (Ty "OrtSessionOptions"));
      Par In_ "provider_name" (Ptr (Const (Ty "char")));
      Par (In_reads_ "num_keys") "provider_options_keys" (Ptr (Const (Ptr (Const (Ty "char")))));
      Par (In_reads_ "num_keys") "provider_options_values" (Ptr (Const (Ptr (Const (Ty "char")))));
      Par In_ "num_keys" (Ty "size_t")];
    Slot "CopyKernelInfo" R_status (Some 12) [Par In_ "info" (Ptr (Const (Ty "OrtKernelInfo")));
      Par Outptr_ "info_copy" (Ptr (Ptr (Ty "OrtKernelInfo")))];
    Slot "ReleaseKernelInfo" R_void (Some 12) [Par Frees_ptr_opt_ "input" (Ptr (Ty "OrtKernelInfo"))];
    Slot "GetTrainingApi" (R_type (Ptr (Const (Ty "OrtTrainingApi")))) (Some 13) [Par No_sal "version" (Ty "uint32_t")];
    Slot "SessionOptionsAppendExecutionProvider_CANN" R_status (Some 13) [Par In_ "options" (Ptr (Ty "OrtSessionOptions"));
      Par In_ "cann_options" (Ptr (Const (Ty "OrtCANNProviderOptions")))];
    Slot "CreateCANNProviderOptions" R_status (Some 13) [Par Outptr_ "out" (Ptr (Ptr (Ty "OrtCANNProviderOptions")))] ].

(** Lines 3755-3894. *)
Definition ort_slots_22 : list slot :=
  [ Slot "UpdateCANNProviderOptions" R_status (Some 13) [Par Inout_ "cann_options" (Ptr (Ty "OrtCANNProviderOptions"));
      Par (In_reads_ "num_keys") "provider_options_keys" (Ptr (Const (Ptr (Const (Ty "char")))));
      Par (In_reads_ "num_keys") "provider_options_values" (Ptr (Const (Ptr (Const (Ty "char")))));
      Par In_ "num_keys" (Ty "size_t")];
    Slot "GetCANNProviderOptionsAsString" R_status (Some 13) [Par In_ "cann_options" (Ptr (Const (Ty "OrtCANNProviderOptions")));
      Par Inout_ "allocator" (Ptr (Ty "OrtAllocator")); Par Outptr_ "ptr" (Ptr (Ptr (Ty "char")))];
    Slot "ReleaseCANNProviderOptions" R_void (Some 13) [Par Frees_ptr_opt_ "input" (Ptr (Ty "OrtCANNProviderOptions"))];
    Slot "MemoryInfoGetDeviceType" R_void (Some 14) [Par In_ "ptr" (Ptr (Const (Ty "OrtMemoryInfo")));
      Par Out_ "out" (Ptr (Ty "OrtMemoryInfoDeviceType"))];
    Slot "UpdateEnvWithCustomLogLevel" R_status (Some 14) [Par In_ "ort_env" (Ptr (Ty "OrtEnv"));
      Par No_sal "log_severity_level" (Ty "OrtLoggingLevel")];
    Slot "SetGlobalIntraOpThreadAffinity" R_status (Some 14) [Par Inout_ "tp_options" (Ptr (Ty "OrtThreadingOptions"));
      Par No_sal "affinity_string" (Ptr (Const (Ty "char")))];
    Slot "RegisterCustomOpsLibrary_V2" R_status (Some 14) [Par Inout_ "options" (Ptr (Ty "OrtSessionOptions"));
      Par In_ "library_name" (Ptr (Const (Ty "ORTCHAR_T")))];
    Slot "RegisterCustomOpsUsingFunction" R_status (Some 14) [Par Inout_ "options" (Ptr (Ty "OrtSessionOptions"));
      Par In_ "registration_func_name" (Ptr (Const (Ty "char")))];
    Slot "KernelInfo_GetInputCount" R_status (Some 14) [Par In_ "info" (Ptr (Const (Ty "OrtKernelInfo")));
      Par Out_ "out" (Ptr (Ty "size_t"))] ].

(** Lines 3895-4030. *)
Definition ort_slots_23 : list slot :=
  [ Slot "KernelInfo_GetOutputCount" R_status (Some 14) [Par In_ "info" (Ptr (Const (Ty "OrtKernelInfo")));
      Par Out_ "out" (Ptr (Ty "size_t"))];
    Slot "KernelInfo_GetInputName" R_status (Some 14) [Par In_ "info" (Ptr (Const (Ty "OrtKernelInfo")));
      Par No_sal "index" (Ty "size_t"); Par Out_ "out" (Ptr (Ty "char")); Par Inout_ "size" (Ptr (Ty "size_t"))];
    Slot "KernelInfo_GetOutputName" R_status (Some 14) [Par In_ "info" (Ptr (Const (Ty "OrtKernelInfo")));
      Par No_sal "index" (Ty "size_t"); Par Out_ "out" (Ptr (Ty "char")); Par Inout_ "size" (Ptr (Ty "size_t"))];
    Slot "KernelInfo_GetInputTypeInfo" R_status (Some 14) [Par In_ "info" (Ptr (Const (Ty "OrtKernelInfo")));
      Par No_sal "index" (Ty "size_t"); Par Outptr_ "type_info" (Ptr (Ptr (Ty "OrtTypeInfo")))];
    Slot "KernelInfo_GetOutputTypeInfo" R_status (Some 14) [Par In_ "info" (Ptr (Const (Ty "OrtKernelInfo")));
      Par No_sal "index" (Ty "size_t"); Par Outptr_ "type_info" (Ptr (Ptr (Ty "OrtTypeInfo")))];
    Slot "KernelInfoGetAttribute_tensor" R_status None [Par In_ "info" (Ptr (Const (Ty "OrtKernelInfo")));
      Par In_z_ "name" (Ptr (Const (Ty "char"))); Par Inout_ "allocator" (Ptr (Ty "OrtAllocator"));
      Par Outptr_ "out" (Ptr (Ptr (Ty "OrtValue")))];
    Slot "HasSessionConfigEntry" R_status (Some 14) [Par In_ "options" (Ptr (Const (Ty "OrtSessionOptions")));
      Par In_z_ "config_key" (Ptr (Const (Ty "char"))); Par Out_ "out" (Ptr (Ty "int"))] ].

(** Lines 4031-4171. *)
Definition ort_slots_24 : list slot :=
  [ Slot "GetSessionConfigEntry" R_status (Some 14) [Par In_ "options" (Ptr (Const (Ty "OrtSessionOptions")));
      Par In_z_ "config_key" (Ptr (Const (Ty "char"))); Par Out_ "config_value" (Ptr (Ty "char"));
      Par Inout_ "size" (Ptr (Ty "size_t"))];
    Slot "SessionOptionsAppendExecutionProvider_Dnnl" R_status (Some 15) [Par In_ "options" (Ptr (Ty "OrtSessionOptions"));
      Par In_ "dnnl_options" (Ptr (Const (Ty "OrtDnnlProviderOptions")))];
    Slot "CreateDnnlProviderOptions" R_status (Some 15) [Par Outptr_ "out" (Ptr (Ptr (Ty "OrtDnnlProviderOptions")))];
    Slot "UpdateDnnlProviderOptions" R_status (Some 15) [Par Inout_ "dnnl_options" (Ptr (Ty "OrtDnnlProviderOptions"));
      Par (In_reads_ "num_keys") "provider_options_keys" (Ptr (Const (Ptr (Const (Ty "char")))));
      Par (In_reads_ "num_keys") "provider_options_values" (Ptr (Const (Ptr (Const (Ty "char")))));
      Par In_ "num_keys" (Ty "size_t")];
    Slot "GetDnnlProviderOptionsAsString" R_status (Some 15) [Par In_ "dnnl_options" (Ptr (Const (Ty "OrtDnnlProviderOptions")));
      Par Inout_ "allocator" (Ptr (Ty "OrtAllocator")); Par Outptr_ "ptr" (Ptr (Ptr (Ty "char")))];
    Slot "ReleaseDnnlProviderOptions" R_void (Some 15) [Par Frees_ptr_opt_ "input" (Ptr (Ty "OrtDnnlProviderOptions"))];
    Slot "KernelInfo_GetNodeName" R_status (Some 15) [Par In_ "info" (Ptr (Const (Ty "OrtKernelInfo")));
      Par Out_ "out" (Ptr (Ty "char")); Par Inout_ "size" (Ptr (Ty "size_t"))];
    Slot "KernelInfo_GetLogger" R_status (Some 15) [Par In_ "info" (Ptr (Const (Ty "OrtKernelInfo")));
      Par Outptr_ "logger" (Ptr (Ptr (Const (Ty "OrtLogger"))))] ].

(** Lines 4172-4320. *)
Definition ort_slots_25 : list slot :=
  [ Slot "KernelContext_GetLogger" R_status (Some 15) [Par In_ "context" (Ptr (Const (Ty "OrtKernelContext")));
      Par Outptr_ "logger" (Ptr (Ptr (Const (Ty "OrtLogger"))))];
    Slot "Logger_LogMessage" R_status (Some 15) [Par In_ "logger" (Ptr (Const (Ty "OrtLogger")));
      Par No_sal "log_severity_level" (Ty "OrtLoggingLevel"); Par In_z_ "message" (Ptr (Const (Ty "char")));
      Par In_z_ "file_path" (Ptr (Const (Ty "ORTCHAR_T"))); Par No_sal "line_number" (Ty "int");
      Par In_z_ "func_name" (Ptr (Const (Ty "char")))];
    Slot "Logger_GetLoggingSeverityLevel" R_status (Some 15) [Par In_ "logger" (Ptr (Const (Ty "OrtLogger")));
      Par Out_ "out" (Ptr (Ty "OrtLoggingLevel"))];
    Slot "KernelInfoGetConstantInput_tensor" R_status (Some 15) [Par In_ "info" (Ptr (Const (Ty "OrtKernelInfo")));
      Par No_sal "index" (Ty "size_t"); Par Out_ "is_constant" (Ptr (Ty "int"));
      Par Outptr_ "out" (Ptr (Ptr (Const (Ty "OrtValue"))))];
    Slot "CastTypeInfoToOptionalTypeInfo" R_status (Some 15) [Par In_ "type_info" (Ptr (Const (Ty "OrtTypeInfo")));
      Par Outptr_result_maybenull_ "out" (Ptr (Ptr (Const (Ty "OrtOptionalTypeInfo"))))];
    Slot "GetOptionalContainedTypeInfo" R_status (Some 15) [Par In_ "optional_type_info" (Ptr (Const (Ty "OrtOptionalTypeInfo")));
      Par Outptr_ "out" (Ptr (Ptr (Ty "OrtTypeInfo")))];
    Slot "GetResizedStringTensorElementBuffer" R_status None [Par Inout_ "value" (Ptr (Ty "OrtValue"));
      Par In_ "index" (Ty "size_t"); Par In_ "length_in_bytes" (Ty "size_t");
      Par Inout_ "buffer" (Ptr (Ptr (Ty "char")))];
    Slot "KernelContext_GetAllocator" R_status (Some 15) [Par In_ "context" (Ptr (Const (Ty "OrtKernelContext")));
      Par In_ "mem_info" (Ptr (Const (Ty "OrtMemoryInfo"))); Par Outptr_ "out" (Ptr (Ptr (Ty "OrtAllocator")))];
    Slot "GetBuildInfoString" (R_type (Ptr (Const (Ty "char")))) (Some 15) [] ].

(** Lines 4321-4460. *)
Definition ort_slots_26 : list slot :=
  [ Slot "CreateROCMProviderOptions" R_status (Some 16) [Par Outptr_ "out" (Ptr (Ptr (Ty "OrtROCMProviderOptions")))];
    Slot "UpdateROCMProviderOptions" R_status (Some 16) [Par Inout_ "rocm_options" (Ptr (Ty "OrtROCMProviderOptions"));
      Par (In_reads_ "num_keys") "provider_options_keys" (Ptr (Const (Ptr (Const (Ty "char")))));
      Par (In_reads_ "num_keys") "provider_options_values" (Ptr (Const (Ptr (Const (Ty "char")))));
      Par In_ "num_keys" (Ty "size_t")];
    Slot "GetROCMProviderOptionsAsString" R_status (Some 16) [Par In_ "rocm_options" (Ptr (Const (Ty "OrtROCMProviderOptions")));
      Par Inout_ "allocator" (Ptr (Ty "OrtAllocator")); Par Outptr_ "ptr" (Ptr (Ptr (Ty "char")))];
    Slot "ReleaseROCMProviderOptions" R_void (Some 16) [Par Frees_ptr_opt_ "input" (Ptr (Ty "OrtROCMProviderOptions"))];
    Slot "CreateAndRegisterAllocatorV2" R_status None [Par Inout_ "env" (Ptr (Ty "OrtEnv"));
      Par In_ "provider_type" (Ptr (Const (Ty "char"))); Par In_ "mem_info" (Ptr (Const (Ty "OrtMemoryInfo")));
      Par In_ "arena_cfg" (Ptr (Const (Ty "OrtArenaCfg")));
      Par (In_reads_ "num_keys") "provider_options_keys" (Ptr (Const (Ptr (Const (Ty "char")))));
      Par (In_reads_ "num_keys") "provider_options_values" (Ptr (Const (Ptr (Const (Ty "char")))));
      Par In_ "num_keys" (Ty "size_t")];
    Slot "RunAsync" R_status None [Par Inout_ "session" (Ptr (Ty "OrtSession"));
      Par In_opt_ "run_options" (Ptr (Const (Ty "OrtRunOptions")));
      Par (In_reads_ "input_len") "input_names" (Ptr (Const (Ptr (Const (Ty "char")))));
      Par (In_reads_ "input_len") "input" (Ptr (Const (Ptr (Const (Ty "OrtValue")))));
      Par No_sal "input_len" (Ty "size_t");
      Par (In_reads_ "output_names_len") "output_names" (Ptr (Const (Ptr (Const (Ty "char")))));
      Par No_sal "output_names_len" (Ty "size_t");
      Par (Inout_updates_all_ "output_names_len") "output" (Ptr (Ptr (Ty "OrtValue")));
      Par In_ "run_async_callback" (Ty "RunAsyncCallbackFn"); Par In_opt_ "user_data" (Ptr (Ty "void"))];
    Slot "UpdateTensorRTProviderOptionsWithValue" R_status (Some 16) [Par Inout_ "tensorrt_options" (Ptr (Ty "OrtTensorRTProviderOptionsV2"));
      Par In_ "key" (Ptr (Const (Ty "char"))); Par In_ "value" (Ptr (Ty "void"))];
    Slot "GetTensorRTProviderOptionsByName" R_status (Some 16) [Par In_ "tensorrt_options" (Ptr (Const (Ty "OrtTensorRTProviderOptionsV2")));
      Par In_ "key" (Ptr (Const (Ty "char"))); Par Outptr_ "ptr" (Ptr (Ptr (Ty "void")))];
    Slot "UpdateCUDAProviderOptionsWithValue" R_status (Some 16) [Par Inout_ "cuda_options" (Ptr (Ty "OrtCUDAProviderOptionsV2"));
      Par In_ "key" (Ptr (Const (Ty "char"))); Par In_ "value" (Ptr (Ty "void"))] ].

(** Lines 4461-4598. *)
Definition ort_slots_27 : list slot :=
  [ Slot "GetCUDAProviderOptionsByName" R_status (Some 16) [Par In_ "cuda_options" (Ptr (Const (Ty "OrtCUDAProviderOptionsV2")));
      Par In_ "key" (Ptr (Const (Ty "char"))); Par Outptr_ "ptr" (Ptr (Ptr (Ty "void")))];
    Slot "KernelContext_GetResource" R_status (Some 16) [Par In_ "context" (Ptr (Const (Ty "OrtKernelContext")));
      Par In_ "resource_version" (Ty "int"); Par In_ "resource_id" (Ty "int");
      Par Outptr_ "resource" (Ptr (Ptr (Ty "void")))];
    Slot "SetUserLoggingFunction" R_status (Some 17) [Par Inout_ "options" (Ptr (Ty "OrtSessionOptions"));
      Par In_ "user_logging_function" (Ty "OrtLoggingFunction");
      Par In_opt_ "user_logging_param" (Ptr (Ty "void"))];
    Slot "ShapeInferContext_GetInputCount" R_status (Some 17) [Par In_ "context" (Ptr (Const (Ty "OrtShapeInferContext")));
      Par Out_ "out" (Ptr (Ty "size_t"))];
    Slot "ShapeInferContext_GetInputTypeShape" R_status (Some 17) [Par In_ "context" (Ptr (Const (Ty "OrtShapeInferContext")));
      Par In_ "index" (Ty "size_t"); Par Outptr_ "info" (Ptr (Ptr (Ty "OrtTensorTypeAndShapeInfo")))];
    Slot "ShapeInferContext_GetAttribute" R_status (Some 17) [Par In_ "context" (Ptr (Const (Ty "OrtShapeInferContext")));
      Par In_ "attr_name" (Ptr (Const (Ty "char"))); Par Outptr_ "attr" (Ptr (Ptr (Const (Ty "OrtOpAttr"))))];
    Slot "ShapeInferContext_SetOutputTypeShape" R_status (Some 17) [Par In_ "context" (Ptr (Const (Ty "OrtShapeInferContext")));
      Par In_ "index" (Ty "size_t"); Par In_ "info" (Ptr (Const (Ty "OrtTensorTypeAndShapeInfo")))];
    Slot "SetSymbolicDimensions" R_status (Some 17) [Par In_ "info" (Ptr (Ty "OrtTensorTypeAndShapeInfo"));
      Par In_ "dim_params" (Ptr (Ptr (Const (Ty "char")))); Par In_ "dim_params_length" (Ty "size_t")];
    Slot "ReadOpAttr" R_status (Some 17) [Par In_ "op_attr" (Ptr (Const (Ty "OrtOpAttr")));
      Par In_ "type" (Ty "OrtOpAttrType"); Par Inout_ "data" (Ptr (Ty "void")); Par In_ "len" (Ty "size_t");
      Par Out_ "out" (Ptr (Ty "size_t"))];
    Slot "SetDeterministicCompute" R_status (Some 17) [Par Inout_ "options" (Ptr (Ty "OrtSessionOptions"));
      Par No_sal "value" (Ty "bool")];
    Slot "KernelContext_ParallelFor" R_status (Some 17) [Par In_ "context" (Ptr (Const (Ty "OrtKernelContext")));
      Par In_ "fn" (Fn (Ty "void") [Ptr (Ty "void"); Ty "size_t"]); Par In_ "total" (Ty "size_t");
      Par In_ "num_batch" (Ty "size_t"); Par In_ "usr_data" (Ptr (Ty "void"))] ].

(** Lines 4599-4734. *)
Definition ort_slots_28 : list slot :=
  [ Slot "SessionOptionsAppendExecutionProvider_OpenVINO_V2" R_status None [Par In_ "options" (Ptr (Ty "OrtSessionOptions"));
      Par (In_reads_ "num_keys") "provider_options_keys" (Ptr (Const (Ptr (Const (Ty "char")))));
      Par (In_reads_ "num_keys") "provider_options_values" (Ptr (Const (Ptr (Const (Ty "char")))));
      Par In_ "num_keys" (Ty "size_t")];
    Slot "SessionOptionsAppendExecutionProvider_VitisAI" R_status None [Par In_ "options" (Ptr (Ty "OrtSessionOptions"));
      Par (In_reads_ "num_keys") "provider_options_keys" (Ptr (Const (Ptr (Const (Ty "char")))));
      Par (In_reads_ "num_keys") "provider_options_values" (Ptr (Const (Ptr (Const (Ty "char")))));
      Par In_ "num_keys" (Ty "size_t")];
    Slot "KernelContext_GetScratchBuffer" R_status None [Par In_ "context" (Ptr (Const (Ty "OrtKernelContext")));
      Par In_ "mem_info" (Ptr (Const (Ty "OrtMemoryInfo"))); Par In_ "count_or_bytes" (Ty "size_t");
      Par Outptr_ "out" (Ptr (Ptr (Ty "void")))];
    Slot "KernelInfoGetAllocator" R_status None [Par In_ "info" (Ptr (Const (Ty "OrtKernelInfo")));
      Par In_ "mem_type" (Ty "OrtMemType"); Par Outptr_ "out" (Ptr (Ptr (Ty "OrtAllocator")))];
    Slot "AddExternalInitializersFromFilesInMemory" R_status None [Par In_ "options" (Ptr (Ty "OrtSessionOptions"));
      Par (In_reads_ "num_external_initializer_files") "external_initializer_file_names" (Ptr (Const (Ptr (Const (Ty "ORTCHAR_T")))));
      Par (In_reads_ "num_external_initializer_files") "external_initializer_file_buffer_array" (Ptr (Const (Ptr (Ty "char"))));
      Par (In_reads_ "num_external_initializer_files") "external_initializer_file_lengths" (Ptr (Const (Ty "size_t")));
      Par No_sal "num_external_initializer_files" (Ty "size_t")];
    Slot "CreateLoraAdapter" R_status None [Par No_sal "adapter_file_path" (Ptr (Const (Ty "ORTCHAR_T")));
      Par In_ "allocator" (Ptr (Ty "OrtAllocator")); Par Outptr_ "out" (Ptr (Ptr (Ty "OrtLoraAdapter")))];
    Slot "CreateLoraAdapterFromArray" R_status None [Par In_ "bytes" (Ptr (Const (Ty "void")));
      Par No_sal "num_bytes" (Ty "size_t"); Par In_ "allocator" (Ptr (Ty "OrtAllocator"));
      Par Outptr_ "out" (Ptr (Ptr (Ty "OrtLoraAdapter")))];
    Slot "ReleaseLoraAdapter" R_void None [Par Frees_ptr_opt_ "input" (Ptr (Ty "OrtLoraAdapter"))];
    Slot "RunOptionsAddActiveLoraAdapter" R_status None [Par Inout_ "options" (Ptr (Ty "OrtRunOptions"));
      Par In_ "adapter" (Ptr (Const (Ty "OrtLoraAdapter")))] ].

(** Lines 4735-4754. *)
Definition ort_slots_29 : list slot :=
  [ Slot "SetEpDynamicOptions" R_status None [Par Inout_ "sess" (Ptr (Ty "OrtSession"));
      Par (In_reads_ "kv_len") "keys" (Ptr (Const (Ptr (Const (Ty "char")))));
      Par (In_reads_ "kv_len") "values" (Ptr (Const (Ptr (Const (Ty "char"))))); Par In_ "kv_len" (Ty "size_t")] ].

(** The whole table. *)
Definition OrtApi : list slot :=
  ort_slots_1 ++ ort_slots_2 ++ ort_slots_3 ++ ort_slots_4 ++ ort_slots_5 ++ ort_slots_6 ++
  ort_slots_7 ++ ort_slots_8 ++ ort_slots_9 ++ ort_slots_10 ++ ort_slots_11 ++ ort_slots_12 ++
  ort_slots_13 ++ ort_slots_14 ++ ort_slots_15 ++ ort_slots_16 ++ ort_slots_17 ++ ort_slots_18 ++
  ort_slots_19 ++ ort_slots_20 ++ ort_slots_21 ++ ort_slots_22 ++ ort_slots_23 ++ ort_slots_24 ++
  ort_slots_25 ++ ort_slots_26 ++ ort_slots_27 ++ ort_slots_28 ++ ort_slots_29.

(** The slot a client names, with its index in the table. *)
Definition ort_slot (name : string) : option (nat * slot) := list_find (fun s => s_name s = name) OrtApi.

(** ** Discipline of the table *)

(** The class of an object a parameter hands out to the caller: [_Outptr_ OrtX** out]. *)
Definition out_class (p : sparam) : option string :=
  match p_sal p, p_ty p with
  | Outptr_, Ptr (Ptr (Ty c)) | Outptr_result_maybenull_, Ptr (Ptr (Ty c)) =>
      if String.prefix "Ort" c then Some c else None
  | _, _ => None
  end.

(** The class a slot releases. *)
Definition released_class (s : slot) : option string :=
  match s_ret s, s_params s with
  | R_void, [Par Frees_ptr_opt_ _ (Ptr (Ty c))] => Some c
  | _, _ => None
  end.
Definition releasers (c : string) : list slot := filter (fun s => released_class s = Some c) OrtApi.

(** The length expression of a buffer parameter. *)
Definition buffer_len (p : sparam) : option string :=
  match p_sal p with
  | In_reads_ e | Inout_updates_all_ e | Out_writes_all_ e | Out_writes_bytes_all_ e
  | Outptr_result_buffer_maybenull_ e => Some e
  | _ => None
  end.

(** [q] can be the length [e]: a [size_t] or [int] named [e], or the target of an out-parameter, which
    some annotations dereference and some do not. *)
Definition is_length (e : string) (q : sparam) : bool :=
  match p_ty q with
  | Ty t => (t =? "size_t")%string || (t =? "int")%string
  | Ptr (Ty t) => (t =? "size_t")%string || (t =? "int64_t")%string
  | _ => false
  end && ((p_arg q =? e)%string || (String.append "*" (p_arg q) =? e)%string).

Definition releasable (p : sparam) : bool :=
  match out_class p with Some c => bool_decide (length (releasers c) = 1)%nat | None => true end.
Definition measured (s : slot) (p : sparam) : bool :=
  match buffer_len p with Some e => existsb (is_length e) (s_params s) | None => true end.
Definition freeing (s : slot) (p : sparam) : bool :=
  match p_sal p with Frees_ptr_opt_ => bool_decide (is_Some (released_class s)) | _ => true end.

Fixpoint nondecreasing (l : list Z) : bool :=
  match l with a :: (b :: _) as t => (a <=? b) && nondecreasing t | _ => true end.

Lemma nondecreasing_sorted l : nondecreasing l = true -> StronglySorted Z.le l.
Proof.
  intros H. apply Sorted_StronglySorted; [intros a b c; lia|].
  induction l as [|a l IH]; [constructor|]. destruct l as [|b l]; [repeat constructor|].
  simpl in H. apply andb_true_iff in H as [Hab Hl]. constructor; [by apply IH|]. constructor. lia.
Qed.

(** Lifts a check of every parameter of every slot. *)
Lemma table_forall (f : slot -> sparam -> bool) s p :
  forallb (fun s => forallb (f s) (s_params s)) OrtApi = true ->
  s ∈ OrtApi -> p ∈ s_params s -> f s p = true.
Proof.
  rewrite forallb_forall. intros H Hs%list_elem_of_In Hp%list_elem_of_In.
  specialize (H _ Hs). rewrite forallb_forall in H. by apply H.
Qed.

Lemma table_releasable : forallb (fun s => forallb releasable (s_params s)) OrtApi = true.
Proof. vm_compute. reflexivity. Qed.
Lemma table_measured : forallb (fun s => forallb (measured s) (s_params s)) OrtApi = true.
Proof. vm_compute. reflexivity. Qed.
Lemma table_freeing : forallb (fun s => forallb (freeing s) (s_params s)) OrtApi = true.
Proof. vm_compute. reflexivity. Qed.
Lemma table_versions :
  nondecreasing (omap s_since OrtApi) &&
  forallb (fun v => (1 <=? v) && (v <=? ORT_API_VERSION)) (omap s_since OrtApi) = true.
Proof. vm_compute. reflexivity. Qed.

(** the layout of the table a client indexes through [GetApi]: no slot name occurs twice, so that
    a name determines its index; along the table the documented versions never decrease (slots were only
    ever appended) and none is newer than [ORT_API_VERSION]; and the first release of the interface ends
    with [ReleaseCustomOpDomain] at index 101. *)
Theorem ort_api_layout :
  NoDup (s_name <$> OrtApi) /\ StronglySorted Z.le (omap s_since OrtApi) /\
  Forall (fun v => 1 <= v <= ORT_API_VERSION) (omap s_since OrtApi) /\
  fst <$> ort_slot "ReleaseCustomOpDomain" = Some 101%nat.
Proof.
  pose proof table_versions as [H1 H2]%andb_true_iff. split_and!.
  - vm_decide.
  - by apply nondecreasing_sorted.
  - apply Forall_forall. intros v Hv%list_elem_of_In. rewrite forallb_forall in H2.
    specialize (H2 _ Hv). lia.
  - vm_compute. reflexivity.
Qed.

(** ownership in the table: an object of class [OrtX] that any slot hands out through an
    [_Outptr_] parameter can be released by exactly one slot, the one that takes a [_Frees_ptr_opt_
    OrtX*]; a parameter with that annotation is always the only parameter of a slot without result. *)
Theorem ort_objects_have_one_release s p :
  s ∈ OrtApi -> p ∈ s_params s ->
  (forall c, out_class p = Some c -> exists r, releasers c = [r]) /\
  (p_sal p = Frees_ptr_opt_ -> exists c, released_class s = Some c).
Proof.
  intros Hs Hp. split.
  - intros c Hc. pose proof (table_forall (fun _ => releasable) s p table_releasable Hs Hp) as H.
    simpl in H. unfold releasable in H. rewrite Hc in H. apply bool_decide_eq_true in H.
    destruct (releasers c) as [|r [|? ?]]; [done| by exists r |done].
  - intros Hf. pose proof (table_forall freeing s p table_freeing Hs Hp) as H.
    unfold freeing in H. rewrite Hf in H. apply bool_decide_eq_true in H as [c Hc]. by exists c.
Qed.

(** every buffer parameter of the table names its length, and that name is a size or count among
    the parameters of the same slot. *)
Theorem ort_buffers_are_measured s p e :
  s ∈ OrtApi -> p ∈ s_params s -> buffer_len p = Some e ->
  exists q, q ∈ s_params s /\ is_length e q = true.
Proof.
  intros Hs Hp He. pose proof (table_forall measured s p table_measured Hs Hp) as H.
  unfold measured in H. rewrite He in H. apply existsb_exists in H as (q & Hq & Hl).
  exists q. by rewrite list_elem_of_In.
Qed.

(** ** Concrete instances *)

Definition CreateEnv_slot : slot :=
  Slot "CreateEnv" R_status None [Par No_sal "log_severity_level" (Ty "OrtLoggingLevel");
      Par In_ "logid" (Ptr (Const (Ty "char"))); Par Outptr_ "out" (Ptr (Ptr (Ty "OrtEnv")))].

Lemma CreateEnv_in : CreateEnv_slot ∈ OrtApi.
Proof. apply list_elem_of_lookup. exists 3%nat. vm_compute. reflexivity. Qed.

Lemma ort_objects_witness : exists r, releasers "OrtEnv" = [r].
Proof.
  apply (ort_objects_have_one_release CreateEnv_slot (Par Outptr_ "out" (Ptr (Ptr (Ty "OrtEnv")))));
    [apply CreateEnv_in | simpl; right; right; left | reflexivity].
Defined.

(** [Run] and its parameter [inputs]. *)
Definition Run_slot : slot := Eval vm_compute in default (Slot "" R_void None []) (OrtApi !! 9%nat).
Definition Run_inputs : sparam :=
  Par (In_reads_ "input_len") "inputs" (Ptr (Const (Ptr (Const (Ty "OrtValue"))))).

Lemma ort_buffers_witness : exists q, q ∈ s_params Run_slot /\ is_length "input_len" q = true.
Proof.
  apply (ort_buffers_are_measured Run_slot Run_inputs).
  - apply list_elem_of_lookup. exists 9%nat. vm_compute. reflexivity.
  - apply list_elem_of_lookup. exists 3%nat. reflexivity.
  - reflexivity.
Defined.
