(* ===== verification/OrtStructs.v ===== *)
(** * OrtStructs: the structures beside the table of the ONNX Runtime C interface

    The opaque classes, the structures with their fields in order, and the functions of onnxruntime_c_api.h
    that are not slots of [OrtApi].  A structure that C++ constructs has its member initializers; a field
    has the default its documentation gives, if it gives one. *)

From S2P Require Import Prelude OrtApi.
Local Open Scope string_scope.
Local Open Scope list_scope.

(** [ORT_RUNTIME_CLASS(X)], in order. *)
Definition runtime_classes : list string :=
  [ "Env"; "Status"; "MemoryInfo"; "IoBinding"; "Session"; "Value"; "RunOptions"; "TypeInfo"; "TensorTypeAndShapeInfo"; "MapTypeInfo";
    "SequenceTypeInfo"; "OptionalTypeInfo"; "SessionOptions"; "CustomOpDomain"; "ModelMetadata"; "ThreadPoolParams"; "ThreadingOptions";
    "ArenaCfg"; "PrepackedWeightsContainer"; "TensorRTProviderOptionsV2"; "CUDAProviderOptionsV2"; "CANNProviderOptions";
    "DnnlProviderOptions"; "Op"; "OpAttr"; "Logger"; "ShapeInferContext"; "LoraAdapter" ].

Record field := Field { fd_name : string; fd_ty : cty; fd_documented : option string }.
Record struct := Struct { st_name : string; st_fields : list field; st_ctor : option (list (string * string)) }.
Definition int_field (n : string) (d : option string) : field := Field n (Ty "int") d.
Definition chars : cty := Ptr (Const (Ty "char")).
Definition void_ptr : cty := Ptr (Ty "void").

Definition OrtAllocator : struct :=
  Struct "OrtAllocator"
    [ Field "version" (Ty "uint32_t") None;
      Field "Alloc" (Fn void_ptr [Ptr (Ty "OrtAllocator"); Ty "size_t"]) None;
      Field "Free" (Fn (Ty "void") [Ptr (Ty "OrtAllocator"); void_ptr]) None;
      Field "Info" (Fn (Ptr (Const (Ty "OrtMemoryInfo"))) [Ptr (Const (Ty "OrtAllocator"))]) None;
      Field "Reserve" (Fn void_ptr [Ptr (Ty "OrtAllocator"); Ty "size_t"]) None ] None.

Definition OrtCUDAProviderOptions : struct :=
  Struct "OrtCUDAProviderOptions"
    [ int_field "device_id" (Some "0");
      Field "cudnn_conv_algo_search" (Ty "OrtCudnnConvAlgoSearch") (Some "OrtCudnnConvAlgoSearchExhaustive");
      Field "gpu_mem_limit" (Ty "size_t") (Some "SIZE_MAX"); int_field "arena_extend_strategy" (Some "0");
      int_field "do_copy_in_default_stream" (Some "1"); int_field "has_user_compute_stream" (Some "0");
      Field "user_compute_stream" void_ptr None; Field "default_memory_arena_cfg" (Ptr (Ty "OrtArenaCfg")) None;
      int_field "tunable_op_enable" (Some "0"); int_field "tunable_op_tuning_enable" (Some "0");
      int_field "tunable_op_max_tuning_duration_ms" (Some "0") ]
    (Some [ ("device_id", ""); ("cudnn_conv_algo_search", "OrtCudnnConvAlgoSearchExhaustive"); ("gpu_mem_limit", "SIZE_MAX");
            ("arena_extend_strategy", ""); ("do_copy_in_default_stream", "1"); ("has_user_compute_stream", "");
            ("user_compute_stream", ""); ("default_memory_arena_cfg", ""); ("tunable_op_enable", "false");
            ("tunable_op_tuning_enable", "false"); ("tunable_op_max_tuning_duration_ms", "") ]).

Definition OrtROCMProviderOptions : struct :=
  Struct "OrtROCMProviderOptions"
    [ int_field "device_id" (Some "0"); int_field "miopen_conv_exhaustive_search" (Some "0");
      Field "gpu_mem_limit" (Ty "size_t") (Some "SIZE_MAX"); int_field "arena_extend_strategy" (Some "0");
      int_field "do_copy_in_default_stream" (Some "1"); int_field "has_user_compute_stream" (Some "0");
      Field "user_compute_stream" void_ptr None; Field "default_memory_arena_cfg" (Ptr (Ty "OrtArenaCfg")) None;
      int_field "enable_hip_graph" None; int_field "tunable_op_enable" (Some "0"); int_field "tunable_op_tuning_enable" (Some "0");
      int_field "tunable_op_max_tuning_duration_ms" (Some "0") ]
    (Some [ ("device_id", ""); ("miopen_conv_exhaustive_search", "0"); ("gpu_mem_limit", "SIZE_MAX"); ("arena_extend_strategy", "");
            ("do_copy_in_default_stream", "1"); ("has_user_compute_stream", ""); ("user_compute_stream", "");
            ("default_memory_arena_cfg", ""); ("enable_hip_graph", "false"); ("tunable_op_enable", "false");
            ("tunable_op_tuning_enable", "false"); ("tunable_op_max_tuning_duration_ms", "") ]).

Definition OrtTensorRTProviderOptions : struct :=
  Struct "OrtTensorRTProviderOptions"
    [ int_field "device_id" (Some "0"); int_field "has_user_compute_stream" None; Field "user_compute_stream" void_ptr None;
      int_field "trt_max_partition_iterations" None; int_field "trt_min_subgraph_size" None;
      Field "trt_max_workspace_size" (Ty "size_t") None; int_field "trt_fp16_enable" (Some "0"); int_field "trt_int8_enable" (Some "0");
      Field "trt_int8_calibration_table_name" chars None; int_field "trt_int8_use_native_calibration_table" (Some "0");
      int_field "trt_dla_enable" (Some "0"); int_field "trt_dla_core" (Some "0"); int_field "trt_dump_subgraphs" (Some "0");
      int_field "trt_engine_cache_enable" (Some "0"); Field "trt_engine_cache_path" chars None;
      int_field "trt_engine_decryption_enable" (Some "0"); Field "trt_engine_decryption_lib_path" chars None;
      int_field "trt_force_sequential_engine_build" (Some "0") ] None.

Definition OrtMIGraphXProviderOptions : struct :=
  Struct "OrtMIGraphXProviderOptions"
    [ int_field "device_id" None; int_field "migraphx_fp16_enable" (Some "0"); int_field "migraphx_int8_enable" (Some "0");
      int_field "migraphx_use_native_calibration_table" (Some "0"); Field "migraphx_int8_calibration_table_name" chars None;
      int_field "migraphx_save_compiled_model" (Some "0"); Field "migraphx_save_model_path" chars None;
      int_field "migraphx_load_compiled_model" (Some "0"); Field "migraphx_load_model_path" chars None;
      Field "migraphx_exhaustive_tune" (Ty "bool") (Some "false") ] None.

Definition OrtOpenVINOProviderOptions : struct :=
  Struct "OrtOpenVINOProviderOptions"
    [ Field "device_type" chars None; Field "enable_npu_fast_compile" (Ty "unsigned char") None; Field "device_id" chars None;
      Field "num_of_threads" (Ty "size_t") (Some "0"); Field "cache_dir" chars None; Field "context" void_ptr None;
      Field "enable_opencl_throttling" (Ty "unsigned char") None; Field "enable_dynamic_shapes" (Ty "unsigned char") None ]
    (Some [ ("device_type", ""); ("enable_npu_fast_compile", ""); ("device_id", ""); ("num_of_threads", ""); ("cache_dir", "");
            ("context", ""); ("enable_opencl_throttling", ""); ("enable_dynamic_shapes", "") ]).

Definition OrtApiBase : struct :=
  Struct "OrtApiBase"
    [ Field "GetApi" (Fn (Ptr (Const (Ty "OrtApi"))) [Ty "uint32_t"]) None; Field "GetVersionString" (Fn chars []) None ] None.

Definition op_ptr : cty := Ptr (Const (Ty "OrtCustomOp")).
Definition of_op (ret : cty) : cty := Fn ret [op_ptr].
Definition of_index (ret : cty) : cty := Fn ret [op_ptr; Ty "size_t"].
Definition int_out : cty := Ptr (Ptr (Ty "int")).
Definition OrtCustomOp : struct :=
  Struct "OrtCustomOp"
    [ Field "version" (Ty "uint32_t") None;
      Field "CreateKernel" (Fn void_ptr [op_ptr; Ptr (Const (Ty "OrtApi")); Ptr (Const (Ty "OrtKernelInfo"))]) None;
      Field "GetName" (of_op chars) None; Field "GetExecutionProviderType" (of_op chars) None;
      Field "GetInputType" (of_index (Ty "ONNXTensorElementDataType")) None; Field "GetInputTypeCount" (of_op (Ty "size_t")) None;
      Field "GetOutputType" (of_index (Ty "ONNXTensorElementDataType")) None; Field "GetOutputTypeCount" (of_op (Ty "size_t")) None;
      Field "KernelCompute" (Fn (Ty "void") [void_ptr; Ptr (Ty "OrtKernelContext")]) None;
      Field "KernelDestroy" (Fn (Ty "void") [void_ptr]) None;
      Field "GetInputCharacteristic" (of_index (Ty "OrtCustomOpInputOutputCharacteristic")) None;
      Field "GetOutputCharacteristic" (of_index (Ty "OrtCustomOpInputOutputCharacteristic")) None;
      Field "GetInputMemoryType" (of_index (Ty "OrtMemType")) None;
      Field "GetVariadicInputMinArity" (of_op (Ty "int")) None; Field "GetVariadicInputHomogeneity" (of_op (Ty "int")) None;
      Field "GetVariadicOutputMinArity" (of_op (Ty "int")) None; Field "GetVariadicOutputHomogeneity" (of_op (Ty "int")) None;
      Field "CreateKernelV2"
        (Fn (Ty "OrtStatusPtr") [op_ptr; Ptr (Const (Ty "OrtApi")); Ptr (Const (Ty "OrtKernelInfo")); Ptr void_ptr]) None;
      Field "KernelComputeV2" (Fn (Ty "OrtStatusPtr") [void_ptr; Ptr (Ty "OrtKernelContext")]) None;
      Field "InferOutputShapeFn" (Fn (Ty "OrtStatusPtr") [op_ptr; Ptr (Ty "OrtShapeInferContext")]) None;
      Field "GetStartVersion" (of_op (Ty "int")) None; Field "GetEndVersion" (of_op (Ty "int")) None;
      Field "GetMayInplace" (Fn (Ty "size_t") [int_out; int_out]) None;
      Field "ReleaseMayInplace" (Fn (Ty "void") [Ptr (Ty "int"); Ptr (Ty "int")]) None;
      Field "GetAliasMap" (Fn (Ty "size_t") [int_out; int_out]) None;
      Field "ReleaseAliasMap" (Fn (Ty "void") [Ptr (Ty "int"); Ptr (Ty "int")]) None ] None.

Definition OrtCustomOpInputOutputCharacteristics : enum_decl :=
  [ ("INPUT_OUTPUT_REQUIRED", Some 0%Z); ("INPUT_OUTPUT_OPTIONAL", None); ("INPUT_OUTPUT_VARIADIC", None) ].

(** The functions of the library that are not reached through the table. *)
Definition append_provider (provider last : string) : slot :=
  Slot ("OrtSessionOptionsAppendExecutionProvider_" +:+ provider) R_status None
    [ Par In_ "options" (Ptr (Ty "OrtSessionOptions")); Par No_sal last (Ty "int") ].
Definition exported_functions : list slot :=
  [ Slot "OrtGetApiBase" (R_type (Ptr (Const (Ty "OrtApiBase")))) None [];
    append_provider "CUDA" "device_id"; append_provider "ROCM" "device_id"; append_provider "MIGraphX" "device_id";
    append_provider "Dnnl" "use_arena"; append_provider "Tensorrt" "device_id" ].

Definition structs : list struct :=
  [ OrtAllocator; OrtCUDAProviderOptions; OrtROCMProviderOptions; OrtTensorRTProviderOptions; OrtMIGraphXProviderOptions;
    OrtOpenVINOProviderOptions; OrtApiBase; OrtCustomOp ].

(** ** Properties *)

(** Value-initialization and [false] are zero. *)
Definition init_value (i : string) : string := if bool_decide (i = "" \/ i = "false") then "0" else i.
Definition documented_init (s : struct) (f : field) : bool :=
  match st_ctor s, fd_documented f with
  | Some inits, Some d => existsb (fun i => bool_decide (i.1 = fd_name f) && bool_decide (init_value i.2 = d)) inits
  | _, _ => true
  end.
Definition well_constructed (s : struct) : bool :=
  bool_decide (NoDup (fd_name <$> st_fields s)) &&
  match st_ctor s with Some inits => bool_decide (inits.*1 = fd_name <$> st_fields s) | None => true end &&
  forallb (documented_init s) (st_fields s).

(** The opaque classes no slot releases: they are part of an object of another class, belong to the runtime, or
    are handed out only for the duration of a callback. *)
Definition never_released : list string :=
  filter (fun c => releasers ("Ort" +:+ c) = []) runtime_classes.

(** A structure's fields have distinct names; a constructor initializes all of them, in the order of
    declaration, to the documented defaults; and of the opaque classes all but four are released by exactly
    one slot. *)
Theorem structs_well_constructed :
  (forall s, s ∈ structs -> NoDup (fd_name <$> st_fields s) /\ (forall inits, st_ctor s = Some inits -> inits.*1 = fd_name <$> st_fields s) /\
    forall f, f ∈ st_fields s -> documented_init s f = true) /\
  (forall c, c ∈ runtime_classes -> ~ c ∈ never_released -> exists r, releasers ("Ort" +:+ c) = [r]).
Proof.
  assert (forallb well_constructed structs = true) as Hs by (vm_compute; reflexivity).
  assert (forallb (fun c => bool_decide (length (releasers ("Ort" +:+ c)) <= 1)%nat) runtime_classes = true) as Hr by (vm_compute; reflexivity).
  rewrite forallb_forall in Hs, Hr. split.
  - intros s Hin%list_elem_of_In. specialize (Hs s Hin). apply andb_true_iff in Hs as [[Hn Hc]%andb_true_iff Hd].
    apply bool_decide_eq_true in Hn. rewrite forallb_forall in Hd. split_and!; [done| |intros f Hf%list_elem_of_In; by apply Hd].
    intros inits E. rewrite E in Hc. by apply bool_decide_eq_true in Hc.
  - intros c Hin Hn. specialize (Hr c (proj1 (list_elem_of_In _ _) Hin)). apply bool_decide_eq_true in Hr.
    unfold never_released in Hn. rewrite list_elem_of_filter in Hn.
    destruct (releasers ("Ort" +:+ c)) as [|r [|r' rs]] eqn:E; [by destruct Hn | by exists r | simpl in Hr; lia].
Qed.

Lemma structs_well_constructed_witness : NoDup (fd_name <$> st_fields OrtROCMProviderOptions) /\
  never_released = ["OptionalTypeInfo"; "ThreadPoolParams"; "Logger"; "ShapeInferContext"].
Proof.
  split; [|vm_compute; reflexivity]. refine (proj1 (proj1 structs_well_constructed OrtROCMProviderOptions _)). vm_compute. right; right; left.
Defined.
