(* ===== verification/Cxx.v ===== *)
(** * Cxx: the C++ of the ONNX Runtime wrapper headers

    A deep embedding of the fragment of C++ that onnxruntime_cxx_api.h and onnxruntime_cxx_inline.h are
    written in: expressions, statements, function definitions and class declarations.  Types are those of
    [OrtApi], a reference or rvalue reference at the outside is kept apart.  [static_assert], [using] inside
    a body and default arguments leave no trace; a call of a function pointer of [OrtApi], through
    [GetApi()] or a stored [OrtApi*], is [Slot_]. *)

From S2P Require Import Prelude OrtApi.

Inductive passing := ByValue | ByRef | ByMove.
Record cparam := Arg { a_pass : passing; a_ty : cty; a_name : string }.

#[warnings="-register-all"]
Inductive expr :=
| This                                        (* *this *)
| ThisPtr                                     (* this *)
| Member_ (f : string)                        (* this->f, or f *)
| Var (x : string)                            (* a parameter or local *)
| Name (n : string)                           (* an enumerator or constant *)
| Lit (s : string)                            (* a literal, nullptr, sizeof(...) *)
| Str (s : string)                            (* a string literal *)
| Addr (e : expr)
| Deref (e : expr)
| Cast (t : cty) (e : expr)
| New (t : cty) (args : list expr)            (* T(args), T{args}; the type is empty for {args} *)
| Slot_ (s : string) (args : list expr)       (* GetApi().s(args) *)
| Fun (f : string) (args : list expr)         (* a function, or a member function of *this *)
| Method (e : expr) (f : string) (args : list expr)
| Dot (e : expr) (f : string)                 (* e.f, e->f *)
| Index_ (e i : expr)
| Op (o : string) (args : list expr)
| Release (s : string).                       (* [](T* obj) { GetApi().s(obj); } *)

#[warnings="-register-all"]
Inductive stmt :=
| Decl (p : passing) (t : cty) (x : string) (init : option expr)
| Expr (e : expr)
| ThrowOnError (e : expr)
| ReturnOnFail (e : expr)                     (* ORT_CXX_RETURN_ON_API_FAIL *)
| Throw (args : list expr)                    (* ORT_CXX_API_THROW *)
| Assign (op : string) (l r : expr)
| If (c : expr) (t e : list stmt)
| For (init : list stmt) (c step : expr) (body : list stmt)
| ForEach (p : passing) (t : cty) (x : string) (e : expr) (body : list stmt)
| While (c : expr) (body : list stmt)
| Return (e : option expr).

(** A function with its member initializers; [f_ret] is empty for constructors and destructors. *)
Record func := Func {
  f_class : string;                           (* the class or namespace that qualifies the name *)
  f_name : string;
  f_ret : option (passing * cty);
  f_params : list cparam;
  f_const : bool;
  f_noexcept : bool;
  f_inits : list (string * list expr);
  f_body : list stmt }.

(** ** Equality of types *)

#[export] Instance cty_eq_dec : EqDecision cty.
Proof.
  refine (fix go (a b : cty) : Decision (a = b) :=
    match a, b with
    | Ty m, Ty n => cast_if (decide (m = n))
    | Const s, Const t => cast_if (go s t)
    | Ptr s, Ptr t => cast_if (go s t)
    | Fn r ps, Fn s qs =>
        cast_if_and (go r s)
          ((fix gos (ps qs : list cty) : Decision (ps = qs) :=
              match ps, qs with
              | [], [] => left eq_refl
              | p :: ps, q :: qs => cast_if_and (go p q) (gos ps qs)
              | _, _ => right _
              end) ps qs)
    | _, _ => right _
    end); try congruence; done.
Defined.
#[export] Instance passing_eq_dec : EqDecision passing.
Proof. solve_decision. Defined.

(** ** Classes *)

(** What a class derived from [detail::Base<...>] holds: the template parameter [T], an object it owns, or one
    it does not own ([Unowned<...>]), possibly [const]. *)
Inductive handle := TParam | Owned (c : string) | Unowned (const : bool) (c : string).

Inductive mdef := Outside | Defaulted | Deleted | Inside (inits : list (string * list expr)) (body : list stmt).

Record member := Member {
  m_static : bool;
  m_name : string;
  m_ret : option (passing * cty);
  m_params : list cparam;
  m_const : bool;
  m_noexcept : bool;
  m_def : mdef;
  m_wraps : option string }.                  (* the slot its comment says it wraps *)

Record cls := Class {
  k_name : string;
  k_base : option (string * handle);
  k_fields : list (string * cty);
  k_members : list member }.
