(* ===== verification/CxxApi.v ===== *)
(** * CxxApi: the classes of onnxruntime_cxx_api.h

    The class declarations of the C++ interface from [Status] to [ShapeInferContext], each with what it
    derives from, its fields and its members; a member defined in the class has its body, and the slot its
    comment names ([Wraps OrtApi::...]) is kept.  The [using] declarations that name instances of the class
    templates are [aliases].  Defaulted and deleted members are listed as such; nested types, enumerator
    constants and member [using]s are left out. *)

From S2P Require Import Prelude OrtApi Cxx.
Local Open Scope string_scope.

Definition cls_Status : cls :=
  Class "Status" (Some ("Base", Owned "OrtStatus")) []
    [Member false "Status" None [Arg ByValue (Ty "std::nullptr_t") ""] false true (Inside [] []) None;
     Member false "Status" None [Arg ByValue (Ptr (Ty "OrtStatus")) "status"] false true Outside None;
     Member false "Status" None [Arg ByRef (Const (Ty "Exception")) ""] false true Outside None;
     Member false "Status" None [Arg ByRef (Const (Ty "std::exception")) ""] false true Outside None;
     Member false "Status" None
       [Arg ByValue (Ptr (Const (Ty "char"))) "message"; Arg ByValue (Ty "OrtErrorCode") "code"] false true Outside
       None;
     Member false "GetErrorMessage" (Some (ByValue, Ty "std::string")) [] true false Outside None;
     Member false "GetErrorCode" (Some (ByValue, Ty "OrtErrorCode")) [] true false Outside None;
     Member false "IsOK" (Some (ByValue, Ty "bool")) [] true true Outside None].

Definition cls_ThreadingOptions : cls :=
  Class "ThreadingOptions" (Some ("Base", Owned "OrtThreadingOptions")) []
    [Member false "ThreadingOptions" None [] false false Outside (Some "CreateThreadingOptions");
     Member false "SetGlobalIntraOpNumThreads" (Some (ByRef, Ty "ThreadingOptions"))
       [Arg ByValue (Ty "int") "intra_op_num_threads"] false false Outside (Some "SetGlobalIntraOpNumThreads");
     Member false "SetGlobalInterOpNumThreads" (Some (ByRef, Ty "ThreadingOptions"))
       [Arg ByValue (Ty "int") "inter_op_num_threads"] false false Outside (Some "SetGlobalInterOpNumThreads");
     Member false "SetGlobalSpinControl" (Some (ByRef, Ty "ThreadingOptions"))
       [Arg ByValue (Ty "int") "allow_spinning"] false false Outside (Some "SetGlobalSpinControl");
     Member false "SetGlobalDenormalAsZero" (Some (ByRef, Ty "ThreadingOptions")) [] false false Outside
       (Some "SetGlobalDenormalAsZero");
     Member false "SetGlobalCustomCreateThreadFn" (Some (ByRef, Ty "ThreadingOptions"))
       [Arg ByValue (Ty "OrtCustomCreateThreadFn") "ort_custom_create_thread_fn"] false false Outside
       (Some "SetGlobalCustomCreateThreadFn");
     Member false "SetGlobalCustomThreadCreationOptions" (Some (ByRef, Ty "ThreadingOptions"))
       [Arg ByValue (Ptr (Ty "void")) "ort_custom_thread_creation_options"] false false Outside
       (Some "SetGlobalCustomThreadCreationOptions");
     Member false "SetGlobalCustomJoinThreadFn" (Some (ByRef, Ty "ThreadingOptions"))
       [Arg ByValue (Ty "OrtCustomJoinThreadFn") "ort_custom_join_thread_fn"] false false Outside
       (Some "SetGlobalCustomJoinThreadFn")].

Definition cls_Env : cls :=
  Class "Env" (Some ("Base", Owned "OrtEnv")) []
    [Member false "Env" None [Arg ByValue (Ty "std::nullptr_t") ""] false false (Inside [] []) None;
     Member false "Env" None
       [Arg ByValue (Ty "OrtLoggingLevel") "logging_level"; Arg ByValue (Ptr (Const (Ty "char"))) "logid"] false
       false Outside (Some "CreateEnv");
     Member false "Env" None
       [Arg ByValue (Ty "OrtLoggingLevel") "logging_level";
        Arg ByValue (Ptr (Const (Ty "char"))) "logid";
        Arg ByValue (Ty "OrtLoggingFunction") "logging_function";
        Arg ByValue (Ptr (Ty "void")) "logger_param"] false false Outside (Some "CreateEnvWithCustomLogger");
     Member false "Env" None
       [Arg ByValue (Ptr (Const (Ty "OrtThreadingOptions"))) "tp_options";
        Arg ByValue (Ty "OrtLoggingLevel") "logging_level";
        Arg ByValue (Ptr (Const (Ty "char"))) "logid"] false false Outside (Some "CreateEnvWithGlobalThreadPools");
     Member false "Env" None
       [Arg ByValue (Ptr (Const (Ty "OrtThreadingOptions"))) "tp_options";
        Arg ByValue (Ty "OrtLoggingFunction") "logging_function";
        Arg ByValue (Ptr (Ty "void")) "logger_param";
        Arg ByValue (Ty "OrtLoggingLevel") "logging_level";
        Arg ByValue (Ptr (Const (Ty "char"))) "logid"] false false Outside
       (Some "CreateEnvWithCustomLoggerAndGlobalThreadPools");
     Member false "Env" None [Arg ByValue (Ptr (Ty "OrtEnv")) "p"] false false
       (Inside [("Base<OrtEnv>", [Var "p"])] []) None;
     Member false "EnableTelemetryEvents" (Some (ByRef, Ty "Env")) [] false false Outside
       (Some "EnableTelemetryEvents");
     Member false "DisableTelemetryEvents" (Some (ByRef, Ty "Env")) [] false false Outside
       (Some "DisableTelemetryEvents");
     Member false "UpdateEnvWithCustomLogLevel" (Some (ByRef, Ty "Env"))
       [Arg ByValue (Ty "OrtLoggingLevel") "log_severity_level"] false false Outside
       (Some "UpdateEnvWithCustomLogLevel");
     Member false "CreateAndRegisterAllocator" (Some (ByRef, Ty "Env"))
       [Arg ByValue (Ptr (Const (Ty "OrtMemoryInfo"))) "mem_info";
        Arg ByValue (Ptr (Const (Ty "OrtArenaCfg"))) "arena_cfg"] false false Outside
       (Some "CreateAndRegisterAllocator");
     Member false "CreateAndRegisterAllocatorV2" (Some (ByRef, Ty "Env"))
       [Arg ByRef (Const (Ty "std::string")) "provider_type";
        Arg ByValue (Ptr (Const (Ty "OrtMemoryInfo"))) "mem_info";
        Arg ByRef (Const (Ty "std::unordered_map<std::string, std::string>")) "options";
        Arg ByValue (Ptr (Const (Ty "OrtArenaCfg"))) "arena_cfg"] false false Outside
       (Some "CreateAndRegisterAllocatorV2")].

Definition cls_CustomOpDomain : cls :=
  Class "CustomOpDomain" (Some ("Base", Owned "OrtCustomOpDomain")) []
    [Member false "CustomOpDomain" None [Arg ByValue (Ty "std::nullptr_t") ""] false false (Inside [] []) None;
     Member false "CustomOpDomain" None [Arg ByValue (Ptr (Const (Ty "char"))) "domain"] false false Outside
       (Some "CreateCustomOpDomain");
     Member false "Add" (Some (ByValue, Ty "void")) [Arg ByValue (Ptr (Const (Ty "OrtCustomOp"))) "op"] false false
       Outside (Some "CustomOpDomain_Add")].

Definition cls_LoraAdapter : cls :=
  Class "LoraAdapter" (Some ("Base", Owned "OrtLoraAdapter")) []
    [Member false "LoraAdapter" None [Arg ByValue (Ty "std::nullptr_t") ""] false false (Inside [] []) None;
     Member true "CreateLoraAdapter" (Some (ByValue, Ty "LoraAdapter"))
       [Arg ByRef (Const (Ty "std::basic_string<ORTCHAR_T>")) "adapter_path";
        Arg ByValue (Ptr (Ty "OrtAllocator")) "allocator"] false false Outside (Some "CreateLoraAdapter");
     Member true "CreateLoraAdapterFromArray" (Some (ByValue, Ty "LoraAdapter"))
       [Arg ByValue (Ptr (Const (Ty "void"))) "bytes";
        Arg ByValue (Ty "size_t") "num_bytes";
        Arg ByValue (Ptr (Ty "OrtAllocator")) "allocator"] false false Outside (Some "CreateLoraAdapterFromArray")].

Definition cls_RunOptions : cls :=
  Class "RunOptions" (Some ("Base", Owned "OrtRunOptions")) []
    [Member false "RunOptions" None [Arg ByValue (Ty "std::nullptr_t") ""] false false (Inside [] []) None;
     Member false "RunOptions" None [] false false Outside (Some "CreateRunOptions");
     Member false "SetRunLogVerbosityLevel" (Some (ByRef, Ty "RunOptions")) [Arg ByValue (Ty "int") ""] false false
       Outside (Some "RunOptionsSetRunLogVerbosityLevel");
     Member false "GetRunLogVerbosityLevel" (Some (ByValue, Ty "int")) [] true false Outside
       (Some "RunOptionsGetRunLogVerbosityLevel");
     Member false "SetRunLogSeverityLevel" (Some (ByRef, Ty "RunOptions")) [Arg ByValue (Ty "int") ""] false false
       Outside (Some "RunOptionsSetRunLogSeverityLevel");
     Member false "GetRunLogSeverityLevel" (Some (ByValue, Ty "int")) [] true false Outside
       (Some "RunOptionsGetRunLogSeverityLevel");
     Member false "SetRunTag" (Some (ByRef, Ty "RunOptions")) [Arg ByValue (Ptr (Const (Ty "char"))) "run_tag"]
       false false Outside (Some "RunOptionsSetRunTag");
     Member false "GetRunTag" (Some (ByValue, Ptr (Const (Ty "char")))) [] true false Outside
       (Some "RunOptionsGetRunTag");
     Member false "AddConfigEntry" (Some (ByRef, Ty "RunOptions"))
       [Arg ByValue (Ptr (Const (Ty "char"))) "config_key"; Arg ByValue (Ptr (Const (Ty "char"))) "config_value"]
       false false Outside (Some "AddRunConfigEntry");
     Member false "SetTerminate" (Some (ByRef, Ty "RunOptions")) [] false false Outside
       (Some "RunOptionsSetTerminate");
     Member false "UnsetTerminate" (Some (ByRef, Ty "RunOptions")) [] false false Outside
       (Some "RunOptionsUnsetTerminate");
     Member false "AddActiveLoraAdapter" (Some (ByRef, Ty "RunOptions"))
       [Arg ByRef (Const (Ty "LoraAdapter")) "adapter"] false false Outside
       (Some "RunOptionsAddActiveLoraAdapter")].

Definition cls_CustomOpConfigs : cls :=
  Class "CustomOpConfigs" None [("flat_configs_", Ty "std::unordered_map<std::string, std::string>")]
    [Member false "CustomOpConfigs" None [] false false Defaulted None;
     Member false "~CustomOpConfigs" None [] false false Defaulted None;
     Member false "CustomOpConfigs" None [Arg ByRef (Const (Ty "CustomOpConfigs")) ""] false false Defaulted None;
     Member false "operator=" (Some (ByRef, Ty "CustomOpConfigs")) [Arg ByRef (Const (Ty "CustomOpConfigs")) ""]
       false false Defaulted None;
     Member false "CustomOpConfigs" None [Arg ByMove (Ty "CustomOpConfigs") "o"] false false Defaulted None;
     Member false "operator=" (Some (ByRef, Ty "CustomOpConfigs")) [Arg ByMove (Ty "CustomOpConfigs") "o"] false
       false Defaulted None;
     Member false "AddConfig" (Some (ByRef, Ty "CustomOpConfigs"))
       [Arg ByValue (Ptr (Const (Ty "char"))) "custom_op_name";
        Arg ByValue (Ptr (Const (Ty "char"))) "config_key";
        Arg ByValue (Ptr (Const (Ty "char"))) "config_value"] false false Outside None;
     Member false "GetFlattenedConfigs" (Some (ByRef, Const (Ty "std::unordered_map<std::string, std::string>"))) []
       true false Outside None].

Definition cls_ConstSessionOptionsImpl : cls :=
  Class "ConstSessionOptionsImpl" (Some ("Base", TParam)) []
    [Member false "Clone" (Some (ByValue, Ty "SessionOptions")) [] true false Outside (Some "CloneSessionOptions");
     Member false "GetConfigEntry" (Some (ByValue, Ty "std::string"))
       [Arg ByValue (Ptr (Const (Ty "char"))) "config_key"] true false Outside (Some "GetSessionConfigEntry");
     Member false "HasConfigEntry" (Some (ByValue, Ty "bool")) [Arg ByValue (Ptr (Const (Ty "char"))) "config_key"]
       true false Outside (Some "HasSessionConfigEntry");
     Member false "GetConfigEntryOrDefault" (Some (ByValue, Ty "std::string"))
       [Arg ByValue (Ptr (Const (Ty "char"))) "config_key"; Arg ByRef (Const (Ty "std::string")) "def"] false false
       Outside None].

Definition cls_SessionOptionsImpl : cls :=
  Class "SessionOptionsImpl" (Some ("ConstSessionOptionsImpl", TParam)) []
    [Member false "SetIntraOpNumThreads" (Some (ByRef, Ty "SessionOptionsImpl"))
       [Arg ByValue (Ty "int") "intra_op_num_threads"] false false Outside (Some "SetIntraOpNumThreads");
     Member false "SetInterOpNumThreads" (Some (ByRef, Ty "SessionOptionsImpl"))
       [Arg ByValue (Ty "int") "inter_op_num_threads"] false false Outside (Some "SetInterOpNumThreads");
     Member false "SetGraphOptimizationLevel" (Some (ByRef, Ty "SessionOptionsImpl"))
       [Arg ByValue (Ty "GraphOptimizationLevel") "graph_optimization_level"] false false Outside
       (Some "SetSessionGraphOptimizationLevel");
     Member false "SetDeterministicCompute" (Some (ByRef, Ty "SessionOptionsImpl"))
       [Arg ByValue (Ty "bool") "value"] false false Outside (Some "SetDeterministicCompute");
     Member false "EnableCpuMemArena" (Some (ByRef, Ty "SessionOptionsImpl")) [] false false Outside
       (Some "EnableCpuMemArena");
     Member false "DisableCpuMemArena" (Some (ByRef, Ty "SessionOptionsImpl")) [] false false Outside
       (Some "DisableCpuMemArena");
     Member false "SetOptimizedModelFilePath" (Some (ByRef, Ty "SessionOptionsImpl"))
       [Arg ByValue (Ptr (Const (Ty "ORTCHAR_T"))) "optimized_model_file"] false false Outside
       (Some "SetOptimizedModelFilePath");
     Member false "EnableProfiling" (Some (ByRef, Ty "SessionOptionsImpl"))
       [Arg ByValue (Ptr (Const (Ty "ORTCHAR_T"))) "profile_file_prefix"] false false Outside
       (Some "EnableProfiling");
     Member false "DisableProfiling" (Some (ByRef, Ty "SessionOptionsImpl")) [] false false Outside
       (Some "DisableProfiling");
     Member false "EnableOrtCustomOps" (Some (ByRef, Ty "SessionOptionsImpl")) [] false false Outside
       (Some "EnableOrtCustomOps");
     Member false "EnableMemPattern" (Some (ByRef, Ty "SessionOptionsImpl")) [] false false Outside
       (Some "EnableMemPattern");
     Member false "DisableMemPattern" (Some (ByRef, Ty "SessionOptionsImpl")) [] false false Outside
       (Some "DisableMemPattern");
     Member false "SetExecutionMode" (Some (ByRef, Ty "SessionOptionsImpl"))
       [Arg ByValue (Ty "ExecutionMode") "execution_mode"] false false Outside (Some "SetSessionExecutionMode");
     Member false "SetLogId" (Some (ByRef, Ty "SessionOptionsImpl")) [Arg ByValue (Ptr (Const (Ty "char"))) "logid"]
       false false Outside (Some "SetSessionLogId");
     Member false "SetLogSeverityLevel" (Some (ByRef, Ty "SessionOptionsImpl")) [Arg ByValue (Ty "int") "level"]
       false false Outside (Some "SetSessionLogSeverityLevel");
     Member false "Add" (Some (ByRef, Ty "SessionOptionsImpl"))
       [Arg ByValue (Ptr (Ty "OrtCustomOpDomain")) "custom_op_domain"] false false Outside
       (Some "AddCustomOpDomain");
     Member false "DisablePerSessionThreads" (Some (ByRef, Ty "SessionOptionsImpl")) [] false false Outside
       (Some "DisablePerSessionThreads");
     Member false "AddConfigEntry" (Some (ByRef, Ty "SessionOptionsImpl"))
       [Arg ByValue (Ptr (Const (Ty "char"))) "config_key"; Arg ByValue (Ptr (Const (Ty "char"))) "config_value"]
       false false Outside (Some "AddSessionConfigEntry");
     Member false "AddInitializer" (Some (ByRef, Ty "SessionOptionsImpl"))
       [Arg ByValue (Ptr (Const (Ty "char"))) "name"; Arg ByValue (Ptr (Const (Ty "OrtValue"))) "ort_val"] false
       false Outside (Some "AddInitializer");
     Member false "AddExternalInitializers" (Some (ByRef, Ty "SessionOptionsImpl"))
       [Arg ByRef (Const (Ty "std::vector<std::string>")) "names";
        Arg ByRef (Const (Ty "std::vector<Value>")) "ort_values"] false false Outside
       (Some "AddExternalInitializers");
     Member false "AddExternalInitializersFromFilesInMemory" (Some (ByRef, Ty "SessionOptionsImpl"))
       [Arg ByRef (Const (Ty "std::vector<std::basic_string<ORTCHAR_T>>")) "external_initializer_file_names";
        Arg ByRef (Const (Ty "std::vector<char*>")) "external_initializer_file_buffer_array";
        Arg ByRef (Const (Ty "std::vector<size_t>")) "external_initializer_file_lengths"] false false Outside
       (Some "AddExternalInitializersFromFilesInMemory");
     Member false "AppendExecutionProvider_CUDA" (Some (ByRef, Ty "SessionOptionsImpl"))
       [Arg ByRef (Const (Ty "OrtCUDAProviderOptions")) "provider_options"] false false Outside
       (Some "SessionOptionsAppendExecutionProvider_CUDA");
     Member false "AppendExecutionProvider_CUDA_V2" (Some (ByRef, Ty "SessionOptionsImpl"))
       [Arg ByRef (Const (Ty "OrtCUDAProviderOptionsV2")) "provider_options"] false false Outside
       (Some "SessionOptionsAppendExecutionProvider_CUDA_V2");
     Member false "AppendExecutionProvider_ROCM" (Some (ByRef, Ty "SessionOptionsImpl"))
       [Arg ByRef (Const (Ty "OrtROCMProviderOptions")) "provider_options"] false false Outside
       (Some "SessionOptionsAppendExecutionProvider_ROCM");
     Member false "AppendExecutionProvider_OpenVINO" (Some (ByRef, Ty "SessionOptionsImpl"))
       [Arg ByRef (Const (Ty "OrtOpenVINOProviderOptions")) "provider_options"] false false Outside
       (Some "SessionOptionsAppendExecutionProvider_OpenVINO");
     Member false "AppendExecutionProvider_OpenVINO_V2" (Some (ByRef, Ty "SessionOptionsImpl"))
       [Arg ByRef (Const (Ty "std::unordered_map<std::string, std::string>")) "provider_options"] false false
       Outside (Some "SessionOptionsAppendExecutionProvider_OpenVINO_V2");
     Member false "AppendExecutionProvider_TensorRT" (Some (ByRef, Ty "SessionOptionsImpl"))
       [Arg ByRef (Const (Ty "OrtTensorRTProviderOptions")) "provider_options"] false false Outside
       (Some "SessionOptionsAppendExecutionProvider_TensorRT");
     Member false "AppendExecutionProvider_TensorRT_V2" (Some (ByRef, Ty "SessionOptionsImpl"))
       [Arg ByRef (Const (Ty "OrtTensorRTProviderOptionsV2")) "provider_options"] false false Outside
       (Some "SessionOptionsAppendExecutionProvider_TensorRT");
     Member false "AppendExecutionProvider_MIGraphX" (Some (ByRef, Ty "SessionOptionsImpl"))
       [Arg ByRef (Const (Ty "OrtMIGraphXProviderOptions")) "provider_options"] false false Outside
       (Some "SessionOptionsAppendExecutionProvider_MIGraphX");
     Member false "AppendExecutionProvider_CANN" (Some (ByRef, Ty "SessionOptionsImpl"))
       [Arg ByRef (Const (Ty "OrtCANNProviderOptions")) "provider_options"] false false Outside
       (Some "SessionOptionsAppendExecutionProvider_CANN");
     Member false "AppendExecutionProvider_Dnnl" (Some (ByRef, Ty "SessionOptionsImpl"))
       [Arg ByRef (Const (Ty "OrtDnnlProviderOptions")) "provider_options"] false false Outside
       (Some "SessionOptionsAppendExecutionProvider_Dnnl");
     Member false "AppendExecutionProvider" (Some (ByRef, Ty "SessionOptionsImpl"))
       [Arg ByRef (Const (Ty "std::string")) "provider_name";
        Arg ByRef (Const (Ty "std::unordered_map<std::string, std::string>")) "provider_options"] false false
       Outside (Some "SessionOptionsAppendExecutionProvider");
     Member false "SetCustomCreateThreadFn" (Some (ByRef, Ty "SessionOptionsImpl"))
       [Arg ByValue (Ty "OrtCustomCreateThreadFn") "ort_custom_create_thread_fn"] false false Outside
       (Some "SessionOptionsSetCustomCreateThreadFn");
     Member false "SetCustomThreadCreationOptions" (Some (ByRef, Ty "SessionOptionsImpl"))
       [Arg ByValue (Ptr (Ty "void")) "ort_custom_thread_creation_options"] false false Outside
       (Some "SessionOptionsSetCustomThreadCreationOptions");
     Member false "SetCustomJoinThreadFn" (Some (ByRef, Ty "SessionOptionsImpl"))
       [Arg ByValue (Ty "OrtCustomJoinThreadFn") "ort_custom_join_thread_fn"] false false Outside
       (Some "SessionOptionsSetCustomJoinThreadFn");
     Member false "RegisterCustomOpsLibrary" (Some (ByRef, Ty "SessionOptionsImpl"))
       [Arg ByValue (Ptr (Const (Ty "ORTCHAR_T"))) "library_name";
        Arg ByRef (Const (Ty "CustomOpConfigs")) "custom_op_configs"] false false Outside None;
     Member false "RegisterCustomOpsUsingFunction" (Some (ByRef, Ty "SessionOptionsImpl"))
       [Arg ByValue (Ptr (Const (Ty "char"))) "function_name"] false false Outside
       (Some "RegisterCustomOpsUsingFunction");
     Member false "AppendExecutionProvider_VitisAI" (Some (ByRef, Ty "SessionOptionsImpl"))
       [Arg ByRef (Const (Ty "std::unordered_map<std::string, std::string>")) "provider_options"] false false
       Outside (Some "SessionOptionsAppendExecutionProvider_VitisAI")].

Definition cls_SessionOptions : cls :=
  Class "SessionOptions" (Some ("SessionOptionsImpl", Owned "OrtSessionOptions")) []
    [Member false "SessionOptions" None [Arg ByValue (Ty "std::nullptr_t") ""] false false (Inside [] []) None;
     Member false "SessionOptions" None [] false false Outside (Some "CreateSessionOptions");
     Member false "SessionOptions" None [Arg ByValue (Ptr (Ty "OrtSessionOptions")) "p"] false false
       (Inside [("SessionOptionsImpl<OrtSessionOptions>", [Var "p"])] []) None;
     Member false "GetUnowned" (Some (ByValue, Ty "UnownedSessionOptions")) [] true false
       (Inside [] [Return (Some (New (Ty "UnownedSessionOptions") [Member_ "p_"]))]) None;
     Member false "GetConst" (Some (ByValue, Ty "ConstSessionOptions")) [] true false
       (Inside [] [Return (Some (New (Ty "ConstSessionOptions") [Member_ "p_"]))]) None].

Definition cls_ModelMetadata : cls :=
  Class "ModelMetadata" (Some ("Base", Owned "OrtModelMetadata")) []
    [Member false "ModelMetadata" None [Arg ByValue (Ty "std::nullptr_t") ""] false false (Inside [] []) None;
     Member false "ModelMetadata" None [Arg ByValue (Ptr (Ty "OrtModelMetadata")) "p"] false false
       (Inside [("Base<OrtModelMetadata>", [Var "p"])] []) None;
     Member false "GetProducerNameAllocated" (Some (ByValue, Ty "AllocatedStringPtr"))
       [Arg ByValue (Ptr (Ty "OrtAllocator")) "allocator"] true false Outside (Some "ModelMetadataGetProducerName");
     Member false "GetGraphNameAllocated" (Some (ByValue, Ty "AllocatedStringPtr"))
       [Arg ByValue (Ptr (Ty "OrtAllocator")) "allocator"] true false Outside (Some "ModelMetadataGetGraphName");
     Member false "GetDomainAllocated" (Some (ByValue, Ty "AllocatedStringPtr"))
       [Arg ByValue (Ptr (Ty "OrtAllocator")) "allocator"] true false Outside (Some "ModelMetadataGetDomain");
     Member false "GetDescriptionAllocated" (Some (ByValue, Ty "AllocatedStringPtr"))
       [Arg ByValue (Ptr (Ty "OrtAllocator")) "allocator"] true false Outside (Some "ModelMetadataGetDescription");
     Member false "GetGraphDescriptionAllocated" (Some (ByValue, Ty "AllocatedStringPtr"))
       [Arg ByValue (Ptr (Ty "OrtAllocator")) "allocator"] true false Outside
       (Some "ModelMetadataGetGraphDescription");
     Member false "GetCustomMetadataMapKeysAllocated" (Some (ByValue, Ty "std::vector<AllocatedStringPtr>"))
       [Arg ByValue (Ptr (Ty "OrtAllocator")) "allocator"] true false Outside
       (Some "ModelMetadataGetCustomMetadataMapKeys");
     Member false "LookupCustomMetadataMapAllocated" (Some (ByValue, Ty "AllocatedStringPtr"))
       [Arg ByValue (Ptr (Const (Ty "char"))) "key"; Arg ByValue (Ptr (Ty "OrtAllocator")) "allocator"] true false
       Outside (Some "ModelMetadataLookupCustomMetadataMap");
     Member false "GetVersion" (Some (ByValue, Ty "int64_t")) [] true false Outside
       (Some "ModelMetadataGetVersion")].

Definition cls_ConstSessionImpl : cls :=
  Class "ConstSessionImpl" (Some ("Base", TParam)) []
    [Member false "GetInputCount" (Some (ByValue, Ty "size_t")) [] true false Outside None;
     Member false "GetOutputCount" (Some (ByValue, Ty "size_t")) [] true false Outside None;
     Member false "GetOverridableInitializerCount" (Some (ByValue, Ty "size_t")) [] true false Outside None;
     Member false "GetInputNameAllocated" (Some (ByValue, Ty "AllocatedStringPtr"))
       [Arg ByValue (Ty "size_t") "index"; Arg ByValue (Ptr (Ty "OrtAllocator")) "allocator"] true false Outside
       None;
     Member false "GetOutputNameAllocated" (Some (ByValue, Ty "AllocatedStringPtr"))
       [Arg ByValue (Ty "size_t") "index"; Arg ByValue (Ptr (Ty "OrtAllocator")) "allocator"] true false Outside
       None;
     Member false "GetOverridableInitializerNameAllocated" (Some (ByValue, Ty "AllocatedStringPtr"))
       [Arg ByValue (Ty "size_t") "index"; Arg ByValue (Ptr (Ty "OrtAllocator")) "allocator"] true false Outside
       (Some "SessionGetOverridableInitializerName");
     Member false "GetProfilingStartTimeNs" (Some (ByValue, Ty "uint64_t")) [] true false Outside
       (Some "SessionGetProfilingStartTimeNs");
     Member false "GetModelMetadata" (Some (ByValue, Ty "ModelMetadata")) [] true false Outside
       (Some "SessionGetModelMetadata");
     Member false "GetInputTypeInfo" (Some (ByValue, Ty "TypeInfo")) [Arg ByValue (Ty "size_t") "index"] true false
       Outside (Some "SessionGetInputTypeInfo");
     Member false "GetOutputTypeInfo" (Some (ByValue, Ty "TypeInfo")) [Arg ByValue (Ty "size_t") "index"] true false
       Outside (Some "SessionGetOutputTypeInfo");
     Member false "GetOverridableInitializerTypeInfo" (Some (ByValue, Ty "TypeInfo"))
       [Arg ByValue (Ty "size_t") "index"] true false Outside (Some "SessionGetOverridableInitializerTypeInfo")].

Definition cls_SessionImpl : cls :=
  Class "SessionImpl" (Some ("ConstSessionImpl", TParam)) []
    [Member false "Run" (Some (ByValue, Ty "std::vector<Value>"))
       [Arg ByRef (Const (Ty "RunOptions")) "run_options";
        Arg ByValue (Ptr (Const (Ptr (Const (Ty "char"))))) "input_names";
        Arg ByValue (Ptr (Const (Ty "Value"))) "input_values";
        Arg ByValue (Ty "size_t") "input_count";
        Arg ByValue (Ptr (Const (Ptr (Const (Ty "char"))))) "output_names";
        Arg ByValue (Ty "size_t") "output_count"] false false Outside (Some "Run");
     Member false "Run" (Some (ByValue, Ty "void"))
       [Arg ByRef (Const (Ty "RunOptions")) "run_options";
        Arg ByValue (Ptr (Const (Ptr (Const (Ty "char"))))) "input_names";
        Arg ByValue (Ptr (Const (Ty "Value"))) "input_values";
        Arg ByValue (Ty "size_t") "input_count";
        Arg ByValue (Ptr (Const (Ptr (Const (Ty "char"))))) "output_names";
        Arg ByValue (Ptr (Ty "Value")) "output_values";
        Arg ByValue (Ty "size_t") "output_count"] false false Outside None;
     Member false "Run" (Some (ByValue, Ty "void"))
       [Arg ByRef (Const (Ty "RunOptions")) "run_options"; Arg ByRef (Const (Ty "IoBinding")) ""] false false
       Outside (Some "RunWithBinding");
     Member false "RunAsync" (Some (ByValue, Ty "void"))
       [Arg ByRef (Const (Ty "RunOptions")) "run_options";
        Arg ByValue (Ptr (Const (Ptr (Const (Ty "char"))))) "input_names";
        Arg ByValue (Ptr (Const (Ty "Value"))) "input_values";
        Arg ByValue (Ty "size_t") "input_count";
        Arg ByValue (Ptr (Const (Ptr (Const (Ty "char"))))) "output_names";
        Arg ByValue (Ptr (Ty "Value")) "output_values";
        Arg ByValue (Ty "size_t") "output_count";
        Arg ByValue (Ty "RunAsyncCallbackFn") "callback";
        Arg ByValue (Ptr (Ty "void")) "user_data"] false false Outside (Some "RunAsync");
     Member false "EndProfilingAllocated" (Some (ByValue, Ty "AllocatedStringPtr"))
       [Arg ByValue (Ptr (Ty "OrtAllocator")) "allocator"] false false Outside (Some "SessionEndProfiling");
     Member false "SetEpDynamicOptions" (Some (ByValue, Ty "void"))
       [Arg ByValue (Ptr (Const (Ptr (Const (Ty "char"))))) "keys";
        Arg ByValue (Ptr (Const (Ptr (Const (Ty "char"))))) "values";
        Arg ByValue (Ty "size_t") "kv_len"] false false Outside (Some "SetEpDynamicOptions")].

Definition cls_Session : cls :=
  Class "Session" (Some ("SessionImpl", Owned "OrtSession")) []
    [Member false "Session" None [Arg ByValue (Ty "std::nullptr_t") ""] false false (Inside [] []) None;
     Member false "Session" None
       [Arg ByRef (Const (Ty "Env")) "env";
        Arg ByValue (Ptr (Const (Ty "ORTCHAR_T"))) "model_path";
        Arg ByRef (Const (Ty "SessionOptions")) "options"] false false Outside (Some "CreateSession");
     Member false "Session" None
       [Arg ByRef (Const (Ty "Env")) "env";
        Arg ByValue (Ptr (Const (Ty "ORTCHAR_T"))) "model_path";
        Arg ByRef (Const (Ty "SessionOptions")) "options";
        Arg ByValue (Ptr (Ty "OrtPrepackedWeightsContainer")) "prepacked_weights_container"] false false Outside
       (Some "CreateSessionWithPrepackedWeightsContainer");
     Member false "Session" None
       [Arg ByRef (Const (Ty "Env")) "env";
        Arg ByValue (Ptr (Const (Ty "void"))) "model_data";
        Arg ByValue (Ty "size_t") "model_data_length";
        Arg ByRef (Const (Ty "SessionOptions")) "options"] false false Outside (Some "CreateSessionFromArray");
     Member false "Session" None
       [Arg ByRef (Const (Ty "Env")) "env";
        Arg ByValue (Ptr (Const (Ty "void"))) "model_data";
        Arg ByValue (Ty "size_t") "model_data_length";
        Arg ByRef (Const (Ty "SessionOptions")) "options";
        Arg ByValue (Ptr (Ty "OrtPrepackedWeightsContainer")) "prepacked_weights_container"] false false Outside
       (Some "CreateSessionFromArrayWithPrepackedWeightsContainer");
     Member false "GetConst" (Some (ByValue, Ty "ConstSession")) [] true false
       (Inside [] [Return (Some (New (Ty "ConstSession") [Member_ "p_"]))]) None;
     Member false "GetUnowned" (Some (ByValue, Ty "UnownedSession")) [] true false
       (Inside [] [Return (Some (New (Ty "UnownedSession") [Member_ "p_"]))]) None].

Definition cls_MemoryInfoImpl : cls :=
  Class "MemoryInfoImpl" (Some ("Base", TParam)) []
    [Member false "GetAllocatorName" (Some (ByValue, Ty "std::string")) [] true false Outside None;
     Member false "GetAllocatorType" (Some (ByValue, Ty "OrtAllocatorType")) [] true false Outside None;
     Member false "GetDeviceId" (Some (ByValue, Ty "int")) [] true false Outside None;
     Member false "GetDeviceType" (Some (ByValue, Ty "OrtMemoryInfoDeviceType")) [] true false Outside None;
     Member false "GetMemoryType" (Some (ByValue, Ty "OrtMemType")) [] true false Outside None;
     Member false "operator==" (Some (ByValue, Ty "bool")) [Arg ByRef (Const (Ty "MemoryInfoImpl<U>")) "o"] true
       false Outside None].

Definition cls_MemoryInfo : cls :=
  Class "MemoryInfo" (Some ("MemoryInfoImpl", Owned "OrtMemoryInfo")) []
    [Member true "CreateCpu" (Some (ByValue, Ty "MemoryInfo"))
       [Arg ByValue (Ty "OrtAllocatorType") "type"; Arg ByValue (Ty "OrtMemType") "mem_type1"] false false Outside
       None;
     Member false "MemoryInfo" None [Arg ByValue (Ty "std::nullptr_t") ""] false false (Inside [] []) None;
     Member false "MemoryInfo" None [Arg ByValue (Ptr (Ty "OrtMemoryInfo")) "p"] false false
       (Inside [("MemoryInfoImpl<OrtMemoryInfo>", [Var "p"])] []) None;
     Member false "MemoryInfo" None
       [Arg ByValue (Ptr (Const (Ty "char"))) "name";
        Arg ByValue (Ty "OrtAllocatorType") "type";
        Arg ByValue (Ty "int") "id";
        Arg ByValue (Ty "OrtMemType") "mem_type"] false false Outside None;
     Member false "GetConst" (Some (ByValue, Ty "ConstMemoryInfo")) [] true false
       (Inside [] [Return (Some (New (Ty "ConstMemoryInfo") [Member_ "p_"]))]) None].

Definition cls_TensorTypeAndShapeInfoImpl : cls :=
  Class "TensorTypeAndShapeInfoImpl" (Some ("Base", TParam)) []
    [Member false "GetElementType" (Some (ByValue, Ty "ONNXTensorElementDataType")) [] true false Outside
       (Some "GetTensorElementType");
     Member false "GetElementCount" (Some (ByValue, Ty "size_t")) [] true false Outside
       (Some "GetTensorShapeElementCount");
     Member false "GetDimensionsCount" (Some (ByValue, Ty "size_t")) [] true false Outside
       (Some "GetDimensionsCount");
     Member false "GetDimensions" (Some (ByValue, Ty "void"))
       [Arg ByValue (Ptr (Ty "int64_t")) "values"; Arg ByValue (Ty "size_t") "values_count"] true false Outside
       (Some "GetDimensions");
     Member false "GetSymbolicDimensions" (Some (ByValue, Ty "void"))
       [Arg ByValue (Ptr (Ptr (Const (Ty "char")))) "values"; Arg ByValue (Ty "size_t") "values_count"] true false
       Outside (Some "GetSymbolicDimensions");
     Member false "GetShape" (Some (ByValue, Ty "std::vector<int64_t>")) [] true false Outside None].

Definition cls_TensorTypeAndShapeInfo : cls :=
  Class "TensorTypeAndShapeInfo" (Some ("TensorTypeAndShapeInfoImpl", Owned "OrtTensorTypeAndShapeInfo")) []
    [Member false "TensorTypeAndShapeInfo" None [Arg ByValue (Ty "std::nullptr_t") ""] false false (Inside [] [])
       None;
     Member false "TensorTypeAndShapeInfo" None [Arg ByValue (Ptr (Ty "OrtTensorTypeAndShapeInfo")) "p"] false false
       (Inside [("TensorTypeAndShapeInfoImpl", [Var "p"])] []) None;
     Member false "GetConst" (Some (ByValue, Ty "ConstTensorTypeAndShapeInfo")) [] true false
       (Inside [] [Return (Some (New (Ty "ConstTensorTypeAndShapeInfo") [Member_ "p_"]))]) None].

Definition cls_SequenceTypeInfoImpl : cls :=
  Class "SequenceTypeInfoImpl" (Some ("Base", TParam)) []
    [Member false "GetSequenceElementType" (Some (ByValue, Ty "TypeInfo")) [] true false Outside
       (Some "GetSequenceElementType")].

Definition cls_SequenceTypeInfo : cls :=
  Class "SequenceTypeInfo" (Some ("SequenceTypeInfoImpl", Owned "OrtSequenceTypeInfo")) []
    [Member false "SequenceTypeInfo" None [Arg ByValue (Ty "std::nullptr_t") ""] false false (Inside [] []) None;
     Member false "SequenceTypeInfo" None [Arg ByValue (Ptr (Ty "OrtSequenceTypeInfo")) "p"] false false
       (Inside [("SequenceTypeInfoImpl<OrtSequenceTypeInfo>", [Var "p"])] []) None;
     Member false "GetConst" (Some (ByValue, Ty "ConstSequenceTypeInfo")) [] true false
       (Inside [] [Return (Some (New (Ty "ConstSequenceTypeInfo") [Member_ "p_"]))]) None].

Definition cls_OptionalTypeInfoImpl : cls :=
  Class "OptionalTypeInfoImpl" (Some ("Base", TParam)) []
    [Member false "GetOptionalElementType" (Some (ByValue, Ty "TypeInfo")) [] true false Outside
       (Some "CastOptionalTypeToContainedTypeInfo")].

Definition cls_MapTypeInfoImpl : cls :=
  Class "MapTypeInfoImpl" (Some ("Base", TParam)) []
    [Member false "GetMapKeyType" (Some (ByValue, Ty "ONNXTensorElementDataType")) [] true false Outside
       (Some "GetMapKeyType");
     Member false "GetMapValueType" (Some (ByValue, Ty "TypeInfo")) [] true false Outside (Some "GetMapValueType")].

Definition cls_MapTypeInfo : cls :=
  Class "MapTypeInfo" (Some ("MapTypeInfoImpl", Owned "OrtMapTypeInfo")) []
    [Member false "MapTypeInfo" None [Arg ByValue (Ty "std::nullptr_t") ""] false false (Inside [] []) None;
     Member false "MapTypeInfo" None [Arg ByValue (Ptr (Ty "OrtMapTypeInfo")) "p"] false false
       (Inside [("MapTypeInfoImpl<OrtMapTypeInfo>", [Var "p"])] []) None;
     Member false "GetConst" (Some (ByValue, Ty "ConstMapTypeInfo")) [] true false
       (Inside [] [Return (Some (New (Ty "ConstMapTypeInfo") [Member_ "p_"]))]) None].

Definition cls_TypeInfoImpl : cls :=
  Class "TypeInfoImpl" (Some ("Base", TParam)) []
    [Member false "GetTensorTypeAndShapeInfo" (Some (ByValue, Ty "ConstTensorTypeAndShapeInfo")) [] true false
       Outside (Some "CastTypeInfoToTensorInfo");
     Member false "GetSequenceTypeInfo" (Some (ByValue, Ty "ConstSequenceTypeInfo")) [] true false Outside
       (Some "CastTypeInfoToSequenceTypeInfo");
     Member false "GetMapTypeInfo" (Some (ByValue, Ty "ConstMapTypeInfo")) [] true false Outside
       (Some "CastTypeInfoToMapTypeInfo");
     Member false "GetOptionalTypeInfo" (Some (ByValue, Ty "ConstOptionalTypeInfo")) [] true false Outside
       (Some "CastTypeInfoToOptionalTypeInfo");
     Member false "GetONNXType" (Some (ByValue, Ty "ONNXType")) [] true false Outside None].

Definition cls_TypeInfo : cls :=
  Class "TypeInfo" (Some ("TypeInfoImpl", Owned "OrtTypeInfo")) []
    [Member false "TypeInfo" None [Arg ByValue (Ty "std::nullptr_t") ""] false false (Inside [] []) None;
     Member false "TypeInfo" None [Arg ByValue (Ptr (Ty "OrtTypeInfo")) "p"] false false
       (Inside [("TypeInfoImpl<OrtTypeInfo>", [Var "p"])] []) None;
     Member false "GetConst" (Some (ByValue, Ty "ConstTypeInfo")) [] true false
       (Inside [] [Return (Some (New (Ty "ConstTypeInfo") [Member_ "p_"]))]) None].

Definition cls_OrtSparseValuesParam : cls :=
  Class "OrtSparseValuesParam" None
    [("values_shape", Ptr (Const (Ty "int64_t")));
     ("values_shape_len", Ty "size_t");
     ("data.p_data", Ptr (Const (Ty "void")));
     ("data.str", Ptr (Ptr (Const (Ty "char"))))] [].

Definition cls_Shape : cls :=
  Class "Shape" None [("shape", Ptr (Const (Ty "int64_t"))); ("shape_len", Ty "size_t")] [].

Definition cls_ConstValueImpl : cls :=
  Class "ConstValueImpl" (Some ("Base", TParam)) []
    [Member false "GetOpaqueData" (Some (ByValue, Ty "void"))
       [Arg ByValue (Ptr (Const (Ty "char"))) "domain";
        Arg ByValue (Ptr (Const (Ty "char"))) "type_name";
        Arg ByRef (Ty "R") ""] true false Outside (Some "GetOpaqueValue");
     Member false "IsTensor" (Some (ByValue, Ty "bool")) [] true false Outside None;
     Member false "HasValue" (Some (ByValue, Ty "bool")) [] true false Outside None;
     Member false "GetCount" (Some (ByValue, Ty "size_t")) [] true false Outside None;
     Member false "GetValue" (Some (ByValue, Ty "Value"))
       [Arg ByValue (Ty "int") "index"; Arg ByValue (Ptr (Ty "OrtAllocator")) "allocator"] true false Outside None;
     Member false "GetStringTensorDataLength" (Some (ByValue, Ty "size_t")) [] true false Outside None;
     Member false "GetStringTensorContent" (Some (ByValue, Ty "void"))
       [Arg ByValue (Ptr (Ty "void")) "buffer";
        Arg ByValue (Ty "size_t") "buffer_length";
        Arg ByValue (Ptr (Ty "size_t")) "offsets";
        Arg ByValue (Ty "size_t") "offsets_count"] true false Outside None;
     Member false "GetTensorData" (Some (ByValue, Ptr (Const (Ty "R")))) [] true false Outside
       (Some "GetTensorMutableData");
     Member false "GetTensorRawData" (Some (ByValue, Ptr (Const (Ty "void")))) [] true false Outside None;
     Member false "GetTypeInfo" (Some (ByValue, Ty "TypeInfo")) [] true false Outside None;
     Member false "GetTensorTypeAndShapeInfo" (Some (ByValue, Ty "TensorTypeAndShapeInfo")) [] true false Outside
       None;
     Member false "GetTensorMemoryInfo" (Some (ByValue, Ty "ConstMemoryInfo")) [] true false Outside None;
     Member false "GetStringTensorElement" (Some (ByValue, Ty "void"))
       [Arg ByValue (Ty "size_t") "buffer_length";
        Arg ByValue (Ty "size_t") "element_index";
        Arg ByValue (Ptr (Ty "void")) "buffer"] true false Outside None;
     Member false "GetStringTensorElement" (Some (ByValue, Ty "std::string"))
       [Arg ByValue (Ty "size_t") "element_index"] true false Outside None;
     Member false "GetStringTensorElementLength" (Some (ByValue, Ty "size_t"))
       [Arg ByValue (Ty "size_t") "element_index"] true false Outside None;
     Member false "GetSparseFormat" (Some (ByValue, Ty "OrtSparseFormat")) [] true false Outside None;
     Member false "GetSparseTensorValuesTypeAndShapeInfo" (Some (ByValue, Ty "TensorTypeAndShapeInfo")) [] true
       false Outside None;
     Member false "GetSparseTensorIndicesTypeShapeInfo" (Some (ByValue, Ty "TensorTypeAndShapeInfo"))
       [Arg ByValue (Ty "OrtSparseIndicesFormat") "format"] true false Outside None;
     Member false "GetSparseTensorIndicesData" (Some (ByValue, Ptr (Const (Ty "R"))))
       [Arg ByValue (Ty "OrtSparseIndicesFormat") "indices_format"; Arg ByRef (Ty "size_t") "num_indices"] true
       false Outside None;
     Member false "IsSparseTensor" (Some (ByValue, Ty "bool")) [] true false Outside None;
     Member false "GetSparseTensorValues" (Some (ByValue, Ptr (Const (Ty "R")))) [] true false Outside None].

Definition cls_ValueImpl : cls :=
  Class "ValueImpl" (Some ("ConstValueImpl", TParam)) []
    [Member false "GetTensorMutableData" (Some (ByValue, Ptr (Ty "R"))) [] false false Outside None;
     Member false "GetTensorMutableRawData" (Some (ByValue, Ptr (Ty "void"))) [] false false Outside None;
     Member false "At" (Some (ByRef, Ty "R")) [Arg ByRef (Const (Ty "std::vector<int64_t>")) "location"] false false
       Outside None;
     Member false "FillStringTensor" (Some (ByValue, Ty "void"))
       [Arg ByValue (Ptr (Const (Ptr (Const (Ty "char"))))) "s"; Arg ByValue (Ty "size_t") "s_len"] false false
       Outside None;
     Member false "FillStringTensorElement" (Some (ByValue, Ty "void"))
       [Arg ByValue (Ptr (Const (Ty "char"))) "s"; Arg ByValue (Ty "size_t") "index"] false false Outside None;
     Member false "GetResizedStringTensorElementBuffer" (Some (ByValue, Ptr (Ty "char")))
       [Arg ByValue (Ty "size_t") "index"; Arg ByValue (Ty "size_t") "buffer_length"] false false Outside None;
     Member false "UseCooIndices" (Some (ByValue, Ty "void"))
       [Arg ByValue (Ptr (Ty "int64_t")) "indices_data"; Arg ByValue (Ty "size_t") "indices_num"] false false
       Outside None;
     Member false "UseCsrIndices" (Some (ByValue, Ty "void"))
       [Arg ByValue (Ptr (Ty "int64_t")) "inner_data";
        Arg ByValue (Ty "size_t") "inner_num";
        Arg ByValue (Ptr (Ty "int64_t")) "outer_data";
        Arg ByValue (Ty "size_t") "outer_num"] false false Outside None;
     Member false "UseBlockSparseIndices" (Some (ByValue, Ty "void"))
       [Arg ByRef (Const (Ty "Shape")) "indices_shape"; Arg ByValue (Ptr (Ty "int32_t")) "indices_data"] false false
       Outside None;
     Member false "FillSparseTensorCoo" (Some (ByValue, Ty "void"))
       [Arg ByValue (Ptr (Const (Ty "OrtMemoryInfo"))) "data_mem_info";
        Arg ByRef (Const (Ty "OrtSparseValuesParam")) "values_param";
        Arg ByValue (Ptr (Const (Ty "int64_t"))) "indices_data";
        Arg ByValue (Ty "size_t") "indices_num"] false false Outside None;
     Member false "FillSparseTensorCsr" (Some (ByValue, Ty "void"))
       [Arg ByValue (Ptr (Const (Ty "OrtMemoryInfo"))) "data_mem_info";
        Arg ByRef (Const (Ty "OrtSparseValuesParam")) "values";
        Arg ByValue (Ptr (Const (Ty "int64_t"))) "inner_indices_data";
        Arg ByValue (Ty "size_t") "inner_indices_num";
        Arg ByValue (Ptr (Const (Ty "int64_t"))) "outer_indices_data";
        Arg ByValue (Ty "size_t") "outer_indices_num"] false false Outside None;
     Member false "FillSparseTensorBlockSparse" (Some (ByValue, Ty "void"))
       [Arg ByValue (Ptr (Const (Ty "OrtMemoryInfo"))) "data_mem_info";
        Arg ByRef (Const (Ty "OrtSparseValuesParam")) "values";
        Arg ByRef (Const (Ty "Shape")) "indices_shape";
        Arg ByValue (Ptr (Const (Ty "int32_t"))) "indices_data"] false false Outside None].

Definition cls_Value : cls :=
  Class "Value" (Some ("ValueImpl", Owned "OrtValue")) []
    [Member false "Value" None [Arg ByValue (Ty "std::nullptr_t") ""] false false (Inside [] []) None;
     Member false "Value" None [Arg ByValue (Ptr (Ty "OrtValue")) "p"] false false (Inside [("Base", [Var "p"])] [])
       None;
     Member false "Value" None [Arg ByMove (Ty "Value") ""] false false Defaulted None;
     Member false "operator=" (Some (ByRef, Ty "Value")) [Arg ByMove (Ty "Value") ""] false false Defaulted None;
     Member false "GetConst" (Some (ByValue, Ty "ConstValue")) [] true false
       (Inside [] [Return (Some (New (Ty "ConstValue") [Member_ "p_"]))]) None;
     Member false "GetUnowned" (Some (ByValue, Ty "UnownedValue")) [] true false
       (Inside [] [Return (Some (New (Ty "UnownedValue") [Member_ "p_"]))]) None;
     Member true "CreateTensor" (Some (ByValue, Ty "Value"))
       [Arg ByValue (Ptr (Const (Ty "OrtMemoryInfo"))) "info";
        Arg ByValue (Ptr (Ty "T")) "p_data";
        Arg ByValue (Ty "size_t") "p_data_element_count";
        Arg ByValue (Ptr (Const (Ty "int64_t"))) "shape";
        Arg ByValue (Ty "size_t") "shape_len"] false false Outside (Some "CreateTensorWithDataAsOrtValue");
     Member true "CreateTensor" (Some (ByValue, Ty "Value"))
       [Arg ByValue (Ptr (Const (Ty "OrtMemoryInfo"))) "info";
        Arg ByValue (Ptr (Ty "void")) "p_data";
        Arg ByValue (Ty "size_t") "p_data_byte_count";
        Arg ByValue (Ptr (Const (Ty "int64_t"))) "shape";
        Arg ByValue (Ty "size_t") "shape_len";
        Arg ByValue (Ty "ONNXTensorElementDataType") "type"] false false Outside
       (Some "CreateTensorWithDataAsOrtValue");
     Member true "CreateTensor" (Some (ByValue, Ty "Value"))
       [Arg ByValue (Ptr (Ty "OrtAllocator")) "allocator";
        Arg ByValue (Ptr (Const (Ty "int64_t"))) "shape";
        Arg ByValue (Ty "size_t") "shape_len"] false false Outside (Some "CreateTensorAsOrtValue");
     Member true "CreateTensor" (Some (ByValue, Ty "Value"))
       [Arg ByValue (Ptr (Ty "OrtAllocator")) "allocator";
        Arg ByValue (Ptr (Const (Ty "int64_t"))) "shape";
        Arg ByValue (Ty "size_t") "shape_len";
        Arg ByValue (Ty "ONNXTensorElementDataType") "type"] false false Outside (Some "CreateTensorAsOrtValue");
     Member true "CreateMap" (Some (ByValue, Ty "Value"))
       [Arg ByRef (Const (Ty "Value")) "keys"; Arg ByRef (Const (Ty "Value")) "values"] false false Outside
       (Some "CreateValue");
     Member true "CreateSequence" (Some (ByValue, Ty "Value"))
       [Arg ByRef (Const (Ty "std::vector<Value>")) "values"] false false Outside (Some "CreateValue");
     Member true "CreateOpaque" (Some (ByValue, Ty "Value"))
       [Arg ByValue (Ptr (Const (Ty "char"))) "domain";
        Arg ByValue (Ptr (Const (Ty "char"))) "type_name";
        Arg ByRef (Const (Ty "T")) "value"] false false Outside (Some "CreateOpaqueValue");
     Member true "CreateSparseTensor" (Some (ByValue, Ty "Value"))
       [Arg ByValue (Ptr (Const (Ty "OrtMemoryInfo"))) "info";
        Arg ByValue (Ptr (Ty "T")) "p_data";
        Arg ByRef (Const (Ty "Shape")) "dense_shape";
        Arg ByRef (Const (Ty "Shape")) "values_shape"] false false Outside None;
     Member true "CreateSparseTensor" (Some (ByValue, Ty "Value"))
       [Arg ByValue (Ptr (Const (Ty "OrtMemoryInfo"))) "info";
        Arg ByValue (Ptr (Ty "void")) "p_data";
        Arg ByRef (Const (Ty "Shape")) "dense_shape";
        Arg ByRef (Const (Ty "Shape")) "values_shape";
        Arg ByValue (Ty "ONNXTensorElementDataType") "type"] false false Outside None;
     Member true "CreateSparseTensor" (Some (ByValue, Ty "Value"))
       [Arg ByValue (Ptr (Ty "OrtAllocator")) "allocator"; Arg ByRef (Const (Ty "Shape")) "dense_shape"] false false
       Outside None;
     Member true "CreateSparseTensor" (Some (ByValue, Ty "Value"))
       [Arg ByValue (Ptr (Ty "OrtAllocator")) "allocator";
        Arg ByRef (Const (Ty "Shape")) "dense_shape";
        Arg ByValue (Ty "ONNXTensorElementDataType") "type"] false false Outside None].

Definition cls_MemoryAllocation : cls :=
  Class "MemoryAllocation" None
    [("allocator_", Ptr (Ty "OrtAllocator")); ("p_", Ptr (Ty "void")); ("size_", Ty "size_t")]
    [Member false "MemoryAllocation" None
       [Arg ByValue (Ptr (Ty "OrtAllocator")) "allocator";
        Arg ByValue (Ptr (Ty "void")) "p";
        Arg ByValue (Ty "size_t") "size"] false false Outside None;
     Member false "~MemoryAllocation" None [] false false Outside None;
     Member false "MemoryAllocation" None [Arg ByRef (Const (Ty "MemoryAllocation")) ""] false false Deleted None;
     Member false "operator=" (Some (ByRef, Ty "MemoryAllocation")) [Arg ByRef (Const (Ty "MemoryAllocation")) ""]
       false false Deleted None;
     Member false "MemoryAllocation" None [Arg ByMove (Ty "MemoryAllocation") ""] false true Outside None;
     Member false "operator=" (Some (ByRef, Ty "MemoryAllocation")) [Arg ByMove (Ty "MemoryAllocation") ""] false
       true Outside None;
     Member false "get" (Some (ByValue, Ptr (Ty "void"))) [] false false (Inside [] [Return (Some (Member_ "p_"))])
       None;
     Member false "size" (Some (ByValue, Ty "size_t")) [] true false (Inside [] [Return (Some (Member_ "size_"))])
       None].

Definition cls_AllocatorImpl : cls :=
  Class "AllocatorImpl" (Some ("Base", TParam)) []
    [Member false "Alloc" (Some (ByValue, Ptr (Ty "void"))) [Arg ByValue (Ty "size_t") "size"] false false Outside
       None;
     Member false "GetAllocation" (Some (ByValue, Ty "MemoryAllocation")) [Arg ByValue (Ty "size_t") "size"] false
       false Outside None;
     Member false "Free" (Some (ByValue, Ty "void")) [Arg ByValue (Ptr (Ty "void")) "p"] false false Outside None;
     Member false "GetInfo" (Some (ByValue, Ty "ConstMemoryInfo")) [] true false Outside None].

Definition cls_AllocatorWithDefaultOptions : cls :=
  Class "AllocatorWithDefaultOptions" (Some ("AllocatorImpl", Unowned false "OrtAllocator")) []
    [Member false "AllocatorWithDefaultOptions" None [Arg ByValue (Ty "std::nullptr_t") ""] false false
       (Inside [] []) None;
     Member false "AllocatorWithDefaultOptions" None [] false false Outside None].

Definition cls_Allocator : cls :=
  Class "Allocator" (Some ("AllocatorImpl", Owned "OrtAllocator")) []
    [Member false "Allocator" None [Arg ByValue (Ty "std::nullptr_t") ""] false false (Inside [] []) None;
     Member false "Allocator" None
       [Arg ByRef (Const (Ty "Session")) "session"; Arg ByValue (Ptr (Const (Ty "OrtMemoryInfo"))) ""] false false
       Outside None].

Definition cls_ConstIoBindingImpl : cls :=
  Class "ConstIoBindingImpl" (Some ("Base", TParam)) []
    [Member false "GetOutputNames" (Some (ByValue, Ty "std::vector<std::string>")) [] true false Outside None;
     Member false "GetOutputNames" (Some (ByValue, Ty "std::vector<std::string>"))
       [Arg ByValue (Ptr (Ty "OrtAllocator")) ""] true false Outside None;
     Member false "GetOutputValues" (Some (ByValue, Ty "std::vector<Value>")) [] true false Outside None;
     Member false "GetOutputValues" (Some (ByValue, Ty "std::vector<Value>"))
       [Arg ByValue (Ptr (Ty "OrtAllocator")) ""] true false Outside None].

Definition cls_IoBindingImpl : cls :=
  Class "IoBindingImpl" (Some ("ConstIoBindingImpl", TParam)) []
    [Member false "BindInput" (Some (ByValue, Ty "void"))
       [Arg ByValue (Ptr (Const (Ty "char"))) "name"; Arg ByRef (Const (Ty "Value")) ""] false false Outside None;
     Member false "BindOutput" (Some (ByValue, Ty "void"))
       [Arg ByValue (Ptr (Const (Ty "char"))) "name"; Arg ByRef (Const (Ty "Value")) ""] false false Outside None;
     Member false "BindOutput" (Some (ByValue, Ty "void"))
       [Arg ByValue (Ptr (Const (Ty "char"))) "name"; Arg ByValue (Ptr (Const (Ty "OrtMemoryInfo"))) ""] false false
       Outside None;
     Member false "ClearBoundInputs" (Some (ByValue, Ty "void")) [] false false Outside None;
     Member false "ClearBoundOutputs" (Some (ByValue, Ty "void")) [] false false Outside None;
     Member false "SynchronizeInputs" (Some (ByValue, Ty "void")) [] false false Outside None;
     Member false "SynchronizeOutputs" (Some (ByValue, Ty "void")) [] false false Outside None].

Definition cls_IoBinding : cls :=
  Class "IoBinding" (Some ("IoBindingImpl", Owned "OrtIoBinding")) []
    [Member false "IoBinding" None [Arg ByValue (Ty "std::nullptr_t") ""] false false (Inside [] []) None;
     Member false "IoBinding" None [Arg ByRef (Ty "Session") "session"] false false Outside None;
     Member false "GetConst" (Some (ByValue, Ty "ConstIoBinding")) [] true false
       (Inside [] [Return (Some (New (Ty "ConstIoBinding") [Member_ "p_"]))]) None;
     Member false "GetUnowned" (Some (ByValue, Ty "UnownedIoBinding")) [] true false
       (Inside [] [Return (Some (New (Ty "UnownedIoBinding") [Member_ "p_"]))]) None].

Definition cls_ArenaCfg : cls :=
  Class "ArenaCfg" (Some ("Base", Owned "OrtArenaCfg")) []
    [Member false "ArenaCfg" None [Arg ByValue (Ty "std::nullptr_t") ""] false false (Inside [] []) None;
     Member false "ArenaCfg" None
       [Arg ByValue (Ty "size_t") "max_mem";
        Arg ByValue (Ty "int") "arena_extend_strategy";
        Arg ByValue (Ty "int") "initial_chunk_size_bytes";
        Arg ByValue (Ty "int") "max_dead_bytes_per_chunk"] false false Outside (Some "CreateArenaCfg")].

Definition cls_OpAttr : cls :=
  Class "OpAttr" (Some ("Base", Owned "OrtOpAttr")) []
    [Member false "OpAttr" None
       [Arg ByValue (Ptr (Const (Ty "char"))) "name";
        Arg ByValue (Ptr (Const (Ty "void"))) "data";
        Arg ByValue (Ty "int") "len";
        Arg ByValue (Ty "OrtOpAttrType") "type"] false false Outside None].

Definition cls_Logger : cls :=
  Class "Logger" None [("logger_", Ptr (Const (Ty "OrtLogger"))); ("cached_severity_level_", Ty "OrtLoggingLevel")]
    [Member false "Logger" None [] false false Defaulted None;
     Member false "Logger" None [Arg ByValue (Ty "std::nullptr_t") ""] false false (Inside [] []) None;
     Member false "Logger" None [Arg ByValue (Ptr (Const (Ty "OrtLogger"))) "logger"] false false Outside None;
     Member false "~Logger" None [] false false Defaulted None;
     Member false "Logger" None [Arg ByRef (Const (Ty "Logger")) ""] false false Defaulted None;
     Member false "operator=" (Some (ByRef, Ty "Logger")) [Arg ByRef (Const (Ty "Logger")) ""] false false Defaulted
       None;
     Member false "Logger" None [Arg ByMove (Ty "Logger") "v"] false true Defaulted None;
     Member false "operator=" (Some (ByRef, Ty "Logger")) [Arg ByMove (Ty "Logger") "v"] false true Defaulted None;
     Member false "GetLoggingSeverityLevel" (Some (ByValue, Ty "OrtLoggingLevel")) [] true true Outside None;
     Member false "LogMessage" (Some (ByValue, Ty "Status"))
       [Arg ByValue (Ty "OrtLoggingLevel") "log_severity_level";
        Arg ByValue (Ptr (Const (Ty "ORTCHAR_T"))) "file_path";
        Arg ByValue (Ty "int") "line_number";
        Arg ByValue (Ptr (Const (Ty "char"))) "func_name";
        Arg ByValue (Ptr (Const (Ty "char"))) "message"] true true Outside None;
     Member false "LogFormattedMessage" (Some (ByValue, Ty "Status"))
       [Arg ByValue (Ty "OrtLoggingLevel") "log_severity_level";
        Arg ByValue (Ptr (Const (Ty "ORTCHAR_T"))) "file_path";
        Arg ByValue (Ty "int") "line_number";
        Arg ByValue (Ptr (Const (Ty "char"))) "func_name";
        Arg ByValue (Ptr (Const (Ty "char"))) "format";
        Arg ByMove (Ty "Args...") "args"] true true Outside None].

Definition cls_KernelContext : cls :=
  Class "KernelContext" None [("ctx_", Ptr (Ty "OrtKernelContext"))]
    [Member false "KernelContext" None [Arg ByValue (Ptr (Ty "OrtKernelContext")) "context"] false false Outside
       None;
     Member false "GetInputCount" (Some (ByValue, Ty "size_t")) [] true false Outside None;
     Member false "GetOutputCount" (Some (ByValue, Ty "size_t")) [] true false Outside None;
     Member false "GetInput" (Some (ByValue, Ty "ConstValue")) [Arg ByValue (Ty "size_t") "index"] true false
       Outside None;
     Member false "GetOutput" (Some (ByValue, Ty "UnownedValue"))
       [Arg ByValue (Ty "size_t") "index";
        Arg ByValue (Ptr (Const (Ty "int64_t"))) "dim_values";
        Arg ByValue (Ty "size_t") "dim_count"] true false Outside None;
     Member false "GetOutput" (Some (ByValue, Ty "UnownedValue"))
       [Arg ByValue (Ty "size_t") "index"; Arg ByRef (Const (Ty "std::vector<int64_t>")) "dims"] true false Outside
       None;
     Member false "GetGPUComputeStream" (Some (ByValue, Ptr (Ty "void"))) [] true false Outside None;
     Member false "GetLogger" (Some (ByValue, Ty "Logger")) [] true false Outside None;
     Member false "GetAllocator" (Some (ByValue, Ptr (Ty "OrtAllocator")))
       [Arg ByRef (Const (Ty "OrtMemoryInfo")) "memory_info"] true false Outside None;
     Member false "GetOrtKernelContext" (Some (ByValue, Ptr (Ty "OrtKernelContext"))) [] true false
       (Inside [] [Return (Some (Member_ "ctx_"))]) None;
     Member false "ParallelFor" (Some (ByValue, Ty "void"))
       [Arg ByValue (Fn (Ty "void") [Ptr (Ty "void"); Ty "size_t"]) "fn";
        Arg ByValue (Ty "size_t") "total";
        Arg ByValue (Ty "size_t") "num_batch";
        Arg ByValue (Ptr (Ty "void")) "usr_data"] true false Outside None].

Definition cls_KernelInfoImpl : cls :=
  Class "KernelInfoImpl" (Some ("Base", TParam)) []
    [Member false "Copy" (Some (ByValue, Ty "KernelInfo")) [] true false Outside None;
     Member false "GetAttribute" (Some (ByValue, Ty "R")) [Arg ByValue (Ptr (Const (Ty "char"))) "name"] true false
       (Inside []
          [Decl ByValue (Ty "R") "val" None;
           Expr (Fun "attr_utils::GetAttr" [Member_ "p_"; Var "name"; Var "val"]);
           Return (Some (Var "val"))]) None;
     Member false "GetAttributes" (Some (ByValue, Ty "std::vector<R>"))
       [Arg ByValue (Ptr (Const (Ty "char"))) "name"] true false
       (Inside []
          [Decl ByValue (Ty "std::vector<R>") "result" None;
           Expr (Fun "attr_utils::GetAttrs" [Member_ "p_"; Var "name"; Var "result"]);
           Return (Some (Var "result"))]) None;
     Member false "GetTensorAttribute" (Some (ByValue, Ty "Value"))
       [Arg ByValue (Ptr (Const (Ty "char"))) "name"; Arg ByValue (Ptr (Ty "OrtAllocator")) "allocator"] true false
       Outside None;
     Member false "GetInputCount" (Some (ByValue, Ty "size_t")) [] true false Outside None;
     Member false "GetOutputCount" (Some (ByValue, Ty "size_t")) [] true false Outside None;
     Member false "GetInputName" (Some (ByValue, Ty "std::string")) [Arg ByValue (Ty "size_t") "index"] true false
       Outside None;
     Member false "GetOutputName" (Some (ByValue, Ty "std::string")) [Arg ByValue (Ty "size_t") "index"] true false
       Outside None;
     Member false "GetInputTypeInfo" (Some (ByValue, Ty "TypeInfo")) [Arg ByValue (Ty "size_t") "index"] true false
       Outside None;
     Member false "GetOutputTypeInfo" (Some (ByValue, Ty "TypeInfo")) [Arg ByValue (Ty "size_t") "index"] true false
       Outside None;
     Member false "GetTensorConstantInput" (Some (ByValue, Ty "ConstValue"))
       [Arg ByValue (Ty "size_t") "index"; Arg ByValue (Ptr (Ty "int")) "is_constant"] true false Outside None;
     Member false "GetNodeName" (Some (ByValue, Ty "std::string")) [] true false Outside None;
     Member false "GetLogger" (Some (ByValue, Ty "Logger")) [] true false Outside None].

Definition cls_KernelInfo : cls :=
  Class "KernelInfo" (Some ("KernelInfoImpl", Owned "OrtKernelInfo")) []
    [Member false "KernelInfo" None [Arg ByValue (Ty "std::nullptr_t") ""] false false (Inside [] []) None;
     Member false "KernelInfo" None [Arg ByValue (Ptr (Ty "OrtKernelInfo")) "info"] false false Outside None;
     Member false "GetConst" (Some (ByValue, Ty "ConstKernelInfo")) [] true false
       (Inside [] [Return (Some (New (Ty "ConstKernelInfo") [Member_ "p_"]))]) None].

Definition cls_Op : cls :=
  Class "Op" (Some ("Base", Owned "OrtOp")) []
    [Member false "Op" None [Arg ByValue (Ty "std::nullptr_t") ""] false false (Inside [] []) None;
     Member false "Op" None [Arg ByValue (Ptr (Ty "OrtOp")) ""] false false Outside None;
     Member true "Create" (Some (ByValue, Ty "Op"))
       [Arg ByValue (Ptr (Const (Ty "OrtKernelInfo"))) "info";
        Arg ByValue (Ptr (Const (Ty "char"))) "op_name";
        Arg ByValue (Ptr (Const (Ty "char"))) "domain";
        Arg ByValue (Ty "int") "version";
        Arg ByValue (Ptr (Ptr (Const (Ty "char")))) "type_constraint_names";
        Arg ByValue (Ptr (Const (Ty "ONNXTensorElementDataType"))) "type_constraint_values";
        Arg ByValue (Ty "size_t") "type_constraint_count";
        Arg ByValue (Ptr (Const (Ty "OpAttr"))) "attr_values";
        Arg ByValue (Ty "size_t") "attr_count";
        Arg ByValue (Ty "size_t") "input_count";
        Arg ByValue (Ty "size_t") "output_count"] false false Outside None;
     Member false "Invoke" (Some (ByValue, Ty "void"))
       [Arg ByValue (Ptr (Const (Ty "OrtKernelContext"))) "context";
        Arg ByValue (Ptr (Const (Ty "Value"))) "input_values";
        Arg ByValue (Ty "size_t") "input_count";
        Arg ByValue (Ptr (Ty "Value")) "output_values";
        Arg ByValue (Ty "size_t") "output_count"] false false Outside None;
     Member false "Invoke" (Some (ByValue, Ty "void"))
       [Arg ByValue (Ptr (Const (Ty "OrtKernelContext"))) "context";
        Arg ByValue (Ptr (Const (Ptr (Const (Ty "OrtValue"))))) "input_values";
        Arg ByValue (Ty "size_t") "input_count";
        Arg ByValue (Ptr (Const (Ptr (Ty "OrtValue")))) "output_values";
        Arg ByValue (Ty "size_t") "output_count"] false false Outside None].

Definition cls_ShapeInferContext : cls :=
  Class "ShapeInferContext" None
    [("ort_api_", Ptr (Const (Ty "OrtApi")));
     ("ctx_", Ptr (Ty "OrtShapeInferContext"));
     ("input_shapes_", Ty "std::vector<Shape>")]
    [Member false "ShapeInferContext" None
       [Arg ByValue (Ptr (Const (Ty "OrtApi"))) "ort_api"; Arg ByValue (Ptr (Ty "OrtShapeInferContext")) "ctx"]
       false false Outside None;
     Member false "GetInputShape" (Some (ByRef, Const (Ty "Shape"))) [Arg ByValue (Ty "size_t") "indice"] true false
       (Inside [] [Return (Some (Method (Member_ "input_shapes_") "at" [Var "indice"]))]) None;
     Member false "GetInputCount" (Some (ByValue, Ty "size_t")) [] true false
       (Inside [] [Return (Some (Method (Member_ "input_shapes_") "size" []))]) None;
     Member false "SetOutputShape" (Some (ByValue, Ty "Status"))
       [Arg ByValue (Ty "size_t") "indice";
        Arg ByRef (Const (Ty "Shape")) "shape";
        Arg ByValue (Ty "ONNXTensorElementDataType") "type"] false false Outside None;
     Member false "GetAttrInt" (Some (ByValue, Ty "int64_t")) [Arg ByValue (Ptr (Const (Ty "char"))) "attr_name"]
       false false Outside None;
     Member false "GetAttrInts" (Some (ByValue, Ty "Ints")) [Arg ByValue (Ptr (Const (Ty "char"))) "attr_name"]
       false false Outside None;
     Member false "GetAttrFloat" (Some (ByValue, Ty "float")) [Arg ByValue (Ptr (Const (Ty "char"))) "attr_name"]
       false false Outside None;
     Member false "GetAttrFloats" (Some (ByValue, Ty "Floats")) [Arg ByValue (Ptr (Const (Ty "char"))) "attr_name"]
       false false Outside None;
     Member false "GetAttrString" (Some (ByValue, Ty "std::string"))
       [Arg ByValue (Ptr (Const (Ty "char"))) "attr_name"] false false Outside None;
     Member false "GetAttrStrings" (Some (ByValue, Ty "Strings"))
       [Arg ByValue (Ptr (Const (Ty "char"))) "attr_name"] false false Outside None;
     Member false "GetAttrHdl" (Some (ByValue, Ptr (Const (Ty "OrtOpAttr"))))
       [Arg ByValue (Ptr (Const (Ty "char"))) "attr_name"] true false Outside None].

Definition classes : list cls :=
  [ cls_Status; cls_ThreadingOptions; cls_Env; cls_CustomOpDomain; cls_LoraAdapter; cls_RunOptions;
    cls_CustomOpConfigs; cls_ConstSessionOptionsImpl; cls_SessionOptionsImpl; cls_SessionOptions;
    cls_ModelMetadata; cls_ConstSessionImpl; cls_SessionImpl; cls_Session; cls_MemoryInfoImpl; cls_MemoryInfo;
    cls_TensorTypeAndShapeInfoImpl; cls_TensorTypeAndShapeInfo; cls_SequenceTypeInfoImpl;
    cls_SequenceTypeInfo; cls_OptionalTypeInfoImpl; cls_MapTypeInfoImpl; cls_MapTypeInfo; cls_TypeInfoImpl;
    cls_TypeInfo; cls_OrtSparseValuesParam; cls_Shape; cls_ConstValueImpl; cls_ValueImpl; cls_Value;
    cls_MemoryAllocation; cls_AllocatorImpl; cls_AllocatorWithDefaultOptions; cls_Allocator;
    cls_ConstIoBindingImpl; cls_IoBindingImpl; cls_IoBinding; cls_ArenaCfg; cls_OpAttr; cls_Logger;
    cls_KernelContext; cls_KernelInfoImpl; cls_KernelInfo; cls_Op; cls_ShapeInferContext ].

(** The instances of the class templates that have a name. *)
Definition aliases : list (string * (string * handle)) :=
  [ ("UnownedSessionOptions", ("SessionOptionsImpl", Unowned false "OrtSessionOptions"));
    ("ConstSessionOptions", ("ConstSessionOptionsImpl", Unowned true "OrtSessionOptions"));
    ("ConstSession", ("ConstSessionImpl", Unowned true "OrtSession"));
    ("UnownedSession", ("SessionImpl", Unowned false "OrtSession"));
    ("ConstMemoryInfo", ("MemoryInfoImpl", Unowned true "OrtMemoryInfo"));
    ("ConstTensorTypeAndShapeInfo", ("TensorTypeAndShapeInfoImpl", Unowned true "OrtTensorTypeAndShapeInfo"));
    ("ConstSequenceTypeInfo", ("SequenceTypeInfoImpl", Unowned true "OrtSequenceTypeInfo"));
    ("ConstOptionalTypeInfo", ("OptionalTypeInfoImpl", Unowned true "OrtOptionalTypeInfo"));
    ("ConstMapTypeInfo", ("MapTypeInfoImpl", Unowned true "OrtMapTypeInfo"));
    ("ConstTypeInfo", ("TypeInfoImpl", Unowned true "OrtTypeInfo"));
    ("ConstValue", ("ConstValueImpl", Unowned true "OrtValue"));
    ("UnownedValue", ("ValueImpl", Unowned false "OrtValue"));
    ("UnownedAllocator", ("AllocatorImpl", Unowned false "OrtAllocator"));
    ("ConstIoBinding", ("ConstIoBindingImpl", Unowned true "OrtIoBinding"));
    ("UnownedIoBinding", ("IoBindingImpl", Unowned false "OrtIoBinding"));
    ("ConstKernelInfo", ("KernelInfoImpl", Unowned true "OrtKernelInfo")) ].
