(* ===== verification/CxxBase.v ===== *)
(** * CxxBase: the pointer holders of the C++ wrappers

    [detail::Base<T>] and [detail::Base<Unowned<T>>] of onnxruntime_cxx_api.h: what their constructors, move
    operations, [release] and destructor do to the pointers they hold, and which pointers they release
    (Module Base).  The dimensions of [ShapeInferContext], a tagged union of an integer and a string
    (Module SymbolicInteger). *)

From stdpp Require Import fin_maps sorting.
From S2P Require Import Prelude.
Local Open Scope string_scope.
Local Open Scope list_scope.
#[local] Set Warnings "-clear-no-such-hyp".

Module Base.

(** The holders in existence with the pointer each has ([p_], null is [None]); the pointers holders were
    constructed from, those released, and those given back by [release()]. *)
Record state := State {
  holders : gmap string (option nat);
  adopted : list nat;
  freed : list nat;
  returned : list nat }.
Definition initial : state := State ∅ [] [] [].
Definition set_p (x : string) (p : option nat) (s : state) : state :=
  State (<[x := p]> (holders s)) (adopted s) (freed s) (returned s).
Definition remove (x : string) (s : state) : state := State (delete x (holders s)) (adopted s) (freed s) (returned s).
Definition free (p : option nat) (s : state) : state :=
  State (holders s) (adopted s) (freed s ++ option_list p) (returned s).

Inductive op :=
| Construct (x : string) (p : option nat)     (* Base(p) *)
| MoveConstruct (x v : string)                (* Base(std::move(v)) *)
| MoveAssign (x v : string)                   (* x = std::move(v) *)
| ReleaseOf (x : string)                      (* x.release() *)
| Destroy (x : string).                       (* ~Base() *)

(** [Base<T>].  A name is constructed once and used while it exists. *)
Definition holder_step (o : op) (s : state) : option state :=
  match o with
  | Construct x p =>
      match holders s !! x with
      | Some _ => None
      | None => Some (State (<[x := p]> (holders s)) (adopted s ++ option_list p) (freed s) (returned s))
      end
  | MoveConstruct x v =>
      match holders s !! x, holders s !! v with
      | None, Some p => Some (set_p v None (set_p x p s))
      | _, _ => None
      end
  | MoveAssign x v =>
      p ← holders s !! x;
      let s := free p s in
      q ← holders s !! v;
      Some (set_p x q (set_p v None s))
  | ReleaseOf x =>
      p ← holders s !! x;
      Some (State (<[x := None]> (holders s)) (adopted s) (freed s) (returned s ++ option_list p))
  | Destroy x => p ← holders s !! x; Some (remove x (free p s))
  end.

(** [Base<Unowned<T>>]: nothing is released, and there is no [release()]. *)
Definition unowned_step (o : op) (s : state) : option state :=
  match o with
  | Construct _ _ | MoveConstruct _ _ => holder_step o s
  | MoveAssign x v =>
      _ ← holders s !! x;
      let s := set_p x None s in
      q ← holders s !! v;
      Some (set_p v None (set_p x q s))
  | ReleaseOf _ => None
  | Destroy x => _ ← holders s !! x; Some (remove x s)
  end.

Fixpoint run (f : op -> state -> option state) (l : list op) (s : state) : option state :=
  match l with
  | [] => Some s
  | o :: l => s ← f o s; run f l s
  end.

(** ** What is held *)

Definition held (m : gmap string (option nat)) : list nat := (map_to_list m).*2 ≫= option_list.

Lemma held_insert x p m : m !! x = None -> held (<[x := p]> m) ≡ₚ option_list p ++ held m.
Proof. intros Hx. unfold held. by rewrite (map_to_list_insert m x p Hx). Qed.

Lemma held_delete x p m : m !! x = Some p -> held m ≡ₚ option_list p ++ held (delete x m).
Proof. intros Hx. rewrite <- (insert_delete_id m x p Hx) at 1. apply held_insert, lookup_delete_eq. Qed.

Lemma held_update x p q m : m !! x = Some p -> option_list p ++ held (<[x := q]> m) ≡ₚ option_list q ++ held m.
Proof.
  intros Hx. rewrite (held_delete x p m Hx), <- insert_delete_eq, held_insert by apply lookup_delete_eq.
  rewrite !app_assoc. by rewrite (Permutation_app_comm (option_list p)).
Qed.

(** ** Accounting *)

(** What an assignment of a holder to itself releases although the holder keeps it. *)
Definition self_move (o : op) : bool := match o with MoveAssign x v => x =? v | _ => false end.
Definition self_freed1 (o : op) (s : state) : list nat :=
  match o with MoveAssign x v => if x =? v then option_list (mjoin (holders s !! x)) else [] | _ => [] end.
Fixpoint self_freed (l : list op) (s : state) : list nat :=
  match l with
  | [] => []
  | o :: l => self_freed1 o s ++ match holder_step o s with Some s' => self_freed l s' | None => [] end
  end.

(** Every pointer a holder was constructed from is, once, released, given back or still held; and what
    self-assignments have released is accounted for twice. *)
Definition accounted (extra : list nat) (s : state) : Prop := freed s ++ returned s ++ held (holders s) ≡ₚ adopted s ++ extra.

Lemma holder_step_accounted o s s' extra : accounted extra s -> holder_step o s = Some s' -> accounted (extra ++ self_freed1 o s) s'.
Proof.
  unfold accounted. intros Ha Hs. destruct o as [x p|x v|x v|x|x]; simpl in *.
  - destruct (holders s !! x) eqn:Hx; simplify_eq/=. rewrite held_insert by done.
    transitivity (option_list p ++ freed s ++ returned s ++ held (holders s)); [solve_Permutation | rewrite Ha; solve_Permutation].
  - destruct (holders s !! x) eqn:Hx, (holders s !! v) as [p|] eqn:Hv; simplify_eq/=. rewrite app_nil_r, <- Ha. do 2 f_equiv.
    assert (x <> v) by congruence. apply (Permutation_app_inv_l (option_list p)).
    rewrite (held_update v p None) by by rewrite lookup_insert_ne. by rewrite held_insert.
  - destruct (holders s !! x) as [p|] eqn:Hx, (holders s !! v) as [q|] eqn:Hv; simplify_eq/=. destruct (String.eqb_spec x v) as [->|Hm].
    + simplify_eq. rewrite insert_insert_eq, insert_id by done. rewrite (app_assoc (adopted s)), <- Ha. solve_Permutation.
    + pose proof (held_update v q None _ Hv) as H1. pose proof (held_update x p q (<[v := None]> (holders s))) as H2.
      rewrite lookup_insert_ne in H2 by done. specialize (H2 Hx). simpl in H1. rewrite H1 in H2. rewrite app_nil_r, <- Ha, <- H2. solve_Permutation.
  - destruct (holders s !! x) as [p|] eqn:Hx; simplify_eq/=. pose proof (held_update x p None _ Hx) as H1. simpl in H1.
    rewrite app_nil_r, <- Ha, <- H1. solve_Permutation.
  - destruct (holders s !! x) as [p|] eqn:Hx; simplify_eq/=. rewrite app_nil_r, <- Ha, (held_delete x p (holders s) Hx). solve_Permutation.
Qed.

Lemma run_accounted l : forall s s' extra, accounted extra s -> run holder_step l s = Some s' -> accounted (extra ++ self_freed l s) s'.
Proof.
  induction l as [|o l IH]; intros s s' extra Ha Hr; simpl in *; [simplify_eq; by rewrite app_nil_r|].
  destruct (holder_step o s) as [s1|] eqn:Hs; [|done]. rewrite app_assoc. eapply IH, Hr. by apply holder_step_accounted.
Qed.

Lemma self_freed_none l : forallb (fun o => negb (self_move o)) l = true -> forall s, self_freed l s = [].
Proof.
  induction l as [|o l IH]; intros Hl s; simpl in *; [done|]. apply andb_true_iff in Hl as [Ho%negb_true_iff Hl].
  assert (self_freed1 o s = []) as -> by (destruct o; try done; simpl in *; by rewrite Ho). destruct (holder_step o s); [by apply IH | done].
Qed.

Lemma initial_accounted : accounted [] initial.
Proof. unfold accounted, held. simpl. by rewrite map_to_list_empty. Qed.

Lemma held_elem x i m : m !! x = Some (Some i) -> i ∈ held m.
Proof. intros Hx. rewrite (held_delete x _ m Hx). simpl. set_solver. Qed.

Lemma held_apart m x y i : NoDup (held m) -> m !! x = Some (Some i) -> m !! y = Some (Some i) -> x = y.
Proof.
  intros Hn Hx Hy. destruct (decide (x = y)) as [|Hxy]; [done|]. rewrite (held_delete x _ m Hx) in Hn. simpl in Hn.
  apply NoDup_cons in Hn as [Hi _]. destruct Hi. apply (held_elem y). by rewrite lookup_delete_ne.
Qed.

Lemma unowned_step_frees o s s' : unowned_step o s = Some s' -> freed s' = freed s /\ returned s' = returned s.
Proof.
  intros Hs. destruct o as [x p|x v|x v|x|x]; simpl in Hs; try done;
    repeat (case_match; simplify_eq/=; try done).
  - destruct (holders s !! x); simplify_eq/=. by destruct (<[x := None]> (holders s) !! v); simplify_eq/=.
  - by destruct (holders s !! x); simplify_eq/=.
Qed.

(** ** Properties *)

(** C36: However holders are constructed, moved, assigned, released and destroyed, every pointer is released,
    given back and held, all together, exactly as often as a holder was constructed from it, and once more for each time
    its holder was assigned to itself; when no holder is left, it has been released or given back that often.
    So if no two holders were constructed from one pointer and none was assigned to itself, each pointer is released
    at most once, never after it has been given back and never while a holder still has it, and two holders never
    have the same one. *)
Theorem holders_release_once l s :
  run holder_step l initial = Some s ->
  freed s ++ returned s ++ held (holders s) ≡ₚ adopted s ++ self_freed l initial /\
  (holders s = ∅ -> freed s ++ returned s ≡ₚ adopted s ++ self_freed l initial) /\
  (forallb (fun o => negb (self_move o)) l = true -> NoDup (adopted s) ->
   NoDup (freed s ++ returned s) /\
   (forall x y i, holders s !! x = Some (Some i) -> ~ i ∈ freed s ++ returned s /\ (holders s !! y = Some (Some i) -> x = y)) /\
   (holders s = ∅ -> adopted s ≡ₚ freed s ++ returned s)).
Proof.
  intros Hr. pose proof (run_accounted l _ _ _ initial_accounted Hr) as Ha. unfold accounted in Ha. simpl in Ha.
  assert (holders s = ∅ -> freed s ++ returned s ++ held (holders s) = freed s ++ returned s) as He
    by (intros ->; unfold held; rewrite map_to_list_empty; simpl; by rewrite app_nil_r).
  split; [done|]. split; [intros E; by rewrite <- (He E)|]. intros Hl Hn. rewrite self_freed_none, app_nil_r in Ha by done.
  pose proof Ha as Ha'. rewrite <- Ha, app_assoc in Hn. apply NoDup_app in Hn as (Hn & Hd & Hh). split; [done|]. split.
  - intros x y i Hx. split; [|by intros Hy; eapply held_apart]. intros Hi. by apply (Hd i Hi), (held_elem x).
  - intros E. by rewrite <- (He E).
Qed.

Lemma holders_release_once_witness :
  let l := [Construct "a" (Some 1); Construct "b" (Some 2); Construct "c" None; MoveAssign "a" "b"; MoveConstruct "d" "a";
            Construct "e" (Some 3); ReleaseOf "e"; Destroy "a"; Destroy "b"; Destroy "c"; Destroy "d"; Destroy "e"]%nat in
  exists s, run holder_step l initial = Some s /\ freed s = [1; 2]%nat /\ returned s = [3]%nat /\ NoDup (freed s ++ returned s).
Proof.
  intros l. destruct (run holder_step l initial) as [s|] eqn:Hr; [|vm_compute in Hr; discriminate Hr].
  exists s. split; [done|]. pose proof Hr as Hs. vm_compute in Hs. assert (freed s = [1; 2]%nat /\ returned s = [3]%nat) as [Hf Ht] by by simplify_eq.
  split; [done|]. split; [done|]. destruct (holders_release_once l s Hr) as (_ & _ & H). apply H; [reflexivity|].
  simplify_eq. apply (bool_decide_unpack _). reflexivity.
Defined.

(** Assigning a holder of an object to itself releases the object and keeps the pointer; destroying the
    holder then releases it again.  A holder that does not own its object loses it instead, and no sequence
    of operations on such holders releases anything. *)
Theorem self_move_releases_twice x i s :
  holders s !! x = Some (Some i) ->
  (exists s', run holder_step [MoveAssign x x; Destroy x] s = Some s' /\ freed s' = freed s ++ [i; i]) /\
  (exists s', unowned_step (MoveAssign x x) s = Some s' /\ holders s' !! x = Some None) /\
  (forall l s', run unowned_step l s = Some s' -> freed s' = freed s).
Proof.
  intros Hx. split; [|split].
  - eexists. simpl. rewrite Hx. simpl. rewrite lookup_insert_eq. simpl. split; [done|]. simpl. by rewrite <- app_assoc.
  - eexists. simpl. rewrite Hx. simpl. rewrite lookup_insert_eq. simpl. split; [done|]. simpl. apply lookup_insert_eq.
  - clear Hx. intros l. revert s. induction l as [|o l IH]; intros s s' Hr; simpl in Hr; [by simplify_eq|].
    destruct (unowned_step o s) as [s1|] eqn:Hs; [|done]. rewrite (IH _ _ Hr). by apply (unowned_step_frees o).
Qed.

Lemma self_move_releases_twice_witness :
  exists s', run holder_step [MoveAssign "a" "a"; Destroy "a"] (State {["a" := Some 1%nat]} [1%nat] [] []) = Some s' /\ freed s' = [1; 1]%nat.
Proof. apply (self_move_releases_twice "a" 1 (State {["a" := Some 1%nat]} [1%nat] [] [])). reflexivity. Defined.
End Base.

Module SymbolicInteger.

(** The union and its tag [is_int_]; the string can be null. *)
Inductive t := Int (i_ : Z) | Sym (s_ : option string).
#[export] Instance t_eq_dec : EqDecision t.
Proof. solve_decision. Defined.
Definition IsInt (d : t) : bool := match d with Int _ => true | Sym _ => false end.
(** Reading the member that is not active is undefined. *)
Definition AsInt (d : t) : option Z := match d with Int i => Some i | Sym _ => None end.
Definition AsSym (d : t) : option (option string) := match d with Int _ => None | Sym s => Some s end.
Definition INVALID_INT_DIM : Z := -2.
(** [operator==]; [None] where it would read a member that is not active, or a string through null. *)
Definition equals (a b : t) : option bool :=
  if bool_decide (IsInt a = IsInt b) then
    if IsInt a then i ← AsInt a; j ← AsInt b; Some (i =? j)%Z
    else s ← AsSym a; r ← AsSym b; s ← s; r ← r; Some (s =? r)
  else Some false.

(** The dimensions [SetOutputShape] passes on: the integers, and the names, empty for an integer; an exception
    for an empty name. *)
Fixpoint dims (shape : list t) : option (list Z * list string) :=
  match shape with
  | [] => Some ([], [])
  | d :: shape =>
      if IsInt d then i ← AsInt d; '(ints, syms) ← dims shape; Some (i :: ints, "" :: syms)
      else s ← AsSym d; s ← s;
           if s =? "" then None else '(ints, syms) ← dims shape; Some (INVALID_INT_DIM :: ints, s :: syms)
  end.
(** The constructor of [ShapeInferContext] reads a dimension back: a name that is not empty wins. *)
Definition read_dim (i : Z) (s : string) : t := if s =? "" then Int i else Sym (Some s).

Lemma equals_spec a b : Sym None <> a -> Sym None <> b -> equals a b = Some (bool_decide (a = b)).
Proof.
  intros Ha Hb. destruct a as [i|[s|]], b as [j|[r|]]; unfold equals; simpl; try done; f_equal.
  - apply Bool.eq_iff_eq_true. rewrite Z.eqb_eq, bool_decide_eq_true. split; congruence.
  - apply Bool.eq_iff_eq_true. rewrite String.eqb_eq, bool_decide_eq_true. split; congruence.
Qed.

(** The shape an operator sets is the shape a later shape inference reads: reading the dimensions that
    [SetOutputShape] passes on gives back every shape it accepts, and it refuses exactly the shapes with an
    empty or null name; on the shapes it accepts, comparing dimensions decides equality. *)
Theorem shapes_round_trip shape :
  match dims shape with
  | Some (ints, syms) =>
      length ints = length syms /\ zip_with read_dim ints syms = shape /\
      forall a b, a ∈ shape -> b ∈ shape -> equals a b = Some (bool_decide (a = b))
  | None => Sym (Some "") ∈ shape \/ Sym None ∈ shape
  end.
Proof.
  assert (match dims shape with
          | Some (ints, syms) => length ints = length syms /\ zip_with read_dim ints syms = shape /\ ~ Sym None ∈ shape
          | None => Sym (Some "") ∈ shape \/ Sym None ∈ shape
          end) as H.
  { induction shape as [|[i|[s|]] shape IH]; simpl; [set_solver| | |set_solver].
    - destruct (dims shape) as [[ints syms]|]; simpl; [|set_solver]. destruct IH as (-> & -> & ?). set_solver.
    - destruct (s =? "") eqn:Hs; [apply String.eqb_eq in Hs as ->; set_solver|].
      destruct (dims shape) as [[ints syms]|]; simpl; [|set_solver]. destruct IH as (-> & -> & ?). unfold read_dim. rewrite Hs. set_solver. }
  destruct (dims shape) as [[ints syms]|]; [|done]. destruct H as (-> & -> & Hn). split; [done|]. split; [done|].
  intros a b Ha Hb. apply equals_spec; by intros <-.
Qed.
End SymbolicInteger.
