(* ===== verification/LiteCustomOp.v ===== *)
(** * LiteCustomOp: operators made from functions

    [onnxruntime_lite_custom_op.h]: how an operator's declaration is derived from the parameter types of a
    function ([ParseArgs]), how the arguments of a call are made from the inputs and outputs of the kernel
    ([CreateTuple]), the tensors, spans and arrays they are (Module Tensors), and the table of callbacks the
    runtime gets.  The runtime is the interface [KernelContext], what it promises is [Represents]. *)

From Stdlib Require Import Strings.Ascii.
From S2P Require Import Prelude OrtApi OrtStructs CxxBase.
Local Open Scope string_scope.
Local Open Scope list_scope.
Local Open Scope nat_scope.
#[local] Set Warnings "-clear-no-such-hyp".

(** ** Types of parameters *)

Inductive data_type :=
| d_bool | d_float | d_Float16_t | d_BFloat16_t | d_double | d_int8_t | d_int16_t | d_int32_t | d_int64_t
| d_uint8_t | d_uint16_t | d_uint32_t | d_uint64_t | d_string | d_string_view
| d_Float8E4M3FN_t | d_Float8E4M3FNUZ_t | d_Float8E5M2_t | d_Float8E5M2FNUZ_t.
#[export] Instance data_type_eq_dec : EqDecision data_type.
Proof. solve_decision. Defined.
Definition is_string (d : data_type) : bool := match d with d_string | d_string_view => true | _ => false end.

(** The argument lists of [PARSE_ARGS]. *)
Definition element_enum (d : data_type) : string :=
  match d with
  | d_bool => "ONNX_TENSOR_ELEMENT_DATA_TYPE_BOOL"
  | d_float => "ONNX_TENSOR_ELEMENT_DATA_TYPE_FLOAT"
  | d_Float16_t => "ONNX_TENSOR_ELEMENT_DATA_TYPE_FLOAT16"
  | d_BFloat16_t => "ONNX_TENSOR_ELEMENT_DATA_TYPE_BFLOAT16"
  | d_double => "ONNX_TENSOR_ELEMENT_DATA_TYPE_DOUBLE"
  | d_int8_t => "ONNX_TENSOR_ELEMENT_DATA_TYPE_INT8"
  | d_int16_t => "ONNX_TENSOR_ELEMENT_DATA_TYPE_INT16"
  | d_int32_t => "ONNX_TENSOR_ELEMENT_DATA_TYPE_INT32"
  | d_int64_t => "ONNX_TENSOR_ELEMENT_DATA_TYPE_INT64"
  | d_uint8_t => "ONNX_TENSOR_ELEMENT_DATA_TYPE_UINT8"
  | d_uint16_t => "ONNX_TENSOR_ELEMENT_DATA_TYPE_UINT16"
  | d_uint32_t => "ONNX_TENSOR_ELEMENT_DATA_TYPE_UINT32"
  | d_uint64_t => "ONNX_TENSOR_ELEMENT_DATA_TYPE_UINT64"
  | d_string => "ONNX_TENSOR_ELEMENT_DATA_TYPE_STRING"
  | d_string_view => "ONNX_TENSOR_ELEMENT_DATA_TYPE_STRING"
  | d_Float8E4M3FN_t => "ONNX_TENSOR_ELEMENT_DATA_TYPE_FLOAT8E4M3FN"
  | d_Float8E4M3FNUZ_t => "ONNX_TENSOR_ELEMENT_DATA_TYPE_FLOAT8E4M3FNUZ"
  | d_Float8E5M2_t => "ONNX_TENSOR_ELEMENT_DATA_TYPE_FLOAT8E5M2"
  | d_Float8E5M2FNUZ_t => "ONNX_TENSOR_ELEMENT_DATA_TYPE_FLOAT8E5M2FNUZ"
  end.
Definition onnx_type (d : data_type) : Z := default (-1)%Z (enum_value ONNXTensorElementDataType (element_enum d)).
Definition UNDEFINED : Z := 0.

(** The trait of onnxruntime_cxx_inline.h; the string types have none. *)
Definition TypeToTensorType (d : data_type) : option string :=
  match d with
  | d_float => Some "ONNX_TENSOR_ELEMENT_DATA_TYPE_FLOAT"
  | d_Float16_t => Some "ONNX_TENSOR_ELEMENT_DATA_TYPE_FLOAT16"
  | d_BFloat16_t => Some "ONNX_TENSOR_ELEMENT_DATA_TYPE_BFLOAT16"
  | d_double => Some "ONNX_TENSOR_ELEMENT_DATA_TYPE_DOUBLE"
  | d_int8_t => Some "ONNX_TENSOR_ELEMENT_DATA_TYPE_INT8"
  | d_int16_t => Some "ONNX_TENSOR_ELEMENT_DATA_TYPE_INT16"
  | d_int32_t => Some "ONNX_TENSOR_ELEMENT_DATA_TYPE_INT32"
  | d_int64_t => Some "ONNX_TENSOR_ELEMENT_DATA_TYPE_INT64"
  | d_uint8_t => Some "ONNX_TENSOR_ELEMENT_DATA_TYPE_UINT8"
  | d_uint16_t => Some "ONNX_TENSOR_ELEMENT_DATA_TYPE_UINT16"
  | d_uint32_t => Some "ONNX_TENSOR_ELEMENT_DATA_TYPE_UINT32"
  | d_uint64_t => Some "ONNX_TENSOR_ELEMENT_DATA_TYPE_UINT64"
  | d_bool => Some "ONNX_TENSOR_ELEMENT_DATA_TYPE_BOOL"
  | d_Float8E4M3FN_t => Some "ONNX_TENSOR_ELEMENT_DATA_TYPE_FLOAT8E4M3FN"
  | d_Float8E4M3FNUZ_t => Some "ONNX_TENSOR_ELEMENT_DATA_TYPE_FLOAT8E4M3FNUZ"
  | d_Float8E5M2_t => Some "ONNX_TENSOR_ELEMENT_DATA_TYPE_FLOAT8E5M2"
  | d_Float8E5M2FNUZ_t => Some "ONNX_TENSOR_ELEMENT_DATA_TYPE_FLOAT8E5M2FNUZ"
  | d_string | d_string_view => None
  end.

(** [T*] or [T&]. *)
Inductive reference := Pointer | Reference.
(** [const Tensor<d>*], [const Tensor<d>&], [const Span<d>*], [const Span<d>&], [d]; as they are, in a
    [std::optional], or in a [const std::optional]. *)
Inductive form := TensorOf (r : reference) | SpanOf (r : reference) | Value.
Inductive wrapper := Plain | Optional | ConstOptional.
Inductive arg_type :=
| Context (r : reference)                             (* OrtKernelContext* *)
| ArrayIn (r : reference)                             (* const TensorArray* *)
| ArrayOut (r : reference)                            (* TensorArray* *)
| In (w : wrapper) (f : form) (d : data_type)
| Out (r : reference) (d : data_type)                 (* Tensor<d>* *)
| OutOptional (d : data_type).                        (* std::optional<Tensor<d>*> *)

(** ** ParseArgs

    The types it has an overload for all push one entry, or none for the context. *)
Fixpoint ParseArgs (Ts : list arg_type) (input_types output_types : list Z) : list Z * list Z :=
  match Ts with
  | [] => (input_types, output_types)
  | Context _ :: Ts => ParseArgs Ts input_types output_types
  | ArrayIn _ :: Ts => ParseArgs Ts (input_types ++ [UNDEFINED]) output_types
  | ArrayOut _ :: Ts => ParseArgs Ts input_types (output_types ++ [UNDEFINED])
  | In _ _ d :: Ts => ParseArgs Ts (input_types ++ [onnx_type d]) output_types
  | Out _ d :: Ts => ParseArgs Ts input_types (output_types ++ [onnx_type d])
  | OutOptional d :: Ts => ParseArgs Ts input_types (output_types ++ [onnx_type d])
  end.

(** ** Calls and exceptions *)

(** [Throw] is an [Ort::Exception], with its code and message; [Undefined] is behaviour C++ leaves undefined
    or a call the C API forbids (NULL for an [_In_] parameter). *)
Inductive result (A : Type) := Ok (a : A) | Throw (code message : string) | Undefined.
Arguments Ok {A} a.
Arguments Throw {A} code message.
Arguments Undefined {A}.
#[export] Instance result_ret : MRet result := @Ok.
#[export] Instance result_bind : MBind result := fun A B f r =>
  match r with Ok a => f a | Throw c m => Throw c m | Undefined => Undefined end.
Definition from_option_ub {A} (o : option A) : result A := match o with Some a => Ok a | None => Undefined end.

(** [Ort::KernelContext] and the values it hands out: an input that is not present is the null pointer. *)
Class KernelContext (V : Type) := {
  GetInputCount : nat;
  GetInput : nat -> result (option V);
  GetOutput : nat -> list Z -> result (option V);
  GetTensorTypeAndShapeInfo : V -> result (Z * list Z);
  GetTensorRawData : V -> result (list Z);             (* the elements behind the pointer *)
  GetStringTensorDataLength : V -> result nat;
  GetStringTensorContent : V -> nat -> nat -> result (list ascii * list nat) }.

(** ** Tensors *)

Module Tensors.

(** [Span<T>]: the elements behind [data_], and [size_]. *)
Record Span := MkSpan { data_ : list Z; size_ : Z }.
Definition Span_at (s : Span) (indice : Z) : result Z := from_option_ub (data_ s !! Z.to_nat indice).

Section Tensor.
Context {V : Type} `{K : KernelContext V}.

(** The members of [Tensor<T>], of [Tensor<std::string>] and of [Tensor<std::string_view>], whose views are an
    offset into [chars_] and a length.  [data_out] is [data_], the value an output was allocated as. *)
Inductive payload :=
| Elements (const_value_ : option V) (data_out : option V) (span_ : Span)
| Strings (input_strings_ : list (list ascii))
| Views (chars_ : list ascii) (input_string_views_ : list (nat * nat)).
Record tensor := MkTensor {
  T_ : data_type;
  indice_ : nat;
  is_input_ : bool;
  shape_ : option (list Z);
  pay : payload }.

(** *** TensorBase *)

(** [operator bool]. *)
Definition has_shape (t : tensor) : bool := match shape_ t with Some _ => true | None => false end.
Definition Shape (t : tensor) : result (list Z) :=
  match shape_ t with
  | Some s => Ok s
  | None => Throw "ORT_RUNTIME_EXCEPTION" "tensor shape is not yet initialized"
  end.
(** The signed multiplications must not overflow. *)
Fixpoint accumulate (init : Z) (dims : list Z) : result Z :=
  match dims with
  | [] => Ok init
  | d :: dims =>
      let p := (init * d)%Z in
      if bool_decide (- 2 ^ 63 <= p < 2 ^ 63)%Z then accumulate p dims else Undefined
  end.
Definition NumberOfElement (shape : option (list Z)) : result Z :=
  match shape with Some dims => accumulate 1 dims | None => Ok 0%Z end.
Definition Shape2Str (to_string : Z -> string) (shape : option (list Z)) : string :=
  match shape with
  | Some dims => fold_left (fun s d => (s +:+ to_string d +:+ ", ")%string) dims ""%string
  | None => "empty"%string
  end.
(** [mem_type_] is initialized to this and never assigned. *)
Definition mem_type_ (t : tensor) : string := "Cpu".
Definition IsCpuTensor (t : tensor) : bool := bool_decide (mem_type_ t = "Cpu"%string).

(** *** Strings *)

Definition NUL : ascii := Ascii.zero.
(** The bytes before the first NUL. *)
Fixpoint cut (s : list ascii) : list ascii :=
  match s with [] => [] | c :: s => if bool_decide (c = NUL) then [] else c :: cut s end.
(** [std::string(p)] for a pointer into [chars]: the NUL must come before the end. *)
Definition read_cstr (chars : list ascii) (off : nat) : result (list ascii) :=
  if bool_decide (NUL ∈ drop off chars) then Ok (cut (drop off chars)) else Undefined.
(** A buffer of [n] NULs of which the front has been written. *)
Definition filled (n : nat) (content : list ascii) : list ascii := content ++ replicate (n - length content) NUL.

(** [for (size_t i = upper_bound;; --i)]. *)
Fixpoint cut_loop (upper_bound : nat) (offsets : list nat) (i : nat) (chars : list ascii) (input_strings_ : list (list ascii))
  : result (list (list ascii)) :=
  chars ← (if i <? upper_bound then
             off ← from_option_ub (offsets !! S i);
             _ ← from_option_ub (chars !! off);
             Ok (<[off := NUL]> chars)
           else Ok chars);
  off ← from_option_ub (offsets !! i);
  s ← read_cstr chars off;
  let input_strings_ := <[i := s]> input_strings_ in
  match i with O => Ok input_strings_ | S i => cut_loop upper_bound offsets i chars input_strings_ end.

(** The views of [Tensor<std::string_view>], made in order. *)
Fixpoint view_loop (offsets : list nat) (n i : nat) : result (list (nat * nat)) :=
  match n with
  | O => Ok []
  | S n => o1 ← from_option_ub (offsets !! i);
           o2 ← from_option_ub (offsets !! S i);
           vs ← view_loop offsets n (S i);
           Ok ((o1, o2 - o1) :: vs)
  end.

(** *** The constructors *)

Definition not_null (v : option V) : result V := from_option_ub v.

Definition Strings_ctor (v : V) (shape : list Z) : result payload :=
  num_chars ← GetStringTensorDataLength v;
  n ← NumberOfElement (Some shape);
  let num_strings := Z.to_nat (wrap_u 64 n) in
  if num_strings =? 0 then Ok (Strings [])
  else
    '(content, offsets) ← GetStringTensorContent v num_chars num_strings;
    let upper_bound := num_strings - 1 in
    ss ← cut_loop upper_bound offsets upper_bound (filled (num_chars + 1) content) (replicate num_strings []);
    Ok (Strings ss).

Definition Views_ctor (v : V) (shape : list Z) : result payload :=
  num_chars ← GetStringTensorDataLength v;
  n ← NumberOfElement (Some shape);
  let num_strings := Z.to_nat (wrap_u 64 n) in
  if num_strings =? 0 then Ok (Views (replicate (num_chars + 1) NUL) [])
  else
    '(content, offsets) ← GetStringTensorContent v num_chars num_strings;
    vs ← view_loop (offsets ++ [num_chars]) num_strings 0;
    Ok (Views (filled (num_chars + 1) content) vs).

Definition empty_payload (d : data_type) : payload :=
  match d with
  | d_string => Strings []
  | d_string_view => Views [] []
  | _ => Elements None None (MkSpan [] 0)
  end.

(** [Tensor<d>(ctx, indice, is_input)]. *)
Definition Tensor_ctor (d : data_type) (indice : nat) (is_input : bool) : result tensor :=
  if is_input then
    if GetInputCount <=? indice then Throw "ORT_INVALID_ARGUMENT" "invalid indice for Ort::Custom::Tensor"
    else
      v ← GetInput indice;
      v ← not_null v;
      '(_, shape) ← GetTensorTypeAndShapeInfo v;
      p ← match d with
          | d_string => Strings_ctor v shape
          | d_string_view => Views_ctor v shape
          | _ => Ok (Elements (Some v) None (MkSpan [] 0))
          end;
      Ok (MkTensor d indice true (Some shape) p)
  else Ok (MkTensor d indice false None (empty_payload d)).

(** *** Access *)

(** [Data()] of a tensor that is not of strings. *)
Definition Data (t : tensor) : result (list Z) :=
  match pay t with
  | Elements const_value_ _ _ => v ← not_null const_value_; GetTensorRawData v
  | _ => Undefined
  end.

Definition set_span (t : tensor) (s : Span) : tensor :=
  match pay t with
  | Elements c o _ => MkTensor (T_ t) (indice_ t) (is_input_ t) (shape_ t) (Elements c o s)
  | _ => t
  end.
(** [AsSpan()], with the tensor whose [span_] it returns a reference to. *)
Definition AsSpan (t : tensor) : result (tensor * Span) :=
  match T_ t with
  | d_string => Throw "ORT_RUNTIME_EXCEPTION" "span for TensorT of string not implemented"
  | d_string_view => Throw "ORT_RUNTIME_EXCEPTION" "span for TensorT of string view not implemented"
  | _ =>
      match shape_ t with
      | Some [d0] => data ← Data t; let s := MkSpan data (wrap_u 64 d0) in Ok (set_span t s, s)
      | _ => Throw "ORT_RUNTIME_EXCEPTION" "invalid shape while trying to get a span out of Ort::Custom::Tensor"
      end
  end.

Inductive scalar := Element (z : Z) | Text (s : list ascii).
(** The bytes a view shows. *)
Definition view (chars : list ascii) (v : nat * nat) : list ascii := take v.2 (drop v.1 chars).
Definition AsScalar (t : tensor) : result scalar :=
  match pay t with
  | Strings ss =>
      match ss with
      | [s] => Ok (Text s)
      | _ => Throw "ORT_RUNTIME_EXCEPTION" "invalid shape while trying to get a scalar string from Ort::Custom::Tensor"
      end
  | Views chars vs =>
      match vs with
      | [v] => Ok (Text (view chars v))
      | _ => Throw "ORT_RUNTIME_EXCEPTION" "invalid shape while trying to get a scalar string view from Ort::Custom::Tensor"
      end
  | Elements _ _ _ =>
      if bool_decide (shape_ t = Some [1%Z]) then data ← Data t; z ← from_option_ub (head data); Ok (Element z)
      else Throw "ORT_RUNTIME_EXCEPTION" "invalid shape while trying to get a scalar from Ort::Custom::Tensor"
  end.

(** [SizeInBytes()]; [size] is [sizeof(T)]. *)
Definition SizeInBytes (size : Z) (t : tensor) : result Z :=
  match pay t with
  | Elements _ _ _ => n ← NumberOfElement (shape_ t); Ok (wrap_u 64 (size * wrap_u 64 n))
  | Strings [s] => Ok (Z.of_nat (length s))
  | Views chars [v] => Ok (Z.of_nat v.2)
  | _ => Throw "ORT_RUNTIME_EXCEPTION" "SizeInBytes() only applies to string scalar"
  end.

(** [Allocate(shape)]: the first call asks the kernel for the output, later ones only overwrite [shape_]. *)
Definition Allocate (shape : list Z) (t : tensor) : result (tensor * V) :=
  match pay t with
  | Elements c None s =>
      v ← GetOutput (indice_ t) shape;
      v ← not_null v;
      Ok (MkTensor (T_ t) (indice_ t) (is_input_ t) (Some shape) (Elements c (Some v) s), v)
  | Elements c (Some v) s =>
      Ok (MkTensor (T_ t) (indice_ t) (is_input_ t) (Some shape) (Elements c (Some v) s), v)
  | _ => Undefined
  end.

(** [SetStringOutput(ss, dims)], up to the call of [FillStringTensor]: the value, and the C strings passed. *)
Definition SetStringOutput (ss : list (list ascii)) (dims : list Z) (t : tensor) : result (tensor * V * list (list ascii)) :=
  v ← GetOutput (indice_ t) dims;
  v ← not_null v;
  Ok (MkTensor (T_ t) (indice_ t) (is_input_ t) (Some dims) (pay t), v, map cut ss).

(** *** TensorArray *)

Record array := MkArray { start_indice : nat; from_inputs : bool; tensors_ : list tensor }.

(** The [switch] on the element type. *)
Definition array_type (type : Z) : option data_type :=
  list_find (fun d => onnx_type d = type)
    [d_bool; d_float; d_double; d_uint8_t; d_int8_t; d_uint16_t; d_int16_t; d_uint32_t; d_int32_t; d_uint64_t; d_int64_t; d_string]
  ≫= fun p => Some p.2.
Fixpoint array_loop (start_indice n ith_input : nat) : result (list tensor) :=
  match n with
  | O => Ok []
  | S n =>
      v ← GetInput start_indice;
      v ← not_null v;
      '(type, _) ← GetTensorTypeAndShapeInfo v;
      match array_type type with
      | None => Throw "ORT_RUNTIME_EXCEPTION" "unknow input type"
      | Some d =>
          t ← Tensor_ctor d ith_input true;
          ts ← array_loop start_indice n (S ith_input);
          Ok (t :: ts)
      end
  end.
Definition TensorArray_ctor (indice : nat) (is_input : bool) : result array :=
  ts ← (if is_input then array_loop indice (GetInputCount - indice) indice else Ok []);
  Ok (MkArray indice is_input ts).
Definition Size (a : array) : nat := length (tensors_ a).
(** [tensors_.at]. *)
Definition array_at (a : array) (ith_input : nat) : result tensor :=
  match tensors_ a !! ith_input with Some t => Ok t | None => Throw "std::out_of_range" "" end.
Definition AllocateOutput (d : data_type) (ith_output : nat) (shape : list Z) (a : array) : result (array * V) :=
  t ← Tensor_ctor d (start_indice a + ith_output) false;
  '(t, v) ← Allocate shape t;
  Ok (MkArray (start_indice a) (from_inputs a) (tensors_ a ++ [t]), v).
Definition AllocateStringTensor (ith_output : nat) (a : array) : result array :=
  t ← Tensor_ctor d_string (start_indice a + ith_output) false;
  Ok (MkArray (start_indice a) (from_inputs a) (tensors_ a ++ [t])).

End Tensor.
End Tensors.
Import Tensors.

(** ** CreateTuple *)

Module Arguments.
Section Create.
Context {V : Type} `{K : KernelContext V}.

(** [args], the objects that live as long as the call; [std::string_view] and [Span] arguments point into them. *)
Inductive arg_base := TensorArg (t : @tensor V) | ArrayArg (a : @array V).
(** An element of the tuple: pointers and references to objects are positions in [args]. *)
Inductive passed :=
| PContext
| PObject (k : nat)
| PSpan (k : nat)                                      (* the span_ of the tensor at k *)
| PScalar (v : scalar)
| PNone.                                               (* std::nullopt *)

Context (num_input num_output : nat) (ep : string).

(** What an overload adds to the tuple, [args], and the [ith_input] and [ith_output] it goes on with. *)
Definition step_result : Type := result (passed * list arg_base * nat * nat).

(** The overloads for the context and for arrays. *)
Definition create_context (i o : nat) (args : list arg_base) : step_result := Ok (PContext, args, i, o).
Definition create_array (is_input : bool) (i o : nat) (args : list arg_base) : step_result :=
  if is_input then a ← TensorArray_ctor i true; Ok (PObject (length args), args ++ [ArrayArg a], i + 1, o)
  else a ← TensorArray_ctor o false; Ok (PObject (length args), args ++ [ArrayArg a], i, o + 1).

Definition on_cpu (message : string) : result unit :=
  if bool_decide (ep = "CPUExecutionProvider") then Ok tt else Throw "ORT_RUNTIME_EXCEPTION" message.

(** [CREATE_TUPLE_INPUT(d)]: what [args.push_back(...)] and [current] do in the overload for [f]. *)
Definition input_value (f : form) (d : data_type) (i : nat) (args : list arg_base) : result (passed * list arg_base) :=
  match f with
  | TensorOf _ =>
      t ← Tensor_ctor d i true; Ok (PObject (length args), args ++ [TensorArg t])
  | SpanOf _ =>
      _ ← on_cpu "span input could only be applied to CPU EP";
      t ← Tensor_ctor d i true;
      '(t, _) ← AsSpan t;
      Ok (PSpan (length args), args ++ [TensorArg t])
  | Value =>
      _ ← on_cpu "scalar input could only be applied to CPU EP";
      t ← Tensor_ctor d i true;
      s ← AsScalar t;
      Ok (PScalar s, args ++ [TensorArg t])
  end.
(** There is no overload for [std::optional<const T&>], nor for [const std::optional<...>]. *)
Definition create_input (w : wrapper) (f : form) (d : data_type) (i o : nat) (args : list arg_base) : step_result :=
  match w, f with
  | Plain, _ =>
      '(current, args) ← input_value f d i args; Ok (current, args, i + 1, o)
  | Optional, (TensorOf Pointer | SpanOf Pointer | Value) =>
      if i <? num_input then '(current, args) ← input_value f d i args; Ok (current, args, i + 1, o)
      else Ok (PNone, args, i + 1, o)
  | _, _ => Undefined
  end.

(** [CREATE_TUPLE_OUTPUT(d)]; there is none for [std::string_view]. *)
Definition create_output (optional : bool) (d : data_type) (i o : nat) (args : list arg_base) : step_result :=
  if bool_decide (d = d_string_view) then Undefined
  else if optional && (num_output <=? o) then Ok (PNone, args, i, o + 1)
  else t ← Tensor_ctor d o false; Ok (PObject (length args), args ++ [TensorArg t], i, o + 1).

Definition create (T : arg_type) : nat -> nat -> list arg_base -> step_result :=
  match T with
  | Context _ => create_context
  | ArrayIn _ => create_array true
  | ArrayOut _ => create_array false
  | In w f d => create_input w f d
  | Out _ d => create_output false d
  | OutOptional d => create_output true d
  end.
(** [CreateTuple<ith_input, ith_output, Ts...>]. *)
Fixpoint CreateTuple (ith_input ith_output : nat) (Ts : list arg_type) (args : list arg_base) : result (list passed * list arg_base) :=
  match Ts with
  | [] => Ok ([], args)
  | T :: Ts =>
      '(current, args, i, o) ← create T ith_input ith_output args;
      '(next, args) ← CreateTuple i o Ts args;
      Ok (current :: next, args)
  end.
End Create.

(** The types some overload accepts: an operator whose function has another parameter does not compile. *)
Definition creates (T : arg_type) : bool :=
  match T with
  | In Plain _ _ => true
  | In Optional (TensorOf Reference | SpanOf Reference) _ => false
  | In Optional _ _ => true
  | In ConstOptional _ _ => false
  | Out _ d | OutOptional d => negb (bool_decide (d = d_string_view))
  | _ => true
  end.
End Arguments.
Import Arguments.

(** ** OrtLiteCustomOp *)

Record OrtLiteCustomOp := LiteOp {
  op_name_ : string;
  execution_provider_ : string;
  input_types_ : list Z;
  output_types_ : list Z;
  start_ver_ : Z;
  end_ver_ : Z }.
Definition MAX_CUSTOM_OP_END_VER : Z := Z.shiftl 1 31 - 1.

Inductive OrtCustomOpInputOutputCharacteristic := INPUT_OUTPUT_REQUIRED | INPUT_OUTPUT_OPTIONAL | INPUT_OUTPUT_VARIADIC.
(** The callbacks on an operator. *)
Definition GetInputTypeCount (op : OrtLiteCustomOp) : nat := length (input_types_ op).
Definition GetInputType (op : OrtLiteCustomOp) (indice : nat) : result Z := from_option_ub (input_types_ op !! indice).
Definition GetOutputTypeCount (op : OrtLiteCustomOp) : nat := length (output_types_ op).
Definition GetOutputType (op : OrtLiteCustomOp) (indice : nat) : result Z := from_option_ub (output_types_ op !! indice).
Definition characteristic (type : Z) : OrtCustomOpInputOutputCharacteristic :=
  if bool_decide (type = UNDEFINED) then INPUT_OUTPUT_VARIADIC else INPUT_OUTPUT_OPTIONAL.
Definition GetInputCharacteristic (op : OrtLiteCustomOp) (indice : nat) : result OrtCustomOpInputOutputCharacteristic :=
  type ← GetInputType op indice; Ok (characteristic type).
Definition GetOutputCharacteristic (op : OrtLiteCustomOp) (indice : nat) : result OrtCustomOpInputOutputCharacteristic :=
  type ← GetOutputType op indice; Ok (characteristic type).

(** The kernel of an operator: [compute_fn_] is the function, or the method of the user's struct. *)
Record Kernel := MkKernel { num_input_ : nat; num_output_ : nat; ep_ : string }.
(** [CreateKernel]; the counts are those of [KernelInfo_GetInputCount] and [KernelInfo_GetOutputCount]. *)
Definition CreateKernel (op : OrtLiteCustomOp) (input_count output_count : result nat) : result Kernel :=
  i ← input_count; o ← output_count; Ok (MkKernel i o (execution_provider_ op)).
(** [OrtLiteCustomFunc<Args...>], and [SetCompute] of [OrtLiteCustomStruct]. *)
Definition lite_op (name provider : string) (Args : list arg_type) (start_ver end_ver : Z) : OrtLiteCustomOp :=
  let '(input_types, output_types) := ParseArgs Args [] [] in
  LiteOp name provider input_types output_types start_ver end_ver.
(** [KernelCompute] and [KernelComputeV2], up to what the function returns. *)
Definition KernelCompute {V R} `{KernelContext V} (Args : list arg_type)
    (compute_fn : list passed -> list (@arg_base V) -> result R) (kernel : Kernel) : result R :=
  '(t, args) ← CreateTuple (num_input_ kernel) (num_output_ kernel) (ep_ kernel) 0 0 Args [];
  compute_fn t args.

(** ** The callbacks the runtime gets *)

Module Callbacks.

(** The fields of [struct OrtCustomOp]. *)
Definition OrtCustomOp_fields : list string := fd_name <$> st_fields OrtCustomOp.

(** What a field is set to: a number (the field itself, or what the function returns), a function that
    answers a member of the operator, the functions around a kernel, or null. *)
Inductive callback := Null | Number (n : Z) | Answers (member : string) | Kernel_fn (f : string).
#[export] Instance callback_eq_dec : EqDecision callback.
Proof. solve_decision. Defined.
Definition assignments : Type := list (string * callback).

(** The constructor of [OrtLiteCustomOp], in order. *)
Definition lite_ctor : assignments :=
  [ ("version", Number ORT_API_VERSION);
    ("GetName", Answers "op_name_"); ("GetExecutionProviderType", Answers "execution_provider_");
    ("GetInputMemoryType", Answers "OrtMemTypeDefault");
    ("GetInputTypeCount", Answers "input_types_.size()"); ("GetInputType", Answers "input_types_[indice]");
    ("GetOutputTypeCount", Answers "output_types_.size()"); ("GetOutputType", Answers "output_types_[indice]");
    ("GetInputCharacteristic", Answers "characteristic"); ("GetOutputCharacteristic", Answers "characteristic");
    ("GetVariadicInputMinArity", Number 1); ("GetVariadicInputHomogeneity", Number 0);
    ("GetVariadicOutputMinArity", Number 1); ("GetVariadicOutputHomogeneity", Number 0);
    ("GetVariadicInputMinArity", Number 0); ("GetVariadicInputHomogeneity", Number 0);
    ("GetVariadicOutputMinArity", Number 0); ("GetVariadicOutputHomogeneity", Number 0);
    ("CreateKernelV2", Null); ("KernelComputeV2", Null); ("KernelCompute", Null);
    ("InferOutputShapeFn", Null);
    ("GetStartVersion", Answers "start_ver_"); ("GetEndVersion", Answers "end_ver_");
    ("GetMayInplace", Null); ("ReleaseMayInplace", Null); ("GetAliasMap", Null); ("ReleaseAliasMap", Null) ].

(** [OrtLiteCustomFunc], for a function that returns a [Status] or nothing, with or without a shape function. *)
Definition func_ctor (with_status shape_infer : bool) : assignments :=
  lite_ctor ++
  [ (if with_status then "KernelComputeV2" else "KernelCompute", Kernel_fn "compute");
    ("CreateKernel", Kernel_fn "create"); ("KernelDestroy", Kernel_fn "delete") ] ++
  (if shape_infer then [("InferOutputShapeFn", Kernel_fn "infer")] else []).

(** [OrtLiteCustomStruct]: [SetCompute] and [SetShapeInfer] choose their overload by the members of the struct. *)
Definition struct_ctor (with_status shape_infer : bool) : assignments :=
  lite_ctor ++
  [ (if with_status then "KernelComputeV2" else "KernelCompute", Kernel_fn "compute");
    ("CreateKernel", Kernel_fn "create"); ("KernelDestroy", Kernel_fn "delete");
    ("InferOutputShapeFn", if shape_infer then Kernel_fn "infer" else Null) ].

(** [CustomOpBase<TOp, TKernel, WithStatus>] of onnxruntime_cxx_api.h. *)
Definition base_ctor (with_status shape_infer : bool) : assignments :=
  [ ("version", Number ORT_API_VERSION);
    ("GetName", Answers "GetName"); ("GetExecutionProviderType", Answers "GetExecutionProviderType");
    ("GetInputTypeCount", Answers "GetInputTypeCount"); ("GetInputType", Answers "GetInputType");
    ("GetInputMemoryType", Answers "GetInputMemoryType");
    ("GetOutputTypeCount", Answers "GetOutputTypeCount"); ("GetOutputType", Answers "GetOutputType");
    ("KernelDestroy", Kernel_fn "delete");
    ("GetInputCharacteristic", Answers "GetInputCharacteristic"); ("GetOutputCharacteristic", Answers "GetOutputCharacteristic");
    ("GetVariadicInputMinArity", Answers "GetVariadicInputMinArity");
    ("GetVariadicInputHomogeneity", Answers "GetVariadicInputHomogeneity");
    ("GetVariadicOutputMinArity", Answers "GetVariadicOutputMinArity");
    ("GetVariadicOutputHomogeneity", Answers "GetVariadicOutputHomogeneity") ] ++
  (if with_status then [("CreateKernelV2", Kernel_fn "create"); ("KernelComputeV2", Kernel_fn "compute")]
   else [("CreateKernelV2", Null); ("KernelComputeV2", Null); ("CreateKernel", Kernel_fn "create"); ("KernelCompute", Kernel_fn "compute")]) ++
  [ ("InferOutputShapeFn", if shape_infer then Kernel_fn "infer" else Null);
    ("GetStartVersion", Answers "start_ver_"); ("GetEndVersion", Answers "end_ver_");
    ("GetMayInplace", Null); ("ReleaseMayInplace", Null); ("GetAliasMap", Null); ("ReleaseAliasMap", Null) ].
(** Its default members; [OrtMemTypeDefault] is 0, the provider null. *)
Definition base_defaults : list (string * Z) :=
  [ ("GetInputMemoryType", 0%Z); ("GetVariadicInputMinArity", 1%Z); ("GetVariadicInputHomogeneity", 1%Z);
    ("GetVariadicOutputMinArity", 1%Z); ("GetVariadicOutputHomogeneity", 1%Z) ].

Definition table (l : assignments) : gmap string callback := foldl (fun m '(f, c) => <[f := c]> m) ∅ l.
(** The fields still without a value. *)
Definition unset (l : assignments) : list string := filter (fun f => table l !! f = None) OrtCustomOp_fields.

(** ** The status of a computation and of a shape inference

    The closures return the [OrtStatus*] of a [Status], as operations on the holder; the pointer returned is
    [release()]'s, or [operator T*]'s of the temporary, which is destroyed after it is converted. *)
Import Base.
Definition compute_status (p : option nat) : list op := [Construct "status" p; ReleaseOf "status"; Destroy "status"].
Definition infer_status (p : option nat) : list op := [Construct "" p; Destroy ""].
(** The pointer a closure returns names an object that still exists. *)
Definition returns_live (p : option nat) (s : Base.state) : Prop := forall i, p = Some i -> ~ i ∈ freed s.

(** Whatever the operator, the callbacks of [OrtLiteCustomOp] are complete: each field of [OrtCustomOp] is
    set, the kernel is created and destroyed, exactly one of the two compute functions is there, and a
    variadic input or output may be empty and mixed.  [CustomOpBase] leaves the creation and computation it
    does not use without a value when statuses are used. *)
Theorem callbacks_complete (with_status shape_infer : bool) l :
  l = func_ctor with_status shape_infer \/ l = struct_ctor with_status shape_infer ->
  unset l = [] /\ table l !! "CreateKernel" = Some (Kernel_fn "create") /\ table l !! "KernelDestroy" = Some (Kernel_fn "delete") /\
  table l !! "KernelComputeV2" = Some (if with_status then Kernel_fn "compute" else Null) /\
  table l !! "KernelCompute" = Some (if with_status then Null else Kernel_fn "compute") /\
  table l !! "InferOutputShapeFn" = Some (if shape_infer then Kernel_fn "infer" else Null) /\
  table l !! "GetVariadicInputMinArity" = Some (Number 0) /\ table l !! "GetVariadicInputHomogeneity" = Some (Number 0) /\
  unset (base_ctor with_status shape_infer) = if with_status then ["CreateKernel"; "KernelCompute"] else [].
Proof. intros [-> | ->]; destruct with_status, shape_infer; vm_compute; repeat split; reflexivity. Qed.

Lemma callbacks_complete_witness : unset (func_ctor true false) = [] /\ unset (base_ctor true false) = ["CreateKernel"; "KernelCompute"].
Proof. destruct (callbacks_complete true false (func_ctor true false)) as (H & _ & _ & _ & _ & _ & _ & _ & Hb); [by left | by split]. Defined.

(** A computation that fails hands the runtime its status; a shape inference that fails hands it one that
    has just been released. *)
Theorem status_handed_over (i : nat) :
  (exists s, run holder_step (compute_status (Some i)) initial = Some s /\ returns_live (Some i) s /\ returned s = [i] /\ holders s = ∅) /\
  (exists s, run holder_step (infer_status (Some i)) initial = Some s /\ ~ returns_live (Some i) s /\ freed s = [i]).
Proof.
  split; (eexists; split; [reflexivity|]).
  - split; [intros j _; cbn; by apply not_elem_of_nil|]. split; [reflexivity|]. vm_compute. reflexivity.
  - split; [intros H; apply (H i eq_refl); cbn; by apply list_elem_of_singleton | reflexivity].
Qed.
End Callbacks.

(** ** Declarations against arguments *)

Definition in_type (T : arg_type) : option Z :=
  match T with ArrayIn _ => Some UNDEFINED | In _ _ d => Some (onnx_type d) | _ => None end.
Definition out_type (T : arg_type) : option Z :=
  match T with ArrayOut _ => Some UNDEFINED | Out _ d | OutOptional d => Some (onnx_type d) | _ => None end.

Lemma ParseArgs_types Ts : forall ins outs, ParseArgs Ts ins outs = (ins ++ omap in_type Ts, outs ++ omap out_type Ts).
Proof.
  induction Ts as [|T Ts IH]; intros ins outs; simpl; [by rewrite !app_nil_r|].
  destruct T; simpl; rewrite IH, <- ?app_assoc; reflexivity.
Qed.

(** The types an operator declares are those the trait of onnxruntime_cxx_inline.h gives. *)
Theorem declared_types_agree d :
  (forall e, TypeToTensorType d = Some e -> element_enum d = e) /\ (TypeToTensorType d = None <-> is_string d = true) /\
  onnx_type d <> UNDEFINED /\ (0 <= onnx_type d)%Z.
Proof. destruct d; (split; [intros e He; by simplify_eq/=|]; split; [done|]; vm_compute; split; discriminate). Qed.

(** ** Strings of a tensor *)

(** Where the strings start in the buffer of all their bytes. *)
Definition offsets_of (ss : list (list ascii)) : list nat := imap (fun i _ => length (concat (take i ss))) ss.

Lemma offsets_lookup ss i : i < length ss -> offsets_of ss !! i = Some (length (concat (take i ss))).
Proof.
  intros Hi. unfold offsets_of. rewrite list_lookup_imap. destruct (ss !! i) eqn:E; [done|].
  apply lookup_ge_None in E. lia.
Qed.

Lemma concat_take_S ss i (s : list ascii) : ss !! i = Some s -> concat (take (S i) ss) = concat (take i ss) ++ s.
Proof. intros Hi. erewrite take_S_r by done. rewrite concat_app. simpl. by rewrite app_nil_r. Qed.

Lemma cut_app_NUL s r : cut (s ++ NUL :: r) = cut s.
Proof. induction s as [|c s IH]; simpl; [done|]. by rewrite IH. Qed.

Lemma cut_id s : ~ NUL ∈ s -> cut s = s.
Proof.
  induction s as [|c s IH]; intros Hn; simpl; [done|]. rewrite bool_decide_eq_false_2 by (intros ->; apply Hn; by left).
  rewrite IH; [done|]. intros H. apply Hn. by right.
Qed.

Lemma cut_length s : length (cut s) <= length s.
Proof. induction s as [|c s IH]; simpl; [done|]. case_bool_decide; simpl; lia. Qed.

Lemma read_cstr_at pre s r : read_cstr (pre ++ s ++ NUL :: r) (length pre) = Ok (cut s).
Proof.
  unfold read_cstr. rewrite drop_app_length, bool_decide_eq_true_2 by set_solver. by rewrite cut_app_NUL.
Qed.

(** Going down, the strings from [i] on are read, each up to the NUL that the next one's start became. *)
Lemma cut_loop_spec ss i : forall chars acc c rest,
  i < length ss -> length acc = length ss -> chars = concat (take (S i) ss) ++ c :: rest -> (i = length ss - 1 -> c = NUL) ->
  cut_loop (length ss - 1) (offsets_of ss) i chars acc = Ok (map cut (take (S i) ss) ++ drop (S i) acc).
Proof.
  induction i as [|i IH]; intros chars acc c rest Hi Hl -> Hc;
    destruct (lookup_lt_is_Some_2 ss _ Hi) as [s Hs]; pose proof (concat_take_S _ _ _ Hs) as Ec;
    unfold cut_loop; fold cut_loop.
  all: match goal with |- context [?j <? _] =>
    assert ((if j <? length ss - 1 then off ← from_option_ub (offsets_of ss !! S j);
               _ ← from_option_ub ((concat (take (S j) ss) ++ c :: rest) !! off); Ok (<[off := NUL]> (concat (take (S j) ss) ++ c :: rest))
             else Ok (concat (take (S j) ss) ++ c :: rest)) = Ok (concat (take j ss) ++ s ++ NUL :: rest)) as -> end.
  1, 3: rewrite Ec; case (Nat.ltb_spec _ (length ss - 1)); intros Hlt;
    [rewrite offsets_lookup by lia; rewrite Ec; cbn; rewrite list_lookup_middle by done; cbn;
     rewrite insert_app_r_alt, Nat.sub_diag by done; cbn; by rewrite <- app_assoc
    |rewrite <- app_assoc; by rewrite Hc by lia].
  all: cbn [mbind result_bind]; rewrite offsets_lookup by done; cbn [mbind result_bind from_option_ub]; rewrite read_cstr_at;
    cbn [mbind result_bind].
  - destruct ss as [|s0 ss]; [done|]. destruct acc as [|a acc]; [done|]. injection Hs as ->. reflexivity.
  - destruct (s ++ NUL :: rest) as [|c' rest'] eqn:Er; [by destruct s|].
    rewrite (IH _ _ c' rest'); [| lia | by rewrite length_insert | done | lia].
    rewrite (take_S_r _ _ s Hs), map_app, <- app_assoc. f_equal. f_equal. simpl.
    rewrite insert_take_drop by lia. apply drop_app_length'. rewrite length_take. lia.
Qed.

Lemma bounds_lookup ss j : j <= length ss -> (offsets_of ss ++ [length (concat ss)]) !! j = Some (length (concat (take j ss))).
Proof.
  intros Hj. assert (length (offsets_of ss) = length ss) as El by apply length_imap.
  destruct (decide (j = length ss)) as [->|].
  - rewrite lookup_app_r, El, Nat.sub_diag by lia. by rewrite firstn_all.
  - rewrite lookup_app_l by lia. apply offsets_lookup. lia.
Qed.

(** The views show the strings themselves, whatever bytes they contain. *)
Lemma view_loop_spec ss r n : forall i, i + n = length ss ->
  exists vs, view_loop (offsets_of ss ++ [length (concat ss)]) n i = Ok vs /\ map (view (concat ss ++ r)) vs = drop i ss.
Proof.
  induction n as [|n IH]; intros i Hi.
  - exists []. split; [done|]. rewrite drop_ge by lia. done.
  - destruct (lookup_lt_is_Some_2 ss i) as [s Hs]; [lia|]. destruct (IH (S i)) as (vs & Ev & Em); [lia|].
    unfold view_loop; fold view_loop. rewrite !bounds_lookup by lia. cbn [mbind result_bind from_option_ub]. rewrite Ev.
    cbn [mbind result_bind]. eexists. split; [done|]. simpl. rewrite Em. rewrite (drop_S _ _ _ Hs). f_equal.
    rewrite (concat_take_S _ _ _ Hs), length_app, Nat.add_comm, Nat.add_sub. unfold view. simpl.
    rewrite <- (take_drop_middle _ _ _ Hs) at 2. rewrite concat_app. simpl. rewrite <- !app_assoc, drop_app_length.
    apply take_app_length.
Qed.

(** ** What the runtime promises *)

Inductive content := Numbers (l : list Z) | Texts (ss : list (list ascii)).
Definition content_size (c : content) : nat := match c with Numbers l => length l | Texts ss => length ss end.
Record input := Input { in_elem : Z; in_shape : list Z; in_content : content }.

(** As many elements as the shape says, strings for the string type. *)
Definition well_formed (x : input) : Prop :=
  accumulate 1 (in_shape x) = Ok (Z.of_nat (content_size (in_content x))) /\
  match in_content x with
  | Numbers _ => in_elem x <> onnx_type d_string
  | Texts _ => in_elem x = onnx_type d_string
  end.

Definition stored {V} `{KernelContext V} (v : V) (c : content) : Prop :=
  match c with
  | Numbers l => GetTensorRawData v = Ok l
  | Texts ss => GetStringTensorDataLength v = Ok (length (concat ss)) /\
                GetStringTensorContent v (length (concat ss)) (length ss) = Ok (concat ss, offsets_of ss)
  end.

(** The documentation of [KernelContext_GetInput], [GetTensorTypeAndShape], [GetTensorMutableData] and
    [GetStringTensorContent], for the inputs of a node; an optional input can be absent anywhere. *)
Record Represents {V} `{KernelContext V} (inputs : list (option input)) : Prop := {
  rep_count : GetInputCount = length inputs;
  rep_absent i : inputs !! i = Some None -> GetInput i = Ok None;
  rep_present i x : inputs !! i = Some (Some x) ->
    exists v, GetInput i = Ok (Some v) /\ GetTensorTypeAndShapeInfo v = Ok (in_elem x, in_shape x) /\ stored v (in_content x);
  rep_wf i x : inputs !! i = Some (Some x) -> well_formed x }.
Arguments Represents V {_} inputs.
Arguments rep_count {V _ inputs} _.
Arguments rep_absent {V _ inputs} _.
Arguments rep_present {V _ inputs} _.
Arguments rep_wf {V _ inputs} _.

(** ** The arguments a function should get *)

Inductive value :=
| VContext
| VTensor (d : data_type) (i : nat) (shape : list Z) (c : content)
| VArray (l : list (data_type * nat * list Z * content))
| VOutput (d : data_type) (o : nat)
| VArrayOut (o : nat)
| VSpan (l : list Z)
| VScalar (s : scalar)
| VNone.

(** What a [Tensor<d>] shows of an input: [std::string] elements end at their first NUL. *)
Definition seen (d : data_type) (c : content) : content :=
  match d, c with d_string, Texts ss => Texts (map cut ss) | _, _ => c end.

Definition present (inputs : list (option input)) (i : nat) : result input :=
  match inputs !! i with
  | None => Throw "ORT_INVALID_ARGUMENT" "invalid indice for Ort::Custom::Tensor"
  | Some None => Undefined
  | Some (Some x) => Ok x
  end.

Definition span_error (d : data_type) : string :=
  match d with
  | d_string => "span for TensorT of string not implemented"
  | d_string_view => "span for TensorT of string view not implemented"
  | _ => "invalid shape while trying to get a span out of Ort::Custom::Tensor"
  end.
Definition scalar_error (d : data_type) : string :=
  match d with
  | d_string => "invalid shape while trying to get a scalar string from Ort::Custom::Tensor"
  | d_string_view => "invalid shape while trying to get a scalar string view from Ort::Custom::Tensor"
  | _ => "invalid shape while trying to get a scalar from Ort::Custom::Tensor"
  end.

Section Expected.
Context (num_input num_output : nat) (ep : string) (inputs : list (option input)).

Definition expected_input (f : form) (d : data_type) (i : nat) : result value :=
  match f with
  | TensorOf _ => x ← present inputs i; Ok (VTensor d i (in_shape x) (seen d (in_content x)))
  | SpanOf _ =>
      _ ← on_cpu ep "span input could only be applied to CPU EP";
      x ← present inputs i;
      match in_shape x, in_content x with
      | [_], Numbers l => Ok (VSpan l)
      | _, _ => Throw "ORT_RUNTIME_EXCEPTION" (span_error d)
      end
  | Value =>
      _ ← on_cpu ep "scalar input could only be applied to CPU EP";
      x ← present inputs i;
      match in_shape x, seen d (in_content x) with
      | [1%Z], Numbers [z] => Ok (VScalar (Element z))
      | _, Texts [s] => Ok (VScalar (Text s))
      | _, _ => Throw "ORT_RUNTIME_EXCEPTION" (scalar_error d)
      end
  end.
Definition array_element (d : data_type) (j : nat) : result (data_type * nat * list Z * content) :=
  x ← present inputs j; Ok (d, j, in_shape x, seen d (in_content x)).
Definition expected_array (i : nat) : result value :=
  if length inputs <=? i then Ok (VArray [])
  else
    x ← present inputs i;
    match array_type (in_elem x) with
    | None => Throw "ORT_RUNTIME_EXCEPTION" "unknow input type"
    | Some d =>
        l ← mapM (array_element d) (seq i (length inputs - i));
        Ok (VArray l)
    end.
Definition expected (T : arg_type) (i o : nat) : result value :=
  match T with
  | Context _ => Ok VContext
  | ArrayIn _ => expected_array i
  | ArrayOut _ => Ok (VArrayOut o)
  | In Optional f d => if i <? num_input then expected_input f d i else Ok VNone
  | In _ f d => expected_input f d i
  | Out _ d => Ok (VOutput d o)
  | OutOptional d => Ok (if o <? num_output then VOutput d o else VNone)
  end.
(** A parameter stands for the next input or output if it is declared as one. *)
Fixpoint positions (i o : nat) (Ts : list arg_type) : list (arg_type * nat * nat) :=
  match Ts with
  | [] => []
  | T :: Ts => (T, i, o) :: positions (i + length (option_list (in_type T))) (o + length (option_list (out_type T))) Ts
  end.
Definition expect (Ts : list arg_type) : result (list value) :=
  mapM (fun p => expected p.1.1 p.1.2 p.2) (positions 0 0 Ts).
End Expected.

(** What an argument is, with the objects it refers to. *)
Section Denote.
Context {V : Type} `{K : KernelContext V}.
Definition contents (t : @tensor V) : result content :=
  match pay t with
  | Elements _ _ _ => l ← Data t; Ok (Numbers l)
  | Strings ss => Ok (Texts ss)
  | Views chars vs => Ok (Texts (map (view chars) vs))
  end.
Definition denote_tensor (t : @tensor V) : result (data_type * nat * list Z * content) :=
  shape ← Shape t; c ← contents t; Ok (T_ t, indice_ t, shape, c).
Definition span_of (t : @tensor V) : result Span :=
  match pay t with Elements _ _ s => Ok s | _ => Undefined end.
Definition denote (args : list (@arg_base V)) (p : passed) : result value :=
  match p with
  | PContext => Ok VContext
  | PNone => Ok VNone
  | PScalar s => Ok (VScalar s)
  | PSpan k =>
      match args !! k with
      | Some (TensorArg t) => s ← span_of t; Ok (VSpan (take (Z.to_nat (size_ s)) (data_ s)))
      | _ => Undefined
      end
  | PObject k =>
      match args !! k with
      | Some (TensorArg t) =>
          if is_input_ t then '(d, i, shape, c) ← denote_tensor t; Ok (VTensor d i shape c)
          else Ok (VOutput (T_ t) (indice_ t))
      | Some (ArrayArg a) =>
          if from_inputs a then l ← mapM denote_tensor (tensors_ a); Ok (VArray l) else Ok (VArrayOut (start_indice a))
      | None => Undefined
      end
  end.
End Denote.

(** ** Refinement *)

Lemma accumulate_range dims : forall init n, (- 2 ^ 63 <= init < 2 ^ 63)%Z -> accumulate init dims = Ok n -> (- 2 ^ 63 <= n < 2 ^ 63)%Z.
Proof.
  induction dims as [|d dims IH]; intros init n Hi Ha; simpl in Ha; [by simplify_eq|]. case_bool_decide; [|done]. by eapply IH.
Qed.

Lemma accumulate_one d n : accumulate 1 [d] = Ok n -> d = n.
Proof. unfold accumulate. rewrite Z.mul_1_l. case_bool_decide; intros; by simplify_eq. Qed.

Lemma string_types d : onnx_type d = onnx_type d_string <-> is_string d = true.
Proof. destruct d; vm_compute; split; congruence. Qed.

Lemma well_formed_count x : well_formed x -> Z.to_nat (wrap_u 64 (Z.of_nat (content_size (in_content x)))) = content_size (in_content x).
Proof.
  intros [Ha _]. apply accumulate_range in Ha; [|lia]. rewrite wrap_u_id by (unfold in_u; lia). lia.
Qed.

Section Refinement.
Context {V : Type} `{K : KernelContext V} (inputs : list (option input)) (R : Represents V inputs).

(** What the [Tensor<d>] for an input is. *)
Record tensor_of (d : data_type) (i : nat) (x : input) (t : @tensor V) : Prop := {
  of_type : T_ t = d;
  of_indice : indice_ t = i;
  of_input : is_input_ t = true;
  of_shape : shape_ t = Some (in_shape x);
  of_pay : match in_content x with
           | Numbers l => is_string d = false /\ exists v, pay t = Elements (Some v) None (MkSpan [] 0) /\ GetTensorRawData v = Ok l
           | Texts ss => d = d_string /\ pay t = Strings (map cut ss) \/
                         d = d_string_view /\ exists chars vs, pay t = Views chars vs /\ map (view chars) vs = ss
           end }.

Lemma Strings_ctor_spec v shape ss :
  stored v (Texts ss) -> accumulate 1 shape = Ok (Z.of_nat (length ss)) -> Z.to_nat (wrap_u 64 (Z.of_nat (length ss))) = length ss ->
  Strings_ctor v shape = Ok (Strings (map cut ss)).
Proof.
  intros [Hl Hc] Ha Hw. unfold Strings_ctor, NumberOfElement. rewrite Hl. cbn [mbind result_bind]. rewrite Ha. cbn [mbind result_bind].
  rewrite Hw. destruct ss as [|s0 ss0] eqn:E; [done|]. rewrite <- E in *. rewrite (proj2 (Nat.eqb_neq _ _)) by (rewrite E; done).
  rewrite Hc. cbn [mbind result_bind].
  rewrite (cut_loop_spec ss _ _ _ NUL []); [| rewrite E; simpl; lia | by rewrite length_replicate | | done].
  - cbn [mbind result_bind]. f_equal. f_equal. replace (S (length ss - 1)) with (length ss) by (rewrite E; simpl; lia).
    rewrite firstn_all, drop_ge by (rewrite length_replicate; lia). apply app_nil_r.
  - replace (S (length ss - 1)) with (length ss) by (rewrite E; simpl; lia). rewrite firstn_all. unfold filled.
    by rewrite Nat.add_comm, Nat.add_sub.
Qed.

Lemma Views_ctor_spec v shape ss :
  stored v (Texts ss) -> accumulate 1 shape = Ok (Z.of_nat (length ss)) -> Z.to_nat (wrap_u 64 (Z.of_nat (length ss))) = length ss ->
  exists chars vs, Views_ctor v shape = Ok (Views chars vs) /\ map (view chars) vs = ss.
Proof.
  intros [Hl Hc] Ha Hw. unfold Views_ctor, NumberOfElement. rewrite Hl. cbn [mbind result_bind]. rewrite Ha. cbn [mbind result_bind].
  rewrite Hw. destruct (Nat.eqb_spec (length ss) 0) as [E|E]; [apply nil_length_inv in E as ->; by do 2 eexists|].
  rewrite Hc. cbn [mbind result_bind]. destruct (view_loop_spec ss (replicate (length (concat ss) + 1 - length (concat ss)) NUL) (length ss) 0 eq_refl)
    as (vs & -> & Hv). by do 2 eexists.
Qed.

Lemma Tensor_ctor_spec d i :
  (forall x, inputs !! i = Some (Some x) -> is_string d = true <-> in_elem x = onnx_type d_string) ->
  match present inputs i with
  | Ok x => exists t, Tensor_ctor d i true = Ok t /\ tensor_of d i x t
  | Throw c m => Tensor_ctor d i true = Throw c m
  | Undefined => Tensor_ctor d i true = Undefined
  end.
Proof.
  intros Ht. unfold present, Tensor_ctor. rewrite (rep_count R). destruct (inputs !! i) as [[x|]|] eqn:Hi.
  - rewrite (proj2 (Nat.leb_gt _ _)) by by eapply lookup_lt_Some.
    destruct (rep_present R _ _ Hi) as (v & -> & Hv & Hs). cbn [mbind result_bind not_null from_option_ub]. rewrite Hv.
    cbn [mbind result_bind]. specialize (Ht x eq_refl). pose proof (rep_wf R _ _ Hi) as Hw.
    pose proof (well_formed_count _ Hw) as Hn. destruct Hw as [Ha Hc]. destruct (in_content x) as [l|ss] eqn:Ec.
    + assert (is_string d = false) as Hd by (destruct (is_string d); [by destruct Hc; apply Ht|done]).
      exists (MkTensor d i true (Some (in_shape x)) (Elements (Some v) None (MkSpan [] 0))). split; [by destruct d|].
      constructor; try done. rewrite Ec. split; [done|]. by exists v.
    + assert (is_string d = true) as Hd by by apply Ht. destruct d; try done.
      * rewrite (Strings_ctor_spec v _ ss) by done. cbn [mbind result_bind]. eexists. split; [done|]. constructor; try done. rewrite Ec. by left.
      * destruct (Views_ctor_spec v (in_shape x) ss) as (chars & vs & -> & Hm); [done..|]. cbn [mbind result_bind]. eexists. split; [done|].
        constructor; try done. rewrite Ec. right. split; [done|]. by exists chars, vs.
  - rewrite (proj2 (Nat.leb_gt _ _)) by by eapply lookup_lt_Some. by rewrite (rep_absent R _ Hi).
  - by rewrite (proj2 (Nat.leb_le _ _)) by by apply lookup_ge_None.
Qed.

Lemma tensor_of_contents d i x t : tensor_of d i x t -> contents t = Ok (seen d (in_content x)).
Proof.
  intros [_ _ _ _ Hp]. unfold contents, Data. destruct (in_content x) as [l|ss].
  - destruct Hp as (Hd & v & -> & Hv). cbn. rewrite Hv. by destruct d.
  - destruct Hp as [[-> ->]|(-> & chars & vs & -> & <-)]; reflexivity.
Qed.

Lemma tensor_of_denote d i x t : tensor_of d i x t -> denote_tensor t = Ok (d, i, in_shape x, seen d (in_content x)).
Proof.
  intros Ht. unfold denote_tensor, Shape. rewrite (of_shape _ _ _ _ Ht). cbn [mbind result_bind].
  rewrite (tensor_of_contents _ _ _ _ Ht). cbn [mbind result_bind]. by rewrite (of_type _ _ _ _ Ht), (of_indice _ _ _ _ Ht).
Qed.

Lemma AsSpan_spec d i x t : tensor_of d i x t -> well_formed x ->
  AsSpan t = match in_shape x, in_content x with
             | [_], Numbers l => let s := MkSpan l (Z.of_nat (length l)) in Ok (set_span t s, s)
             | _, _ => Throw "ORT_RUNTIME_EXCEPTION" (span_error d)
             end.
Proof.
  intros [Et _ _ Es Hp] Hw. pose proof (well_formed_count _ Hw) as Hn. destruct Hw as [Ha _]. unfold AsSpan. rewrite Et, Es.
  destruct (in_content x) as [l|ss].
  - destruct Hp as (Hd & v & Ep & Hv). unfold Data. rewrite Ep. cbn [mbind result_bind not_null from_option_ub]. rewrite Hv.
    assert (forall d0, in_shape x = [d0] -> wrap_u 64 d0 = Z.of_nat (length l)) as Hd0.
    { intros d0 E. rewrite E in Ha. apply accumulate_one in Ha as ->. simpl in *.
      pose proof (wrap_u_range 64 (Z.of_nat (length l)) ltac:(lia)) as [? _]. lia. }
    destruct (in_shape x) as [|d0 [|]]; [by destruct d| |by destruct d].
    rewrite (Hd0 d0 eq_refl). by destruct d.
  - destruct Hp as [[-> _]|[-> _]]; by destruct (in_shape x) as [|? [|]].
Qed.

Lemma AsScalar_spec d i x t : tensor_of d i x t -> well_formed x ->
  AsScalar t = match in_shape x, seen d (in_content x) with
               | [1%Z], Numbers [z] => Ok (Element z)
               | _, Texts [s] => Ok (Text s)
               | _, _ => Throw "ORT_RUNTIME_EXCEPTION" (scalar_error d)
               end.
Proof.
  intros [Et _ _ Es Hp] [Ha _]. unfold AsScalar. destruct (in_content x) as [l|ss].
  - destruct Hp as (Hd & v & Ep & Hv). rewrite Es, Ep. assert (seen d (Numbers l) = Numbers l) as -> by by destruct d.
    assert (scalar_error d = scalar_error d_bool) as -> by by destruct d.
    case_bool_decide as Hb.
    + injection Hb as Hb. rewrite Hb in *. apply accumulate_one in Ha. simpl in Ha. destruct l as [|z [|]]; simpl in Ha; try lia.
      unfold Data. rewrite Ep. cbn. by rewrite Hv.
    + destruct (in_shape x) as [|z [|]]; try done; by destruct z as [|[]|]; try done; destruct Hb.
  - destruct Hp as [[-> ->]|(-> & chars & vs & -> & <-)]; simpl.
    + destruct ss as [|s [|]]; simpl; by destruct (in_shape x) as [|[|[]|] [|]].
    + destruct vs as [|s [|]]; simpl; by destruct (in_shape x) as [|[|[]|] [|]].
Qed.

(** *** One argument *)

#[local] Arguments Tensor_ctor : simpl never.

Lemma denote_grows args args' p v : args `prefix_of` args' -> denote (V := V) args p = Ok v -> denote args' p = Ok v.
Proof.
  intros Hp. destruct p as [|k|k|s|]; simpl; try done; (destruct (args !! k) eqn:Ek; [|done]);
    by rewrite (prefix_lookup_Some _ _ _ _ Ek Hp).
Qed.

Lemma denote_last args t : denote (V := V) (args ++ [TensorArg t]) (PObject (length args)) =
  if is_input_ t then '(d, i, shape, c) ← denote_tensor t; Ok (VTensor d i shape c) else Ok (VOutput (T_ t) (indice_ t)).
Proof. simpl. by rewrite list_lookup_middle. Qed.

(** [r], the result of a step, agrees with the expected argument. *)
Definition agrees (args : list (@arg_base V)) (i o : nat) (r : @step_result V) (e : result value) : Prop :=
  match r with
  | Ok (p, args', i', o') => i' = i /\ o' = o /\ args `prefix_of` args' /\ exists v, e = Ok v /\ denote args' p = Ok v
  | Throw c m => e = Throw c m
  | Undefined => e = Undefined
  end.

Definition typed_at (d : data_type) (i : nat) : Prop := forall x, inputs !! i = Some (Some x) -> in_elem x = onnx_type d.

Lemma typed_string d i x : typed_at d i -> inputs !! i = Some (Some x) -> is_string d = true <-> in_elem x = onnx_type d_string.
Proof. intros Ht Hi. rewrite (Ht _ Hi). by rewrite string_types. Qed.

Lemma present_wf i x : present inputs i = Ok x -> well_formed x.
Proof. unfold present. destruct (inputs !! i) as [[y|]|] eqn:E; intros; simplify_eq. by eapply rep_wf. Qed.

Lemma input_value_agrees ep f d i o args : typed_at d i ->
  agrees args (i + 1) o ('(p, args) ← input_value ep f d i args; Ok (p, args, i + 1, o)) (expected_input ep inputs f d i).
Proof.
  intros Ht. pose proof (Tensor_ctor_spec d i (fun x => typed_string d i x Ht)) as Hc. pose proof (present_wf i) as Hw.
  destruct f; unfold input_value, expected_input; [| unfold on_cpu; case_bool_decide; [|done] ..]; cbn [mbind result_bind];
    (destruct (present inputs i) as [x| |]; [|by rewrite Hc..]); destruct Hc as (t & -> & Hx); cbn [mbind result_bind]; specialize (Hw x eq_refl).
  - split_and!; [done..|by apply prefix_app_r|]. eexists. split; [done|]. rewrite denote_last, (of_input _ _ _ _ Hx).
    by rewrite (tensor_of_denote _ _ _ _ Hx).
  - rewrite (AsSpan_spec _ _ _ _ Hx Hw). destruct (in_shape x) as [|d0 [|]]; [done| |done].
    destruct (in_content x) as [l|ss] eqn:Ec; [|done]. cbn. split_and!; [done..|by apply prefix_app_r|]. eexists. split; [done|].
    rewrite list_lookup_middle by done. pose proof (of_pay _ _ _ _ Hx) as Hp. rewrite Ec in Hp. destruct Hp as (_ & v & Ep & _).
    unfold span_of, set_span. rewrite Ep. cbn. by rewrite Nat2Z.id, firstn_all.
  - rewrite (AsScalar_spec _ _ _ _ Hx Hw). destruct (in_shape x) as [|[|[]|] [|]], (seen d (in_content x)) as [[|? [|]]|[|? [|]]]; try done;
      cbn; (split_and!; [done..|by apply prefix_app_r|]); by eexists.
Qed.

(** From [i] on, the inputs have the type of the first. *)
Definition homogeneous_at (i : nat) : Prop :=
  forall x0 j x, inputs !! i = Some (Some x0) -> i <= j -> inputs !! j = Some (Some x) -> in_elem x = in_elem x0.

Lemma array_type_spec e d : array_type e = Some d -> onnx_type d = e.
Proof.
  unfold array_type. destruct (list_find _ _) as [[k d']|] eqn:E; [|done]. intros [= ->].
  by apply list_find_Some in E as (_ & ? & _).
Qed.

Lemma array_loop_spec i x0 d n : inputs !! i = Some (Some x0) -> homogeneous_at i -> array_type (in_elem x0) = Some d ->
  forall j, i <= j ->
  match mapM (array_element inputs d) (seq j n) with
  | Ok l => exists ts, array_loop i n j = Ok ts /\ mapM denote_tensor ts = Ok l
  | Throw c m => array_loop i n j = Throw c m
  | Undefined => array_loop i n j = Undefined
  end.
Proof.
  intros Hi Hh Hd. destruct (rep_present R _ _ Hi) as (v & Hv & Hs & _). induction n as [|n IH]; intros j Hj; [by exists []|].
  cbn [seq mapM array_loop]. rewrite Hv. cbn [mbind result_bind not_null from_option_ub]. rewrite Hs. cbn [mbind result_bind]. rewrite Hd.
  assert (forall x, inputs !! j = Some (Some x) -> is_string d = true <-> in_elem x = onnx_type d_string) as Ht
    by (intros y Hy; rewrite (Hh _ _ _ Hi Hj Hy), <- (array_type_spec _ _ Hd); by rewrite string_types).
  pose proof (Tensor_ctor_spec d j Ht) as Hc.
  change (array_element inputs d j) with (x ← present inputs j; Ok (d, j, in_shape x, seen d (in_content x))).
  destruct (present inputs j) as [x| |]; [|cbn [mbind result_bind]; by rewrite Hc..].
  destruct Hc as (t & -> & Hx). cbn [mbind result_bind]. specialize (IH (S j) ltac:(lia)).
  destruct (mapM (array_element inputs d) (seq (S j) n)) as [l| |]; [|by rewrite IH..].
  destruct IH as (ts & -> & Em). exists (t :: ts). split; [done|]. simpl. rewrite (tensor_of_denote _ _ _ _ Hx).
  cbn [mbind result_bind]. by rewrite Em.
Qed.

Lemma present_at i ox : inputs !! i = Some ox -> present inputs i = from_option_ub ox.
Proof. intros Hi. unfold present. rewrite Hi. by destruct ox. Qed.

Lemma create_array_agrees i o args : homogeneous_at i -> agrees args (i + 1) o (create_array true i o args) (expected_array inputs i).
Proof.
  intros Hh. unfold create_array, TensorArray_ctor, expected_array. rewrite (rep_count R).
  destruct (Nat.leb_spec (length inputs) i) as [Hl|Hl].
  - replace (length inputs - i) with 0 by lia. cbn. split_and!; [done..|by apply prefix_app_r|]. eexists. split; [done|].
    simpl. by rewrite list_lookup_middle.
  - destruct (lookup_lt_is_Some_2 _ _ Hl) as [ox Hi]. pose proof (array_loop_spec i) as Ha. rewrite (present_at _ _ Hi).
    destruct (length inputs - i) as [|n] eqn:En; [lia|]. destruct ox as [x0|].
    + cbn [mbind result_bind from_option_ub]. destruct (array_type (in_elem x0)) as [d|] eqn:Ed.
      * specialize (Ha x0 d (S n) Hi Hh Ed i (le_n i)).
        destruct (mapM (array_element inputs d) (seq i (S n))) as [l| |]; [|by rewrite Ha..]. destruct Ha as (ts & -> & Em).
        cbn [mbind result_bind]. cbn [agrees]. split_and!; [done..|by apply prefix_app_r|]. eexists. split; [done|].
        cbn [denote]. rewrite list_lookup_middle by done. cbn [from_inputs tensors_]. by rewrite Em.
      * destruct (rep_present R _ _ Hi) as (v & Hv & Hs & _). simpl. rewrite Hv. cbn [mbind result_bind not_null from_option_ub].
        rewrite Hs. cbn [mbind result_bind]. by rewrite Ed.
    + simpl. by rewrite (rep_absent R _ Hi).
Qed.

(** What the declaration of [T] says about the inputs from [i] on. *)
Definition fits (T : arg_type) (i : nat) : Prop :=
  match T with In _ _ d => typed_at d i | ArrayIn _ => homogeneous_at i | _ => True end.

Lemma create_agrees ni no ep T i o args : creates T = true -> fits T i ->
  agrees args (i + length (option_list (in_type T))) (o + length (option_list (out_type T)))
         (create ni no ep T i o args) (expected ni no ep inputs T i o).
Proof.
  intros Hc Hf. destruct T as [r|r|r|w f d|r d|d]; simpl in *.
  - unfold create_context. cbn. rewrite !Nat.add_0_r. split_and!; [done..|]. by eexists.
  - rewrite Nat.add_0_r. by apply create_array_agrees.
  - unfold create_array, TensorArray_ctor. cbn. rewrite Nat.add_0_r. split_and!; [done..|by apply prefix_app_r|]. eexists. split; [done|].
    by rewrite list_lookup_middle.
  - rewrite Nat.add_0_r. pose proof (input_value_agrees ep f d i o args Hf) as Hv.
    destruct w, f as [[]|[]|]; try done; unfold create_input; (destruct (i <? ni); [done|]);
      (split_and!; [done..|]); by eexists.
  - rewrite Nat.add_0_r. unfold create_output. apply negb_true_iff in Hc. rewrite Hc. simpl. split_and!; [done..|by apply prefix_app_r|].
    eexists. split; [done|]. by rewrite list_lookup_middle.
  - rewrite Nat.add_0_r. unfold create_output. apply negb_true_iff in Hc. rewrite Hc. simpl.
    destruct (Nat.leb_spec no o), (Nat.ltb_spec o no); try lia; simpl; (split_and!; [done..| |]); try (by apply prefix_app_r); try done;
      (eexists; split; [done|]); try done. by rewrite list_lookup_middle.
Qed.

Lemma CreateTuple_agrees ni no ep Ts : forall i o args,
  forallb creates Ts = true -> Forall (fun p => fits p.1.1 p.1.2) (positions i o Ts) ->
  let e := mapM (fun p => expected ni no ep inputs p.1.1 p.1.2 p.2) (positions i o Ts) in
  match CreateTuple ni no ep i o Ts args with
  | Ok (ps, args') => args `prefix_of` args' /\ exists vs, e = Ok vs /\ Forall2 (fun p v => denote args' p = Ok v) ps vs
  | Throw c m => e = Throw c m
  | Undefined => e = Undefined
  end.
Proof.
  induction Ts as [|T Ts IH]; intros i o args Hc Hf e; [split; [done|]; by exists []|].
  apply andb_true_iff in Hc as [HT Hc]. apply Forall_cons in Hf as [HfT Hf]. subst e. cbn [positions mapM CreateTuple fst snd] in *.
  pose proof (create_agrees ni no ep T i o args HT HfT) as Ha. destruct (create ni no ep T i o args) as [[[[p args1] i1] o1]| |];
    cbn [mbind result_bind agrees] in *; [|by rewrite Ha..].
  destruct Ha as (-> & -> & Hp & v & -> & Hv). cbn [mbind result_bind]. specialize (IH _ _ args1 Hc Hf).
  destruct (CreateTuple ni no ep _ _ Ts args1) as [[ps args2]| |]; cbn [mbind result_bind]; [|by rewrite IH..].
  destruct IH as (Hp2 & vs & -> & H2). split; [by etrans|]. eexists. split; [done|]. constructor; [|done]. by eapply denote_grows.
Qed.
End Refinement.

Lemma positions_declared T i o Ts ty : in_type T = Some ty ->
  forall i0 o0, (T, i, o) ∈ positions i0 o0 Ts -> exists k, i = i0 + k /\ omap in_type Ts !! k = Some ty.
Proof.
  intros HT. induction Ts as [|T' Ts IH]; intros i0 o0 Hin; simpl in Hin; [by apply not_elem_of_nil in Hin|].
  apply elem_of_cons in Hin as [Hin|Hin].
  - simplify_eq. exists 0. split; [lia|]. simpl. by rewrite HT.
  - destruct (IH _ _ Hin) as (k & -> & Hk). simpl. destruct (in_type T'); simpl; [exists (S k) | exists k]; (split; [lia|done]).
Qed.

(** The runtime checks the inputs of a node against the declaration of its operator. *)
Definition checked (Ts : list arg_type) (inputs : list (option input)) : Prop :=
  forall i ty x, (ParseArgs Ts [] []).1 !! i = Some ty -> ty <> UNDEFINED -> inputs !! i = Some (Some x) -> in_elem x = ty.
Definition homogeneous (Ts : list arg_type) (inputs : list (option input)) : Prop :=
  forall r i o, (ArrayIn r, i, o) ∈ positions 0 0 Ts -> homogeneous_at inputs i.

Lemma checked_fits Ts inputs : checked Ts inputs -> homogeneous Ts inputs ->
  Forall (fun p => fits inputs p.1.1 p.1.2) (positions 0 0 Ts).
Proof.
  intros Hc Hh. apply Forall_forall. intros [[T i] o] Hin. destruct T as [| | |w f d| |]; simpl; try done; [by eapply Hh|].
  intros x Hx. destruct (positions_declared (In w f d) i o Ts (onnx_type d) eq_refl _ _ Hin) as (k & -> & Hk).
  apply (Hc k); [| by apply declared_types_agree | done]. by rewrite ParseArgs_types.
Qed.

(** C37: A call passes what the declaration promises.  For every list of parameter types that compiles and every
    node whose inputs the runtime has checked against the declaration (variadic inputs of one type), the
    arguments [CreateTuple] makes are the expected ones, one for each parameter in order, as seen through the
    objects they point to: the input at the position the declaration gives it, with its shape and its elements
    at their declared type, strings in full as views and up to their first NUL as [std::string]; nothing for an
    optional parameter behind the last input; the output at its position.  Where an argument cannot be made,
    the call is left with the exception of the first such parameter, or makes the forbidden call the
    specification gives for it. *)
Theorem arguments_refine {V} `{KernelContext V} (num_input num_output : nat) (ep : string) (Ts : list arg_type) (inputs : list (option input)) :
  forallb creates Ts = true -> Represents V inputs -> checked Ts inputs -> homogeneous Ts inputs ->
  match CreateTuple num_input num_output ep 0 0 Ts [] with
  | Ok (tuple, args) =>
      exists vs, expect num_input num_output ep inputs Ts = Ok vs /\ Forall2 (fun p v => denote args p = Ok v) tuple vs
  | Throw c m => expect num_input num_output ep inputs Ts = Throw c m
  | Undefined => expect num_input num_output ep inputs Ts = Undefined
  end.
Proof.
  intros Hc HR Hch Hh. pose proof (CreateTuple_agrees inputs HR num_input num_output ep Ts 0 0 [] Hc (checked_fits _ _ Hch Hh)) as Ha.
  unfold expect. destruct (CreateTuple _ _ _ _ _ _ _) as [[tuple args]| |]; [|done..]. by destruct Ha as [_ Ha].
Qed.

(** *** A runtime *)

(** The node's inputs kept in a list; an output is a value of the shape asked for. *)
Definition runtime (inputs : list (option input)) : KernelContext input := {|
  GetInputCount := length inputs;
  GetInput i := match inputs !! i with Some x => Ok x | None => Throw "ORT_FAIL" "index" end;
  GetOutput _ dims := Ok (Some (Input UNDEFINED dims (Numbers [])));
  GetTensorTypeAndShapeInfo x := Ok (in_elem x, in_shape x);
  GetTensorRawData x := match in_content x with Numbers l => Ok l | Texts _ => Throw "ORT_FAIL" "strings" end;
  GetStringTensorDataLength x := match in_content x with Texts ss => Ok (length (concat ss)) | Numbers _ => Throw "ORT_FAIL" "no strings" end;
  GetStringTensorContent x _ _ := match in_content x with Texts ss => Ok (concat ss, offsets_of ss) | Numbers _ => Throw "ORT_FAIL" "no strings" end |}.

Lemma runtime_represents inputs : Forall (fun x => from_option well_formed True x) inputs ->
  @Represents input (runtime inputs) inputs.
Proof.
  intros Hw. constructor; simpl; [done | by intros i -> | | by intros i x Hx; apply (Forall_lookup_1 _ _ _ _ Hw Hx)].
  intros i x ->. exists x. split; [done|]. split; [done|]. unfold stored. simpl. by destruct (in_content x).
Qed.

(** One float tensor, its span, an optional flag the node does not have, names, an output. *)
Definition example_types : list arg_type :=
  [ Context Pointer; In Plain (TensorOf Reference) d_float; In Plain (SpanOf Pointer) d_int64_t; Out Reference d_string;
    In Plain Value d_string; ArrayIn Reference; In Optional Value d_bool ].
Definition text (s : string) : list ascii := String.list_ascii_of_string s.
Definition example_inputs : list (option input) :=
  [ Some (Input (onnx_type d_float) [2; 2]%Z (Numbers [1; 2; 3; 4]%Z)); Some (Input (onnx_type d_int64_t) [3]%Z (Numbers [5; 6; 7]%Z));
    Some (Input (onnx_type d_string) []%Z (Texts [text "ab" ++ NUL :: text "c"]));
    Some (Input (onnx_type d_string) [2]%Z (Texts [text "x"; text "yz"])) ].
Definition example_values : list value :=
  [ VContext; VTensor d_float 0 [2; 2]%Z (Numbers [1; 2; 3; 4]%Z); VSpan [5; 6; 7]%Z; VOutput d_string 0; VScalar (Text (text "ab"));
    VArray [(d_string, 3, [2]%Z, Texts [text "x"; text "yz"])]; VNone ].

Lemma arguments_refine_witness :
  exists tuple args, @CreateTuple input (runtime example_inputs) 4 1 "CPUExecutionProvider" 0 0 example_types [] = Ok (tuple, args) /\
    Forall2 (fun p v => denote (K := runtime example_inputs) args p = Ok v) tuple example_values.
Proof.
  assert (@Represents input (runtime example_inputs) example_inputs) as HR.
  { apply runtime_represents. repeat constructor; vm_compute; discriminate. }
  assert (checked example_types example_inputs) as Hc.
  { intros i ty x Hi Hn Hx. destruct i as [|[|[|[|[|i]]]]]; vm_compute in Hi, Hx; by simplify_eq/=. }
  assert (homogeneous example_types example_inputs) as Hh.
  { intros r i o Hin. cbn in Hin. repeat (apply elem_of_cons in Hin as [Hin|Hin]; [simplify_eq|]); [|by apply not_elem_of_nil in Hin].
    intros x0 j x Hx0 Hj Hx. destruct j as [|[|[|[|j]]]]; vm_compute in Hx0, Hx; try lia; by simplify_eq/=. }
  pose proof (@arguments_refine input (runtime example_inputs) 4 1 "CPUExecutionProvider" example_types example_inputs eq_refl HR Hc Hh) as Ha.
  assert (expect 4 1 "CPUExecutionProvider" example_inputs example_types = Ok example_values) as He by (vm_compute; reflexivity).
  destruct (CreateTuple _ _ _ _ _ _ _) as [[tuple args]| |] eqn:E; [|rewrite He in Ha; discriminate Ha..].
  destruct Ha as (vs & Hvs & H2). rewrite He in Hvs. injection Hvs as <-. exists tuple, args. split; [reflexivity | exact H2].
Defined.

(** ** What it does not do *)

#[local] Arguments Tensor_ctor : simpl never.

Lemma Tensor_ctor_type {V} `{KernelContext V} d i b t : Tensor_ctor d i b = Ok t -> T_ t = d /\ indice_ t = i.
Proof.
  unfold Tensor_ctor. intros Ht. destruct b; [|by simplify_eq/=]. destruct (_ <=? i); [done|].
  destruct (GetInput i) as [[v|]| |]; try done. cbn [mbind result_bind not_null from_option_ub] in Ht.
  destruct (GetTensorTypeAndShapeInfo v) as [[ty shape]| |]; try done. cbn [mbind result_bind] in Ht.
  match type of Ht with (?r ≫= _) = _ => destruct r end; by simplify_eq/=.
Qed.

(** The tensors of a variadic input all get the type of its first input, whatever the types of the others: the
    callbacks say they need not agree, and each further tensor reads its elements as the first one's type. *)
Theorem array_types_of_first {V} `{KernelContext V} i v type shape a d :
  GetInput i = Ok (Some v) -> GetTensorTypeAndShapeInfo v = Ok (type, shape) -> array_type type = Some d ->
  TensorArray_ctor i true = Ok a ->
  length (tensors_ a) = GetInputCount - i /\ Forall (fun t => T_ t = d) (tensors_ a) /\
  map indice_ (tensors_ a) = seq i (GetInputCount - i).
Proof.
  intros Hi Hv Hd Ha. unfold TensorArray_ctor in Ha.
  enough (forall n j ts, array_loop i n j = Ok ts -> length ts = n /\ Forall (fun t => T_ t = d) ts /\ map indice_ ts = seq j n) as Hl.
  { destruct (array_loop _ _ _) as [ts| |] eqn:El; try done. cbn in Ha. simplify_eq/=. by apply Hl. }
  induction n as [|n IH]; intros j ts Hts; cbn [array_loop] in Hts; [by simplify_eq/=; repeat constructor|].
  rewrite Hi in Hts. cbn [mbind result_bind not_null from_option_ub] in Hts. rewrite Hv in Hts. cbn [mbind result_bind] in Hts. rewrite Hd in Hts.
  destruct (Tensor_ctor d j true) as [t| |] eqn:Et; try done. cbn [mbind result_bind] in Hts.
  destruct (array_loop i n (S j)) as [ts'| |] eqn:El; try done. cbn [mbind result_bind] in Hts. injection Hts as <-.
  destruct (IH _ _ El) as (Hlen & Hf & Hm). apply Tensor_ctor_type in Et as [? ?]. simpl. rewrite Hlen, Hm. subst. by repeat constructor.
Qed.

(** A float after an integer is taken for an integer. *)
Lemma array_types_of_first_witness :
  let inputs := [Some (Input (onnx_type d_int64_t) [1]%Z (Numbers [1%Z])); Some (Input (onnx_type d_float) [1]%Z (Numbers [1%Z]))] in
  exists a, @TensorArray_ctor input (runtime inputs) 0 true = Ok a /\ map T_ (tensors_ a) = [d_int64_t; d_int64_t].
Proof.
  intros inputs. destruct (@TensorArray_ctor input (runtime inputs) 0 true) as [a| |] eqn:E; [|vm_compute in E; discriminate E..].
  exists a. split; [done|]. destruct (@array_types_of_first input (runtime inputs) 0 _ _ _ a d_int64_t eq_refl eq_refl eq_refl E) as (Hl & Hf & _).
  destruct (tensors_ a) as [|t1 [|t2 [|]]]; try discriminate Hl. apply Forall_cons in Hf as [E1 Hf]. apply Forall_cons in Hf as [E2 _].
  simpl. by rewrite E1, E2.
Defined.

(** Every parameter that is not variadic is declared optional.  An optional parameter is empty when its
    position is behind the last input; when the node leaves its input out before another one, the absent
    value is inspected, a call the C API forbids. *)
Theorem optional_absent {V} `{KernelContext V} num_input ep f d i o args inputs :
  Represents V inputs -> f <> TensorOf Reference -> f <> SpanOf Reference ->
  (num_input <= i -> create_input num_input ep Optional f d i o args = Ok (PNone, args, i + 1, o)) /\
  (i < num_input -> ep = "CPUExecutionProvider" -> inputs !! i = Some None -> create_input num_input ep Optional f d i o args = Undefined).
Proof.
  intros HR H1 H2. unfold create_input. split.
  - intros Hi. rewrite (proj2 (Nat.ltb_ge _ _) Hi). by destruct f as [[]|[]|].
  - intros Hi -> Ha. rewrite (proj2 (Nat.ltb_lt _ _) Hi).
    assert (Tensor_ctor d i true = Undefined) as Ht.
    { unfold Tensor_ctor. rewrite (rep_count HR), (proj2 (Nat.leb_gt _ _)) by by eapply lookup_lt_Some. by rewrite (rep_absent HR _ Ha). }
    destruct f as [[]|[]|]; try done; unfold input_value; cbn; by rewrite Ht.
Qed.

Lemma optional_absent_witness :
  let inputs := [None; Some (Input (onnx_type d_float) [1]%Z (Numbers [1%Z]))] in
  @create_input input (runtime inputs) 2 "CPUExecutionProvider" Optional Value d_float 0 0 [] = Undefined.
Proof.
  intros inputs. refine (proj2 (@optional_absent input (runtime inputs) 2 _ Value d_float 0 0 [] inputs _ _ _) _ eq_refl eq_refl); [|done..|lia].
  apply runtime_represents. repeat constructor; vm_compute; discriminate.
Defined.

(** Allocating an output again answers the first buffer under the new shape. *)
Theorem allocate_again {V} `{KernelContext V} d i s1 s2 t1 v : is_string d = false ->
  (t ← Tensor_ctor d i false; Allocate s1 t) = Ok (t1, v) ->
  shape_ t1 = Some s1 /\ exists t2, Allocate s2 t1 = Ok (t2, v) /\ shape_ t2 = Some s2.
Proof.
  intros Hd Ht. assert (Tensor_ctor d i false = Ok (MkTensor d i false None (Elements None None (MkSpan [] 0)))) as E by by destruct d.
  rewrite E in Ht. cbn in Ht. destruct (GetOutput i s1) as [[v'|]| |]; try done. cbn in Ht. simplify_eq. split; [done|].
  by eexists.
Qed.

Lemma allocate_again_witness : exists t2, @Allocate input (runtime []) [1000]%Z
    (MkTensor d_float 0 false (Some [1%Z]) (Elements None (Some (Input UNDEFINED [1]%Z (Numbers []))) (MkSpan [] 0)))
  = Ok (t2, Input UNDEFINED [1]%Z (Numbers [])) /\ @SizeInBytes input 4 t2 = Ok 4000%Z.
Proof.
  destruct (@allocate_again input (runtime []) d_float 0 [1]%Z [1000]%Z _ _ eq_refl eq_refl) as (_ & t2 & H & Hs).
  exists t2. split; [exact H|]. vm_compute in H. injection H as <-. vm_compute. reflexivity.
Defined.

Lemma cut_fixed s : cut s = s -> ~ NUL ∈ s.
Proof.
  induction s as [|c s IH]; simpl; [intros _; apply not_elem_of_nil|]. case_bool_decide as Hc; [done|]. intros [= Es] Hin.
  apply elem_of_cons in Hin as [Hin|Hin]; [by destruct Hc | by apply IH].
Qed.

(** The two kinds of string tensors show the same strings exactly when none contains a NUL: the views show every
    byte, the strings end at the first NUL; and what [SetStringOutput] passes on is cut in the same way. *)
Theorem strings_seen {V} `{KernelContext V} inputs i x ss : Represents V inputs ->
  inputs !! i = Some (Some x) -> in_content x = Texts ss ->
  exists t1 t2, Tensor_ctor d_string i true = Ok t1 /\ Tensor_ctor d_string_view i true = Ok t2 /\
    contents t2 = Ok (Texts ss) /\ (contents t1 = contents t2 <-> Forall (fun s => ~ NUL ∈ s) ss) /\
    (forall t v dims t' ss', SetStringOutput ss dims t = Ok (t', v, ss') -> contents t1 = Ok (Texts ss')).
Proof.
  intros HR Hx Hc. destruct (rep_wf HR _ _ Hx) as [_ He]. rewrite Hc in He.
  assert (present inputs i = Ok x) as Hp by (unfold present; by rewrite Hx).
  pose proof (Tensor_ctor_spec inputs HR d_string i) as H1. pose proof (Tensor_ctor_spec inputs HR d_string_view i) as H2. rewrite Hp in H1, H2.
  destruct H1 as (t1 & E1 & T1); [by intros y Hy; simplify_eq|]. destruct H2 as (t2 & E2 & T2); [by intros y Hy; simplify_eq|].
  exists t1, t2. pose proof (tensor_of_contents _ _ _ _ T1) as C1. pose proof (tensor_of_contents _ _ _ _ T2) as C2. rewrite Hc in C1, C2.
  simpl in C1, C2. split_and!; [done..| |].
  - rewrite C1, C2. clear -ss. split.
    + intros [= E]. induction ss as [|s ss IH]; [done|]. simpl in E. injection E as Es E. constructor; [by apply cut_fixed | by apply IH].
    + intros Hf. do 2 f_equal. induction Hf as [|s ss Hs Hf IH]; [done|]. simpl. by rewrite cut_id, IH.
  - intros t v dims t' ss' Ho. rewrite C1. unfold SetStringOutput in Ho. destruct (GetOutput _ _) as [[w|]| |]; try done. cbn in Ho. by simplify_eq.
Qed.

Lemma strings_seen_witness :
  let ss := [text "ab" ++ NUL :: text "c"] in
  let inputs := [Some (Input (onnx_type d_string) [1]%Z (Texts ss))] in
  exists t1 t2, @Tensor_ctor input (runtime inputs) d_string 0 true = Ok t1 /\ @Tensor_ctor input (runtime inputs) d_string_view 0 true = Ok t2 /\
    contents (K := runtime inputs) t1 <> contents (K := runtime inputs) t2.
Proof.
  intros ss inputs. assert (@Represents input (runtime inputs) inputs) as HR by (apply runtime_represents; repeat constructor; vm_compute; discriminate).
  destruct (@strings_seen input (runtime inputs) inputs 0 _ ss HR eq_refl eq_refl) as (t1 & t2 & E1 & E2 & _ & Hiff & _).
  exists t1, t2. split_and!; [done..|]. intros E. apply Hiff in E. apply Forall_cons in E as [E _]. apply E. vm_compute.
  right. right. left.
Defined.

(** The number of elements is the product of the dimensions when these are positive and it fits; a
    multiplication can overflow although a later dimension is zero. *)
Theorem number_of_elements dims : Forall (fun d => 1 <= d)%Z dims -> (foldr Z.mul 1 dims < 2 ^ 63)%Z ->
  NumberOfElement (Some dims) = Ok (foldr Z.mul 1 dims)%Z /\ NumberOfElement (Some [2 ^ 40; 2 ^ 40; 0])%Z = Undefined.
Proof.
  intros Hd Hp. split; [|vm_compute; reflexivity]. unfold NumberOfElement.
  assert (forall init, (1 <= init)%Z -> (init * foldr Z.mul 1 dims < 2 ^ 63)%Z -> accumulate init dims = Ok (init * foldr Z.mul 1 dims)%Z) as Ha.
  { clear Hp. induction Hd as [|d dims Hd Hds IH]; intros init Hi Hp; simpl in *; [by rewrite Z.mul_1_r|].
    assert (1 <= foldr Z.mul 1 dims)%Z by (clear -Hds; induction Hds; simpl; nia).
    rewrite bool_decide_eq_true_2 by nia. rewrite IH by nia. f_equal. lia. }
  rewrite Ha by lia. f_equal. lia.
Qed.

Lemma number_of_elements_witness : NumberOfElement (Some [2; 3; 4])%Z = Ok 24%Z.
Proof. refine (proj1 (number_of_elements [2; 3; 4]%Z _ _)); [repeat constructor; lia | vm_compute; reflexivity]. Defined.
