(* ===== verification/CxxInline.v ===== *)
(** * CxxInline: onnxruntime_cxx_inline.h

    The out-of-line definitions of the C++ wrappers of the ONNX Runtime C interface, in the order of the
    header.  Left out: the bodies of [MemoryAllocation]'s move constructor and move assignment (swaps of the
    object's own fields), [BFloat16_t::operator<], and four functions whose lambdas or preprocessor branches
    are outside the fragment: [GetOutputValuesHelper], [GetCustomMetadataMapKeysAllocated],
    [LogFormattedMessage], [GetAvailableProviders]; their signatures are [untranslated]. *)

From S2P Require Import Prelude OrtApi Cxx.
Local Open Scope string_scope.

(** Lines 34-80. *)
Definition inline_1 : list func :=
  [ Func "" "ThrowStatus" (Some (ByValue, Ty "void")) [Arg ByRef (Const (Ty "Status")) "st"] false false []
      [Decl ByValue (Ty "std::string") "error_message" (Some (Method (Var "st") "GetErrorMessage" []));
       Decl ByValue (Ty "OrtErrorCode") "error_code" (Some (Method (Var "st") "GetErrorCode" []));
       Throw [Fun "std::move" [Var "error_message"]; Var "error_code"]];
    Func "" "ThrowOnError" (Some (ByValue, Ty "void")) [Arg ByValue (Ptr (Ty "OrtStatus")) "ort_status"] false false
      []
      [If (Var "ort_status")
         [Decl ByValue (Ty "Ort::Status") "st" (Some (New (Ty "Ort::Status") [Var "ort_status"]));
          Expr (Fun "detail::ThrowStatus" [Var "st"])] []];
    Func "" "ThrowOnError" (Some (ByValue, Ty "void")) [Arg ByRef (Const (Ty "Status")) "st"] false false []
      [If (Var "st") [Expr (Fun "detail::ThrowStatus" [Var "st"])] []];
    Func "Status" "Status" None [Arg ByValue (Ptr (Ty "OrtStatus")) "status"] false true
      [("Base<OrtStatus>", [Var "status"])] [];
    Func "Status" "Status" None [Arg ByRef (Const (Ty "std::exception")) "e"] false true []
      [Assign "=" (Member_ "p_") (Slot_ "CreateStatus" [Name "ORT_FAIL"; Method (Var "e") "what" []])];
    Func "Status" "Status" None [Arg ByRef (Const (Ty "Exception")) "e"] false true []
      [Assign "=" (Member_ "p_")
         (Slot_ "CreateStatus" [Method (Var "e") "GetOrtErrorCode" []; Method (Var "e") "what" []])];
    Func "Status" "Status" None
      [Arg ByValue (Ptr (Const (Ty "char"))) "message"; Arg ByValue (Ty "OrtErrorCode") "code"] false true []
      [Assign "=" (Member_ "p_") (Slot_ "CreateStatus" [Var "code"; Var "message"])];
    Func "Status" "GetErrorMessage" (Some (ByValue, Ty "std::string")) [] true false []
      [Decl ByValue (Ty "std::string") "message"
         (Some (New (Ty "std::string") [Slot_ "GetErrorMessage" [Member_ "p_"]]));
       Return (Some (Var "message"))];
    Func "Status" "GetErrorCode" (Some (ByValue, Ty "OrtErrorCode")) [] true false []
      [Return (Some (Slot_ "GetErrorCode" [Member_ "p_"]))];
    Func "Status" "IsOK" (Some (ByValue, Ty "bool")) [] true true []
      [Return (Some (Op "==" [Member_ "p_"; Lit "nullptr"]))] ].

(** Lines 155-161. *)
Definition inline_2 : list func :=
  [ Func "BFloat16_t" "operator==" (Some (ByValue, Ty "bool")) [Arg ByRef (Const (Ty "BFloat16_t")) "rhs"] true true
      []
      [If (Op "||" [Fun "IsNaN" []; Method (Var "rhs") "IsNaN" []]) [Return (Some (Lit "false"))] [];
       Return (Some (Op "==" [Member_ "val"; Dot (Var "rhs") "val"]))] ].

(** Lines 179-189. *)
Definition inline_3 : list func :=
  [ Func "MemoryAllocation" "MemoryAllocation" None
      [Arg ByValue (Ptr (Ty "OrtAllocator")) "allocator";
       Arg ByValue (Ptr (Ty "void")) "p";
       Arg ByValue (Ty "size_t") "size"] false false
      [("allocator_", [Var "allocator"]); ("p_", [Var "p"]); ("size_", [Var "size"])] [];
    Func "MemoryAllocation" "~MemoryAllocation" None [] false false []
      [If (Op "!=" [Member_ "p_"; Lit "nullptr"])
         [Decl ByValue (Ty "auto") "ret" (Some (Slot_ "AllocatorFree" [Member_ "allocator_"; Member_ "p_"]));
          Expr (Cast (Ty "void") (Var "ret"))] []] ].

(** Lines 217-362. *)
Definition inline_4 : list func :=
  [ Func "AllocatorImpl" "Alloc" (Some (ByValue, Ptr (Ty "void"))) [Arg ByValue (Ty "size_t") "size"] false false []
      [Decl ByValue (Ptr (Ty "void")) "out" None;
       ThrowOnError (Slot_ "AllocatorAlloc" [Member_ "p_"; Var "size"; Addr (Var "out")]);
       Return (Some (Var "out"))];
    Func "AllocatorImpl" "GetAllocation" (Some (ByValue, Ty "MemoryAllocation")) [Arg ByValue (Ty "size_t") "size"]
      false false []
      [Decl ByValue (Ptr (Ty "void")) "out" None;
       ThrowOnError (Slot_ "AllocatorAlloc" [Member_ "p_"; Var "size"; Addr (Var "out")]);
       Decl ByValue (Ty "MemoryAllocation") "result"
         (Some (New (Ty "MemoryAllocation") [Member_ "p_"; Var "out"; Var "size"]));
       Return (Some (Var "result"))];
    Func "AllocatorImpl" "Free" (Some (ByValue, Ty "void")) [Arg ByValue (Ptr (Ty "void")) "p"] false false []
      [ThrowOnError (Slot_ "AllocatorFree" [Member_ "p_"; Var "p"])];
    Func "AllocatorImpl" "GetInfo" (Some (ByValue, Ty "ConstMemoryInfo")) [] true false []
      [Decl ByValue (Ptr (Const (Ty "OrtMemoryInfo"))) "out" None;
       ThrowOnError (Slot_ "AllocatorGetInfo" [Member_ "p_"; Addr (Var "out")]);
       Return (Some (New (Ty "ConstMemoryInfo") [Var "out"]))];
    Func "AllocatorWithDefaultOptions" "AllocatorWithDefaultOptions" None [] false false []
      [ThrowOnError (Slot_ "GetAllocatorWithDefaultOptions" [Addr (Member_ "p_")])];
    Func "Allocator" "Allocator" None
      [Arg ByRef (Const (Ty "Session")) "sess"; Arg ByValue (Ptr (Const (Ty "OrtMemoryInfo"))) "mem_info"] false
      false [] [ThrowOnError (Slot_ "CreateAllocator" [Var "sess"; Var "mem_info"; Addr (Member_ "p_")])];
    Func "MemoryInfoImpl" "GetAllocatorName" (Some (ByValue, Ty "std::string")) [] true false []
      [Decl ByValue (Ptr (Const (Ty "char"))) "name" (Some (Lit "nullptr"));
       ThrowOnError (Slot_ "MemoryInfoGetName" [Member_ "p_"; Addr (Var "name")]);
       Return (Some (New (Ty "std::string") [Var "name"]))];
    Func "MemoryInfoImpl" "GetAllocatorType" (Some (ByValue, Ty "OrtAllocatorType")) [] true false []
      [Decl ByValue (Ty "OrtAllocatorType") "type" None;
       ThrowOnError (Slot_ "MemoryInfoGetType" [Member_ "p_"; Addr (Var "type")]);
       Return (Some (Var "type"))];
    Func "MemoryInfoImpl" "GetDeviceId" (Some (ByValue, Ty "int")) [] true false []
      [Decl ByValue (Ty "int") "id" (Some (Lit "0"));
       ThrowOnError (Slot_ "MemoryInfoGetId" [Member_ "p_"; Addr (Var "id")]);
       Return (Some (Var "id"))];
    Func "MemoryInfoImpl" "GetDeviceType" (Some (ByValue, Ty "OrtMemoryInfoDeviceType")) [] true false []
      [Decl ByValue (Ty "OrtMemoryInfoDeviceType") "type" None;
       Expr (Slot_ "MemoryInfoGetDeviceType" [Member_ "p_"; Addr (Var "type")]);
       Return (Some (Var "type"))];
    Func "MemoryInfoImpl" "GetMemoryType" (Some (ByValue, Ty "OrtMemType")) [] true false []
      [Decl ByValue (Ty "OrtMemType") "type" None;
       ThrowOnError (Slot_ "MemoryInfoGetMemType" [Member_ "p_"; Addr (Var "type")]);
       Return (Some (Var "type"))];
    Func "MemoryInfoImpl" "operator==" (Some (ByValue, Ty "bool")) [Arg ByRef (Const (Ty "MemoryInfoImpl<U>")) "o"]
      true false []
      [Decl ByValue (Ty "int") "comp_result" (Some (Lit "0"));
       ThrowOnError (Slot_ "CompareMemoryInfo" [Member_ "p_"; Var "o"; Addr (Var "comp_result")]);
       Return (Some (Op "==" [Var "comp_result"; Lit "0"]))];
    Func "MemoryInfo" "CreateCpu" (Some (ByValue, Ty "MemoryInfo"))
      [Arg ByValue (Ty "OrtAllocatorType") "type"; Arg ByValue (Ty "OrtMemType") "mem_type"] false false []
      [Decl ByValue (Ptr (Ty "OrtMemoryInfo")) "p" None;
       ThrowOnError (Slot_ "CreateCpuMemoryInfo" [Var "type"; Var "mem_type"; Addr (Var "p")]);
       Return (Some (New (Ty "MemoryInfo") [Var "p"]))];
    Func "MemoryInfo" "MemoryInfo" None
      [Arg ByValue (Ptr (Const (Ty "char"))) "name";
       Arg ByValue (Ty "OrtAllocatorType") "type";
       Arg ByValue (Ty "int") "id";
       Arg ByValue (Ty "OrtMemType") "mem_type"] false false []
      [ThrowOnError
         (Slot_ "CreateMemoryInfo" [Var "name"; Var "type"; Var "id"; Var "mem_type"; Addr (Member_ "p_")])];
    Func "ConstIoBindingImpl" "GetOutputNames" (Some (ByValue, Ty "std::vector<std::string>")) [] true false []
      [Decl ByValue (Ty "AllocatorWithDefaultOptions") "allocator" None;
       Return (Some (Fun "binding_utils::GetOutputNamesHelper" [Member_ "p_"; Var "allocator"]))];
    Func "ConstIoBindingImpl" "GetOutputNames" (Some (ByValue, Ty "std::vector<std::string>"))
      [Arg ByValue (Ptr (Ty "OrtAllocator")) "allocator"] true false []
      [Return (Some (Fun "binding_utils::GetOutputNamesHelper" [Member_ "p_"; Var "allocator"]))];
    Func "ConstIoBindingImpl" "GetOutputValues" (Some (ByValue, Ty "std::vector<Value>")) [] true false []
      [Decl ByValue (Ty "AllocatorWithDefaultOptions") "allocator" None;
       Return (Some (Fun "binding_utils::GetOutputValuesHelper" [Member_ "p_"; Var "allocator"]))];
    Func "ConstIoBindingImpl" "GetOutputValues" (Some (ByValue, Ty "std::vector<Value>"))
      [Arg ByValue (Ptr (Ty "OrtAllocator")) "allocator"] true false []
      [Return (Some (Fun "binding_utils::GetOutputValuesHelper" [Member_ "p_"; Var "allocator"]))];
    Func "IoBindingImpl" "BindInput" (Some (ByValue, Ty "void"))
      [Arg ByValue (Ptr (Const (Ty "char"))) "name"; Arg ByRef (Const (Ty "Value")) "value"] false false []
      [ThrowOnError (Slot_ "BindInput" [Member_ "p_"; Var "name"; Var "value"])];
    Func "IoBindingImpl" "BindOutput" (Some (ByValue, Ty "void"))
      [Arg ByValue (Ptr (Const (Ty "char"))) "name"; Arg ByRef (Const (Ty "Value")) "value"] false false []
      [ThrowOnError (Slot_ "BindOutput" [Member_ "p_"; Var "name"; Var "value"])];
    Func "IoBindingImpl" "BindOutput" (Some (ByValue, Ty "void"))
      [Arg ByValue (Ptr (Const (Ty "char"))) "name"; Arg ByValue (Ptr (Const (Ty "OrtMemoryInfo"))) "mem_info"]
      false false [] [ThrowOnError (Slot_ "BindOutputToDevice" [Member_ "p_"; Var "name"; Var "mem_info"])];
    Func "IoBindingImpl" "ClearBoundInputs" (Some (ByValue, Ty "void")) [] false false []
      [Expr (Slot_ "ClearBoundInputs" [Member_ "p_"])];
    Func "IoBindingImpl" "ClearBoundOutputs" (Some (ByValue, Ty "void")) [] false false []
      [Expr (Slot_ "ClearBoundOutputs" [Member_ "p_"])];
    Func "IoBindingImpl" "SynchronizeInputs" (Some (ByValue, Ty "void")) [] false false []
      [ThrowOnError (Slot_ "SynchronizeBoundInputs" [Member_ "p_"])] ].

(** Lines 364-395. *)
Definition inline_5 : list func :=
  [ Func "IoBindingImpl" "SynchronizeOutputs" (Some (ByValue, Ty "void")) [] false false []
      [ThrowOnError (Slot_ "SynchronizeBoundOutputs" [Member_ "p_"])];
    Func "" "GetOutputNamesHelper" (Some (ByValue, Ty "std::vector<std::string>"))
      [Arg ByValue (Ptr (Const (Ty "OrtIoBinding"))) "binding"; Arg ByValue (Ptr (Ty "OrtAllocator")) "allocator"]
      false false []
      [Decl ByValue (Ty "std::vector<std::string>") "result" None;
       Decl ByValue (Ty "auto") "free_fn" (Some (New (Ty "detail::AllocatedFree") [Var "allocator"]));
       Decl ByValue (Ptr (Ty "char")) "buffer" (Some (Lit "nullptr"));
       Decl ByValue (Ptr (Ty "size_t")) "lengths" (Some (Lit "nullptr"));
       Decl ByValue (Ty "size_t") "count" (Some (Lit "0"));
       ThrowOnError
         (Slot_ "GetBoundOutputNames"
            [Var "binding"; Var "allocator"; Addr (Var "buffer"); Addr (Var "lengths"); Addr (Var "count")]);
       If (Op "==" [Var "count"; Lit "0"]) [Return (Some (Var "result"))] [];
       Decl ByValue (Ty "std::unique_ptr<void, decltype(free_fn)>") "buffer_g"
         (Some (New (Ty "std::unique_ptr<void, decltype(free_fn)>") [Var "buffer"; Var "free_fn"]));
       Decl ByValue (Ty "std::unique_ptr<void, decltype(free_fn)>") "lengths_g"
         (Some (New (Ty "std::unique_ptr<void, decltype(free_fn)>") [Var "lengths"; Var "free_fn"]));
       Expr (Method (Var "result") "reserve" [Var "count"]);
       For [Decl ByValue (Ty "size_t") "i" (Some (Lit "0"))] (Op "<" [Var "i"; Var "count"]) (Op "++" [Var "i"])
         [Decl ByValue (Ty "auto") "sz" (Some (Deref (Var "lengths")));
          Expr (Method (Var "result") "emplace_back" [Var "buffer"; Var "sz"]);
          Assign "+=" (Var "buffer") (Var "sz");
          Expr (Op "++" [Var "lengths"])];
       Return (Some (Var "result"))] ].

(** Lines 433-581. *)
Definition inline_6 : list func :=
  [ Func "IoBinding" "IoBinding" None [Arg ByRef (Ty "Session") "session"] false false []
      [ThrowOnError (Slot_ "CreateIoBinding" [Var "session"; Addr (Member_ "p_")])];
    Func "ArenaCfg" "ArenaCfg" None
      [Arg ByValue (Ty "size_t") "max_mem";
       Arg ByValue (Ty "int") "arena_extend_strategy";
       Arg ByValue (Ty "int") "initial_chunk_size_bytes";
       Arg ByValue (Ty "int") "max_dead_bytes_per_chunk"] false false []
      [ThrowOnError
         (Slot_ "CreateArenaCfg"
            [Var "max_mem";
             Var "arena_extend_strategy";
             Var "initial_chunk_size_bytes";
             Var "max_dead_bytes_per_chunk";
             Addr (Member_ "p_")])];
    Func "ThreadingOptions" "ThreadingOptions" None [] false false []
      [ThrowOnError (Slot_ "CreateThreadingOptions" [Addr (Member_ "p_")])];
    Func "ThreadingOptions" "SetGlobalIntraOpNumThreads" (Some (ByRef, Ty "ThreadingOptions"))
      [Arg ByValue (Ty "int") "intra_op_num_threads"] false false []
      [ThrowOnError (Slot_ "SetGlobalIntraOpNumThreads" [Member_ "p_"; Var "intra_op_num_threads"]);
       Return (Some This)];
    Func "ThreadingOptions" "SetGlobalInterOpNumThreads" (Some (ByRef, Ty "ThreadingOptions"))
      [Arg ByValue (Ty "int") "inter_op_num_threads"] false false []
      [ThrowOnError (Slot_ "SetGlobalInterOpNumThreads" [Member_ "p_"; Var "inter_op_num_threads"]);
       Return (Some This)];
    Func "ThreadingOptions" "SetGlobalSpinControl" (Some (ByRef, Ty "ThreadingOptions"))
      [Arg ByValue (Ty "int") "allow_spinning"] false false []
      [ThrowOnError (Slot_ "SetGlobalSpinControl" [Member_ "p_"; Var "allow_spinning"]); Return (Some This)];
    Func "ThreadingOptions" "SetGlobalDenormalAsZero" (Some (ByRef, Ty "ThreadingOptions")) [] false false []
      [ThrowOnError (Slot_ "SetGlobalDenormalAsZero" [Member_ "p_"]); Return (Some This)];
    Func "ThreadingOptions" "SetGlobalCustomCreateThreadFn" (Some (ByRef, Ty "ThreadingOptions"))
      [Arg ByValue (Ty "OrtCustomCreateThreadFn") "ort_custom_create_thread_fn"] false false []
      [ThrowOnError (Slot_ "SetGlobalCustomCreateThreadFn" [Member_ "p_"; Var "ort_custom_create_thread_fn"]);
       Return (Some This)];
    Func "ThreadingOptions" "SetGlobalCustomThreadCreationOptions" (Some (ByRef, Ty "ThreadingOptions"))
      [Arg ByValue (Ptr (Ty "void")) "ort_custom_thread_creation_options"] false false []
      [ThrowOnError
         (Slot_ "SetGlobalCustomThreadCreationOptions" [Member_ "p_"; Var "ort_custom_thread_creation_options"]);
       Return (Some This)];
    Func "ThreadingOptions" "SetGlobalCustomJoinThreadFn" (Some (ByRef, Ty "ThreadingOptions"))
      [Arg ByValue (Ty "OrtCustomJoinThreadFn") "ort_custom_join_thread_fn"] false false []
      [ThrowOnError (Slot_ "SetGlobalCustomJoinThreadFn" [Member_ "p_"; Var "ort_custom_join_thread_fn"]);
       Return (Some This)];
    Func "Env" "Env" None
      [Arg ByValue (Ty "OrtLoggingLevel") "logging_level"; Arg ByValue (Ptr (Const (Ty "char"))) "logid"] false
      false []
      [ThrowOnError (Slot_ "CreateEnv" [Var "logging_level"; Var "logid"; Addr (Member_ "p_")]);
       If (Op "==" [Fun "strcmp" [Var "logid"; Str "onnxruntime-node"]; Lit "0"])
         [ThrowOnError
            (Slot_ "SetLanguageProjection" [Member_ "p_"; Name "OrtLanguageProjection::ORT_PROJECTION_NODEJS"])]
         [ThrowOnError
            (Slot_ "SetLanguageProjection"
               [Member_ "p_"; Name "OrtLanguageProjection::ORT_PROJECTION_CPLUSPLUS"])]];
    Func "Env" "Env" None
      [Arg ByValue (Ty "OrtLoggingLevel") "logging_level";
       Arg ByValue (Ptr (Const (Ty "char"))) "logid";
       Arg ByValue (Ty "OrtLoggingFunction") "logging_function";
       Arg ByValue (Ptr (Ty "void")) "logger_param"] false false []
      [ThrowOnError
         (Slot_ "CreateEnvWithCustomLogger"
            [Var "logging_function"; Var "logger_param"; Var "logging_level"; Var "logid"; Addr (Member_ "p_")]);
       If (Op "==" [Fun "strcmp" [Var "logid"; Str "onnxruntime-node"]; Lit "0"])
         [ThrowOnError
            (Slot_ "SetLanguageProjection" [Member_ "p_"; Name "OrtLanguageProjection::ORT_PROJECTION_NODEJS"])]
         [ThrowOnError
            (Slot_ "SetLanguageProjection"
               [Member_ "p_"; Name "OrtLanguageProjection::ORT_PROJECTION_CPLUSPLUS"])]];
    Func "Env" "Env" None
      [Arg ByValue (Ptr (Const (Ty "OrtThreadingOptions"))) "tp_options";
       Arg ByValue (Ty "OrtLoggingLevel") "logging_level";
       Arg ByValue (Ptr (Const (Ty "char"))) "logid"] false false []
      [ThrowOnError
         (Slot_ "CreateEnvWithGlobalThreadPools"
            [Var "logging_level"; Var "logid"; Var "tp_options"; Addr (Member_ "p_")]);
       If (Op "==" [Fun "strcmp" [Var "logid"; Str "onnxruntime-node"]; Lit "0"])
         [ThrowOnError
            (Slot_ "SetLanguageProjection" [Member_ "p_"; Name "OrtLanguageProjection::ORT_PROJECTION_NODEJS"])]
         [ThrowOnError
            (Slot_ "SetLanguageProjection"
               [Member_ "p_"; Name "OrtLanguageProjection::ORT_PROJECTION_CPLUSPLUS"])]];
    Func "Env" "Env" None
      [Arg ByValue (Ptr (Const (Ty "OrtThreadingOptions"))) "tp_options";
       Arg ByValue (Ty "OrtLoggingFunction") "logging_function";
       Arg ByValue (Ptr (Ty "void")) "logger_param";
       Arg ByValue (Ty "OrtLoggingLevel") "logging_level";
       Arg ByValue (Ptr (Const (Ty "char"))) "logid"] false false []
      [ThrowOnError
         (Slot_ "CreateEnvWithCustomLoggerAndGlobalThreadPools"
            [Var "logging_function";
             Var "logger_param";
             Var "logging_level";
             Var "logid";
             Var "tp_options";
             Addr (Member_ "p_")]);
       If (Op "==" [Fun "strcmp" [Var "logid"; Str "onnxruntime-node"]; Lit "0"])
         [ThrowOnError
            (Slot_ "SetLanguageProjection" [Member_ "p_"; Name "OrtLanguageProjection::ORT_PROJECTION_NODEJS"])]
         [ThrowOnError
            (Slot_ "SetLanguageProjection"
               [Member_ "p_"; Name "OrtLanguageProjection::ORT_PROJECTION_CPLUSPLUS"])]];
    Func "Env" "EnableTelemetryEvents" (Some (ByRef, Ty "Env")) [] false false []
      [ThrowOnError (Slot_ "EnableTelemetryEvents" [Member_ "p_"]); Return (Some This)];
    Func "Env" "DisableTelemetryEvents" (Some (ByRef, Ty "Env")) [] false false []
      [ThrowOnError (Slot_ "DisableTelemetryEvents" [Member_ "p_"]); Return (Some This)];
    Func "Env" "UpdateEnvWithCustomLogLevel" (Some (ByRef, Ty "Env"))
      [Arg ByValue (Ty "OrtLoggingLevel") "log_severity_level"] false false []
      [ThrowOnError (Slot_ "UpdateEnvWithCustomLogLevel" [Member_ "p_"; Var "log_severity_level"]);
       Return (Some This)];
    Func "Env" "CreateAndRegisterAllocator" (Some (ByRef, Ty "Env"))
      [Arg ByValue (Ptr (Const (Ty "OrtMemoryInfo"))) "mem_info";
       Arg ByValue (Ptr (Const (Ty "OrtArenaCfg"))) "arena_cfg"] false false []
      [ThrowOnError (Slot_ "CreateAndRegisterAllocator" [Member_ "p_"; Var "mem_info"; Var "arena_cfg"]);
       Return (Some This)];
    Func "Env" "CreateAndRegisterAllocatorV2" (Some (ByRef, Ty "Env"))
      [Arg ByRef (Const (Ty "std::string")) "provider_type";
       Arg ByValue (Ptr (Const (Ty "OrtMemoryInfo"))) "mem_info";
       Arg ByRef (Const (Ty "std::unordered_map<std::string, std::string>")) "options";
       Arg ByValue (Ptr (Const (Ty "OrtArenaCfg"))) "arena_cfg"] false false []
      [Decl ByValue (Ty "std::vector<const char*>") "keys" None;
       Decl ByValue (Ty "std::vector<const char*>") "values" None;
       Decl ByValue (Ty "auto") "num_entries" (Some (Method (Var "options") "size" []));
       If (Op ">" [Var "num_entries"; Lit "0"])
         [Expr (Method (Var "keys") "reserve" [Var "num_entries"]);
          Expr (Method (Var "values") "reserve" [Var "num_entries"]);
          ForEach ByRef (Const (Ty "auto")) "entry" (Var "options")
            [Expr (Method (Var "keys") "push_back" [Method (Dot (Var "entry") "first") "c_str" []]);
             Expr (Method (Var "values") "push_back" [Method (Dot (Var "entry") "second") "c_str" []])]] [];
       ThrowOnError
         (Slot_ "CreateAndRegisterAllocatorV2"
            [Member_ "p_";
             Method (Var "provider_type") "c_str" [];
             Var "mem_info";
             Var "arena_cfg";
             Method (Var "keys") "data" [];
             Method (Var "values") "data" [];
             Var "num_entries"]);
       Return (Some This)];
    Func "CustomOpDomain" "CustomOpDomain" None [Arg ByValue (Ptr (Const (Ty "char"))) "domain"] false false []
      [ThrowOnError (Slot_ "CreateCustomOpDomain" [Var "domain"; Addr (Member_ "p_")])];
    Func "CustomOpDomain" "Add" (Some (ByValue, Ty "void")) [Arg ByValue (Ptr (Const (Ty "OrtCustomOp"))) "op"]
      false false [] [ThrowOnError (Slot_ "CustomOpDomain_Add" [Member_ "p_"; Var "op"])];
    Func "LoraAdapter" "CreateLoraAdapter" (Some (ByValue, Ty "LoraAdapter"))
      [Arg ByRef (Const (Ty "std::basic_string<ORTCHAR_T>")) "adapter_path";
       Arg ByValue (Ptr (Ty "OrtAllocator")) "allocator"] false false []
      [Decl ByValue (Ptr (Ty "OrtLoraAdapter")) "p" None;
       ThrowOnError
         (Slot_ "CreateLoraAdapter" [Method (Var "adapter_path") "c_str" []; Var "allocator"; Addr (Var "p")]);
       Return (Some (New (Ty "LoraAdapter") [Var "p"]))];
    Func "LoraAdapter" "CreateLoraAdapterFromArray" (Some (ByValue, Ty "LoraAdapter"))
      [Arg ByValue (Ptr (Const (Ty "void"))) "bytes";
       Arg ByValue (Ty "size_t") "num_bytes";
       Arg ByValue (Ptr (Ty "OrtAllocator")) "allocator"] false false []
      [Decl ByValue (Ptr (Ty "OrtLoraAdapter")) "p" None;
       ThrowOnError
         (Slot_ "CreateLoraAdapterFromArray" [Var "bytes"; Var "num_bytes"; Var "allocator"; Addr (Var "p")]);
       Return (Some (New (Ty "LoraAdapter") [Var "p"]))];
    Func "RunOptions" "RunOptions" None [] false false []
      [ThrowOnError (Slot_ "CreateRunOptions" [Addr (Member_ "p_")])];
    Func "RunOptions" "SetRunLogVerbosityLevel" (Some (ByRef, Ty "RunOptions")) [Arg ByValue (Ty "int") "level"]
      false false []
      [ThrowOnError (Slot_ "RunOptionsSetRunLogVerbosityLevel" [Member_ "p_"; Var "level"]); Return (Some This)] ].

(** Lines 583-728. *)
Definition inline_7 : list func :=
  [ Func "RunOptions" "SetRunLogSeverityLevel" (Some (ByRef, Ty "RunOptions")) [Arg ByValue (Ty "int") "level"]
      false false []
      [ThrowOnError (Slot_ "RunOptionsSetRunLogSeverityLevel" [Member_ "p_"; Var "level"]); Return (Some This)];
    Func "RunOptions" "GetRunLogVerbosityLevel" (Some (ByValue, Ty "int")) [] true false []
      [Decl ByValue (Ty "int") "out" None;
       ThrowOnError (Slot_ "RunOptionsGetRunLogVerbosityLevel" [Member_ "p_"; Addr (Var "out")]);
       Return (Some (Var "out"))];
    Func "RunOptions" "GetRunLogSeverityLevel" (Some (ByValue, Ty "int")) [] true false []
      [Decl ByValue (Ty "int") "out" None;
       ThrowOnError (Slot_ "RunOptionsGetRunLogSeverityLevel" [Member_ "p_"; Addr (Var "out")]);
       Return (Some (Var "out"))];
    Func "RunOptions" "SetRunTag" (Some (ByRef, Ty "RunOptions")) [Arg ByValue (Ptr (Const (Ty "char"))) "run_tag"]
      false false []
      [ThrowOnError (Slot_ "RunOptionsSetRunTag" [Member_ "p_"; Var "run_tag"]); Return (Some This)];
    Func "RunOptions" "GetRunTag" (Some (ByValue, Ptr (Const (Ty "char")))) [] true false []
      [Decl ByValue (Ptr (Const (Ty "char"))) "out" None;
       ThrowOnError (Slot_ "RunOptionsGetRunTag" [Member_ "p_"; Addr (Var "out")]);
       Return (Some (Var "out"))];
    Func "RunOptions" "AddConfigEntry" (Some (ByRef, Ty "RunOptions"))
      [Arg ByValue (Ptr (Const (Ty "char"))) "config_key"; Arg ByValue (Ptr (Const (Ty "char"))) "config_value"]
      false false []
      [ThrowOnError (Slot_ "AddRunConfigEntry" [Member_ "p_"; Var "config_key"; Var "config_value"]);
       Return (Some This)];
    Func "RunOptions" "SetTerminate" (Some (ByRef, Ty "RunOptions")) [] false false []
      [ThrowOnError (Slot_ "RunOptionsSetTerminate" [Member_ "p_"]); Return (Some This)];
    Func "RunOptions" "UnsetTerminate" (Some (ByRef, Ty "RunOptions")) [] false false []
      [ThrowOnError (Slot_ "RunOptionsUnsetTerminate" [Member_ "p_"]); Return (Some This)];
    Func "RunOptions" "AddActiveLoraAdapter" (Some (ByRef, Ty "RunOptions"))
      [Arg ByRef (Const (Ty "LoraAdapter")) "adapter"] false false []
      [ThrowOnError (Slot_ "RunOptionsAddActiveLoraAdapter" [Member_ "p_"; Var "adapter"]); Return (Some This)];
    Func "ConstSessionOptionsImpl" "Clone" (Some (ByValue, Ty "Ort::SessionOptions")) [] true false []
      [Decl ByValue (Ptr (Ty "OrtSessionOptions")) "out" None;
       ThrowOnError (Slot_ "CloneSessionOptions" [Member_ "p_"; Addr (Var "out")]);
       Return (Some (New (Ty "SessionOptions") [Var "out"]))];
    Func "ConstSessionOptionsImpl" "GetConfigEntry" (Some (ByValue, Ty "std::string"))
      [Arg ByValue (Ptr (Const (Ty "char"))) "config_key"] true false []
      [Decl ByValue (Ty "size_t") "size" (Some (Lit "0"));
       ThrowOnError
         (Slot_ "GetSessionConfigEntry" [Member_ "p_"; Var "config_key"; Lit "nullptr"; Addr (Var "size")]);
       Decl ByValue (Ty "std::string") "out" None;
       Expr (Method (Var "out") "resize" [Var "size"]);
       ThrowOnError
         (Slot_ "GetSessionConfigEntry"
            [Member_ "p_"; Var "config_key"; Addr (Index_ (Var "out") (Lit "0")); Addr (Var "size")]);
       Expr (Method (Var "out") "resize" [Op "-" [Var "size"; Lit "1"]]);
       Return (Some (Var "out"))];
    Func "ConstSessionOptionsImpl" "HasConfigEntry" (Some (ByValue, Ty "bool"))
      [Arg ByValue (Ptr (Const (Ty "char"))) "config_key"] true false []
      [Decl ByValue (Ty "int") "out" (Some (Lit "0"));
       ThrowOnError (Slot_ "HasSessionConfigEntry" [Member_ "p_"; Var "config_key"; Addr (Var "out")]);
       Return (Some (Cast (Ty "bool") (Var "out")))];
    Func "ConstSessionOptionsImpl" "GetConfigEntryOrDefault" (Some (ByValue, Ty "std::string"))
      [Arg ByValue (Ptr (Const (Ty "char"))) "config_key"; Arg ByRef (Const (Ty "std::string")) "def"] false false
      []
      [If (Op "!" [Fun "HasConfigEntry" [Var "config_key"]]) [Return (Some (Var "def"))] [];
       Return (Some (Fun "GetConfigEntry" [Var "config_key"]))];
    Func "SessionOptionsImpl" "SetIntraOpNumThreads" (Some (ByRef, Ty "SessionOptionsImpl<T>"))
      [Arg ByValue (Ty "int") "intra_op_num_threads"] false false []
      [ThrowOnError (Slot_ "SetIntraOpNumThreads" [Member_ "p_"; Var "intra_op_num_threads"]); Return (Some This)];
    Func "SessionOptionsImpl" "SetInterOpNumThreads" (Some (ByRef, Ty "SessionOptionsImpl<T>"))
      [Arg ByValue (Ty "int") "inter_op_num_threads"] false false []
      [ThrowOnError (Slot_ "SetInterOpNumThreads" [Member_ "p_"; Var "inter_op_num_threads"]); Return (Some This)];
    Func "SessionOptionsImpl" "SetGraphOptimizationLevel" (Some (ByRef, Ty "SessionOptionsImpl<T>"))
      [Arg ByValue (Ty "GraphOptimizationLevel") "graph_optimization_level"] false false []
      [ThrowOnError (Slot_ "SetSessionGraphOptimizationLevel" [Member_ "p_"; Var "graph_optimization_level"]);
       Return (Some This)];
    Func "SessionOptionsImpl" "SetDeterministicCompute" (Some (ByRef, Ty "SessionOptionsImpl<T>"))
      [Arg ByValue (Ty "bool") "value"] false false []
      [ThrowOnError (Slot_ "SetDeterministicCompute" [Member_ "p_"; Var "value"]); Return (Some This)];
    Func "SessionOptionsImpl" "SetOptimizedModelFilePath" (Some (ByRef, Ty "SessionOptionsImpl<T>"))
      [Arg ByValue (Ptr (Const (Ty "ORTCHAR_T"))) "optimized_model_filepath"] false false []
      [ThrowOnError (Slot_ "SetOptimizedModelFilePath" [Member_ "p_"; Var "optimized_model_filepath"]);
       Return (Some This)];
    Func "SessionOptionsImpl" "EnableProfiling" (Some (ByRef, Ty "SessionOptionsImpl<T>"))
      [Arg ByValue (Ptr (Const (Ty "ORTCHAR_T"))) "profile_file_prefix"] false false []
      [ThrowOnError (Slot_ "EnableProfiling" [Member_ "p_"; Var "profile_file_prefix"]); Return (Some This)];
    Func "SessionOptionsImpl" "DisableProfiling" (Some (ByRef, Ty "SessionOptionsImpl<T>")) [] false false []
      [ThrowOnError (Slot_ "DisableProfiling" [Member_ "p_"]); Return (Some This)];
    Func "SessionOptionsImpl" "EnableOrtCustomOps" (Some (ByRef, Ty "SessionOptionsImpl<T>")) [] false false []
      [ThrowOnError (Slot_ "EnableOrtCustomOps" [Member_ "p_"]); Return (Some This)];
    Func "SessionOptionsImpl" "EnableMemPattern" (Some (ByRef, Ty "SessionOptionsImpl<T>")) [] false false []
      [ThrowOnError (Slot_ "EnableMemPattern" [Member_ "p_"]); Return (Some This)];
    Func "SessionOptionsImpl" "DisableMemPattern" (Some (ByRef, Ty "SessionOptionsImpl<T>")) [] false false []
      [ThrowOnError (Slot_ "DisableMemPattern" [Member_ "p_"]); Return (Some This)] ].

(** Lines 730-870. *)
Definition inline_8 : list func :=
  [ Func "SessionOptionsImpl" "EnableCpuMemArena" (Some (ByRef, Ty "SessionOptionsImpl<T>")) [] false false []
      [ThrowOnError (Slot_ "EnableCpuMemArena" [Member_ "p_"]); Return (Some This)];
    Func "SessionOptionsImpl" "DisableCpuMemArena" (Some (ByRef, Ty "SessionOptionsImpl<T>")) [] false false []
      [ThrowOnError (Slot_ "DisableCpuMemArena" [Member_ "p_"]); Return (Some This)];
    Func "SessionOptionsImpl" "SetExecutionMode" (Some (ByRef, Ty "SessionOptionsImpl<T>"))
      [Arg ByValue (Ty "ExecutionMode") "execution_mode"] false false []
      [ThrowOnError (Slot_ "SetSessionExecutionMode" [Member_ "p_"; Var "execution_mode"]); Return (Some This)];
    Func "SessionOptionsImpl" "SetLogId" (Some (ByRef, Ty "SessionOptionsImpl<T>"))
      [Arg ByValue (Ptr (Const (Ty "char"))) "logid"] false false []
      [ThrowOnError (Slot_ "SetSessionLogId" [Member_ "p_"; Var "logid"]); Return (Some This)];
    Func "SessionOptionsImpl" "SetLogSeverityLevel" (Some (ByRef, Ty "SessionOptionsImpl<T>"))
      [Arg ByValue (Ty "int") "level"] false false []
      [ThrowOnError (Slot_ "SetSessionLogSeverityLevel" [Member_ "p_"; Var "level"]); Return (Some This)];
    Func "SessionOptionsImpl" "Add" (Some (ByRef, Ty "SessionOptionsImpl<T>"))
      [Arg ByValue (Ptr (Ty "OrtCustomOpDomain")) "custom_op_domain"] false false []
      [ThrowOnError (Slot_ "AddCustomOpDomain" [Member_ "p_"; Var "custom_op_domain"]); Return (Some This)];
    Func "SessionOptionsImpl" "AddConfigEntry" (Some (ByRef, Ty "SessionOptionsImpl<T>"))
      [Arg ByValue (Ptr (Const (Ty "char"))) "config_key"; Arg ByValue (Ptr (Const (Ty "char"))) "config_value"]
      false false []
      [ThrowOnError (Slot_ "AddSessionConfigEntry" [Member_ "p_"; Var "config_key"; Var "config_value"]);
       Return (Some This)];
    Func "SessionOptionsImpl" "AddInitializer" (Some (ByRef, Ty "SessionOptionsImpl<T>"))
      [Arg ByValue (Ptr (Const (Ty "char"))) "name"; Arg ByValue (Ptr (Const (Ty "OrtValue"))) "ort_val"] false
      false []
      [ThrowOnError (Slot_ "AddInitializer" [Member_ "p_"; Var "name"; Var "ort_val"]); Return (Some This)];
    Func "SessionOptionsImpl" "DisablePerSessionThreads" (Some (ByRef, Ty "SessionOptionsImpl<T>")) [] false false
      [] [ThrowOnError (Slot_ "DisablePerSessionThreads" [Member_ "p_"]); Return (Some This)];
    Func "SessionOptionsImpl" "AddExternalInitializers" (Some (ByRef, Ty "SessionOptionsImpl<T>"))
      [Arg ByRef (Const (Ty "std::vector<std::string>")) "names";
       Arg ByRef (Const (Ty "std::vector<Value>")) "ort_values"] false false []
      [Decl ByValue (Const (Ty "size_t")) "inputs_num" (Some (Method (Var "names") "size" []));
       If (Op "!=" [Var "inputs_num"; Method (Var "ort_values") "size" []])
         [Throw [Str "Expecting names and ort_values to have the same length"; Name "ORT_INVALID_ARGUMENT"]] [];
       Decl ByValue (Ty "std::vector<const char*>") "names_ptr" None;
       Decl ByValue (Ty "std::vector<const OrtValue*>") "ort_values_ptrs" None;
       Expr (Method (Var "names_ptr") "reserve" [Var "inputs_num"]);
       Expr (Method (Var "ort_values_ptrs") "reserve" [Var "inputs_num"]);
       For [Decl ByValue (Ty "size_t") "i" (Some (Lit "0"))] (Op "<" [Var "i"; Var "inputs_num"])
         (Op "++" [Var "i"])
         [Expr (Method (Var "names_ptr") "push_back" [Method (Index_ (Var "names") (Var "i")) "c_str" []]);
          Expr (Method (Var "ort_values_ptrs") "push_back" [Index_ (Var "ort_values") (Var "i")])];
       ThrowOnError
         (Slot_ "AddExternalInitializers"
            [Member_ "p_";
             Method (Var "names_ptr") "data" [];
             Method (Var "ort_values_ptrs") "data" [];
             Var "inputs_num"]);
       Return (Some This)];
    Func "SessionOptionsImpl" "AddExternalInitializersFromFilesInMemory" (Some (ByRef, Ty "SessionOptionsImpl<T>"))
      [Arg ByRef (Const (Ty "std::vector<std::basic_string<ORTCHAR_T>>")) "file_names";
       Arg ByRef (Const (Ty "std::vector<char*>")) "buffer_array";
       Arg ByRef (Const (Ty "std::vector<size_t>")) "file_lengths"] false false []
      [Decl ByValue (Const (Ty "size_t")) "inputs_num" (Some (Method (Var "file_names") "size" []));
       If (Op "!=" [Var "inputs_num"; Method (Var "buffer_array") "size" []])
         [Throw [Str "Expecting names and buffer_array to have the same length"; Name "ORT_INVALID_ARGUMENT"]] [];
       If (Op "!=" [Var "inputs_num"; Method (Var "file_lengths") "size" []])
         [Throw [Str "Expecting names and file_lengths to have the same length"; Name "ORT_INVALID_ARGUMENT"]] [];
       Decl ByValue (Ty "std::vector<const ORTCHAR_T*>") "names_ptr" None;
       Expr (Method (Var "names_ptr") "reserve" [Var "inputs_num"]);
       For [Decl ByValue (Ty "size_t") "i" (Some (Lit "0"))] (Op "<" [Var "i"; Var "inputs_num"])
         (Op "++" [Var "i"])
         [Expr (Method (Var "names_ptr") "push_back" [Method (Index_ (Var "file_names") (Var "i")) "c_str" []])];
       ThrowOnError
         (Slot_ "AddExternalInitializersFromFilesInMemory"
            [Member_ "p_";
             Method (Var "names_ptr") "data" [];
             Method (Var "buffer_array") "data" [];
             Method (Var "file_lengths") "data" [];
             Var "inputs_num"]);
       Return (Some This)];
    Func "SessionOptionsImpl" "AppendExecutionProvider_CUDA" (Some (ByRef, Ty "SessionOptionsImpl<T>"))
      [Arg ByRef (Const (Ty "OrtCUDAProviderOptions")) "provider_options"] false false []
      [ThrowOnError
         (Slot_ "SessionOptionsAppendExecutionProvider_CUDA" [Member_ "p_"; Addr (Var "provider_options")]);
       Return (Some This)];
    Func "SessionOptionsImpl" "AppendExecutionProvider_CUDA_V2" (Some (ByRef, Ty "SessionOptionsImpl<T>"))
      [Arg ByRef (Const (Ty "OrtCUDAProviderOptionsV2")) "provider_options"] false false []
      [ThrowOnError
         (Slot_ "SessionOptionsAppendExecutionProvider_CUDA_V2" [Member_ "p_"; Addr (Var "provider_options")]);
       Return (Some This)];
    Func "SessionOptionsImpl" "AppendExecutionProvider_ROCM" (Some (ByRef, Ty "SessionOptionsImpl<T>"))
      [Arg ByRef (Const (Ty "OrtROCMProviderOptions")) "provider_options"] false false []
      [ThrowOnError
         (Slot_ "SessionOptionsAppendExecutionProvider_ROCM" [Member_ "p_"; Addr (Var "provider_options")]);
       Return (Some This)];
    Func "SessionOptionsImpl" "AppendExecutionProvider_TensorRT" (Some (ByRef, Ty "SessionOptionsImpl<T>"))
      [Arg ByRef (Const (Ty "OrtTensorRTProviderOptions")) "provider_options"] false false []
      [ThrowOnError
         (Slot_ "SessionOptionsAppendExecutionProvider_TensorRT" [Member_ "p_"; Addr (Var "provider_options")]);
       Return (Some This)];
    Func "SessionOptionsImpl" "AppendExecutionProvider_TensorRT_V2" (Some (ByRef, Ty "SessionOptionsImpl<T>"))
      [Arg ByRef (Const (Ty "OrtTensorRTProviderOptionsV2")) "provider_options"] false false []
      [ThrowOnError
         (Slot_ "SessionOptionsAppendExecutionProvider_TensorRT_V2" [Member_ "p_"; Addr (Var "provider_options")]);
       Return (Some This)];
    Func "SessionOptionsImpl" "AppendExecutionProvider_MIGraphX" (Some (ByRef, Ty "SessionOptionsImpl<T>"))
      [Arg ByRef (Const (Ty "OrtMIGraphXProviderOptions")) "provider_options"] false false []
      [ThrowOnError
         (Slot_ "SessionOptionsAppendExecutionProvider_MIGraphX" [Member_ "p_"; Addr (Var "provider_options")]);
       Return (Some This)];
    Func "SessionOptionsImpl" "AppendExecutionProvider_CANN" (Some (ByRef, Ty "SessionOptionsImpl<T>"))
      [Arg ByRef (Const (Ty "OrtCANNProviderOptions")) "provider_options"] false false []
      [ThrowOnError
         (Slot_ "SessionOptionsAppendExecutionProvider_CANN" [Member_ "p_"; Addr (Var "provider_options")]);
       Return (Some This)];
    Func "SessionOptionsImpl" "AppendExecutionProvider_Dnnl" (Some (ByRef, Ty "SessionOptionsImpl<T>"))
      [Arg ByRef (Const (Ty "OrtDnnlProviderOptions")) "provider_options"] false false []
      [ThrowOnError
         (Slot_ "SessionOptionsAppendExecutionProvider_Dnnl" [Member_ "p_"; Addr (Var "provider_options")]);
       Return (Some This)] ].

(** Lines 872-1017. *)
Definition inline_9 : list func :=
  [ Func "SessionOptionsImpl" "AppendExecutionProvider" (Some (ByRef, Ty "SessionOptionsImpl<T>"))
      [Arg ByRef (Const (Ty "std::string")) "provider_name";
       Arg ByRef (Const (Ty "std::unordered_map<std::string, std::string>")) "provider_options"] false false []
      [Decl ByValue (Ty "auto") "num_entries" (Some (Method (Var "provider_options") "size" []));
       Decl ByValue (Ty "std::vector<const char*>") "keys" None;
       Decl ByValue (Ty "std::vector<const char*>") "values" None;
       If (Op ">" [Var "num_entries"; Lit "0"])
         [Expr (Method (Var "keys") "reserve" [Var "num_entries"]);
          Expr (Method (Var "values") "reserve" [Var "num_entries"]);
          ForEach ByRef (Const (Ty "auto")) "entry" (Var "provider_options")
            [Expr (Method (Var "keys") "push_back" [Method (Dot (Var "entry") "first") "c_str" []]);
             Expr (Method (Var "values") "push_back" [Method (Dot (Var "entry") "second") "c_str" []])]] [];
       ThrowOnError
         (Slot_ "SessionOptionsAppendExecutionProvider"
            [Member_ "p_";
             Method (Var "provider_name") "c_str" [];
             Method (Var "keys") "data" [];
             Method (Var "values") "data" [];
             Var "num_entries"]);
       Return (Some This)];
    Func "SessionOptionsImpl" "SetCustomCreateThreadFn" (Some (ByRef, Ty "SessionOptionsImpl<T>"))
      [Arg ByValue (Ty "OrtCustomCreateThreadFn") "ort_custom_create_thread_fn"] false false []
      [ThrowOnError
         (Slot_ "SessionOptionsSetCustomCreateThreadFn" [Member_ "p_"; Var "ort_custom_create_thread_fn"]);
       Return (Some This)];
    Func "SessionOptionsImpl" "SetCustomThreadCreationOptions" (Some (ByRef, Ty "SessionOptionsImpl<T>"))
      [Arg ByValue (Ptr (Ty "void")) "ort_custom_thread_creation_options"] false false []
      [ThrowOnError
         (Slot_ "SessionOptionsSetCustomThreadCreationOptions"
            [Member_ "p_"; Var "ort_custom_thread_creation_options"]);
       Return (Some This)];
    Func "SessionOptionsImpl" "SetCustomJoinThreadFn" (Some (ByRef, Ty "SessionOptionsImpl<T>"))
      [Arg ByValue (Ty "OrtCustomJoinThreadFn") "ort_custom_join_thread_fn"] false false []
      [ThrowOnError (Slot_ "SessionOptionsSetCustomJoinThreadFn" [Member_ "p_"; Var "ort_custom_join_thread_fn"]);
       Return (Some This)];
    Func "SessionOptionsImpl" "AppendExecutionProvider_OpenVINO" (Some (ByRef, Ty "SessionOptionsImpl<T>"))
      [Arg ByRef (Const (Ty "OrtOpenVINOProviderOptions")) "provider_options"] false false []
      [ThrowOnError
         (Slot_ "SessionOptionsAppendExecutionProvider_OpenVINO" [Member_ "p_"; Addr (Var "provider_options")]);
       Return (Some This)];
    Func "SessionOptionsImpl" "AppendExecutionProvider_OpenVINO_V2" (Some (ByRef, Ty "SessionOptionsImpl<T>"))
      [Arg ByRef (Const (Ty "std::unordered_map<std::string, std::string>")) "provider_options"] false false []
      [Decl ByValue (Ty "auto") "num_entries" (Some (Method (Var "provider_options") "size" []));
       Decl ByValue (Ty "std::vector<const char*>") "keys" None;
       Decl ByValue (Ty "std::vector<const char*>") "values" None;
       If (Op ">" [Var "num_entries"; Lit "0"])
         [Expr (Method (Var "keys") "reserve" [Var "num_entries"]);
          Expr (Method (Var "values") "reserve" [Var "num_entries"]);
          ForEach ByRef (Const (Ty "auto")) "entry" (Var "provider_options")
            [Expr (Method (Var "keys") "push_back" [Method (Dot (Var "entry") "first") "c_str" []]);
             Expr (Method (Var "values") "push_back" [Method (Dot (Var "entry") "second") "c_str" []])]] [];
       ThrowOnError
         (Slot_ "SessionOptionsAppendExecutionProvider_OpenVINO_V2"
            [Member_ "p_"; Method (Var "keys") "data" []; Method (Var "values") "data" []; Var "num_entries"]);
       Return (Some This)];
    Func "SessionOptionsImpl" "AppendExecutionProvider_VitisAI" (Some (ByRef, Ty "SessionOptionsImpl<T>"))
      [Arg ByRef (Const (Ty "std::unordered_map<std::string, std::string>")) "provider_options"] false false []
      [Decl ByValue (Ty "auto") "num_entries" (Some (Method (Var "provider_options") "size" []));
       Decl ByValue (Ty "std::vector<const char*>") "keys" None;
       Decl ByValue (Ty "std::vector<const char*>") "values" None;
       If (Op ">" [Var "num_entries"; Lit "0"])
         [Expr (Method (Var "keys") "reserve" [Var "num_entries"]);
          Expr (Method (Var "values") "reserve" [Var "num_entries"]);
          ForEach ByRef (Const (Ty "auto")) "entry" (Var "provider_options")
            [Expr (Method (Var "keys") "push_back" [Method (Dot (Var "entry") "first") "c_str" []]);
             Expr (Method (Var "values") "push_back" [Method (Dot (Var "entry") "second") "c_str" []])]] [];
       ThrowOnError
         (Slot_ "SessionOptionsAppendExecutionProvider_VitisAI"
            [Member_ "p_"; Method (Var "keys") "data" []; Method (Var "values") "data" []; Var "num_entries"]);
       Return (Some This)];
    Func "SessionOptionsImpl" "RegisterCustomOpsLibrary" (Some (ByRef, Ty "SessionOptionsImpl<T>"))
      [Arg ByValue (Ptr (Const (Ty "ORTCHAR_T"))) "library_name";
       Arg ByRef (Const (Ty "CustomOpConfigs")) "custom_op_configs"] false false []
      [ForEach ByRef (Const (Ty "auto")) "config_iter" (Method (Var "custom_op_configs") "GetFlattenedConfigs" [])
         [Expr
            (Fun "AddConfigEntry"
               [Method (Dot (Var "config_iter") "first") "c_str" [];
                Method (Dot (Var "config_iter") "second") "c_str" []])];
       ThrowOnError (Slot_ "RegisterCustomOpsLibrary_V2" [Member_ "p_"; Var "library_name"]);
       Return (Some This)];
    Func "SessionOptionsImpl" "RegisterCustomOpsUsingFunction" (Some (ByRef, Ty "SessionOptionsImpl<T>"))
      [Arg ByValue (Ptr (Const (Ty "char"))) "registration_function_name"] false false []
      [ThrowOnError (Slot_ "RegisterCustomOpsUsingFunction" [Member_ "p_"; Var "registration_function_name"]);
       Return (Some This)];
    Func "ConstSessionImpl" "GetInputCount" (Some (ByValue, Ty "size_t")) [] true false []
      [Decl ByValue (Ty "size_t") "out" None;
       ThrowOnError (Slot_ "SessionGetInputCount" [Member_ "p_"; Addr (Var "out")]);
       Return (Some (Var "out"))];
    Func "ConstSessionImpl" "GetOutputCount" (Some (ByValue, Ty "size_t")) [] true false []
      [Decl ByValue (Ty "size_t") "out" None;
       ThrowOnError (Slot_ "SessionGetOutputCount" [Member_ "p_"; Addr (Var "out")]);
       Return (Some (Var "out"))];
    Func "ConstSessionImpl" "GetOverridableInitializerCount" (Some (ByValue, Ty "size_t")) [] true false []
      [Decl ByValue (Ty "size_t") "out" None;
       ThrowOnError (Slot_ "SessionGetOverridableInitializerCount" [Member_ "p_"; Addr (Var "out")]);
       Return (Some (Var "out"))];
    Func "ConstSessionImpl" "GetInputNameAllocated" (Some (ByValue, Ty "AllocatedStringPtr"))
      [Arg ByValue (Ty "size_t") "index"; Arg ByValue (Ptr (Ty "OrtAllocator")) "allocator"] true false []
      [Decl ByValue (Ptr (Ty "char")) "out" None;
       ThrowOnError (Slot_ "SessionGetInputName" [Member_ "p_"; Var "index"; Var "allocator"; Addr (Var "out")]);
       Return
         (Some (New (Ty "AllocatedStringPtr") [Var "out"; New (Ty "detail::AllocatedFree") [Var "allocator"]]))];
    Func "ConstSessionImpl" "GetOutputNameAllocated" (Some (ByValue, Ty "AllocatedStringPtr"))
      [Arg ByValue (Ty "size_t") "index"; Arg ByValue (Ptr (Ty "OrtAllocator")) "allocator"] true false []
      [Decl ByValue (Ptr (Ty "char")) "out" None;
       ThrowOnError (Slot_ "SessionGetOutputName" [Member_ "p_"; Var "index"; Var "allocator"; Addr (Var "out")]);
       Return
         (Some (New (Ty "AllocatedStringPtr") [Var "out"; New (Ty "detail::AllocatedFree") [Var "allocator"]]))];
    Func "ConstSessionImpl" "GetOverridableInitializerNameAllocated" (Some (ByValue, Ty "AllocatedStringPtr"))
      [Arg ByValue (Ty "size_t") "index"; Arg ByValue (Ptr (Ty "OrtAllocator")) "allocator"] true false []
      [Decl ByValue (Ptr (Ty "char")) "out" None;
       ThrowOnError
         (Slot_ "SessionGetOverridableInitializerName"
            [Member_ "p_"; Var "index"; Var "allocator"; Addr (Var "out")]);
       Return
         (Some (New (Ty "AllocatedStringPtr") [Var "out"; New (Ty "detail::AllocatedFree") [Var "allocator"]]))] ].

(** Lines 1019-1163. *)
Definition inline_10 : list func :=
  [ Func "ConstSessionImpl" "GetProfilingStartTimeNs" (Some (ByValue, Ty "uint64_t")) [] true false []
      [Decl ByValue (Ty "uint64_t") "out" None;
       ThrowOnError (Slot_ "SessionGetProfilingStartTimeNs" [Member_ "p_"; Addr (Var "out")]);
       Return (Some (Var "out"))];
    Func "ConstSessionImpl" "GetModelMetadata" (Some (ByValue, Ty "ModelMetadata")) [] true false []
      [Decl ByValue (Ptr (Ty "OrtModelMetadata")) "out" None;
       ThrowOnError (Slot_ "SessionGetModelMetadata" [Member_ "p_"; Addr (Var "out")]);
       Return (Some (New (Ty "ModelMetadata") [Var "out"]))];
    Func "ConstSessionImpl" "GetInputTypeInfo" (Some (ByValue, Ty "TypeInfo")) [Arg ByValue (Ty "size_t") "index"]
      true false []
      [Decl ByValue (Ptr (Ty "OrtTypeInfo")) "out" None;
       ThrowOnError (Slot_ "SessionGetInputTypeInfo" [Member_ "p_"; Var "index"; Addr (Var "out")]);
       Return (Some (New (Ty "TypeInfo") [Var "out"]))];
    Func "ConstSessionImpl" "GetOutputTypeInfo" (Some (ByValue, Ty "TypeInfo")) [Arg ByValue (Ty "size_t") "index"]
      true false []
      [Decl ByValue (Ptr (Ty "OrtTypeInfo")) "out" None;
       ThrowOnError (Slot_ "SessionGetOutputTypeInfo" [Member_ "p_"; Var "index"; Addr (Var "out")]);
       Return (Some (New (Ty "TypeInfo") [Var "out"]))];
    Func "ConstSessionImpl" "GetOverridableInitializerTypeInfo" (Some (ByValue, Ty "TypeInfo"))
      [Arg ByValue (Ty "size_t") "index"] true false []
      [Decl ByValue (Ptr (Ty "OrtTypeInfo")) "out" None;
       ThrowOnError
         (Slot_ "SessionGetOverridableInitializerTypeInfo" [Member_ "p_"; Var "index"; Addr (Var "out")]);
       Return (Some (New (Ty "TypeInfo") [Var "out"]))];
    Func "SessionImpl" "Run" (Some (ByValue, Ty "std::vector<Value>"))
      [Arg ByRef (Const (Ty "RunOptions")) "run_options";
       Arg ByValue (Ptr (Const (Ptr (Const (Ty "char"))))) "input_names";
       Arg ByValue (Ptr (Const (Ty "Value"))) "input_values";
       Arg ByValue (Ty "size_t") "input_count";
       Arg ByValue (Ptr (Const (Ptr (Const (Ty "char"))))) "output_names";
       Arg ByValue (Ty "size_t") "output_count"] false false []
      [Decl ByValue (Ty "std::vector<Value>") "output_values" None;
       Expr (Method (Var "output_values") "reserve" [Var "output_count"]);
       For [Decl ByValue (Ty "size_t") "i" (Some (Lit "0"))] (Op "<" [Var "i"; Var "output_count"])
         (Op "post++" [Var "i"]) [Expr (Method (Var "output_values") "emplace_back" [Lit "nullptr"])];
       Expr
         (Fun "Run"
            [Var "run_options";
             Var "input_names";
             Var "input_values";
             Var "input_count";
             Var "output_names";
             Method (Var "output_values") "data" [];
             Var "output_count"]);
       Return (Some (Var "output_values"))];
    Func "SessionImpl" "Run" (Some (ByValue, Ty "void"))
      [Arg ByRef (Const (Ty "RunOptions")) "run_options";
       Arg ByValue (Ptr (Const (Ptr (Const (Ty "char"))))) "input_names";
       Arg ByValue (Ptr (Const (Ty "Value"))) "input_values";
       Arg ByValue (Ty "size_t") "input_count";
       Arg ByValue (Ptr (Const (Ptr (Const (Ty "char"))))) "output_names";
       Arg ByValue (Ptr (Ty "Value")) "output_values";
       Arg ByValue (Ty "size_t") "output_count"] false false []
      [Decl ByValue (Ty "auto") "ort_input_values"
         (Some (Cast (Ptr (Const (Ptr (Const (Ty "OrtValue"))))) (Var "input_values")));
       Decl ByValue (Ty "auto") "ort_output_values" (Some (Cast (Ptr (Ptr (Ty "OrtValue"))) (Var "output_values")));
       ThrowOnError
         (Slot_ "Run"
            [Member_ "p_";
             Var "run_options";
             Var "input_names";
             Var "ort_input_values";
             Var "input_count";
             Var "output_names";
             Var "output_count";
             Var "ort_output_values"])];
    Func "SessionImpl" "Run" (Some (ByValue, Ty "void"))
      [Arg ByRef (Const (Ty "RunOptions")) "run_options"; Arg ByRef (Const (Ty "IoBinding")) "io_binding"] false
      false [] [ThrowOnError (Slot_ "RunWithBinding" [Member_ "p_"; Var "run_options"; Var "io_binding"])];
    Func "SessionImpl" "RunAsync" (Some (ByValue, Ty "void"))
      [Arg ByRef (Const (Ty "RunOptions")) "run_options";
       Arg ByValue (Ptr (Const (Ptr (Const (Ty "char"))))) "input_names";
       Arg ByValue (Ptr (Const (Ty "Value"))) "input_values";
       Arg ByValue (Ty "size_t") "input_count";
       Arg ByValue (Ptr (Const (Ptr (Const (Ty "char"))))) "output_names";
       Arg ByValue (Ptr (Ty "Value")) "output_values";
       Arg ByValue (Ty "size_t") "output_count";
       Arg ByValue (Ty "RunAsyncCallbackFn") "callback";
       Arg ByValue (Ptr (Ty "void")) "user_data"] false false []
      [Decl ByValue (Ty "auto") "ort_input_values"
         (Some (Cast (Ptr (Const (Ptr (Const (Ty "OrtValue"))))) (Var "input_values")));
       Decl ByValue (Ty "auto") "ort_output_values" (Some (Cast (Ptr (Ptr (Ty "OrtValue"))) (Var "output_values")));
       ThrowOnError
         (Slot_ "RunAsync"
            [Member_ "p_";
             Var "run_options";
             Var "input_names";
             Var "ort_input_values";
             Var "input_count";
             Var "output_names";
             Var "output_count";
             Var "ort_output_values";
             Var "callback";
             Var "user_data"])];
    Func "SessionImpl" "EndProfilingAllocated" (Some (ByValue, Ty "AllocatedStringPtr"))
      [Arg ByValue (Ptr (Ty "OrtAllocator")) "allocator"] false false []
      [Decl ByValue (Ptr (Ty "char")) "out" (Some (Lit "nullptr"));
       ThrowOnError (Slot_ "SessionEndProfiling" [Member_ "p_"; Var "allocator"; Addr (Var "out")]);
       Return
         (Some (New (Ty "AllocatedStringPtr") [Var "out"; New (Ty "detail::AllocatedFree") [Var "allocator"]]))];
    Func "SessionImpl" "SetEpDynamicOptions" (Some (ByValue, Ty "void"))
      [Arg ByValue (Ptr (Const (Ptr (Const (Ty "char"))))) "keys";
       Arg ByValue (Ptr (Const (Ptr (Const (Ty "char"))))) "values";
       Arg ByValue (Ty "size_t") "kv_len"] false false []
      [ThrowOnError (Slot_ "SetEpDynamicOptions" [Member_ "p_"; Var "keys"; Var "values"; Var "kv_len"])];
    Func "SessionOptions" "SessionOptions" None [] false false []
      [ThrowOnError (Slot_ "CreateSessionOptions" [Addr (Member_ "p_")])];
    Func "" "MakeCustomOpConfigEntryKey" (Some (ByValue, Ty "std::string"))
      [Arg ByValue (Ptr (Const (Ty "char"))) "custom_op_name"; Arg ByValue (Ptr (Const (Ty "char"))) "config"] false
      false []
      [Decl ByValue (Ty "std::string") "config_key" (Some (Str "custom_op."));
       Assign "+=" (Var "config_key") (Var "custom_op_name");
       Assign "+=" (Var "config_key") (Str ".");
       Assign "+=" (Var "config_key") (Var "config");
       Return (Some (Var "config_key"))];
    Func "CustomOpConfigs" "AddConfig" (Some (ByRef, Ty "CustomOpConfigs"))
      [Arg ByValue (Ptr (Const (Ty "char"))) "custom_op_name";
       Arg ByValue (Ptr (Const (Ty "char"))) "config_key";
       Arg ByValue (Ptr (Const (Ty "char"))) "config_value"] false false []
      [Decl ByValue (Const (Ty "std::string")) "full_flat_key"
         (Some (Fun "detail::MakeCustomOpConfigEntryKey" [Var "custom_op_name"; Var "config_key"]));
       Assign "=" (Index_ (Member_ "flat_configs_") (Var "full_flat_key")) (Var "config_value");
       Return (Some This)];
    Func "CustomOpConfigs" "GetFlattenedConfigs"
      (Some (ByRef, Const (Ty "std::unordered_map<std::string, std::string>"))) [] true false []
      [Return (Some (Member_ "flat_configs_"))];
    Func "Session" "Session" None
      [Arg ByRef (Const (Ty "Env")) "env";
       Arg ByValue (Ptr (Const (Ty "ORTCHAR_T"))) "model_path";
       Arg ByRef (Const (Ty "SessionOptions")) "options"] false false []
      [ThrowOnError (Slot_ "CreateSession" [Var "env"; Var "model_path"; Var "options"; Addr (Member_ "p_")])];
    Func "Session" "Session" None
      [Arg ByRef (Const (Ty "Env")) "env";
       Arg ByValue (Ptr (Const (Ty "ORTCHAR_T"))) "model_path";
       Arg ByRef (Const (Ty "SessionOptions")) "options";
       Arg ByValue (Ptr (Ty "OrtPrepackedWeightsContainer")) "prepacked_weights_container"] false false []
      [ThrowOnError
         (Slot_ "CreateSessionWithPrepackedWeightsContainer"
            [Var "env"; Var "model_path"; Var "options"; Var "prepacked_weights_container"; Addr (Member_ "p_")])];
    Func "Session" "Session" None
      [Arg ByRef (Const (Ty "Env")) "env";
       Arg ByValue (Ptr (Const (Ty "void"))) "model_data";
       Arg ByValue (Ty "size_t") "model_data_length";
       Arg ByRef (Const (Ty "SessionOptions")) "options"] false false []
      [ThrowOnError
         (Slot_ "CreateSessionFromArray"
            [Var "env"; Var "model_data"; Var "model_data_length"; Var "options"; Addr (Member_ "p_")])];
    Func "Session" "Session" None
      [Arg ByRef (Const (Ty "Env")) "env";
       Arg ByValue (Ptr (Const (Ty "void"))) "model_data";
       Arg ByValue (Ty "size_t") "model_data_length";
       Arg ByRef (Const (Ty "SessionOptions")) "options";
       Arg ByValue (Ptr (Ty "OrtPrepackedWeightsContainer")) "prepacked_weights_container"] false false []
      [ThrowOnError
         (Slot_ "CreateSessionFromArrayWithPrepackedWeightsContainer"
            [Var "env";
             Var "model_data";
             Var "model_data_length";
             Var "options";
             Var "prepacked_weights_container";
             Addr (Member_ "p_")])];
    Func "ModelMetadata" "GetProducerNameAllocated" (Some (ByValue, Ty "AllocatedStringPtr"))
      [Arg ByValue (Ptr (Ty "OrtAllocator")) "allocator"] true false []
      [Decl ByValue (Ptr (Ty "char")) "out" None;
       ThrowOnError (Slot_ "ModelMetadataGetProducerName" [Member_ "p_"; Var "allocator"; Addr (Var "out")]);
       Return
         (Some (New (Ty "AllocatedStringPtr") [Var "out"; New (Ty "detail::AllocatedFree") [Var "allocator"]]))];
    Func "ModelMetadata" "GetGraphNameAllocated" (Some (ByValue, Ty "AllocatedStringPtr"))
      [Arg ByValue (Ptr (Ty "OrtAllocator")) "allocator"] true false []
      [Decl ByValue (Ptr (Ty "char")) "out" None;
       ThrowOnError (Slot_ "ModelMetadataGetGraphName" [Member_ "p_"; Var "allocator"; Addr (Var "out")]);
       Return
         (Some (New (Ty "AllocatedStringPtr") [Var "out"; New (Ty "detail::AllocatedFree") [Var "allocator"]]))];
    Func "ModelMetadata" "GetDomainAllocated" (Some (ByValue, Ty "AllocatedStringPtr"))
      [Arg ByValue (Ptr (Ty "OrtAllocator")) "allocator"] true false []
      [Decl ByValue (Ptr (Ty "char")) "out" None;
       ThrowOnError (Slot_ "ModelMetadataGetDomain" [Member_ "p_"; Var "allocator"; Addr (Var "out")]);
       Return
         (Some (New (Ty "AllocatedStringPtr") [Var "out"; New (Ty "detail::AllocatedFree") [Var "allocator"]]))] ].

(** Lines 1165-1181. *)
Definition inline_11 : list func :=
  [ Func "ModelMetadata" "GetDescriptionAllocated" (Some (ByValue, Ty "AllocatedStringPtr"))
      [Arg ByValue (Ptr (Ty "OrtAllocator")) "allocator"] true false []
      [Decl ByValue (Ptr (Ty "char")) "out" None;
       ThrowOnError (Slot_ "ModelMetadataGetDescription" [Member_ "p_"; Var "allocator"; Addr (Var "out")]);
       Return
         (Some (New (Ty "AllocatedStringPtr") [Var "out"; New (Ty "detail::AllocatedFree") [Var "allocator"]]))];
    Func "ModelMetadata" "GetGraphDescriptionAllocated" (Some (ByValue, Ty "AllocatedStringPtr"))
      [Arg ByValue (Ptr (Ty "OrtAllocator")) "allocator"] true false []
      [Decl ByValue (Ptr (Ty "char")) "out" None;
       ThrowOnError (Slot_ "ModelMetadataGetGraphDescription" [Member_ "p_"; Var "allocator"; Addr (Var "out")]);
       Return
         (Some (New (Ty "AllocatedStringPtr") [Var "out"; New (Ty "detail::AllocatedFree") [Var "allocator"]]))];
    Func "ModelMetadata" "LookupCustomMetadataMapAllocated" (Some (ByValue, Ty "AllocatedStringPtr"))
      [Arg ByValue (Ptr (Const (Ty "char"))) "key"; Arg ByValue (Ptr (Ty "OrtAllocator")) "allocator"] true false []
      [Decl ByValue (Ptr (Ty "char")) "out" None;
       ThrowOnError
         (Slot_ "ModelMetadataLookupCustomMetadataMap"
            [Member_ "p_"; Var "allocator"; Var "key"; Addr (Var "out")]);
       Return
         (Some (New (Ty "AllocatedStringPtr") [Var "out"; New (Ty "detail::AllocatedFree") [Var "allocator"]]))] ].

(** Lines 1208-1353. *)
Definition inline_12 : list func :=
  [ Func "ModelMetadata" "GetVersion" (Some (ByValue, Ty "int64_t")) [] true false []
      [Decl ByValue (Ty "int64_t") "out" None;
       ThrowOnError (Slot_ "ModelMetadataGetVersion" [Member_ "p_"; Addr (Var "out")]);
       Return (Some (Var "out"))];
    Func "TensorTypeAndShapeInfoImpl" "GetElementType" (Some (ByValue, Ty "ONNXTensorElementDataType")) [] true
      false []
      [Decl ByValue (Ty "ONNXTensorElementDataType") "out" None;
       ThrowOnError (Slot_ "GetTensorElementType" [Member_ "p_"; Addr (Var "out")]);
       Return (Some (Var "out"))];
    Func "TensorTypeAndShapeInfoImpl" "GetElementCount" (Some (ByValue, Ty "size_t")) [] true false []
      [Decl ByValue (Ty "size_t") "out" None;
       ThrowOnError (Slot_ "GetTensorShapeElementCount" [Member_ "p_"; Addr (Var "out")]);
       Return (Some (Cast (Ty "size_t") (Var "out")))];
    Func "TensorTypeAndShapeInfoImpl" "GetDimensionsCount" (Some (ByValue, Ty "size_t")) [] true false []
      [Decl ByValue (Ty "size_t") "out" None;
       ThrowOnError (Slot_ "GetDimensionsCount" [Member_ "p_"; Addr (Var "out")]);
       Return (Some (Var "out"))];
    Func "TensorTypeAndShapeInfoImpl" "GetDimensions" (Some (ByValue, Ty "void"))
      [Arg ByValue (Ptr (Ty "int64_t")) "values"; Arg ByValue (Ty "size_t") "values_count"] true false []
      [ThrowOnError (Slot_ "GetDimensions" [Member_ "p_"; Var "values"; Var "values_count"])];
    Func "TensorTypeAndShapeInfoImpl" "GetSymbolicDimensions" (Some (ByValue, Ty "void"))
      [Arg ByValue (Ptr (Ptr (Const (Ty "char")))) "values"; Arg ByValue (Ty "size_t") "values_count"] true false []
      [ThrowOnError (Slot_ "GetSymbolicDimensions" [Member_ "p_"; Var "values"; Var "values_count"])];
    Func "TensorTypeAndShapeInfoImpl" "GetShape" (Some (ByValue, Ty "std::vector<int64_t>")) [] true false []
      [Decl ByValue (Ty "std::vector<int64_t>") "out"
         (Some (New (Ty "std::vector<int64_t>") [Fun "GetDimensionsCount" []; Lit "0"]));
       ThrowOnError
         (Slot_ "GetDimensions" [Member_ "p_"; Method (Var "out") "data" []; Method (Var "out") "size" []]);
       Return (Some (Var "out"))];
    Func "TypeInfoImpl" "GetTensorTypeAndShapeInfo" (Some (ByValue, Ty "ConstTensorTypeAndShapeInfo")) [] true false
      []
      [Decl ByValue (Ptr (Const (Ty "OrtTensorTypeAndShapeInfo"))) "out" None;
       ThrowOnError (Slot_ "CastTypeInfoToTensorInfo" [Member_ "p_"; Addr (Var "out")]);
       Return (Some (New (Ty "ConstTensorTypeAndShapeInfo") [Var "out"]))];
    Func "TypeInfoImpl" "GetSequenceTypeInfo" (Some (ByValue, Ty "ConstSequenceTypeInfo")) [] true false []
      [Decl ByValue (Ptr (Const (Ty "OrtSequenceTypeInfo"))) "out" None;
       ThrowOnError (Slot_ "CastTypeInfoToSequenceTypeInfo" [Member_ "p_"; Addr (Var "out")]);
       Return (Some (New (Ty "ConstSequenceTypeInfo") [Var "out"]))];
    Func "TypeInfoImpl" "GetMapTypeInfo" (Some (ByValue, Ty "ConstMapTypeInfo")) [] true false []
      [Decl ByValue (Ptr (Const (Ty "OrtMapTypeInfo"))) "out" None;
       ThrowOnError (Slot_ "CastTypeInfoToMapTypeInfo" [Member_ "p_"; Addr (Var "out")]);
       Return (Some (New (Ty "ConstMapTypeInfo") [Var "out"]))];
    Func "TypeInfoImpl" "GetONNXType" (Some (ByValue, Ty "ONNXType")) [] true false []
      [Decl ByValue (Ty "ONNXType") "out" None;
       ThrowOnError (Slot_ "GetOnnxTypeFromTypeInfo" [Member_ "p_"; Addr (Var "out")]);
       Return (Some (Var "out"))];
    Func "SequenceTypeInfoImpl" "GetSequenceElementType" (Some (ByValue, Ty "TypeInfo")) [] true false []
      [Decl ByValue (Ptr (Ty "OrtTypeInfo")) "output" None;
       ThrowOnError (Slot_ "GetSequenceElementType" [Member_ "p_"; Addr (Var "output")]);
       Return (Some (New (Ty "TypeInfo") [Var "output"]))];
    Func "OptionalTypeInfoImpl" "GetOptionalElementType" (Some (ByValue, Ty "TypeInfo")) [] true false []
      [Decl ByValue (Ptr (Ty "OrtTypeInfo")) "info" None;
       ThrowOnError (Slot_ "GetOptionalContainedTypeInfo" [Member_ "p_"; Addr (Var "info")]);
       Return (Some (New (Ty "TypeInfo") [Var "info"]))];
    Func "MapTypeInfoImpl" "GetMapKeyType" (Some (ByValue, Ty "ONNXTensorElementDataType")) [] true false []
      [Decl ByValue (Ty "ONNXTensorElementDataType") "out" None;
       ThrowOnError (Slot_ "GetMapKeyType" [Member_ "p_"; Addr (Var "out")]);
       Return (Some (Var "out"))];
    Func "MapTypeInfoImpl" "GetMapValueType" (Some (ByValue, Ty "TypeInfo")) [] true false []
      [Decl ByValue (Ptr (Ty "OrtTypeInfo")) "output" None;
       ThrowOnError (Slot_ "GetMapValueType" [Member_ "p_"; Addr (Var "output")]);
       Return (Some (New (Ty "TypeInfo") [Var "output"]))];
    Func "TypeInfoImpl" "GetOptionalTypeInfo" (Some (ByValue, Ty "ConstOptionalTypeInfo")) [] true false []
      [Decl ByValue (Ptr (Const (Ty "OrtOptionalTypeInfo"))) "info" None;
       ThrowOnError (Slot_ "CastTypeInfoToOptionalTypeInfo" [Member_ "p_"; Addr (Var "info")]);
       Return (Some (New (Ty "ConstOptionalTypeInfo") [Var "info"]))];
    Func "ConstValueImpl" "GetOpaqueData" (Some (ByValue, Ty "void"))
      [Arg ByValue (Ptr (Const (Ty "char"))) "domain";
       Arg ByValue (Ptr (Const (Ty "char"))) "type_name";
       Arg ByRef (Ty "R") "out"] true false []
      [ThrowOnError
         (Slot_ "GetOpaqueValue"
            [Var "domain"; Var "type_name"; Member_ "p_"; Addr (Var "out"); Lit "sizeof(R)"])];
    Func "ConstValueImpl" "IsTensor" (Some (ByValue, Ty "bool")) [] true false []
      [Decl ByValue (Ty "int") "out" None;
       ThrowOnError (Slot_ "IsTensor" [Member_ "p_"; Addr (Var "out")]);
       Return (Some (Op "!=" [Var "out"; Lit "0"]))];
    Func "ConstValueImpl" "HasValue" (Some (ByValue, Ty "bool")) [] true false []
      [Decl ByValue (Ty "int") "out" None;
       ThrowOnError (Slot_ "HasValue" [Member_ "p_"; Addr (Var "out")]);
       Return (Some (Op "!=" [Var "out"; Lit "0"]))];
    Func "ConstValueImpl" "GetCount" (Some (ByValue, Ty "size_t")) [] true false []
      [Decl ByValue (Ty "size_t") "out" None;
       ThrowOnError (Slot_ "GetValueCount" [Member_ "p_"; Addr (Var "out")]);
       Return (Some (Var "out"))];
    Func "ConstValueImpl" "GetValue" (Some (ByValue, Ty "Value"))
      [Arg ByValue (Ty "int") "index"; Arg ByValue (Ptr (Ty "OrtAllocator")) "allocator"] true false []
      [Decl ByValue (Ptr (Ty "OrtValue")) "out" None;
       ThrowOnError (Slot_ "GetValue" [Member_ "p_"; Var "index"; Var "allocator"; Addr (Var "out")]);
       Return (Some (New (Ty "Value") [Var "out"]))] ].

(** Lines 1355-1503. *)
Definition inline_13 : list func :=
  [ Func "ConstValueImpl" "GetStringTensorDataLength" (Some (ByValue, Ty "size_t")) [] true false []
      [Decl ByValue (Ty "size_t") "out" None;
       ThrowOnError (Slot_ "GetStringTensorDataLength" [Member_ "p_"; Addr (Var "out")]);
       Return (Some (Var "out"))];
    Func "ConstValueImpl" "GetStringTensorElementLength" (Some (ByValue, Ty "size_t"))
      [Arg ByValue (Ty "size_t") "element_index"] true false []
      [Decl ByValue (Ty "size_t") "out" None;
       ThrowOnError (Slot_ "GetStringTensorElementLength" [Member_ "p_"; Var "element_index"; Addr (Var "out")]);
       Return (Some (Var "out"))];
    Func "ConstValueImpl" "GetTensorData" (Some (ByValue, Ptr (Const (Ty "R")))) [] true false []
      [Decl ByValue (Ptr (Ty "R")) "out" None;
       ThrowOnError
         (Slot_ "GetTensorMutableData"
            [Cast (Ptr (Ty "OrtValue")) (Member_ "p_"); Cast (Ptr (Ptr (Ty "void"))) (Addr (Var "out"))]);
       Return (Some (Var "out"))];
    Func "ConstValueImpl" "GetTensorRawData" (Some (ByValue, Ptr (Const (Ty "void")))) [] true false []
      [Decl ByValue (Ptr (Ty "void")) "out" None;
       ThrowOnError (Slot_ "GetTensorMutableData" [Cast (Ptr (Ty "OrtValue")) (Member_ "p_"); Addr (Var "out")]);
       Return (Some (Var "out"))];
    Func "ConstValueImpl" "GetTypeInfo" (Some (ByValue, Ty "TypeInfo")) [] true false []
      [Decl ByValue (Ptr (Ty "OrtTypeInfo")) "output" None;
       ThrowOnError (Slot_ "GetTypeInfo" [Member_ "p_"; Addr (Var "output")]);
       Return (Some (New (Ty "TypeInfo") [Var "output"]))];
    Func "ConstValueImpl" "GetTensorTypeAndShapeInfo" (Some (ByValue, Ty "TensorTypeAndShapeInfo")) [] true false []
      [Decl ByValue (Ptr (Ty "OrtTensorTypeAndShapeInfo")) "output" None;
       ThrowOnError (Slot_ "GetTensorTypeAndShape" [Member_ "p_"; Addr (Var "output")]);
       Return (Some (New (Ty "TensorTypeAndShapeInfo") [Var "output"]))];
    Func "ConstValueImpl" "GetTensorMemoryInfo" (Some (ByValue, Ty "ConstMemoryInfo")) [] true false []
      [Decl ByValue (Ptr (Const (Ty "OrtMemoryInfo"))) "mem_info" None;
       ThrowOnError (Slot_ "GetTensorMemoryInfo" [Member_ "p_"; Addr (Var "mem_info")]);
       Return (Some (New (Ty "ConstMemoryInfo") [Var "mem_info"]))];
    Func "ConstValueImpl" "GetStringTensorElement" (Some (ByValue, Ty "void"))
      [Arg ByValue (Ty "size_t") "buffer_length";
       Arg ByValue (Ty "size_t") "element_index";
       Arg ByValue (Ptr (Ty "void")) "buffer"] true false []
      [ThrowOnError
         (Slot_ "GetStringTensorElement" [Member_ "p_"; Var "buffer_length"; Var "element_index"; Var "buffer"])];
    Func "ConstValueImpl" "GetStringTensorElement" (Some (ByValue, Ty "std::string"))
      [Arg ByValue (Ty "size_t") "element_index"] true false []
      [Decl ByValue (Ty "size_t") "buffer_length" None;
       ThrowOnError
         (Slot_ "GetStringTensorElementLength" [Member_ "p_"; Var "element_index"; Addr (Var "buffer_length")]);
       Decl ByValue (Ty "std::string") "s" None;
       Expr (Method (Var "s") "resize" [Var "buffer_length"]);
       ThrowOnError
         (Slot_ "GetStringTensorElement"
            [Member_ "p_"; Var "buffer_length"; Var "element_index"; Addr (Index_ (Var "s") (Lit "0"))]);
       Return (Some (Var "s"))];
    Func "ConstValueImpl" "GetStringTensorContent" (Some (ByValue, Ty "void"))
      [Arg ByValue (Ptr (Ty "void")) "buffer";
       Arg ByValue (Ty "size_t") "buffer_length";
       Arg ByValue (Ptr (Ty "size_t")) "offsets";
       Arg ByValue (Ty "size_t") "offsets_count"] true false []
      [ThrowOnError
         (Slot_ "GetStringTensorContent"
            [Member_ "p_"; Var "buffer"; Var "buffer_length"; Var "offsets"; Var "offsets_count"])];
    Func "ConstValueImpl" "GetSparseFormat" (Some (ByValue, Ty "OrtSparseFormat")) [] true false []
      [Decl ByValue (Ty "OrtSparseFormat") "format" None;
       ThrowOnError (Slot_ "GetSparseTensorFormat" [Member_ "p_"; Addr (Var "format")]);
       Return (Some (Var "format"))];
    Func "ConstValueImpl" "GetSparseTensorValuesTypeAndShapeInfo" (Some (ByValue, Ty "TensorTypeAndShapeInfo")) []
      true false []
      [Decl ByValue (Ptr (Ty "OrtTensorTypeAndShapeInfo")) "output" None;
       ThrowOnError (Slot_ "GetSparseTensorValuesTypeAndShape" [Member_ "p_"; Addr (Var "output")]);
       Return (Some (New (Ty "TensorTypeAndShapeInfo") [Var "output"]))];
    Func "ConstValueImpl" "GetSparseTensorIndicesTypeShapeInfo" (Some (ByValue, Ty "TensorTypeAndShapeInfo"))
      [Arg ByValue (Ty "OrtSparseIndicesFormat") "indices_format"] true false []
      [Decl ByValue (Ptr (Ty "OrtTensorTypeAndShapeInfo")) "output" None;
       ThrowOnError
         (Slot_ "GetSparseTensorIndicesTypeShape" [Member_ "p_"; Var "indices_format"; Addr (Var "output")]);
       Return (Some (New (Ty "TensorTypeAndShapeInfo") [Var "output"]))];
    Func "ConstValueImpl" "GetSparseTensorIndicesData" (Some (ByValue, Ptr (Const (Ty "R"))))
      [Arg ByValue (Ty "OrtSparseIndicesFormat") "indices_format"; Arg ByRef (Ty "size_t") "num_indices"] true false
      []
      [Decl ByValue (Ptr (Const (Ty "void"))) "out" None;
       ThrowOnError
         (Slot_ "GetSparseTensorIndices"
            [Member_ "p_"; Var "indices_format"; Addr (Var "num_indices"); Addr (Var "out")]);
       Return (Some (Cast (Ptr (Const (Ty "R"))) (Var "out")))];
    Func "ConstValueImpl" "IsSparseTensor" (Some (ByValue, Ty "bool")) [] true false []
      [Decl ByValue (Ty "int") "out" None;
       ThrowOnError (Slot_ "IsSparseTensor" [Member_ "p_"; Addr (Var "out")]);
       Return (Some (Op "!=" [Var "out"; Lit "0"]))];
    Func "ConstValueImpl" "GetSparseTensorValues" (Some (ByValue, Ptr (Const (Ty "R")))) [] true false []
      [Decl ByValue (Ptr (Const (Ty "void"))) "out" None;
       ThrowOnError (Slot_ "GetSparseTensorValues" [Member_ "p_"; Addr (Var "out")]);
       Return (Some (Cast (Ptr (Const (Ty "R"))) (Var "out")))];
    Func "ValueImpl" "FillStringTensor" (Some (ByValue, Ty "void"))
      [Arg ByValue (Ptr (Const (Ptr (Const (Ty "char"))))) "s"; Arg ByValue (Ty "size_t") "s_len"] false false []
      [ThrowOnError (Slot_ "FillStringTensor" [Member_ "p_"; Var "s"; Var "s_len"])];
    Func "ValueImpl" "FillStringTensorElement" (Some (ByValue, Ty "void"))
      [Arg ByValue (Ptr (Const (Ty "char"))) "s"; Arg ByValue (Ty "size_t") "index"] false false []
      [ThrowOnError (Slot_ "FillStringTensorElement" [Member_ "p_"; Var "s"; Var "index"])];
    Func "ValueImpl" "GetResizedStringTensorElementBuffer" (Some (ByValue, Ptr (Ty "char")))
      [Arg ByValue (Ty "size_t") "index"; Arg ByValue (Ty "size_t") "buffer_length"] false false []
      [Decl ByValue (Ptr (Ty "char")) "result" None;
       ThrowOnError
         (Slot_ "GetResizedStringTensorElementBuffer"
            [Member_ "p_"; Var "index"; Var "buffer_length"; Addr (Var "result")]);
       Return (Some (Var "result"))];
    Func "ValueImpl" "GetTensorMutableRawData" (Some (ByValue, Ptr (Ty "void"))) [] false false []
      [Decl ByValue (Ptr (Ty "void")) "out" None;
       ThrowOnError (Slot_ "GetTensorMutableData" [Member_ "p_"; Addr (Var "out")]);
       Return (Some (Var "out"))];
    Func "ValueImpl" "GetTensorMutableData" (Some (ByValue, Ptr (Ty "R"))) [] false false []
      [Decl ByValue (Ptr (Ty "R")) "out" None;
       ThrowOnError (Slot_ "GetTensorMutableData" [Member_ "p_"; Cast (Ptr (Ptr (Ty "void"))) (Addr (Var "out"))]);
       Return (Some (Var "out"))] ].

(** Lines 1505-1651. *)
Definition inline_14 : list func :=
  [ Func "ValueImpl" "At" (Some (ByRef, Ty "R")) [Arg ByRef (Const (Ty "std::vector<int64_t>")) "location"] false
      false []
      [Decl ByValue (Ptr (Ty "R")) "out" None;
       ThrowOnError
         (Slot_ "TensorAt"
            [Member_ "p_";
             Method (Var "location") "data" [];
             Method (Var "location") "size" [];
             Cast (Ptr (Ptr (Ty "void"))) (Addr (Var "out"))]);
       Return (Some (Deref (Var "out")))];
    Func "ValueImpl" "UseCooIndices" (Some (ByValue, Ty "void"))
      [Arg ByValue (Ptr (Ty "int64_t")) "indices_data"; Arg ByValue (Ty "size_t") "indices_num"] false false []
      [ThrowOnError (Slot_ "UseCooIndices" [Member_ "p_"; Var "indices_data"; Var "indices_num"])];
    Func "ValueImpl" "UseCsrIndices" (Some (ByValue, Ty "void"))
      [Arg ByValue (Ptr (Ty "int64_t")) "inner_data";
       Arg ByValue (Ty "size_t") "inner_num";
       Arg ByValue (Ptr (Ty "int64_t")) "outer_data";
       Arg ByValue (Ty "size_t") "outer_num"] false false []
      [ThrowOnError
         (Slot_ "UseCsrIndices"
            [Member_ "p_"; Var "inner_data"; Var "inner_num"; Var "outer_data"; Var "outer_num"])];
    Func "ValueImpl" "UseBlockSparseIndices" (Some (ByValue, Ty "void"))
      [Arg ByRef (Const (Ty "Shape")) "indices_shape"; Arg ByValue (Ptr (Ty "int32_t")) "indices_data"] false false
      []
      [ThrowOnError
         (Slot_ "UseBlockSparseIndices"
            [Member_ "p_";
             Dot (Var "indices_shape") "shape";
             Dot (Var "indices_shape") "shape_len";
             Var "indices_data"])];
    Func "ValueImpl" "FillSparseTensorCoo" (Some (ByValue, Ty "void"))
      [Arg ByValue (Ptr (Const (Ty "OrtMemoryInfo"))) "mem_info";
       Arg ByRef (Const (Ty "OrtSparseValuesParam")) "values_param";
       Arg ByValue (Ptr (Const (Ty "int64_t"))) "indices_data";
       Arg ByValue (Ty "size_t") "indices_num"] false false []
      [ThrowOnError
         (Slot_ "FillSparseTensorCoo"
            [Member_ "p_";
             Var "mem_info";
             Dot (Var "values_param") "values_shape";
             Dot (Var "values_param") "values_shape_len";
             Dot (Dot (Var "values_param") "data") "p_data";
             Var "indices_data";
             Var "indices_num"])];
    Func "ValueImpl" "FillSparseTensorCsr" (Some (ByValue, Ty "void"))
      [Arg ByValue (Ptr (Const (Ty "OrtMemoryInfo"))) "data_mem_info";
       Arg ByRef (Const (Ty "OrtSparseValuesParam")) "values";
       Arg ByValue (Ptr (Const (Ty "int64_t"))) "inner_indices_data";
       Arg ByValue (Ty "size_t") "inner_indices_num";
       Arg ByValue (Ptr (Const (Ty "int64_t"))) "outer_indices_data";
       Arg ByValue (Ty "size_t") "outer_indices_num"] false false []
      [ThrowOnError
         (Slot_ "FillSparseTensorCsr"
            [Member_ "p_";
             Var "data_mem_info";
             Dot (Var "values") "values_shape";
             Dot (Var "values") "values_shape_len";
             Dot (Dot (Var "values") "data") "p_data";
             Var "inner_indices_data";
             Var "inner_indices_num";
             Var "outer_indices_data";
             Var "outer_indices_num"])];
    Func "ValueImpl" "FillSparseTensorBlockSparse" (Some (ByValue, Ty "void"))
      [Arg ByValue (Ptr (Const (Ty "OrtMemoryInfo"))) "data_mem_info";
       Arg ByRef (Const (Ty "OrtSparseValuesParam")) "values";
       Arg ByRef (Const (Ty "Shape")) "indices_shape";
       Arg ByValue (Ptr (Const (Ty "int32_t"))) "indices_data"] false false []
      [ThrowOnError
         (Slot_ "FillSparseTensorBlockSparse"
            [Member_ "p_";
             Var "data_mem_info";
             Dot (Var "values") "values_shape";
             Dot (Var "values") "values_shape_len";
             Dot (Dot (Var "values") "data") "p_data";
             Dot (Var "indices_shape") "shape";
             Dot (Var "indices_shape") "shape_len";
             Var "indices_data"])];
    Func "Value" "CreateTensor" (Some (ByValue, Ty "Value"))
      [Arg ByValue (Ptr (Const (Ty "OrtMemoryInfo"))) "info";
       Arg ByValue (Ptr (Ty "T")) "p_data";
       Arg ByValue (Ty "size_t") "p_data_element_count";
       Arg ByValue (Ptr (Const (Ty "int64_t"))) "shape";
       Arg ByValue (Ty "size_t") "shape_len"] false false []
      [Return
         (Some
            (Fun "CreateTensor"
               [Var "info";
                Var "p_data";
                Op "*" [Var "p_data_element_count"; Lit "sizeof(T)"];
                Var "shape";
                Var "shape_len";
                Name "TypeToTensorType<T>::type"]))];
    Func "Value" "CreateTensor" (Some (ByValue, Ty "Value"))
      [Arg ByValue (Ptr (Const (Ty "OrtMemoryInfo"))) "info";
       Arg ByValue (Ptr (Ty "void")) "p_data";
       Arg ByValue (Ty "size_t") "p_data_byte_count";
       Arg ByValue (Ptr (Const (Ty "int64_t"))) "shape";
       Arg ByValue (Ty "size_t") "shape_len";
       Arg ByValue (Ty "ONNXTensorElementDataType") "type"] false false []
      [Decl ByValue (Ptr (Ty "OrtValue")) "out" None;
       ThrowOnError
         (Slot_ "CreateTensorWithDataAsOrtValue"
            [Var "info";
             Var "p_data";
             Var "p_data_byte_count";
             Var "shape";
             Var "shape_len";
             Var "type";
             Addr (Var "out")]);
       Return (Some (New (Ty "Value") [Var "out"]))];
    Func "Value" "CreateTensor" (Some (ByValue, Ty "Value"))
      [Arg ByValue (Ptr (Ty "OrtAllocator")) "allocator";
       Arg ByValue (Ptr (Const (Ty "int64_t"))) "shape";
       Arg ByValue (Ty "size_t") "shape_len"] false false []
      [Return
         (Some
            (Fun "CreateTensor"
               [Var "allocator"; Var "shape"; Var "shape_len"; Name "TypeToTensorType<T>::type"]))];
    Func "Value" "CreateTensor" (Some (ByValue, Ty "Value"))
      [Arg ByValue (Ptr (Ty "OrtAllocator")) "allocator";
       Arg ByValue (Ptr (Const (Ty "int64_t"))) "shape";
       Arg ByValue (Ty "size_t") "shape_len";
       Arg ByValue (Ty "ONNXTensorElementDataType") "type"] false false []
      [Decl ByValue (Ptr (Ty "OrtValue")) "out" None;
       ThrowOnError
         (Slot_ "CreateTensorAsOrtValue"
            [Var "allocator"; Var "shape"; Var "shape_len"; Var "type"; Addr (Var "out")]);
       Return (Some (New (Ty "Value") [Var "out"]))];
    Func "Value" "CreateSparseTensor" (Some (ByValue, Ty "Value"))
      [Arg ByValue (Ptr (Const (Ty "OrtMemoryInfo"))) "info";
       Arg ByValue (Ptr (Ty "T")) "p_data";
       Arg ByRef (Const (Ty "Shape")) "dense_shape";
       Arg ByRef (Const (Ty "Shape")) "values_shape"] false false []
      [Return
         (Some
            (Fun "CreateSparseTensor"
               [Var "info";
                Var "p_data";
                Var "dense_shape";
                Var "values_shape";
                Name "TypeToTensorType<T>::type"]))];
    Func "Value" "CreateSparseTensor" (Some (ByValue, Ty "Value"))
      [Arg ByValue (Ptr (Const (Ty "OrtMemoryInfo"))) "info";
       Arg ByValue (Ptr (Ty "void")) "p_data";
       Arg ByRef (Const (Ty "Shape")) "dense_shape";
       Arg ByRef (Const (Ty "Shape")) "values_shape";
       Arg ByValue (Ty "ONNXTensorElementDataType") "type"] false false []
      [Decl ByValue (Ptr (Ty "OrtValue")) "out" None;
       ThrowOnError
         (Slot_ "CreateSparseTensorWithValuesAsOrtValue"
            [Var "info";
             Var "p_data";
             Dot (Var "dense_shape") "shape";
             Dot (Var "dense_shape") "shape_len";
             Dot (Var "values_shape") "shape";
             Dot (Var "values_shape") "shape_len";
             Var "type";
             Addr (Var "out")]);
       Return (Some (New (Ty "Value") [Var "out"]))];
    Func "Value" "CreateSparseTensor" (Some (ByValue, Ty "Value"))
      [Arg ByValue (Ptr (Ty "OrtAllocator")) "allocator"; Arg ByRef (Const (Ty "Shape")) "dense_shape"] false false
      []
      [Return
         (Some (Fun "CreateSparseTensor" [Var "allocator"; Var "dense_shape"; Name "TypeToTensorType<T>::type"]))];
    Func "Value" "CreateSparseTensor" (Some (ByValue, Ty "Value"))
      [Arg ByValue (Ptr (Ty "OrtAllocator")) "allocator";
       Arg ByRef (Const (Ty "Shape")) "dense_shape";
       Arg ByValue (Ty "ONNXTensorElementDataType") "type"] false false []
      [Decl ByValue (Ptr (Ty "OrtValue")) "out" None;
       ThrowOnError
         (Slot_ "CreateSparseTensorAsOrtValue"
            [Var "allocator";
             Dot (Var "dense_shape") "shape";
             Dot (Var "dense_shape") "shape_len";
             Var "type";
             Addr (Var "out")]);
       Return (Some (New (Ty "Value") [Var "out"]))];
    Func "Value" "CreateMap" (Some (ByValue, Ty "Value"))
      [Arg ByRef (Const (Ty "Value")) "keys"; Arg ByRef (Const (Ty "Value")) "values"] false false []
      [Decl ByValue (Ptr (Ty "OrtValue")) "out" None;
       Decl ByValue (Ptr (Ptr (Const (Ty "OrtValue")))) "inputs" (Some (New (Ty "") [Var "keys"; Var "values"]));
       ThrowOnError (Slot_ "CreateValue" [Var "inputs"; Lit "2"; Name "ONNX_TYPE_MAP"; Addr (Var "out")]);
       Return (Some (New (Ty "Value") [Var "out"]))];
    Func "Value" "CreateSequence" (Some (ByValue, Ty "Value"))
      [Arg ByRef (Const (Ty "std::vector<Value>")) "values"] false false []
      [Decl ByValue (Ptr (Ty "OrtValue")) "out" None;
       Decl ByValue (Ty "std::vector<const OrtValue*>") "values_ort"
         (Some
            (New (Ty "std::vector<const OrtValue*>")
               [Method (Var "values") "data" [];
                Op "+" [Method (Var "values") "data" []; Method (Var "values") "size" []]]));
       ThrowOnError
         (Slot_ "CreateValue"
            [Method (Var "values_ort") "data" [];
             Method (Var "values_ort") "size" [];
             Name "ONNX_TYPE_SEQUENCE";
             Addr (Var "out")]);
       Return (Some (New (Ty "Value") [Var "out"]))];
    Func "Value" "CreateOpaque" (Some (ByValue, Ty "Value"))
      [Arg ByValue (Ptr (Const (Ty "char"))) "domain";
       Arg ByValue (Ptr (Const (Ty "char"))) "type_name";
       Arg ByRef (Const (Ty "T")) "data_container"] false false []
      [Decl ByValue (Ptr (Ty "OrtValue")) "out" None;
       ThrowOnError
         (Slot_ "CreateOpaqueValue"
            [Var "domain"; Var "type_name"; Addr (Var "data_container"); Lit "sizeof(T)"; Addr (Var "out")]);
       Return (Some (New (Ty "Value") [Var "out"]))];
    Func "Logger" "Logger" None [Arg ByValue (Ptr (Const (Ty "OrtLogger"))) "logger"] false false
      [("logger_", [Var "logger"])]
      [ThrowOnError
         (Slot_ "Logger_GetLoggingSeverityLevel" [Member_ "logger_"; Addr (Member_ "cached_severity_level_")])];
    Func "Logger" "GetLoggingSeverityLevel" (Some (ByValue, Ty "OrtLoggingLevel")) [] true true []
      [Return (Some (Member_ "cached_severity_level_"))];
    Func "Logger" "LogMessage" (Some (ByValue, Ty "Status"))
      [Arg ByValue (Ty "OrtLoggingLevel") "log_severity_level";
       Arg ByValue (Ptr (Const (Ty "ORTCHAR_T"))) "file_path";
       Arg ByValue (Ty "int") "line_number";
       Arg ByValue (Ptr (Const (Ty "char"))) "func_name";
       Arg ByValue (Ptr (Const (Ty "char"))) "message"] true true []
      [Decl ByValue (Ptr (Ty "OrtStatus")) "status"
         (Some
            (Slot_ "Logger_LogMessage"
               [Member_ "logger_";
                Var "log_severity_level";
                Var "message";
                Var "file_path";
                Var "line_number";
                Var "func_name"]));
       Return (Some (New (Ty "Status") [Var "status"]))] ].

(** Lines 1704-1841. *)
Definition inline_15 : list func :=
  [ Func "KernelContext" "KernelContext" None [Arg ByValue (Ptr (Ty "OrtKernelContext")) "context"] false false
      [("ctx_", [Var "context"])] [];
    Func "KernelContext" "GetInputCount" (Some (ByValue, Ty "size_t")) [] true false []
      [Decl ByValue (Ty "size_t") "out" (Some (Lit "0"));
       ThrowOnError (Slot_ "KernelContext_GetInputCount" [Member_ "ctx_"; Addr (Var "out")]);
       Return (Some (Var "out"))];
    Func "KernelContext" "GetOutputCount" (Some (ByValue, Ty "size_t")) [] true false []
      [Decl ByValue (Ty "size_t") "out" (Some (Lit "0"));
       ThrowOnError (Slot_ "KernelContext_GetOutputCount" [Member_ "ctx_"; Addr (Var "out")]);
       Return (Some (Var "out"))];
    Func "KernelContext" "GetInput" (Some (ByValue, Ty "ConstValue")) [Arg ByValue (Ty "size_t") "index"] true false
      []
      [Decl ByValue (Ptr (Const (Ty "OrtValue"))) "out" (Some (Lit "nullptr"));
       ThrowOnError (Slot_ "KernelContext_GetInput" [Member_ "ctx_"; Var "index"; Addr (Var "out")]);
       Return (Some (New (Ty "ConstValue") [Var "out"]))];
    Func "KernelContext" "GetOutput" (Some (ByValue, Ty "UnownedValue"))
      [Arg ByValue (Ty "size_t") "index";
       Arg ByValue (Ptr (Const (Ty "int64_t"))) "dim_values";
       Arg ByValue (Ty "size_t") "dim_count"] true false []
      [Decl ByValue (Ptr (Ty "OrtValue")) "out" (Some (Lit "nullptr"));
       ThrowOnError
         (Slot_ "KernelContext_GetOutput"
            [Member_ "ctx_"; Var "index"; Var "dim_values"; Var "dim_count"; Addr (Var "out")]);
       Return (Some (New (Ty "UnownedValue") [Var "out"]))];
    Func "KernelContext" "GetOutput" (Some (ByValue, Ty "UnownedValue"))
      [Arg ByValue (Ty "size_t") "index"; Arg ByRef (Const (Ty "std::vector<int64_t>")) "dims"] true false []
      [Decl ByValue (Ptr (Ty "OrtValue")) "out" (Some (Lit "nullptr"));
       ThrowOnError
         (Slot_ "KernelContext_GetOutput"
            [Member_ "ctx_";
             Var "index";
             Method (Var "dims") "data" [];
             Method (Var "dims") "size" [];
             Addr (Var "out")]);
       Return (Some (New (Ty "UnownedValue") [Var "out"]))];
    Func "KernelContext" "GetGPUComputeStream" (Some (ByValue, Ptr (Ty "void"))) [] true false []
      [Decl ByValue (Ptr (Ty "void")) "out" (Some (Lit "nullptr"));
       ThrowOnError (Slot_ "KernelContext_GetGPUComputeStream" [Member_ "ctx_"; Addr (Var "out")]);
       Return (Some (Var "out"))];
    Func "KernelContext" "GetAllocator" (Some (ByValue, Ptr (Ty "OrtAllocator")))
      [Arg ByRef (Const (Ty "OrtMemoryInfo")) "memory_info"] true false []
      [Decl ByValue (Ptr (Ty "OrtAllocator")) "out" (Some (Lit "nullptr"));
       ThrowOnError
         (Slot_ "KernelContext_GetAllocator" [Member_ "ctx_"; Addr (Var "memory_info"); Addr (Var "out")]);
       Return (Some (Var "out"))];
    Func "KernelContext" "GetLogger" (Some (ByValue, Ty "Logger")) [] true false []
      [Decl ByValue (Ptr (Const (Ty "OrtLogger"))) "out" (Some (Lit "nullptr"));
       ThrowOnError (Slot_ "KernelContext_GetLogger" [Member_ "ctx_"; Addr (Var "out")]);
       Return (Some (New (Ty "Logger") [Var "out"]))];
    Func "KernelContext" "ParallelFor" (Some (ByValue, Ty "void"))
      [Arg ByValue (Fn (Ty "void") [Ptr (Ty "void"); Ty "size_t"]) "fn";
       Arg ByValue (Ty "size_t") "total";
       Arg ByValue (Ty "size_t") "num_batch";
       Arg ByValue (Ptr (Ty "void")) "usr_data"] true false []
      [ThrowOnError
         (Slot_ "KernelContext_ParallelFor"
            [Member_ "ctx_"; Var "fn"; Var "total"; Var "num_batch"; Var "usr_data"])];
    Func "OpAttr" "OpAttr" None
      [Arg ByValue (Ptr (Const (Ty "char"))) "name";
       Arg ByValue (Ptr (Const (Ty "void"))) "data";
       Arg ByValue (Ty "int") "len";
       Arg ByValue (Ty "OrtOpAttrType") "type"] false false []
      [ThrowOnError (Slot_ "CreateOpAttr" [Var "name"; Var "data"; Var "len"; Var "type"; Addr (Member_ "p_")])];
    Func "KernelInfoImpl" "Copy" (Some (ByValue, Ty "KernelInfo")) [] true false []
      [Decl ByValue (Ptr (Ty "OrtKernelInfo")) "info_copy" (Some (Lit "nullptr"));
       ThrowOnError (Slot_ "CopyKernelInfo" [Member_ "p_"; Addr (Var "info_copy")]);
       Return (Some (New (Ty "KernelInfo") [Var "info_copy"]))];
    Func "KernelInfoImpl" "GetInputCount" (Some (ByValue, Ty "size_t")) [] true false []
      [Decl ByValue (Ty "size_t") "out" (Some (Lit "0"));
       ThrowOnError (Slot_ "KernelInfo_GetInputCount" [Member_ "p_"; Addr (Var "out")]);
       Return (Some (Var "out"))];
    Func "KernelInfoImpl" "GetOutputCount" (Some (ByValue, Ty "size_t")) [] true false []
      [Decl ByValue (Ty "size_t") "out" (Some (Lit "0"));
       ThrowOnError (Slot_ "KernelInfo_GetOutputCount" [Member_ "p_"; Addr (Var "out")]);
       Return (Some (Var "out"))];
    Func "KernelInfoImpl" "GetInputName" (Some (ByValue, Ty "std::string")) [Arg ByValue (Ty "size_t") "index"] true
      false []
      [Decl ByValue (Ty "size_t") "size" (Some (Lit "0"));
       ThrowOnError (Slot_ "KernelInfo_GetInputName" [Member_ "p_"; Var "index"; Lit "nullptr"; Addr (Var "size")]);
       Decl ByValue (Ty "std::string") "out" None;
       Expr (Method (Var "out") "resize" [Var "size"]);
       ThrowOnError
         (Slot_ "KernelInfo_GetInputName"
            [Member_ "p_"; Var "index"; Addr (Index_ (Var "out") (Lit "0")); Addr (Var "size")]);
       Expr (Method (Var "out") "resize" [Op "-" [Var "size"; Lit "1"]]);
       Return (Some (Var "out"))];
    Func "KernelInfoImpl" "GetOutputName" (Some (ByValue, Ty "std::string")) [Arg ByValue (Ty "size_t") "index"]
      true false []
      [Decl ByValue (Ty "size_t") "size" (Some (Lit "0"));
       ThrowOnError
         (Slot_ "KernelInfo_GetOutputName" [Member_ "p_"; Var "index"; Lit "nullptr"; Addr (Var "size")]);
       Decl ByValue (Ty "std::string") "out" None;
       Expr (Method (Var "out") "resize" [Var "size"]);
       ThrowOnError
         (Slot_ "KernelInfo_GetOutputName"
            [Member_ "p_"; Var "index"; Addr (Index_ (Var "out") (Lit "0")); Addr (Var "size")]);
       Expr (Method (Var "out") "resize" [Op "-" [Var "size"; Lit "1"]]);
       Return (Some (Var "out"))];
    Func "KernelInfoImpl" "GetInputTypeInfo" (Some (ByValue, Ty "TypeInfo")) [Arg ByValue (Ty "size_t") "index"]
      true false []
      [Decl ByValue (Ptr (Ty "OrtTypeInfo")) "out" (Some (Lit "nullptr"));
       ThrowOnError (Slot_ "KernelInfo_GetInputTypeInfo" [Member_ "p_"; Var "index"; Addr (Var "out")]);
       Return (Some (New (Ty "TypeInfo") [Var "out"]))];
    Func "KernelInfoImpl" "GetOutputTypeInfo" (Some (ByValue, Ty "TypeInfo")) [Arg ByValue (Ty "size_t") "index"]
      true false []
      [Decl ByValue (Ptr (Ty "OrtTypeInfo")) "out" (Some (Lit "nullptr"));
       ThrowOnError (Slot_ "KernelInfo_GetOutputTypeInfo" [Member_ "p_"; Var "index"; Addr (Var "out")]);
       Return (Some (New (Ty "TypeInfo") [Var "out"]))];
    Func "KernelInfoImpl" "GetTensorAttribute" (Some (ByValue, Ty "Value"))
      [Arg ByValue (Ptr (Const (Ty "char"))) "name"; Arg ByValue (Ptr (Ty "OrtAllocator")) "allocator"] true false
      []
      [Decl ByValue (Ptr (Ty "OrtValue")) "out" (Some (Lit "nullptr"));
       ThrowOnError
         (Slot_ "KernelInfoGetAttribute_tensor" [Member_ "p_"; Var "name"; Var "allocator"; Addr (Var "out")]);
       Return (Some (New (Ty "Value") [Var "out"]))];
    Func "KernelInfoImpl" "GetTensorConstantInput" (Some (ByValue, Ty "ConstValue"))
      [Arg ByValue (Ty "size_t") "index"; Arg ByValue (Ptr (Ty "int")) "is_constant"] true false []
      [Decl ByValue (Ptr (Const (Ty "OrtValue"))) "out" (Some (Lit "nullptr"));
       ThrowOnError
         (Slot_ "KernelInfoGetConstantInput_tensor"
            [Member_ "p_"; Var "index"; Var "is_constant"; Addr (Var "out")]);
       Return (Some (New (Ty "ConstValue") [Var "out"]))] ].

(** Lines 1843-1960. *)
Definition inline_16 : list func :=
  [ Func "KernelInfoImpl" "GetNodeName" (Some (ByValue, Ty "std::string")) [] true false []
      [Decl ByValue (Ty "size_t") "size" (Some (Lit "0"));
       ThrowOnError (Slot_ "KernelInfo_GetNodeName" [Member_ "p_"; Lit "nullptr"; Addr (Var "size")]);
       Decl ByValue (Ty "std::string") "out" None;
       Expr (Method (Var "out") "resize" [Var "size"]);
       ThrowOnError
         (Slot_ "KernelInfo_GetNodeName" [Member_ "p_"; Addr (Index_ (Var "out") (Lit "0")); Addr (Var "size")]);
       Expr (Method (Var "out") "resize" [Op "-" [Var "size"; Lit "1"]]);
       Return (Some (Var "out"))];
    Func "KernelInfoImpl" "GetLogger" (Some (ByValue, Ty "Logger")) [] true false []
      [Decl ByValue (Ptr (Const (Ty "OrtLogger"))) "out" (Some (Lit "nullptr"));
       ThrowOnError (Slot_ "KernelInfo_GetLogger" [Member_ "p_"; Addr (Var "out")]);
       Return (Some (New (Ty "Logger") [Var "out"]))];
    Func "attr_utils" "GetAttr" (Some (ByValue, Ty "void"))
      [Arg ByValue (Ptr (Const (Ty "OrtKernelInfo"))) "p";
       Arg ByValue (Ptr (Const (Ty "char"))) "name";
       Arg ByRef (Ty "float") "out"] false false []
      [ThrowOnError (Slot_ "KernelInfoGetAttribute_float" [Var "p"; Var "name"; Addr (Var "out")])];
    Func "attr_utils" "GetAttr" (Some (ByValue, Ty "void"))
      [Arg ByValue (Ptr (Const (Ty "OrtKernelInfo"))) "p";
       Arg ByValue (Ptr (Const (Ty "char"))) "name";
       Arg ByRef (Ty "int64_t") "out"] false false []
      [ThrowOnError (Slot_ "KernelInfoGetAttribute_int64" [Var "p"; Var "name"; Addr (Var "out")])];
    Func "attr_utils" "GetAttr" (Some (ByValue, Ty "void"))
      [Arg ByValue (Ptr (Const (Ty "OrtKernelInfo"))) "p";
       Arg ByValue (Ptr (Const (Ty "char"))) "name";
       Arg ByRef (Ty "std::string") "result"] false false []
      [Decl ByValue (Ty "size_t") "size" (Some (Lit "0"));
       ThrowOnError (Slot_ "KernelInfoGetAttribute_string" [Var "p"; Var "name"; Lit "nullptr"; Addr (Var "size")]);
       Decl ByValue (Ty "std::string") "out" None;
       Expr (Method (Var "out") "resize" [Var "size"]);
       ThrowOnError
         (Slot_ "KernelInfoGetAttribute_string"
            [Var "p"; Var "name"; Addr (Index_ (Var "out") (Lit "0")); Addr (Var "size")]);
       Expr (Method (Var "out") "resize" [Op "-" [Var "size"; Lit "1"]]);
       Expr (Method (Var "out") "swap" [Var "result"])];
    Func "attr_utils" "GetAttrs" (Some (ByValue, Ty "void"))
      [Arg ByValue (Ptr (Const (Ty "OrtKernelInfo"))) "p";
       Arg ByValue (Ptr (Const (Ty "char"))) "name";
       Arg ByRef (Ty "std::vector<float>") "result"] false false []
      [Decl ByValue (Ty "size_t") "size" (Some (Lit "0"));
       ThrowOnError
         (Slot_ "KernelInfoGetAttributeArray_float" [Var "p"; Var "name"; Lit "nullptr"; Addr (Var "size")]);
       Decl ByValue (Ty "std::vector<float>") "out" None;
       Expr (Method (Var "out") "resize" [Var "size"]);
       ThrowOnError
         (Slot_ "KernelInfoGetAttributeArray_float"
            [Var "p"; Var "name"; Method (Var "out") "data" []; Addr (Var "size")]);
       Expr (Method (Var "out") "swap" [Var "result"])];
    Func "attr_utils" "GetAttrs" (Some (ByValue, Ty "void"))
      [Arg ByValue (Ptr (Const (Ty "OrtKernelInfo"))) "p";
       Arg ByValue (Ptr (Const (Ty "char"))) "name";
       Arg ByRef (Ty "std::vector<int64_t>") "result"] false false []
      [Decl ByValue (Ty "size_t") "size" (Some (Lit "0"));
       ThrowOnError
         (Slot_ "KernelInfoGetAttributeArray_int64" [Var "p"; Var "name"; Lit "nullptr"; Addr (Var "size")]);
       Decl ByValue (Ty "std::vector<int64_t>") "out" None;
       Expr (Method (Var "out") "resize" [Var "size"]);
       ThrowOnError
         (Slot_ "KernelInfoGetAttributeArray_int64"
            [Var "p"; Var "name"; Method (Var "out") "data" []; Addr (Var "size")]);
       Expr (Method (Var "out") "swap" [Var "result"])];
    Func "KernelInfo" "KernelInfo" None [Arg ByValue (Ptr (Ty "OrtKernelInfo")) "info"] false false
      [("detail::KernelInfoImpl<OrtKernelInfo>", [Var "info"])] [];
    Func "Op" "Op" None [Arg ByValue (Ptr (Ty "OrtOp")) "p"] false false [("Base<OrtOp>", [Var "p"])] [];
    Func "Op" "Create" (Some (ByValue, Ty "Op"))
      [Arg ByValue (Ptr (Const (Ty "OrtKernelInfo"))) "info";
       Arg ByValue (Ptr (Const (Ty "char"))) "op_name";
       Arg ByValue (Ptr (Const (Ty "char"))) "domain";
       Arg ByValue (Ty "int") "version";
       Arg ByValue (Ptr (Ptr (Const (Ty "char")))) "type_constraint_names";
       Arg ByValue (Ptr (Const (Ty "ONNXTensorElementDataType"))) "type_constraint_values";
       Arg ByValue (Ty "size_t") "type_constraint_count";
       Arg ByValue (Ptr (Const (Ty "OpAttr"))) "attr_values";
       Arg ByValue (Ty "size_t") "attr_count";
       Arg ByValue (Ty "size_t") "input_count";
       Arg ByValue (Ty "size_t") "output_count"] false false []
      [Decl ByValue (Ty "auto") "attr_input_values"
         (Some (Cast (Ptr (Const (Ptr (Const (Ty "OrtOpAttr"))))) (Var "attr_values")));
       Decl ByValue (Ptr (Ty "OrtOp")) "op" None;
       ThrowOnError
         (Slot_ "CreateOp"
            [Var "info";
             Var "op_name";
             Var "domain";
             Var "version";
             Var "type_constraint_names";
             Var "type_constraint_values";
             Cast (Ty "int") (Var "type_constraint_count");
             Var "attr_input_values";
             Cast (Ty "int") (Var "attr_count");
             Cast (Ty "int") (Var "input_count");
             Cast (Ty "int") (Var "output_count");
             Addr (Var "op")]);
       Return (Some (New (Ty "Op") [Var "op"]))];
    Func "Op" "Invoke" (Some (ByValue, Ty "void"))
      [Arg ByValue (Ptr (Const (Ty "OrtKernelContext"))) "context";
       Arg ByValue (Ptr (Const (Ty "Value"))) "input_values";
       Arg ByValue (Ty "size_t") "input_count";
       Arg ByValue (Ptr (Ty "Value")) "output_values";
       Arg ByValue (Ty "size_t") "output_count"] false false []
      [Decl ByValue (Ty "auto") "ort_input_values"
         (Some (Cast (Ptr (Const (Ptr (Const (Ty "OrtValue"))))) (Var "input_values")));
       Decl ByValue (Ty "auto") "ort_output_values" (Some (Cast (Ptr (Ptr (Ty "OrtValue"))) (Var "output_values")));
       ThrowOnError
         (Slot_ "InvokeOp"
            [Var "context";
             Member_ "p_";
             Var "ort_input_values";
             Cast (Ty "int") (Var "input_count");
             Var "ort_output_values";
             Cast (Ty "int") (Var "output_count")])];
    Func "Op" "Invoke" (Some (ByValue, Ty "void"))
      [Arg ByValue (Ptr (Const (Ty "OrtKernelContext"))) "context";
       Arg ByValue (Ptr (Const (Ptr (Const (Ty "OrtValue"))))) "input_values";
       Arg ByValue (Ty "size_t") "input_count";
       Arg ByValue (Ptr (Const (Ptr (Ty "OrtValue")))) "output_values";
       Arg ByValue (Ty "size_t") "output_count"] false false []
      [ThrowOnError
         (Slot_ "InvokeOp"
            [Var "context";
             Member_ "p_";
             Var "input_values";
             Cast (Ty "int") (Var "input_count");
             Var "output_values";
             Cast (Ty "int") (Var "output_count")])];
    Func "" "GetVersionString" (Some (ByValue, Ty "std::string")) [] false false []
      [Return (Some (Method (Fun "OrtGetApiBase" []) "GetVersionString" []))];
    Func "" "GetBuildInfoString" (Some (ByValue, Ty "std::string")) [] false false []
      [Return (Some (Slot_ "GetBuildInfoString" []))] ].

(** Lines 1981-2116. *)
Definition inline_17 : list func :=
  [ Func "CustomOpBase" "GetSessionConfigs" (Some (ByValue, Ty "void"))
      [Arg ByRef (Ty "std::unordered_map<std::string, std::string>") "out";
       Arg ByValue (Ty "ConstSessionOptions") "options"] true false []
      [Decl ByValue (Ptr (Const (Ty "TOp"))) "derived" (Some (Cast (Ptr (Const (Ty "TOp"))) ThisPtr));
       Decl ByValue (Ty "std::vector<std::string>") "keys"
         (Some (Method (Var "derived") "GetSessionConfigKeys" []));
       Expr (Method (Var "out") "reserve" [Method (Var "keys") "size" []]);
       Decl ByValue (Ty "std::string") "config_entry_key"
         (Some (Fun "detail::MakeCustomOpConfigEntryKey" [Method (Var "derived") "GetName" []; Str ""]));
       Decl ByValue (Const (Ty "size_t")) "prefix_size" (Some (Method (Var "config_entry_key") "length" []));
       ForEach ByRef (Const (Ty "auto")) "key" (Var "keys")
         [Expr (Method (Var "config_entry_key") "resize" [Var "prefix_size"]);
          Expr (Method (Var "config_entry_key") "append" [Var "key"]);
          Assign "=" (Index_ (Var "out") (Var "key"))
            (Method (Var "options") "GetConfigEntryOrDefault"
               [Method (Var "config_entry_key") "c_str" []; Str ""])]];
    Func "ShapeInferContext" "ShapeInferContext" None
      [Arg ByValue (Ptr (Const (Ty "OrtApi"))) "ort_api"; Arg ByValue (Ptr (Ty "OrtShapeInferContext")) "ctx"] false
      false [("ort_api_", [Var "ort_api"]); ("ctx_", [Var "ctx"])]
      [Decl ByValue (Ty "size_t") "input_count" (Some (Lit "0"));
       ThrowOnError (Slot_ "ShapeInferContext_GetInputCount" [Member_ "ctx_"; Addr (Var "input_count")]);
       For [Decl ByValue (Ty "size_t") "ith_input" (Some (Lit "0"))] (Op "<" [Var "ith_input"; Var "input_count"])
         (Op "++" [Var "ith_input"])
         [Decl ByValue (Ptr (Ty "OrtTensorTypeAndShapeInfo")) "info"
            (Some (New (Ptr (Ty "OrtTensorTypeAndShapeInfo")) []));
          ThrowOnError
            (Slot_ "ShapeInferContext_GetInputTypeShape" [Var "ctx"; Var "ith_input"; Addr (Var "info")]);
          Decl ByValue (Ty "TensorTypeAndShapeInfo") "type_shape_info"
            (Some (New (Ty "TensorTypeAndShapeInfo") [Var "info"]));
          Decl ByValue (Ty "auto") "integer_shape" (Some (Method (Var "type_shape_info") "GetShape" []));
          Decl ByValue (Ty "std::vector<const char*>") "symbolic_shape"
            (Some (New (Ty "std::vector<const char*>") [Method (Var "integer_shape") "size" []; New (Ty "") []]));
          If (Op "!" [Method (Var "integer_shape") "empty" []])
            [Expr
               (Method (Var "type_shape_info") "GetSymbolicDimensions"
                  [Addr (Index_ (Var "symbolic_shape") (Lit "0")); Method (Var "integer_shape") "size" []])] [];
          Decl ByValue (Ty "Shape") "shape" None;
          For [Decl ByValue (Ty "size_t") "ith" (Some (Lit "0"))]
            (Op "<" [Var "ith"; Method (Var "integer_shape") "size" []]) (Op "++" [Var "ith"])
            [If
               (Op "&&"
                  [Index_ (Var "symbolic_shape") (Var "ith");
                   Op ">"
                     [Method (New (Ty "std::string") [Index_ (Var "symbolic_shape") (Var "ith")]) "size" [];
                      Lit "0"]])
               [Expr (Method (Var "shape") "emplace_back" [Index_ (Var "symbolic_shape") (Var "ith")])]
               [Expr (Method (Var "shape") "emplace_back" [Index_ (Var "integer_shape") (Var "ith")])]];
          Expr (Method (Member_ "input_shapes_") "push_back" [Fun "std::move" [Var "shape"]]);
          Expr (Method (Var "type_shape_info") "release" [])]];
    Func "ShapeInferContext" "SetOutputShape" (Some (ByValue, Ty "Status"))
      [Arg ByValue (Ty "size_t") "indice";
       Arg ByRef (Const (Ty "Shape")) "shape";
       Arg ByValue (Ty "ONNXTensorElementDataType") "type"] false false []
      [Decl ByValue (Ptr (Ty "OrtTensorTypeAndShapeInfo")) "info" (Some (New (Ty "") []));
       ReturnOnFail (Slot_ "CreateTensorTypeAndShapeInfo" [Addr (Var "info")]);
       ReturnOnFail (Slot_ "SetTensorElementType" [Var "info"; Var "type"]);
       Decl ByValue
         (Ty "std::unique_ptr<OrtTensorTypeAndShapeInfo, std::function<void(OrtTensorTypeAndShapeInfo*)>>")
         "info_ptr"
         (Some
            (New (Ty "std::unique_ptr<OrtTensorTypeAndShapeInfo, std::function<void(OrtTensorTypeAndShapeInfo*)>>")
               [Var "info"; Release "ReleaseTensorTypeAndShapeInfo"]));
       Decl ByValue (Ty "std::vector<int64_t>") "integer_dims" None;
       Decl ByValue (Ty "std::vector<const char*>") "symbolic_dims" None;
       ForEach ByValue (Const (Ty "auto")) "dim" (Var "shape")
         [If (Method (Var "dim") "IsInt" [])
            [Expr (Method (Var "integer_dims") "push_back" [Method (Var "dim") "AsInt" []]);
             Expr (Method (Var "symbolic_dims") "push_back" [Str ""])]
            [If
               (Op "||"
                  [Op "!" [Method (Var "dim") "AsSym" []];
                   Method (New (Ty "std::string") [Method (Var "dim") "AsSym" []]) "empty" []])
               [Throw [Str "Symbolic dim must not be an empty string"; Name "ORT_INVALID_ARGUMENT"]] [];
             Expr (Method (Var "integer_dims") "push_back" [Name "SymbolicInteger::INVALID_INT_DIM"]);
             Expr (Method (Var "symbolic_dims") "push_back" [Method (Var "dim") "AsSym" []])]];
       ReturnOnFail
         (Slot_ "SetDimensions"
            [Var "info"; Method (Var "integer_dims") "data" []; Method (Var "integer_dims") "size" []]);
       ReturnOnFail
         (Slot_ "SetSymbolicDimensions"
            [Var "info"; Method (Var "symbolic_dims") "data" []; Method (Var "symbolic_dims") "size" []]);
       ReturnOnFail (Slot_ "ShapeInferContext_SetOutputTypeShape" [Member_ "ctx_"; Var "indice"; Var "info"]);
       Return (Some (New (Ty "Status") [Lit "nullptr"]))];
    Func "ShapeInferContext" "GetAttrInt" (Some (ByValue, Ty "int64_t"))
      [Arg ByValue (Ptr (Const (Ty "char"))) "attr_name"] false false []
      [Decl ByValue (Ptr (Const (Ty "auto"))) "attr" (Some (Fun "GetAttrHdl" [Var "attr_name"]));
       Decl ByValue (Ty "int64_t") "i" (Some (New (Ty "") []));
       Decl ByValue (Ty "size_t") "out" (Some (New (Ty "") []));
       ThrowOnError
         (Slot_ "ReadOpAttr"
            [Var "attr"; Name "ORT_OP_ATTR_INT"; Addr (Var "i"); Lit "sizeof(i)"; Addr (Var "out")]);
       Return (Some (Var "i"))];
    Func "ShapeInferContext" "GetAttrInts" (Some (ByValue, Ty "ShapeInferContext::Ints"))
      [Arg ByValue (Ptr (Const (Ty "char"))) "attr_name"] false false []
      [Decl ByValue (Ptr (Const (Ty "auto"))) "attr" (Some (Fun "GetAttrHdl" [Var "attr_name"]));
       Decl ByValue (Ty "int64_t") "i" (Some (New (Ty "") []));
       Decl ByValue (Ty "size_t") "out" (Some (New (Ty "") []));
       Decl ByValue (Ty "auto") "status"
         (Some
            (Slot_ "ReadOpAttr"
               [Var "attr"; Name "ORT_OP_ATTR_INTS"; Addr (Var "i"); Lit "sizeof(i)"; Addr (Var "out")]));
       If (Var "status")
         [Decl ByValue (Ty "size_t") "num_i" (Some (Op "/" [Var "out"; Lit "sizeof(int64_t)"]));
          Decl ByValue (Ty "ShapeInferContext::Ints") "ints"
            (Some (New (Ty "ShapeInferContext::Ints") [Var "num_i"; Lit "0"]));
          ThrowOnError
            (Slot_ "ReadOpAttr"
               [Var "attr"; Name "ORT_OP_ATTR_INTS"; Method (Var "ints") "data" []; Var "out"; Addr (Var "out")]);
          Return (Some (Var "ints"))]
         [If (Op "==" [Var "out"; Lit "0u"]) [Return (Some (New (Ty "") []))] [];
          Return (Some (New (Ty "") [Var "i"]))]];
    Func "ShapeInferContext" "GetAttrFloat" (Some (ByValue, Ty "float"))
      [Arg ByValue (Ptr (Const (Ty "char"))) "attr_name"] false false []
      [Decl ByValue (Ptr (Const (Ty "auto"))) "attr" (Some (Fun "GetAttrHdl" [Var "attr_name"]));
       Decl ByValue (Ty "float") "f" (Some (New (Ty "") []));
       Decl ByValue (Ty "size_t") "out" (Some (New (Ty "") []));
       ThrowOnError
         (Slot_ "ReadOpAttr"
            [Var "attr"; Name "ORT_OP_ATTR_FLOAT"; Addr (Var "f"); Lit "sizeof(f)"; Addr (Var "out")]);
       Return (Some (Var "f"))];
    Func "ShapeInferContext" "GetAttrFloats" (Some (ByValue, Ty "ShapeInferContext::Floats"))
      [Arg ByValue (Ptr (Const (Ty "char"))) "attr_name"] false false []
      [Decl ByValue (Ptr (Const (Ty "auto"))) "attr" (Some (Fun "GetAttrHdl" [Var "attr_name"]));
       Decl ByValue (Ty "float") "f" (Some (New (Ty "") []));
       Decl ByValue (Ty "size_t") "out" (Some (New (Ty "") []));
       Decl ByValue (Ty "auto") "status"
         (Some
            (Slot_ "ReadOpAttr"
               [Var "attr"; Name "ORT_OP_ATTR_FLOATS"; Addr (Var "f"); Lit "sizeof(f)"; Addr (Var "out")]));
       If (Var "status")
         [Decl ByValue (Ty "size_t") "num_f" (Some (Op "/" [Var "out"; Lit "sizeof(float)"]));
          Decl ByValue (Ty "ShapeInferContext::Floats") "floats"
            (Some (New (Ty "ShapeInferContext::Floats") [Var "num_f"; Lit "0"]));
          ThrowOnError
            (Slot_ "ReadOpAttr"
               [Var "attr";
                Name "ORT_OP_ATTR_FLOATS";
                Method (Var "floats") "data" [];
                Var "out";
                Addr (Var "out")]);
          Return (Some (Var "floats"))]
         [If (Op "==" [Var "out"; Lit "0u"]) [Return (Some (New (Ty "") []))] [];
          Return (Some (New (Ty "") [Var "f"]))]] ].

(** Lines 2118-2168. *)
Definition inline_18 : list func :=
  [ Func "ShapeInferContext" "GetAttrString" (Some (ByValue, Ty "std::string"))
      [Arg ByValue (Ptr (Const (Ty "char"))) "attr_name"] false false []
      [Decl ByValue (Ptr (Const (Ty "auto"))) "attr" (Some (Fun "GetAttrHdl" [Var "attr_name"]));
       Decl ByValue (Ty "char") "c" (Some (New (Ty "") []));
       Decl ByValue (Ty "size_t") "out" (Some (New (Ty "") []));
       Decl ByValue (Ty "auto") "status"
         (Some
            (Slot_ "ReadOpAttr"
               [Var "attr"; Name "ORT_OP_ATTR_STRING"; Addr (Var "c"); Lit "sizeof(char)"; Addr (Var "out")]));
       If (Var "status")
         [Decl ByValue (Ty "std::vector<char>") "chars"
            (Some (New (Ty "std::vector<char>") [Var "out"; Lit "'\0'"]));
          ThrowOnError
            (Slot_ "ReadOpAttr"
               [Var "attr";
                Name "ORT_OP_ATTR_STRING";
                Method (Var "chars") "data" [];
                Var "out";
                Addr (Var "out")]);
          Return (Some (New (Ty "") [Method (Var "chars") "data" []]))] [Return (Some (New (Ty "") [Var "c"]))]];
    Func "ShapeInferContext" "GetAttrStrings" (Some (ByValue, Ty "ShapeInferContext::Strings"))
      [Arg ByValue (Ptr (Const (Ty "char"))) "attr_name"] false false []
      [Decl ByValue (Ptr (Const (Ty "auto"))) "attr" (Some (Fun "GetAttrHdl" [Var "attr_name"]));
       Decl ByValue (Ty "char") "c" (Some (New (Ty "") []));
       Decl ByValue (Ty "size_t") "out" (Some (New (Ty "") []));
       Decl ByValue (Ty "auto") "status"
         (Some
            (Slot_ "ReadOpAttr"
               [Var "attr"; Name "ORT_OP_ATTR_STRINGS"; Addr (Var "c"); Lit "sizeof(char)"; Addr (Var "out")]));
       If (Var "status")
         [Decl ByValue (Ty "std::vector<char>") "chars"
            (Some (New (Ty "std::vector<char>") [Var "out"; Lit "'\0'"]));
          ThrowOnError
            (Slot_ "ReadOpAttr"
               [Var "attr";
                Name "ORT_OP_ATTR_STRINGS";
                Method (Var "chars") "data" [];
                Var "out";
                Addr (Var "out")]);
          Decl ByValue (Ty "ShapeInferContext::Strings") "strings" None;
          Decl ByValue (Ptr (Ty "char")) "char_st" (Some (Method (Var "chars") "data" []));
          Decl ByValue (Ptr (Ty "char")) "char_ed" (Some (Op "+" [Var "char_st"; Var "out"]));
          While (Op "<" [Var "char_st"; Var "char_ed"])
            [Expr (Method (Var "strings") "emplace_back" [Var "char_st"]);
             While (Op "!=" [Deref (Var "char_st"); Lit "'\0'"]) [Expr (Op "post++" [Var "char_st"])];
             Expr (Op "post++" [Var "char_st"])];
          Return (Some (Var "strings"))]
         [If (Op "==" [Var "out"; Lit "0u"]) [Return (Some (New (Ty "") []))] [];
          Return (Some (New (Ty "") [New (Ty "std::string") [Var "c"]]))]];
    Func "ShapeInferContext" "GetAttrHdl" (Some (ByValue, Ptr (Const (Ty "OrtOpAttr"))))
      [Arg ByValue (Ptr (Const (Ty "char"))) "attr_name"] true false []
      [Decl ByValue (Ptr (Const (Ty "OrtOpAttr"))) "attr_hdl" (Some (New (Ty "") []));
       ThrowOnError
         (Slot_ "ShapeInferContext_GetAttribute" [Member_ "ctx_"; Var "attr_name"; Addr (Var "attr_hdl")]);
       Return (Some (Var "attr_hdl"))] ].

Definition wrappers : list func :=
  inline_1 ++ inline_2 ++ inline_3 ++ inline_4 ++ inline_5 ++ inline_6 ++ inline_7 ++ inline_8 ++ inline_9 ++
  inline_10 ++ inline_11 ++ inline_12 ++ inline_13 ++ inline_14 ++ inline_15 ++ inline_16 ++ inline_17 ++
  inline_18.

(** The functions whose bodies are left out. *)
Definition untranslated : list func :=
  [ Func "BFloat16_t" "operator<" (Some (ByValue, Ty "bool")) [Arg ByRef (Const (Ty "BFloat16_t")) "rhs"] true true
      [] [];
    Func "MemoryAllocation" "MemoryAllocation" None [Arg ByMove (Ty "MemoryAllocation") "o"] false true [] [];
    Func "MemoryAllocation" "operator=" (Some (ByRef, Ty "MemoryAllocation"))
      [Arg ByMove (Ty "MemoryAllocation") "o"] false true [] [];
    Func "" "GetOutputValuesHelper" (Some (ByValue, Ty "std::vector<Value>"))
      [Arg ByValue (Ptr (Const (Ty "OrtIoBinding"))) "binding"; Arg ByValue (Ptr (Ty "OrtAllocator")) "allocator"]
      false false [] [];
    Func "ModelMetadata" "GetCustomMetadataMapKeysAllocated" (Some (ByValue, Ty "std::vector<AllocatedStringPtr>"))
      [Arg ByValue (Ptr (Ty "OrtAllocator")) "allocator"] true false [] [];
    Func "Logger" "LogFormattedMessage" (Some (ByValue, Ty "Status"))
      [Arg ByValue (Ty "OrtLoggingLevel") "log_severity_level";
       Arg ByValue (Ptr (Const (Ty "ORTCHAR_T"))) "file_path";
       Arg ByValue (Ty "int") "line_number";
       Arg ByValue (Ptr (Const (Ty "char"))) "func_name";
       Arg ByValue (Ptr (Const (Ty "char"))) "format";
       Arg ByMove (Ty "Args...") "args"] true true [] [];
    Func "" "GetAvailableProviders" (Some (ByValue, Ty "std::vector<std::string>")) [] false false [] [] ].
