(* ===== verification/CxxSem.v ===== *)
(** * CxxSem: ownership in the C++ wrappers of ONNX Runtime

    A big-step semantics of the fragment of [Cxx], for every answer the slots of [OrtApi] can give: what a
    local holds, which objects the function has received and must pass on, how it is left.  An analysis of
    function bodies and its soundness for the semantics. *)

From stdpp Require Import fin_maps.
From S2P Require Import Prelude OrtApi Cxx CxxApi.
Local Open Scope string_scope.
#[local] Set Warnings "-clear-no-such-hyp".

(** ** Classes and what they own *)

Definition strip (p s : string) : string :=
  if String.prefix p s then String.substring (String.length p) (String.length s - String.length p) s else s.
(** A name without its namespace, and without template arguments. *)
Definition plain (n : string) : string := strip "detail::" (strip "Ort::" n).
Definition head_of (n : string) : string :=
  match String.index 0 "<" n with Some i => String.substring 0 i n | None => n end.

Definition find_class (n : string) : option cls := snd <$> list_find (fun k => k_name k = n) classes.
Definition find_alias (n : string) : option (string * handle) := snd <$> (snd <$> list_find (fun a => a.1 = n) aliases).

(** What an instance of class [c] at [h] holds: up the bases to [detail::Base<...>]. *)
Fixpoint holds (fuel : nat) (c : string) (h : handle) : option handle :=
  match fuel with
  | O => None
  | S n => if c =? "Base" then Some h
           else match find_class c ≫= k_base with
                | Some (b, TParam) => holds n b h
                | Some (b, a) => holds n b a
                | None => None
                end
  end.
Definition handle_of (n : string) : option handle :=
  match find_alias (plain n) with
  | Some (c, h) => holds 5 c h
  | None => holds 5 (plain n) TParam
  end.

(** [~Base]: the class of objects that a value of the class type [n] releases. *)
Definition owner (n : string) : option string :=
  match handle_of n with Some (Owned c) => Some c | _ => None end.

(** ** Expressions *)

(** What a construction takes over, and from which variable: an object of a class, or a ["buffer"] of an
    allocator. *)
Definition adopts (e : expr) : option (string * string) :=
  match e with
  | New (Ty n) args =>
      if String.prefix "std::unique_ptr<" n then
        match args with
        | [Var x; Release s] => c ← (snd <$> ort_slot s) ≫= released_class; Some (c, x)
        | [Var x; _] => Some ("buffer", x)
        | _ => None
        end
      else if n =? "AllocatedStringPtr" then match args with [Var x; _] => Some ("buffer", x) | _ => None end
      else if n =? "MemoryAllocation" then match args with [_; Var x; _] => Some ("buffer", x) | _ => None end
      else match args with [Var x] => c ← owner n; Some (c, x) | _ => None end
  | _ => None
  end.

(** The variables whose value is read. *)
Fixpoint uses (e : expr) : list string :=
  match e with
  | Var x => [x]
  | Addr (Var _) => []
  | Addr e | Deref e | Cast _ e | Dot e _ => uses e
  | Index_ e i => uses e ++ uses i
  | New _ args | Slot_ _ args | Fun _ args | Op _ args => concat (map uses args)
  | Method e _ args => uses e ++ concat (map uses args)
  | _ => []
  end.

(** No exception leaves the evaluation: no call but of slots, of functions that only inspect, or of
    constructors that only store. *)
Fixpoint quiet (e : expr) : bool :=
  match e with
  | Addr e | Deref e | Cast _ e | Dot e _ => quiet e
  | Index_ e i => quiet e && quiet i
  | Slot_ _ args | Op _ args => forallb quiet args
  | Fun f args => bool_decide (f ∈ ["std::move"; "std::swap"]) && forallb quiet args
  | Method e f args => bool_decide (f ∈ ["data"; "size"; "c_str"; "length"; "empty"; "release"; "swap"; "what"]) && quiet e && forallb quiet args
  | New (Ty n) args =>
      (bool_decide (is_Some (adopts (New (Ty n) args))) || bool_decide (is_Some (handle_of n)) || (n =? "detail::AllocatedFree")
       || bool_decide (args = []) && ((n =? "") || negb (String.prefix "std::" n))) && forallb quiet args
  | New _ args => bool_decide (args = [])
  | _ => true
  end.

(** ** Slots *)

Definition is_out (p : sparam) : bool :=
  match p_sal p with
  | Out_ | Outptr_ | Outptr_result_maybenull_ | Out_writes_all_ _ | Out_writes_bytes_all_ _ | Outptr_result_buffer_maybenull_ _ => true
  | _ => false
  end.
(** [&x], or a cast of it. *)
Fixpoint target (e : expr) : option string :=
  match e with Addr (Var x) => Some x | Cast _ e => target e | _ => None end.

(** Objects a slot hands out that stay somebody else's: the default allocator ("should NOT be freed"), the
    contained type of an optional ("owned by OrtOptionalTypeInfo instance"), a kernel's output, and the shape
    of an input during shape inference. *)
Definition lent : list (string * string) :=
  [ ("GetAllocatorWithDefaultOptions", "out"); ("GetOptionalContainedTypeInfo", "out");
    ("KernelContext_GetOutput", "out"); ("ShapeInferContext_GetInputTypeShape", "info") ].
Definition takes_allocator (s : slot) : bool := existsb (fun p => bool_decide (p_ty p = Ptr (Ty "OrtAllocator"))) (s_params s).

(** What the caller receives through parameter [p]: an object ([out_class]), or a buffer allocated with the
    allocator passed to the slot. *)
Definition received (s : slot) (p : sparam) : option string :=
  if bool_decide ((s_name s, p_arg p) ∈ lent) then None
  else match out_class p, p_ty p with
       | Some c, _ => Some c
       | None, Ptr (Ptr (Ty _)) => if takes_allocator s && is_out p then Some "buffer" else None
       | _, _ => None
       end.

Definition outs (s : slot) (args : list expr) : list (string * option string) :=
  omap (fun '(p, a) => if is_out p then x ← target a; Some (x, received s p) else None) (zip (s_params s) args).
(** A local whose address is passed must be set, unless the slot writes it. *)
Definition call_uses (s : slot) (args : list expr) : list string :=
  zip (s_params s) args ≫= fun '(p, a) => match target a with Some x => if is_out p then [] else [x] | None => uses a end.

(** ** Stores *)

(** What a local holds: nothing yet, a null pointer, a plain value (or a pointer to somebody else's object), a
    pointer to an object the function must pass on, or an object that has taken one over. *)
Inductive cell := Unset | Null | Data | Obj (id : nat) | Holder.
#[export] Instance cell_eq_dec : EqDecision cell.
Proof. solve_decision. Defined.

(** [owed]: the objects received and not yet passed on, by kind: the class, ["buffer"], or ["borrowed"] for a
    smart pointer that would release somebody else's object. *)
Record store := Store { cells : gmap string cell; owed : gmap nat string }.
Definition put (x : string) (c : cell) (s : store) : store := Store (<[x := c]> (cells s)) (owed s).
Definition owe (id : nat) (k : string) (s : store) : store := Store (cells s) (<[id := k]> (owed s)).
Definition pass (id : nat) (s : store) : store := Store (cells s) (delete id (owed s)).

Definition is_set (s : store) (x : string) : Prop := exists c, cells s !! x = Some c /\ c <> Unset.

Inductive outcome := Next | Returned | Thrown | Wrong.

(** ** Evaluation *)

Inductive effect := Calls (sl : slot) (args : list expr) | Adopts (k y : string) | Disarms (y : string) | Nothing.
Definition effect_of (e : expr) : effect :=
  match e with
  | Slot_ s args => match ort_slot s with Some (_, sl) => Calls sl args | None => Nothing end
  | Method (Var y) "release" [] => Disarms y
  | _ => match adopts e with Some (k, y) => Adopts k y | None => Nothing end
  end.
Definition reads (e : expr) : list string :=
  match effect_of e with Calls sl args => call_uses sl args | _ => uses e end.
Definition fails (sl : slot) : bool := match s_ret sl with R_status => true | _ => false end.

(** A successful call writes its out-parameters. *)
Inductive written : list (string * option string) -> store -> store -> Prop :=
| w_nil s : written [] s s
| w_data x l s s' : written l (put x Data s) s' -> written ((x, None) :: l) s s'
| w_null x k l s s' : written l (put x Null s) s' -> written ((x, Some k) :: l) s s'
| w_object x k id l s s' : owed s !! id = None -> written l (put x (Obj id) (owe id k s)) s' -> written ((x, Some k) :: l) s s'.

Definition value_of (e : expr) : cell := match e with Lit "nullptr" => Null | _ => Data end.
(** The value of an expression.  A call that fails answers a status, an object of its own, and writes
    nothing; a smart pointer made from a pointer to somebody else's object is itself something to undo. *)
Inductive eval : expr -> store -> cell -> store -> Prop :=
| ev_call e sl args s s' : effect_of e = Calls sl args -> written (outs sl args) s s' -> eval e s (if fails sl then Null else Data) s'
| ev_fail e sl args id s : effect_of e = Calls sl args -> fails sl = true -> owed s !! id = None -> eval e s (Obj id) (owe id "OrtStatus" s)
| ev_adopt e k y id s : effect_of e = Adopts k y -> cells s !! y = Some (Obj id) -> owed s !! id = Some k ->
    eval e s Holder (put y Data (pass id s))
| ev_adopt_null e k y s : effect_of e = Adopts k y -> cells s !! y = Some Null -> eval e s Null s
| ev_borrow e k y id s : effect_of e = Adopts k y -> cells s !! y = Some Data \/ cells s !! y = Some Holder -> owed s !! id = None ->
    eval e s (Obj id) (owe id "borrowed" s)
| ev_disarm e y id s : effect_of e = Disarms y -> cells s !! y = Some (Obj id) -> owed s !! id = Some "borrowed" ->
    eval e s Data (put y Data (pass id s))
| ev_disarm_none e y s : effect_of e = Disarms y -> cells s !! y = Some Null \/ cells s !! y = Some Data -> eval e s Data s
| ev_value e s : effect_of e = Nothing -> eval e s (value_of e) s.

(** ** Statements *)

(** Types without a constructor: a local of such a type starts without a value. *)
Fixpoint scalar (t : cty) : bool :=
  match t with
  | Ptr _ | Fn _ _ => true
  | Const t => scalar t
  | Ty n => bool_decide (String.index 0 ":" n = None) && bool_decide (find_class n = None) && bool_decide (find_alias n = None)
  end.

Definition operand (st : stmt) : option expr :=
  match st with
  | Decl _ _ _ (Some e) | Expr e | ThrowOnError e | ReturnOnFail e | Assign _ _ e | Return (Some e) => Some e
  | _ => None
  end.
(** [x = ...;] *)
Definition set_target (op : string) (l : expr) : option string :=
  if op =? "=" then match l with Var x => Some x | _ => None end else None.
Definition other_operands (st : stmt) : list expr :=
  match st with Throw args => args | Assign op l _ => match set_target op l with Some _ => [] | None => [l] end | _ => [] end.
Definition stmt_reads (st : stmt) : list string := from_option reads [] (operand st) ++ concat (map uses (other_operands st)).
Definition stmt_quiet (st : stmt) : bool :=
  from_option quiet true (operand st) && forallb quiet (other_operands st)
  && match st with Decl _ t _ None => scalar t || match t with Ty n => String.prefix "std::" n | _ => false end | _ => true end.

(** [return x;] of a pointer hands the object to the caller. *)
Definition hand_over (e : expr) (s : store) : store :=
  match e with
  | Var x => match cells s !! x with
             | Some (Obj id) => if bool_decide (owed s !! id = Some "borrowed") then s else pass id s
             | _ => s
             end
  | _ => s
  end.

Inductive step1 : stmt -> store -> outcome -> store -> Prop :=
| s_unset st s : ~ Forall (is_set s) (stmt_reads st) -> step1 st s Wrong s
| s_stuck st e s : operand st = Some e -> ~ (exists c s', eval e s c s') -> step1 st s Wrong s
| s_throws st s : stmt_quiet st = false -> step1 st s Thrown s
| s_decl p t x s : step1 (Decl p t x None) s Next (put x (if scalar t then Unset else Data) s)
| s_init p t x e c s s' : eval e s c s' -> step1 (Decl p t x (Some e)) s Next (put x c s')
| s_expr e c s s' : eval e s c s' -> step1 (Expr e) s Next s'
| s_set op l x e c s s' : set_target op l = Some x -> eval e s c s' -> step1 (Assign op l e) s Next (put x c s')
| s_assign op l e c s s' : set_target op l = None -> eval e s c s' -> step1 (Assign op l e) s Next s'
| s_checked e s s' : eval e s Null s' -> step1 (ThrowOnError e) s Next s'
| s_check_throws e id s s' : eval e s (Obj id) s' -> step1 (ThrowOnError e) s Thrown (pass id s')
| s_check_wrong e c s s' : eval e s c s' -> c = Data \/ c = Holder -> step1 (ThrowOnError e) s Wrong s'
| s_passed e s s' : eval e s Null s' -> step1 (ReturnOnFail e) s Next s'
| s_pass_returns e id s s' : eval e s (Obj id) s' -> step1 (ReturnOnFail e) s Returned (pass id s')
| s_pass_wrong e c s s' : eval e s c s' -> c = Data \/ c = Holder -> step1 (ReturnOnFail e) s Wrong s'
| s_throw args s : step1 (Throw args) s Thrown s
| s_return s : step1 (Return None) s Returned s
| s_return_value e c s s' : eval e s c s' -> step1 (Return (Some e)) s Returned (hand_over e s').

Definition compound (st : stmt) : bool := match st with If _ _ _ | For _ _ _ _ | ForEach _ _ _ _ _ | While _ _ => true | _ => false end.

(** A pointer tested for null decides; any other condition may go either way. *)
Definition truth (c : expr) (s : store) (b : bool) : Prop :=
  match c with
  | Var x => match cells s !! x with Some Null => b = false | Some (Obj _) => b = true | _ => True end
  | _ => True
  end.

(** Evaluating the condition of a compound statement can itself go wrong, or throw. *)
Definition condition (st : stmt) : option expr :=
  match st with If c _ _ | While c _ => Some c | ForEach _ _ _ e _ => Some e | _ => None end.

Inductive exec : stmt -> store -> outcome -> store -> Prop :=
| x_simple st s o s' : compound st = false -> step1 st s o s' -> exec st s o s'
| x_unset st c s : condition st = Some c -> ~ Forall (is_set s) (uses c) -> exec st s Wrong s
| x_throws st c s : condition st = Some c -> quiet c = false -> exec st s Thrown s
| x_if c t e b s o s' : truth c s b -> execs (if b then t else e) s o s' -> exec (If c t e) s o s'
| x_while_end c b s : truth c s false -> exec (While c b) s Next s
| x_while_again c b s s1 o s' : truth c s true -> execs b s Next s1 -> exec (While c b) s1 o s' -> exec (While c b) s o s'
| x_while_exit c b s o s' : truth c s true -> execs b s o s' -> o <> Next -> exec (While c b) s o s'
| x_for_init i c st b s o s' : execs i s o s' -> o <> Next -> exec (For i c st b) s o s'
| x_for i c st b s s1 o s' : execs i s Next s1 -> exec (While c (b ++ [Expr st])) s1 o s' -> exec (For i c st b) s o s'
| x_each_end p t x e b s : exec (ForEach p t x e b) s Next s
| x_each_again p t x e b s s1 o s' : execs b (put x Data s) Next s1 -> exec (ForEach p t x e b) s1 o s' -> exec (ForEach p t x e b) s o s'
| x_each_exit p t x e b s o s' : execs b (put x Data s) o s' -> o <> Next -> exec (ForEach p t x e b) s o s'
with execs : list stmt -> store -> outcome -> store -> Prop :=
| x_nil s : execs [] s Next s
| x_cons st l s s1 o s' : exec st s Next s1 -> execs l s1 o s' -> execs (st :: l) s o s'
| x_exit st l s o s' : exec st s o s' -> o <> Next -> execs (st :: l) s o s'.

Scheme exec_ind2 := Minimality for exec Sort Prop with execs_ind2 := Minimality for execs Sort Prop.
Combined Scheme exec_execs_ind from exec_ind2, execs_ind2.

(** ** The analysis *)

(** What the analysis knows of a local: it has no value; it is not an object of the function; it may hold one
    that it has taken over; it is null or an object of a kind that is still owed. *)
Inductive known := KUnset | KData | KHolder | KOwned (k : string).
#[export] Instance known_eq_dec : EqDecision known.
Proof. solve_decision. Defined.
Abbreviation facts := (gmap string known).

Definition owned (k : known) : bool := match k with KOwned _ => true | _ => false end.
Definition unowned (a : facts) (x : string) : bool := match a !! x with Some k => negb (owned k) | None => true end.
Definition known_set (a : facts) (x : string) : bool := match a !! x with Some KUnset | None => false | _ => true end.
Definition settled (a : facts) : bool := bool_decide (map_Forall (fun _ k => owned k = false) a).

Definition assign (x : string) (k : known) (a : facts) : option facts := if unowned a x then Some (<[x := k]> a) else None.

Fixpoint write (l : list (string * option string)) (a : facts) : option facts :=
  match l with
  | [] => Some a
  | (x, w) :: l => a ← assign x (from_option KOwned KData w) a; write l a
  end.

Definition keeps (l : list (string * option string)) (a : facts) : bool :=
  forallb (fun '(x, w) => bool_decide (w = None /\ a !! x = Some KData)) l.

Definition evaluate (e : expr) (a : facts) : option (known * facts) :=
  match effect_of e with
  | Calls sl args =>
      if fails sl then if keeps (outs sl args) a then Some (KOwned "OrtStatus", a) else None
      else (fun a' => (KData, a')) <$> write (outs sl args) a
  | Adopts k y =>
      match a !! y with
      | Some (KOwned k') => if bool_decide (k' = k) then Some (KHolder, <[y := KData]> a) else None
      | Some KData | Some KHolder => Some (KOwned "borrowed", a)
      | _ => None
      end
  | Disarms y =>
      match a !! y with
      | Some (KOwned k) => if bool_decide (k = "borrowed") then Some (KData, <[y := KData]> a) else None
      | Some KData => Some (KData, a)
      | _ => None
      end
  | Nothing => Some (KData, a)
  end.

(** The facts after a statement; [None] inside: it is not passed. *)
Definition result : Type := option (option facts).
Definition next (a : option facts) : result := Some <$> a.
Definition exits (b : bool) : result := if b then Some None else None.

Definition returned (e : expr) (a : facts) : facts :=
  match e with
  | Var x => match a !! x with Some (KOwned k) => if bool_decide (k = "borrowed") then a else <[x := KData]> a | _ => a end
  | _ => a
  end.

Definition analyse1 (st : stmt) (a : facts) : result :=
  if forallb (known_set a) (stmt_reads st) && (stmt_quiet st || settled a) then
    match st with
    | Decl _ t x None => next (assign x (if scalar t then KUnset else KData) a)
    | Decl _ _ x (Some e) => '(k, a) ← evaluate e a; next (assign x k a)
    | Assign op l e =>
        '(k, a) ← evaluate e a;
        match set_target op l with Some x => next (assign x k a) | None => if owned k then None else Some (Some a) end
    | Expr e => '(k, a) ← evaluate e a; if owned k then None else Some (Some a)
    | ThrowOnError e | ReturnOnFail e =>
        match effect_of e with
        | Calls sl args => if fails sl && settled a then next (write (outs sl args) a) else None
        | _ => None
        end
    | Throw _ | Return None => exits (settled a)
    | Return (Some e) => '(k, a) ← evaluate e a; exits (negb (owned k) && settled (returned e a))
    | _ => None
    end
  else None.

(** Locals of a block end with it; none of them may still owe. *)
Definition leave (a a' : facts) : option facts :=
  if bool_decide (map_Forall (fun x k => a !! x = None -> owned k = false) a') then Some (filter (fun '(x, _) => is_Some (a !! x)) a') else None.
Definition join (a : facts) (r1 r2 : option facts) : result :=
  match r1, r2 with
  | None, None => Some None
  | Some a1, None => next (leave a a1)
  | None, Some a2 => next (leave a a2)
  | Some a1, Some a2 => a1 ← leave a a1; a2 ← leave a a2; if bool_decide (a1 = a2) then Some (Some a1) else None
  end.
(** A loop's body must give back the facts it starts from. *)
Definition stable (a : facts) (r : result) : bool :=
  match r with
  | Some None => true
  | Some (Some a') => bool_decide (leave a a' = Some a)
  | None => false
  end.
Definition tested (c : expr) (a : facts) : bool := forallb (known_set a) (uses c) && (quiet c || settled a).

(** What a test tells: a pointer that tested false is null. *)
Definition assume (c : expr) (b : bool) (a : facts) : facts :=
  match c, b with
  | Var x, false => match a !! x with Some (KOwned _) => <[x := KData]> a | _ => a end
  | _, _ => a
  end.

Definition bind (r : result) (f : facts -> result) : result := match r with Some (Some a) => f a | _ => r end.

Fixpoint analyse (st : stmt) (a : facts) : result :=
  let block := fix block (l : list stmt) (a : facts) : result :=
    match l with [] => Some (Some a) | st :: l => bind (analyse st a) (block l) end in
  match st with
  | If c t e => if tested c a then r1 ← block t (assume c true a); r2 ← block e (assume c false a); join a r1 r2 else None
  | While c b => if tested c a && stable a (block b a) then Some (Some a) else None
  | For i c st b =>
      bind (block i a) (fun a => if tested c a && stable a (bind (block b a) (analyse1 (Expr st))) then Some (Some a) else None)
  | ForEach _ _ x e b =>
      if tested e a && unowned a x && stable a (block b (<[x := KData]> a)) then Some (Some a) else None
  | _ => analyse1 st a
  end.
Fixpoint analyse_block (l : list stmt) (a : facts) : result :=
  match l with [] => Some (Some a) | st :: l => bind (analyse st a) (analyse_block l) end.

(** ** Soundness *)

Ltac at_key := repeat rewrite lookup_insert_eq.
Ltac off_key := repeat rewrite lookup_insert_ne by (done || congruence).

Definition knows (s : store) (k : known) (c : option cell) : Prop :=
  match k with
  | KUnset => c = Some Unset
  | KData => c = Some Null \/ c = Some Data
  | KHolder => c = Some Null \/ c = Some Holder
  | KOwned k => c = Some Null \/ exists id, c = Some (Obj id) /\ owed s !! id = Some k
  end.

(** The facts hold in the store, and every obligation is one they know of. *)
Record rep (s : store) (a : facts) : Prop := {
  rep_cell x k : a !! x = Some k -> knows s k (cells s !! x);
  rep_owed id k : owed s !! id = Some k -> exists x, a !! x = Some (KOwned k) /\ cells s !! x = Some (Obj id);
  rep_apart x y k k' id : a !! x = Some (KOwned k) -> a !! y = Some (KOwned k') ->
    cells s !! x = Some (Obj id) -> cells s !! y = Some (Obj id) -> x = y }.

Lemma rep_settled s a : rep s a -> settled a = true -> owed s = ∅.
Proof.
  intros [_ Ho _] Hs%bool_decide_eq_true. apply map_eq. intros id. rewrite lookup_empty.
  destruct (owed s !! id) as [k|] eqn:E; [|done]. destruct (Ho _ _ E) as (x & Hx & _). by apply Hs in Hx.
Qed.

Lemma unowned_not a x k : unowned a x = true -> a !! x <> Some (KOwned k).
Proof. unfold unowned. intros H E. by rewrite E in H. Qed.

Lemma knows_owe s k c id q : owed s !! id = None -> knows s k c -> knows (owe id q s) k c.
Proof.
  intros Hid. destruct k; simpl; try done. intros [?|(i & ? & Hi)]; [by left|]. right. exists i. split; [done|].
  off_key. done.
Qed.

Lemma rep_put s a x c k : rep s a -> unowned a x = true -> owned k = false -> knows s k (Some c) -> rep (put x c s) (<[x := k]> a).
Proof.
  intros [Hc Ho Ha] Hx Hk Hn. split; simpl.
  - intros y q. destruct (decide (x = y)) as [->|Hne].
    + at_key. intros [= <-]. by destruct k.
    + off_key. apply Hc.
  - intros id q Hq. destruct (Ho _ _ Hq) as (y & Hy & Hyc). assert (x <> y) by (intros ->; by apply (unowned_not _ _ q Hx)).
    exists y. off_key; done.
  - intros y z q q' id. destruct (decide (x = y)) as [->|Hy]; [at_key; intros [= ->]; done|].
    destruct (decide (x = z)) as [->|Hz]; [intros _; at_key; intros [= ->]; done|].
    off_key. apply Ha.
Qed.

Lemma rep_put_null s a x k : rep s a -> unowned a x = true -> rep (put x Null s) (<[x := KOwned k]> a).
Proof.
  intros [Hc Ho Ha] Hx. split; simpl.
  - intros y q. destruct (decide (x = y)) as [->|Hne].
    + at_key. intros [= <-]. by left.
    + off_key. apply Hc.
  - intros id q Hq. destruct (Ho _ _ Hq) as (y & Hy & Hyc). assert (x <> y) by (intros ->; by apply (unowned_not _ _ q Hx)).
    exists y. off_key; done.
  - intros y z q q' id. destruct (decide (x = y)) as [->|Hy]; [at_key; intros; congruence|].
    destruct (decide (x = z)) as [->|Hz]; [at_key; intros; congruence|]. off_key. apply Ha.
Qed.

Lemma rep_put_object s a x k id : rep s a -> unowned a x = true -> owed s !! id = None ->
  rep (put x (Obj id) (owe id k s)) (<[x := KOwned k]> a).
Proof.
  intros [Hc Ho Ha] Hx Hid. split; simpl.
  - intros y q. destruct (decide (x = y)) as [->|Hne].
    + at_key. intros [= <-]. right. exists id. simpl. at_key. done.
    + off_key. intros Hq. by apply (knows_owe s), Hc.
  - intros i q. destruct (decide (id = i)) as [->|Hi].
    + at_key. intros [= ->]. exists x. at_key; done.
    + off_key. intros Hq. destruct (Ho _ _ Hq) as (y & Hy & Hyc).
      assert (y <> x) by (intros ->; by apply (unowned_not _ _ q Hx)). exists y. off_key; done.
  - assert (forall y q, y <> x -> a !! y = Some (KOwned q) -> cells s !! y <> Some (Obj id)) as Hfresh.
    { intros y q _ Hq Hy. specialize (Hc _ _ Hq) as [?|(i & Hi & Hi')]; congruence. }
    intros y z q q' i. destruct (decide (y = x)) as [->|Hy], (decide (z = x)) as [->|Hz]; try done; at_key; off_key.
    + intros _ Hq [= <-] Hz'. by destruct (Hfresh z q').
    + intros Hq _ Hy' [= <-]. by destruct (Hfresh y q).
    + apply Ha.
Qed.

(** An object that is passed on. *)
Lemma rep_pass s a y k id : rep s a -> a !! y = Some (KOwned k) -> cells s !! y = Some (Obj id) ->
  rep (put y Data (pass id s)) (<[y := KData]> a).
Proof.
  intros [Hc Ho Ha] Hy Hid. split; simpl.
  - intros x q. destruct (decide (y = x)) as [->|Hne]; [at_key; intros [= <-]; by right|].
    off_key. intros Hq. specialize (Hc _ _ Hq). destruct q; try done. destruct Hc as [?|(i & Hi & Hi')]; [by left|].
    right. exists i. split; [done|]. simpl. rewrite lookup_delete_ne; [done|]. intros <-. by apply Hne, (Ha y x k k0 id).
  - intros i q. destruct (decide (id = i)) as [->|Hi]; [by rewrite lookup_delete_eq|]. rewrite lookup_delete_ne by done. intros Hq.
    destruct (Ho _ _ Hq) as (x & Hx & Hxc). exists x. off_key. done.
  - intros x z q q' i. destruct (decide (y = x)) as [->|Hx]; [at_key; intros; congruence|].
    destruct (decide (y = z)) as [->|Hz]; [at_key; intros; congruence|]. off_key. apply Ha.
Qed.

Lemma rep_null s a y k : rep s a -> a !! y = Some (KOwned k) -> cells s !! y = Some Null -> rep s (<[y := KData]> a).
Proof.
  intros [Hc Ho Ha] Hy Hn. split.
  - intros x q. destruct (decide (y = x)) as [->|Hne]; [at_key; intros [= <-]; by left|]. off_key. apply Hc.
  - intros id q Hq. destruct (Ho _ _ Hq) as (x & Hx & Hxc). exists x. off_key. done.
  - intros x z q q' id. destruct (decide (y = x)) as [->|Hx]; [at_key; intros; congruence|].
    destruct (decide (y = z)) as [->|Hz]; [at_key; intros; congruence|]. off_key. apply Ha.
Qed.

Lemma rep_leave s a a' a2 : rep s a' -> leave a a' = Some a2 -> rep s a2.
Proof.
  unfold leave. case_bool_decide as Hf; [|done]. intros [Hc Ho Ha] [= <-]. split.
  - intros x k [Hx _]%map_lookup_filter_Some. by apply Hc.
  - intros id k Hk. destruct (Ho _ _ Hk) as (x & Hx & Hxc). exists x. split; [|done]. apply map_lookup_filter_Some. split; [done|].
    destruct (a !! x) eqn:E; [by eexists|]. by specialize (Hf _ _ Hx E).
  - intros x y k k' id [Hx _]%map_lookup_filter_Some [Hy _]%map_lookup_filter_Some. by apply (Ha x y k k').
Qed.

Lemma rep_set s a x : rep s a -> known_set a x = true -> is_set s x.
Proof.
  intros Hr Hk. unfold known_set in Hk. destruct (a !! x) as [k|] eqn:E; [|done]. pose proof (rep_cell _ _ Hr _ _ E) as Hc.
  unfold is_set. destruct k; simpl in Hc; try done; destruct Hc as [->|Hc]; try (by eexists).
  destruct Hc as (i & -> & _). by eexists.
Qed.
Lemma rep_reads s a l : rep s a -> forallb (known_set a) l = true -> Forall (is_set s) l.
Proof. intros Hr Hl. apply Forall_forall. intros x Hx. apply (rep_set _ a); [done|]. rewrite forallb_forall in Hl. by apply Hl, list_elem_of_In. Qed.

(** ** Calls and expressions *)

Lemma write_sound l : forall s a a' s', rep s a -> write l a = Some a' -> written l s s' -> rep s' a'.
Proof.
  induction l as [|[x w] l IH]; intros s a a' s' Hr Ha Hw; [by inversion Hw; simplify_eq/=|].
  simpl in Ha. unfold assign in Ha. destruct (unowned a x) eqn:Hx; [|done]. simpl in Ha.
  inversion Hw; subst; simpl in Ha; (eapply IH; [|exact Ha|eassumption]).
  - apply rep_put; try done. by right.
  - by apply rep_put_null.
  - by apply rep_put_object.
Qed.

Lemma keeps_write l a : keeps l a = true -> write l a = Some a.
Proof.
  induction l as [|[x w] l IH]; [done|]. simpl. rewrite andb_true_iff, bool_decide_eq_true. intros [[-> Hx] Hl]. unfold assign, unowned.
  rewrite Hx. simpl. rewrite insert_id by done. by apply IH.
Qed.

Lemma written_exists l : forall s, exists s', written l s s'.
Proof.
  induction l as [|[x [k|]] l IH]; intros s; [by exists s; constructor|..].
  - destruct (IH (put x Null s)) as [s' Hs']. exists s'. by apply w_null.
  - destruct (IH (put x Data s)) as [s' Hs']. exists s'. by apply w_data.
Qed.

(** A value of the kind [k] that is about to be stored, or dropped. *)
Definition holding (s : store) (a : facts) (c : cell) (k : known) : Prop :=
  (forall x, unowned a x = true -> rep (put x c s) (<[x := k]> a)) /\ (owned k = false -> rep s a).

Lemma holding_plain s a c k : rep s a -> owned k = false -> knows s k (Some c) -> holding s a c k.
Proof. intros Hr Hk Hc. split; [|done]. intros x Hx. by apply rep_put. Qed.
Lemma holding_object s a k id : rep s a -> owed s !! id = None -> holding (owe id k s) a (Obj id) (KOwned k).
Proof. intros Hr Hid. split; [|done]. intros x Hx. by apply rep_put_object. Qed.

Lemma evaluate_sound e s a k a' c s' : rep s a -> evaluate e a = Some (k, a') -> eval e s c s' -> holding s' a' c k.
Proof.
  intros Hr Ha He. unfold evaluate in Ha. destruct He as [e sl args s s' E Hw|e sl args id s E Hf Hid|e q y id s E Hy Hid|e q y s E Hy|e q y id s E Hy Hid|e y id s E Hy Hid|e y s E Hy|e s E]; rewrite E in Ha.
  - destruct (fails sl).
    + destruct (keeps _ a) eqn:Hk; [|done]. simplify_eq. apply keeps_write in Hk.
      assert (rep s' a') by (by eapply write_sound). split; [|done]. intros x Hx. by apply rep_put_null.
    + destruct (write _ a) eqn:Hk; [|done]. simplify_eq/=. apply holding_plain; [by eapply write_sound | done | by right].
  - rewrite Hf in Ha. destruct (keeps _ a); [|done]. simplify_eq. by apply holding_object.
  - destruct (a !! y) as [[| | |q']|] eqn:Ey; try done; pose proof (rep_cell _ _ Hr _ _ Ey) as Hc; simpl in Hc.
    + destruct Hc; congruence.
    + destruct Hc; congruence.
    + case_bool_decide; [|done]. simplify_eq. apply holding_plain; [by eapply rep_pass | done | by right].
  - destruct (a !! y) as [[| | |q']|] eqn:Ey; try done; pose proof (rep_cell _ _ Hr _ _ Ey) as Hc; simpl in Hc.
    + simplify_eq. split; [|done]. intros x Hx. by apply rep_put_null.
    + simplify_eq. split; [|done]. intros x Hx. by apply rep_put_null.
    + case_bool_decide; [|done]. simplify_eq. apply holding_plain; [by eapply rep_null | done | by left].
  - destruct (a !! y) as [[| | |q']|] eqn:Ey; try done; pose proof (rep_cell _ _ Hr _ _ Ey) as Hc; simpl in Hc.
    + simplify_eq. by apply holding_object.
    + simplify_eq. by apply holding_object.
    + destruct Hc as [?|(i & ? & _)]; destruct Hy; congruence.
  - destruct (a !! y) as [[| | |q']|] eqn:Ey; try done; pose proof (rep_cell _ _ Hr _ _ Ey) as Hc; simpl in Hc.
    + destruct Hc; congruence.
    + case_bool_decide; [|done]. simplify_eq. apply holding_plain; [by eapply rep_pass | done | by right].
  - destruct (a !! y) as [[| | |q']|] eqn:Ey; try done; pose proof (rep_cell _ _ Hr _ _ Ey) as Hc; simpl in Hc.
    + simplify_eq. apply holding_plain; [done | done | by right].
    + case_bool_decide; [|done]. simplify_eq. apply holding_plain; [| done | by right].
      destruct Hy as [Hy|Hy]; [by eapply rep_null|]. destruct Hc as [?|(i & ? & _)]; congruence.
  - simplify_eq. apply holding_plain; [done | done|]. unfold value_of. repeat (case_match; try by right). by left.
Qed.

Lemma eval_exists e s a k a' : rep s a -> evaluate e a = Some (k, a') -> exists c s', eval e s c s'.
Proof.
  intros Hr Ha. unfold evaluate in Ha. destruct (effect_of e) as [sl args|q y|y|] eqn:E.
  - destruct (written_exists (outs sl args) s) as [s' Hs']. by eexists _, _; eapply ev_call.
  - assert (owed s !! fresh (dom (owed s)) = None) as Hf by apply not_elem_of_dom, is_fresh.
    destruct (a !! y) as [[| | |q']|] eqn:Ey; try done; pose proof (rep_cell _ _ Hr _ _ Ey) as Hc; simpl in Hc.
    + destruct Hc; [by eexists _, _; eapply ev_adopt_null|]. eexists _, _. eapply ev_borrow; eauto.
    + destruct Hc; [by eexists _, _; eapply ev_adopt_null|]. eexists _, _. eapply ev_borrow; eauto.
    + case_bool_decide; [|done]. simplify_eq. destruct Hc as [?|(i & ? & ?)]; [by eexists _, _; eapply ev_adopt_null|].
      by eexists _, _; eapply ev_adopt.
  - destruct (a !! y) as [[| | |q']|] eqn:Ey; try done; pose proof (rep_cell _ _ Hr _ _ Ey) as Hc; simpl in Hc.
    + eexists _, _. by eapply ev_disarm_none.
    + case_bool_decide; [|done]. simplify_eq. destruct Hc as [?|(i & ? & ?)]; [eexists _, _; eapply ev_disarm_none; eauto|].
      by eexists _, _; eapply ev_disarm.
  - by eexists _, _; apply ev_value.
Qed.

(** The status of a checked call. *)
Lemma eval_call e sl args s c s' : effect_of e = Calls sl args -> fails sl = true -> eval e s c s' ->
  (c = Null /\ written (outs sl args) s s') \/ exists id, c = Obj id /\ s' = owe id "OrtStatus" s /\ owed s !! id = None.
Proof. intros E Hf He. destruct He; try congruence; [left | right; by eauto]. assert (sl0 = sl /\ args0 = args) as [-> ->] by (split; congruence). by rewrite Hf. Qed.

Lemma hand_over_settles e s a : rep s a -> settled (returned e a) = true -> owed (hand_over e s) = ∅.
Proof.
  intros Hr Hs. assert (settled a = true -> forall id, owed (pass id s) = ∅) as Hempty
    by (intros Ha id; simpl; rewrite (rep_settled s a Hr Ha); apply delete_empty).
  assert (settled a = true -> owed s = ∅) as Hs0 by (intros Ha; by apply (rep_settled s a)).
  destruct e; try (by apply Hs0). unfold returned, hand_over in *. destruct (a !! x) as [[| | |q]|] eqn:Ex;
    try (destruct (cells s !! x) as [[]|]; try case_bool_decide; by auto).
  pose proof (rep_cell _ _ Hr _ _ Ex) as Hc. case_bool_decide as Hb.
  - destruct (cells s !! x) as [[]|]; try case_bool_decide; by auto.
  - destruct Hc as [Hn|(id & Hid & Hq)].
    + rewrite Hn. apply (rep_settled s _ (rep_null _ _ _ _ Hr Ex Hn)). done.
    + rewrite Hid, bool_decide_false by congruence. apply (rep_settled (put x Data (pass id s)) _ (rep_pass _ _ _ _ _ Hr Ex Hid)). done.
Qed.

(** ** Statements *)

(** Never wrong; what is passed is known; whatever way the function is left, nothing is owed. *)
Definition sound (r : option facts) (o : outcome) (s : store) : Prop :=
  match o with
  | Next => exists a, r = Some a /\ rep s a
  | Returned | Thrown => owed s = ∅
  | Wrong => False
  end.

Lemma assign_sound s a c k x r : holding s a c k -> next (assign x k a) = Some r -> sound r Next (put x c s).
Proof. intros [Hh _] Ha. unfold assign in Ha. destruct (unowned a x) eqn:Hx; simplify_eq/=. eexists. split; [done|]. by apply Hh. Qed.

Lemma checked_sound e sl args s a c s' r : rep s a -> settled a = true -> effect_of e = Calls sl args -> fails sl = true ->
  next (write (outs sl args) a) = Some r -> eval e s c s' ->
  (c = Null /\ sound r Next s') \/ exists id, c = Obj id /\ owed (pass id s') = ∅.
Proof.
  intros Hr Hs E Hf Hw He. destruct (eval_call _ _ _ _ _ _ E Hf He) as [[-> Hwr]|(id & -> & -> & Hid)].
  - left. split; [done|]. destruct (write _ a) as [a'|] eqn:Ha; simplify_eq/=. exists a'. split; [done|]. by eapply write_sound.
  - right. exists id. split; [done|]. simpl. rewrite delete_insert_eq, (rep_settled _ _ Hr Hs). apply delete_empty.
Qed.

(** A checked statement, [ThrowOnError] or [ReturnOnFail]. *)
Lemma check_sound e s a c s' r : rep s a ->
  match effect_of e with
  | Calls sl args => if fails sl && settled a then next (write (outs sl args) a) else None
  | _ => None
  end = Some r -> eval e s c s' ->
  (c = Null /\ sound r Next s') \/ exists id, c = Obj id /\ owed (pass id s') = ∅.
Proof.
  intros Hr Ha He. destruct (effect_of e) as [sl args| | |] eqn:E; try done. destruct (fails sl) eqn:Hf, (settled a) eqn:Hs; try done.
  by eapply checked_sound.
Qed.

Lemma analyse1_sound st s a r o s' : rep s a -> analyse1 st a = Some r -> step1 st s o s' -> sound r o s'.
Proof.
  intros Hr Ha Hst. unfold analyse1 in Ha. destruct (forallb (known_set a) (stmt_reads st) && (stmt_quiet st || settled a)) eqn:Hg; [|done].
  apply andb_true_iff in Hg as [Hrd Hq]. pose proof (rep_reads _ _ _ Hr Hrd) as Hset.
  destruct Hst as [st s|st e s He|st s|p t x s|p t x e c s s' He|e c s s' He|op l x e c s s' Hx He|op l e c s s' Hx He
    |e s s' He|e id s s' He|e c s s' He Hc|e s s' He|e id s s' He|e c s s' He Hc|args s|s|e c s s' He]; simpl in *.
  - done.
  - match goal with H : ~ _ |- _ => apply H end. destruct (evaluate e a) as [[k a']|] eqn:Ee; [by eapply eval_exists|].
    destruct st as [? ? ? [e'|]|e'|e'|e'|?|op l e'|?|?|?|?|[e'|]]; simplify_eq/=; rewrite ?Ee in Ha; try done;
      destruct (effect_of e) as [sl args| | |] eqn:E; try done; destruct (written_exists (outs sl args) s) as [s' Hs']; by eexists _, _; eapply ev_call.
  - destruct (stmt_quiet st); [done|]. by eapply rep_settled.
  - eapply (assign_sound s a); [|exact Ha]. destruct (scalar t); apply holding_plain; try done; by right.
  - destruct (evaluate e a) as [[k a']|] eqn:Ee; [|done]. eapply assign_sound; [|exact Ha]. by eapply evaluate_sound.
  - destruct (evaluate e a) as [[k a']|] eqn:Ee; [|done]. simpl in Ha. destruct (owned k) eqn:Ek; simplify_eq.
    exists a'. split; [done|]. by apply (evaluate_sound _ _ _ _ _ _ _ Hr Ee He).
  - destruct (evaluate e a) as [[k a']|] eqn:Ee; [|done]. simpl in Ha. rewrite Hx in Ha. eapply assign_sound; [|exact Ha]. by eapply evaluate_sound.
  - destruct (evaluate e a) as [[k a']|] eqn:Ee; [|done]. simpl in Ha. rewrite Hx in Ha. destruct (owned k) eqn:Ek; simplify_eq.
    exists a'. split; [done|]. by apply (evaluate_sound _ _ _ _ _ _ _ Hr Ee He).
  - by destruct (check_sound _ _ _ _ _ _ Hr Ha He) as [[_ ?]|(? & ? & _)].
  - destruct (check_sound _ _ _ _ _ _ Hr Ha He) as [[? _]|(i & [= <-] & ?)]; done.
  - destruct (check_sound _ _ _ _ _ _ Hr Ha He) as [[? _]|(i & ? & ?)]; destruct Hc; congruence.
  - by destruct (check_sound _ _ _ _ _ _ Hr Ha He) as [[_ ?]|(? & ? & _)].
  - destruct (check_sound _ _ _ _ _ _ Hr Ha He) as [[? _]|(i & [= <-] & ?)]; done.
  - destruct (check_sound _ _ _ _ _ _ Hr Ha He) as [[? _]|(i & ? & ?)]; destruct Hc; congruence.
  - destruct (settled a) eqn:Hs; [|done]. by apply (rep_settled s a).
  - destruct (settled a) eqn:Hs; [|done]. by apply (rep_settled s a).
  - destruct (evaluate e a) as [[k a']|] eqn:Ee; [|done]. simpl in Ha. destruct (owned k) eqn:Ek, (settled (returned e a')) eqn:Hs; try done.
    apply (hand_over_settles e s' a'); [|done]. by apply (evaluate_sound _ _ _ _ _ _ _ Hr Ee He).
Qed.

(** ** Blocks, branches and loops *)

Lemma analyse_if c t e a : analyse (If c t e) a =
  if tested c a then r1 ← analyse_block t (assume c true a); r2 ← analyse_block e (assume c false a); join a r1 r2 else None.
Proof. reflexivity. Qed.
Lemma analyse_while c b a : analyse (While c b) a = if tested c a && stable a (analyse_block b a) then Some (Some a) else None.
Proof. reflexivity. Qed.
Lemma analyse_for i c st b a : analyse (For i c st b) a =
  bind (analyse_block i a) (fun a => if tested c a && stable a (bind (analyse_block b a) (analyse1 (Expr st))) then Some (Some a) else None).
Proof. reflexivity. Qed.
Lemma analyse_each p t x e b a : analyse (ForEach p t x e b) a =
  if tested e a && unowned a x && stable a (analyse_block b (<[x := KData]> a)) then Some (Some a) else None.
Proof. reflexivity. Qed.
Lemma analyse_simple st a : compound st = false -> analyse st a = analyse1 st a.
Proof. by destruct st. Qed.

Lemma analyse_snoc l e : forall a, analyse_block (l ++ [Expr e]) a = bind (analyse_block l a) (analyse1 (Expr e)).
Proof.
  induction l as [|st l IH]; intros a; simpl; [by destruct (analyse1 (Expr e) a) as [[]|]|].
  destruct (analyse st a) as [[a'|]|]; simpl; [apply IH | done | done].
Qed.

Lemma sound_exit r r' o s : o <> Next -> sound r o s -> sound r' o s.
Proof. by destruct o. Qed.

Lemma bind_some r f q : bind r f = Some q -> exists r', r = Some r'.
Proof. destruct r; [by eexists | done]. Qed.

Lemma tested_exits c a s : rep s a -> tested c a = true ->
  Forall (is_set s) (uses c) /\ (quiet c = false -> owed s = ∅).
Proof.
  intros Hr [Hu Hq]%andb_true_iff. split; [by eapply rep_reads|]. intros E. rewrite E in Hq. by eapply rep_settled.
Qed.

Lemma assume_sound c b a s : rep s a -> truth c s b -> rep s (assume c b a).
Proof.
  intros Hr Ht. destruct c; try done; destruct b; try done. simpl in *. destruct (a !! x) as [[| | |k]|] eqn:Ex; try done.
  destruct (rep_cell _ _ Hr _ _ Ex) as [Hn|(id & Hid & _)]; [by eapply rep_null|]. by rewrite Hid in Ht.
Qed.

Lemma stable_next a r r' s : stable a r = true -> r = Some r' -> sound r' Next s -> rep s a.
Proof.
  intros Hs -> (a' & -> & Hr). simpl in Hs. apply bool_decide_eq_true in Hs. by eapply rep_leave.
Qed.

Lemma stable_some a r : stable a r = true -> exists r', r = Some r'.
Proof. destruct r; [by eexists | done]. Qed.

Lemma join_sound a r1 r2 r o s : join a r1 r2 = Some r -> sound r1 o s \/ sound r2 o s -> sound r o s.
Proof.
  intros Hj Hs. destruct o; [|by destruct Hs..].
  assert (forall a1 b1, rep s a1 -> leave a a1 = Some b1 -> sound (Some b1) Next s) as Hl
    by (intros a1 b1 Hr Hb; exists b1; split; [done | by eapply rep_leave]).
  destruct Hs as [(a1 & -> & Hr)|(a2 & -> & Hr)]; simpl in Hj.
  - destruct r2 as [a2|]; destruct (leave a a1) as [b1|] eqn:E1; try done; simpl in Hj.
    + destruct (leave a a2); [|done]. simpl in Hj. destruct (bool_decide _); [|done]. simplify_eq. by eapply Hl.
    + simplify_eq. by eapply Hl.
  - destruct r1 as [a1|]; simpl in Hj.
    + destruct (leave a a1) as [b1|]; [|done]. simpl in Hj. destruct (leave a a2) as [b2|] eqn:E2; [|done]. simpl in Hj.
      destruct (bool_decide _) eqn:Hb; [|done]. apply bool_decide_eq_true in Hb as ->. simplify_eq. by eapply Hl.
    + destruct (leave a a2) as [b2|] eqn:E2; [|done]. simplify_eq/=. by eapply Hl.
Qed.

Lemma exec_execs_sound :
  (forall st s o s', exec st s o s' -> forall a r, rep s a -> analyse st a = Some r -> sound r o s') /\
  (forall l s o s', execs l s o s' -> forall a r, rep s a -> analyse_block l a = Some r -> sound r o s').
Proof.
  apply exec_execs_ind.
  - intros st s o s' Hc Hst a r Hr Ha. rewrite analyse_simple in Ha by done. by eapply analyse1_sound.
  - intros st c s Hc Hu a r Hr Ha. assert (tested c a = true) as Ht.
    { destruct st; simplify_eq/=; destruct (tested c a); done. }
    by apply Hu, (tested_exits c a s).
  - intros st c s Hc Hq a r Hr Ha. assert (tested c a = true) as Ht.
    { destruct st; simplify_eq/=; destruct (tested c a); done. }
    by apply (tested_exits c a s).
  - intros c t e b s o s' Ht _ IH a r Hr Ha. rewrite analyse_if in Ha. destruct (tested c a); [|done].
    destruct (analyse_block t _) as [r1|] eqn:E1; [|done]. simpl in Ha. destruct (analyse_block e _) as [r2|] eqn:E2; [|done]. simpl in Ha.
    eapply join_sound; [exact Ha|]. pose proof (assume_sound _ _ _ _ Hr Ht) as Hr'. destruct b; [left|right]; by eapply IH.
  - intros c b s _ a r Hr Ha. rewrite analyse_while in Ha. destruct (_ && _); simplify_eq. by exists a.
  - intros c b s s1 o s' _ _ IH1 _ IH2 a r Hr Ha. pose proof Ha as Ha'. rewrite analyse_while in Ha'.
    destruct (tested c a && stable a _) eqn:Hg; simplify_eq. apply andb_true_iff in Hg as [_ Hst].
    destruct (stable_some _ _ Hst) as [r' Hr']. apply (IH2 a); [|done]. by eapply stable_next, (IH1 a).
  - intros c b s o s' _ _ IH Hne a r Hr Ha. rewrite analyse_while in Ha. destruct (tested c a && stable a _) eqn:Hg; simplify_eq.
    apply andb_true_iff in Hg as [_ Hst]. destruct (stable_some _ _ Hst) as [r' Hr']. by eapply sound_exit, (IH a).
  - intros i c st b s o s' _ IH Hne a r Hr Ha. rewrite analyse_for in Ha. destruct (bind_some _ _ _ Ha) as [r' Hr'].
    by eapply sound_exit, (IH a).
  - intros i c st b s s1 o s' _ IH1 _ IH2 a r Hr Ha. rewrite analyse_for in Ha. destruct (bind_some _ _ _ Ha) as [r' Hr'].
    destruct (IH1 a r' Hr Hr') as (a1 & -> & Hr1). rewrite Hr' in Ha. simpl in Ha. apply (IH2 a1); [done|].
    rewrite analyse_while, analyse_snoc. done.
  - intros p t x e b s a r Hr Ha. rewrite analyse_each in Ha. destruct (_ && _); simplify_eq. by exists a.
  - intros p t x e b s s1 o s' _ IH1 _ IH2 a r Hr Ha. pose proof Ha as Ha'. rewrite analyse_each in Ha'.
    destruct (tested e a && unowned a x && stable a _) eqn:Hg; simplify_eq. apply andb_true_iff in Hg as [[_ Hx]%andb_true_iff Hst].
    destruct (stable_some _ _ Hst) as [r' Hr']. apply (IH2 a); [|done]. eapply stable_next; [exact Hst | exact Hr'|].
    eapply IH1; [|exact Hr']. apply rep_put; [done | done | done | by right].
  - intros p t x e b s o s' _ IH Hne a r Hr Ha. rewrite analyse_each in Ha.
    destruct (tested e a && unowned a x && stable a _) eqn:Hg; simplify_eq. apply andb_true_iff in Hg as [[_ Hx]%andb_true_iff Hst].
    destruct (stable_some _ _ Hst) as [r' Hr']. eapply sound_exit; [done|]. eapply IH; [|exact Hr'].
    apply rep_put; [done | done | done | by right].
  - intros s a r Hr [= <-]. by exists a.
  - intros st l s s1 o s' _ IH1 _ IH2 a r Hr Ha. simpl in Ha. destruct (bind_some _ _ _ Ha) as [r' Hr'].
    destruct (IH1 a r' Hr Hr') as (a1 & -> & Hr1). rewrite Hr' in Ha. by apply (IH2 a1).
  - intros st l s o s' _ IH Hne a r Hr Ha. simpl in Ha. destruct (bind_some _ _ _ Ha) as [r' Hr']. by eapply sound_exit, (IH a).
Qed.

(** A body that is accepted: no way of executing it goes wrong, and none leaves anything owed. *)
Definition body_accepted (l : list stmt) (a : facts) : bool :=
  match analyse_block l a with
  | Some (Some a') => settled a'
  | Some None => true
  | None => false
  end.

Lemma body_accepted_safe l a s o s' : body_accepted l a = true -> rep s a -> execs l s o s' -> o <> Wrong /\ owed s' = ∅.
Proof.
  unfold body_accepted. destruct (analyse_block l a) as [r|] eqn:Ha; [|done]. intros Hb Hr He.
  pose proof (proj2 exec_execs_sound _ _ _ _ He _ _ Hr Ha) as Hs. destruct o; simpl in Hs; try done.
  destruct Hs as (a' & -> & Hr'). split; [done|]. by apply (rep_settled s' a').
Qed.
