(* ===== verification/CxxSpec.v ===== *)
(** * CxxSpec: theorems about the C++ wrappers of ONNX Runtime

    All functions of the headers, those defined in their class and those of [CxxInline]: ownership on every
    path ([wrappers_settle], by the analysis of [CxxSem], and [flawed_wrappers] with an execution for each of
    its exceptions); types of every call of a slot ([wrapper_calls_well_typed]) at the classes the templates
    are instantiated for; declarations and documentation against definitions
    ([members_defined_as_documented]); what owning classes release ([owned_classes_released]). *)

From stdpp Require Import fin_maps.
From S2P Require Import Prelude OrtApi Cxx CxxApi CxxInline CxxSem.
Local Open Scope string_scope.
Local Open Scope list_scope.
#[local] Set Warnings "-clear-no-such-hyp".

(** ** Functions, with the obligations they start with *)

(** Member functions defined in their class. *)
Definition inside_of (k : cls) : list func :=
  omap (fun m => match m_def m with
                 | Inside i b => Some (Func (k_name k) (m_name m) (m_ret m) (m_params m) (m_const m) (m_noexcept m) i b)
                 | _ => None
                 end) (k_members k).
Definition functions : list func := wrappers ++ (classes ≫= inside_of).

(** A base initializer constructs the part of the object that holds the pointer. *)
Definition is_base (f : func) (n : string) : bool :=
  (plain (head_of n) =? "Base") || bool_decide (fst <$> (find_class (f_class f) ≫= k_base) = Some (plain (head_of n))).
Definition body_of (f : func) : list stmt :=
  map (fun '(n, args) => Expr (New (Ty (if is_base f n then f_class f else "")) args)) (f_inits f) ++ f_body f.

(** What a function is given to pass on: a status it takes by pointer, and the object a constructor of an owning
    class takes by pointer. *)
Definition given (f : func) (p : cparam) : option string :=
  match a_pass p, a_ty p with
  | ByValue, Ptr (Ty c) =>
      if (c =? "OrtStatus") || bool_decide (f_ret f = None /\ owner (f_class f) = Some c) then Some c else None
  | _, _ => None
  end.
Definition entry (f : func) : facts :=
  list_to_map (map (fun p => (a_name p, from_option KOwned KData (given f p))) (f_params f)).

Definition discharges (f : func) : bool := body_accepted (body_of f) (entry f).

#[export] Instance handle_eq_dec : EqDecision handle.
Proof. solve_decision. Defined.

(** ** Types of expressions *)

(** What a pointer of the class holds. *)
Definition pointee (h : handle) : option cty :=
  match h with
  | Owned c | Unowned false c => Some (Ptr (Ty c))
  | Unowned true c => Some (Ptr (Const (Ty c)))
  | TParam => None
  end.

(** The instance of the class [target] among the bases of [c] at [h]. *)
Fixpoint base_at (fuel : nat) (c : string) (h : handle) (target : string) : option handle :=
  match fuel with
  | O => None
  | S n => if c =? target then holds 5 c h
           else match find_class c ≫= k_base with
                | Some (b, TParam) => base_at n b h target
                | Some (b, a) => base_at n b a target
                | None => None
                end
  end.
(** The ways a class occurs in the named classes: the handles its members are compiled for. *)
Definition occurrences (c : string) : list handle :=
  omap (fun k => base_at 5 (k_name k) TParam c) classes ++ omap (fun a => base_at 5 a.2.1 a.2.2 c) aliases.

Definition enums : list (string * enum_decl) :=
  [ ("ONNXType", ONNXType); ("OrtErrorCode", OrtErrorCode); ("OrtOpAttrType", OrtOpAttrType); ("OrtLanguageProjection", OrtLanguageProjection) ].
Definition enumerator_type (n : string) : option cty :=
  if n =? "TypeToTensorType<T>::type" then Some (Ty "ONNXTensorElementDataType")
  else (fun e => Ty e.2.1) <$> list_find (fun e => is_Some (enum_value e.2 (strip (String.append e.1 "::") n))) enums.

Definition elements : list (string * cty) :=
  [ ("std::string", Ty "char"); ("std::basic_string<ORTCHAR_T>", Ty "ORTCHAR_T"); ("std::vector<char>", Ty "char");
    ("std::vector<int64_t>", Ty "int64_t"); ("std::vector<float>", Ty "float"); ("std::vector<size_t>", Ty "size_t");
    ("std::vector<char*>", Ptr (Ty "char")); ("std::vector<const char*>", Ptr (Const (Ty "char")));
    ("std::vector<const ORTCHAR_T*>", Ptr (Const (Ty "ORTCHAR_T"))); ("std::vector<const OrtValue*>", Ptr (Const (Ty "OrtValue")));
    ("ShapeInferContext::Ints", Ty "int64_t"); ("ShapeInferContext::Floats", Ty "float") ].
Definition bare (t : cty) : cty := match t with Const t => t | _ => t end.
(** The elements of a container, an array or a string; of a [const] one, [const]. *)
Definition element (t : cty) : option cty :=
  let named n := (fun e => e.2.2) <$> list_find (fun e => e.1 = n) elements in
  match t with
  | Ptr t => Some t
  | Const (Ty n) => Const <$> named n
  | Ty n => named n
  | _ => None
  end.

Section Types.
  Context (c : string) (h : handle).

Definition field_type (n f : string) : option cty :=
  k ← find_class n; (fun p => p.2.2) <$> list_find (fun p => p.1 = f) (k_fields k).
Definition result_type (f : string) : option cty :=
  k ← find_class c; m ← snd <$> list_find (fun m => m_name m = f) (k_members k); snd <$> m_ret m.

Fixpoint type_of (env : gmap string cty) (e : expr) : option cty :=
  match e with
  | Var x => env !! x
  | Member_ f => if f =? "p_" then match pointee h with Some t => Some t | None => field_type c f end else field_type c f
  | Name n => enumerator_type n
  | Lit s => Some (Ty (if s =? "nullptr" then "nullptr_t" else if String.prefix "sizeof(" s then "size_t" else "int"))
  | Str _ => Some (Ptr (Const (Ty "char")))
  | Addr e => Ptr <$> type_of env e
  | Deref e | Index_ e _ => type_of env e ≫= element
  | Cast t _ | New t _ => Some t
  | Fun f _ => result_type f
  | Method e f _ =>
      if bool_decide (f ∈ ["size"; "length"]) then Some (Ty "size_t")
      else if f =? "data" then Ptr <$> (type_of env e ≫= element)
      else if f =? "c_str" then (fun t => Ptr (Const (bare t))) <$> (type_of env e ≫= element)
      else if f =? "what" then Some (Ptr (Const (Ty "char")))
      else if f =? "GetOrtErrorCode" then Some (Ty "OrtErrorCode")
      else None
  | Dot (Dot e g) f => match bare <$> type_of env e with Some (Ty n) => field_type n (String.append g (String.append "." f)) | _ => None end
  | Dot e f => match bare <$> type_of env e with Some (Ty n) => field_type n f | _ => None end
  | Slot_ s _ => match s_ret <$> (snd <$> ort_slot s) with Some (R_type t) => Some t | _ => None end
  | _ => None
  end.
End Types.

(** ** Arguments of slots *)

Definition numbers : list string := ["int"; "size_t"; "int64_t"; "int32_t"; "bool"; "float"].
Fixpoint wide (t : cty) : cty :=
  match t with
  | Ty n => Ty (if n =? "ORTCHAR_T" then "char" else n)
  | Const t => Const (wide t)
  | Ptr t => Ptr (wide t)
  | Fn r ps => Fn (wide r) (map wide ps)
  end.
(** [s] can be used where [t] is pointed to: [const] may be added. *)
Fixpoint qualifies (s t : cty) : bool :=
  match s, t with
  | _, Ty "void" => match s with Const _ => false | _ => true end
  | _, Const (Ty "void") => true
  | Const s, Const t => qualifies s t
  | Const _, _ => false
  | s, Const t => match s, t with Ptr s, Ptr t => qualifies s t | _, _ => bool_decide (s = t) end
  | Ptr s, Ptr t => qualifies s t
  | _, _ => bool_decide (s = t)
  end.
Definition fits (s t : cty) : bool :=
  match bare s, bare t with
  | Ty "nullptr_t", (Ptr _ | Fn _ _) => true
  | Ptr s, Ptr t => qualifies (wide s) (wide t)
  | Ty m, Ptr t => match handle_of m ≫= pointee with Some (Ptr s) => qualifies (wide s) (wide t) | _ => false end
  | Ty m, Ty n => (m =? n) || bool_decide (m ∈ numbers) && bool_decide (n ∈ numbers)
  | s, t => bool_decide (s = t)
  end.

(** ** Calls of slots *)

(** The calls of slots in an expression, innermost last. *)
Fixpoint slot_calls (e : expr) : list (string * list expr) :=
  match e with
  | Slot_ s args => (s, args) :: concat (map slot_calls args)
  | Addr e | Deref e | Cast _ e | Dot e _ => slot_calls e
  | Index_ e i => slot_calls e ++ slot_calls i
  | New _ args | Fun _ args | Op _ args => concat (map slot_calls args)
  | Method e _ args => slot_calls e ++ concat (map slot_calls args)
  | _ => []
  end.

(** The type of a local: of [auto], that of its initializer. *)
Definition declared (c : string) (h : handle) (env : gmap string cty) (t : cty) (init : option expr) : option cty :=
  let inferred := init ≫= type_of c h env in
  match t with
  | Ty "auto" | Const (Ty "auto") | Ptr (Ty "auto") | Ptr (Const (Ty "auto")) => inferred
  | t => Some t
  end.
Definition declare (x : string) (t : option cty) (env : gmap string cty) : gmap string cty :=
  match t with Some t => <[x := t]> env | None => delete x env end.

Abbreviation call := (gmap string cty * (string * list expr))%type.
Definition calls_in (env : gmap string cty) (e : expr) : list call := pair env <$> slot_calls e.

(** The calls of a statement, each with the types of the locals it is made under, and the types after it. *)
Section Calls.
  Context (c : string) (h : handle).
Fixpoint calls (st : stmt) (env : gmap string cty) : list call * gmap string cty :=
  let block := fix block (l : list stmt) (env : gmap string cty) : list call * gmap string cty :=
    match l with
    | [] => ([], env)
    | st :: l => let '(q, env) := calls st env in let '(q', env) := block l env in (q ++ q', env)
    end in
  match st with
  | Decl _ t x init => (from_option (calls_in env) [] init, declare x (declared c h env t init) env)
  | Expr e | ThrowOnError e | ReturnOnFail e | Return (Some e) => (calls_in env e, env)
  | Return None => ([], env)
  | Throw args => (args ≫= calls_in env, env)
  | Assign _ l r => (calls_in env l ++ calls_in env r, env)
  | If e l r => (calls_in env e ++ (block l env).1 ++ (block r env).1, env)
  | While e l => (calls_in env e ++ (block l env).1, env)
  | For i e st l => let '(q, env') := block i env in (q ++ calls_in env' e ++ calls_in env' st ++ (block l env').1, env)
  | ForEach _ t x e l => (calls_in env e ++ (block l (declare x (declared c h env t (Some (Deref e))) env)).1, env)
  end.
Fixpoint block_calls (l : list stmt) (env : gmap string cty) : list call :=
  match l with
  | [] => []
  | st :: l => let '(q, env) := calls st env in q ++ block_calls l env
  end.

(** The slot exists, it is given as many arguments as it has parameters, and each has a type that the
    parameter's can be initialized from. *)
Definition well_typed (q : call) : bool :=
  let '(env, (s, args)) := q in
  match ort_slot s with
  | Some (_, sl) =>
      (length args =? length (s_params sl))%nat
      && forallb (fun '(a, p) => match type_of c h env a with Some t => fits t (p_ty p) | None => false end) (zip args (s_params sl))
  | None => false
  end.
End Calls.

(** What members of a class are compiled for; a class that holds no pointer is compiled once. *)
Definition handles (c : string) : list handle :=
  match filter (fun h => h <> TParam) (occurrences c) with [] => [TParam] | l => l end.
Definition parameters (f : func) : gmap string cty := list_to_map (map (fun p => (a_name p, a_ty p)) (f_params f)).
Definition ill_typed (f : func) : list (handle * (string * list expr)) :=
  h ← handles (f_class f); q ← block_calls (f_class f) h (body_of f) (parameters f);
  if well_typed (f_class f) h q then [] else [(h, q.2)].

(** ** Declarations and definitions *)

(** A type as it is named inside class [c]: without the namespace, the qualification by the class and the
    class's own template arguments. *)
Fixpoint inside (c : string) (t : cty) : cty :=
  match t with
  | Ty n => let n := strip "Ort::" n in
            if n =? String.append c "<T>" then Ty c else Ty (strip (String.append c "::") n)
  | Const t => Const (inside c t)
  | Ptr t => Ptr (inside c t)
  | Fn r ps => Fn (inside c r) (map (inside c) ps)
  end.
Definition signature : Type := string * option (passing * cty) * list (passing * cty) * bool.
Definition signature_of (f : func) : signature :=
  let in_class := prod_map id (inside (f_class f)) in
  (f_name f, in_class <$> f_ret f, map (fun p => in_class (a_pass p, a_ty p)) (f_params f), f_const f).
Definition declared_as (c : string) (m : member) : signature :=
  let in_class := prod_map id (inside c) in
  (m_name m, in_class <$> m_ret m, map (fun p => in_class (a_pass p, a_ty p)) (m_params m), m_const m).

Definition defines (k : cls) (m : member) (f : func) : bool :=
  if f_class f =? k_name k then
    if f_name f =? m_name m then bool_decide (signature_of f = declared_as (k_name k) m) else false
  else false.
Definition definitions_of (k : cls) (m : member) : list func :=
  match m_def m with
  | Outside => filter (defines k m) (wrappers ++ untranslated)
  | Inside _ _ => filter (defines k m) (inside_of k)
  | _ => []
  end.

(** The functions called by name. *)
Fixpoint named_calls (e : expr) : list string :=
  match e with
  | Fun f args => f :: concat (map named_calls args)
  | Addr e | Deref e | Cast _ e | Dot e _ => named_calls e
  | Index_ e i => named_calls e ++ named_calls i
  | New _ args | Slot_ _ args | Op _ args => concat (map named_calls args)
  | Method e _ args => named_calls e ++ concat (map named_calls args)
  | _ => []
  end.
Definition outermost (st : stmt) : list string :=
  match st with Expr e | Return (Some e) => named_calls e | _ => [] end.

Definition calls_slot (s : string) (f : func) : bool :=
  existsb (fun q => q.2.1 =? s) (block_calls (f_class f) TParam (body_of f) (parameters f)).
(** [f] calls the slot, or is written in terms of an overload that does. *)
Definition reaches (s : string) (f : func) : bool :=
  if calls_slot s f then true
  else if bool_decide (f_name f ∈ (f_body f ≫= outermost)) then
    existsb (fun g => if f_name g =? f_name f then (f_class g =? f_class f) && calls_slot s g else false) functions
  else false.

Definition has_body (m : member) : bool := match m_def m with Outside | Inside _ _ => true | _ => false end.
Definition members : list (cls * member) := k ← classes; m ← k_members k; [(k, m)].

(** ** Entering a function *)

(** A call whose arguments are values, or pointers to objects that stay the caller's. *)
Definition at_entry (f : func) : store := Store (list_to_map (map (fun p => (a_name p, Data)) (f_params f))) ∅.

Lemma at_entry_rep f : Forall (fun p => given f p = None) (f_params f) -> rep (at_entry f) (entry f).
Proof.
  intros Hg. assert (forall x k, entry f !! x = Some k -> k = KData /\ cells (at_entry f) !! x = Some Data) as He.
  { unfold entry, at_entry; simpl. induction Hg as [|p l Hp _ IH]; intros x k; simpl; [done|].
    destruct (decide (a_name p = x)) as [->|Hx]; [|rewrite !lookup_insert_ne by done; apply IH].
    rewrite !lookup_insert_eq, Hp. by intros [= <-]. }
  split; [|done|].
  - intros x k Hk. destruct (He _ _ Hk) as [-> ->]. by right.
  - intros x y k k' id Hx. by destruct (He _ _ Hx).
Qed.

(** Functions that can lose an object, release one that is somebody else's, or pass on a pointer that was
    never set. *)
Definition flawed : list (string * string) :=
  [ ("MemoryAllocation", "~MemoryAllocation"); ("OptionalTypeInfoImpl", "GetOptionalElementType");
    ("ValueImpl", "GetResizedStringTensorElementBuffer"); ("ShapeInferContext", "ShapeInferContext");
    ("ShapeInferContext", "SetOutputShape"); ("ShapeInferContext", "GetAttrInts");
    ("ShapeInferContext", "GetAttrFloats"); ("ShapeInferContext", "GetAttrString");
    ("ShapeInferContext", "GetAttrStrings") ].
(** Functions the analysis does not decide: the buffers of the first are null when there are none to release;
    the second passes a local by reference. *)
Definition undecided : list (string * string) := [ ("", "GetOutputNamesHelper"); ("KernelInfoImpl", "GetAttribute") ].
Definition name_of (f : func) : string * string := (f_class f, f_name f).

Lemma all_accepted : forallb (fun f => discharges f || bool_decide (name_of f ∈ flawed ++ undecided)) functions = true.
Proof. vm_compute. reflexivity. Qed.

Lemma functions_discharge f : f ∈ functions -> ~ name_of f ∈ flawed ++ undecided -> discharges f = true.
Proof.
  intros Hf Hn. pose proof all_accepted as Ha. rewrite forallb_forall in Ha.
  specialize (Ha f (proj1 (list_elem_of_In _ _) Hf)). apply orb_true_iff in Ha as [|H%bool_decide_eq_true]; done.
Qed.

(** ** What the classes own *)

(** [ORT_DEFINE_RELEASE]: the overloads of [OrtRelease]. *)
Definition OrtRelease : list string :=
  [ "Allocator"; "MemoryInfo"; "CustomOpDomain"; "ThreadingOptions"; "Env"; "RunOptions"; "LoraAdapter"; "Session";
    "SessionOptions"; "TensorTypeAndShapeInfo"; "SequenceTypeInfo"; "MapTypeInfo"; "TypeInfo"; "Value";
    "ModelMetadata"; "IoBinding"; "ArenaCfg"; "Status"; "OpAttr"; "Op"; "KernelInfo" ].
Definition overload_releases (n : string) : bool :=
  bool_decide ((snd <$> ort_slot (String.append "Release" n)) ≫= released_class = Some (String.append "Ort" n)).
Definition has_overload (c : string) : bool := existsb (fun n => String.append "Ort" n =? c) OrtRelease.
(** The classes and aliases that own an object. *)
Definition owners : list (string * string) :=
  omap (fun n => (fun c => (n, c)) <$> owner n) (map k_name classes ++ map fst aliases).

(** ** Executions *)

Lemma call_succeeds e sl args s s' : effect_of e = Calls sl args -> fails sl = true -> written (outs sl args) s s' -> eval e s Null s'.
Proof. intros He Hf Hw. pose proof (ev_call _ _ _ _ _ He Hw) as Hv. by rewrite Hf in Hv. Qed.
Lemma call_fails e sl args id s : effect_of e = Calls sl args -> fails sl = true -> owed s !! id = None -> eval e s (Obj id) (owe id "OrtStatus" s).
Proof. apply ev_fail. Qed.
Lemma simply st l s s1 o s' : compound st = false -> step1 st s Next s1 -> execs l s1 o s' -> execs (st :: l) s o s'.
Proof. intros Hc Hs Hl. eapply x_cons; [by apply x_simple | done]. Qed.
Lemma leaves st l s o s' : compound st = false -> step1 st s o s' -> o <> Next -> execs (st :: l) s o s'.
Proof. intros Hc Hs Ho. apply x_exit; [by apply x_simple | done]. Qed.

(** The statements that succeed: a declaration with a plain value, and a checked call. *)
Ltac out_parameters := vm_compute; repeat first [apply w_nil | apply w_data | apply (w_object _ _ 0); [reflexivity|]].
Ltac plainly := apply s_init, ev_value; vm_compute; reflexivity.
Ltac succeeds := first [apply s_checked | apply s_passed]; eapply call_succeeds; [reflexivity | reflexivity | out_parameters].
Ltac step := eapply simply; [reflexivity | first [apply s_decl | plainly | succeeds | apply s_expr with (c := Data), ev_value; vm_compute; reflexivity] |].
Ltac fails_with n := eapply (call_fails _ _ _ n); reflexivity.
Ltac returns := eapply leaves; [reflexivity | apply s_return_value with (c := Data), ev_value; vm_compute; reflexivity | discriminate].

(** What is left behind is seen by evaluation. *)
Definition goes_wrong (f : func) : Prop :=
  exists o s', execs (body_of f) (at_entry f) o s' /\ (o = Wrong \/ owed s' <> ∅).
Lemma left_behind f o s' id : execs (body_of f) (at_entry f) o s' -> owed s' !! id <> None -> goes_wrong f.
Proof. intros He Hn. exists o, s'. split; [done|]. right. intros E. by rewrite E in Hn. Qed.
Ltac lost := eapply (left_behind _ _ _ 0); [unfold body_of; cbn [f_body f_inits map app] |].
Ltac remains := vm_compute; discriminate.
Ltac attribute := do 3 step; eapply simply; [reflexivity | apply s_init; fails_with 0%nat |];
  eapply (x_exit _ _ _ Returned); [apply (x_if _ _ _ true); [vm_compute; reflexivity|] | discriminate].

Lemma flawed_go_wrong : Forall goes_wrong (filter (fun f => name_of f ∈ flawed) functions).
Proof.
  match goal with |- Forall _ ?l => let l' := eval vm_compute in l in assert (l = l') as -> by (vm_compute; reflexivity) end.
  repeat apply Forall_cons_2; [..|apply Forall_nil_2].
  - lost. { eapply x_cons; [apply (x_if _ _ _ true); [exact I|] | apply x_nil].
    eapply simply; [reflexivity | apply s_init; fails_with 0%nat |]. step. apply x_nil. }
    remains.
  - lost. { do 2 step. eapply leaves; [reflexivity | eapply s_return_value, (ev_borrow _ _ _ 0); [vm_compute; reflexivity | left; vm_compute; reflexivity | reflexivity] | discriminate]. }
    remains.
  - eexists Wrong, _. split; [|by left]. cbn. step. eapply leaves; [reflexivity | apply s_unset | discriminate].
    vm_compute. intros (_ & (_ & ((c & Hc & Hu) & _)%Forall_cons_1)%Forall_cons_1)%Forall_cons_1. by simplify_eq.
  - lost. { do 4 step. eapply (x_exit _ _ _ Thrown); [|discriminate].
    eapply x_for; [step; apply x_nil|]. apply x_while_exit; [exact I | | discriminate].
    do 2 step. eapply simply; [reflexivity | eapply s_init, (ev_borrow _ _ _ 0); [vm_compute; reflexivity | left; vm_compute; reflexivity | reflexivity] |].
    eapply leaves; [reflexivity | by apply s_throws | discriminate]. }
    remains.
  - lost. { do 2 step. eapply leaves; [reflexivity | apply s_pass_returns; fails_with 1%nat | discriminate]. }
    remains.
  - lost. { attribute. do 3 step. returns. }
    remains.
  - lost. { attribute. do 3 step. returns. }
    remains.
  - lost. { attribute. do 2 step. returns. }
    remains.
  - lost. { attribute. do 5 step. eapply x_cons; [by apply x_while_end|]. returns. }
    remains.
Qed.

(** ** Properties *)

(** The declarations whose comment names another slot than the one called, and the one whose definition is
    not translated. *)
Definition misdocumented : list (string * string) :=
  [ ("SessionOptionsImpl", "AppendExecutionProvider_TensorRT_V2"); ("OptionalTypeInfoImpl", "GetOptionalElementType");
    ("ModelMetadata", "GetCustomMetadataMapKeysAllocated") ].

Definition declaration_ok (q : cls * member) : bool :=
  negb (has_body q.2) ||
  match definitions_of q.1 q.2 with
  | [f] => bool_decide ((k_name q.1, m_name q.2) ∈ misdocumented) || from_option (fun s => reaches s f) true (m_wraps q.2)
  | _ => false
  end.
Lemma declarations_ok : forallb declaration_ok members = true.
Proof. vm_compute. reflexivity. Qed.

Definition typed_at (hs : list handle) (f : func) : bool :=
  if bool_decide (name_of f = ("MemoryInfoImpl", "operator==")) then true
  else forallb (fun h => forallb (well_typed (f_class f) h) (block_calls (f_class f) h (body_of f) (parameters f))) hs.
(** Class by class, so that the instances of a class are found once. *)
Definition class_names : list string := foldr (fun f l => if existsb (String.eqb (f_class f)) l then l else f_class f :: l) [] functions.
Definition class_typed (c : string) : bool :=
  (fun hs => forallb (fun f => if f_class f =? c then typed_at hs f else true) functions) (handles c).
Lemma all_typed : forallb class_typed class_names && forallb (fun f => existsb (String.eqb (f_class f)) class_names) functions = true.
Proof. vm_compute. reflexivity. Qed.

Lemma functions_typed f : f ∈ functions -> typed_at (handles (f_class f)) f = true.
Proof.
  intros Hf%list_elem_of_In. pose proof all_typed as [Ha Hc]%andb_true_iff. rewrite forallb_forall in Ha, Hc.
  specialize (Hc f Hf). apply existsb_exists in Hc as (c & Hin & E). specialize (Ha _ Hin). unfold class_typed in Ha. cbv beta in Ha.
  rewrite forallb_forall in Ha. specialize (Ha f Hf). rewrite E in Ha. by apply String.eqb_eq in E as ->.
Qed.

(** C34: However the slots answer, and wherever an exception is thrown, a wrapper that is not listed as flawed or
    undecided never reads a local that has no value or checks something that is not a status, and when it is
    left, by falling off its end, returning or throwing, it owes nothing: every status has been thrown,
    returned or released, every object received has been handed to an owner, and no smart pointer is left
    that would release somebody else's object. *)
Theorem wrappers_settle f s o s' :
  f ∈ functions -> ~ name_of f ∈ flawed ++ undecided -> rep s (entry f) -> execs (body_of f) s o s' ->
  o <> Wrong /\ owed s' = ∅.
Proof. intros Hf Hn. apply body_accepted_safe, functions_discharge; done. Qed.

(** [GetMapValueType] when [OrtApi::GetMapValueType] succeeds: the type information is handed to a [TypeInfo]. *)
Lemma wrappers_settle_witness :
  exists f s', functions !! 160%nat = Some f /\ name_of f = ("MapTypeInfoImpl", "GetMapValueType") /\
    execs (body_of f) (at_entry f) Returned s' /\ cells s' !! "output" = Some Data /\ owed s' = ∅.
Proof.
  eexists _, _. split; [reflexivity|]. split; [reflexivity|].
  match goal with |- execs (body_of ?f) _ _ ?s /\ _ => assert (execs (body_of f) (at_entry f) Returned s) as He end.
  { unfold body_of; cbn [f_body f_inits map app]. do 2 step.
    eapply leaves; [reflexivity | eapply s_return_value, (ev_adopt _ _ _ 0); reflexivity | discriminate]. }
  split; [exact He|]. split; [reflexivity|].
  eapply wrappers_settle; [by apply (list_elem_of_lookup_2 _ 160) | apply (bool_decide_unpack _); vm_compute; reflexivity | | exact He].
  apply at_entry_rep. apply (bool_decide_unpack _). reflexivity.
Defined.

(** The flawed functions: for each there are answers of the slots, or an exception, that leave something
    owed or use a local that has no value. *)
Theorem flawed_wrappers f : f ∈ functions -> name_of f ∈ flawed -> exists o s', execs (body_of f) (at_entry f) o s' /\ (o = Wrong \/ owed s' <> ∅).
Proof.
  intros Hf Hn. pose proof flawed_go_wrong as Hl. rewrite Forall_forall in Hl. apply Hl. apply list_elem_of_filter. done.
Qed.

Lemma flawed_wrappers_witness :
  exists f, functions !! 12%nat = Some f /\ name_of f = ("MemoryAllocation", "~MemoryAllocation") /\
    exists o s', execs (body_of f) (at_entry f) o s' /\ (o = Wrong \/ owed s' <> ∅).
Proof.
  eexists. split; [reflexivity|]. split; [reflexivity|].
  apply flawed_wrappers; [by apply (list_elem_of_lookup_2 _ 12) | apply (bool_decide_unpack _); reflexivity].
Defined.

(** Each call of a slot in the wrappers, at every class the template is instantiated for, names a slot of
    the C table, gives it as many arguments as the C declaration has parameters, and each argument has a type
    the parameter can be initialized from: no [const] is dropped and no object of another class is passed.  [MemoryInfoImpl::operator==] is excepted: it hands
    [CompareMemoryInfo] an [Unowned] wrapper where the slot wants the pointer. *)
Theorem wrapper_calls_well_typed f h q :
  f ∈ functions -> name_of f <> ("MemoryInfoImpl", "operator==") -> h ∈ handles (f_class f) ->
  q ∈ block_calls (f_class f) h (body_of f) (parameters f) -> well_typed (f_class f) h q = true.
Proof.
  intros Hf Hn Hh Hq. pose proof (functions_typed f Hf) as Ha. unfold typed_at in Ha. rewrite bool_decide_false in Ha by done.
  rewrite forallb_forall in Ha. specialize (Ha h (proj1 (list_elem_of_In _ _) Hh)).
  rewrite forallb_forall in Ha. by apply Ha, list_elem_of_In.
Qed.

Lemma wrapper_calls_well_typed_witness :
  exists f q, functions !! 160%nat = Some f /\ q.2.1 = "GetMapValueType" /\ well_typed (f_class f) (Unowned true "OrtMapTypeInfo") q = true.
Proof.
  eexists _, (_, ("GetMapValueType", [Member_ "p_"; Addr (Var "output")])). split; [reflexivity|]. split; [reflexivity|].
  apply wrapper_calls_well_typed; [by apply (list_elem_of_lookup_2 _ 160) | discriminate | apply (bool_decide_unpack _); vm_compute; reflexivity|].
  by apply (list_elem_of_lookup_2 _ 0).
Defined.

(** Every member function a class declares is defined exactly once, with the declared parameters and
    result, and where its comment says which slot it wraps, its definition calls that slot, or is written with
    an overload that does; the exceptions are listed. *)
Theorem members_defined_as_documented k m :
  (k, m) ∈ members -> has_body m = true ->
  exists f, definitions_of k m = [f] /\
    (forall s, m_wraps m = Some s -> ~ (k_name k, m_name m) ∈ misdocumented -> reaches s f = true).
Proof.
  intros Hm Hb. pose proof declarations_ok as Ha. rewrite forallb_forall in Ha.
  specialize (Ha (k, m) (proj1 (list_elem_of_In _ _) Hm)). unfold declaration_ok in Ha. simpl in Ha. rewrite Hb in Ha. simpl in Ha.
  destruct (definitions_of k m) as [|f [|]]; try done. exists f. split; [done|]. intros s Hs Hn.
  apply orb_true_iff in Ha as [H%bool_decide_eq_true|Ha]; [done|]. by rewrite Hs in Ha.
Qed.

Lemma members_defined_as_documented_witness :
  exists k m f, members !! 160%nat = Some (k, m) /\ m_wraps m = Some "GetMapValueType" /\ definitions_of k m = [f].
Proof.
  eexists _, _. assert (members !! 160%nat = Some (_, _)) as Hm by reflexivity.
  destruct (members_defined_as_documented _ _ (list_elem_of_lookup_2 _ _ _ Hm) eq_refl) as (f & Hf & _).
  exists f. split; [exact Hm|]. split; [reflexivity | exact Hf].
Defined.

(** Each class of objects that a wrapper owns has an overload of [OrtRelease], and each overload calls a
    slot of the C table that releases objects of exactly its class. *)
Theorem owned_classes_released :
  Forall (fun n => overload_releases n = true) OrtRelease /\
  forall n c, owner n = Some c -> n ∈ map k_name classes ++ map fst aliases -> has_overload c = true.
Proof.
  split; [apply (bool_decide_unpack _); vm_compute; reflexivity|]. intros n c Ho Hn.
  assert (forallb (fun q => has_overload q.2) owners = true) as Ha by (vm_compute; reflexivity).
  rewrite forallb_forall in Ha. apply (Ha (n, c)), list_elem_of_In, list_elem_of_omap. exists n. by rewrite Ho.
Qed.
