(* ===== verification/EvsOrt.v ===== *)
(** * EvsOrt: the Objective-C wrapper over ONNX Runtime (ios/Shared/EdgeSearch/EvsOrt.m)

    [EvsOrtSession] as programs over the calls it makes: slots of [OrtApi], the Core ML registration
    function, the allocator's [Free], [calloc]/[free].  What a slot call requires and promises is read
    off the table: each argument has to fit the annotation and type of its parameter, an object has to
    be alive and of the parameter's class, a counted array has to be as long as its count says; on
    success (NULL status) an [_Outptr_] parameter receives a new object the caller owns, on failure the
    caller owns the returned [OrtStatus].  Instance variables are a record that the methods thread; ARC
    runs [dealloc] on the partially built object when an initializer returns nil. *)

From S2P Require Import Prelude Effects OrtApi.
From Stdlib Require Import Floats.SpecFloat.
#[local] Set Warnings "-clear-no-such-hyp".
Local Open Scope Z_scope.
Local Open Scope dni_scope.

Definition NULL : Z := 0.
Notation "'is_null' z" := (bool_decide (z = NULL)) (at level 10, z at level 9) : dni_scope.

(** ** Calls *)

Inductive oarg :=
| AVal (z : Z) | AStr (s : string) | AStrs (ss : list string) | AInts (zs : list Z)
| AObj (p : Z) | AObjs (ps : list Z)
| ABuf (p : Z)      (* untyped memory *)
| AOut (old : Z).   (* the address of a variable holding [old] *)

(** binary32 numbers. *)
Definition float32 : Type := spec_float.

Inductive ocmd : Type -> Type :=
| GetApi (version : Z) : ocmd Z
| Ort (api : Z) (slot : string) (args : list oarg) : ocmd (Z * Z) (* result; what the out variable holds then *)
| Append_CoreML (options flags : Z) : ocmd Z
| ReadCString (p : Z) : ocmd string
| Alloc_Free (allocator p : Z) : ocmd unit
| Calloc (count size : Z) : ocmd Z
| Free (p : Z) : ocmd unit
| ReadFloats (p : Z) (n : nat) : ocmd (list float32).

(** ** What is alive *)

Record oledger := OLedger {
  o_live : gmap Z string;    (* ONNX Runtime objects the program owns, with their class *)
  o_lent : gset Z;           (* the default allocator, which must not be released *)
  o_names : gset Z;          (* strings allocated by an allocator *)
  o_bufs : gset Z;           (* the caller's arrays *)
  o_heap : gset Z;           (* calloc'd blocks *)
  o_backing : gmap Z Z;      (* tensor -> the block it was created over *)
  o_data : gmap Z Z }.       (* data pointer -> the tensor it points into *)

Definition set_live l b (w : oledger) : oledger :=
  OLedger l (o_lent w) (o_names w) (o_bufs w) (o_heap w) b (o_data w).
Definition set_mem ns hp (w : oledger) : oledger :=
  OLedger (o_live w) (o_lent w) ns (o_bufs w) hp (o_backing w) (o_data w).

Definition add_obj v c (w : oledger) := set_live (<[v := c]> (o_live w)) (o_backing w) w.
Definition add_over v c b (w : oledger) := set_live (<[v := c]> (o_live w)) (<[v := b]> (o_backing w)) w.
Definition del_obj v (w : oledger) := set_live (delete v (o_live w)) (delete v (o_backing w)) w.

Definition fresh_obj (w : oledger) (v : Z) : Prop :=
  v <> NULL /\ o_live w !! v = None /\ o_backing w !! v = None.
Definition alive (w : oledger) (v : Z) (c : string) : Prop :=
  o_live w !! v = Some c \/ c = "OrtAllocator" /\ v ∈ o_lent w.

(** ** Reading a call off the table *)

Definition obj_class (t : cty) : option string :=
  match t with Ptr (Ty c) | Ptr (Const (Ty c)) => if String.prefix "Ort" c then Some c else None | _ => None end.
Definition objs_class (t : cty) : option string :=
  match t with Ptr (Const (Ptr (Const (Ty c)))) => if String.prefix "Ort" c then Some c else None | _ => None end.
Definition nullable (a : sal) : bool := match a with In_opt_ | Frees_ptr_opt_ => true | _ => false end.
Definition is_out (a : sal) : bool :=
  match a with Out_ | Outptr_ | Outptr_result_maybenull_ | Inout_updates_all_ _ => true | _ => false end.

Definition arg_ok (w : oledger) (p : sparam) (a : oarg) : Prop :=
  match a with
  | AVal _ => match p_ty p with Ty _ => True | _ => False end
  | AStr _ => p_ty p = Ptr (Const (Ty "char")) \/ p_ty p = Ptr (Const (Ty "ORTCHAR_T"))
  | AStrs _ => p_ty p = Ptr (Const (Ptr (Const (Ty "char"))))
  | AInts _ => p_ty p = Ptr (Const (Ty "int64_t"))
  | AObj v => exists c, obj_class (p_ty p) = Some c /\ (alive w v c \/ v = NULL /\ nullable (p_sal p) = true)
  | AObjs vs => exists c, objs_class (p_ty p) = Some c /\ Forall (fun v => o_live w !! v = Some c) vs
  | ABuf b => p_ty p = Ptr (Ty "void") /\ (b ∈ o_bufs w \/ b ∈ o_heap w)
  | AOut _ => is_out (p_sal p) = true
  end.

Definition arg_count (a : oarg) : Z :=
  match a with AStrs l => Z.of_nat (length l) | AObjs l => Z.of_nat (length l) | _ => 1 end.

(** Counted parameters have the length their count argument says. *)
Definition lens_ok (ps : list sparam) (args : list oarg) : bool :=
  forallb (fun pa => match buffer_len pa.1 with
                     | None => true
                     | Some e => match list_find (fun pb => p_arg pb.1 = e) (zip ps args) with
                                 | Some (_, (_, AVal n)) => n =? arg_count pa.2
                                 | _ => false
                                 end
                     end) (zip ps args).

(** What a successful call puts into its out variable. *)
Inductive outcome := O_object (c : string) | O_lent | O_name | O_data | O_none.
Definition slot_outcome (s : slot) : outcome :=
  match list_find (fun p => is_out (p_sal p) = true) (s_params s) with
  | Some (_, p) =>
      if (s_name s =? "GetAllocatorWithDefaultOptions")%string then O_lent else
      match p_ty p with
      | Ptr (Ptr (Ty c)) => if (c =? "char")%string then O_name else if (c =? "void")%string then O_data
                            else O_object c
      | _ => O_none
      end
  | None => O_none
  end.

Definition out_promise (w : oledger) (o : outcome) (v : Z) : Prop :=
  match o with
  | O_object _ => fresh_obj w v
  | O_lent | O_data => v <> NULL
  | O_name => v <> NULL /\ (v ∉ o_names w)
  | O_none => True
  end.

(** The tensor a data pointer belongs to, the block a tensor is created over. *)
Definition first_obj (args : list oarg) : Z := match args with AObj v :: _ => v | _ => NULL end.
Definition first_buf (args : list oarg) : option Z :=
  match omap (fun a => match a with ABuf b => Some b | _ => None end) args with b :: _ => Some b | [] => None end.

Definition out_effect (o : outcome) (args : list oarg) (v : Z) (w : oledger) : oledger :=
  match o with
  | O_object c => match first_buf args with Some b => add_over v c b w | None => add_obj v c w end
  | O_lent => OLedger (o_live w) ({[v]} ∪ o_lent w) (o_names w) (o_bufs w) (o_heap w) (o_backing w) (o_data w)
  | O_name => set_mem ({[v]} ∪ o_names w) (o_heap w) w
  | O_data => OLedger (o_live w) (o_lent w) (o_names w) (o_bufs w) (o_heap w) (o_backing w)
                (<[v := first_obj args]> (o_data w))
  | O_none => w
  end.

(** ** The contract *)

(** Which failures the environment may produce. *)
Record ofaults := OFaults {
  of_old : bool;             (* a runtime older than the header: GetApi answers NULL *)
  of_calloc : bool;          (* calloc may fail *)
  of_fail : string -> bool }. (* which status functions may fail *)

Definition ocaller {B} (w : oledger) (c : ocmd B) : Prop :=
  match c with
  | GetApi v => v = ORT_API_VERSION
  | Ort api name args =>
      api <> NULL /\ exists i s, ort_slot name = Some (i, s) /\ Forall2 (arg_ok w) (s_params s) args /\
                                 lens_ok (s_params s) args = true
  | Append_CoreML o _ => o_live w !! o = Some "OrtSessionOptions"
  | ReadCString p => p ∈ o_names w
  | Alloc_Free a p => alive w a "OrtAllocator" /\ p ∈ o_names w
  | Calloc _ _ => True
  | Free p => p = NULL \/ (p ∈ o_heap w) /\ map_Forall (fun _ b => b <> p) (o_backing w)
  | ReadFloats p _ => exists v, o_data w !! p = Some v /\ o_live w !! v = Some "OrtValue"
  end.

Definition status_promise (F : ofaults) (w : oledger) (name : string) (args : list oarg) (o : outcome)
    (r : Z * Z) : Prop :=
  r.1 = NULL /\ out_promise w o r.2 \/
  of_fail F name = true /\ fresh_obj w r.1 /\ (r.2 = NULL \/ AOut r.2 ∈ args).

Definition ocallee (F : ofaults) {B} (w : oledger) (c : ocmd B) : B -> Prop :=
  match c in ocmd T return T -> Prop with
  | GetApi _ => fun r => r <> NULL \/ of_old F = true
  | Ort _ name args => fun r =>
      match ort_slot name with
      | Some (_, s) => match s_ret s with
                       | R_status => status_promise F w name args (slot_outcome s) r
                       | _ => True
                       end
      | None => True
      end
  | Append_CoreML _ _ => fun r => r = NULL \/ fresh_obj w r
  | Calloc _ _ => fun r => r = NULL /\ of_calloc F = true \/
                           r <> NULL /\ (r ∉ o_heap w) /\ (r ∉ o_bufs w) /\
                           map_Forall (fun _ b => b <> r) (o_backing w)
  | ReadFloats _ n => fun l => length l = n
  | _ => fun _ => True
  end.

Definition oupd {B} (w : oledger) (c : ocmd B) : B -> oledger :=
  match c in ocmd T return T -> oledger with
  | Ort _ name args => fun r =>
      match ort_slot name with
      | Some (_, s) => match s_ret s with
                       | R_status => if bool_decide (r.1 = NULL) then out_effect (slot_outcome s) args r.2 w
                                     else add_obj r.1 "OrtStatus" w
                       | R_void => if bool_decide (is_Some (released_class s)) then del_obj (first_obj args) w else w
                       | R_type _ => w
                       end
      | None => w
      end
  | Append_CoreML _ _ => fun r => if bool_decide (r = NULL) then w else add_obj r "OrtStatus" w
  | Alloc_Free _ p => fun _ => set_mem (o_names w ∖ {[p]}) (o_heap w) w
  | Calloc _ _ => fun r => if bool_decide (r = NULL) then w else set_mem (o_names w) ({[r]} ∪ o_heap w) w
  | Free p => fun _ => set_mem (o_names w) (o_heap w ∖ {[p]}) w
  | _ => fun _ => w
  end.

Definition ort (F : ofaults) : contract ocmd oledger :=
  Contract ocmd oledger (fun B w c => ocaller w c) (fun B w c b => ocallee F w c b) (fun B w c b => oupd w c b).

(** ** The methods *)

Record evs := Evs { _ort : Z; _env : Z; _session : Z; _mem : Z; _outputName : string }.

(** [fail:error:]: YES for a real error, which it releases. *)
Definition fail (api : Z) (error : bool) (status : Z) : prog ocmd bool :=
  if is_null status then Ret false else
  (if error then call (Ort api "GetErrorMessage" [AObj status]) ;;; Ret tt else Ret tt) ;;;
  call (Ort api "ReleaseStatus" [AObj status]) ;;;
  Ret true.

(** [[self fail:_ort->F(..., &v) error:error]]: did it fail, and what [v] holds then. *)
Definition checked (api : Z) (error : bool) (name : string) (args : list oarg) : prog ocmd (bool * Z) :=
  r <- call (Ort api name args) ;;
  bad <- fail api error r.1 ;;
  Ret (bad, r.2).

Definition release (api : Z) (name : string) (v : Z) : prog ocmd unit :=
  call (Ort api name [AObj v]) ;;; Ret tt.

Definition ORT_LOGGING_LEVEL_WARNING : Z := 2.
Definition OrtArenaAllocator : Z := 1.
Definition OrtMemTypeDefault : Z := 0.
Definition ONNX_TENSOR_ELEMENT_DATA_TYPE_INT64 : Z := 7.

(** The end of the initializer (lines 31-39), once the session exists. *)
Definition init_finish (api : Z) (error : bool) (env sess : Z) : prog ocmd (bool * evs) :=
  mem <- checked api error "CreateCpuMemoryInfo" [AVal OrtArenaAllocator; AVal OrtMemTypeDefault; AOut NULL] ;;
  if mem.1 then Ret (false, Evs api env sess mem.2 "") else
  alloc <- call (Ort api "GetAllocatorWithDefaultOptions" [AOut NULL]) ;;
  name <- checked api error "SessionGetOutputName" [AObj sess; AVal 0; AObj alloc.2; AOut NULL] ;;
  if name.1 then Ret (false, Evs api env sess mem.2 "") else
  outputName <- call (ReadCString name.2) ;;
  call (Alloc_Free alloc.2 name.2) ;;;
  Ret (true, Evs api env sess mem.2 outputName).

Definition initWithModelPath (modelPath : string) (error : bool) : prog ocmd (bool * evs) :=
  api <- call (GetApi ORT_API_VERSION) ;;
  env <- checked api error "CreateEnv" [AVal ORT_LOGGING_LEVEL_WARNING; AStr "evs"; AOut NULL] ;;
  if env.1 then Ret (false, Evs api env.2 NULL NULL "") else
  opts <- checked api error "CreateSessionOptions" [AOut NULL] ;;
  if opts.1 then Ret (false, Evs api env.2 NULL NULL "") else
  st <- call (Append_CoreML opts.2 0) ;;
  bad <- fail api error st ;;
  if (bad : bool) then release api "ReleaseSessionOptions" opts.2 ;;; Ret (false, Evs api env.2 NULL NULL "") else
  sess <- call (Ort api "CreateSession" [AObj env.2; AStr modelPath; AObj opts.2; AOut NULL]) ;;
  release api "ReleaseSessionOptions" opts.2 ;;;
  bad <- fail api error sess.1 ;;
  if (bad : bool) then Ret (false, Evs api env.2 sess.2 NULL "") else
  init_finish api error env.2 sess.2.

Definition release_if (api : Z) (name : string) (v : Z) : prog ocmd unit :=
  if is_null v then Ret tt else release api name v.

Definition dealloc (s : evs) : prog ocmd unit :=
  release_if (_ort s) "ReleaseMemoryInfo" (_mem s) ;;;
  release_if (_ort s) "ReleaseSession" (_session s) ;;;
  release_if (_ort s) "ReleaseEnv" (_env s).

(** *** Pooling (lines 74-86): binary32 arithmetic, in the order of the loops *)

Definition fadd : float32 -> float32 -> float32 := SFadd 24 128.
Definition fmul : float32 -> float32 -> float32 := SFmul 24 128.
Definition fdiv : float32 -> float32 -> float32 := SFdiv 24 128.
Definition fsqrt : float32 -> float32 := SFsqrt 24 128.
Definition f_of_int (z : Z) : float32 := binary_normalize 24 128 z 0 false.
Definition fzero : float32 := S754_zero false.
Definition dim : nat := 384.

(** The loop over tokens: [count] and [out]; [hidden] is read row by row. *)
Fixpoint accumulate (mask : list Z) (t : nat) (hidden : list float32) (count : Z) (out : list float32)
  : Z * list float32 :=
  match mask with
  | [] => (count, out)
  | m :: rest =>
      if m =? 0 then accumulate rest (S t) hidden count out
      else let row := take dim (drop (t * dim) hidden) in
           accumulate rest (S t) hidden (wrap_s 64 (count + 1)) (zip_with fadd out row)
  end.

Definition pool (mask : list Z) (hidden : list float32) : list float32 :=
  let '(count, sum) := accumulate mask 0 hidden 0 (replicate dim fzero) in
  let out := if 0 <? count then (fun x => fdiv x (f_of_int count)) <$> sum else sum in
  let norm := fsqrt (foldl (fun acc x => fadd acc (fmul x x)) fzero out) in
  if SFltb fzero norm then (fun x => fdiv x norm) <$> out else out.

(** [embedInputIds:attentionMask:length:out:error:]; the result is what YES leaves in [out]. *)
Definition embed (s : evs) (ids mask : Z) (mask_values : list Z) (error : bool) : prog ocmd (option (list float32)) :=
  let api := _ort s in
  let length := Z.of_nat (length mask_values) in
  let bytes := wrap_u 64 (8 * wrap_u 64 length) in
  let tensor b := checked api error "CreateTensorWithDataAsOrtValue"
                    [AObj (_mem s); ABuf b; AVal bytes; AInts [1; length]; AVal 2;
                     AVal ONNX_TENSOR_ELEMENT_DATA_TYPE_INT64; AOut NULL] in
  types <- call (Calloc (wrap_u 64 length) 8) ;;
  idsVal <- tensor ids ;;
  maskVal <- (if idsVal.1 then Ret (true, NULL) else tensor mask) ;;
  typeVal <- (if maskVal.1 then Ret (true, NULL) else tensor types) ;;
  if typeVal.1 then
    release_if api "ReleaseValue" idsVal.2 ;;;
    release_if api "ReleaseValue" maskVal.2 ;;;
    release_if api "ReleaseValue" typeVal.2 ;;;
    call (Free types) ;;;
    Ret None
  else
  st <- call (Ort api "Run" [AObj (_session s); AObj NULL;
                             AStrs ["input_ids"; "attention_mask"; "token_type_ids"];
                             AObjs [idsVal.2; maskVal.2; typeVal.2]; AVal 3;
                             AStrs [_outputName s]; AVal 1; AOut NULL]) ;;
  release api "ReleaseValue" idsVal.2 ;;;
  release api "ReleaseValue" maskVal.2 ;;;
  release api "ReleaseValue" typeVal.2 ;;;
  call (Free types) ;;;
  bad <- fail api error st.1 ;;
  if (bad : bool) then Ret None else
  hidden <- checked api error "GetTensorMutableData" [AObj st.2; AOut NULL] ;;
  if hidden.1 then release api "ReleaseValue" st.2 ;;; Ret None else
  rows <- call (ReadFloats hidden.2 (List.length mask_values * dim)) ;;
  let out := pool mask_values rows in
  release api "ReleaseValue" st.2 ;;;
  Ret (Some out).

(** The enumerators passed are the header's. *)
Lemma evs_constants :
  enum_value OrtLoggingLevel "ORT_LOGGING_LEVEL_WARNING" = Some ORT_LOGGING_LEVEL_WARNING /\
  enum_value OrtAllocatorType "OrtArenaAllocator" = Some OrtArenaAllocator /\
  enum_value OrtMemType "OrtMemTypeDefault" = Some OrtMemTypeDefault /\
  enum_value ONNXTensorElementDataType "ONNX_TENSOR_ELEMENT_DATA_TYPE_INT64" =
    Some ONNX_TENSOR_ELEMENT_DATA_TYPE_INT64.
Proof. split_and!; vm_compute; reflexivity. Qed.

(** ** Rules for the calls *)

Section Rules.
  Context (F : ofaults).

Lemma wp_status (w : oledger) api name i s o args (Q : Z * Z -> oledger -> Prop) :
  api <> NULL -> ort_slot name = Some (i, s) -> s_ret s = R_status -> slot_outcome s = o ->
  Forall2 (arg_ok w) (s_params s) args -> lens_ok (s_params s) args = true ->
  (forall v, out_promise w o v -> Q (NULL, v) (out_effect o args v w)) ->
  (forall st v, of_fail F name = true -> fresh_obj w st -> (v = NULL \/ AOut v ∈ args) ->
                Q (st, v) (add_obj st "OrtStatus" w)) ->
  wp (ort F) (call (Ort api name args)) Q w.
Proof.
  intros Ha Hs Hr <- Hargs Hl Hok Hbad.
  cbn [wp call caller callee upd ort ocaller ocallee oupd]. rewrite Hs, Hr.
  split; [split; [done|]; by exists i, s|].
  intros [st v] [[E Hv]|(Hf & Hst & Hv)]; simpl in *.
  - subst st. rewrite bool_decide_true by done. by apply Hok.
  - rewrite bool_decide_false by apply Hst. by apply Hbad.
Qed.

Lemma wp_release (w : oledger) api name i s v c (Q : unit -> oledger -> Prop) :
  api <> NULL -> ort_slot name = Some (i, s) -> released_class s = Some c -> s_ret s = R_void ->
  length (s_params s) = 1%nat ->
  Forall2 (arg_ok w) (s_params s) [AObj v] -> lens_ok (s_params s) [AObj v] = true ->
  Q tt (del_obj v w) -> wp (ort F) (release api name v) Q w.
Proof.
  intros Ha Hs Hc Hr _ Hargs Hl HQ. unfold release.
  cbn [wp call bind caller callee upd ort ocaller ocallee oupd]. rewrite Hs, Hr.
  split; [split; [done|]; by exists i, s|].
  intros r _. rewrite bool_decide_true by (by rewrite Hc). done.
Qed.

Lemma del_add_obj (w : oledger) v c : fresh_obj w v -> del_obj v (add_obj v c w) = w.
Proof.
  intros (_ & H & Hb). destruct w. unfold del_obj, add_obj, set_live. simpl in *.
  by rewrite delete_insert_id, delete_id.
Qed.

Lemma del_add_under (w : oledger) o c' v c :
  fresh_obj w o -> o <> v -> del_obj o (add_obj v c (add_obj o c' w)) = add_obj v c w.
Proof.
  intros (_ & H & Hb) Hne. destruct w. unfold del_obj, add_obj, set_live. simpl in *.
  by rewrite delete_insert_ne, delete_insert_id, delete_id.
Qed.

Lemma wp_fail (w : oledger) api error st (Q : bool -> oledger -> Prop) :
  api <> NULL -> (st = NULL -> Q false w) ->
  (st <> NULL -> o_live w !! st = Some "OrtStatus" /\ Q true (del_obj st w)) ->
  wp (ort F) (fail api error st) Q w.
Proof.
  intros Ha Hn Hs. unfold fail. case_bool_decide as E; [by apply Hn|].
  destruct (Hs E) as [Hl HQ].
  assert (forall p, obj_class (p_ty p) = Some "OrtStatus" -> arg_ok w p (AObj st)) as Hok.
  { intros p Hp. exists "OrtStatus". split; [done|]. left. by left. }
  apply (wp_seq _ _ _ (fun _ w' => w' = w)).
  { destruct error; [|done].
    cbn [wp call bind caller callee upd ort ocaller ocallee oupd]. split; [|done].
    split; [done|]. eexists _, _. split; [vm_compute; reflexivity|].
    split; [|vm_compute; reflexivity]. constructor; [by apply Hok|constructor]. }
  intros _ w' ->.
  eapply (wp_seq _ (call _) _ (fun _ w' => w' = del_obj st w)); [|by intros _ ? ->].
  cbn [wp call bind caller callee upd ort ocaller ocallee oupd]. split; [|done].
  split; [done|]. eexists _, _. split; [vm_compute; reflexivity|].
  split; [|vm_compute; reflexivity]. constructor; [by apply Hok|constructor].
Qed.

(** A checked call: on success the out variable holds what the slot promises; on failure the status
    was released again, the state is as before and the variable still NULL. *)
Lemma wp_checked (w : oledger) api error name i s o args (Q : bool * Z -> oledger -> Prop) :
  api <> NULL -> ort_slot name = Some (i, s) -> s_ret s = R_status -> slot_outcome s = o ->
  Forall2 (arg_ok w) (s_params s) args -> lens_ok (s_params s) args = true ->
  Forall (fun a => match a with AOut o => o = NULL | _ => True end) args ->
  (forall v, out_promise w o v -> Q (false, v) (out_effect o args v w)) ->
  (of_fail F name = true -> Q (true, NULL) w) ->
  wp (ort F) (checked api error name args) Q w.
Proof.
  intros Ha Hs Hr Ho Hargs Hl Hnull Hok Hbad. unfold checked.
  apply (wp_bind _ (call _)). eapply wp_status; [exact Ha|exact Hs|exact Hr|exact Ho|exact Hargs|exact Hl|..].
  - intros v Hv. apply (wp_bind _ (fail _ _ _)). apply wp_fail; [done| |done]. intros _. by apply Hok.
  - intros st v Hf Hst Hv. apply (wp_bind _ (fail _ _ _)). apply wp_fail; [done| |].
    + intros E. simpl in E. by destruct Hst.
    + intros _. simpl. rewrite lookup_insert_eq. split; [done|]. rewrite del_add_obj by done.
      assert (v = NULL) as ->; [|by apply Hbad].
      destruct Hv as [->|Hin]; [done|]. rewrite Forall_forall in Hnull. by apply (Hnull _ Hin).
Qed.

Lemma wp_release_if (w : oledger) api name i s v c (Q : unit -> oledger -> Prop) :
  api <> NULL -> ort_slot name = Some (i, s) -> released_class s = Some c -> s_ret s = R_void ->
  length (s_params s) = 1%nat ->
  (v <> NULL -> Forall2 (arg_ok w) (s_params s) [AObj v] /\ lens_ok (s_params s) [AObj v] = true /\
                Q tt (del_obj v w)) ->
  (v = NULL -> Q tt w) -> wp (ort F) (release_if api name v) Q w.
Proof.
  intros Ha Hs Hc Hr Hlen H1 H2. unfold release_if. case_bool_decide as E; [by apply H2|].
  destruct (H1 E) as (Hargs & Hl & HQ). by eapply wp_release.
Qed.
End Rules.

(** ** Lifetime of the objects *)

(** The parts of the state no method may leave changed. *)
Record same_rest (w w' : oledger) : Prop := {
  sr_names : o_names w' = o_names w; sr_bufs : o_bufs w' = o_bufs w; sr_heap : o_heap w' = o_heap w;
  sr_backing : o_backing w' = o_backing w }.

(** Nothing is owned beyond what was owned before. *)
Definition balanced (w w' : oledger) : Prop := o_live w' = o_live w /\ same_rest w w'.

Definition opt_insert (v : Z) (c : string) (m : gmap Z string) : gmap Z string :=
  if is_null v then m else <[v := c]> m.
Definition opt_fresh (v : Z) (m : gmap Z string) : Prop := v <> NULL -> m !! v = None.

(** [w'] is [w] plus the objects the instance variables of [s] hold. *)
Record holds (s : evs) (w w' : oledger) : Prop := {
  h_rest : same_rest w w';
  h_backing : forall v, v = _env s \/ v = _session s \/ v = _mem s -> v <> NULL -> o_backing w !! v = None;
  h_env : opt_fresh (_env s) (o_live w);
  h_session : opt_fresh (_session s) (opt_insert (_env s) "OrtEnv" (o_live w));
  h_mem : opt_fresh (_mem s) (opt_insert (_session s) "OrtSession" (opt_insert (_env s) "OrtEnv" (o_live w)));
  h_live : o_live w' = opt_insert (_mem s) "OrtMemoryInfo" (opt_insert (_session s) "OrtSession"
             (opt_insert (_env s) "OrtEnv" (o_live w))) }.

(** An object argument that the ledger visibly holds. *)
Lemma live_arg (w : oledger) p v c :
  obj_class (p_ty p) = Some c -> o_live w !! v = Some c -> arg_ok w p (AObj v).
Proof. intros Hc Hl. exists c. split; [done|]. left. by left. Qed.

Ltac solve_args :=
  repeat first [ apply Forall2_cons_2 | apply Forall2_nil_2 | apply Forall_cons_2 | apply Forall_nil_2 ];
  first [ done | (by left) | (by right) | (by eapply live_arg; [reflexivity|]; simpl; simplify_map_eq)
        | (eexists "OrtAllocator"; split; [reflexivity|]; left; right; split; [done|]; simpl;
           apply elem_of_union_l, elem_of_singleton_2; reflexivity)
        | idtac ].

(** The premises of a rule that only read the table. *)
Ltac slot_side := first [ assumption | (vm_compute; reflexivity) ].

(** Releasing an instance variable takes exactly its object away. *)
Lemma release_held_wp F (w : oledger) api name i s v c m (Q : unit -> oledger -> Prop) :
  api <> NULL -> ort_slot name = Some (i, s) -> released_class s = Some c -> String.prefix "Ort" c = true ->
  o_live w = opt_insert v c m -> opt_fresh v m -> (v <> NULL -> o_backing w !! v = None) ->
  (forall w', o_live w' = m -> same_rest w w' -> Q tt w') ->
  wp (ort F) (release_if api name v) Q w.
Proof.
  intros Ha Hs Hc Hpre Hl Hf Hb HQ. pose proof Hc as Hc'. unfold released_class in Hc'.
  destruct (s_ret s) eqn:Hr; try done. destruct (s_params s) as [|[sa pa ty] [|? ?]] eqn:Hp; try done.
  2: by repeat case_match.
  destruct sa; try done. destruct ty as [| |[]|]; try done. simplify_eq.
  eapply wp_release_if; [done|exact Hs|exact Hc|exact Hr|by rewrite Hp|..]; rewrite ?Hp.
  - intros Hv. unfold opt_insert in Hl. rewrite bool_decide_false in Hl by done. split_and!.
    + constructor; [|constructor]. eapply live_arg; [simpl; by rewrite Hpre|]. rewrite Hl. by simplify_map_eq.
    + done.
    + apply HQ; simpl; [rewrite Hl; by apply delete_insert_id; apply Hf|].
      split; simpl; try done. apply delete_id. by apply Hb.
  - intros ->. apply HQ; [exact Hl|done].
Qed.

Lemma dealloc_wp F (s : evs) (w w' : oledger) :
  _ort s <> NULL -> holds s w w' -> wp (ort F) (dealloc s) (fun _ => balanced w) w'.
Proof.
  intros Ha [[Hn Hbu Hh Hbk] Hb He Hs Hm Hl]. unfold dealloc.
  apply (wp_bind _ (release_if _ _ _)).
  eapply release_held_wp; [slot_side..|exact Hl|exact Hm| |].
  { intros Hv. rewrite Hbk. apply Hb; auto. }
  intros w1 Hl1 [Hn1 Hbu1 Hh1 Hbk1]. apply (wp_bind _ (release_if _ _ _)).
  eapply release_held_wp; [slot_side..|exact Hl1|exact Hs| |].
  { intros Hv. rewrite Hbk1, Hbk. apply Hb; auto. }
  intros w2 Hl2 [Hn2 Hbu2 Hh2 Hbk2].
  eapply release_held_wp; [slot_side..|exact Hl2|exact He| |].
  { intros Hv. rewrite Hbk2, Hbk1, Hbk. apply Hb; auto. }
  intros w3 Hl3 [Hn3 Hbu3 Hh3 Hbk3]. split; [done|]. split; congruence.
Qed.

(** Failing at a point where the object so far is [Evs api e s m n]. *)
Lemma holds_intro api e s m n (w w' : oledger) :
  same_rest w w' -> (forall v, v = e \/ v = s \/ v = m -> v <> NULL -> o_backing w !! v = None) ->
  opt_fresh e (o_live w) -> opt_fresh s (opt_insert e "OrtEnv" (o_live w)) ->
  opt_fresh m (opt_insert s "OrtSession" (opt_insert e "OrtEnv" (o_live w))) ->
  o_live w' = opt_insert m "OrtMemoryInfo" (opt_insert s "OrtSession" (opt_insert e "OrtEnv" (o_live w))) ->
  holds (Evs api e s m n) w w'.
Proof. by split. Qed.

Lemma opt_insert_some v c m : v <> NULL -> opt_insert v c m = <[v := c]> m.
Proof. intros Hv. unfold opt_insert. by rewrite bool_decide_false. Qed.
Lemma opt_fresh_null m : opt_fresh NULL m.
Proof. intros H. by destruct H. Qed.

Definition init_post (w : oledger) (r : bool * evs) (w' : oledger) : Prop :=
  holds r.2 w w' /\ _ort r.2 <> NULL /\
  (r.1 = true -> _env r.2 <> NULL /\ _session r.2 <> NULL /\ _mem r.2 <> NULL).

(** The stages of the initializer. *)
Ltac solve_holds :=
  apply holds_intro; unfold opt_insert; repeat case_bool_decide;
  first [ done | congruence | apply opt_fresh_null | (intros ?; done)
        | (intros ? [E|[E|E]]; rewrite ?E; (done || congruence)) ].

Lemma holds_none api n (w w' : oledger) : balanced w w' -> holds (Evs api NULL NULL NULL n) w w'.
Proof. intros [Hl Hr]. solve_holds. Qed.

Lemma holds_env api n e (w w' : oledger) :
  fresh_obj w e -> o_live w' = <[e := "OrtEnv"]> (o_live w) -> same_rest w w' ->
  holds (Evs api e NULL NULL n) w w'.
Proof. intros (He0 & He & Hb) Hl Hr. solve_holds. Qed.

Lemma holds_session api n e s (w w' : oledger) :
  fresh_obj w e -> fresh_obj (add_obj e "OrtEnv" w) s ->
  o_live w' = <[s := "OrtSession"]> (<[e := "OrtEnv"]> (o_live w)) -> same_rest w w' ->
  holds (Evs api e s NULL n) w w'.
Proof. intros (He0 & He & Hb) (Hs0 & Hs & Hsb) Hl Hr. solve_holds. Qed.

Lemma holds_all api n e s m (w w' : oledger) :
  fresh_obj w e -> fresh_obj (add_obj e "OrtEnv" w) s ->
  fresh_obj (add_obj s "OrtSession" (add_obj e "OrtEnv" w)) m ->
  o_live w' = <[m := "OrtMemoryInfo"]> (<[s := "OrtSession"]> (<[e := "OrtEnv"]> (o_live w))) ->
  same_rest w w' -> holds (Evs api e s m n) w w'.
Proof. intros (He0 & He & Hb) (Hs0 & Hs & Hsb) (Hm0 & Hm & Hmb) Hl Hr. solve_holds. Qed.

(** One checked call with NULL-initialized out variable. *)
Ltac step_checked :=
  apply (wp_bind _ (checked _ _ _ _));
  eapply wp_checked; [slot_side|slot_side|slot_side|slot_side|solve_args|slot_side|solve_args| |];
  cbn [out_effect out_promise first_buf omap list_omap fst snd].
Ltac step_fail := apply (wp_bind _ (fail _ _ _)); apply wp_fail; [done| |].

Lemma init_finish_wp F (w w1 : oledger) api error env sess :
  of_fail F "GetAllocatorWithDefaultOptions" = false -> api <> NULL ->
  fresh_obj w env -> fresh_obj (add_obj env "OrtEnv" w) sess ->
  w1 = add_obj sess "OrtSession" (add_obj env "OrtEnv" w) ->
  wp (ort F) (init_finish api error env sess) (init_post w) w1.
Proof.
  intros Hal Ha He Hs Hw1. unfold init_finish. step_checked.
  2: { intros _. rewrite Hw1. split; [by apply holds_session|done]. }
  intros mem Hm. rewrite Hw1 in Hm.
  assert (fresh_obj w1 mem) as (Hm0 & Hm1 & Hm2) by (by subst w1).
  assert (o_live w1 !! sess = Some "OrtSession") as Hls by (rewrite Hw1; simpl; by simplify_map_eq).
  assert (mem <> sess) as Hne by (intros ->; by rewrite Hls in Hm1).
  apply (wp_bind _ (call _)).
  eapply wp_status; [slot_side|slot_side|slot_side|slot_side|solve_args|slot_side| |intros ? ?; congruence].
  intros alloc Halloc. cbn [out_effect fst snd].
  step_checked.
  2: { intros _. rewrite Hw1. split; [by apply holds_all|done]. }
  intros name [Hn0 Hn]. cbn [out_effect] in *. apply (wp_bind _ (call _)).
  split; [simpl; apply elem_of_union_l, elem_of_singleton_2; reflexivity|].
  intros s _. cbn [upd ort oupd wp]. apply (wp_bind _ (call _)).
  split; [split; [right; split; [done|]|]; simpl; apply elem_of_union_l, elem_of_singleton_2; reflexivity|].
  intros [] _. rewrite Hw1 in *. split; [|by destruct Hs, He].
  apply holds_all; try done. split; try done. simpl. rewrite gset_add_remove by done. done.
Qed.

Lemma init_wp F (w : oledger) path error :
  of_old F = false -> of_fail F "GetAllocatorWithDefaultOptions" = false ->
  wp (ort F) (initWithModelPath path error) (init_post w) w.
Proof.
  intros Hold Hal. unfold initWithModelPath.
  apply (wp_bind _ (call _)). split; [done|]. intros api [Ha|?]; [|congruence]. cbn [upd ort oupd wp].
  step_checked.
  2: { intros _. split; [by apply holds_none|done]. }
  intros env He. step_checked.
  2: { intros _. split; [by apply holds_env|done]. }
  intros opts Ho. pose proof Ho as (Ho0 & Ho1 & Ho2). simpl in Ho1, Ho2.
  apply (wp_bind _ (call _)). split; [simpl; by simplify_map_eq|]. intros st Hst. cbn [upd ort oupd wp].
  assert (opts <> env) as Hne by (intros ->; by simplify_map_eq).
  set (w2 := add_obj opts _ _) in *.
  step_fail.
  2: { intros Hn. rewrite bool_decide_false by done. destruct Hst as [?|Hst]; [done|].
    split; [apply lookup_insert_eq|]. rewrite del_add_obj by done.
    apply (wp_bind _ (release _ _ _)).
    eapply wp_release; [slot_side..|solve_args|slot_side|]. unfold w2. rewrite del_add_obj by done.
    split; [by apply holds_env|done]. }
  intros ->. rewrite bool_decide_true by done. apply (wp_bind _ (call _)).
  eapply wp_status; [slot_side|slot_side|slot_side|slot_side|solve_args|slot_side| |].
  - intros sess Hs. pose proof Hs as (Hs0 & Hs1 & Hs2). simpl in Hs1, Hs2.
    apply lookup_insert_None in Hs1 as [Hs1 Hso].
    apply (wp_bind _ (release _ _ _)). eapply wp_release; [slot_side..|solve_args|slot_side|].
    cbn [out_effect first_buf omap list_omap fst snd]. unfold w2. rewrite del_add_under by done.
    step_fail; [intros _|done]. by apply (init_finish_wp F w).
  - intros st v _ Hf Hv. pose proof Hf as (Hf0 & Hf1 & Hf2). simpl in Hf1, Hf2.
    apply lookup_insert_None in Hf1 as [Hf1 Hfo].
    apply (wp_bind _ (release _ _ _)). eapply wp_release; [slot_side..|solve_args|slot_side|].
    unfold w2. rewrite del_add_under by done. cbn [fst snd]. step_fail; [done|]. intros _.
    split; [apply lookup_insert_eq|]. rewrite del_add_obj by done.
    destruct Hv as [->|Hv]; [|assert (v = NULL) as -> by set_solver]; (split; [by apply holds_env|done]).
Qed.

(** ** One embedding *)

Lemma del_add_over (w : oledger) v c b : fresh_obj w v -> del_obj v (add_over v c b w) = w.
Proof.
  intros (_ & H & Hb). destruct w. unfold del_obj, add_over, set_live. simpl in *.
  by rewrite !delete_insert_id.
Qed.

Lemma del_over_comm (w : oledger) o v c b : o <> v -> del_obj o (add_over v c b w) = add_over v c b (del_obj o w).
Proof.
  intros Hne. destruct w. unfold del_obj, add_over, set_live. simpl. by rewrite !delete_insert_ne.
Qed.

Lemma del_obj_comm (w : oledger) o v c :
  o <> v -> o_backing w !! v = None -> del_obj o (add_obj v c w) = add_obj v c (del_obj o w).
Proof.
  intros Hne _. destruct w. unfold del_obj, add_obj, set_live. simpl. by rewrite delete_insert_ne.
Qed.

(** With [calloc]'d block [t]. *)
Definition with_block t (w : oledger) : oledger := set_mem (o_names w) ({[t]} ∪ o_heap w) w.

Definition tensor_args (s : evs) (n b : Z) : list oarg :=
  [AObj (_mem s); ABuf b; AVal (wrap_u 64 (8 * wrap_u 64 n)); AInts [1; n]; AVal 2;
   AVal ONNX_TENSOR_ELEMENT_DATA_TYPE_INT64; AOut NULL].

Section Embed.
  Context (F : ofaults) (s : evs) (ids mask : Z) (mask_values : list Z) (error : bool).
  Context (Hapi : _ort s <> NULL).
Let n : Z := Z.of_nat (List.length mask_values).

(** A tensor over a block of the caller or of the heap. *)
Lemma wp_tensor (w : oledger) b (Q : bool * Z -> oledger -> Prop) :
  o_live w !! _mem s = Some "OrtMemoryInfo" -> (b ∈ o_bufs w \/ b ∈ o_heap w) ->
  (forall v, fresh_obj w v -> Q (false, v) (add_over v "OrtValue" b w)) ->
  (of_fail F "CreateTensorWithDataAsOrtValue" = true -> Q (true, NULL) w) ->
  wp (ort F) (checked (_ort s) error "CreateTensorWithDataAsOrtValue" (tensor_args s n b)) Q w.
Proof.
  intros Hm Hb H1 H2. unfold tensor_args.
  eapply wp_checked; [slot_side|slot_side|slot_side|slot_side|solve_args|slot_side|solve_args|exact H1|exact H2].
Qed.

Lemma wp_release_value (w : oledger) v (Q : unit -> oledger -> Prop) :
  o_live w !! v = Some "OrtValue" -> Q tt (del_obj v w) -> wp (ort F) (release (_ort s) "ReleaseValue" v) Q w.
Proof. intros Hv HQ. eapply wp_release; [slot_side..|solve_args|slot_side|done]. Qed.

Definition embed_post (w : oledger) (r : option (list float32)) (w' : oledger) : Prop :=
  balanced w w' /\
  match r with
  | None => exists name, of_fail F name = true /\
      name ∈ ["CreateTensorWithDataAsOrtValue"; "Run"; "GetTensorMutableData"]
  | Some out => exists rows, List.length rows = (List.length mask_values * dim)%nat /\ out = pool mask_values rows
  end.

(** After the run, with the inputs released: read the result, pool it, release it. *)
Lemma wp_read_result (w : oledger) v :
  fresh_obj w v ->
  wp (ort F)
    (hidden <- checked (_ort s) error "GetTensorMutableData" [AObj v; AOut NULL] ;;
     if hidden.1 then release (_ort s) "ReleaseValue" v ;;; Ret None else
     rows <- call (ReadFloats hidden.2 (List.length mask_values * dim)) ;;
     let out := pool mask_values rows in
     release (_ort s) "ReleaseValue" v ;;;
     Ret (Some out)) (embed_post w) (add_obj v "OrtValue" w).
Proof.
  intros Hv. assert (o_live (add_obj v "OrtValue" w) !! v = Some "OrtValue") as Hl by apply lookup_insert_eq.
  step_checked.
  2: { intros Hf. apply (wp_bind _ (release _ _ _)). apply wp_release_value; [done|].
       rewrite del_add_obj by done. split; [by split|]. eexists. split; [exact Hf|]. set_solver. }
  intros p Hp. apply (wp_bind _ (call _)). split.
  { exists v. split; [apply lookup_insert_eq|done]. }
  intros rows Hrows. cbn [upd ort oupd wp]. apply (wp_bind _ (release _ _ _)).
  apply wp_release_value; [done|]. split; [|by exists rows].
  pose proof (del_add_obj w v "OrtValue" Hv) as E.
  split; simpl; [by rewrite <- E at 2|]. split; simpl; try done. by rewrite <- E at 2.
Qed.

(** The block is fresh: nothing is backed by it. *)
Definition block_ok (w : oledger) (t : Z) : Prop :=
  t <> NULL /\ (t ∉ o_heap w) /\ map_Forall (fun _ b => b <> t) (o_backing w).

Lemma wp_free (w : oledger) t (Q : unit -> oledger -> Prop) :
  block_ok w t -> Q tt w -> wp (ort F) (call (Free t)) Q (with_block t w).
Proof.
  intros (Ht & Hh & Hb) HQ. split.
  { right. split; [simpl; by apply elem_of_union_l, elem_of_singleton_2|done]. }
  intros [] _. cbn [wp upd ort oupd]. unfold with_block, set_mem. simpl. rewrite gset_add_remove by done.
  by destruct w.
Qed.

(** Abandoning: the tensors created so far and the block are released. *)
Lemma wp_abandon (w : oledger) t v1 v2 (Q : option (list float32) -> oledger -> Prop) :
  block_ok w t -> (v1 = NULL -> v2 = NULL) ->
  (v1 <> NULL -> fresh_obj (with_block t w) v1) ->
  (v2 <> NULL -> fresh_obj (add_over v1 "OrtValue" ids (with_block t w)) v2) ->
  Q None w ->
  wp (ort F)
    (release_if (_ort s) "ReleaseValue" v1 ;;;
     release_if (_ort s) "ReleaseValue" v2 ;;;
     release_if (_ort s) "ReleaseValue" NULL ;;;
     call (Free t) ;;;
     Ret None) Q
    (let w1 := if is_null v1 then with_block t w else add_over v1 "OrtValue" ids (with_block t w) in
     if is_null v2 then w1 else add_over v2 "OrtValue" mask w1).
Proof.
  intros Ht H12 H1 H2 HQ. cbv zeta. unfold release_if.
  assert (wp (ort F) (call (Free t) ;;; Ret None) Q (with_block t w)) as Hend.
  { apply (wp_bind _ (call _)). by apply wp_free. }
  destruct (bool_decide_reflect (v1 = NULL)) as [E1|E1].
  { rewrite (H12 E1). exact Hend. }
  destruct (H1 E1) as (_ & Hf & Hfb). apply (wp_bind _ (release _ _ _)).
  destruct (bool_decide_reflect (v2 = NULL)) as [E2|E2].
  { apply wp_release_value; [apply lookup_insert_eq|]. rewrite del_add_over by by apply H1. exact Hend. }
  destruct (H2 E2) as (_ & Hf2 & Hfb2). simpl in Hf2, Hfb2. apply lookup_insert_None in Hf2 as [Hf2 Hne].
  apply wp_release_value; [simpl; by rewrite lookup_insert_ne, lookup_insert_eq|].
  rewrite del_over_comm, del_add_over by (done || by apply H1).
  apply (wp_bind _ (release _ _ _)). apply wp_release_value; [apply lookup_insert_eq|].
  rewrite del_add_over; [exact Hend|]. split_and!; [done|done|].
  simpl. apply lookup_insert_None in Hfb2. tauto.
Qed.

(** The three inputs over block [t]. *)
Definition with_inputs t v1 v2 v3 (w : oledger) : oledger :=
  add_over v3 "OrtValue" t (add_over v2 "OrtValue" mask (add_over v1 "OrtValue" ids (with_block t w))).
Definition inputs_fresh (w : oledger) v1 v2 v3 : Prop :=
  fresh_obj w v1 /\ fresh_obj w v2 /\ fresh_obj w v3 /\ v1 <> v2 /\ v1 <> v3 /\ v2 <> v3.

Lemma release_under (w : oledger) x c v b :
  fresh_obj w v -> x <> v -> del_obj v (add_obj x c (add_over v "OrtValue" b w)) = add_obj x c w.
Proof.
  intros (_ & H & Hb) Hne. destruct w. unfold del_obj, add_obj, add_over, set_live. simpl in *.
  by rewrite delete_insert_ne, !delete_insert_id by done.
Qed.

Lemma add_over_comm (w : oledger) v1 b1 v2 b2 :
  v1 <> v2 -> add_over v1 "OrtValue" b1 (add_over v2 "OrtValue" b2 w) =
              add_over v2 "OrtValue" b2 (add_over v1 "OrtValue" b1 w).
Proof.
  intros Hne. destruct w. unfold add_over, set_live. simpl. f_equal; by apply insert_insert_ne.
Qed.

Lemma fresh_over (w : oledger) v x b : fresh_obj w v -> v <> x -> fresh_obj (add_over x "OrtValue" b w) v.
Proof. intros (H0 & H1 & H2) Hne. split_and!; [done|simpl; by rewrite lookup_insert_ne..]. Qed.

(** Releasing the inputs and the block below the object [x] the run added. *)
Lemma wp_release_inputs (w : oledger) t v1 v2 v3 x c p (Q : option (list float32) -> oledger -> Prop) :
  block_ok w t -> inputs_fresh w v1 v2 v3 -> x <> v1 -> x <> v2 -> x <> v3 ->
  wp (ort F) p Q (add_obj x c w) ->
  wp (ort F)
    (release (_ort s) "ReleaseValue" v1 ;;;
     release (_ort s) "ReleaseValue" v2 ;;;
     release (_ort s) "ReleaseValue" v3 ;;;
     call (Free t) ;;; p) Q (add_obj x c (with_inputs t v1 v2 v3 w)).
Proof.
  intros (Ht & Hh & Hb) (Hf1 & Hf2 & Hf3 & H12 & H13 & H23) Hx1 Hx2 Hx3 Hp. unfold with_inputs.
  assert (forall v, fresh_obj w v -> fresh_obj (with_block t w) v) as Hwb by done.
  apply (wp_bind _ (release _ _ _)), wp_release_value; [simpl; by simplify_map_eq|].
  rewrite (add_over_comm _ v2), (add_over_comm _ v3), release_under
    by (done || (apply fresh_over; [apply fresh_over|]; auto)).
  apply (wp_bind _ (release _ _ _)), wp_release_value; [simpl; by simplify_map_eq|].
  rewrite (add_over_comm _ v3), release_under by (done || (apply fresh_over; auto)).
  apply (wp_bind _ (release _ _ _)), wp_release_value; [simpl; by simplify_map_eq|].
  rewrite release_under by auto. apply (wp_bind _ (call _)). split.
  { right. split; [simpl; by apply elem_of_union_l, elem_of_singleton_2|done]. }
  intros [] _. cbn [wp upd ort oupd]. unfold with_block, set_mem, add_obj, set_live in *. simpl in *.
  by rewrite gset_add_remove.
Qed.

Lemma alive_inputs (w : oledger) t v1 v2 v3 :
  inputs_fresh w v1 v2 v3 ->
  Forall (fun v => o_live (with_inputs t v1 v2 v3 w) !! v = Some "OrtValue") [v1; v2; v3].
Proof.
  intros (_ & _ & _ & H12 & H13 & H23). repeat apply Forall_cons_2; [..|done]; simpl; by simplify_map_eq.
Qed.

Lemma wp_run_model (w : oledger) t v1 v2 v3 :
  block_ok w t -> inputs_fresh w v1 v2 v3 -> o_live w !! _session s = Some "OrtSession" ->
  wp (ort F)
    (st <- call (Ort (_ort s) "Run" [AObj (_session s); AObj NULL;
                             AStrs ["input_ids"; "attention_mask"; "token_type_ids"];
                             AObjs [v1; v2; v3]; AVal 3; AStrs [_outputName s]; AVal 1; AOut NULL]) ;;
     release (_ort s) "ReleaseValue" v1 ;;;
     release (_ort s) "ReleaseValue" v2 ;;;
     release (_ort s) "ReleaseValue" v3 ;;;
     call (Free t) ;;;
     bad <- fail (_ort s) error st.1 ;;
     if (bad : bool) then Ret None else
     hidden <- checked (_ort s) error "GetTensorMutableData" [AObj st.2; AOut NULL] ;;
     if hidden.1 then release (_ort s) "ReleaseValue" st.2 ;;; Ret None else
     rows <- call (ReadFloats hidden.2 (List.length mask_values * dim)) ;;
     let out := pool mask_values rows in
     release (_ort s) "ReleaseValue" st.2 ;;;
     Ret (Some out)) (embed_post w) (with_inputs t v1 v2 v3 w).
Proof.
  intros Ht Hin Hs.
  assert (forall x, fresh_obj (with_inputs t v1 v2 v3 w) x -> fresh_obj w x /\ x <> v1 /\ x <> v2 /\ x <> v3) as Hx.
  { intros x (H0 & H1 & H2). simpl in H1, H2. rewrite !lookup_insert_None in H1.
    rewrite !lookup_insert_None in H2. unfold fresh_obj. naive_solver. }
  assert (o_live (with_inputs t v1 v2 v3 w) !! _session s = Some "OrtSession") as Hs'.
  { destruct Hin as ((_ & H1 & _) & (_ & H2 & _) & (_ & H3 & _) & _). simpl.
    rewrite !lookup_insert_ne by congruence. done. }
  apply (wp_bind _ (call _)).
  eapply wp_status; [slot_side|slot_side|slot_side|slot_side|solve_args|slot_side| |].
  { exists "OrtRunOptions". split; [reflexivity|]. right. by split. }
  { exists "OrtValue". split; [reflexivity|]. by apply alive_inputs. }
  - intros v Hv. destruct (Hx v Hv) as (Hfv & ? & ? & ?). apply (wp_release_inputs w); try done.
    step_fail; [intros _|done]. by apply wp_read_result.
  - intros st v Hf Hst _. destruct (Hx st Hst) as (Hfst & ? & ? & ?). apply (wp_release_inputs w); try done.
    step_fail; [by destruct Hfst|]. intros _. split; [apply lookup_insert_eq|]. rewrite del_add_obj by done.
    split; [by split|]. eexists. split; [exact Hf|]. set_solver.
Qed.

(** The whole method. *)
Lemma embed_wp (w : oledger) :
  of_calloc F = false -> (ids ∈ o_bufs w) -> (mask ∈ o_bufs w) ->
  o_live w !! _session s = Some "OrtSession" -> o_live w !! _mem s = Some "OrtMemoryInfo" ->
  wp (ort F) (embed s ids mask mask_values error) (embed_post w) w.
Proof.
  intros Hc Hids Hmask Hs Hm. unfold embed.
  apply (wp_bind _ (call _)). split; [done|]. intros t [[_ ?]|(Ht0 & Ht & _ & Htb)]; [congruence|].
  assert (block_ok w t) as Hok by done. cbn [upd ort oupd wp]. rewrite bool_decide_false by done.
  change (set_mem (o_names w) ({[t]} ∪ o_heap w) w) with (with_block t w).
  assert (forall name, of_fail F name = true -> name = "CreateTensorWithDataAsOrtValue" -> embed_post w None w) as Hnone.
  { intros name Hf ->. split; [by split|]. eexists. split; [exact Hf|]. set_solver. }
  apply (wp_bind _ (checked _ _ _ _)). apply wp_tensor; [done|by left| |].
  2: { intros Hf. apply (wp_abandon w t NULL NULL); try done. by eapply Hnone. }
  intros v1 Hv1. cbn [bind fst snd]. apply (wp_bind _ (checked _ _ _ _)).
  apply wp_tensor; [|by left| |].
  { destruct Hv1 as (_ & H1 & _). simpl. rewrite lookup_insert_ne; [done|]. intros ->. simpl in H1. congruence. }
  2: { intros Hf. pose proof (wp_abandon w t v1 NULL (embed_post w)) as Ha. cbv zeta in Ha.
       rewrite (bool_decide_false (v1 = NULL)) in Ha by apply Hv1. apply Ha; try done. by eapply Hnone. }
  intros v2 Hv2. cbn [bind fst snd].
  assert (o_live (add_over v2 "OrtValue" mask (add_over v1 "OrtValue" ids (with_block t w))) !! _mem s =
          Some "OrtMemoryInfo") as Hm2.
  { destruct Hv1 as (_ & H1 & _), Hv2 as (_ & H2 & _). simpl in H1, H2 |- *.
    apply lookup_insert_None in H2 as [H2 _]. rewrite !lookup_insert_ne by congruence. done. }
  apply (wp_bind _ (checked _ _ _ _)). apply wp_tensor; [done| | |].
  { right. simpl. by apply elem_of_union_l, elem_of_singleton_2. }
  2: { intros Hf. pose proof (wp_abandon w t v1 v2 (embed_post w)) as Ha. cbv zeta in Ha.
       rewrite (bool_decide_false (v1 = NULL)), (bool_decide_false (v2 = NULL)) in Ha by (apply Hv1 || apply Hv2).
       apply Ha; [exact Hok|intros E; by destruct Hv1|intros _; exact Hv1|intros _; exact Hv2|by eapply Hnone]. }
  intros v3 Hv3. cbn [bind fst snd]. apply wp_run_model; [exact Hok| |exact Hs].
  destruct Hv1 as (H10 & H11 & H12), Hv2 as (H20 & H21 & H22), Hv3 as (H30 & H31 & H32). simpl in *.
  rewrite !lookup_insert_None in *. unfold inputs_fresh, fresh_obj. naive_solver.
Qed.
End Embed.

(** ** Pooling *)

(** The rows of the tokens the mask selects. *)
Fixpoint selected (mask : list Z) (t : nat) (hidden : list float32) : list (list float32) :=
  match mask with
  | [] => []
  | m :: rest => (if m =? 0 then [] else [take dim (drop (t * dim) hidden)]) ++ selected rest (S t) hidden
  end.

(** Mean of the selected rows (their sum in order, divided by their number), scaled to length one. *)
Definition mean (rows : list (list float32)) : list float32 :=
  let sum := foldl (zip_with fadd) (replicate dim fzero) rows in
  match rows with [] => sum | _ => (fun x => fdiv x (f_of_int (Z.of_nat (length rows)))) <$> sum end.
Definition l2_norm (v : list float32) : float32 :=
  fsqrt (foldl (fun acc x => fadd acc (fmul x x)) fzero v).
Definition normalize (v : list float32) : list float32 :=
  if SFltb fzero (l2_norm v) then (fun x => fdiv x (l2_norm v)) <$> v else v.

Lemma accumulate_selected mask t hidden count out :
  0 <= count -> count + Z.of_nat (length mask) < 2 ^ 63 ->
  accumulate mask t hidden count out =
    (count + Z.of_nat (length (selected mask t hidden)), foldl (zip_with fadd) out (selected mask t hidden)).
Proof.
  revert t count out. induction mask as [|m mask IH]; intros t count out H0 Hlt; simpl in *.
  - f_equal. lia.
  - destruct (m =? 0); simpl; [apply IH; lia|].
    rewrite wrap_s_id by (unfold in_s; lia). rewrite IH by lia. f_equal. lia.
Qed.

Lemma pool_reference mask hidden :
  Z.of_nat (length mask) < 2 ^ 63 -> pool mask hidden = normalize (mean (selected mask 0 hidden)).
Proof.
  intros Hl. unfold pool. rewrite accumulate_selected by lia. unfold normalize, l2_norm, mean.
  destruct (selected mask 0 hidden) as [|r rows] eqn:E; simpl length; [done|].
  rewrite (proj2 (Z.ltb_lt _ _)) by lia.
  by replace (0 + Z.of_nat (S (length rows))) with (Z.of_nat (S (length rows))) by lia.
Qed.

Lemma selected_agree mask t hidden hidden' :
  (forall i m, mask !! i = Some m -> m <> 0 ->
     take dim (drop ((t + i) * dim) hidden) = take dim (drop ((t + i) * dim) hidden')) ->
  selected mask t hidden = selected mask t hidden'.
Proof.
  revert t. induction mask as [|m mask IH]; intros t H; simpl; [done|]. f_equal.
  - destruct (m =? 0) eqn:E; [done|]. f_equal. rewrite <- (Nat.add_0_r t). apply (H 0%nat m); [done|lia].
  - apply IH. intros i m' Hi Hm. rewrite Nat.add_succ_comm. by apply (H (S i) m').
Qed.

Lemma selected_none mask t hidden : Forall (fun m => m = 0) mask -> selected mask t hidden = [].
Proof. intros H. revert t. induction H as [|m mask -> _ IH]; intros t; simpl; auto. Qed.

Lemma zero_norm n : SFltb fzero (l2_norm (replicate n fzero)) = false.
Proof.
  unfold l2_norm. assert (foldl (fun acc x => fadd acc (fmul x x)) fzero (replicate n fzero) = fzero) as ->.
  { induction n; simpl; done. }
  reflexivity.
Qed.

(** the pooling loops compute the reference: sum the rows of the tokens whose mask is not 0 in
    order, divide by their number, divide by the Euclidean length, all in binary32.  Rows of masked
    tokens do not influence the result, and with every token masked the result is the zero vector (the
    two guards against division by zero fire). *)
Theorem evs_pool mask hidden :
  Z.of_nat (length mask) < 2 ^ 63 ->
  pool mask hidden = normalize (mean (selected mask 0 hidden)) /\
  (forall hidden', (forall i m, mask !! i = Some m -> m <> 0 ->
       take dim (drop (i * dim) hidden) = take dim (drop (i * dim) hidden')) ->
     pool mask hidden = pool mask hidden') /\
  (Forall (fun m => m = 0) mask -> pool mask hidden = replicate dim fzero).
Proof.
  intros Hl. split; [by apply pool_reference|]. split.
  - intros hidden' H. rewrite !pool_reference by done. by rewrite (selected_agree mask 0 hidden hidden').
  - intros H. rewrite pool_reference, selected_none by done. unfold normalize.
    change (mean []) with (replicate dim fzero). by rewrite zero_norm.
Qed.

(** ** What the wrapper does not guard against *)

Lemma reach_status F (w w' : oledger) {A} api name i s o args v (k : Z * Z -> prog ocmd A) B (c : ocmd B) :
  ort_slot name = Some (i, s) -> s_ret s = R_status -> slot_outcome s = o -> out_promise w o v ->
  reaches (ort F) (k (NULL, v)) (out_effect o args v w) B c w' ->
  reaches (ort F) (Vis (Ort api name args) k) w B c w'.
Proof.
  intros Hs Hr <- Hv Hk. apply (reach_later _ _ _ _ _ (NULL, v)).
  - cbn [callee ort ocallee]. rewrite Hs, Hr. by left.
  - cbn [upd ort oupd]. by rewrite Hs, Hr.
Qed.

Definition empty_ledger : oledger := OLedger ∅ ∅ ∅ ∅ ∅ ∅ ∅.

(** Two results the initializer does not look at.  A runtime older than the header answers [GetApi]
    with NULL, and the next call goes through the NULL table.  When [GetAllocatorWithDefaultOptions]
    fails, its status is dropped (it stays alive for ever) and [SessionGetOutputName] is called with a
    NULL allocator, which its [_Inout_] annotation forbids. *)
Lemma init_unchecked F path error :
  (forall w, of_old F = true ->
     reaches (ort F) (initWithModelPath path error) w _
       (Ort NULL "CreateEnv" [AVal ORT_LOGGING_LEVEL_WARNING; AStr "evs"; AOut NULL]) w /\
     ~ caller (ort F) w (Ort NULL "CreateEnv" [AVal ORT_LOGGING_LEVEL_WARNING; AStr "evs"; AOut NULL])) /\
  (of_fail F "GetAllocatorWithDefaultOptions" = true ->
     exists w' api session st,
       reaches (ort F) (initWithModelPath path error) empty_ledger _
         (Ort api "SessionGetOutputName" [AObj session; AVal 0; AObj NULL; AOut NULL]) w' /\
       ~ caller (ort F) w' (Ort api "SessionGetOutputName" [AObj session; AVal 0; AObj NULL; AOut NULL]) /\
       o_live w' !! st = Some "OrtStatus").
Proof.
  split.
  - intros w Hold. split; [|by intros [? _]].
    apply (reach_later _ _ _ _ _ NULL); [by right|]. apply reach_here.
  - intros Hf. eexists _, 1, 3, 5. split_and!.
    + apply (reach_later _ _ _ _ _ 1); [by left|].
      eapply (reach_status F _ _ _ _ _ _ _ _ 1); [slot_side..|by split_and!|].
      eapply (reach_status F _ _ _ _ _ _ _ _ 2); [slot_side..|by split_and!|].
      apply (reach_later _ _ _ _ _ NULL); [by left|].
      eapply (reach_status F _ _ _ _ _ _ _ _ 3); [slot_side..|by split_and!|].
      apply (reach_later _ _ _ _ _ (0, 0)); [vm_compute; exact I|].
      eapply (reach_status F _ _ _ _ _ _ _ _ 4); [slot_side..|by split_and!|].
      apply (reach_later _ _ _ _ _ (5, NULL)).
      { right. split; [exact Hf|]. split; [by split_and!|by left]. }
      apply reach_here.
    + intros [_ (i & s & Hs & Hargs & _)]. vm_compute in Hs. injection Hs as <- <-.
      apply Forall2_cons_1 in Hargs as [_ Hargs]. apply Forall2_cons_1 in Hargs as [_ Hargs].
      apply Forall2_cons_1 in Hargs as [(c & Hc & [[Hl|[_ Hl]]|[_ Hn]]) _]; [| |done].
      * vm_compute in Hl. discriminate.
      * revert Hl. vm_compute. set_solver.
    + vm_compute. reflexivity.
Qed.

(** A number no object has. *)
Lemma fresh_exists (w : oledger) : exists v, fresh_obj w v.
Proof.
  pose proof (is_fresh ({[NULL]} ∪ dom (o_live w) ∪ dom (o_backing w))) as Hf.
  rewrite !not_elem_of_union, not_elem_of_singleton, !not_elem_of_dom in Hf.
  eexists. unfold fresh_obj. naive_solver.
Qed.

(** When [calloc] fails, both tensors over the caller's buffers can be created, and the third is then
    asked for over the NULL block. *)
Lemma calloc_unchecked F (s : evs) ids mask mask_values error (w : oledger) :
  of_calloc F = true -> (NULL ∉ o_bufs w) -> (NULL ∉ o_heap w) ->
  let c := Ort (_ort s) "CreateTensorWithDataAsOrtValue" (tensor_args s (Z.of_nat (length mask_values)) NULL) in
  exists w', reaches (ort F) (embed s ids mask mask_values error) w _ c w' /\ ~ caller (ort F) w' c.
Proof.
  intros Hc Hb Hh. cbv zeta. destruct (fresh_exists w) as [v1 Hv1].
  destruct (fresh_exists (add_over v1 "OrtValue" ids w)) as [v2 Hv2].
  exists (add_over v2 "OrtValue" mask (add_over v1 "OrtValue" ids w)). split.
  - apply (reach_later _ _ _ _ _ NULL); [by left|].
    eapply (reach_status F _ _ _ _ _ _ _ _ v1); [slot_side..|exact Hv1|].
    eapply (reach_status F _ _ _ _ _ _ _ _ v2); [slot_side..|exact Hv2|]. apply reach_here.
  - intros [_ (i & sl & Hs & Hargs & _)]. vm_compute in Hs. injection Hs as <- <-.
    apply Forall2_cons_1 in Hargs as [_ Hargs]. apply Forall2_cons_1 in Hargs as [[_ Hbuf] _].
    simpl in Hbuf. tauto.
Qed.

(** ** The two methods *)

(** C38: the initializer, for every set of calls that may fail.  When the runtime is not older than the
    header and [GetAllocatorWithDefaultOptions] does not fail, initializing makes only calls the table
    allows, whatever else fails: a nil result leaves an object that holds exactly what was created so
    far, a non-nil one holds environment, session and memory info; options object, name string and every
    status have been released; and [dealloc] brings the state back to what it was before the
    initializer.  Both conditions are needed: with an older runtime [GetApi] answers NULL and the next
    call goes through the NULL table; and when [GetAllocatorWithDefaultOptions] fails, its status is
    dropped (it stays alive) and [SessionGetOutputName] is called with a NULL allocator, which the table
    forbids. *)
Theorem evs_init_dealloc F path error :
  (of_old F = false -> of_fail F "GetAllocatorWithDefaultOptions" = false -> forall w : oledger,
     wp (ort F) (initWithModelPath path error) (init_post w) w /\
     wp (ort F) (r <- initWithModelPath path error ;; dealloc r.2) (fun _ => balanced w) w) /\
  (of_old F = true -> forall w : oledger,
     let c := Ort NULL "CreateEnv" [AVal ORT_LOGGING_LEVEL_WARNING; AStr "evs"; AOut NULL] in
     reaches (ort F) (initWithModelPath path error) w _ c w /\ ~ caller (ort F) w c) /\
  (of_fail F "GetAllocatorWithDefaultOptions" = true ->
     exists w' api session st,
       let c := Ort api "SessionGetOutputName" [AObj session; AVal 0; AObj NULL; AOut NULL] in
       reaches (ort F) (initWithModelPath path error) empty_ledger _ c w' /\ ~ caller (ort F) w' c /\
       o_live w' !! st = Some "OrtStatus").
Proof.
  split; [|split; [intros ? w; by apply init_unchecked|apply init_unchecked]]. intros Ho Hf w. split; [by apply init_wp|].
  eapply wp_seq; [by apply init_wp|]. intros r w' (Hh & Ha & _). by apply dealloc_wp.
Qed.

(** C39: an embedding on an initialized wrapper and two buffers of the caller.  When [calloc] does not
    fail, only allowed calls are made, and objects, blocks and backing memory are balanced whatever else
    fails (the inputs are released before the block under them is freed, and before the run's status is
    looked at); the method answers NO only when one of its ONNX Runtime calls failed, and otherwise
    leaves in [out] the pooled and normalized rows of the model's output.  When [calloc] can fail this
    is lost, since its result is not looked at: a tensor over the NULL block can be asked for, which
    the contract forbids. *)
Theorem evs_embed F (s : evs) ids mask mask_values error (w : oledger) :
  _ort s <> NULL -> (ids ∈ o_bufs w) -> (mask ∈ o_bufs w) -> (NULL ∉ o_bufs w) -> (NULL ∉ o_heap w) ->
  o_live w !! _session s = Some "OrtSession" -> o_live w !! _mem s = Some "OrtMemoryInfo" ->
  (of_calloc F = false ->
     wp (ort F) (embed s ids mask mask_values error) (embed_post F mask_values w) w) /\
  (of_calloc F = true ->
     let c := Ort (_ort s) "CreateTensorWithDataAsOrtValue" (tensor_args s (Z.of_nat (length mask_values)) NULL) in
     exists w', reaches (ort F) (embed s ids mask mask_values error) w _ c w' /\ ~ caller (ort F) w' c).
Proof. intros. split; [intros; by apply embed_wp|intros; by apply calloc_unchecked]. Qed.

(** ** Concrete instances *)

(** Every status function but the dropped one may fail; a failing allocator and an old runtime. *)
Definition checked_faults : ofaults :=
  OFaults false false (fun n => negb (n =? "GetAllocatorWithDefaultOptions")%string).
Definition bad_faults : ofaults := OFaults true false (fun _ => true).

(** An initialized wrapper with two caller buffers. *)
Definition demo_evs : evs := Evs 1 2 3 4 "last_hidden_state".
Definition demo_ledger : oledger :=
  OLedger {[2 := "OrtEnv"; 3 := "OrtSession"; 4 := "OrtMemoryInfo"]} ∅ ∅ {[10; 11]} ∅ ∅ ∅.

Lemma evs_init_dealloc_witness :
  wp (ort checked_faults) (r <- initWithModelPath "m.onnx" true ;; dealloc r.2)
    (fun _ => balanced empty_ledger) empty_ledger /\
  ~ caller (ort bad_faults) empty_ledger
      (Ort NULL "CreateEnv" [AVal ORT_LOGGING_LEVEL_WARNING; AStr "evs"; AOut NULL]).
Proof.
  split.
  - apply (evs_init_dealloc checked_faults "m.onnx" true); reflexivity.
  - destruct (evs_init_dealloc bad_faults "m.onnx" true) as [_ [H _]].
    exact (proj2 (H eq_refl empty_ledger)).
Defined.

Lemma evs_embed_witness :
  wp (ort checked_faults) (embed demo_evs 10 11 [1; 1; 0] true)
    (embed_post checked_faults [1; 1; 0] demo_ledger) demo_ledger.
Proof.
  apply (evs_embed checked_faults demo_evs 10 11 [1; 1; 0] true demo_ledger);
    [intros H; discriminate H | vm_decide | vm_decide | vm_decide | vm_decide | reflexivity | reflexivity
    | reflexivity].
Defined.

Lemma evs_pool_witness : pool [0; 0] [] = replicate dim fzero.
Proof. apply (evs_pool [0; 0] []); [reflexivity|]. repeat constructor. Defined.
