(* ===== verification/Ports.v ===== *)
(** * Ports: the device copies of the tokenizer and of the encoder's pooling

    The search index is made by [WordPieceTokenizer] and [OnnxTextEncoder] of the engine; the devices embed
    their queries with copies of both: [WordPieceTokenizer.kt] and [EvsEncoder.kt] on Android,
    [WordPieceTokenizer.swift] and [EvsOrt.m] on iOS.  The comments require identical ids and identical
    arithmetic.  Strings are UTF-16 in C# and Kotlin and Unicode scalars in Swift ([Utf8.of_utf16]); Swift's
    dictionaries compare strings up to canonical equivalence.  Lower-casing, decomposition, the character
    categories and the dot product of the tensor library are parameters; the three platforms are taken to have
    the same version of the character database. *)

From S2P Require Import Prelude Json Text Utf8 Retrieval EvsOrt.
From Stdlib Require Import Floats.SpecFloat.
Local Open Scope Z_scope.
#[local] Set Warnings "-clear-no-such-hyp".

(** The character database: general categories (surrogates are neither marks nor symbols), and canonical
    decomposition as the representative of canonically equivalent strings, with what the standard says of
    it: pieces of a decomposed string are decomposed, and so is one behind two number signs. *)
Class Unicode := {
  IsNonSpacingMark : Z -> bool;
  IsPunctuationOrSymbol : Z -> bool;
  surrogates_plain : forall u, 0xD800 <= u < 0xE000 -> IsNonSpacingMark u = false /\ IsPunctuationOrSymbol u = false;
  canonical : list Z -> list Z;
  canonical_slice : forall s i n, canonical s = s -> canonical (take n (drop i s)) = take n (drop i s);
  canonical_mark : forall s, canonical s = s -> canonical (lit "##" ++ s) = lit "##" ++ s }.

(** Lower-casing a string on the three platforms.  C# maps characters one by one and leaves the dotted capital I
    (U+0130) alone; Java and Swift apply the full mappings, which differ from the simple ones for that character
    and, in Java, for a capital sigma (U+03A3) at the end of a word, and for no other ([SpecialCasing.txt]). *)
Definition special_casing : list Z := [0x130; 0x3A3].
Class CaseMappings := {
  ToLowerInvariant : text -> text;
  kotlin_lowercase : text -> text;
  swift_lowercased : text -> text;
  kotlin_agrees s : Forall (fun c => ~ c ∈ special_casing) s -> kotlin_lowercase s = ToLowerInvariant s;
  swift_agrees s : Forall (fun c => ~ c ∈ special_casing) s -> swift_lowercased s = ToLowerInvariant s }.

(** ** What the two tokenizer copies have in common *)

Section Port.
Context `{Unicode}.

(** [basicTokenize] behind the normalization: [s] the characters to come, [sb] the current word. *)
Fixpoint words_loop (isWhitespace : Z -> bool) (s sb : list Z) (words : list (list Z)) : list (list Z) :=
  match s with
  | [] => words ++ Retrieval.flush sb
  | ch :: r =>
      if IsNonSpacingMark ch then words_loop isWhitespace r sb words
      else if isWhitespace ch then words_loop isWhitespace r [] (words ++ Retrieval.flush sb)
      else if IsPunctuationOrSymbol ch then words_loop isWhitespace r [] (words ++ Retrieval.flush sb ++ [[ch]])
      else words_loop isWhitespace r (sb ++ [ch]) words
  end.

(** [wordPiece], over the lookup of the platform's dictionary. *)
Section Greedy.
Context (lookup : list Z -> option Z) (unkId : Z).

Fixpoint match_end (word : list Z) (start end_ : nat) : option (Z * nat) :=
  match end_ with
  | O => None
  | S before =>
      if (start <? end_)%nat then
        match lookup (continuation start ++ take (end_ - start) (drop start word)) with
        | Some id => Some (id, end_)
        | None => match_end word start before
        end
      else None
  end.
Fixpoint pieces_loop (fuel : nat) (word : list Z) (start : nat) (output : list Z) : option (list Z) :=
  match fuel with
  | O => None
  | S n =>
      if (start <? length word)%nat then
        match match_end word start (length word) with
        | Some (matched, end_) => if matched <? 0 then Some [unkId] else pieces_loop n word end_ (output ++ [matched])
        | None => Some [unkId]
        end
      else Some output
  end.
Definition wordPiece (word : list Z) : option (list Z) := pieces_loop (S (length word)) word 0 [].
End Greedy.

(** The loop that stores ids and mask; [f] gives what it writes at an index. *)
Definition fill (n : nat) (f : nat -> option (Z * Z)) (arrays : list Z * list Z) : list Z * list Z :=
  foldl (fun a i => match f i with Some (id, m) => (<[i := id]> a.1, <[i := m]> a.2) | None => a end) arrays (seq 0 n).
End Port.

(** ** Android *)

Module Kotlin.
Section Encode.
Context `{Unicode}.
(** [Normalizer.normalize(text.lowercase(), NFD)] *)
Context (normalize : text -> text).

(** [Char.isWhitespace]: [Character.isWhitespace] or [Character.isSpaceChar]. *)
Definition isSpaceChar (c : Z) : bool :=
  (c =? 32) || (c =? 0xA0) || (c =? 0x1680) || ((0x2000 <=? c) && (c <=? 0x200A)) || (c =? 0x2028) || (c =? 0x2029) ||
  (c =? 0x202F) || (c =? 0x205F) || (c =? 0x3000).
Definition java_isWhitespace (c : Z) : bool :=
  (isSpaceChar c && negb ((c =? 0xA0) || (c =? 0x2007) || (c =? 0x202F))) ||
  ((9 <=? c) && (c <=? 13)) || ((0x1C <=? c) && (c <=? 0x1F)).
Definition isWhitespace (c : Z) : bool := java_isWhitespace c || isSpaceChar c.

Definition basicTokenize (s : text) : list text := words_loop isWhitespace (normalize s) [] [].

(** The loop over the pieces of a word; [true] is [break@outer]. *)
Fixpoint add_pieces (maxLen : Z) (new pieces : list Z) : bool * list Z :=
  match new with
  | [] => (false, pieces)
  | piece :: rest =>
      if Z.of_nat (length pieces) >=? maxLen - 1 then (true, pieces) else add_pieces maxLen rest (pieces ++ [piece])
  end.
Fixpoint add_words (t : WordPieceTokenizer) (maxLen : Z) (words : list text) (pieces : list Z) : option (list Z) :=
  match words with
  | [] => Some pieces
  | w :: rest =>
      new ← wordPiece (fun s => _vocab t !! s) (_unkId t) w;
      let '(stop, pieces) := add_pieces maxLen new pieces in
      if stop then Some pieces else add_words t maxLen rest pieces
  end.

(** The constructor's [getValue] throws for a missing marker, [LongArray] for a negative size. *)
Definition encode (lines : list text) (s : text) (maxLen : Z) : option (list Z * list Z) :=
  t ← new_tokenizer lines;
  pieces ← add_words t maxLen (basicTokenize s) [ClsId t];
  let pieces := pieces ++ [SepId t] in
  if maxLen <? 0 then None
  else let n := Z.to_nat maxLen in
    Some (fill n (fun i => Some (match pieces !! i with Some p => (p, 1) | None => (_padId t, 0) end)) (replicate n 0, replicate n 0)).
End Encode.
End Kotlin.

(** ** iOS *)

Module Swift.
Section Encode.
Context `{Unicode}.
(** [text.lowercased().decomposedStringWithCanonicalMapping], its scalars *)
Context (normalize : text -> list Z).

Record WordPieceTokenizer := MkTokenizer {
  vocab : gmap (list Z) Z; clsId : Z; sepId : Z; unkId : Z; padId : Z }.

(** A dictionary of strings: canonically equivalent keys are the same key. *)
Definition find (v : gmap (list Z) Z) (s : list Z) : option Z := v !! canonical s.
Definition init (vocabLines : list (list Z)) : WordPieceTokenizer :=
  let v := foldl (fun v '(i, line) => match line with [] => v | _ => <[canonical line := Z.of_nat i]> v end) ∅ (imap pair vocabLines) in
  MkTokenizer v (default 101 (find v (lit "[CLS]"))) (default 102 (find v (lit "[SEP]")))
    (default 100 (find v (lit "[UNK]"))) (default 0 (find v (lit "[PAD]"))).

(** [Unicode.Scalar.Properties.isWhitespace]: the property [White_Space], which [char.IsWhiteSpace] also is. *)
Definition isWhitespace (c : Z) : bool := IsWhiteSpace c.
Definition basicTokenize (s : text) : list (list Z) := words_loop isWhitespace (normalize s) [] [].

Fixpoint add_words (t : WordPieceTokenizer) (maxLen : Z) (words : list (list Z)) (pieces : list Z) : option (list Z) :=
  match words with
  | [] => Some pieces
  | w :: rest =>
      new ← wordPiece (find (vocab t)) (unkId t) w;
      add_words t maxLen rest (Retrieval.add_pieces maxLen new pieces)
  end.
(** A negative length is a trap. *)
Definition encode (vocabLines : list (list Z)) (s : text) (maxLen : Z) : option (list Z * list Z) :=
  let t := init vocabLines in
  pieces ← add_words t maxLen (basicTokenize s) [clsId t];
  let pieces := pieces ++ [sepId t] in
  if maxLen <? 0 then None
  else let n := Z.to_nat maxLen in
    Some (fill n (fun i => (fun p => (p, 1)) <$> pieces !! i) (replicate n (padId t), replicate n 0)).
End Encode.
End Swift.

(** ** The encoders around the transformer *)

(** The loop over tokens of C# and Kotlin: [row] reads a token's row or throws, the count has [width] bits. *)
Fixpoint add_rows (width : Z) (row : nat -> option (list float32)) (mask : list Z) (t : nat) (count : Z) (pooled : list float32)
  : option (Z * list float32) :=
  match mask with
  | [] => Some (count, pooled)
  | m :: rest =>
      if m =? 0 then add_rows width row rest (S t) count pooled
      else r ← row t; add_rows width row rest (S t) (wrap_s width (count + 1)) (zip_with fadd pooled r)
  end.
(** The divisions: by the count, and by the length that [dot] gives. *)
Definition scaled (dot : list float32 -> list float32 -> float32) (count : Z) (sum : list float32) : list float32 :=
  let pooled := if 0 <? count then (fun x => fdiv x (f_of_int count)) <$> sum else sum in
  let norm := fsqrt (dot pooled pooled) in
  if SFltb fzero norm then (fun x => fdiv x norm) <$> pooled else pooled.
(** [norm += v * v], in order. *)
Definition sequential (v w : list float32) : float32 := foldl (fun acc x => fadd acc x) fzero (zip_with fmul v w).

(** [OnnxTextEncoder.Encode] behind the session: [hidden] holds the dense tensor [1, len, dim] row by row;
    [Dot] is [TensorPrimitives.Dot], which does not say in which order it adds. *)
Definition OnnxTextEncoder_pool (Dot : list float32 -> list float32 -> float32) (dim : nat) (mask : list Z) (hidden : list float32)
  : option (list float32) :=
  let row t := if (S t * dim <=? length hidden)%nat then Some (take dim (drop (t * dim) hidden)) else None in
  '(count, sum) ← add_rows 64 row mask 0 0 (replicate dim fzero); Some (scaled Dot count sum).

(** [EvsEncoder.embed] behind the session: [hidden] is the nested array of the result. *)
Definition EvsEncoder_pool (mask : list Z) (hidden : list (list float32)) : option (list float32) :=
  first ← hidden !! 0%nat;
  let dim := length first in
  let row t := r ← hidden !! t; if (dim <=? length r)%nat then Some (take dim r) else None in
  '(count, sum) ← add_rows 32 row mask 0 0 (replicate dim fzero); Some (scaled sequential count sum).

(** ** The copies compute what the engine computes *)

Section Agree.
Context `{Unicode}.











(** ** The dictionary of the Swift copy *)

Definition bmp (u : Z) : Prop := high u = false /\ low u = false.

(** A vocabulary line whose characters fit one code unit each and that is its own decomposition. *)
Definition plain (l : text) : Prop := Forall bmp l /\ canonical l = l.






(** The characters Kotlin and C# do not agree on: the information separators, and next line. *)
Definition disputed (c : Z) : Prop := c ∈ [0x1C; 0x1D; 0x1E; 0x1F; 0x85].
End Agree.



(** ** Where they differ *)

Section Differ.
Context `{Unicode}.

(** A character that neither ends a word nor is dropped. *)
Definition letter (isWhitespace : Z -> bool) (u : Z) : Prop :=
  IsNonSpacingMark u = false /\ isWhitespace u = false /\ IsPunctuationOrSymbol u = false.

Lemma basic_loop_letters w r : forall sb, Forall (letter IsWhiteSpace) w ->
  basic_loop IsNonSpacingMark IsPunctuationOrSymbol sb (w ++ r) = basic_loop IsNonSpacingMark IsPunctuationOrSymbol (sb ++ w) r.
Proof.
  induction w as [|u w IH]; intros sb Hw; [by rewrite app_nil_r|]. apply Forall_cons in Hw as [(E1 & E2 & E3) Hw]. simpl.
  by rewrite E1, E2, E3, IH, <- app_assoc.
Qed.
Lemma words_loop_letters isWhitespace w r words : forall sb, Forall (letter isWhitespace) w ->
  words_loop isWhitespace (w ++ r) sb words = words_loop isWhitespace r (sb ++ w) words.
Proof.
  induction w as [|u w IH]; intros sb Hw; [by rewrite app_nil_r|]. apply Forall_cons in Hw as [(E1 & E2 & E3) Hw]. simpl.
  by rewrite E1, E2, E3, IH, <- app_assoc.
Qed.
Lemma basic_loop_word w sb : Forall (letter IsWhiteSpace) w ->
  basic_loop IsNonSpacingMark IsPunctuationOrSymbol sb w = Retrieval.flush (sb ++ w).
Proof. intros Hw. pose proof (basic_loop_letters w [] sb Hw) as E. by rewrite app_nil_r in E. Qed.
Lemma words_loop_word isWhitespace w sb words : Forall (letter isWhitespace) w ->
  words_loop isWhitespace w sb words = words ++ Retrieval.flush (sb ++ w).
Proof. intros Hw. pose proof (words_loop_letters isWhitespace w [] words sb Hw) as E. by rewrite app_nil_r in E. Qed.
Lemma flush_word (w : text) : w <> [] -> Retrieval.flush w = [w].
Proof. by destruct w. Qed.

Lemma surrogate_letter u : 0xD800 <= u < 0xE000 -> letter IsWhiteSpace u.
Proof.
  intros Hu. destruct (surrogates_plain u Hu) as [E1 E2]. split_and!; [done| |done].
  apply not_true_iff_false. unfold IsWhiteSpace. rewrite !orb_true_iff, !andb_true_iff, !Z.leb_le, !Z.eqb_eq. lia.
Qed.
Lemma units_letters c : 0x10000 <= c <= 0x10FFFF -> Forall (letter IsWhiteSpace) (units c).
Proof.
  intros Hc. unfold units. rewrite (proj2 (Z.ltb_ge _ _)) by lia. rewrite !Forall_cons. split; [|split; [|done]]; apply surrogate_letter.
  - assert (0 <= (c - 0x10000) / 1024 < 1024) by (split; [apply Z.div_pos; lia | apply Z.div_lt_upper_bound; lia]). lia.
  - pose proof (Z.mod_pos_bound (c - 0x10000) 1024 ltac:(lia)). lia.
Qed.
End Differ.

(** A symbol outside the basic plane (an emoji) behind a word: C# and Kotlin look at the two halves of the
    surrogate pair, which are neither symbols nor marks, and glue them to the word; Swift peels the symbol off. *)
Theorem supplementary_symbols_glued `{Unicode} (lower nfd : text -> text) (swift_normalize : text -> list Z) s w c :
  Forall (fun u => bmp u /\ letter IsWhiteSpace u) w -> w <> [] ->
  0x10000 <= c <= 0x10FFFF -> IsNonSpacingMark c = false -> IsPunctuationOrSymbol c = true ->
  nfd (lower s) = w ++ units c -> swift_normalize s = of_utf16 (w ++ units c) ->
  BasicTokenize lower nfd IsNonSpacingMark IsPunctuationOrSymbol s = [w ++ units c] /\
  Swift.basicTokenize swift_normalize s = [w; [c]].
Proof.
  intros Hw Hne Hc Hm Hp En Es. apply Forall_and in Hw as [Hb Hw]. split.
  - unfold BasicTokenize. rewrite En, basic_loop_letters, basic_loop_word by (done || by apply units_letters). apply flush_word. by destruct w.
  - unfold Swift.basicTokenize. rewrite Es.
    assert (of_utf16 (w ++ units c) = w ++ [c]) as ->.
    { clear -Hb Hc. induction Hb as [|u w [Hh Hl] _ IH].
      - simpl. rewrite <- (app_nil_r (units c)), of_utf16_units; [done | right; lia].
      - simpl. by rewrite Hh, Hl, IH. }
    rewrite words_loop_letters by done. simpl. rewrite Hm, Hp.
    assert (Swift.isWhitespace c = false) as ->; [|by rewrite flush_word].
    apply not_true_iff_false. unfold Swift.isWhitespace, IsWhiteSpace. rewrite !orb_true_iff, !andb_true_iff, !Z.leb_le, !Z.eqb_eq. lia.
Qed.

(** The two characters of [special_casing].  A dotted capital I stays a capital I in the engine, which no
    uncased vocabulary has, and becomes an i on the devices; a capital sigma at the end of a word becomes a final
    sigma on Android and a plain one in the engine. *)
Theorem lowercase_disputed `{Unicode} `{CaseMappings} (nfd : text -> text) :
  Forall (fun c => letter IsWhiteSpace c /\ letter Kotlin.isWhitespace c) [0x49; 0x69; 0x3C2; 0x3C3] -> IsNonSpacingMark 0x307 = true ->
  nfd [0x130] = [0x49; 0x307] -> nfd [0x69; 0x307] = [0x69; 0x307] ->
  (ToLowerInvariant [0x130] = [0x130] -> kotlin_lowercase [0x130] = [0x69; 0x307] -> swift_lowercased [0x130] = [0x69; 0x307] ->
     BasicTokenize ToLowerInvariant nfd IsNonSpacingMark IsPunctuationOrSymbol [0x130] = [[0x49]] /\
     Kotlin.basicTokenize (fun s => nfd (kotlin_lowercase s)) [0x130] = [[0x69]] /\
     Swift.basicTokenize (fun s => of_utf16 (nfd (swift_lowercased s))) [0x130] = [[0x69]]) /\
  (forall s w, Forall (fun c => letter IsWhiteSpace c /\ letter Kotlin.isWhitespace c) w ->
     ToLowerInvariant s = w ++ [0x3C3] -> kotlin_lowercase s = w ++ [0x3C2] ->
     nfd (w ++ [0x3C3]) = w ++ [0x3C3] -> nfd (w ++ [0x3C2]) = w ++ [0x3C2] ->
     BasicTokenize ToLowerInvariant nfd IsNonSpacingMark IsPunctuationOrSymbol s = [w ++ [0x3C3]] /\
     Kotlin.basicTokenize (fun s => nfd (kotlin_lowercase s)) s = [w ++ [0x3C2]]).
Proof.
  intros Hl Hm Hn1 Hn2. rewrite !Forall_cons in Hl. destruct Hl as ([H49 H49k] & [H69 H69k] & [_ Hfk] & [Hs _] & _). split.
  - intros E1 E2 E3. unfold BasicTokenize, Kotlin.basicTokenize, Swift.basicTokenize. rewrite E1, E2, E3, Hn1, Hn2. 
    change (of_utf16 [0x69; 0x307]) with [0x69; 0x307]. change Swift.isWhitespace with IsWhiteSpace.
    change [0x49; 0x307] with ([0x49] ++ [0x307]). change [0x69; 0x307] with ([0x69] ++ [0x307]).
    rewrite basic_loop_letters, !words_loop_letters by (by apply Forall_singleton). cbn [basic_loop words_loop app]. by rewrite Hm.
  - intros s w Hw E1 E2 En1 En2. unfold BasicTokenize, Kotlin.basicTokenize. rewrite E1, E2, En1, En2.
    apply Forall_and in Hw as [Hw Hwk]. split.
    + rewrite basic_loop_word by (apply Forall_app; split; [done | by apply Forall_singleton]). apply flush_word. by destruct w.
    + rewrite words_loop_word by (apply Forall_app; split; [done | by apply Forall_singleton]). apply flush_word. by destruct w.
Qed.

(** The five characters: Kotlin takes the information separators for white space and C# does not, and the
    other way round for next line. *)
Theorem separators_disputed `{Unicode} (lower nfd kotlin_normalize : text -> text) s a u b :
  Forall (fun u => letter IsWhiteSpace u /\ letter Kotlin.isWhitespace u) (a ++ b) -> a <> [] -> b <> [] -> disputed u ->
  IsNonSpacingMark u = false -> IsPunctuationOrSymbol u = false ->
  nfd (lower s) = a ++ u :: b -> kotlin_normalize s = a ++ u :: b ->
  let engine := BasicTokenize lower nfd IsNonSpacingMark IsPunctuationOrSymbol s in
  let android := Kotlin.basicTokenize kotlin_normalize s in
  if bool_decide (u = 0x85) then engine = [a; b] /\ android = [a ++ u :: b] else engine = [a ++ u :: b] /\ android = [a; b].
Proof.
  intros Hl Ha Hb Hu Hm Hp En Ek engine android. apply Forall_and in Hl as [Hl Hk]. apply Forall_app in Hl as [Hla Hlb], Hk as [Hka Hkb].
  assert (engine = if IsWhiteSpace u then [a; b] else [a ++ u :: b]) as ->.
  { subst engine. unfold BasicTokenize. rewrite En, basic_loop_letters by done. simpl. rewrite Hm, Hp.
    destruct (IsWhiteSpace u); rewrite basic_loop_word by done; simpl; rewrite ?flush_word, <- ?app_assoc; try done; by destruct a. }
  assert (android = if Kotlin.isWhitespace u then [a; b] else [a ++ u :: b]) as ->.
  { subst android. unfold Kotlin.basicTokenize. rewrite Ek, words_loop_letters by done. simpl. rewrite Hm, Hp.
    destruct (Kotlin.isWhitespace u); rewrite words_loop_word by done; simpl; rewrite ?flush_word, <- ?app_assoc; try done; by destruct a. }
  unfold disputed in Hu. repeat (apply elem_of_cons in Hu as [->|Hu]; [done|]). by apply not_elem_of_nil in Hu.
Qed.

(** ** The pooling *)

Lemma sequential_square v : sequential v v = foldl (fun acc x => fadd acc (fmul x x)) fzero v.
Proof. unfold sequential. generalize fzero. induction v as [|x v IH]; intros a; [done | apply IH]. Qed.

Lemma pool_scaled mask hidden : let '(count, sum) := accumulate mask 0 hidden 0 (replicate dim fzero) in pool mask hidden = scaled sequential count sum.
Proof. unfold pool, scaled. destruct (accumulate _ _ _ _ _) as [count sum]. by rewrite sequential_square. Qed.

Lemma add_rows_accumulate width row hidden mask : forall t count pooled,
  (forall i, (i < length mask)%nat -> row (t + i)%nat = Some (take dim (drop ((t + i) * dim) hidden))) ->
  0 < width <= 64 -> 0 <= count -> count + Z.of_nat (length mask) < 2 ^ (width - 1) ->
  add_rows width row mask t count pooled = Some (accumulate mask t hidden count pooled).
Proof.
  induction mask as [|m mask IH]; intros t count pooled Hr Hw Hc Hl; [done|]. cbn [add_rows accumulate length] in *.
  assert (forall i, (i < length mask)%nat -> row (S t + i)%nat = Some (take dim (drop ((S t + i) * dim) hidden))) as Hr'.
  { intros i Hi. rewrite Nat.add_succ_comm. apply Hr. lia. }
  destruct (m =? 0); [apply IH; try done; lia|].
  pose proof (Hr 0%nat ltac:(lia)) as E. rewrite Nat.add_0_r in E. rewrite E. cbn [mbind option_bind].
  assert (2 ^ (width - 1) <= 2 ^ 63) by (apply Z.pow_le_mono_r; lia).
  rewrite !wrap_s_id by (unfold in_s; lia). apply IH; try done; lia.
Qed.

(** On a hidden state of 384 columns, the three encoders compute the same mean, bit for bit; the vectors on
    the two devices are the same, and the engine's is, if [Dot] adds in order. *)
Theorem encoders_agree Dot mask hidden :
  (0 < length mask)%nat -> Z.of_nat (length mask) < 2 ^ 31 -> length hidden = (length mask * dim)%nat ->
  EvsEncoder_pool mask ((fun t => take dim (drop (t * dim) hidden)) <$> seq 0 (length mask)) = Some (pool mask hidden) /\
  (exists count sum, OnnxTextEncoder_pool Dot dim mask hidden = Some (scaled Dot count sum) /\ pool mask hidden = scaled sequential count sum) /\
  ((forall v, Dot v v = sequential v v) -> OnnxTextEncoder_pool Dot dim mask hidden = Some (pool mask hidden)).
Proof.
  intros Hpos Hlt Hlen. pose proof (pool_scaled mask hidden) as Hp.
  assert (forall t, (t < length mask)%nat -> length (take dim (drop (t * dim) hidden)) = dim) as Hrow.
  { intros t Ht. rewrite length_take, length_drop, Hlen. nia. }
  assert (forall D, OnnxTextEncoder_pool D dim mask hidden =
    let '(count, sum) := accumulate mask 0 hidden 0 (replicate dim fzero) in Some (scaled D count sum)) as Hc.
  { intros D. unfold OnnxTextEncoder_pool. rewrite (add_rows_accumulate 64 _ hidden); [by destruct (accumulate _ _ _ _ _) | | lia.. ].
    intros i Hi. rewrite Nat.add_0_l. by rewrite (proj2 (Nat.leb_le _ _)) by nia. }
  split_and!.
  - unfold EvsEncoder_pool. rewrite list_lookup_fmap, lookup_seq_lt by done. cbn [fmap option_fmap option_map mbind option_bind].
    rewrite Nat.add_0_l, (Hrow 0%nat) by done.
    rewrite (add_rows_accumulate 32 _ hidden); [by destruct (accumulate _ _ _ _ _); rewrite Hp | | lia.. ].
    intros i Hi. rewrite list_lookup_fmap, lookup_seq_lt by done. cbn [fmap option_fmap option_map mbind option_bind].
    rewrite !Nat.add_0_l, Hrow, Nat.leb_refl by done. by rewrite take_ge by (rewrite Hrow; done).
  - rewrite Hc. destruct (accumulate _ _ _ _ _) as [count sum]. by exists count, sum.
  - intros HD. rewrite Hc. destruct (accumulate _ _ _ _ _) as [count sum]. rewrite Hp. unfold scaled. by rewrite HD.
Qed.

(** ** Concrete instances *)

(** A small character database: an accented letter with its decomposition, the combining marks, some
    punctuation and the emoticons. *)
Definition decompose (c : Z) : list Z := if c =? 0xE9 then [0x65; 0x301] else [c].
Definition latin_mark (c : Z) : bool := (0x300 <=? c) && (c <=? 0x36F).
Definition latin_symbol (c : Z) : bool := ((33 <=? c) && (c <=? 47)) || ((0x1F600 <=? c) && (c <=? 0x1F64F)).

Lemma decomposed s : s ≫= decompose = s <-> ~ 0xE9 ∈ s.
Proof.
  split.
  - induction s as [|c s IH]; [intros _; apply not_elem_of_nil|]. cbn [mbind list_bind]. unfold decompose at 1.
    destruct (Z.eqb_spec c 0xE9) as [->|Hc]; [done|]. intros [= E]. rewrite not_elem_of_cons. split; [congruence | by apply IH].
  - induction s as [|c s IH]; [done|]. rewrite not_elem_of_cons. intros [Hc Hs]. cbn [mbind list_bind]. unfold decompose at 1.
    rewrite (proj2 (Z.eqb_neq _ _)) by congruence. simpl. f_equal. by apply IH.
Qed.

Lemma latin_surrogates u : 0xD800 <= u < 0xE000 -> latin_mark u = false /\ latin_symbol u = false.
Proof. intros Hu. unfold latin_mark, latin_symbol. split; apply not_true_iff_false; rewrite ?orb_true_iff, !andb_true_iff, !Z.leb_le; lia. Qed.
Lemma latin_slice (s : list Z) i n : s ≫= decompose = s -> take n (drop i s) ≫= decompose = take n (drop i s).
Proof.
  rewrite !decomposed. intros Hs (k & Hk)%list_elem_of_lookup_1. apply Hs. rewrite lookup_take_Some, lookup_drop in Hk.
  by eapply list_elem_of_lookup_2, Hk.
Qed.
Lemma latin_behind_marks (s : list Z) : s ≫= decompose = s -> (lit "##" ++ s) ≫= decompose = lit "##" ++ s.
Proof.
  rewrite !decomposed, elem_of_app. intros Hs [Hin|Hin]; [|done].
  repeat (apply elem_of_cons in Hin as [Hin|Hin]; [discriminate|]). by apply not_elem_of_nil in Hin.
Qed.
#[local] Instance latin : Unicode := {
  IsNonSpacingMark := latin_mark; IsPunctuationOrSymbol := latin_symbol; surrogates_plain := latin_surrogates;
  canonical := mbind decompose; canonical_slice := latin_slice; canonical_mark := latin_behind_marks }.

Definition cafe_vocab : list text := map lit ["[PAD]"; "[UNK]"; "[CLS]"; "[SEP]"; "cafe"; "ok"; "."; "##s"]%string.
Definition cafe_tokenizer : Retrieval.WordPieceTokenizer := default (MkTokenizer ∅ 0 0 0 0) (new_tokenizer cafe_vocab).
Definition lower_latin (s : text) : text := map to_lower s.
(** The full mapping: the dotted capital I becomes an i with a dot. *)
Definition full_lower (s : text) : text := s ≫= fun c => if c =? 0x130 then [0x69; 0x307] else [to_lower c].
Lemma full_lower_plain s : Forall (fun c => ~ c ∈ special_casing) s -> full_lower s = lower_latin s.
Proof.
  unfold full_lower, lower_latin. induction 1 as [|c s Hc _ IH]; [done|]. cbn [mbind list_bind map].
  rewrite (proj2 (Z.eqb_neq _ _)); [by rewrite IH|]. intros ->. by apply Hc; left.
Qed.

#[local] Instance bmp_dec u : Decision (bmp u) := and_dec _ _.
#[local] Instance disputed_dec c : Decision (disputed c) := list_elem_of_dec _ _.
#[local] Instance letter_dec f u : Decision (letter f u) := and_dec _ _.
#[local] Instance plain_dec l : Decision (plain l) := and_dec _ _.

#[local] Instance latin_case : CaseMappings := {|
  ToLowerInvariant := lower_latin; kotlin_lowercase := full_lower; swift_lowercased := full_lower;
  kotlin_agrees := full_lower_plain; swift_agrees := full_lower_plain |}.


(** With a decomposition that also has the dotted capital I. *)
Definition dotted_nfd (s : text) : text := s ≫= fun c => if c =? 0x130 then [0x49; 0x307] else decompose c.
Lemma lowercase_disputed_witness :
  BasicTokenize ToLowerInvariant dotted_nfd IsNonSpacingMark IsPunctuationOrSymbol [0x130] = [[0x49]] /\
  Kotlin.basicTokenize (fun s => dotted_nfd (kotlin_lowercase s)) [0x130] = [[0x69]].
Proof.
  destruct (lowercase_disputed dotted_nfd) as [H _]; [vm_decide | reflexivity.. |].
  destruct H as (H1 & H2 & _); [reflexivity.. |]. exact (conj H1 H2).
Defined.

Definition smile : text := lit "ok" ++ units 0x1F600.

(** An emoji behind a known word makes the word unknown to the engine, not to the copy on iOS. *)
Lemma supplementary_symbols_glued_witness :
  Encode lower_latin canonical IsNonSpacingMark IsPunctuationOrSymbol cafe_tokenizer smile 4 = Some ([2; 1; 3; 0], [1; 1; 1; 0]) /\
  Swift.encode (fun s => of_utf16 (canonical (lower_latin s))) (map of_utf16 cafe_vocab) smile 4 = Some ([2; 5; 1; 3], [1; 1; 1; 1]).
Proof.
  destruct (supplementary_symbols_glued lower_latin canonical (fun s => of_utf16 (canonical (lower_latin s))) smile (lit "ok") 0x1F600) as [He Hs];
    [vm_decide | done | lia | reflexivity.. |].
  unfold Encode, Swift.encode. rewrite He, Hs. split; vm_compute; reflexivity.
Defined.

Lemma separators_disputed_witness :
  BasicTokenize lower_latin canonical IsNonSpacingMark IsPunctuationOrSymbol (lit "ok" ++ 0x1F :: lit "ok") = [lit "ok" ++ 0x1F :: lit "ok"] /\
  Kotlin.basicTokenize (fun s => canonical (lower_latin s)) (lit "ok" ++ 0x1F :: lit "ok") = [lit "ok"; lit "ok"].
Proof.
  apply (separators_disputed lower_latin canonical (fun s => canonical (lower_latin s)) (lit "ok" ++ 0x1F :: lit "ok") (lit "ok") 0x1F (lit "ok"));
    [vm_decide | done | done | vm_decide | reflexivity..].
Defined.

(** A hidden state of zeros: the engine and the devices answer the same vector. *)
Lemma encoders_agree_witness :
  OnnxTextEncoder_pool sequential dim [1; 0] (replicate (2 * dim) fzero) = Some (pool [1; 0] (replicate (2 * dim) fzero)).
Proof.
  destruct (encoders_agree sequential [1; 0] (replicate (2 * dim) fzero)) as (_ & _ & E);
    [simpl; lia | simpl; lia | by rewrite length_replicate | by apply E].
Defined.
