(* ===== verification/Float16.v ===== *)
(** * Float16: the 16-bit floating point types of the ONNX Runtime headers

    [onnxruntime_float16.h]: [Float16Impl] (IEEE half precision) and [BFloat16Impl] (the upper half of a
    float), their predicates, comparisons and conversions from and to [float]; the types [Float16_t],
    [BFloat16_t] and the byte types of [onnxruntime_cxx_api.h] on top of them.  A 16-bit value and the bits
    of a float are integers at their width; the two float operations the conversions use (an addition
    and a subtraction) are those of the Standard Library's [SpecFloat] at binary32.  The host is
    little-endian and not MSVC on ARM, as the Apple targets of the header are. *)

From S2P Require Import Prelude.
From Stdlib Require Import Floats.SpecFloat.
Local Open Scope Z_scope.
#[local] Set Warnings "-clear-no-such-hyp".

(** ** Bits of a float *)

Definition of_bits (u : Z) : spec_float :=
  let s := Z.testbit u 31 in
  let e := Z.land (Z.shiftr u 23) 255 in
  let m := Z.land u (2 ^ 23 - 1) in
  if e =? 255 then (if m =? 0 then S754_infinity s else S754_nan)
  else if e =? 0 then match m with Z.pos p => S754_finite s p (-149) | _ => S754_zero s end
  else match m + 2 ^ 23 with Z.pos p => S754_finite s p (e - 150) | _ => S754_nan end.

Definition sign_bits (s : bool) : Z := if s then 2 ^ 31 else 0.
Definition to_bits (f : spec_float) : Z :=
  match f with
  | S754_zero s => sign_bits s
  | S754_infinity s => sign_bits s + 255 * 2 ^ 23
  | S754_nan => 0x7fc00000
  | S754_finite s m e =>
      sign_bits s + (if Z.pos m <? 2 ^ 23 then Z.pos m else (e + 150) * 2 ^ 23 + (Z.pos m - 2 ^ 23))
  end.

(** [a.f + b.f] and [a.f - b.f] on bits. *)
Definition float_add (a b : Z) : Z := to_bits (SFadd 24 128 (of_bits a) (of_bits b)).
Definition float_sub (a b : Z) : Z := to_bits (SFsub 24 128 (of_bits a) (of_bits b)).

(** ** Float16Impl *)

Module Float16Impl.
Definition kSignMask : Z := 0x8000.
Definition kBiasedExponentMask : Z := 0x7C00.
Definition kPositiveInfinityBits : Z := 0x7C00.
Definition kNegativeInfinityBits : Z := 0xFC00.
Definition kPositiveQNaNBits : Z := 0x7E00.
Definition kNegativeQNaNBits : Z := 0xFE00.
Definition kMaxValueBits : Z := 0x7BFF.
Definition kOneBits : Z := 0x3C00.
Definition kMinusOneBits : Z := 0xBC00.

Definition AbsImpl (val : Z) : Z := wrap_u 16 (Z.land val (Z.lnot kSignMask)).
Definition IsNegative (val : Z) : bool := wrap_s 16 val <? 0.
Definition IsNaN (val : Z) : bool := kPositiveInfinityBits <? AbsImpl val.
Definition NegateImpl (val : Z) : Z := if IsNaN val then val else wrap_u 16 (Z.lxor val kSignMask).
Definition IsFinite (val : Z) : bool := AbsImpl val <? kPositiveInfinityBits.
Definition IsPositiveInfinity (val : Z) : bool := val =? kPositiveInfinityBits.
Definition IsNegativeInfinity (val : Z) : bool := val =? kNegativeInfinityBits.
Definition IsInfinity (val : Z) : bool := AbsImpl val =? kPositiveInfinityBits.
Definition IsNaNOrZero (val : Z) : bool :=
  let abs := AbsImpl val in (abs =? 0) || (kPositiveInfinityBits <? abs).
Definition IsNormal (val : Z) : bool :=
  let abs := AbsImpl val in
  (abs <? kPositiveInfinityBits) && negb (abs =? 0) && negb (Z.land abs kBiasedExponentMask =? 0).
Definition IsSubnormal (val : Z) : bool :=
  let abs := AbsImpl val in
  (abs <? kPositiveInfinityBits) && negb (abs =? 0) && (Z.land abs kBiasedExponentMask =? 0).
Definition AreZero (lhs rhs : Z) : bool := wrap_u 16 (Z.land (Z.lor lhs rhs) (Z.lnot kSignMask)) =? 0.

(** [operator==], [operator!=] and [operator<]. *)
Definition op_eq (val rhs : Z) : bool := if IsNaN val || IsNaN rhs then false else val =? rhs.
Definition op_ne (val rhs : Z) : bool := negb (op_eq val rhs).
Definition op_lt (val rhs : Z) : bool :=
  if IsNaN val || IsNaN rhs then false
  else
    let left_is_negative := IsNegative val in
    if negb (eqb left_is_negative (IsNegative rhs)) then left_is_negative && negb (AreZero val rhs)
    else negb (val =? rhs) && xorb (val <? rhs) left_is_negative.

Definition f32infty : Z := Z.shiftl 255 23.
Definition f16max : Z := Z.shiftl (127 + 16) 23.
Definition denorm_magic : Z := Z.shiftl ((127 - 15) + (23 - 10) + 1) 23.
Definition sign_mask : Z := 0x80000000.

(** [ToUint16Impl] on the bits of its argument. *)
Definition ToUint16Impl (v : Z) : Z :=
  let sign := Z.land v sign_mask in
  let u := Z.lxor v sign in
  let val :=
    if f16max <=? u then (if f32infty <? u then 0x7e00 else 0x7c00)
    else if u <? Z.shiftl 113 23 then
      wrap_u 16 (wrap_u 32 (float_add u denorm_magic - denorm_magic))
    else
      let mant_odd := Z.land (Z.shiftr u 13) 1 in
      let u1 := wrap_u 32 (u + 0xc8000fff) in
      let u2 := wrap_u 32 (u1 + mant_odd) in
      wrap_u 16 (Z.shiftr u2 13) in
  wrap_u 16 (Z.lor val (wrap_u 16 (Z.shiftr sign 16))).

Definition magic : Z := Z.shiftl 113 23.
Definition shifted_exp : Z := Z.shiftl 0x7c00 13.

(** [ToFloatImpl], as the bits of its result. *)
Definition ToFloatImpl (val : Z) : Z :=
  let u := wrap_u 32 (Z.shiftl (Z.land val 0x7fff) 13) in
  let exp := Z.land shifted_exp u in
  let u1 := wrap_u 32 (u + Z.shiftl (127 - 15) 23) in
  let u2 :=
    if exp =? shifted_exp then wrap_u 32 (u1 + Z.shiftl (128 - 16) 23)
    else if exp =? 0 then float_sub (wrap_u 32 (u1 + Z.shiftl 1 23)) magic
    else u1 in
  Z.lor u2 (Z.shiftl (Z.land val 0x8000) 16).
End Float16Impl.

(** ** BFloat16Impl *)

Module BFloat16Impl.
Definition kSignMask : Z := 0x8000.
Definition kBiasedExponentMask : Z := 0x7F80.
Definition kPositiveInfinityBits : Z := 0x7F80.
Definition kNegativeInfinityBits : Z := 0xFF80.
Definition kPositiveQNaNBits : Z := 0x7FC1.
Definition kNegativeQNaNBits : Z := 0xFFC1.
Definition kMaxValueBits : Z := 0x7F7F.
Definition kRoundToNearest : Z := 0x7FFF.
Definition kOneBits : Z := 0x3F80.
Definition kMinusOneBits : Z := 0xBF80.

Definition AbsImpl (val : Z) : Z := wrap_u 16 (Z.land val (Z.lnot kSignMask)).
Definition IsNegative (val : Z) : bool := wrap_s 16 val <? 0.
Definition IsNaN (val : Z) : bool := kPositiveInfinityBits <? AbsImpl val.
Definition NegateImpl (val : Z) : Z := if IsNaN val then val else wrap_u 16 (Z.lxor val kSignMask).
Definition IsFinite (val : Z) : bool := AbsImpl val <? kPositiveInfinityBits.
Definition IsPositiveInfinity (val : Z) : bool := val =? kPositiveInfinityBits.
Definition IsNegativeInfinity (val : Z) : bool := val =? kNegativeInfinityBits.
Definition IsInfinity (val : Z) : bool := AbsImpl val =? kPositiveInfinityBits.
Definition IsNaNOrZero (val : Z) : bool :=
  let abs := AbsImpl val in (abs =? 0) || (kPositiveInfinityBits <? abs).
Definition IsNormal (val : Z) : bool :=
  let abs := AbsImpl val in
  (abs <? kPositiveInfinityBits) && negb (abs =? 0) && negb (Z.land abs kBiasedExponentMask =? 0).
Definition IsSubnormal (val : Z) : bool :=
  let abs := AbsImpl val in
  (abs <? kPositiveInfinityBits) && negb (abs =? 0) && (Z.land abs kBiasedExponentMask =? 0).
Definition AreZero (lhs rhs : Z) : bool := wrap_u 16 (Z.land (Z.lor lhs rhs) (Z.lnot kSignMask)) =? 0.

(** [std::isnan] on bits. *)
Definition isnan (v : Z) : bool := match of_bits v with S754_nan => true | _ => false end.
(** The two upper bytes of a little-endian float. *)
Definition get_msb_half (v : Z) : Z := wrap_u 16 (Z.shiftr v 16).

Definition ToUint16Impl (v : Z) : Z :=
  if isnan v then kPositiveQNaNBits
  else
    let upper_bits := get_msb_half v in
    get_msb_half (wrap_u 32 (v + (Z.land upper_bits 1 + kRoundToNearest))).

(** [numeric_limits<float>::quiet_NaN()] is 0x7fc00000 on these targets. *)
Definition ToFloatImpl (val : Z) : Z := if IsNaN val then 0x7fc00000 else Z.shiftl val 16.
End BFloat16Impl.

(** The types of onnxruntime_cxx_api.h on top of these: [FromBits], the constructor from a float, [ToFloat];
    [BFloat16_t] has its own comparisons, in onnxruntime_cxx_inline.h. *)
Module Float16_t.
Definition FromBits (v : Z) : Z := v.
Definition of_float (v : Z) : Z := Float16Impl.ToUint16Impl v.
Definition ToFloat (val : Z) : Z := Float16Impl.ToFloatImpl val.
End Float16_t.

Module BFloat16_t.
Import BFloat16Impl.
Definition FromBits (v : Z) : Z := v.
Definition of_float (v : Z) : Z := ToUint16Impl v.
Definition ToFloat (val : Z) : Z := ToFloatImpl val.
Definition op_eq (val rhs : Z) : bool := if IsNaN val || IsNaN rhs then false else val =? rhs.
Definition op_ne (val rhs : Z) : bool := negb (op_eq val rhs).
Definition op_lt (val rhs : Z) : bool :=
  if IsNaN val || IsNaN rhs then false
  else
    let left_is_negative := IsNegative val in
    if negb (eqb left_is_negative (IsNegative rhs)) then left_is_negative && negb (AreZero val rhs)
    else negb (val =? rhs) && xorb (val <? rhs) left_is_negative.
End BFloat16_t.

(** [Float8E4M3FN_t], [Float8E4M3FNUZ_t], [Float8E5M2_t], [Float8E5M2FNUZ_t]: a byte. *)
Module Float8.
Definition of_uint8 (v : Z) : Z := v.
Definition op_eq (value rhs : Z) : bool := value =? rhs.
Definition op_ne (value rhs : Z) : bool := negb (value =? rhs).
End Float8.

(** ** Values

    The magnitude of a float by its bits without sign, in units of 2^-149, and of a half in units of 2^-24;
    infinity gets the value the next binade would start with. *)

Definition fval (a : Z) : Z :=
  let e := a / 2 ^ 23 in let m := a mod 2 ^ 23 in if e =? 0 then m else (m + 2 ^ 23) * 2 ^ (e - 1).
Definition hval (h : Z) : Z :=
  let e := h / 1024 in let m := h mod 1024 in if e =? 0 then m else (m + 1024) * 2 ^ (e - 1).

(** [r] is the number in [0..hi] whose value under [H] is nearest to [F], the even one of two equally near. *)
Definition nearest_even (F : Z) (H : Z -> Z) (hi r : Z) : Prop :=
  0 <= r <= hi /\
  forall h, 0 <= h <= hi -> Z.abs (F - H r) <= Z.abs (F - H h) /\
    (Z.abs (F - H r) = Z.abs (F - H h) -> h = r \/ Z.even r = true).

Lemma nearest_top F H hi : 0 <= hi -> (forall x y, 0 <= x -> x < y <= hi -> H x < H y) -> H hi <= F ->
  nearest_even F H hi hi.
Proof.
  intros Hhi Hm HF. split; [lia|]. intros h Hh. destruct (decide (h = hi)) as [->|]; [split; [lia|]; by left|].
  assert (H h < H hi) by (apply Hm; lia). split; lia.
Qed.

(** Between two neighbours it is enough to compare with the middle. *)
Lemma nearest_between F H hi lo r :
  0 <= lo < hi -> (forall x y, 0 <= x -> x < y <= hi -> H x < H y) -> H lo <= F <= H (lo + 1) ->
  (r = lo /\ 2 * F <= H lo + H (lo + 1) /\ (2 * F = H lo + H (lo + 1) -> Z.even r = true)) \/
  (r = lo + 1 /\ H lo + H (lo + 1) <= 2 * F /\ (2 * F = H lo + H (lo + 1) -> Z.even r = true)) ->
  nearest_even F H hi r.
Proof.
  intros Hlo Hm HF Hr. split; [lia|]. intros h Hh.
  assert (h < lo \/ h = lo \/ h = lo + 1 \/ lo + 1 < h) as Hc by lia.
  assert (H lo < H (lo + 1)) by (apply Hm; lia).
  assert (h < lo -> H h < H lo) by (intros; apply Hm; lia).
  assert (lo + 1 < h -> H (lo + 1) < H h) by (intros; apply Hm; lia).
  destruct Hr as [(-> & Hle & He)|(-> & Hle & He)], Hc as [?|[->|[->|?]]]; split; try lia; intros; try (by left); right; apply He; lia.
Qed.

Lemma fval_binade e m : 0 <= e -> 0 <= m <= 2 ^ 23 ->
  fval (e * 2 ^ 23 + m) = if e =? 0 then m else (m + 2 ^ 23) * 2 ^ (e - 1).
Proof.
  intros He Hm. unfold fval. destruct (decide (m = 2 ^ 23)) as [->|Hne].
  - replace (e * 2 ^ 23 + 2 ^ 23) with ((e + 1) * 2 ^ 23) by lia.
    rewrite Z.div_mul, Z.mod_mul by lia. rewrite (proj2 (Z.eqb_neq (e + 1) 0)) by lia.
    replace (e + 1 - 1) with e by lia. destruct (Z.eqb_spec e 0) as [->|]; [done|].
    replace e with (Z.succ (e - 1)) at 1 by lia. rewrite Z.pow_succ_r by lia. lia.
  - rewrite Z.div_add_l, Z.div_small by lia. rewrite Z.add_0_r.
    by rewrite Z.add_comm, Z.mod_add, Z.mod_small by lia.
Qed.

(** Inside a binade the value is linear in the bits. *)
Lemma fval_linear e m x : 0 <= e -> 0 <= m -> 0 <= x -> m + x <= 2 ^ 23 ->
  fval (e * 2 ^ 23 + m + x) = fval (e * 2 ^ 23 + m) + x * 2 ^ (Z.max e 1 - 1).
Proof.
  intros He Hm Hx Hs. rewrite <- Z.add_assoc, !fval_binade by lia. destruct (Z.eqb_spec e 0) as [->|Hne].
  - change (2 ^ (Z.max 0 1 - 1)) with 1. lia.
  - rewrite Z.max_l by lia. lia.
Qed.

Lemma split_binade a : 0 <= a -> exists e m, a = e * 2 ^ 23 + m /\ 0 <= e /\ 0 <= m < 2 ^ 23.
Proof.
  intros Ha. exists (a / 2 ^ 23), (a mod 2 ^ 23). pose proof (Z.mod_pos_bound a (2 ^ 23)).
  pose proof (Z.div_mod a (2 ^ 23)). split; [lia|]. split; [apply Z.div_pos; lia | lia].
Qed.

Lemma mono_from_step (H : Z -> Z) : (forall x, 0 <= x -> H x < H (x + 1)) ->
  forall x y, 0 <= x -> x < y -> H x < H y.
Proof.
  intros Hs x y Hx Hy. replace y with (x + 1 + Z.of_nat (Z.to_nat (y - x - 1))) by lia.
  induction (Z.to_nat (y - x - 1)) as [|n IH].
  - rewrite Z.add_0_r. by apply Hs.
  - etrans; [exact IH|]. replace (x + 1 + Z.of_nat (S n)) with (x + 1 + Z.of_nat n + 1) by lia. apply Hs. lia.
Qed.

Lemma fval_mono x y : 0 <= x -> x < y -> fval x < fval y.
Proof.
  apply mono_from_step. intros a Ha. destruct (split_binade a Ha) as (e & m & -> & He & Hm).
  rewrite fval_linear by lia. pose proof (Z.pow_pos_nonneg 2 (Z.max e 1 - 1)). lia.
Qed.

(** Adding half a unit minus one, plus the last kept bit, and cutting rounds to the nearest, ties to even:
    [a] are the bits above a whole number [k] of binades, [2^s] the unit. *)
Lemma rne_bits k s a (H := fun h => fval (h * 2 ^ s + k * 2 ^ 23)) (lo := a / 2 ^ s)
    (r := (a + (2 ^ (s - 1) - 1) + lo mod 2) / 2 ^ s) (F := fval (a + k * 2 ^ 23)) :
  1 <= s <= 23 -> 0 <= k -> 0 <= a ->
  H lo <= F <= H (lo + 1) /\
  ((r = lo /\ 2 * F <= H lo + H (lo + 1) /\ (2 * F = H lo + H (lo + 1) -> Z.even r = true)) \/
   (r = lo + 1 /\ H lo + H (lo + 1) <= 2 * F /\ (2 * F = H lo + H (lo + 1) -> Z.even r = true))).
Proof.
  intros Hs Hk Ha. assert (2 ^ s = 2 * 2 ^ (s - 1)) as Hp by (rewrite <- Z.pow_succ_r by lia; f_equal; lia).
  assert (0 < 2 ^ (s - 1)) as Hp1 by (apply Z.pow_pos_nonneg; lia).
  assert (2 ^ 23 = 2 ^ (23 - s) * 2 ^ s) as Hd by (rewrite <- Z.pow_add_r by lia; f_equal; lia).
  assert (0 < 2 ^ (23 - s)) as Hp2 by (apply Z.pow_pos_nonneg; lia).
  set (x := a mod 2 ^ s). assert (a = lo * 2 ^ s + x /\ 0 <= x < 2 ^ s) as [Ex Hx].
  { unfold lo, x. pose proof (Z.mod_pos_bound a (2 ^ s)). pose proof (Z.div_mod a (2 ^ s)). lia. }
  assert (0 <= lo) as Hlo by (unfold lo; apply Z.div_pos; lia).
  set (e := lo / 2 ^ (23 - s) + k). set (m := lo mod 2 ^ (23 - s) * 2 ^ s).
  assert (lo * 2 ^ s + k * 2 ^ 23 = e * 2 ^ 23 + m /\ 0 <= e /\ 0 <= m /\ m + 2 ^ s <= 2 ^ 23) as (Em & He & Hm & Hm').
  { unfold e, m. pose proof (Z.mod_pos_bound lo (2 ^ (23 - s))). pose proof (Z.div_mod lo (2 ^ (23 - s))).
    assert (0 <= lo / 2 ^ (23 - s)) by (apply Z.div_pos; lia). split; [nia|]. split; [lia|]. split; nia. }
  set (w := 2 ^ (Z.max e 1 - 1)). assert (0 < w) as Hw by (apply Z.pow_pos_nonneg; lia).
  assert (H lo = fval (e * 2 ^ 23 + m)) as E0 by (unfold H; by rewrite Em).
  assert (F = H lo + x * w) as EF.
  { unfold F. rewrite E0, <- fval_linear by lia. f_equal. lia. }
  assert (H (lo + 1) = H lo + 2 ^ s * w) as E1.
  { rewrite E0, <- fval_linear by lia. unfold H. f_equal. lia. }
  split; [rewrite EF, E1; nia|]. rewrite EF, E1.
  pose proof (Z.mod_pos_bound lo 2). set (odd := lo mod 2) in *.
  assert (r = if x + odd <=? 2 ^ (s - 1) then lo else lo + 1) as ->.
  { unfold r. fold odd. rewrite Ex. replace (lo * 2 ^ s + x + (2 ^ (s - 1) - 1) + odd)
      with (lo * 2 ^ s + (x + odd + (2 ^ (s - 1) - 1))) by lia.
    rewrite Z.div_add_l by lia. destruct (Z.leb_spec (x + odd) (2 ^ (s - 1))).
    - rewrite Z.div_small by lia. lia.
    - symmetry. f_equal. apply Z.div_unique with (x + odd + (2 ^ (s - 1) - 1) - 2 ^ s); lia. }
  assert (Z.even lo = (odd =? 0)) as Ee by (unfold odd; rewrite Zmod_even; by destruct (Z.even lo)).
  clearbody w odd H F x lo. clear E0 EF E1 Em m e Hm Hm' He. rewrite Hp. set (P := 2 ^ (s - 1)) in *.
  clearbody P. clear Hp Hd Hp2. destruct (Z.leb_spec (x + odd) P) as [Hle|Hgt]; [left|right]; (split; [done|]).
  - assert (x * w <= P * w) by (apply Z.mul_le_mono_nonneg_r; lia). split; [lia|].
    intros Ht. rewrite Ee. apply Z.eqb_eq. assert (x * w = P * w) as Hxw by lia.
    apply Z.mul_reg_r in Hxw; lia.
  - assert (P * w <= x * w) by (apply Z.mul_le_mono_nonneg_r; lia). split; [lia|].
    intros Ht. rewrite Z.add_1_r, Z.even_succ, <- Z.negb_even, Ee. apply negb_true_iff, Z.eqb_neq.
    assert (x * w = P * w) as Hxw by lia. apply Z.mul_reg_r in Hxw; lia.
Qed.

(** ** The float addition of the subnormal path *)

Lemma iter_pos_nat {A} (f : A -> A) p : forall x, iter_pos f p x = Nat.iter (Pos.to_nat p) f x.
Proof.
  assert (forall n k x, Nat.iter n f (Nat.iter k f x) = Nat.iter (n + k) f x) as Hadd
    by (intros; by rewrite Nat.iter_add).
  induction p as [p IH|p IH|]; intros x; cbn [iter_pos]; [..|done].
  - rewrite !IH, Hadd. change (f x) with (Nat.iter 1 f x). rewrite Hadd. f_equal. lia.
  - rewrite !IH, Hadd. f_equal. lia.
Qed.

Lemma digits2_spec p : 2 ^ (Z.pos (digits2_pos p) - 1) <= Z.pos p < 2 ^ Z.pos (digits2_pos p).
Proof.
  induction p as [p IH|p IH|]; cbn [digits2_pos]; [..|done];
    rewrite Pos2Z.inj_succ, Z.pow_succ_r by lia;
    replace (Z.succ (Z.pos (digits2_pos p)) - 1) with (Z.succ (Z.pos (digits2_pos p) - 1)) by lia;
    rewrite Z.pow_succ_r by lia; lia.
Qed.

Lemma digits2_unique p d : 0 < d -> 2 ^ (d - 1) <= Z.pos p < 2 ^ d -> Z.pos (digits2_pos p) = d.
Proof.
  intros Hd Hp. pose proof (digits2_spec p) as Hq. set (q := Z.pos (digits2_pos p)) in *.
  assert (0 < q) by (unfold q; lia).
  destruct (Z.lt_trichotomy q d) as [Hlt|[?|Hlt]]; [|done|].
  - pose proof (Z.pow_le_mono_r 2 q (d - 1)). lia.
  - pose proof (Z.pow_le_mono_r 2 d (q - 1)). lia.
Qed.

(** Round and sticky bit for the remainder [x] below the cut at [P]. *)
Definition at_loc (P x : Z) (r s : bool) : Prop :=
  match r, s with
  | false, false => x = 0 | false, true => 0 < 2 * x < P | true, false => 2 * x = P | true, true => P < 2 * x
  end.

Lemma shr_1_step m r s : 0 <= m ->
  shr_1 (Build_shr_record m r s) = Build_shr_record (m / 2) (Z.odd m) (r || s).
Proof.
  intros Hm. destruct m as [|[p|p|]|]; try done; simpl; f_equal.
  - rewrite Pos2Z.inj_xI. apply Z.div_unique with 1; lia.
  - rewrite Pos2Z.inj_xO. apply Z.div_unique with 0; lia.
Qed.

Lemma shr_iter n m : 0 <= m ->
  let mrs := Nat.iter n shr_1 (Build_shr_record m false false) in
  shr_m mrs = m / 2 ^ Z.of_nat n /\ at_loc (2 ^ Z.of_nat n) (m mod 2 ^ Z.of_nat n) (shr_r mrs) (shr_s mrs).
Proof.
  intros Hm. induction n as [|n IH]; cbv zeta in *.
  - simpl. rewrite Z.div_1_r, Z.mod_1_r. done.
  - rewrite Nat.iter_succ. destruct (Nat.iter n shr_1 _) as [q r s] eqn:E. simpl in IH. destruct IH as [-> Hl].
    rewrite shr_1_step by (apply Z.div_pos; lia). cbn [shr_m shr_r shr_s].
    rewrite Nat2Z.inj_succ, Z.pow_succ_r by lia. set (P := 2 ^ Z.of_nat n) in *.
    assert (0 < P) by (apply Z.pow_pos_nonneg; lia).
    rewrite Z.div_div, (Z.mul_comm P 2) by lia. split; [done|].
    pose proof (Z.mod_pos_bound m P). rewrite (Z.mul_comm 2 P), Z.rem_mul_r by lia.
    rewrite Zmod_odd. set (x := m mod P) in *.
    destruct (Z.odd (m / P)), r, s; simpl in *; lia.
Qed.

(** Rounding a mantissa cut by [n] bits. *)
Lemma round_spec n m : 0 <= m ->
  let mrs := Nat.iter n shr_1 (Build_shr_record m false false) in
  let lo := m / 2 ^ Z.of_nat n in let x := m mod 2 ^ Z.of_nat n in
  let r := round_nearest_even (shr_m mrs) (loc_of_shr_record mrs) in
  (r = lo /\ 2 * x <= 2 ^ Z.of_nat n /\ (2 * x = 2 ^ Z.of_nat n -> Z.even r = true)) \/
  (r = lo + 1 /\ 2 ^ Z.of_nat n <= 2 * x /\ (2 * x = 2 ^ Z.of_nat n -> Z.even r = true)).
Proof.
  intros Hm mrs lo x r. subst mrs lo x r. destruct (shr_iter n m Hm) as [E Hl].
  destruct (Nat.iter n shr_1 _) as [q b s]. simpl in E, Hl. subst q.
  assert (0 < 2 ^ Z.of_nat n) by (apply Z.pow_pos_nonneg; lia).
  unfold at_loc in Hl. cbn [shr_m]. set (q := m / 2 ^ Z.of_nat n) in *. set (x := m mod 2 ^ Z.of_nat n) in *.
  set (P := 2 ^ Z.of_nat n) in *. clearbody q x P.
  destruct b, s; cbn [loc_of_shr_record round_nearest_even].
  - right. split_and!; [done | lia | intros; lia].
  - destruct (Z.even q) eqn:Eq; [left|right]; (split_and!; [done | lia |]); [done|].
    intros _. by rewrite Z.add_1_r, Z.even_succ, <- Z.negb_even, Eq.
  - left. split_and!; [done | lia | intros; lia].
  - left. split_and!; [done | lia | intros; lia].
Qed.

Lemma iter_xO m d : Z.pos (Pos.iter xO m d) = Z.pos m * 2 ^ Z.pos d.
Proof.
  induction d as [|d IH] using Pos.peano_ind; [simpl; lia|].
  rewrite Pos.iter_succ, Pos2Z.inj_xO, IH, Pos2Z.inj_succ, Z.pow_succ_r by lia. lia.
Qed.

(** Half plus a positive number with exponent [-24 - k] and mantissa below [2^24]: the mantissa is cut by [k] bits
    and rounded on top of that of one half. *)
Lemma half_plus mx (k : nat) : (14 <= k)%nat -> Z.pos mx < 2 ^ 24 ->
  exists r, SFadd 24 128 (S754_finite false mx (-24 - Z.of_nat k)) (S754_finite false 8388608 (-24)) =
    S754_finite false (Z.to_pos (2 ^ 23 + r)) (-24) /\
    let lo := Z.pos mx / 2 ^ Z.of_nat k in let x := Z.pos mx mod 2 ^ Z.of_nat k in
    ((r = lo /\ 2 * x <= 2 ^ Z.of_nat k /\ (2 * x = 2 ^ Z.of_nat k -> Z.even r = true)) \/
     (r = lo + 1 /\ 2 ^ Z.of_nat k <= 2 * x /\ (2 * x = 2 ^ Z.of_nat k -> Z.even r = true))).
Proof.
  intros Hk Hmx. set (K := Z.of_nat k). set (P := 2 ^ K).
  assert (2 ^ 14 <= P) as HP by (apply Z.pow_le_mono_r; lia).
  set (d := Pos.of_nat k). assert (K = Z.pos d) as HK by (unfold K, d; lia).
  set (M := (mx + Pos.iter xO 8388608 d)%positive).
  assert (Z.pos M = Z.pos mx + 2 ^ 23 * P) as HM by (unfold M, P; rewrite Pos2Z.inj_add, iter_xO, HK; lia).
  assert (2 ^ (23 + K) <= Z.pos M < 2 ^ (24 + K)) as HMr.
  { rewrite !Z.pow_add_r by lia. fold P. lia. }
  assert (Z.pos (digits2_pos M) = 24 + K) as Hdig by (apply digits2_unique; [lia|]; replace (24 + K - 1) with (23 + K) by lia; done).
  pose proof (round_spec k (Z.pos M)) as Hr. cbv zeta in Hr. fold K P in Hr.
  set (mrs := Nat.iter k shr_1 (Build_shr_record (Z.pos M) false false)) in *.
  set (R := round_nearest_even (shr_m mrs) (loc_of_shr_record mrs)) in *.
  assert (Z.pos M / P = 2 ^ 23 + Z.pos mx / P) as Hdiv by (rewrite HM, Z.div_add by lia; lia).
  assert (Z.pos M mod P = Z.pos mx mod P) as Hmod by (rewrite HM; by rewrite Z.mod_add by lia).
  assert (0 <= Z.pos mx / P < 2 ^ 10) as Hlo.
  { split; [apply Z.div_pos; lia|]. apply Z.div_lt_upper_bound; lia. }
  rewrite Hdiv, Hmod in Hr. specialize (Hr ltac:(lia)).
  assert (2 ^ 23 <= R <= 2 ^ 23 + 2 ^ 10) as HR by lia.
  exists (R - 2 ^ 23). split; last first.
  { cbv zeta. fold K P. replace (Z.even (R - 2 ^ 23)) with (Z.even R) by (rewrite Z.even_sub; by destruct (Z.even R)).
    destruct Hr as [(-> & H1 & H2)|(-> & H1 & H2)]; [left|right]; (split; [lia | done]). }
  assert (forall e, shl_align mx e e = (mx, e)) as E1 by (intros e; unfold shl_align; by rewrite Z.sub_diag).
  unfold SFadd. rewrite Z.min_l by lia. rewrite E1.
  assert (shl_align 8388608 (-24) (-24 - K) = (Pos.iter xO 8388608%positive d, -24 - K)) as E2.
  { unfold shl_align. replace (-24 - K - -24) with (Z.neg d) by lia. done. }
  rewrite E2. cbn [fst cond_Zopp]. rewrite <- Pos2Z.inj_add. fold M. unfold binary_normalize, binary_round.
  assert (fexp 24 128 (24 + K + (-24 - K)) = -24) as E3 by (replace (24 + K + (-24 - K)) with 0 by lia; done).
  rewrite Hdig, E3. unfold shl_align at 1. replace (-24 - (-24 - K)) with (Z.pos d) by lia.
  assert (shr_fexp 24 128 (Z.pos M) (-24 - K) loc_Exact = (mrs, -24)) as E4.
  { unfold shr_fexp. cbn [shr_record_of_loc Zdigits2]. rewrite Hdig, E3.
    replace (-24 - (-24 - K)) with (Z.pos d) by lia. unfold shr. rewrite iter_pos_nat.
    replace (Pos.to_nat d) with k by (unfold d; lia). fold mrs. f_equal. lia. }
  unfold binary_round_aux. rewrite E4. fold R.
  assert (exists q, R = Z.pos q) as [q Eq] by (exists (Z.to_pos R); lia). rewrite Eq. unfold shr_fexp.
  cbn [Zdigits2]. rewrite (digits2_unique q 24) by (try done; lia). change (fexp 24 128 (24 + -24) - -24) with 0.
  cbn [shr shr_m shr_record_of_loc]. change (-24 <=? 128 - 24) with true. cbv iota. f_equal. lia.
Qed.

(** ** Sign and magnitude bits *)

Lemma land_pow2 x n : 0 <= n -> Z.land x (2 ^ n) = if Z.testbit x n then 2 ^ n else 0.
Proof.
  intros Hn. apply Z.bits_inj'. intros i Hi. rewrite Z.land_spec, Z.pow2_bits_eqb by done.
  destruct (Z.eqb_spec n i) as [->|Hne].
  - rewrite andb_true_r. destruct (Z.testbit x i) eqn:E; [by rewrite Z.pow2_bits_true | by rewrite Z.bits_0].
  - rewrite andb_false_r. destruct (Z.testbit x n); [by rewrite Z.pow2_bits_false | by rewrite Z.bits_0].
Qed.

Lemma bit_clear a n : 0 <= n -> 0 <= a < 2 ^ n -> Z.testbit a n = false.
Proof. intros Hn Ha. apply Z.testbit_false; [done|]. by rewrite Z.div_small. Qed.

Lemma lxor_top a n : 0 <= n -> 0 <= a < 2 ^ n -> Z.lxor a (2 ^ n) = a + 2 ^ n /\ Z.lor a (2 ^ n) = a + 2 ^ n.
Proof.
  intros Hn Ha. assert (Z.land a (2 ^ n) = 0) as E by (by rewrite land_pow2, bit_clear).
  split; [by rewrite Z.add_nocarry_lxor | by rewrite <- Z.lxor_lor, Z.add_nocarry_lxor].
Qed.

(** A word is its sign bit and the rest. *)
Lemma split_sign n v : 0 <= n -> 0 <= v < 2 ^ (n + 1) ->
  exists (b : bool) a, v = a + (if b then 2 ^ n else 0) /\ 0 <= a < 2 ^ n /\
    Z.land v (2 ^ n) = (if b then 2 ^ n else 0) /\ Z.lxor v (if b then 2 ^ n else 0) = a.
Proof.
  intros Hn Hv. assert (2 ^ (n + 1) = 2 * 2 ^ n) as Hp by (by rewrite Z.add_1_r, Z.pow_succ_r).
  destruct (decide (v < 2 ^ n)) as [Hlt|Hge].
  - exists false, v. split_and!; try lia; [by rewrite land_pow2, bit_clear by lia | by rewrite Z.lxor_0_r].
  - exists true, (v - 2 ^ n). destruct (lxor_top (v - 2 ^ n) n) as [E _]; [lia..|].
    replace (v - 2 ^ n + 2 ^ n) with v in E by lia. split_and!; try lia.
    + rewrite land_pow2 by done. replace (Z.testbit v n) with true; [done|]. symmetry.
      apply Z.testbit_true; [done|]. replace v with (1 * 2 ^ n + (v - 2 ^ n)) by lia.
      by rewrite Z.div_add_l, Z.div_small by lia.
    + rewrite <- E at 1. by rewrite Z.lxor_assoc, Z.lxor_nilpotent, Z.lxor_0_r.
Qed.

Lemma of_bits_small a : 0 <= a < 113 * 2 ^ 23 ->
  let e := a / 2 ^ 23 in
  (a = 0 /\ of_bits a = S754_zero false) \/
  exists mx, of_bits a = S754_finite false mx (Z.max e 1 - 150) /\ Z.pos mx < 2 ^ 24 /\
             fval a = Z.pos mx * 2 ^ (Z.max e 1 - 1) /\ 0 <= e <= 112.
Proof.
  intros Ha e. assert (0 <= e <= 112) as He.
  { split; [apply Z.div_pos; lia|]. assert (e < 113) by (apply Z.div_lt_upper_bound; lia). lia. }
  unfold of_bits, fval. rewrite bit_clear by lia. change (2 ^ 23 - 1) with (Z.ones 23). change 255 with (Z.ones 8).
  rewrite !Z.land_ones, Z.shiftr_div_pow2 by lia. fold e. rewrite (Z.mod_small e) by lia.
  rewrite (proj2 (Z.eqb_neq e (Z.ones 8))) by (change (Z.ones 8) with 255; lia).
  pose proof (Z.mod_pos_bound a (2 ^ 23) ltac:(lia)) as Hm. pose proof (Z.div_mod a (2 ^ 23) ltac:(lia)) as Hd.
  fold e in Hd. set (m := a mod 2 ^ 23) in *. destruct (Z.eqb_spec e 0) as [E0|E0].
  - rewrite E0 in *. change (Z.max 0 1) with 1. destruct m as [|p|p]; [left; split; [lia | done] | right | lia].
    exists p. change (1 - 150) with (-149). change (2 ^ (1 - 1)) with 1. split_and!; try done; lia.
  - right. destruct (m + 2 ^ 23) as [|p|p] eqn:Em; [lia| |lia]. exists p.
    rewrite Z.max_l by lia. split_and!; try done; lia.
Qed.

Import Float16Impl.

Lemma hval_mono x y : 0 <= x -> x < y -> hval x < hval y.
Proof.
  apply mono_from_step. intros h Hh. unfold hval.
  pose proof (Z.div_mod h 1024 ltac:(lia)). pose proof (Z.mod_pos_bound h 1024 ltac:(lia)).
  set (e := h / 1024) in *. set (m := h mod 1024) in *. assert (0 <= e) by (unfold e; apply Z.div_pos; lia).
  assert (0 < 2 ^ (e - 1) \/ e = 0) as Hw.
  { destruct (decide (e = 0)); [by right|left]. apply Z.pow_pos_nonneg; lia. }
  destruct (decide (m = 1023)) as [Em|Em].
  - replace (h + 1) with ((e + 1) * 1024) by lia. rewrite Z.div_mul, Z.mod_mul by lia.
    rewrite (proj2 (Z.eqb_neq (e + 1) 0)) by lia. replace (e + 1 - 1) with e by lia.
    destruct (Z.eqb_spec e 0) as [->|]; [lia|].
    assert (2 ^ e = 2 * 2 ^ (e - 1)) by (rewrite <- Z.pow_succ_r by lia; f_equal; lia). rewrite Em. lia.
  - replace (h + 1) with (e * 1024 + (m + 1)) by lia. rewrite Z.div_add_l, Z.div_small by lia.
    rewrite Z.add_0_r, (Z.add_comm (e * 1024)), Z.mod_add, Z.mod_small by lia.
    destruct (Z.eqb_spec e 0); nia.
Qed.

Lemma hval_normal h : 1024 <= h -> hval h * 2 ^ 125 = fval (h * 2 ^ 13 + 112 * 2 ^ 23 - 0).
Proof.
  intros Hh. rewrite Z.sub_0_r. unfold hval.
  pose proof (Z.div_mod h 1024 ltac:(lia)) as Hd. pose proof (Z.mod_pos_bound h 1024 ltac:(lia)).
  set (e := h / 1024) in *. set (m := h mod 1024) in *.
  assert (1 <= e) by (unfold e; apply Z.div_le_lower_bound; lia).
  rewrite (proj2 (Z.eqb_neq e 0)) by lia.
  replace (h * 2 ^ 13 + 112 * 2 ^ 23) with ((e + 112) * 2 ^ 23 + m * 2 ^ 13) by lia.
  rewrite fval_binade by lia. rewrite (proj2 (Z.eqb_neq (e + 112) 0)) by lia.
  replace (e + 112 - 1) with (112 + (e - 1)) by lia. rewrite Z.pow_add_r by lia. lia.
Qed.

Lemma hval_low h : 0 <= h <= 1024 -> hval h = h.
Proof.
  intros Hh. destruct (decide (h = 1024)) as [->|]; [done|]. unfold hval.
  by rewrite Z.div_small, Z.mod_small by lia.
Qed.

(** ** Rounding a float to half precision *)

(** [ToUint16Impl] before the sign is put back. *)
Definition half_magnitude (u : Z) : Z :=
  if f16max <=? u then (if f32infty <? u then 0x7e00 else 0x7c00)
  else if u <? Z.shiftl 113 23 then wrap_u 16 (wrap_u 32 (float_add u denorm_magic - denorm_magic))
  else wrap_u 16 (Z.shiftr (wrap_u 32 (wrap_u 32 (u + 0xc8000fff) + Z.land (Z.shiftr u 13) 1)) 13).

Definition half_H (h : Z) : Z := hval h * 2 ^ 125.

Lemma half_H_mono x y : 0 <= x -> x < y <= 0x7c00 -> half_H x < half_H y.
Proof. intros Hx Hy. unfold half_H. pose proof (hval_mono x y Hx ltac:(lia)). lia. Qed.

Lemma magnitude_small a : 0 <= a < 113 * 2 ^ 23 ->
  nearest_even (fval a) half_H 0x7c00 (half_magnitude a).
Proof.
  intros Ha. unfold half_magnitude. change f16max with (143 * 2 ^ 23). change (Z.shiftl 113 23) with (113 * 2 ^ 23).
  rewrite (proj2 (Z.leb_gt _ _)), (proj2 (Z.ltb_lt a _)) by lia. unfold float_add.
  change (of_bits denorm_magic) with (S754_finite false 8388608 (-24)).
  destruct (of_bits_small a Ha) as [[-> ->]|(mx & -> & Hmx & HF & He)].
  - apply (nearest_between _ _ _ 0); [lia | exact half_H_mono | vm_compute; split; discriminate | left].
    split_and!; [reflexivity | vm_compute; discriminate | vm_compute; discriminate].
  - set (e := Z.max (a / 2 ^ 23) 1) in *. set (k := Z.to_nat (126 - e)).
    assert (Z.of_nat k = 126 - e) as Hk by (unfold k; lia).
    replace (e - 150) with (-24 - Z.of_nat k) by lia.
    destruct (half_plus mx k) as (r & -> & Hr); [lia | done|]. rewrite Hk in Hr. cbv zeta in Hr.
    set (P := 2 ^ (126 - e)) in *. assert (0 < P) as HP by (apply Z.pow_pos_nonneg; lia).
    set (w := 2 ^ (e - 1)) in *. assert (0 < w) as Hw by (apply Z.pow_pos_nonneg; lia).
    assert (P * w = 2 ^ 125) as HPw by (unfold P, w; rewrite <- Z.pow_add_r by lia; f_equal; lia).
    assert (2 ^ 14 <= P) as HP14 by (apply Z.pow_le_mono_r; lia).
    pose proof (Z.div_mod (Z.pos mx) P ltac:(lia)) as Hd. pose proof (Z.mod_pos_bound (Z.pos mx) P HP) as Hx.
    set (lo := Z.pos mx / P) in *. set (x := Z.pos mx mod P) in *.
    assert (0 <= lo < 2 ^ 10) as Hlo.
    { unfold lo. split; [apply Z.div_pos; lia|]. apply Z.div_lt_upper_bound; lia. }
    assert (wrap_u 16 (wrap_u 32 (to_bits (S754_finite false (Z.to_pos (2 ^ 23 + r)) (-24)) - denorm_magic)) = r) as ->.
    { unfold to_bits, sign_bits. rewrite Z2Pos.id by lia. rewrite (proj2 (Z.ltb_ge _ _)) by lia.
      change denorm_magic with (126 * 2 ^ 23).
      replace (0 + ((-24 + 150) * 2 ^ 23 + (2 ^ 23 + r - 2 ^ 23)) - 126 * 2 ^ 23) with r by lia.
      rewrite (wrap_u_id 32), wrap_u_id by (unfold in_u; lia). done. }
    assert (half_H lo = lo * (P * w) /\ half_H (lo + 1) = (lo + 1) * (P * w)) as [E0 E1]
      by (unfold half_H; rewrite !hval_low by lia; by rewrite HPw).
    assert (fval a = half_H lo + x * w) as EF by (rewrite HF, E0, Hd; lia).
    clearbody P w x lo. clear HPw Hmx HF Hd.
    apply (nearest_between _ _ _ lo); [lia | exact half_H_mono | rewrite EF, E0, E1; nia |].
    assert (forall y, 2 * x * w = y * w -> 2 * x = y) as Hcancel by (intros y Hy; apply Z.mul_reg_r in Hy; lia).
    rewrite EF, E0, E1. destruct Hr as [(-> & Hle & Ht)|(-> & Hle & Ht)]; [left|right]; (split_and!; [done | |]).
    + assert (2 * x * w <= P * w) by (apply Z.mul_le_mono_nonneg_r; lia). lia.
    + intros Heq. apply Ht, Hcancel. lia.
    + assert (P * w <= 2 * x * w) by (apply Z.mul_le_mono_nonneg_r; lia). lia.
    + intros Heq. apply Ht, Hcancel. lia.
Qed.

Lemma magnitude_normal a : 113 * 2 ^ 23 <= a < 143 * 2 ^ 23 ->
  nearest_even (fval a) half_H 0x7c00 (half_magnitude a).
Proof.
  intros Ha. unfold half_magnitude. change f16max with (143 * 2 ^ 23). change (Z.shiftl 113 23) with (113 * 2 ^ 23).
  rewrite (proj2 (Z.leb_gt _ _)), (proj2 (Z.ltb_ge a _)) by lia.
  set (u := a - 112 * 2 ^ 23). set (lo := u / 2 ^ 13).
  assert (1024 <= lo < 0x7c00) as Hlo.
  { unfold lo. split; [apply Z.div_le_lower_bound; unfold u; lia | apply Z.div_lt_upper_bound; unfold u; lia]. }
  assert (Z.land (Z.shiftr a 13) 1 = lo mod 2) as ->.
  { change 1 with (Z.ones 1). rewrite Z.land_ones, Z.shiftr_div_pow2 by lia. change (2 ^ 1) with 2.
    replace a with (u + 112 * 2 ^ 10 * 2 ^ 13) by (unfold u; lia). rewrite Z.div_add by lia. fold lo.
    replace (lo + 112 * 2 ^ 10) with (lo + 57344 * 2) by lia. by rewrite Z.mod_add. }
  pose proof (rne_bits 112 13 u ltac:(lia) ltac:(lia) ltac:(unfold u; lia)) as [HF Hr]. cbv zeta in HF, Hr.
  fold lo in HF, Hr. replace (u + 112 * 2 ^ 23) with a in HF, Hr by (unfold u; lia).
  assert (wrap_u 16 (Z.shiftr (wrap_u 32 (wrap_u 32 (a + 0xc8000fff) + lo mod 2)) 13) =
          (u + (2 ^ (13 - 1) - 1) + lo mod 2) / 2 ^ 13) as ->.
  { pose proof (Z.mod_pos_bound lo 2 ltac:(lia)).
    assert (wrap_u 32 (a + 0xc8000fff) = u + 0xfff) as ->.
    { unfold wrap_u. replace (a + 0xc8000fff) with (u + 0xfff + 1 * 2 ^ 32) by (unfold u; lia).
      rewrite Z.mod_add by lia. apply Z.mod_small. unfold u. lia. }
    rewrite (wrap_u_id 32) by (unfold in_u, u; lia). rewrite Z.shiftr_div_pow2 by lia. apply wrap_u_id.
    change (2 ^ (13 - 1) - 1) with 0xfff. split; [apply Z.div_pos; unfold u; lia|].
    apply Z.div_lt_upper_bound; unfold u; lia. }
  assert (forall h, 1024 <= h -> half_H h = fval (h * 2 ^ 13 + 112 * 2 ^ 23)) as EH.
  { intros h Hh. unfold half_H. by rewrite hval_normal, Z.sub_0_r by done. }
  rewrite <- !EH in HF by lia. rewrite <- !EH in Hr by lia.
  by apply (nearest_between _ _ _ lo); [lia | exact half_H_mono | |].
Qed.

Lemma magnitude_nearest a : 0 <= a <= f32infty -> nearest_even (fval a) half_H 0x7c00 (half_magnitude a).
Proof.
  intros Ha. destruct (decide (a < 113 * 2 ^ 23)); [apply magnitude_small; lia|].
  destruct (decide (a < 143 * 2 ^ 23)); [apply magnitude_normal; lia|].
  unfold half_magnitude. change f16max with (143 * 2 ^ 23). rewrite (proj2 (Z.leb_le _ _)), (proj2 (Z.ltb_ge _ _)) by lia.
  apply nearest_top; [lia | exact half_H_mono|]. change (half_H 0x7c00) with (fval (143 * 2 ^ 23)).
  destruct (decide (a = 143 * 2 ^ 23)) as [->|]; [done|]. apply Z.lt_le_incl, fval_mono; lia.
Qed.

Definition top (n : Z) (b : bool) : Z := if b then 2 ^ n else 0.

(** Putting the sign back on fifteen bits. *)
Lemma join_sign r b : 0 <= r < 2 ^ 15 ->
  wrap_u 16 (Z.lor r (wrap_u 16 (Z.shiftr (top 31 b) 16))) = r + top 15 b.
Proof.
  intros Hr. unfold top. destruct b.
  - change (wrap_u 16 (Z.shiftr (2 ^ 31) 16)) with (2 ^ 15). destruct (lxor_top r 15) as [_ ->]; [lia..|].
    apply wrap_u_id. unfold in_u. lia.
  - change (wrap_u 16 (Z.shiftr 0 16)) with 0. rewrite Z.lor_0_r, Z.add_0_r. apply wrap_u_id. unfold in_u. lia.
Qed.

Lemma half_magnitude_range a : 0 <= half_magnitude a < 2 ^ 16.
Proof.
  unfold half_magnitude. destruct (f16max <=? a); [destruct (f32infty <? a); lia|].
  destruct (a <? _); apply (wrap_u_range 16); lia.
Qed.

Lemma ToUint16_split b a : 0 <= a < 2 ^ 31 -> half_magnitude a < 2 ^ 15 ->
  ToUint16Impl (a + top 31 b) = half_magnitude a + top 15 b.
Proof.
  intros Ha Hm. pose proof (half_magnitude_range a).
  destruct (split_sign 31 (a + top 31 b)) as (b' & a' & Ev & Ha' & El & Ex); [lia | unfold top; destruct b; lia|].
  assert (b' = b /\ a' = a) as [-> ->] by (unfold top in Ev; destruct b, b'; split; try done; lia).
  unfold ToUint16Impl. change sign_mask with (2 ^ 31). rewrite El, Ex.
  change (if b then 2 ^ 31 else 0) with (top 31 b). apply join_sign. lia.
Qed.

Lemma msb_split v : in_u 32 v -> v = v mod 2 ^ 31 + top 31 (2 ^ 31 <=? v) /\ 0 <= v mod 2 ^ 31 < 2 ^ 31.
Proof.
  intros [H0 H1]. pose proof (Z.mod_pos_bound v (2 ^ 31) ltac:(lia)). split; [|done]. unfold top.
  destruct (Z.leb_spec (2 ^ 31) v).
  - replace (v mod 2 ^ 31) with (v - 2 ^ 31); [lia|]. apply Z.mod_unique with 1; lia.
  - rewrite Z.mod_small; lia.
Qed.

(** C40: Converting a float to half precision rounds correctly for all 2^32 inputs: the sign is kept, a NaN
    becomes the quiet NaN, and any other magnitude becomes the half whose value is nearest, the even one
    of two equally near (infinity counting as 65536, so that values from 65520 on overflow to it), through the
    normal path, the subnormal path and its float addition, and the overflow path alike. *)
Theorem float_to_half_nearest (v : Z) :
  in_u 32 v ->
  let a := v mod 2 ^ 31 in let sign := top 15 (2 ^ 31 <=? v) in
  (f32infty < a -> ToUint16Impl v = 0x7e00 + sign) /\
  (a <= f32infty -> exists r, ToUint16Impl v = r + sign /\ nearest_even (fval a) half_H 0x7c00 r).
Proof.
  intros Hv a sign. destruct (msb_split v Hv) as [Ev Ha]. fold a in Ev, Ha. split; intros Hc.
  - assert (half_magnitude a = 0x7e00) as Em.
    { unfold half_magnitude. change f16max with (143 * 2 ^ 23). change f32infty with (255 * 2 ^ 23) in *.
      by rewrite (proj2 (Z.leb_le _ _)), (proj2 (Z.ltb_lt _ a)) by lia. }
    rewrite Ev, ToUint16_split; [by rewrite Em | done | rewrite Em; lia].
  - exists (half_magnitude a). pose proof (magnitude_nearest a ltac:(lia)) as Hn. split; [|done].
    destruct Hn as [Hr _]. rewrite Ev at 1. apply ToUint16_split; [done | lia].
Qed.

(** ** From half precision to float and back *)

(** A field of [n] bits at [s]. *)
Lemma land_field u s n : 0 <= s -> 0 <= n -> Z.land (Z.shiftl (Z.ones n) s) u = (u / 2 ^ s) mod 2 ^ n * 2 ^ s.
Proof.
  intros Hs Hn. rewrite <- Z.shiftl_mul_pow2, <- Z.land_ones, <- Z.shiftr_div_pow2 by done.
  apply Z.bits_inj'. intros i Hi. rewrite Z.land_spec. destruct (decide (i < s)).
  - by rewrite !Z.shiftl_spec_low.
  - rewrite !Z.shiftl_spec, Z.land_spec, Z.shiftr_spec by lia. rewrite andb_comm.
    by replace (i - s + s) with i by lia.
Qed.

Lemma AbsImpl_split b a : 0 <= a < 2 ^ 15 -> AbsImpl (a + top 15 b) = a.
Proof.
  intros Ha. unfold AbsImpl, kSignMask. rewrite <- Z.ldiff_land. change 0x8000 with (2 ^ 15).
  assert (Z.ldiff (a + top 15 b) (2 ^ 15) = a) as ->; [|apply wrap_u_id; unfold in_u; lia].
  unfold top. destruct b.
  - destruct (lxor_top a 15) as [_ <-]; [lia..|]. apply Z.bits_inj'. intros i Hi.
    rewrite Z.ldiff_spec, Z.lor_spec, Z.pow2_bits_eqb by lia. destruct (Z.eqb_spec 15 i) as [<-|].
    + by rewrite bit_clear by lia.
    + by rewrite orb_false_r, andb_true_r.
  - rewrite Z.add_0_r. apply Z.bits_inj'. intros i Hi. rewrite Z.ldiff_spec, Z.pow2_bits_eqb by lia.
    destruct (Z.eqb_spec 15 i) as [<-|]; [by rewrite bit_clear by lia | by rewrite andb_true_r].
Qed.

Lemma split_u16 v : in_u 16 v ->
  v = v mod 2 ^ 15 + top 15 (2 ^ 15 <=? v) /\ 0 <= v mod 2 ^ 15 < 2 ^ 15 /\ AbsImpl v = v mod 2 ^ 15.
Proof.
  intros [H0 H1]. pose proof (Z.mod_pos_bound v (2 ^ 15) ltac:(lia)).
  assert (v = v mod 2 ^ 15 + top 15 (2 ^ 15 <=? v)) as E.
  { unfold top. destruct (Z.leb_spec (2 ^ 15) v).
    - replace (v mod 2 ^ 15) with (v - 2 ^ 15); [lia|]. apply Z.mod_unique with 1; lia.
    - rewrite Z.mod_small; lia. }
  split_and!; [done | lia | lia |]. rewrite E at 1. by apply AbsImpl_split.
Qed.

(** The renormalizing subtraction, for the zeros and all subnormals. *)
Definition renormalized (a : Z) : Z := float_sub (a * 2 ^ 13 + 113 * 2 ^ 23) magic.
Lemma renormalize_all : check_words 10
  (fun a => (fval (renormalized a) =? a * 2 ^ 125) && (0 <=? renormalized a) && (renormalized a <? 2 ^ 31)) 0 = true.
Proof. vm_compute. reflexivity. Qed.

(** The bits of [ToFloatImpl] without sign. *)
Definition widened (a : Z) : Z :=
  if a <? 1024 then renormalized a
  else if a <? 31 * 1024 then a * 2 ^ 13 + 112 * 2 ^ 23 else a * 2 ^ 13 + 224 * 2 ^ 23.

Lemma widened_range a : 0 <= a < 2 ^ 15 -> 0 <= widened a < 2 ^ 31.
Proof.
  intros Ha. unfold widened. destruct (Z.ltb_spec a 1024); [|destruct (Z.ltb_spec a (31 * 1024)); lia].
  pose proof (check_words_u 10 _ a renormalize_all) as H'. specialize (H' ltac:(unfold in_u; simpl; lia)).
  cbv beta in H'. lia.
Qed.

Lemma widened_value a : 0 <= a < 0x7c00 -> fval (widened a) = half_H a.
Proof.
  intros Ha. unfold widened, half_H. destruct (Z.ltb_spec a 1024).
  - pose proof (check_words_u 10 _ a renormalize_all) as H'. specialize (H' ltac:(unfold in_u; simpl; lia)).
    cbv beta in H'. rewrite hval_low by lia. lia.
  - rewrite (proj2 (Z.ltb_lt _ _)), hval_normal by lia. by rewrite Z.sub_0_r.
Qed.

Lemma ToFloatImpl_split b a : 0 <= a < 2 ^ 15 -> ToFloatImpl (a + top 15 b) = widened a + top 31 b.
Proof.
  intros Ha. unfold ToFloatImpl.
  assert (Z.land (a + top 15 b) 0x7fff = a) as ->.
  { change 0x7fff with (Z.ones 15). rewrite Z.land_ones by lia. unfold top. destruct b.
    - symmetry. apply Z.mod_unique with 1; lia.
    - rewrite Z.add_0_r. by apply Z.mod_small. }
  assert (Z.shiftl (Z.land (a + top 15 b) 0x8000) 16 = top 31 b) as ->.
  { change 0x8000 with (2 ^ 15). destruct (split_sign 15 (a + top 15 b)) as (b' & a' & Ev & Ha' & -> & _);
      [lia | unfold top; destruct b; lia|].
    assert (b' = b) as -> by (unfold top in Ev; destruct b, b'; try done; lia). by destruct b. }
  rewrite Z.shiftl_mul_pow2, (wrap_u_id 32) by (unfold in_u; lia).
  assert (Z.land shifted_exp (a * 2 ^ 13) = a / 2 ^ 10 * 2 ^ 23) as ->.
  { change shifted_exp with (Z.shiftl (Z.ones 5) 23). rewrite land_field by lia.
    change (2 ^ 23) with (2 ^ 10 * 2 ^ 13). rewrite Z.div_mul_cancel_r by lia.
    rewrite (Z.mod_small (a / 2 ^ 10)); [done|]. split; [apply Z.div_pos; lia | apply Z.div_lt_upper_bound; lia]. }
  assert (a = 2 ^ 10 * (a / 2 ^ 10) + a mod 2 ^ 10 /\ 0 <= a mod 2 ^ 10 < 2 ^ 10) as [Ed Hm]
    by (split; [apply Z.div_mod; lia | apply Z.mod_pos_bound; lia]).
  set (e := a / 2 ^ 10) in *. set (m := a mod 2 ^ 10) in *. change shifted_exp with (31 * 2 ^ 23).
  change (Z.shiftl (127 - 15) 23) with (112 * 2 ^ 23). change (Z.shiftl (128 - 16) 23) with (112 * 2 ^ 23).
  change (Z.shiftl 1 23) with (2 ^ 23). pose proof (widened_range a Ha) as Hw.
  rewrite (wrap_u_id 32 (a * 2 ^ 13 + 112 * 2 ^ 23)) by (unfold in_u; lia).
  match goal with |- Z.lor ?x _ = _ => assert (x = widened a) as -> end.
  { unfold widened, renormalized. destruct (Z.eqb_spec (e * 2 ^ 23) (31 * 2 ^ 23)).
    - rewrite (proj2 (Z.ltb_ge a 1024)), (proj2 (Z.ltb_ge a (31 * 1024))), wrap_u_id by (unfold in_u; lia). lia.
    - destruct (Z.eqb_spec (e * 2 ^ 23) 0).
      + rewrite (proj2 (Z.ltb_lt a 1024)), wrap_u_id by (unfold in_u; lia). f_equal. lia.
      + by rewrite (proj2 (Z.ltb_ge a 1024)), (proj2 (Z.ltb_lt a (31 * 1024))) by lia. }
  unfold top. destruct b; [by apply lxor_top | by rewrite Z.lor_0_r, Z.add_0_r].
Qed.

Lemma nearest_exact H hi h r : (forall x y, 0 <= x -> x < y <= hi -> H x < H y) -> 0 <= h <= hi ->
  nearest_even (H h) H hi r -> r = h.
Proof.
  intros Hm Hh [Hr Hn]. destruct (Hn h Hh) as [Ha _].
  destruct (Z.lt_trichotomy r h) as [Hlt|[?|Hgt]]; [|done|].
  - pose proof (Hm r h). lia.
  - pose proof (Hm h r). lia.
Qed.

Lemma top_msb a n b : 0 <= n -> 0 <= a < 2 ^ n -> (a + top n b) mod 2 ^ n = a /\ (2 ^ n <=? a + top n b) = b.
Proof.
  intros Hn Ha. unfold top. destruct b.
  - split; [symmetry; apply Z.mod_unique with 1; lia | apply Z.leb_le; lia].
  - split; [rewrite Z.add_0_r; by apply Z.mod_small | apply Z.leb_gt; lia].
Qed.

Lemma half_of_widened a : 0 <= a <= 0x7c00 -> half_magnitude (widened a) = a.
Proof.
  intros Ha. destruct (decide (a = 0x7c00)) as [->|]; [reflexivity|].
  pose proof (widened_range a ltac:(lia)) as Hw. pose proof (widened_value a ltac:(lia)) as Hv.
  assert (widened a <= f32infty) as Hi.
  { destruct (decide (widened a <= f32infty)); [done|]. exfalso. assert (f32infty < widened a) as Hlt by lia.
    apply fval_mono in Hlt; [|vm_compute; discriminate]. rewrite Hv in Hlt.
    pose proof (half_H_mono a 0x7c00 ltac:(lia) ltac:(lia)) as Hm.
    assert (half_H 0x7c00 < fval f32infty) by (vm_compute; reflexivity). lia. }
  eapply (nearest_exact half_H 0x7c00); [exact half_H_mono | lia |]. rewrite <- Hv. apply magnitude_nearest. lia.
Qed.

(** Half precision embeds in float: every finite half is converted to the float with exactly its sign and
    value, infinities to infinities, NaNs to NaNs; and converting back gives the same bits, or the
    quiet NaN of that sign. *)
Theorem half_float_round_trip (v : Z) :
  in_u 16 v ->
  let u := ToFloatImpl v in
  in_u 32 u /\ (2 ^ 31 <=? u) = (2 ^ 15 <=? v) /\
  (IsNaN v = true -> f32infty < u mod 2 ^ 31 /\ ToUint16Impl u = 0x7e00 + top 15 (2 ^ 15 <=? v)) /\
  (IsNaN v = false -> ToUint16Impl u = v) /\
  (IsInfinity v = true -> u mod 2 ^ 31 = f32infty) /\
  (IsFinite v = true -> fval (u mod 2 ^ 31) = hval (AbsImpl v) * 2 ^ 125).
Proof.
  intros Hv u. destruct (split_u16 v Hv) as (Ev & Ha & Habs). set (a := v mod 2 ^ 15) in *.
  set (b := 2 ^ 15 <=? v) in *. pose proof (ToFloatImpl_split b a Ha) as Eu. rewrite <- Ev in Eu.
  change (ToFloatImpl v) with u in Eu. pose proof (widened_range a Ha) as Hw.
  destruct (top_msb (widened a) 31 b ltac:(lia) Hw) as [Em Es]. rewrite <- Eu in Em, Es.
  unfold IsNaN, IsInfinity, IsFinite. rewrite Habs, Em. change kPositiveInfinityBits with 0x7c00.
  split_and!; [unfold in_u, top in *; rewrite Eu; destruct b; lia | done | | | |].
  - intros Hn%Z.ltb_lt. assert (f32infty < widened a) as Hlt.
    { unfold widened. rewrite (proj2 (Z.ltb_ge a 1024)), (proj2 (Z.ltb_ge a (31 * 1024))) by lia.
      change f32infty with (255 * 2 ^ 23). lia. }
    split; [done|]. assert (half_magnitude (widened a) = 0x7e00) as E.
    { unfold half_magnitude. change f16max with (143 * 2 ^ 23). change f32infty with (255 * 2 ^ 23) in *.
      by rewrite (proj2 (Z.leb_le _ _)), (proj2 (Z.ltb_lt _ (widened a))) by lia. }
    rewrite Eu, ToUint16_split by (rewrite ?E; lia). by rewrite E.
  - intros Hn%Z.ltb_ge. rewrite Eu, ToUint16_split; rewrite ?half_of_widened; lia.
  - intros ->%Z.eqb_eq. reflexivity.
  - intros Hf%Z.ltb_lt. apply widened_value. lia.
Qed.

(** The named constants of both types are what their names say. *)
Example half_constants :
  ToFloatImpl kOneBits = 0x3f800000 /\ ToFloatImpl kMinusOneBits = 0xbf800000 /\
  IsFinite kMaxValueBits = true /\ IsPositiveInfinity (kMaxValueBits + 1) = true /\
  IsNegativeInfinity (NegateImpl kPositiveInfinityBits) = true /\
  forallb (fun v => IsNaN v && IsNaNOrZero v && (NegateImpl v =? v)) [kPositiveQNaNBits; kNegativeQNaNBits] = true /\
  BFloat16Impl.ToFloatImpl BFloat16Impl.kOneBits = 0x3f800000 /\
  BFloat16Impl.ToFloatImpl BFloat16Impl.kMinusOneBits = 0xbf800000 /\
  BFloat16Impl.IsNormal BFloat16Impl.kMaxValueBits = true /\ BFloat16Impl.IsSubnormal 0x7f = true /\
  forallb BFloat16Impl.IsNaN [BFloat16Impl.kPositiveQNaNBits; BFloat16Impl.kNegativeQNaNBits] = true.
Proof. vm_compute. repeat split. Qed.

(** ** Comparisons *)

Definition signed_value (v : Z) : Z := if IsNegative v then - hval (AbsImpl v) else hval (AbsImpl v).

Lemma IsNegative_msb v : in_u 16 v -> IsNegative v = (2 ^ 15 <=? v).
Proof.
  intros [H0 H1]. unfold IsNegative, wrap_s. change (16 - 1) with 15. destruct (Z.leb_spec (2 ^ 15) v).
  - apply Z.ltb_lt. replace ((v + 2 ^ 15) mod 2 ^ 16) with (v - 2 ^ 15); [lia|].
    apply Z.mod_unique with 1; lia.
  - apply Z.ltb_ge. rewrite Z.mod_small; lia.
Qed.

Lemma AreZero_spec v w : in_u 16 v -> in_u 16 w -> AreZero v w = (AbsImpl v =? 0) && (AbsImpl w =? 0).
Proof.
  intros Hv Hw. unfold AreZero, AbsImpl. rewrite Z.land_lor_distr_l. unfold wrap_u.
  rewrite <- !(Z.land_ones _ 16), Z.land_lor_distr_l by lia.
  apply eq_iff_eq_true. rewrite andb_true_iff, !Z.eqb_eq. apply Z.lor_eq_0_iff.
Qed.

(** Values with a sign bit: the order of sign and magnitude, for a magnitude that grows with its bits. *)
Lemma sign_magnitude_order (H : Z -> Z) v w :
  H 0 = 0 -> (forall x y, 0 <= x -> x < y -> H x < H y) -> in_u 16 v -> in_u 16 w ->
  let value x := if IsNegative x then - H (AbsImpl x) else H (AbsImpl x) in
  (if negb (eqb (IsNegative v) (IsNegative w)) then IsNegative v && negb (AreZero v w)
   else negb (v =? w) && xorb (v <? w) (IsNegative v)) = (value v <? value w) /\
  (value v = value w <-> v = w \/ AreZero v w = true).
Proof.
  intros H0 Hm Hv Hw value. unfold value. rewrite !AreZero_spec by done.
  destruct (split_u16 v Hv) as (Ev & Ha & Eva). destruct (split_u16 w Hw) as (Ew & Hb & Ewb).
  rewrite !IsNegative_msb, Eva, Ewb by done. set (a := v mod 2 ^ 15) in *. set (b := w mod 2 ^ 15) in *.
  assert (H a = H b <-> a = b) as Heq.
  { split; [|congruence]. intros E. destruct (Z.lt_trichotomy a b) as [Hlt|[?|Hlt]]; [|done|]; apply Hm in Hlt; lia. }
  assert (H a < H b <-> a < b) as Hlt.
  { split; [|intros; apply Hm; lia]. intros E. destruct (Z.lt_trichotomy a b) as [?|[?|Hl]]; [done|subst b; lia|].
    apply Hm in Hl; lia. }
  assert (0 < a -> 0 < H a) as Hpa by (intros Hp; rewrite <- H0; by apply Hm).
  assert (0 < b -> 0 < H b) as Hpb by (intros Hp; rewrite <- H0; by apply Hm).
  assert (a = 0 -> H a = 0) as Hza by (by intros ->). assert (b = 0 -> H b = 0) as Hzb by (by intros ->).
  unfold top in *. clearbody a b.
  destruct (2 ^ 15 <=? v), (2 ^ 15 <=? w); cbn [eqb negb andb orb xorb];
    rewrite ?xorb_true_r, ?xorb_false_r; (split; [|split]); lia.
Qed.

(** The order of halves is the order of their values: for operands that are not NaN, [operator<] compares
    the signed values (both zeros have value 0); with a NaN it is false.  [operator==] compares bits instead:
    it tells +0 from -0, so the two zeros are neither equal nor less than one another, against the rule the
    comment of [AreZero] states. *)
Theorem half_order (v w : Z) :
  in_u 16 v -> in_u 16 w ->
  op_lt v w = negb (IsNaN v) && negb (IsNaN w) && (signed_value v <? signed_value w) /\
  op_eq v w = negb (IsNaN v) && negb (IsNaN w) && (v =? w) /\
  (signed_value v = signed_value w <-> v = w \/ AreZero v w = true) /\
  (AreZero v w = true -> v <> w -> op_eq v w = false /\ op_ne v w = true /\ op_lt v w = false /\ op_lt w v = false).
Proof.
  intros Hv Hw. destruct (sign_magnitude_order hval v w eq_refl hval_mono Hv Hw) as [Hlt Heq].
  fold (signed_value v) (signed_value w) in Hlt, Heq. unfold op_ne, op_lt, op_eq. rewrite Hlt.
  split_and!; [by destruct (IsNaN v), (IsNaN w) | by destruct (IsNaN v), (IsNaN w) | done |].
  intros Hz Hne. rewrite (proj2 (Z.eqb_neq _ _) Hne), (proj2 Heq), Z.ltb_irrefl by by right.
  destruct (sign_magnitude_order hval w v eq_refl hval_mono Hw Hv) as [-> _]. fold (signed_value v) (signed_value w).
  rewrite (proj2 Heq), Z.ltb_irrefl by by right. by destruct (IsNaN v), (IsNaN w).
Qed.

(** The magnitude of a bfloat16 is that of the float whose upper half it is.  Its comparisons have the same flaw. *)
Definition bfloat_value (v : Z) : Z := if IsNegative v then - fval (AbsImpl v * 2 ^ 16) else fval (AbsImpl v * 2 ^ 16).

Theorem bfloat_order (v w : Z) :
  in_u 16 v -> in_u 16 w ->
  BFloat16_t.op_lt v w = negb (BFloat16Impl.IsNaN v) && negb (BFloat16Impl.IsNaN w) && (bfloat_value v <? bfloat_value w) /\
  BFloat16_t.op_eq v w = negb (BFloat16Impl.IsNaN v) && negb (BFloat16Impl.IsNaN w) && (v =? w) /\
  (bfloat_value v = bfloat_value w <-> v = w \/ BFloat16Impl.AreZero v w = true) /\
  BFloat16_t.op_eq 0 0x8000 = false /\ BFloat16_t.op_lt 0x8000 0 = false /\ bfloat_value 0 = bfloat_value 0x8000.
Proof.
  intros Hv Hw. destruct (sign_magnitude_order (fun a => fval (a * 2 ^ 16)) v w) as [Hlt Heq]; [done | | done..|].
  { intros x y Hx Hy. apply fval_mono; lia. }
  fold (bfloat_value v) (bfloat_value w) in Hlt, Heq. unfold BFloat16_t.op_lt, BFloat16_t.op_eq.
  change BFloat16Impl.IsNegative with IsNegative. change BFloat16Impl.AreZero with AreZero. rewrite Hlt.
  split_and!; [by destruct (BFloat16Impl.IsNaN v), (BFloat16Impl.IsNaN w) | by destruct (BFloat16Impl.IsNaN v), (BFloat16Impl.IsNaN w) | done | vm_compute; reflexivity ..].
Qed.

Lemma bfloat_order_witness : BFloat16_t.op_lt 0xbf80 0x3f80 = true.
Proof.
  destruct (bfloat_order 0xbf80 0x3f80) as [H _]; [split; vm_compute; (reflexivity || discriminate)..|]. rewrite H. vm_compute. reflexivity.
Defined.

(** ** The bfloat16 conversions *)

Lemma isnan_spec v : in_u 32 v -> BFloat16Impl.isnan v = (255 * 2 ^ 23 <? v mod 2 ^ 31).
Proof.
  intros Hv. destruct (msb_split v Hv) as [Ev Ha]. unfold BFloat16Impl.isnan, of_bits.
  change (2 ^ 23 - 1) with (Z.ones 23). change 255 with (Z.ones 8). rewrite !Z.land_ones, Z.shiftr_div_pow2 by lia.
  change (Z.ones 8) with 255. set (a := v mod 2 ^ 31) in *. set (b := 2 ^ 31 <=? v) in *.
  assert (v mod 2 ^ 23 = a mod 2 ^ 23 /\ (v / 2 ^ 23) mod 2 ^ 8 = a / 2 ^ 23) as [-> ->].
  { rewrite Ev. unfold top. destruct b; [|rewrite Z.add_0_r; split; [done|]; apply Z.mod_small].
    - change (2 ^ 31) with (2 ^ 8 * 2 ^ 23). rewrite Z.mod_add, Z.div_add by lia. split; [done|].
      rewrite <- (Z.mul_1_l (2 ^ 8)) at 1. rewrite Z.mod_add by lia. apply Z.mod_small.
      split; [apply Z.div_pos; lia | apply Z.div_lt_upper_bound; lia].
    - split; [apply Z.div_pos; lia | apply Z.div_lt_upper_bound; lia]. }
  pose proof (Z.div_mod a (2 ^ 23) ltac:(lia)) as Hd. pose proof (Z.mod_pos_bound a (2 ^ 23) ltac:(lia)) as Hm.
  set (e := a / 2 ^ 23) in *. set (m := a mod 2 ^ 23) in *. clearbody e m.
  destruct (Z.eqb_spec e 255) as [->|He].
  - destruct (Z.eqb_spec m 0); symmetry; [apply Z.ltb_ge | apply Z.ltb_lt]; lia.
  - symmetry. transitivity false; [apply Z.ltb_ge; lia|]. destruct (Z.eqb_spec e 0).
    + by destruct m.
    + destruct m as [|p|p]; [done| |lia]. by destruct (Z.pos p + 2 ^ 23)%Z eqn:E; [lia| |lia].
Qed.

Definition bfloat_H (h : Z) : Z := fval (h * 2 ^ 16).
Lemma bfloat_H_mono x y : 0 <= x -> x < y <= 0x7f80 -> bfloat_H x < bfloat_H y.
Proof. intros Hx Hy. apply fval_mono; lia. Qed.

Lemma bfloat_magnitude a b : 0 <= a <= 255 * 2 ^ 23 ->
  exists r, BFloat16Impl.ToUint16Impl (a + top 31 b) = r + top 15 b /\ nearest_even (fval a) bfloat_H 0x7f80 r.
Proof.
  intros Ha. destruct (top_msb a 31 b) as [Em _]; [lia..|].
  assert (in_u 32 (a + top 31 b)) as Hv by (unfold in_u, top; destruct b; lia).
  unfold BFloat16Impl.ToUint16Impl. rewrite isnan_spec, Em by done. rewrite (proj2 (Z.ltb_ge _ _)) by lia.
  unfold BFloat16Impl.get_msb_half, BFloat16Impl.kRoundToNearest. rewrite !Z.shiftr_div_pow2 by lia.
  set (lo := a / 2 ^ 16). assert (0 <= lo <= 0x7f80) as Hlo.
  { unfold lo. split; [apply Z.div_pos; lia|]. assert (lo < 0x7f81) by (apply Z.div_lt_upper_bound; lia). unfold lo in *. lia. }
  assert ((a + top 31 b) / 2 ^ 16 = lo + top 15 b) as ->.
  { unfold top, lo. destruct b; [|by rewrite !Z.add_0_r].
    change (2 ^ 31) with (2 ^ 15 * 2 ^ 16). by rewrite Z.div_add. }
  rewrite (wrap_u_id 16 (lo + top 15 b)) by (unfold in_u, top; destruct b; lia).
  assert (Z.land (lo + top 15 b) 1 = lo mod 2) as ->.
  { change 1 with (Z.ones 1). rewrite Z.land_ones by lia. unfold top. destruct b; [|by rewrite Z.add_0_r].
    change (2 ^ 15) with (2 ^ 14 * 2). change (2 ^ 1) with 2. by rewrite Z.mod_add. }
  pose proof (Z.mod_pos_bound lo 2 ltac:(lia)) as Hodd.
  rewrite (wrap_u_id 32) by (unfold in_u, top; destruct b; lia).
  pose proof (rne_bits 0 16 a ltac:(lia) ltac:(lia) ltac:(lia)) as [HF Hr]. cbv zeta in HF, Hr.
  fold lo in HF, Hr. rewrite !Z.add_0_r in HF, Hr.
  set (r := (a + (2 ^ (16 - 1) - 1) + lo mod 2) / 2 ^ 16) in *. exists r.
  assert (0 <= r <= 0x7f80) as Hrr.
  { unfold r. change (2 ^ (16 - 1) - 1) with 0x7fff. split; [apply Z.div_pos; lia|].
    assert (r < 0x7f81) as H; [|unfold r in H; change (2 ^ (16 - 1) - 1) with 0x7fff in H; lia].
    unfold r. change (2 ^ (16 - 1) - 1) with 0x7fff. apply Z.div_lt_upper_bound; lia. }
  split.
  - replace (a + top 31 b + (lo mod 2 + 32767)) with (a + (2 ^ (16 - 1) - 1) + lo mod 2 + top 15 b * 2 ^ 16)
      by (unfold top; destruct b; lia).
    rewrite Z.div_add by lia. fold r. apply wrap_u_id. unfold in_u, top. destruct b; lia.
  - change (fun h => fval (h * 2 ^ 16)) with bfloat_H in *.
    destruct (decide (lo = 0x7f80)) as [El|]; [|apply (nearest_between _ _ _ lo); [lia | exact bfloat_H_mono | exact HF | exact Hr]].
    assert (a = 0x7f80 * 2 ^ 16) as ->.
    { pose proof (Z.div_mod a (2 ^ 16) ltac:(lia)) as Hd. pose proof (Z.mod_pos_bound a (2 ^ 16) ltac:(lia)). fold lo in Hd. lia. }
    assert (r = 0x7f80) as -> by (unfold r; rewrite El; reflexivity).
    apply nearest_top; [lia | exact bfloat_H_mono | done].
Qed.

(** The same for bfloat16, the upper half of a float: a NaN becomes the quiet NaN 0x7FC1 (its sign is lost),
    any other float the bfloat16 of its sign whose value is nearest, ties to even, with overflow to infinity;
    and a bfloat16 that is not a NaN survives the way to float and back. *)
Theorem float_to_bfloat_nearest (v : Z) :
  in_u 32 v ->
  let a := v mod 2 ^ 31 in
  (f32infty < a -> BFloat16Impl.ToUint16Impl v = 0x7FC1) /\
  (a <= f32infty -> exists r, BFloat16Impl.ToUint16Impl v = r + top 15 (2 ^ 31 <=? v) /\
                              nearest_even (fval a) (fun h => fval (h * 2 ^ 16)) 0x7f80 r) /\
  (forall h, in_u 16 h -> BFloat16Impl.IsNaN h = false ->
     BFloat16Impl.ToUint16Impl (BFloat16Impl.ToFloatImpl h) = h).
Proof.
  intros Hv a. destruct (msb_split v Hv) as [Ev Ha]. fold a in Ev, Ha. change f32infty with (255 * 2 ^ 23).
  split_and!.
  - intros Hn. unfold BFloat16Impl.ToUint16Impl. rewrite isnan_spec by done. fold a. by rewrite (proj2 (Z.ltb_lt _ a)).
  - intros Hi. destruct (bfloat_magnitude a (2 ^ 31 <=? v)) as (r & E & Hn); [lia|].
    exists r. split; [by rewrite <- E, <- Ev | exact Hn].
  - intros h Hh Hnan. destruct (split_u16 h Hh) as (Eh & Hb & Habs).
    unfold BFloat16Impl.ToFloatImpl. rewrite Hnan. unfold BFloat16Impl.IsNaN in Hnan.
    change (BFloat16Impl.AbsImpl h) with (AbsImpl h) in Hnan. rewrite Habs in Hnan.
    apply Z.ltb_ge in Hnan. change BFloat16Impl.kPositiveInfinityBits with 0x7f80 in Hnan.
    set (m := h mod 2 ^ 15) in *. set (b := 2 ^ 15 <=? h) in *. rewrite Z.shiftl_mul_pow2 by lia.
    replace (h * 2 ^ 16) with (m * 2 ^ 16 + top 31 b) by (rewrite Eh; unfold top; destruct b; lia).
    destruct (bfloat_magnitude (m * 2 ^ 16) b) as (r & -> & Hn); [lia|].
    rewrite (nearest_exact bfloat_H 0x7f80 m r bfloat_H_mono ltac:(lia) Hn). by rewrite <- Eh.
Qed.

(** ** Witnesses *)

(** 65519.996 rounds to the largest half, 65520 to infinity. *)
Lemma float_to_half_witness : exists r,
  ToUint16Impl 0x477fefff = r + top 15 false /\ r = 0x7bff /\ ToUint16Impl 0x477ff000 = 0x7c00.
Proof.
  assert (in_u 32 0x477fefff) as H by (split; vm_compute; (reflexivity || discriminate)).
  destruct (float_to_half_nearest 0x477fefff H) as [_ Hr].
  destruct Hr as (r & E & _); [vm_compute; discriminate|]. exists r. split; [exact E|].
  assert (ToUint16Impl 0x477fefff = 0x7bff) as E2 by (vm_compute; reflexivity).
  rewrite E2 in E. vm_compute in E. split; [by destruct r | vm_compute; reflexivity].
Defined.

Lemma half_float_witness : ToUint16Impl (ToFloatImpl 0x8001) = 0x8001.
Proof.
  destruct (half_float_round_trip 0x8001) as (_ & _ & _ & H & _); [split; vm_compute; (reflexivity || discriminate)|].
  apply H. vm_compute. reflexivity.
Defined.

Lemma half_order_witness : op_eq 0 0x8000 = false /\ op_lt 0x8000 0 = false /\ op_lt 0xbc00 0x3c00 = true.
Proof.
  destruct (half_order 0 0x8000) as (_ & _ & _ & H); [split; vm_compute; (reflexivity || discriminate)..|].
  destruct H as (H1 & _ & _ & H2); [vm_compute; reflexivity | discriminate |].
  split; [exact H1|]. split; [exact H2 | vm_compute; reflexivity].
Defined.

(** One and 2^-8 more lies half-way between two bfloat16 values and goes to the even one. *)
Lemma float_to_bfloat_witness : BFloat16Impl.ToUint16Impl (BFloat16Impl.ToFloatImpl 0xbf80) = 0xbf80 /\
  BFloat16Impl.ToUint16Impl 0x3f808000 = 0x3f80.
Proof.
  destruct (float_to_bfloat_nearest 0x3f808000) as (_ & _ & H); [split; vm_compute; (reflexivity || discriminate)|].
  split; [apply H; vm_compute; (split; (reflexivity || discriminate)) || reflexivity | vm_compute; reflexivity].
Defined.
