(* ===== verification/LlamaShim.v ===== *)
(** * LlamaShim: native/llama-shim/dni_llama.cpp

    Loading, generating and freeing as programs over the llama.cpp calls they make.  llama.cpp itself is
    not part of the repository: its tokenizer, vocabulary and grammar parser are the record [llama_lib],
    and the contract states what llama.h documents (a negative tokenization result is the number of
    tokens needed; at most [n_batch] tokens per [llama_decode]; a piece is at most as long as the buffer
    offered).  Generation is a loop bounded by [max_tokens]; every iteration has its own local [tok],
    whose address goes into the batch of the next iteration. *)

From S2P Require Import Prelude Effects.
Local Open Scope Z_scope.
Local Open Scope dni_scope.
#[local] Set Warnings "-clear-no-such-hyp".

Definition NULL : Z := 0.
Notation "'is_null' z" := (bool_decide (z = NULL)) (at level 10, z at level 9) : dni_scope.

(** ** llama.cpp *)

Record llama_lib := LlamaLib {
  tokenize : string -> list Z;          (* with special tokens *)
  is_eog : Z -> bool;                   (* end-of-generation tokens of the vocabulary *)
  piece : Z -> option string;           (* None: llama_token_to_piece fails *)
  grammar_ok : string -> bool }.        (* does the GBNF parse *)

(** The stages of a sampler chain. *)
Inductive stage := Grammar (gbnf root : string) | Top_k (k : Z) | Temp (t : Z) | Dist (seed : Z).

(** [llama_batch_get_one]: where the token array is and how long it is. *)
Record batch := Batch { b_tokens : Z; b_n : Z }.

(** The C++ struct behind the opaque handle. *)
Record DniLlama := Handle { model : Z; ctx : Z; vocab : Z }.

Inductive lcmd : Type -> Type :=
| Backend_init : lcmd unit
| Backend_free : lcmd unit
| Model_load (path : string) (n_gpu_layers : Z) : lcmd Z
| Model_free (m : Z) : lcmd unit
| Init_from_model (m n_ctx n_batch : Z) : lcmd Z
| Ctx_free (c : Z) : lcmd unit
| Get_vocab (m : Z) : lcmd Z
| New_handle (h : DniLlama) : lcmd Z
| Read_handle (p : Z) : lcmd DniLlama
| Delete_handle (p : Z) : lcmd unit
| Memory_clear (c : Z) : lcmd unit
| Tokenize (v : Z) (text : string) (cap : Z) : lcmd Z
| New_vector (n : Z) : lcmd Z           (* std::vector<llama_token> toks(n) *)
| Drop_vector (p : Z) : lcmd unit
| Chain_init : lcmd Z
| Init_stage (v : Z) (s : stage) : lcmd Z
| Chain_add (chain sampler : Z) : lcmd unit
| Sampler_free (chain : Z) : lcmd unit
| Decode (c : Z) (b : batch) : lcmd Z
| Local_begin : lcmd Z                  (* the iteration's [tok] comes into scope *)
| Local_end (p : Z) : lcmd unit
| Sample (chain c : Z) : lcmd Z
| Is_eog (v tok : Z) : lcmd bool
| Token_to_piece (v tok cap : Z) : lcmd (Z * string)
| Callback (user_data : Z) (text : string) : lcmd unit.

(** ** What is alive *)

Record lledger := LLedger {
  l_backend : Z;                        (* backend initializations not yet undone *)
  l_models : gset Z;
  l_ctxs : gmap Z Z;                    (* context -> its n_batch *)
  l_handles : gmap Z DniLlama;
  l_samplers : gmap Z (list stage);     (* samplers the code owns, with the stages in them *)
  l_arrays : gset Z;                    (* token arrays in scope: the vector, the current [tok] *)
  l_sampled : list (list stage * Z);    (* tokens sampled, with the chain they were sampled through *)
  l_out : list string }.                (* texts handed to the callback, oldest first *)

Definition set_owned b ms cs hs (w : lledger) : lledger :=
  LLedger b ms cs hs (l_samplers w) (l_arrays w) (l_sampled w) (l_out w).
Definition set_work ss ar (w : lledger) : lledger :=
  LLedger (l_backend w) (l_models w) (l_ctxs w) (l_handles w) ss ar (l_sampled w) (l_out w).
Definition set_trace sa out (w : lledger) : lledger :=
  LLedger (l_backend w) (l_models w) (l_ctxs w) (l_handles w) (l_samplers w) (l_arrays w) sa out.

(** ** The contract *)

Section Contract.
  Context (L : llama_lib).
  (** Whether the lifetime of the array behind a batch counts. *)
  Context (strict : bool).

Definition lcaller {B} (w : lledger) (c : lcmd B) : Prop :=
  match c with
  | Backend_free => 0 < l_backend w
  | Model_load _ _ => 0 < l_backend w
  | Model_free m => m ∈ l_models w
  | Init_from_model m n_ctx n_batch => (m ∈ l_models w) /\ 0 < n_batch <= n_ctx
  | Ctx_free c | Memory_clear c => is_Some (l_ctxs w !! c)
  | Get_vocab m => m ∈ l_models w
  | Read_handle p | Delete_handle p => is_Some (l_handles w !! p)
  | Tokenize _ _ cap => 0 <= cap
  | New_vector n => 0 <= n
  | Drop_vector p => p ∈ l_arrays w
  | Chain_add ch s => is_Some (l_samplers w !! ch) /\ is_Some (l_samplers w !! s)
  | Sampler_free ch => is_Some (l_samplers w !! ch)
  | Decode c b => (exists n_batch, l_ctxs w !! c = Some n_batch /\ b_n b <= n_batch) /\
                  (strict = true -> b_tokens b ∈ l_arrays w)
  | Local_end p => p ∈ l_arrays w
  | Sample ch c => is_Some (l_samplers w !! ch) /\ is_Some (l_ctxs w !! c)
  | Token_to_piece _ _ cap => 0 <= cap
  | _ => True
  end.

Definition token_count (text : string) (cap : Z) : Z :=
  let n := Z.of_nat (length (tokenize L text)) in if n <=? cap then n else - n.

Definition lcallee {B} (w : lledger) (c : lcmd B) : B -> Prop :=
  match c in lcmd T return T -> Prop with
  | Model_load _ _ => fun m => m = NULL \/ m <> NULL /\ (m ∉ l_models w)
  | Init_from_model _ _ _ => fun c => c = NULL \/ c <> NULL /\ l_ctxs w !! c = None
  | New_handle _ => fun p => p <> NULL /\ l_handles w !! p = None
  | Read_handle p => fun h => l_handles w !! p = Some h
  | Tokenize _ text cap => fun r => r = token_count text cap
  | New_vector _ | Local_begin => fun p => p ∉ l_arrays w
  | Chain_init => fun s => s <> NULL /\ l_samplers w !! s = None
  | Init_stage _ st => fun s =>
      match st with
      | Grammar g _ => if grammar_ok L g then s <> NULL /\ l_samplers w !! s = None else s = NULL
      | _ => s <> NULL /\ l_samplers w !! s = None
      end
  | Is_eog _ t => fun b => b = is_eog L t
  | Token_to_piece _ t cap => fun r =>
      match piece L t with
      | Some s => if Z.of_nat (String.length s) <=? cap then r = (Z.of_nat (String.length s), s) else r.1 < 0
      | None => r.1 < 0
      end
  | _ => fun _ => True
  end.

Definition lupd {B} (w : lledger) (c : lcmd B) : B -> lledger :=
  match c in lcmd T return T -> lledger with
  | Backend_init => fun _ => set_owned (l_backend w + 1) (l_models w) (l_ctxs w) (l_handles w) w
  | Backend_free => fun _ => set_owned (l_backend w - 1) (l_models w) (l_ctxs w) (l_handles w) w
  | Model_load _ _ => fun m =>
      if is_null m then w else set_owned (l_backend w) ({[m]} ∪ l_models w) (l_ctxs w) (l_handles w) w
  | Model_free m => fun _ => set_owned (l_backend w) (l_models w ∖ {[m]}) (l_ctxs w) (l_handles w) w
  | Init_from_model _ _ nb => fun c =>
      if is_null c then w else set_owned (l_backend w) (l_models w) (<[c := nb]> (l_ctxs w)) (l_handles w) w
  | Ctx_free c => fun _ => set_owned (l_backend w) (l_models w) (delete c (l_ctxs w)) (l_handles w) w
  | New_handle h => fun p => set_owned (l_backend w) (l_models w) (l_ctxs w) (<[p := h]> (l_handles w)) w
  | Delete_handle p => fun _ => set_owned (l_backend w) (l_models w) (l_ctxs w) (delete p (l_handles w)) w
  | New_vector _ | Local_begin => fun p => set_work (l_samplers w) ({[p]} ∪ l_arrays w) w
  | Drop_vector p | Local_end p => fun _ => set_work (l_samplers w) (l_arrays w ∖ {[p]}) w
  | Chain_init => fun s => set_work (<[s := []]> (l_samplers w)) (l_arrays w) w
  | Init_stage _ st => fun s =>
      if is_null s then w else set_work (<[s := [st]]> (l_samplers w)) (l_arrays w) w
  | Chain_add ch s => fun _ =>
      set_work (<[ch := default [] (l_samplers w !! ch) ++ default [] (l_samplers w !! s)]>
                  (delete s (l_samplers w))) (l_arrays w) w
  | Sampler_free ch => fun _ => set_work (delete ch (l_samplers w)) (l_arrays w) w
  | Sample ch _ => fun t =>
      set_trace (l_sampled w ++ [(default [] (l_samplers w !! ch), t)]) (l_out w) w
  | Callback _ text => fun _ => set_trace (l_sampled w) (l_out w ++ [text]) w
  | _ => fun _ => w
  end.

Definition llama : contract lcmd lledger :=
  Contract lcmd lledger (fun B w c => lcaller w c) (fun B w c b => lcallee w c b) (fun B w c b => lupd w c b).
End Contract.

(** ** The shim *)

Definition dni_llama_load (gguf_path : string) : prog lcmd Z :=
  call Backend_init ;;;
  m <- call (Model_load gguf_path 0) ;;
  if is_null m then call Backend_free ;;; Ret NULL else
  c <- call (Init_from_model m 2048 512) ;;
  if is_null c then call (Model_free m) ;;; call Backend_free ;;; Ret NULL else
  v <- call (Get_vocab m) ;;
  call (New_handle (Handle m c v)).

Definition dni_llama_free (handle : Z) : prog lcmd unit :=
  if is_null handle then Ret tt else
  h <- call (Read_handle handle) ;;
  (if is_null (ctx h) then Ret tt else call (Ctx_free (ctx h))) ;;;
  (if is_null (model h) then Ret tt else call (Model_free (model h))) ;;;
  call Backend_free ;;;
  call (Delete_handle handle).

Definition LLAMA_DEFAULT_SEED : Z := 0xFFFFFFFF.

(** [buf] has 512 bytes, one of which is kept for the terminator. *)
Definition buf_size : Z := 512.

(** The decode loop; [fuel] is the number of iterations left ([max_tokens - decoded]). *)
Fixpoint decode_loop (h : DniLlama) (smpl user_data : Z) (b : batch) (fuel : nat) : prog lcmd Z :=
  match fuel with
  | O => Ret 0
  | S fuel' =>
      r <- call (Decode (ctx h) b) ;;
      if bool_decide (r <> 0) then Ret (-3) else
      p <- call Local_begin ;;
      tok <- call (Sample smpl (ctx h)) ;;
      eog <- call (Is_eog (vocab h) tok) ;;
      if (eog : bool) then call (Local_end p) ;;; Ret 0 else
      n <- call (Token_to_piece (vocab h) tok (buf_size - 1)) ;;
      if n.1 <? 0 then call (Local_end p) ;;; Ret (-4) else
      call (Callback user_data n.2) ;;;
      call (Local_end p) ;;;
      decode_loop h smpl user_data (Batch p 1) fuel'
  end.

Definition add_stage (h : DniLlama) (smpl : Z) (s : stage) : prog lcmd unit :=
  g <- call (Init_stage (vocab h) s) ;; call (Chain_add smpl g).

(** Lines 55-76: top-k, temperature and distribution behind an optional grammar, then the loop. *)
Definition sample_and_decode (h : DniLlama) (smpl toks n_prompt max_tokens temp user_data : Z) : prog lcmd Z :=
  add_stage h smpl (Top_k 40) ;;;
  add_stage h smpl (Temp temp) ;;;
  add_stage h smpl (Dist LLAMA_DEFAULT_SEED) ;;;
  rc <- decode_loop h smpl user_data (Batch toks n_prompt) (Z.to_nat max_tokens) ;;
  call (Sampler_free smpl) ;;;
  call (Drop_vector toks) ;;;
  Ret rc.

Definition dni_llama_generate (handle : Z) (prompt : option string) (max_tokens temp : Z)
    (grammar : option string) (cb_null : bool) (user_data : Z) : prog lcmd Z :=
  match prompt with
  | None => Ret (-1)
  | Some text =>
  if is_null handle || cb_null then Ret (-1) else
  h <- call (Read_handle handle) ;;
  call (Memory_clear (ctx h)) ;;;
  neg <- call (Tokenize (vocab h) text 0) ;;
  let n_prompt := - neg in
  toks <- call (New_vector n_prompt) ;;
  r <- call (Tokenize (vocab h) text n_prompt) ;;
  if r <? 0 then call (Drop_vector toks) ;;; Ret (-2) else
  smpl <- call Chain_init ;;
  match grammar with
  | Some g =>
      if String.eqb g "" then sample_and_decode h smpl toks n_prompt max_tokens temp user_data else
      gsmpl <- call (Init_stage (vocab h) (Grammar g "root")) ;;
      if is_null gsmpl then call (Sampler_free smpl) ;;; call (Drop_vector toks) ;;; Ret (-5) else
      call (Chain_add smpl gsmpl) ;;;
      sample_and_decode h smpl toks n_prompt max_tokens temp user_data
  | None => sample_and_decode h smpl toks n_prompt max_tokens temp user_data
  end
  end.

(** ** Loading and freeing *)

(** [w'] is [w] with one loaded handle more. *)
Definition loaded (p : Z) (h : DniLlama) (w w' : lledger) : Prop :=
  p <> NULL /\ l_handles w !! p = None /\ model h <> NULL /\ (model h ∉ l_models w) /\
  ctx h <> NULL /\ l_ctxs w !! ctx h = None /\
  w' = set_owned (l_backend w + 1) ({[model h]} ∪ l_models w) (<[ctx h := 512]> (l_ctxs w))
         (<[p := h]> (l_handles w)) w.

Definition load_post (w : lledger) (p : Z) (w' : lledger) : Prop :=
  p = NULL /\ w' = w \/ exists h, loaded p h w w'.

(** ** The generation loop, as a relation

    [run_of L n ts out rc]: sampling the tokens [ts] within [n] iterations emits [out] and answers [rc]:
    the budget is used up, the model ended its answer, a decode failed, or a token has no text that fits
    the buffer. *)
Definition shown (L : llama_lib) (t : Z) : option string :=
  match piece L t with
  | Some s => if Z.of_nat (String.length s) <=? buf_size - 1 then Some s else None
  | None => None
  end.

Inductive run_of (L : llama_lib) : nat -> list Z -> list string -> Z -> Prop :=
| run_budget : run_of L 0 [] [] 0
| run_decode_failed n : run_of L (S n) [] [] (-3)
| run_eog n t : is_eog L t = true -> run_of L (S n) [t] [] 0
| run_no_piece n t : is_eog L t = false -> shown L t = None -> run_of L (S n) [t] [] (-4)
| run_piece n t s ts out rc :
    is_eog L t = false -> shown L t = Some s -> run_of L n ts out rc ->
    run_of L (S n) (t :: ts) (s :: out) rc.

Lemma run_of_bounds L n ts out rc :
  run_of L n ts out rc ->
  (length out <= n)%nat /\ (length out <= length ts <= S (length out))%nat /\ (rc = 0 \/ rc = -3 \/ rc = -4) /\
  Forall (fun s => Z.of_nat (String.length s) < buf_size) out.
Proof.
  induction 1 as [| | | |n t s ts out rc He Hs _ (IH1 & IH2 & IH3 & IH4)]; simpl; split_and!; auto; try lia.
  constructor; [|done]. unfold shown in Hs. repeat case_match; simplify_eq. lia.
Qed.

Ltac lwp := cbn [wp bind call caller callee upd llama lcaller lcallee lupd fst snd].

Section Shim.
  Context (L : llama_lib) (strict : bool).

Lemma load_wp (w : lledger) path :
  0 <= l_backend w -> wp (llama L strict) (dni_llama_load path) (load_post w) w.
Proof.
  intros Hb. unfold dni_llama_load. lwp. split; [done|]. intros [] _. split; [simpl; lia|].
  intros m Hm. case_bool_decide as E; lwp.
  { split; [simpl; lia|]. intros [] _. left. split; [done|].
    destruct w; unfold set_owned; simpl; f_equal; lia. }
  destruct Hm as [?|[_ Hm]]; [done|]. simpl in Hm.
  split; [split; [simpl; by apply elem_of_union_l, elem_of_singleton_2|lia]|].
  intros c Hc. case_bool_decide as Ec; lwp.
  { split; [simpl; by apply elem_of_union_l, elem_of_singleton_2|]. intros [] _. split; [simpl; lia|].
    intros [] _. left. split; [done|]. destruct w; unfold set_owned; simpl in *.
    rewrite gset_add_remove by done. f_equal; lia. }
  destruct Hc as [?|[_ Hc]]; [done|]. simpl in Hc.
  split; [simpl; by apply elem_of_union_l, elem_of_singleton_2|]. intros v _. split; [done|].
  intros p [Hp Hf]. right. by exists (Handle m c v).
Qed.

Lemma free_wp (w w' : lledger) p h :
  0 <= l_backend w -> loaded p h w w' -> wp (llama L strict) (dni_llama_free p) (fun _ w2 => w2 = w) w'.
Proof.
  intros Hb (Hp & Hh & Hm & Hm' & Hc & Hc' & ->). unfold dni_llama_free. rewrite bool_decide_false by done.
  lwp. split; [simpl; by simplify_map_eq|]. intros h' Hh'. simpl in Hh'. simplify_map_eq.
  rewrite !bool_decide_false by done. lwp. split; [simpl; by simplify_map_eq|]. intros [] _.
  split; [simpl; by apply elem_of_union_l, elem_of_singleton_2|]. intros [] _.
  split; [simpl; lia|]. intros [] _. split; [simpl; by simplify_map_eq|]. intros [] _.
  destruct w; unfold set_owned; simpl in *. rewrite gset_add_remove, !delete_insert_id by done.
  f_equal; lia.
Qed.
End Shim.

Section Generate.
  Context (L : llama_lib).
Let K := llama L false.

Lemma set_work_back (w : lledger) p sa out :
  p ∉ l_arrays w ->
  set_work (l_samplers w) (({[p]} ∪ l_arrays w) ∖ {[p]})
    (set_trace sa out (set_work (l_samplers w) ({[p]} ∪ l_arrays w) w)) = set_trace sa out w.
Proof. intros Hp. unfold set_work, set_trace. simpl. by rewrite gset_add_remove. Qed.

Lemma decode_loop_wp h smpl ud chain fuel (b : batch) (w : lledger) :
  l_ctxs w !! ctx h = Some 512 -> l_samplers w !! smpl = Some chain -> b_n b <= 512 ->
  wp K (decode_loop h smpl ud b fuel)
    (fun rc w' => exists ts out, run_of L fuel ts out rc /\
       w' = set_trace (l_sampled w ++ (pair chain <$> ts)) (l_out w ++ out) w) w.
Proof.
  assert (forall w, w = set_trace (l_sampled w ++ (pair chain <$> [])) (l_out w ++ []) w) as Hid.
  { intros []. unfold set_trace. simpl. by rewrite !app_nil_r. }
  revert b w. induction fuel as [|fuel IH]; intros b w Hc Hs Hb.
  { exists [], []. split; [constructor|done]. }
  cbn [decode_loop]. unfold K. lwp. split; [split; [by exists 512|done]|]. intros r _.
  case_bool_decide; lwp; [exists [], []; split; [constructor|done]|].
  split; [done|]. intros p Hp. split; [simpl; rewrite Hs, Hc; by split|]. intros t _.
  simpl l_samplers. rewrite Hs. split; [done|]. intros eog ->.
  assert (forall out, set_work (l_samplers w) (({[p]} ∪ l_arrays w) ∖ {[p]})
     (set_trace (l_sampled w ++ [(chain, t)]) out (set_work (l_samplers w) ({[p]} ∪ l_arrays w) w)) =
     set_trace (l_sampled w ++ [(chain, t)]) out w) as Hback by (intros out; by apply set_work_back).
  assert (p ∈ {[p]} ∪ l_arrays w) as Hin by by apply elem_of_union_l, elem_of_singleton_2.
  destruct (is_eog L t) eqn:Ee; lwp.
  { split; [done|]. intros [] _. exists [t], []. split; [by constructor|]. simpl. rewrite app_nil_r. apply Hback. }
  split; [done|]. intros n Hn.
  assert (match shown L t with Some s => n = (Z.of_nat (String.length s), s) | None => n.1 < 0 end) as Hn'.
  { unfold shown. repeat case_match; simplify_eq; done. }
  destruct (shown L t) as [s|] eqn:Esh.
  - rewrite Hn'. cbn [fst snd]. rewrite (proj2 (Z.ltb_ge _ _)) by lia. lwp. split; [done|]. intros [] _.
    split; [done|]. intros [] _.
    eapply wp_mono; [|apply IH; simpl; [exact Hc|exact Hs|lia]].
    intros rc w' (ts & out & Hr & ->). exists (t :: ts), (s :: out). split; [by constructor|].
    unfold set_trace, set_work. simpl. by rewrite gset_add_remove, <- !app_assoc.
  - rewrite (proj2 (Z.ltb_lt _ _)) by done. lwp. split; [done|]. intros [] _. exists [t], [].
    split; [by constructor|]. simpl. rewrite app_nil_r. apply Hback.
Qed.

(** The state while a chain [smpl] and the token vector [toks] exist. *)
Definition working smpl c toks (w : lledger) : lledger :=
  set_work (<[smpl := c]> (l_samplers w)) ({[toks]} ∪ l_arrays w) w.

Lemma chain_add_wp (w : lledger) smpl c toks g st (Q : unit -> lledger -> Prop) :
  l_samplers w !! smpl = None -> g <> smpl -> l_samplers w !! g = None ->
  Q tt (working smpl (c ++ [st]) toks w) ->
  wp K (call (Chain_add smpl g)) Q
    (set_work (<[g := [st]]> (<[smpl := c]> (l_samplers w))) ({[toks]} ∪ l_arrays w) w).
Proof.
  intros Hs Hne Hg HQ. unfold K. lwp. simpl l_samplers. split.
  { rewrite lookup_insert_ne, !lookup_insert_eq by done. by split. }
  intros [] _. unfold working in HQ.
  rewrite (lookup_insert_ne _ g smpl), !lookup_insert_eq by done. cbn [default from_option].
  rewrite delete_insert_id by (by rewrite lookup_insert_ne).
  rewrite insert_insert_eq. exact HQ.
Qed.

Lemma add_stage_wp h (w : lledger) smpl c toks st (Q : unit -> lledger -> Prop) :
  l_samplers w !! smpl = None -> (forall g r, st <> Grammar g r) ->
  Q tt (working smpl (c ++ [st]) toks w) ->
  wp K (add_stage h smpl st) Q (working smpl c toks w).
Proof.
  intros Hs Hst HQ. unfold add_stage. apply (wp_bind _ (call _)). split; [done|]. intros g Hg.
  assert (g <> NULL /\ l_samplers (working smpl c toks w) !! g = None) as [Hg0 Hg1].
  { destruct st; [by exfalso; eapply Hst|exact Hg..]. }
  simpl in Hg1. apply lookup_insert_None in Hg1 as [Hg1 Hne].
  unfold K. cbn [wp upd llama lupd]. rewrite bool_decide_false by done.
  by apply (chain_add_wp w smpl c toks g st).
Qed.

Definition tail_stages (temp : Z) : list stage := [Top_k 40; Temp temp; Dist LLAMA_DEFAULT_SEED].

(** What a run leaves behind: samples through [chain], emitted texts, nothing else. *)
Definition ran (chain : list stage) (n : nat) (w : lledger) (rc : Z) (w' : lledger) : Prop :=
  exists ts out, run_of L n ts out rc /\
    w' = set_trace (l_sampled w ++ (pair chain <$> ts)) (l_out w ++ out) w.

Lemma sample_and_decode_wp h (w : lledger) smpl c toks n max_tokens temp ud :
  l_samplers w !! smpl = None -> (toks ∉ l_arrays w) -> l_ctxs w !! ctx h = Some 512 -> n <= 512 ->
  wp K (sample_and_decode h smpl toks n max_tokens temp ud)
    (ran (c ++ tail_stages temp) (Z.to_nat max_tokens) w) (working smpl c toks w).
Proof.
  intros Hs Ht Hc Hn. unfold sample_and_decode.
  apply (wp_bind _ (add_stage _ _ _)), add_stage_wp; [done|done|].
  apply (wp_bind _ (add_stage _ _ _)), add_stage_wp; [done|done|].
  apply (wp_bind _ (add_stage _ _ _)), add_stage_wp; [done|done|]. rewrite <- !app_assoc.
  eapply wp_seq.
  { apply (decode_loop_wp h smpl ud (c ++ tail_stages temp)); [exact Hc|apply lookup_insert_eq|done]. }
  intros rc w' (ts & out & Hr & ->). unfold K. lwp. split; [simpl; by rewrite lookup_insert_eq|].
  intros [] _. split; [simpl; by apply elem_of_union_l, elem_of_singleton_2|]. intros [] _.
  exists ts, out. split; [done|]. destruct w; unfold working, set_trace, set_work; simpl in *.
  by rewrite delete_insert_id, gset_add_remove.
Qed.

(** The grammar that takes effect: NULL and the empty string mean none. *)
Definition effective (grammar : option string) : option string :=
  match grammar with Some g => if String.eqb g "" then None else Some g | None => None end.

Definition gen_result (prompt : option string) (handle : Z) (cb_null : bool) (grammar : option string)
    (max_tokens temp : Z) (w : lledger) (rc : Z) (w' : lledger) : Prop :=
  if cb_null || is_null handle || bool_decide (prompt = None) then rc = -1 /\ w' = w else
  match effective grammar with
  | None => ran (tail_stages temp) (Z.to_nat max_tokens) w rc w'
  | Some g => if grammar_ok L g
              then ran (Grammar g "root" :: tail_stages temp) (Z.to_nat max_tokens) w rc w'
              else rc = -5 /\ w' = w
  end.

Lemma token_count_neg text : - token_count L text 0 = Z.of_nat (length (tokenize L text)).
Proof. unfold token_count. destruct (_ <=? 0) eqn:E; lia. Qed.

Lemma token_count_exact text : token_count L text (Z.of_nat (length (tokenize L text))) = Z.of_nat (length (tokenize L text)).
Proof. unfold token_count. by rewrite Z.leb_refl. Qed.

Lemma generate_wp handle h prompt max_tokens temp grammar cb_null ud (w : lledger) :
  l_handles w !! handle = Some h -> l_ctxs w !! ctx h = Some 512 ->
  (forall text, prompt = Some text -> Z.of_nat (length (tokenize L text)) <= 512) ->
  wp K (dni_llama_generate handle prompt max_tokens temp grammar cb_null ud)
    (gen_result prompt handle cb_null grammar max_tokens temp w) w.
Proof.
  intros Hh Hc Hlen. unfold dni_llama_generate, gen_result.
  destruct prompt as [text|]; [|rewrite orb_true_r; by split].
  rewrite (bool_decide_false (Some text = None)), orb_false_r, orb_comm by done.
  destruct (cb_null || is_null handle); [by split|]. specialize (Hlen text eq_refl).
  apply (wp_bind _ (call _)). split; [by eexists|]. intros h' Hh'. simpl in Hh'. simplify_eq.
  apply (wp_bind _ (call _)). split; [by eexists|]. intros [] _.
  apply (wp_bind _ (call _)). split; [done|]. intros neg Hneg. simpl in Hneg. subst neg.
  unfold K at 1. cbn [wp upd llama lupd]. rewrite token_count_neg.
  apply (wp_bind _ (call _)). split; [simpl; lia|]. intros toks Ht.
  apply (wp_bind _ (call _)). split; [simpl; lia|]. intros r Hr. simpl in Hr. subst r.
  unfold K at 1. cbn [wp upd llama lupd]. rewrite token_count_exact, (proj2 (Z.ltb_ge _ _)) by lia.
  apply (wp_bind _ (call _)). split; [done|]. intros smpl [Hs0 Hs]. cbn [wp upd llama lupd].
  change (l_samplers w !! smpl = None) in Hs.
  change (upd K _ Chain_init smpl) with (working smpl [] toks w).
  assert (wp K (sample_and_decode h smpl toks (Z.of_nat (length (tokenize L text))) max_tokens temp ud)
    (ran (tail_stages temp) (Z.to_nat max_tokens) w) (working smpl [] toks w)) as Hrun.
  { by apply (sample_and_decode_wp h w smpl [] toks). }
  destruct grammar as [g|]; [|exact Hrun]. unfold effective. destruct (String.eqb g ""); [exact Hrun|].
  apply (wp_bind _ (call _)). split; [done|]. intros gs Hgs. simpl in Hgs. cbn [wp].
  change (upd K _ (Init_stage _ _) gs) with
    (if is_null gs then working smpl [] toks w
     else set_work (<[gs := [Grammar g "root"]]> (<[smpl := []]> (l_samplers w))) ({[toks]} ∪ l_arrays w) w).
  destruct (grammar_ok L g).
  - destruct Hgs as [Hg0 Hg1]. apply lookup_insert_None in Hg1 as [Hg1 Hne].
    rewrite !bool_decide_false by done.
    apply (wp_bind _ (call _)). apply (chain_add_wp w smpl [] toks gs); try done.
    by apply (sample_and_decode_wp h w smpl [Grammar g "root"] toks).
  - subst gs. rewrite !bool_decide_true by done. unfold K. lwp.
    split; [simpl; by rewrite lookup_insert_eq|]. intros [] _.
    split; [simpl; by apply elem_of_union_l, elem_of_singleton_2|]. intros [] _. split; [done|].
    destruct w; unfold working, set_work; simpl in *. by rewrite delete_insert_id, gset_add_remove.
Qed.
End Generate.


(** loading either fails with NULL and undoes everything it did (model, backend), or answers a
    handle that owns one new model, one new context with a batch limit of 512 and one backend
    initialization; freeing that handle brings the process back to where it was, and freeing NULL does
    nothing. *)
Theorem llama_load_free L strict (w : lledger) path :
  0 <= l_backend w ->
  wp (llama L strict) (dni_llama_load path) (load_post w) w /\
  wp (llama L strict) (p <- dni_llama_load path ;; dni_llama_free p) (fun _ w' => w' = w) w /\
  dni_llama_free NULL = Ret tt.
Proof.
  intros Hb. split_and!; [by apply load_wp| |done].
  eapply wp_seq; [by apply load_wp|]. intros p w' [[-> ->]|[h Hl]]; [done|]. by eapply free_wp.
Qed.

(** C33: generation on a loaded handle, for a prompt of at most 512 tokens: NULL arguments answer -1 and
    a malformed grammar -5, both without sampling or emitting anything; otherwise every sample goes
    through the chain grammar (when given and not empty), top-k 40, temperature, distribution, in this
    order, the texts emitted are those of the sampled tokens up to the end-of-generation token, the
    token limit or the first error (-3 decode, -4 text), and in every case all samplers and arrays are
    released and context, model and handles untouched.  At most [max_tokens] texts are emitted, each
    fits the buffer with its terminator, and -2 is never answered. *)
Theorem llama_generate L handle h prompt max_tokens temp grammar cb_null ud (w : lledger) :
  l_handles w !! handle = Some h -> l_ctxs w !! ctx h = Some 512 ->
  (forall text, prompt = Some text -> Z.of_nat (length (tokenize L text)) <= 512) ->
  wp (llama L false) (dni_llama_generate handle prompt max_tokens temp grammar cb_null ud)
    (fun rc w' => gen_result L prompt handle cb_null grammar max_tokens temp w rc w' /\
       rc ∈ [0; -1; -3; -4; -5] /\
       exists out, l_out w' = l_out w ++ out /\ (length out <= Z.to_nat max_tokens)%nat /\
                   Forall (fun s => Z.of_nat (String.length s) < buf_size) out) w.
Proof.
  intros Hh Hc Hl. eapply wp_mono; [|by eapply generate_wp]. intros rc w' Hg. split; [exact Hg|].
  assert (w' = w -> exists out, l_out w' = l_out w ++ out /\ (length out <= Z.to_nat max_tokens)%nat /\
            Forall (fun s => Z.of_nat (String.length s) < buf_size) out) as Hsame.
  { intros ->. exists []. rewrite app_nil_r. simpl. split_and!; [done|lia|done]. }
  assert (forall c, ran L c (Z.to_nat max_tokens) w rc w' -> rc ∈ [0; -1; -3; -4; -5] /\
            exists out, l_out w' = l_out w ++ out /\ (length out <= Z.to_nat max_tokens)%nat /\
              Forall (fun s => Z.of_nat (String.length s) < buf_size) out) as Hran.
  { intros c (ts & out & Hr & ->). apply run_of_bounds in Hr as (H1 & _ & Hrc & H2).
    split; [destruct Hrc as [E|[E|E]]; rewrite E; set_solver|]. by exists out. }
  unfold gen_result in Hg. repeat case_match; eauto; destruct Hg as [-> ->]; (split; [set_solver|auto]).
Qed.

(** ** What the shim does not guard against *)

(** A fresh nonzero address. *)
Lemma fresh_address (s : gset Z) : exists p, p <> NULL /\ p ∉ s.
Proof.
  exists (fresh ({[NULL]} ∪ s)). pose proof (is_fresh ({[NULL]} ∪ s)) as H. set_solver.
Qed.

Lemma fresh_key {A} (m : gmap Z A) (s : gset Z) : exists p, p <> NULL /\ m !! p = None /\ p ∉ s.
Proof.
  destruct (fresh_address (dom m ∪ s)) as (p & H0 & H). exists p. split; [done|].
  split; [apply not_elem_of_dom|]; set_solver.
Qed.

(** Adding an unconditional stage, as steps of a run. *)
Lemma reach_add_stage L strict (w : lledger) h smpl c toks st {A} (k : unit -> prog lcmd A) B (e : lcmd B) w' :
  l_samplers w !! smpl = None -> (forall g r, st <> Grammar g r) ->
  reaches (llama L strict) (k tt) (working smpl (c ++ [st]) toks w) B e w' ->
  reaches (llama L strict) (bind (add_stage h smpl st) k) (working smpl c toks w) B e w'.
Proof.
  intros Hs Hst Hk. destruct (fresh_key (l_samplers w) {[smpl]}) as (g & Hg0 & Hg & Hne).
  unfold add_stage. cbn [bind call].
  apply (reach_later _ _ _ _ _ g).
  { destruct st; [by exfalso; eapply Hst|..]; (split; [done|]; simpl; rewrite lookup_insert_ne; set_solver). }
  apply (reach_later _ _ _ _ _ tt); [done|]. cbn [upd llama lupd]. rewrite bool_decide_false by done.
  simpl l_samplers. rewrite (lookup_insert_ne _ g smpl), !lookup_insert_eq by set_solver.
  cbn [default from_option]. rewrite delete_insert_id by (rewrite lookup_insert_ne; set_solver).
  rewrite insert_insert_eq. exact Hk.
Qed.

(** The run of an unconstrained generation up to its first [llama_decode]. *)
Lemma reach_loop L strict (w : lledger) handle h text max_tokens temp ud smpl toks B (e : lcmd B) w' :
  handle <> NULL -> l_handles w !! handle = Some h ->
  smpl <> NULL -> l_samplers w !! smpl = None -> (toks ∉ l_arrays w) ->
  reaches (llama L strict)
    (rc <- decode_loop h smpl ud (Batch toks (Z.of_nat (length (tokenize L text)))) (Z.to_nat max_tokens) ;;
     (call (Sampler_free smpl) ;;; call (Drop_vector toks) ;;; Ret rc))
    (working smpl (tail_stages temp) toks w) B e w' ->
  reaches (llama L strict) (dni_llama_generate handle (Some text) max_tokens temp None false ud) w B e w'.
Proof.
  intros Hn Hh Hs0 Hs Ht Hr. unfold dni_llama_generate. rewrite bool_decide_false by done. cbn [orb].
  apply (reach_later _ _ _ _ _ h); [done|]. apply (reach_later _ _ _ _ _ tt); [done|].
  apply (reach_later _ _ _ _ _ (token_count L text 0)); [done|]. cbv zeta. rewrite token_count_neg.
  apply (reach_later _ _ _ _ _ toks); [done|].
  apply (reach_later _ _ _ _ _ (Z.of_nat (length (tokenize L text)))).
  { cbn. by rewrite token_count_exact. }
  rewrite (proj2 (Z.ltb_ge _ _)) by lia. apply (reach_later _ _ _ _ _ smpl); [done|].
  change (upd _ _ Chain_init smpl) with (working smpl [] toks w). unfold sample_and_decode.
  do 3 (apply reach_add_stage; [done|done|]). exact Hr.
Qed.

(** the batch of every decode after the first one points to the local [tok] of the iteration
    before, whose lifetime has ended by then: whenever two tokens are asked for and the model starts
    with a token that has a text, the second [llama_decode] reads through a dangling pointer. *)
Theorem llama_dangling_batch L handle h text max_tokens temp ud t s (w : lledger) :
  handle <> NULL -> l_handles w !! handle = Some h -> 2 <= max_tokens ->
  is_eog L t = false -> shown L t = Some s ->
  exists p w',
    reaches (llama L true) (dni_llama_generate handle (Some text) max_tokens temp None false ud) w _
      (Decode (ctx h) (Batch p 1)) w' /\
    (p ∉ l_arrays w') /\ ~ caller (llama L true) w' (Decode (ctx h) (Batch p 1)).
Proof.
  intros Hn Hh Hmax He Hs.
  destruct (fresh_key (l_samplers w) ∅) as (smpl & Hs0 & Hsm & _).
  destruct (fresh_address (l_arrays w)) as (toks & _ & Ht).
  destruct (fresh_address ({[toks]} ∪ l_arrays w)) as (p & _ & Hp).
  eexists p, (set_work (<[smpl := tail_stages temp]> (l_samplers w)) (({[p]} ∪ ({[toks]} ∪ l_arrays w)) ∖ {[p]})
    (set_trace (l_sampled w ++ [(tail_stages temp, t)]) (l_out w ++ [s]) w)). split_and!.
  - apply (reach_loop L true w handle h text max_tokens temp ud smpl toks); try done.
    destruct (Z.to_nat max_tokens) as [|[|n]] eqn:En; [lia|lia|]. cbn [decode_loop bind call].
    apply (reach_later _ _ _ _ _ 0); [done|]. rewrite bool_decide_false by (intros H; by apply H). cbn [bind].
    apply (reach_later _ _ _ _ _ p); [done|]. apply (reach_later _ _ _ _ _ t); [done|].
    apply (reach_later _ _ _ _ _ false); [done|].
    apply (reach_later _ _ _ _ _ (Z.of_nat (String.length s), s)).
    { unfold shown in Hs. simpl. repeat case_match; by simplify_eq. }
    cbn [fst snd]. rewrite (proj2 (Z.ltb_ge _ _)) by lia. cbn [bind].
    apply (reach_later _ _ _ _ _ tt); [done|]. apply (reach_later _ _ _ _ _ tt); [done|].
    match goal with |- reaches _ _ ?u _ _ ?v => replace u with v; [apply reach_here|] end.
    unfold working, set_work, set_trace. simpl. by rewrite lookup_insert_eq.
  - simpl. set_solver.
  - intros [_ H]. specialize (H eq_refl). simpl in H. set_solver.
Qed.

(** nothing limits the prompt to the batch size: a prompt of more than 512 tokens is handed to
    [llama_decode] in one batch, more than the context was created for (llama.cpp aborts the process). *)
Theorem llama_oversized_prompt L strict handle h text max_tokens temp ud (w : lledger) :
  handle <> NULL -> l_handles w !! handle = Some h -> l_ctxs w !! ctx h = Some 512 -> 0 < max_tokens ->
  512 < Z.of_nat (length (tokenize L text)) ->
  exists b w',
    reaches (llama L strict) (dni_llama_generate handle (Some text) max_tokens temp None false ud) w _
      (Decode (ctx h) b) w' /\
    ~ caller (llama L strict) w' (Decode (ctx h) b).
Proof.
  intros Hn Hh Hc Hmax Hlen.
  destruct (fresh_key (l_samplers w) ∅) as (smpl & Hs0 & Hsm & _).
  destruct (fresh_address (l_arrays w)) as (toks & _ & Ht).
  exists (Batch toks (Z.of_nat (length (tokenize L text)))), (working smpl (tail_stages temp) toks w). split.
  - apply (reach_loop L strict w handle h text max_tokens temp ud smpl toks); try done.
    destruct (Z.to_nat max_tokens) as [|n] eqn:En; [lia|]. cbn [decode_loop bind call]. apply reach_here.
  - intros [(nb & Hnb & Hle) _]. simpl in Hnb, Hle. rewrite Hc in Hnb. simplify_eq. lia.
Qed.

(** ** Concrete instances *)

(** One token per character, token 0 ends the answer, every other token reads "x". *)
Definition demo_lib : llama_lib :=
  LlamaLib (fun s => replicate (String.length s) 7) (Z.eqb 0) (fun _ => Some "x")
    (fun g => String.eqb g "root ::= a").
Definition demo_handle : DniLlama := Handle 1 2 3.
Definition demo_w : lledger := LLedger 1 {[1]} {[2 := 512]} {[9 := demo_handle]} ∅ ∅ [] [].
Definition fresh_process : lledger := LLedger 0 ∅ ∅ ∅ ∅ ∅ [] [].

Lemma llama_load_free_witness :
  wp (llama demo_lib true) (p <- dni_llama_load "m.gguf" ;; dni_llama_free p)
    (fun _ w' => w' = fresh_process) fresh_process.
Proof. apply (llama_load_free demo_lib true fresh_process "m.gguf"). simpl. lia. Defined.

Lemma llama_generate_witness :
  wp (llama demo_lib false) (dni_llama_generate 9 (Some "hello") 16 0 (Some "root ::= a") false 0)
    (fun rc w' => gen_result demo_lib (Some "hello") 9 false (Some "root ::= a") 16 0 demo_w rc w' /\
       rc ∈ [0; -1; -3; -4; -5] /\
       exists out, l_out w' = l_out demo_w ++ out /\ (length out <= Z.to_nat 16)%nat /\
                   Forall (fun s => Z.of_nat (String.length s) < buf_size) out) demo_w.
Proof.
  apply (llama_generate demo_lib 9 demo_handle); [reflexivity | reflexivity |].
  intros text [= <-]. vm_compute. discriminate.
Defined.

Lemma llama_dangling_batch_witness :
  exists p w',
    reaches (llama demo_lib true) (dni_llama_generate 9 (Some "hello") 2 0 None false 0) demo_w _
      (Decode 2 (Batch p 1)) w' /\
    (p ∉ l_arrays w') /\ ~ caller (llama demo_lib true) w' (Decode 2 (Batch p 1)).
Proof.
  apply (llama_dangling_batch demo_lib 9 demo_handle "hello" 2 0 0 7 "x" demo_w);
    first [reflexivity | lia | intros H; discriminate H].
Defined.

(** A prompt of 513 characters. *)
Definition long_prompt : string := String.concat "" (replicate 513 "a").

Lemma llama_oversized_prompt_witness :
  exists b w',
    reaches (llama demo_lib false) (dni_llama_generate 9 (Some long_prompt) 1 0 None false 0) demo_w _
      (Decode 2 b) w' /\
    ~ caller (llama demo_lib false) w' (Decode 2 b).
Proof.
  apply (llama_oversized_prompt demo_lib false 9 demo_handle long_prompt 1 0 0 demo_w);
    first [reflexivity | lia | intros H; discriminate H].
Defined.
