(* ===== verification/GrammarGate.v ===== *)
(** * GrammarGate: native/llama-shim/grammar_gate.cpp

    The host gate that checks grammar-constrained sampling end to end: its text predicates, and the
    program's exit code from what the four generations produced.  Strings are lists of bytes; [char] is
    signed, as on the gate's platforms. *)

From Stdlib Require Import Ascii.
From S2P Require Import Prelude.
Local Open Scope Z_scope.
#[local] Set Warnings "-clear-no-such-hyp".

Definition bytes : Type := list Ascii.ascii.
Definition lit (s : string) : bytes := String.list_ascii_of_string s.
(** The value of a [char]. *)
Definition char_value (c : Ascii.ascii) : Z := wrap_s 8 (Z.of_nat (Ascii.nat_of_ascii c)).

(** ** std::string *)

Definition find_first_not_of (set x : bytes) : option nat := fst <$> list_find (fun c => c ∉ set) x.
Definition find_last_not_of (set x : bytes) : option nat :=
  (fun i => (length x - 1 - i)%nat) <$> find_first_not_of set (reverse x).
Definition substr (x : bytes) (pos n : nat) : bytes := take n (drop pos x).
(** [x.compare(pos, n, s) == 0] *)
Definition equal_at (x : bytes) (pos n : nat) (s : bytes) : bool := bool_decide (substr x pos n = s).

(** ** The predicates *)

Definition ws : bytes := Ascii.ascii_of_nat <$> [32; 9; 13; 10]%nat.

Definition trim (x : bytes) : bytes :=
  match find_first_not_of ws x, find_last_not_of ws x with
  | Some a, Some b => substr x a (b - a + 1)
  | _, _ => []
  end.

Definition upper (c : Ascii.ascii) : bool :=
  negb ((char_value c <? char_value "A"%char) || (char_value "Z"%char <? char_value c)).

Definition matches_forced (raw : bytes) : bool :=
  let s := trim raw in
  bool_decide (length s = 10%nat) && equal_at s 0 4 (lit "DNI-") &&
  forallb (fun i => match s !! i with Some c => upper c | None => false end) [4; 5; 6]%nat &&
  equal_at s 7 3 (lit "-OK").

Definition quote : Ascii.ascii := Ascii.ascii_of_nat 34.
Definition answer_prefix : bytes := lit "{" ++ [quote] ++ lit "answer" ++ [quote] ++ lit ":" ++ [quote].

(** [main]: the exit code, from the number of arguments, whether the model loads, what the first three
    generations produced and the result of the fourth, together with what that one emitted. *)
Definition gate (argc : Z) (loads : bool) (ctrl_raw forced_raw ans_raw : bytes) (rc : Z) (junk : bytes) : Z :=
  if argc <? 2 then 2 else
  if negb loads then 2 else
  let ctrl := trim ctrl_raw in
  let ctrl_ok := negb (bool_decide (ctrl = [])) && negb (matches_forced ctrl) in
  let synth_ok := matches_forced (trim forced_raw) in
  let ans := trim ans_raw in
  let ans_ok := bool_decide (answer_prefix `prefix_of` ans) && (13 <=? Z.of_nat (length ans)) &&
                bool_decide (last ans = Some "}"%char) in
  let mal_ok := rc <? 0 in
  let pass := Z.b2z ctrl_ok + Z.b2z synth_ok + Z.b2z ans_ok + Z.b2z mal_ok in
  if pass =? 4 then 0 else 1.

(** ** Trimming *)

Lemma first_not_of_split set x :
  match find_first_not_of set x with
  | Some a => exists l c r, x = l ++ c :: r /\ length l = a /\ Forall (fun c => c ∈ set) l /\ (c ∉ set)
  | None => Forall (fun c => c ∈ set) x
  end.
Proof.
  unfold find_first_not_of. destruct (list_find _ x) as [[a c]|] eqn:E; simpl.
  - apply list_find_Some in E as (Hx & Hc & Hl). exists (take a x), c, (drop (S a) x).
    split_and!; [by rewrite take_drop_middle|apply length_take_le, Nat.lt_le_incl; by eapply lookup_lt_Some| |done].
    apply Forall_lookup. intros i b Hi. apply lookup_take_Some in Hi as [Hi Hlt].
    destruct (decide (b ∈ set)); [done|]. by destruct (Hl i b Hi Hlt).
  - apply list_find_None in E. eapply Forall_impl; [exact E|]. intros b Hb. simpl in Hb.
    destruct (decide (b ∈ set)); done.
Qed.

(** What [trim] promises: white space on both sides is gone, and nothing else. *)
Definition trimmed (x m : bytes) : Prop :=
  exists l r, x = l ++ m ++ r /\ Forall (fun c => c ∈ ws) l /\ Forall (fun c => c ∈ ws) r /\
    (forall c, head m = Some c -> c ∉ ws) /\ (forall c, last m = Some c -> c ∉ ws).

Lemma trim_trimmed x : trimmed x (trim x).
Proof.
  unfold trim. pose proof (first_not_of_split ws x) as Hf. pose proof (first_not_of_split ws (reverse x)) as Hl.
  unfold find_last_not_of. destruct (find_first_not_of ws x) as [a|].
  2: { exists x, []. by rewrite app_nil_r. }
  destruct Hf as (l & c & r & Hx & Ha & Hlw & Hc).
  destruct (find_first_not_of ws (reverse x)) as [b|]; simpl.
  2: { rewrite Forall_reverse, Hx, Forall_app, Forall_cons in Hl. naive_solver. }
  destruct Hl as (r' & c' & l' & Hx' & Hb & Hrw & Hc').
  apply (f_equal reverse) in Hx'. rewrite reverse_involutive, reverse_app, reverse_cons, <- app_assoc in Hx'.
  simpl in Hx'. set (l2 := reverse l') in *. set (r2 := reverse r') in *.
  assert (length x = length l2 + S b)%nat as Hlen by (rewrite Hx', length_app; simpl; unfold r2; rewrite length_reverse; lia).
  replace (length x - 1 - b)%nat with (length l2) by lia.
  assert (a <= length l2)%nat as Hle.
  { destruct (decide (a <= length l2)%nat); [done|]. exfalso. apply Hc.
    assert (x !! a = Some c) as Hxa by (rewrite Hx, <- Ha; by apply list_lookup_middle).
    rewrite Hx' in Hxa. apply lookup_app_Some in Hxa as [Hxa%lookup_lt_Some|[_ Hxa]]; [lia|].
    replace (a - length l2)%nat with (S (a - length l2 - 1)) in Hxa by lia.
    simpl in Hxa. apply Forall_reverse in Hrw. by apply (Forall_lookup_1 _ _ _ _ Hrw Hxa). }
  unfold substr. set (n := (length l2 - a + 1)%nat).
  exists (take a x), (drop n (drop a x)). split_and!.
  - by rewrite take_drop, take_drop.
  - by rewrite Hx, <- Ha, take_app_length.
  - rewrite drop_drop. replace (a + n)%nat with (S (length l2)) by lia.
    rewrite Hx', drop_app_ge by lia. replace (S (length l2) - length l2)%nat with 1%nat by lia. simpl.
    rewrite drop_0. by apply Forall_reverse.
  - intros d. rewrite Hx, <- Ha, drop_app_length. unfold n. rewrite Nat.add_1_r. simpl. by intros [= <-].
  - intros d Hd. rewrite last_lookup, length_take_le in Hd by (rewrite length_drop; lia).
    rewrite lookup_take_lt, lookup_drop in Hd by lia.
    replace (a + Init.Nat.pred n)%nat with (length l2) in Hd by lia.
    rewrite Hx', list_lookup_middle in Hd by done. by simplify_eq.
Qed.

Lemma trim_id m : (forall c, head m = Some c -> c ∉ ws) -> (forall c, last m = Some c -> c ∉ ws) -> trim m = m.
Proof.
  intros Hh Hl. destruct (trim_trimmed m) as (l & r & E & Hlw & Hrw & _ & _).
  destruct l as [|c l].
  2: { exfalso. apply Forall_cons in Hlw as [Hc _]. apply (Hh c); [|done]. by rewrite E. }
  destruct r as [|c r _] using rev_ind; [by rewrite app_nil_r in E|].
  exfalso. apply Forall_app in Hrw as [_ Hc]. rewrite Forall_singleton in Hc.
  apply (Hl c); [|done]. rewrite E. simpl. by rewrite app_assoc, last_snoc.
Qed.

Lemma trim_idem x : trim (trim x) = trim x.
Proof. destruct (trim_trimmed x) as (? & ? & _ & _ & _ & ? & ?). by apply trim_id. Qed.

(** ** The forced shape *)

Definition forced_shape (x : bytes) : Prop :=
  exists a b c, x = lit "DNI-" ++ [a; b; c] ++ lit "-OK" /\
    Forall (fun c => 65 <= Z.of_nat (nat_of_ascii c) <= 90) [a; b; c].

Lemma upper_spec c : upper c = true <-> 65 <= Z.of_nat (nat_of_ascii c) <= 90.
Proof. destruct c as [[] [] [] [] [] [] [] []]; vm_compute; intuition (congruence || done). Qed.

Lemma matches_forced_spec raw : matches_forced raw = true <-> forced_shape (trim raw).
Proof.
  unfold matches_forced. generalize (trim raw) as s. intros s. unfold equal_at.
  rewrite !andb_true_iff, !bool_decide_eq_true. split.
  - intros (((Hl & H1) & H2) & H3).
    do 10 (destruct s as [|? s]; [done|]). destruct s; [|done]. simpl in H2.
    rewrite !andb_true_iff, !upper_spec in H2. unfold substr in H1, H3. simpl in H1, H3. simplify_eq.
    eexists _, _, _. split; [done|]. repeat constructor; naive_solver.
  - intros (a & b & c & -> & HF). rewrite !Forall_cons in HF. rewrite <- !upper_spec in HF.
    destruct HF as (Ha & Hb & Hc & _). simpl. rewrite Ha, Hb, Hc. done.
Qed.

(** [trim] removes exactly the white space around a text; [matches_forced] accepts a text if and
    only if it is, up to surrounding white space, DNI- followed by three upper-case letters and -OK; and
    the gate exits with 0 if and only if it got a model that loads, a free-text control answer, a forced
    answer of that shape, a well-formed answer object and a negative result for the malformed grammar,
    whatever text the last generation emitted. *)
Theorem grammar_gate argc loads ctrl forced ans rc junk :
  trimmed ctrl (trim ctrl) /\
  (matches_forced forced = true <-> forced_shape (trim forced)) /\
  (gate argc loads ctrl forced ans rc junk = 0 <->
     2 <= argc /\ loads = true /\ trim ctrl <> [] /\ ~ forced_shape (trim ctrl) /\
     forced_shape (trim forced) /\
     (answer_prefix `prefix_of` trim ans /\ 13 <= Z.of_nat (length (trim ans)) /\
      last (trim ans) = Some "}"%char) /\ rc < 0).
Proof.
  split; [apply trim_trimmed|]. split; [apply matches_forced_spec|].
  pose proof (matches_forced_spec (trim ctrl)) as Hc. rewrite trim_idem in Hc.
  pose proof (matches_forced_spec (trim forced)) as Hf. rewrite trim_idem in Hf.
  unfold gate. destruct (argc <? 2) eqn:E1; [split; [done|lia]|]. destruct loads; simpl; [|naive_solver].
  rewrite <- Hc, <- Hf.
  destruct (matches_forced (trim ctrl)), (matches_forced (trim forced)), (rc <? 0) eqn:E2,
    (13 <=? Z.of_nat (length (trim ans))) eqn:E3; repeat case_bool_decide; simpl;
    (split; [try done; intros _; split_and!; try done; lia | try done; intuition (lia || congruence)]).
Qed.
