(* ===== verification/Ring.v ===== *)
(** * Ring: the span and log rings of the engine

    [EngineTrace] and [EngineLog] keep their records in a fixed array used as a ring: an insertion into
    a full ring overwrites the oldest record and counts the drop, a drain empties the ring and reports
    the drops since the previous one.  The two share their mechanics, modelled once over the element
    type and the capacity (512 spans, 256 records); [RingLogger] is the logger in front of the second.
    All operations run under a lock, so an execution is a sequence of operations. *)

From S2P Require Import Prelude.
Local Open Scope Z_scope.
#[local] Set Warnings "-clear-no-such-hyp".

Section Ring.
  Context {A : Type} (Capacity : nat) (cap_pos : (0 < Capacity)%nat).

Record ring := Ring {
  r_ring : list (option A);      (* the array *)
  r_start : nat;                 (* index of the oldest live record *)
  r_count : nat;                 (* number of live records *)
  r_droppedSinceDrain : Z;
  r_droppedTotal : Z;
  r_recordedTotal : Z }.

Definition empty_ring : ring := Ring (replicate Capacity None) 0 0 0 0 0.

(** [x++] on a C# [long]. *)
Definition incr (z : Z) : Z := wrap_s 64 (z + 1).

Definition drop_oldest (r : ring) : ring :=
  Ring (r_ring r) ((r_start r + 1) mod Capacity) (r_count r - 1) (incr (r_droppedSinceDrain r))
    (incr (r_droppedTotal r)) (r_recordedTotal r).

Definition put (x : A) (r : ring) : ring :=
  Ring (<[(r_start r + r_count r) mod Capacity := Some x]> (r_ring r))%nat (r_start r) (r_count r + 1)
    (r_droppedSinceDrain r) (r_droppedTotal r) (r_recordedTotal r).

(** [EngineLog.Append], the locked part of [EngineTrace.Record]. *)
Definition Append (x : A) (r : ring) : ring :=
  let r1 := Ring (r_ring r) (r_start r) (r_count r) (r_droppedSinceDrain r) (r_droppedTotal r)
              (incr (r_recordedTotal r)) in
  put x (if bool_decide (r_count r1 = Capacity) then drop_oldest r1 else r1).

(** The records a drain copies out: [Ring[(_start + i) % Capacity]]. *)
Definition live (r : ring) : list (option A) :=
  (fun i => mjoin (r_ring r !! ((r_start r + i) mod Capacity)%nat)) <$> seq 0 (r_count r).

(** The drain: records (the array slots, None standing for null) and dropped count, the ring afterwards. *)
Definition Drain (r : ring) : (list (option A) * Z) * ring :=
  ((live r, r_droppedSinceDrain r),
   Ring (replicate Capacity None) 0 0 0 (r_droppedTotal r) (r_recordedTotal r)).

(** Capacity, occupancy, drops since the drain, recorded, dropped. *)
Definition Stats (r : ring) : list Z :=
  [Z.of_nat Capacity; Z.of_nat (r_count r); r_droppedSinceDrain r; r_recordedTotal r; r_droppedTotal r].

(** ** The specification: a list of everything recorded since the last drain *)

Record spec := Spec { sp_since : list A; sp_recorded : nat; sp_dropped : nat }.

Definition overflow (l : list A) : nat := length l - Capacity.
Definition spec_append (x : A) (s : spec) : spec :=
  Spec (sp_since s ++ [x]) (sp_recorded s + 1)
    (sp_dropped s + (overflow (sp_since s ++ [x]) - overflow (sp_since s))).
(** A drain delivers the newest [Capacity] records and says how many older ones are lost. *)
Definition spec_drain (s : spec) : (list A * nat) * spec :=
  ((drop (overflow (sp_since s)) (sp_since s), overflow (sp_since s)), Spec [] (sp_recorded s) (sp_dropped s)).

(** The ring implements the specification. *)
Record implements (r : ring) (s : spec) : Prop := {
  i_len : length (r_ring r) = Capacity;
  i_start : (r_start r < Capacity)%nat;
  i_count : r_count r = (length (sp_since s) `min` Capacity)%nat;
  i_live : live r = Some <$> drop (overflow (sp_since s)) (sp_since s);
  i_dsd : r_droppedSinceDrain r = Z.of_nat (overflow (sp_since s));
  i_rec : r_recordedTotal r = Z.of_nat (sp_recorded s);
  i_drop : r_droppedTotal r = Z.of_nat (sp_dropped s);
  i_cons : (length (sp_since s) <= sp_recorded s)%nat /\ (overflow (sp_since s) <= sp_dropped s <= sp_recorded s)%nat }.

(** ** Ring arithmetic *)

Lemma mod_once a : (a < 2 * Capacity)%nat ->
  (a mod Capacity = if bool_decide (a < Capacity) then a else a - Capacity)%nat.
Proof.
  intros Ha. case_bool_decide; [by apply Nat.mod_small|].
  replace a with ((a - Capacity) + 1 * Capacity)%nat at 1 by lia.
  rewrite Nat.Div0.mod_add. apply Nat.mod_small. lia.
Qed.

Lemma live_put x r :
  length (r_ring r) = Capacity -> (r_start r < Capacity)%nat -> (r_count r < Capacity)%nat ->
  live (put x r) = live r ++ [Some x].
Proof.
  intros Hl Hs Hc. unfold live, put. simpl. rewrite Nat.add_1_r, seq_S, fmap_app. simpl. f_equal.
  - apply list_fmap_ext. intros j i Hi. apply lookup_seq in Hi as [-> Hj]. simpl.
    rewrite list_lookup_insert_ne; [done|]. rewrite !mod_once by lia. repeat case_bool_decide; lia.
  - rewrite list_lookup_insert_eq; [done|]. rewrite Hl. apply Nat.mod_upper_bound. lia.
Qed.

Lemma live_drop_oldest r :
  (r_start r < Capacity)%nat -> r_count r = Capacity -> live (drop_oldest r) = tail (live r).
Proof.
  intros Hs Hc. unfold live, drop_oldest. simpl. rewrite Hc.
  assert (seq 0 Capacity = 0 :: (S <$> seq 0 (Capacity - 1)))%nat as ->.
  { rewrite fmap_S_seq. replace Capacity with (S (Capacity - 1)) at 1 by lia. done. }
  simpl. rewrite <- list_fmap_compose.
  apply list_fmap_ext. intros j i Hi. apply lookup_seq in Hi as [-> Hj]. simpl.
  do 2 f_equal.
  rewrite (mod_once (r_start r + 1)), (mod_once (r_start r + S j)) by lia.
  rewrite mod_once by (case_bool_decide; lia). repeat case_bool_decide; lia.
Qed.

(** ** Refinement *)

(** [x++] does not wrap while fewer than 2^63 - 1 records were counted. *)
Lemma incr_nat n : Z.of_nat n < 2 ^ 63 - 1 -> incr (Z.of_nat n) = Z.of_nat (n + 1).
Proof. intros H. unfold incr. rewrite wrap_s_id; [lia | lia |]. unfold in_s. simpl. lia. Qed.

Lemma empty_implements : implements empty_ring (Spec [] 0 0).
Proof. split; simpl; try done; by rewrite length_replicate. Qed.

Lemma drain_implements r s : implements r s -> implements (Drain r).2 (spec_drain s).2.
Proof.
  intros [Hl Hs Hc Hv Hd Hr Hp [? ?]]. split; simpl; try done.
  - by rewrite length_replicate.
  - unfold overflow. simpl. lia.
Qed.

Lemma drain_outputs r s : implements r s ->
  (Drain r).1 = (Some <$> (spec_drain s).1.1, Z.of_nat (spec_drain s).1.2).
Proof. intros [Hl Hs Hc Hv Hd Hr Hp _]. simpl. by rewrite Hv, Hd. Qed.

Lemma overflow_snoc l (x : A) :
  overflow (l ++ [x]) = if bool_decide (Capacity <= length l)%nat then S (overflow l) else 0%nat.
Proof. unfold overflow. rewrite length_app. simpl. case_bool_decide; lia. Qed.

Lemma append_implements x r s :
  implements r s -> Z.of_nat (sp_recorded s) < 2 ^ 63 - 1 -> implements (Append x r) (spec_append x s).
Proof.
  intros [Hl Hs Hc Hv Hd Hr Hp [Hr1 Hr2]] Hb. unfold Append, spec_append.
  set (r1 := Ring (r_ring r) (r_start r) (r_count r) _ _ _).
  assert (live r1 = live r) as E1 by done.
  destruct (decide (Capacity <= length (sp_since s))%nat) as [Hfull|Hroom].
  - rewrite bool_decide_true by (simpl; lia).
    assert (overflow (sp_since s ++ [x]) = S (overflow (sp_since s))) as Ho
      by (rewrite overflow_snoc; by rewrite bool_decide_true).
    split; simpl sp_since; rewrite ?Ho; simpl.
    + by rewrite length_insert.
    + apply Nat.mod_upper_bound. lia.
    + rewrite length_app. simpl. lia.
    + rewrite live_put; simpl; [| done | apply Nat.mod_upper_bound; lia | lia].
      rewrite live_drop_oldest by (simpl; lia). rewrite E1, Hv.
      rewrite drop_app_le, fmap_app by (unfold overflow; lia). f_equal. simpl.
      replace (S (overflow (sp_since s))) with (overflow (sp_since s) + 1)%nat by lia.
      rewrite <- drop_drop. by destruct (drop (overflow (sp_since s)) (sp_since s)).
    + rewrite Hd, incr_nat by lia. f_equal. lia.
    + rewrite Hr, incr_nat by lia. done.
    + rewrite Hp, incr_nat by lia. f_equal. lia.
    + rewrite length_app. simpl. lia.
  - rewrite bool_decide_false by (simpl; lia).
    assert (overflow (sp_since s) = 0%nat) as Ho0 by (unfold overflow; lia).
    assert (overflow (sp_since s ++ [x]) = 0%nat) as Ho
      by (rewrite overflow_snoc; rewrite bool_decide_false; [done | lia]).
    split; simpl sp_since; rewrite ?Ho, ?Ho0; simpl.
    + by rewrite length_insert.
    + done.
    + rewrite length_app. simpl. lia.
    + rewrite live_put by (simpl; lia). rewrite E1, Hv, Ho0, !drop_0. by rewrite fmap_app.
    + by rewrite Hd, Ho0.
    + rewrite Hr, incr_nat by lia. done.
    + rewrite Hp. f_equal. lia.
    + rewrite length_app. simpl. lia.
Qed.

(** ** Executions: sequences of operations under the lock *)

Inductive rop := RAppend (x : A) | RDrain | RStats.
Inductive rout := ODone | ODrain (records : list (option A)) (dropped : Z) | OStats (st : list Z).

Definition ring_do (o : rop) (r : ring) : rout * ring :=
  match o with
  | RAppend x => (ODone, Append x r)
  | RDrain => (ODrain (Drain r).1.1 (Drain r).1.2, (Drain r).2)
  | RStats => (OStats (Stats r), r)
  end.

Definition spec_stats (s : spec) : list Z :=
  [Z.of_nat Capacity; Z.of_nat (length (sp_since s) `min` Capacity); Z.of_nat (overflow (sp_since s));
   Z.of_nat (sp_recorded s); Z.of_nat (sp_dropped s)].

Definition spec_do (o : rop) (s : spec) : rout * spec :=
  match o with
  | RAppend x => (ODone, spec_append x s)
  | RDrain => (ODrain (Some <$> (spec_drain s).1.1) (Z.of_nat (spec_drain s).1.2), (spec_drain s).2)
  | RStats => (OStats (spec_stats s), s)
  end.

Fixpoint run_ops {S : Type} (f : rop -> S -> rout * S) (ops : list rop) (s : S) : list rout * S :=
  match ops with
  | [] => ([], s)
  | o :: os => let r := run_ops f os (f o s).2 in ((f o s).1 :: r.1, r.2)
  end.

Definition is_append (o : rop) : bool := match o with RAppend _ => true | _ => false end.
Fixpoint appends (ops : list rop) : nat :=
  match ops with [] => 0 | o :: os => (if is_append o then 1 else 0) + appends os end.

(** Records handed out by the drains of an execution, and drops they reported. *)
Definition delivered (o : rout) : nat := match o with ODrain l _ => length l | _ => 0 end.
Definition reported (o : rout) : Z := match o with ODrain _ d => d | _ => 0 end.
Definition total (outs : list rout) : Z :=
  foldr (fun o n => Z.of_nat (delivered o) + reported o + n) 0 outs.

Lemma do_implements o r s :
  implements r s -> Z.of_nat (sp_recorded s + (if is_append o then 1 else 0)) < 2 ^ 63 ->
  (ring_do o r).1 = (spec_do o s).1 /\ implements (ring_do o r).2 (spec_do o s).2 /\
  sp_recorded (spec_do o s).2 = (sp_recorded s + (if is_append o then 1 else 0))%nat.
Proof.
  intros H Hb. destruct o as [x| |]; simpl in *.
  - split; [done|]. split; [apply append_implements; [done | lia] | lia].
  - split; [|split; [by apply drain_implements | lia]].
    pose proof (drain_outputs r s H) as E. simpl in E. injection E as E1 E2. by rewrite E1, E2.
  - split; [|split; [done | lia]]. destruct H. unfold Stats, spec_stats. by repeat f_equal.
Qed.

Lemma run_implements ops : forall r s,
  implements r s -> Z.of_nat (sp_recorded s + appends ops) < 2 ^ 63 ->
  (run_ops ring_do ops r).1 = (run_ops spec_do ops s).1 /\
  implements (run_ops ring_do ops r).2 (run_ops spec_do ops s).2 /\
  sp_recorded (run_ops spec_do ops s).2 = (sp_recorded s + appends ops)%nat.
Proof.
  induction ops as [|o ops IH]; intros r s H Hb; simpl in *; [split; [done | split; [done | lia]]|].
  destruct (do_implements o r s H) as (E1 & H' & E2); [lia|].
  destruct (IH _ _ H') as (E3 & H'' & E4); [lia|]. split; [congruence | split; [done | lia]].
Qed.

(** What a specification execution delivered and reported accounts for everything appended. *)
Lemma spec_total ops : forall s,
  total (run_ops spec_do ops s).1 + Z.of_nat (length (sp_since (run_ops spec_do ops s).2)) =
  Z.of_nat (length (sp_since s)) + Z.of_nat (appends ops).
Proof.
  induction ops as [|o ops IH]; intros s; simpl; [lia|]. specialize (IH (spec_do o s).2).
  destruct o; simpl in *; unfold overflow in *; rewrite ?length_fmap, ?length_drop, ?length_app in *; simpl in *; lia.
Qed.

Lemma spec_no_null ops : forall s l d, ODrain l d ∈ (run_ops spec_do ops s).1 -> None ∉ l.
Proof.
  induction ops as [|o ops IH]; intros s l d; simpl; [by intros ?%elem_of_nil|].
  intros [E|E]%elem_of_cons; [|by eapply IH]. destruct o; simplify_eq/=.
  intros Hn. apply list_elem_of_fmap in Hn as (? & ? & _). done.
Qed.

(** C31: Under every sequence of insertions, drains and statistics reads with fewer than 2^63 insertions,
    the ring answers exactly what a plain list of everything recorded since the last drain would: a drain
    returns the newest [Capacity] records in recording order with the number of older ones lost, and the
    statistics report occupancy, pending drops, records and drops in total. *)
Theorem ring_refines_list ops :
  Z.of_nat (appends ops) < 2 ^ 63 ->
  (run_ops ring_do ops empty_ring).1 = (run_ops spec_do ops (Spec [] 0 0)).1.
Proof. intros Hb. by apply run_implements; [apply empty_implements|]. Qed.

(** Overflow is never silent: at every moment the records delivered by the drains, the drops they
    reported, the records still in the ring and the drops not yet reported add up to the number of
    insertions, which is what the statistics call recorded; the ring holds at most [Capacity] records and
    never delivers a null slot. *)
Theorem ring_accounts_for_everything ops :
  Z.of_nat (appends ops) < 2 ^ 63 ->
  let outs := (run_ops ring_do ops empty_ring).1 in
  let r := (run_ops ring_do ops empty_ring).2 in
  total outs + Z.of_nat (r_count r) + r_droppedSinceDrain r = Z.of_nat (appends ops) /\
  r_recordedTotal r = Z.of_nat (appends ops) /\
  (r_count r <= Capacity)%nat /\ 0 <= r_droppedSinceDrain r <= r_droppedTotal r /\
  (forall l d, ODrain l d ∈ outs -> (None ∉ l) /\ (length l <= Capacity)%nat).
Proof.
  intros Hb outs r.
  destruct (run_implements ops empty_ring (Spec [] 0 0) empty_implements Hb) as (E & H & Hr).
  pose proof (spec_total ops (Spec [] 0 0)) as Ht. subst outs r. rewrite E.
  destruct H as [_ _ Hc _ Hd Hrec Hp [? ?]]. rewrite Hc, Hd, Hp, Hrec, Hr. simpl in *.
  unfold overflow in *. split; [lia|]. split; [lia|]. split; [lia|]. split; [lia|].
  intros l d Hin. split; [by eapply spec_no_null|].
  clear -Hin. generalize dependent (Spec [] 0 0). induction ops as [|o ops IH]; intros s; simpl;
    [by intros ?%elem_of_nil|].
  intros [E|E]%elem_of_cons; [|by eapply IH]. destruct o; simplify_eq/=.
  unfold overflow. rewrite length_fmap, length_drop. lia.
Qed.
End Ring.
Arguments rop : clear implicits.
Arguments rout : clear implicits.
Arguments ring : clear implicits.

(** ** The two instances *)

(** [EngineTrace.Capacity] and [EngineLog.Capacity]. *)
Definition span_capacity : nat := 512.
Definition log_capacity : nat := 256.

(** ** [RingLogger] in front of the log ring *)

Section Logger.
  (** Timestamps (rounded microseconds), [LogLevel]'s names and the number of its member [None] belong to
      the runtime libraries. *)
  Context {T : Type} (level_name : Z -> string) (LogLevel_None : Z) (minLevel : Z) (category : string).

Record LogRecord := MkLogRecord {
  Level : string; Category : string; Message : string; TimestampUs : T;
  RequestId : option string; Exception : option string }.

(** A call of [Log]: the exception by its type name and message, the formatter already applied to the
    state, the clock at the time of the call. *)
Record log_call := LogCall {
  lc_level : Z; lc_exception : option (string * string);
  lc_formatter : option (string * string) -> string; lc_now : T }.

Definition IsEnabled (logLevel : Z) : bool :=
  bool_decide (minLevel <= logLevel) && bool_decide (logLevel <> LogLevel_None).

Definition log_record (c : log_call) : LogRecord :=
  MkLogRecord (level_name (lc_level c)) category (lc_formatter c (lc_exception c)) (lc_now c) None
    ((fun e => e.1 +:+ ": " +:+ e.2) <$> lc_exception c).

Definition Log (c : log_call) (r : ring LogRecord) : ring LogRecord :=
  if negb (IsEnabled (lc_level c)) then r else Append log_capacity (log_record c) r.

Definition Log_all (cs : list log_call) (r : ring LogRecord) : ring LogRecord :=
  foldl (fun r c => Log c r) r cs.

(** The records the enabled calls make. *)
Definition captured (cs : list log_call) : list LogRecord :=
  log_record <$> filter (fun c => IsEnabled (lc_level c) = true) cs.

Lemma log_capacity_pos : (0 < log_capacity)%nat.
Proof. unfold log_capacity. lia. Qed.

Lemma Log_all_implements cs : forall r s,
  implements log_capacity r s -> Z.of_nat (sp_recorded s + length cs) < 2 ^ 63 ->
  exists s', implements log_capacity (Log_all cs r) s' /\ sp_since s' = sp_since s ++ captured cs /\
             (sp_recorded s' <= sp_recorded s + length cs)%nat.
Proof.
  induction cs as [|c cs IH]; intros r s H Hb; unfold Log_all in *; simpl in *.
  - exists s. split; [done|]. split; [by rewrite app_nil_r | lia].
  - unfold Log at 2, captured. rewrite filter_cons. destruct (IsEnabled (lc_level c)) eqn:E; simpl.
    + destruct (IH (Append log_capacity (log_record c) r) (spec_append log_capacity (log_record c) s))
        as (s' & H' & Es & Er).
      * apply append_implements; [apply log_capacity_pos | done | lia].
      * simpl. lia.
      * exists s'. split; [done|]. simpl in *. rewrite Es, <- app_assoc. split; [done | lia].
    + destruct (IH r s H) as (s' & H' & Es & Er); [lia|]. exists s'. split; [done|]. split; [done | lia].
Qed.

(** What a client drains from the log ring are exactly the newest 256 records logged at an enabled
    level since the previous drain, in order, each carrying its level's name, the logger's category, the
    formatted message and the exception's type and message, together with the number of older ones lost;
    calls below the minimum level or at the level None leave no trace. *)
Theorem log_drain_delivers (before since : list log_call) :
  Z.of_nat (length before + length since) < 2 ^ 63 ->
  let r := Log_all since (Drain log_capacity (Log_all before (empty_ring log_capacity))).2 in
  (Drain log_capacity r).1 =
    (Some <$> drop (length (captured since) - log_capacity) (captured since),
     Z.of_nat (length (captured since) - log_capacity)) /\
  (forall c, c ∈ since -> lc_level c < minLevel \/ lc_level c = LogLevel_None -> captured [c] = []).
Proof.
  intros Hb r. subst r. split.
  - destruct (Log_all_implements before _ _ (empty_implements log_capacity log_capacity_pos))
      as (s1 & H1 & _ & R1); [simpl; lia|]. simpl in R1.
    apply (drain_implements log_capacity log_capacity_pos) in H1.
    destruct (Log_all_implements since _ _ H1) as (s2 & H2 & E2 & _); [simpl; lia|].
    rewrite (drain_outputs log_capacity _ _ H2). simpl. unfold overflow. by rewrite E2.
  - intros c _ Hc. unfold captured, IsEnabled. rewrite filter_cons.
    destruct (decide _) as [E|]; [|done]. apply andb_true_iff in E as [?%bool_decide_eq_true ?%bool_decide_eq_true].
    naive_solver lia.
Qed.
End Logger.

(** ** Witnesses *)

(** 513 spans and a drain, then two more. *)
Definition busy_ops : list (rop nat) :=
  (RAppend <$> seq 0 513) ++ [RStats; RDrain; RAppend 7%nat; RAppend 8%nat; RDrain].

Lemma ring_refines_witness :
  (run_ops (ring_do span_capacity) busy_ops (empty_ring span_capacity)).1 =
    replicate 513 ODone ++
    [OStats [512; 512; 1; 513; 1]; ODrain (Some <$> seq 1 512) 1; ODone; ODone; ODrain [Some 7%nat; Some 8%nat] 0].
Proof.
  rewrite ring_refines_list; [vm_compute; reflexivity | unfold span_capacity; lia | vm_compute; reflexivity].
Defined.

Lemma ring_accounts_witness :
  let r := (run_ops (ring_do span_capacity) busy_ops (empty_ring span_capacity)).2 in
  r_recordedTotal r = 515 /\ r_droppedTotal r = 1 /\ r_count r = 0%nat.
Proof.
  assert (Z.of_nat (appends busy_ops) < 2 ^ 63) as H by (vm_compute; reflexivity).
  assert ((0 < span_capacity)%nat) as Hc by (unfold span_capacity; lia).
  pose proof (ring_accounts_for_everything span_capacity Hc busy_ops H) as (_ & E & _).
  cbv zeta. split; [|split]; vm_compute; reflexivity.
Defined.

(** A warning with an exception is kept, a debug message is not. *)
Definition names (l : Z) : string := if bool_decide (l = 3) then "Warning" else "Debug".
Definition warned : log_call (T := nat) :=
  LogCall 3 (Some ("IOException", "broken pipe")) (fun _ => "dni_pb_start failed") 17%nat.
Definition chatter : log_call (T := nat) := LogCall 1 None (fun _ => "poll") 18%nat.

Lemma log_drain_witness :
  (Drain log_capacity (Log_all names 6 2 "Dni.Engine" [chatter; warned; chatter]
     (Drain log_capacity (Log_all names 6 2 "Dni.Engine" [warned] (empty_ring log_capacity))).2)).1 =
  ([Some (MkLogRecord "Warning" "Dni.Engine" "dni_pb_start failed" 17%nat None
            (Some "IOException: broken pipe"))], 0).
Proof.
  assert (Z.of_nat (length [warned] + length [chatter; warned; chatter]) < 2 ^ 63) as H by (vm_compute; reflexivity).
  destruct (log_drain_delivers names 6 2 "Dni.Engine" [warned] [chatter; warned; chatter] H) as [E _].
  rewrite E. vm_compute. reflexivity.
Defined.
