(* ===== verification/Telemetry.v ===== *)
(** * Telemetry: the metrics aggregator, and the spans that feed it

    [EngineMetrics.cs] adds up every measurement of the engine's meter; [EngineTrace.cs] makes them: a span
    that ends is counted, its duration is recorded, and it is put into the ring of [Ring] under a lock, in
    three steps between which other threads run.  Requests, agent turns and tool calls are counted as they
    come.  An execution is a sequence of events, one function gives the state after each. *)

From S2P Require Import Prelude Ring.
Local Open Scope string_scope.
Local Open Scope list_scope.
Local Open Scope Z_scope.
#[local] Set Warnings "-clear-no-such-hyp".

(** [x += delta] on a C# [long]. *)
Definition add64 (z delta : Z) : Z := wrap_s 64 (z + delta).

Lemma add64_one z : 0 <= z < 2 ^ 63 - 1 -> add64 z 1 = z + 1.
Proof. intros Hz. apply wrap_s_id; [lia|]. unfold in_s. change (64 - 1) with 63. lia. Qed.

Section Telemetry.
(** [double] and the operations the accumulator uses; [Math.Round(x, 1)]. *)
Context {D : Type} (zero positive_infinity negative_infinity : D) (add : D -> D -> D) (lt : D -> D -> bool) (round1 : D -> D).
(** The record a span is flattened to. *)
Context {Span : Type}.

(** ** EngineMetrics *)

Record DurationAccumulator := Acc { Count : Z; Sum : D; Min : D; Max : D }.
Definition new_accumulator : DurationAccumulator := Acc 0 zero positive_infinity negative_infinity.

Record metrics := Metrics {
  spansRecorded : Z; spansDropped : Z;
  requestsFfi : Z; requestsHttp : Z; requestsSqlite : Z; requestsPb : Z;
  agentTurns : Z;
  AgentToolCalls : gmap string Z;
  OperationDurations : gmap string DurationAccumulator }.
Definition no_metrics : metrics := Metrics 0 0 0 0 0 0 0 ∅ ∅.

(** A tag whose value is not a string, or is null, reads as null. *)
Definition tags : Type := list (string * option string).
Fixpoint TagValue (l : tags) (key : string) : option string :=
  match l with
  | [] => None
  | (k, v) :: l => if bool_decide (k = key) then v else TagValue l key
  end.

Definition AddRequest (transport : option string) (delta : Z) (m : metrics) : metrics :=
  match m with Metrics r d f h s p a t o =>
    if bool_decide (transport = Some "ffi") then Metrics r d (add64 f delta) h s p a t o
    else if bool_decide (transport = Some "http") then Metrics r d f (add64 h delta) s p a t o
    else if bool_decide (transport = Some "sqlite") then Metrics r d f h (add64 s delta) p a t o
    else if bool_decide (transport = Some "pb") then Metrics r d f h s (add64 p delta) a t o
    else m
  end.

Definition OnLongMeasurement (instrument : string) (measurement : Z) (l : tags) (m : metrics) : metrics :=
  match m with Metrics r d f h s p a t o =>
    match instrument with
    | "dni.spans.recorded" => Metrics (add64 r measurement) d f h s p a t o
    | "dni.spans.dropped" => Metrics r (add64 d measurement) f h s p a t o
    | "dni.requests" => AddRequest (TagValue l "dni.transport") measurement m
    | "dni.agent.turns" => Metrics r d f h s p (add64 a measurement) t o
    | "dni.agent.tool_calls" =>
        let tool := default "(unknown)" (TagValue l "dni.tool") in
        Metrics r d f h s p a (<[tool := add64 (default 0 (t !! tool)) measurement]> t) o
    | _ => m
    end
  end.

Definition record_duration (x : D) (acc : DurationAccumulator) : DurationAccumulator :=
  Acc (add64 (Count acc) 1) (add (Sum acc) x) (if lt x (Min acc) then x else Min acc) (if lt (Max acc) x then x else Max acc).
Definition OnDoubleMeasurement (instrument : string) (measurement : D) (l : tags) (m : metrics) : metrics :=
  if negb (bool_decide (instrument = "dni.span.duration")) then m
  else
    let op := default "(unknown)" (TagValue l "dni.op") in
    match m with Metrics r d f h s p a t o =>
      Metrics r d f h s p a t (<[op := record_duration measurement (default new_accumulator (o !! op))]> o)
    end.

(** The payload of [metrics~snapshot]; the dictionaries are listed in no particular order. *)
Record OperationDuration := OpDuration { Op : string; OpCount : Z; SumUs : D; MinUs : D; MaxUs : D }.
Record MetricsSnapshot := SnapshotOf {
  NowUs : D; Requests : list Z; SpansRecorded : Z; SpansDropped : Z; AgentTurns : Z;
  ToolCalls : list (string * Z); Durations : list OperationDuration }.
Definition Snapshot (now : D) (m : metrics) : MetricsSnapshot :=
  SnapshotOf (round1 now) [requestsFfi m; requestsHttp m; requestsSqlite m; requestsPb m] (spansRecorded m) (spansDropped m) (agentTurns m)
    (map_to_list (AgentToolCalls m))
    ((fun '(op, acc) => OpDuration op (Count acc) (round1 (Sum acc)) (round1 (Min acc)) (round1 (Max acc))) <$> map_to_list (OperationDurations m)).

(** ** EngineTrace *)

Record activity := Activity { OperationName : string; Duration : D; span : Span }.
(** Where a thread is in [Record]: before [SpansRecorded.Add], before [SpanDurationUs.Record], before the lock. *)
Inductive phase := Ended | Counted | Timed.
Record engine := Engine { e_ring : ring Span; e_metrics : metrics; e_threads : list (phase * activity) }.
Definition boot : engine := Engine (empty_ring span_capacity) no_metrics [].

Inductive event :=
| EStopped (a : activity)                (* an Activity of the source stops: a thread enters Record *)
| ECount (k : nat) (a : activity)        (* SpansRecorded.Add(1), thread k *)
| ETime (k : nat) (a : activity)         (* SpanDurationUs.Record *)
| EInsert (k : nat) (a : activity)       (* the locked part *)
| ERequest (transport : string)          (* RecordRequest *)
| ETurn                                  (* RecordAgentTurn *)
| EToolCall (tool : string)              (* RecordAgentToolCall *)
| EDrain.                                (* EngineTrace.Drain *)

Definition set_metrics (f : metrics -> metrics) (s : engine) : engine := Engine (e_ring s) (f (e_metrics s)) (e_threads s).
(** A drop is measured under the ring's lock. *)
Definition insert_span (a : activity) (s : engine) : engine :=
  Engine (Append span_capacity (span a) (e_ring s))
    ((if bool_decide (r_count (e_ring s) = span_capacity) then OnLongMeasurement "dni.spans.dropped" 1 [] else id) (e_metrics s))
    (e_threads s).
Definition at_phase (p : phase) (k : nat) (a : activity) (s : engine) : Prop := e_threads s !! k = Some (p, a).
Definition set_threads (l : list (phase * activity)) (s : engine) : engine := Engine (e_ring s) (e_metrics s) l.

Inductive estep : event -> engine -> engine -> Prop :=
| s_stopped a s : estep (EStopped a) s (set_threads (e_threads s ++ [(Ended, a)]) s)
| s_count k a s : at_phase Ended k a s ->
    estep (ECount k a) s (set_threads (<[k := (Counted, a)]> (e_threads s)) (set_metrics (OnLongMeasurement "dni.spans.recorded" 1 []) s))
| s_time k a s : at_phase Counted k a s ->
    estep (ETime k a) s (set_threads (<[k := (Timed, a)]> (e_threads s))
      (set_metrics (OnDoubleMeasurement "dni.span.duration" (Duration a) [("dni.op", Some (OperationName a))]) s))
| s_insert k a s : at_phase Timed k a s -> estep (EInsert k a) s (set_threads (delete k (e_threads s)) (insert_span a s))
| s_request t s : estep (ERequest t) s (set_metrics (OnLongMeasurement "dni.requests" 1 [("dni.transport", Some t)]) s)
| s_turn s : estep ETurn s (set_metrics (OnLongMeasurement "dni.agent.turns" 1 []) s)
| s_tool t s : estep (EToolCall t) s (set_metrics (OnLongMeasurement "dni.agent.tool_calls" 1 [("dni.tool", Some t)]) s)
| s_drain s : estep EDrain s (Engine (Drain span_capacity (e_ring s)).2 (e_metrics s) (e_threads s)).

Inductive execution : list event -> engine -> Prop :=
| x_boot : execution [] boot
| x_step l e s s' : execution l s -> estep e s s' -> execution (l ++ [e]) s'.

(** ** What an execution amounts to *)

Definition tally (f : event -> bool) (l : list event) : Z := Z.of_nat (length (List.filter f l)).
Definition is_count (e : event) : bool := match e with ECount _ _ => true | _ => false end.
Definition is_insert (e : event) : bool := match e with EInsert _ _ => true | _ => false end.
Definition is_turn (e : event) : bool := match e with ETurn => true | _ => false end.
Definition is_request (t : string) (e : event) : bool := match e with ERequest u => bool_decide (u = t) | _ => false end.
Definition is_tool (t : string) (e : event) : bool := match e with EToolCall u => bool_decide (u = t) | _ => false end.
(** The durations recorded for an operation, in the order they were recorded. *)
Definition durations (op : string) (l : list event) : list D :=
  omap (fun e => match e with ETime _ a => if bool_decide (OperationName a = op) then Some (Duration a) else None | _ => None end) l.
Definition minimum (ds : list D) : D := fold_left (fun m x => if lt x m then x else m) ds positive_infinity.
Definition maximum (ds : list D) : D := fold_left (fun m x => if lt m x then x else m) ds negative_infinity.
Definition summary (ds : list D) : option DurationAccumulator :=
  match ds with
  | [] => None
  | _ => Some (Acc (Z.of_nat (length ds)) (fold_left add ds zero) (minimum ds) (maximum ds))
  end.
Definition in_record (p : phase * activity) : bool := match p.1 with Ended => false | _ => true end.
Definition recording (s : engine) : Z := Z.of_nat (length (List.filter in_record (e_threads s))).

Lemma tally_snoc f l e : tally f (l ++ [e]) = tally f l + (if f e then 1 else 0).
Proof. unfold tally. rewrite List.filter_app, length_app. simpl. destruct (f e); simpl; lia. Qed.

Lemma tally_length f l : 0 <= tally f l <= Z.of_nat (length l).
Proof. unfold tally. pose proof (List.filter_length_le f l). lia. Qed.

Lemma durations_snoc op l e : durations op (l ++ [e]) = durations op l ++ durations op [e].
Proof. apply omap_app. Qed.

Lemma summary_some ds : ds <> [] ->
  summary ds = Some (Acc (Z.of_nat (length ds)) (fold_left add ds zero) (minimum ds) (maximum ds)).
Proof. by destruct ds. Qed.

Lemma summary_snoc ds x : Z.of_nat (length ds) < 2 ^ 63 - 1 ->
  summary (ds ++ [x]) = Some (record_duration x (default new_accumulator (summary ds))).
Proof.
  intros Hb. rewrite summary_some by by destruct ds.
  unfold minimum, maximum. rewrite length_app, !fold_left_app. cbn [fold_left length].
  fold (minimum ds) (maximum ds). unfold record_duration.
  assert (Z.of_nat (length ds + 1) = Z.of_nat (length ds) + 1) as -> by lia.
  destruct ds as [|d ds]; [reflexivity|]. cbn [default summary id from_option Count Sum Min Max].
  by rewrite add64_one by lia.
Qed.

Lemma durations_length op l : (length (durations op l) <= length l)%nat.
Proof. unfold durations, omap. induction l as [|e l IH]; simpl; [lia|]. case_match; simpl; lia. Qed.

Lemma recording_update l k (p q : phase * activity) : l !! k = Some p ->
  Z.of_nat (length (List.filter in_record (<[k := q]> l))) =
  Z.of_nat (length (List.filter in_record l)) - (if in_record p then 1 else 0) + (if in_record q then 1 else 0).
Proof.
  revert k. induction l as [|x l IH]; intros [|k] Hk; simplify_eq/=.
  - destruct (in_record p), (in_record q); simpl; lia.
  - specialize (IH _ Hk). destruct (in_record x); simpl; lia.
Qed.

Lemma recording_delete l k (p : phase * activity) : l !! k = Some p ->
  Z.of_nat (length (List.filter in_record (delete k l))) = Z.of_nat (length (List.filter in_record l)) - (if in_record p then 1 else 0).
Proof.
  revert k. induction l as [|x l IH]; intros [|k] Hk; simplify_eq/=.
  - destruct (in_record p); simpl; lia.
  - specialize (IH _ Hk). destruct (in_record x); simpl; lia.
Qed.

(** A tool has an entry once it was called. *)
Definition positive (n : Z) : option Z := if n =? 0 then None else Some n.
Lemma positive_default n : default 0 (positive n) = n.
Proof. unfold positive. destruct (Z.eqb_spec n 0); [by subst | done]. Qed.
Lemma positive_succ n : 0 <= n -> positive (n + 1) = Some (n + 1).
Proof. intros Hn. unfold positive. by rewrite (proj2 (Z.eqb_neq _ _)) by lia. Qed.

(** The state of the aggregator and of the ring's counters after the events [l]. *)
Record adds_up (l : list event) (s : engine) : Prop := {
  au_recorded : spansRecorded (e_metrics s) = tally is_count l;
  au_ring : r_recordedTotal (e_ring s) = tally is_insert l;
  au_dropped : spansDropped (e_metrics s) = r_droppedTotal (e_ring s);
  au_ffi : requestsFfi (e_metrics s) = tally (is_request "ffi") l;
  au_http : requestsHttp (e_metrics s) = tally (is_request "http") l;
  au_sqlite : requestsSqlite (e_metrics s) = tally (is_request "sqlite") l;
  au_pb : requestsPb (e_metrics s) = tally (is_request "pb") l;
  au_turns : agentTurns (e_metrics s) = tally is_turn l;
  au_tools t : AgentToolCalls (e_metrics s) !! t = positive (tally (is_tool t) l);
  au_durations op : OperationDurations (e_metrics s) !! op = summary (durations op l);
  au_threads : tally is_count l = tally is_insert l + recording s }.

Lemma boot_adds_up : adds_up [] boot.
Proof. by split; intros; simpl; rewrite ?lookup_empty. Qed.

#[local] Opaque span_capacity.

Lemma step_adds_up l e s s' : adds_up l s -> Z.of_nat (length l) < 2 ^ 63 - 1 -> estep e s s' -> adds_up (l ++ [e]) s'.
Proof.
  intros Hau Hb Hstep.
  assert (forall f, 0 <= tally f l < 2 ^ 63 - 1) as Hbound by (intros f; pose proof (tally_length f l); lia).
  destruct Hstep as [a s|k a s Hk|k a s Hk|k a s Hk|t s|s|t s|s]; destruct Hau as [Hr Hg Hd Hf Hh Hs Hp Ha Ht Ho Hth];
    destruct s as [rg [mr md mf mh ms mp ma mt mo] th]; unfold at_phase, recording, set_threads, set_metrics in *; simpl in *;
    unfold insert_span, Append in *; simpl in *;
    try match goal with |- context [bool_decide (r_count rg = span_capacity)] => destruct (bool_decide (r_count rg = span_capacity)) end;
    unfold AddRequest, OnDoubleMeasurement; cbn; repeat case_bool_decide; simplify_eq;
    (split; cbn; intros; rewrite ?tally_snoc, ?durations_snoc; cbn; rewrite ?Z.add_0_r, ?app_nil_r; repeat case_bool_decide; simplify_eq;
     try done; rewrite ?add64_one by apply Hbound; try done).
  all: rewrite ?Z.add_0_r; try done.
  all: try (unfold recording; cbn; rewrite ?List.filter_app, ?length_app, ?(recording_update _ _ _ _ Hk), ?(recording_delete _ _ _ Hk); cbn; lia).
  all: try (unfold incr; rewrite Hg; by apply add64_one).
  all: rewrite ?lookup_insert_eq, ?lookup_insert_ne by done; try done.
  - rewrite Ho, summary_snoc; [done|]. pose proof (durations_length (OperationName a) l). lia.
  - by rewrite app_nil_r.
  - cbn. rewrite Ht, positive_default, add64_one by done. pose proof (Hbound (is_tool t0)). by rewrite positive_succ by lia.
Qed.

Lemma execution_adds_up l s : execution l s -> Z.of_nat (length l) < 2 ^ 63 -> adds_up l s.
Proof.
  induction 1 as [|l e s s' Hx IH Hs]; intros Hb; [apply boot_adds_up|]. rewrite length_app in Hb. simpl in Hb.
  eapply step_adds_up; [apply IH; lia | lia | done].
Qed.

(** The running extreme of a list for a transitive and irreflexive [<]: nothing recorded lies beyond it, and it
    is the value it started with or was recorded. *)
Lemma extreme_spec (before : D -> D -> bool) (start : D) ds :
  (forall x, before x x = false) -> (forall x y z, before x y = true -> before y z = true -> before x z = true) ->
  let m := fold_left (fun m x => if before x m then x else m) ds start in
  (forall d, d ∈ ds -> before d m = false) /\ (m = start \/ m ∈ ds).
Proof.
  intros Hir Htr. induction ds as [|x ds [Hlow Hin]] using rev_ind; [split; [by intros d Hd%elem_of_nil | by left]|].
  simpl. rewrite fold_left_app. simpl. set (m := fold_left _ ds start) in *. destruct (before x m) eqn:E.
  - split; [|right; apply elem_of_app; right; by apply list_elem_of_singleton]. intros d [Hd|Hd%list_elem_of_singleton]%elem_of_app; [|by subst].
    destruct (before d x) eqn:E2; [|done]. by rewrite <- (Hlow d Hd), (Htr _ _ _ E2 E).
  - split; [intros d [Hd|Hd%list_elem_of_singleton]%elem_of_app; [by apply Hlow | by subst]|].
    destruct Hin; [by left | right; apply elem_of_app; by left].
Qed.

(** C32: The numbers agree.  After every sequence of events of any number of threads (fewer than 2^63 events):
    the snapshot's requests, turns and tool calls are the number of calls that recorded them, per transport
    and per tool, and the tools listed are those called; its spans dropped are the ring's; its spans recorded are
    the ring's and the spans whose threads are still on their way into the ring, so that the two are equal
    whenever no thread is; and an operation is listed, once, exactly when a duration was recorded for it, with
    their number and, rounded, their sum in the order recorded and extremes that no recorded duration lies
    beyond.  Draining the ring changes none. *)
Theorem telemetry_adds_up (now : D) (l : list event) (s : engine) :
  execution l s -> Z.of_nat (length l) < 2 ^ 63 ->
  let p := Snapshot now (e_metrics s) in
  NowUs p = round1 now /\
  Requests p = (fun t => tally (is_request t) l) <$> ["ffi"; "http"; "sqlite"; "pb"] /\ AgentTurns p = tally is_turn l /\
  SpansDropped p = r_droppedTotal (e_ring s) /\ SpansRecorded p = r_recordedTotal (e_ring s) + recording s /\
  (NoDup (ToolCalls p).*1 /\ forall t n, (t, n) ∈ ToolCalls p <-> n = tally (is_tool t) l /\ 0 < n) /\
  (NoDup (Op <$> Durations p) /\
   forall d, d ∈ Durations p <-> exists acc, summary (durations (Op d) l) = Some acc /\
     d = OpDuration (Op d) (Count acc) (round1 (Sum acc)) (round1 (Min acc)) (round1 (Max acc))) /\
  ((forall x, lt x x = false) -> (forall x y z, lt x y = true -> lt y z = true -> lt x z = true) ->
   forall op acc, summary (durations op l) = Some acc -> Count acc = Z.of_nat (length (durations op l)) /\
     forall d, d ∈ durations op l -> lt d (Min acc) = false /\ lt (Max acc) d = false).
Proof.
  intros Hx Hb p. destruct (execution_adds_up l s Hx Hb) as [Hr Hg Hd Hf Hh Hs Hp Ha Ht Ho Hth]. subst p. cbn.
  split_and!; [done | by rewrite Hf, Hh, Hs, Hp | done | done | by rewrite Hr, Hg | apply NoDup_fst_map_to_list | | | |].
  - intros t n. rewrite elem_of_map_to_list, Ht. unfold positive. pose proof (tally_length (is_tool t) l).
    destruct (Z.eqb_spec (tally (is_tool t) l) 0); split; intros Hn; simplify_eq; lia || done || (f_equal; lia).
  - rewrite <- list_fmap_compose. erewrite list_fmap_ext; [apply NoDup_fst_map_to_list|]. by intros _ [op acc] _.
  - intros d. rewrite list_elem_of_fmap. split.
    + intros ([op acc] & -> & Hin%elem_of_map_to_list). exists acc. by rewrite <- Ho.
    + intros (acc & Hacc & ->). exists (Op d, acc). split; [done|]. by rewrite elem_of_map_to_list, Ho.
  - intros Hir Htr op acc Hacc. destruct (durations op l) as [|d ds] eqn:E; [done|]. injection Hacc as <-. cbn [Count Min Max].
    split; [done|]. intros x Hin. split; [by apply (extreme_spec lt)|].
    by apply (extreme_spec (fun a b => lt b a) negative_infinity (d :: ds) Hir (fun a b c H1 H2 => Htr _ _ _ H2 H1)).
Qed.
End Telemetry.

(** ** A run *)

(** Durations in tenths of a microsecond.  A request, two spans of one operation that end at the same time; the
    second has not reached the ring. *)
Definition span1 : activity (D := Z) (Span := nat) := Activity "pb.execute" 125 1%nat.
Definition span2 : activity (D := Z) (Span := nat) := Activity "pb.execute" 40 2%nat.
Definition busy : list (event (D := Z) (Span := nat)) :=
  [ERequest "pb"; EStopped span1; EStopped span2; ECount 0 span1; ECount 1 span2; ETime 1 span2; ETime 0 span1; EInsert 0 span1; EDrain].

Lemma busy_runs : exists s, execution 0 (10 ^ 9) (- 10 ^ 9) Z.add Z.ltb busy s /\
  recording s = 1 /\ r_count (e_ring s) = 0%nat.
Proof.
  pose proof (x_boot (Span := nat) 0 (10 ^ 9) (- 10 ^ 9) Z.add Z.ltb) as H.
  eapply x_step in H; [|apply (s_request _ _ _ _ _ "pb")].
  eapply x_step in H; [|apply (s_stopped _ _ _ _ _ span1)].
  eapply x_step in H; [|apply (s_stopped _ _ _ _ _ span2)].
  eapply x_step in H; [|apply (s_count _ _ _ _ _ 0 span1); reflexivity].
  eapply x_step in H; [|apply (s_count _ _ _ _ _ 1 span2); reflexivity].
  eapply x_step in H; [|apply (s_time _ _ _ _ _ 1 span2); reflexivity].
  eapply x_step in H; [|apply (s_time _ _ _ _ _ 0 span1); reflexivity].
  eapply x_step in H; [|apply (s_insert _ _ _ _ _ 0 span1); reflexivity].
  eapply x_step in H; [|apply (s_drain _ _ _ _ _)].
  eexists. split; [exact H|]. split_and!; reflexivity.
Qed.

Lemma telemetry_adds_up_witness : exists s,
  let p := Snapshot id 7 (e_metrics s) in
  execution 0 (10 ^ 9) (- 10 ^ 9) Z.add Z.ltb busy s /\ Requests p = [0; 0; 0; 1] /\
  SpansRecorded p = r_recordedTotal (e_ring s) + 1 /\ OpDuration "pb.execute" 2 165 40 125 ∈ Durations p.
Proof.
  destruct busy_runs as (s & Hx & Hth & _). exists s. cbv zeta. split; [done|].
  destruct (telemetry_adds_up 0 (10 ^ 9) (- 10 ^ 9) Z.add Z.ltb id 7 busy s Hx eq_refl) as (_ & Hq & _ & _ & Hs & _ & [_ Hd] & _).
  split; [exact Hq|]. rewrite <- Hth. split; [exact Hs|]. apply Hd. eexists. split; reflexivity.
Defined.
