(* ===== verification/Exports.v ===== *)
(** * Exports: the string exports of the managed library, and the contract the JNI bridge relies on

    [NativeText] and the exports that answer a string: [Exports.Features.cs], [Exports.Ai.cs],
    [Exports.Boundary.cs] (echo and throw), [Exports.Telemetry.cs], [Exports.Trace.cs], [Exports.Log.cs],
    [Exports.GateProbe.cs], and the entry points of [FeatureSqlite] and [RagSqlite].  The state is the native
    heap of the strings handed out, the span and log rings, and the rest of the engine; what the engine
    computes for a call is a parameter here (its parts are modelled in their own files), and so is whether the
    allocator succeeds.  The contract that [JniModel] assumes of these calls is proved of them. *)

From S2P Require Import Prelude Json Utf8 Effects Abi JniModel Ring.
Local Open Scope Z_scope.
#[local] Set Warnings "-clear-no-such-hyp".

(** ** NativeText *)

Definition string_of (bs : list Z) : string := String.string_of_list_ascii (map (fun b => Ascii.ascii_of_N (Z.to_N b)) bs).

Fixpoint until_nul (bs : list Z) : list Z := match bs with [] => [] | b :: r => if b =? 0 then [] else b :: until_nul r end.

(** [Read]: [Marshal.PtrToStringUTF8], the empty string for NULL. *)
Definition Read (p : cstr) : text := match p with CNull => [] | CLit s | CBuf _ s => GetString (until_nul (lit s)) end.

(** The blocks handed out and not freed, by address. *)
Abbreviation blocks := (gmap Z (list Z)).
(** [Allocate]: [mem] is the address the allocator gives, or [None] when it throws. *)
Definition Allocate (mem : option Z) (value : text) (h : blocks) : option (Z * blocks) :=
  a ← mem; Some (a, <[a := GetBytes value ++ [0]]> h).
Definition NativeText_Free (handle : Z) (h : blocks) : blocks := if handle =? 0 then h else delete handle h.

(** What a C caller sees behind a returned pointer. *)
Definition as_cstr (h : blocks) (p : Z) : cstr :=
  if p =? 0 then CNull else match h !! p with Some bs => CBuf p (string_of (until_nul bs)) | None => CNull end.

(** ** The exports *)

(** An export answers a pointer, or an exception leaves it, which ends the process. *)
Inductive outcome := Returns (p : Z) | Crashes.

Record ProbeResult := Probe { pr_Ok : bool; pr_Cipher : option text; pr_Roundtrip : option text; pr_Error : option text; pr_Tokens : option Z; pr_Sample : option text }.
Definition probe_error (message : text) : ProbeResult := Probe false None None (Some message) None None.

(** The rings, and the rest of what the engine keeps. *)
Record engine {Span Log R : Type} := Engine { e_spans : @ring Span; e_logs : @ring Log; e_rest : R }.
Arguments engine : clear implicits.
Arguments Engine {_ _ _} _ _ _.
Record process {Span Log R : Type} := Process { n_blocks : blocks; n_engine : engine Span Log R }.
Arguments process : clear implicits.
Arguments Process {_ _ _} _ _.

(** What the exports call: [None] is an exception; the probes answer a result or throw with a message.  The
    calls may record spans and log entries on their way. *)
Class EngineCalls (Span Log R : Type) := {
  features_json : option text;
  catalog_run : text -> engine Span Log R -> option text * engine Span Log R;
  RecordRequest : text -> engine Span Log R -> engine Span Log R;
  stopped_span : text -> text -> engine Span Log R -> Span;
  SearchJson : text -> text -> Z -> engine Span Log R -> option text * engine Span Log R;
  SnapshotJson : engine Span Log R -> option text * engine Span Log R;
  spans_json : list (option Span) * Z -> option text;
  logs_json : list (option Log) * Z -> option text;
  sqlite_features : engine Span Log R -> option text * engine Span Log R;
  sqlite_run : text -> engine Span Log R -> option text * engine Span Log R;
  sqlite_rag : text -> engine Span Log R -> option text * engine Span Log R;
  Initialize : engine Span Log R -> bool * engine Span Log R;
  echo_json : list Z -> cstr -> option text;
  contained_json : bool -> option text;
  run_sqlite_probe : text -> engine Span Log R -> (ProbeResult + text) * engine Span Log R;
  run_llama_probe : text -> engine Span Log R -> (ProbeResult + text) * engine Span Log R;
  probe_json : ProbeResult -> option text }.

(** The calls of the bridge that answer a string. *)
Inductive string_call := String0 (f : export0) | String1 (f : export1) (p : cstr) | Search_call (q c : cstr) | Echo_call (p : cstr) (len : Z).
Definition as_cmd (c : string_call) : cmd cstr :=
  match c with
  | String0 f => Dni_string0 f | String1 f p => Dni_string1 f p
  | Search_call q c => Dni_search q c | Echo_call p len => Dni_ffi_echo p len
  end.
Definition is_probe (c : string_call) : bool := match c with String1 (dni_sqlite_probe | dni_llama_probe) _ => true | _ => false end.

Section Exports.
Context {Span Log R : Type} `{EngineCalls Span Log R}.
Abbreviation engine := (engine Span Log R).
Abbreviation process := (process Span Log R).
Abbreviation body := (engine -> option text * engine).

(** [try { ... return NativeText.Allocate(json); } catch (Exception) { return 0; }] around what computes the
    text. *)
Definition guarded (mem : option Z) (run : body) (s : process) : outcome * process :=
  let '(r, e) := run (n_engine s) in
  match json ← r; Allocate mem json (n_blocks s) with
  | Some (a, h) => (Returns a, Process h e)
  | None => (Returns 0, Process (n_blocks s) e)
  end.
(** [return NativeText.Allocate(JsonSerializer.Serialize(...))] behind the [try]: an exception leaves the export. *)
Definition unguarded (mem : option Z) (run : body) (s : process) : outcome * process :=
  let '(r, e) := run (n_engine s) in
  match json ← r; Allocate mem json (n_blocks s) with
  | Some (a, h) => (Returns a, Process h e)
  | None => (Crashes, Process (n_blocks s) e)
  end.

(** [using var span]: the span is recorded when the block is left, an exception included. *)
Definition FeatureRun (id : text) : body := fun e =>
  let '(json, e) := catalog_run id (RecordRequest (lit "ffi") e) in
  (json, Engine (Append span_capacity (stopped_span (lit "ffi.feature_run") id e) (e_spans e)) (e_logs e) (e_rest e)).

Definition TraceDrain : body := fun e =>
  let '(d, r) := Drain span_capacity (e_spans e) in (spans_json d, Engine r (e_logs e) (e_rest e)).
Definition LogDrain : body := fun e =>
  let '(d, r) := Drain log_capacity (e_logs e) in (logs_json d, Engine (e_spans e) r (e_rest e)).

(** [Echo]: the pointer is part of the answer; NULL or a negative length answers 0, as an exception does. *)
Definition Echo (p : cstr) (len : Z) : body := fun e =>
  let '(initialized, e) := Initialize e in
  if negb initialized then (None, e)
  else match p with
       | CNull => (None, e)
       | CLit s | CBuf _ s => if len <? 0 then (None, e) else (echo_json (take (Z.to_nat len) (lit s)) p, e)
       end.
(** [Throw]: the exception that is described is the one thrown on purpose, or that of [Initialize]. *)
Definition Throw : body := fun e =>
  let '(initialized, e) := Initialize e in (contained_json initialized, e).

(** [SqliteProbe], [LlamaProbe]: an exception of the run is a result; both runs refuse the empty path first. *)
Definition probe (run : text -> engine -> (ProbeResult + text) * engine) (path : text) : body := fun e =>
  let '(r, e) := if bool_decide (path = []) then (inl (probe_error (lit "empty path")), e) else run path e in
  (probe_json (match r with inl result => result | inr message => probe_error message end), e).

(** What each entry point computes, and how it answers. *)
Definition computes (c : string_call) : body :=
  match c with
  | String0 dni_features_json => fun e => (features_json, e)
  | String0 dni_sqlite_features => sqlite_features
  | String0 dni_engine_stats => SnapshotJson
  | String0 dni_trace_drain => TraceDrain
  | String0 dni_log_drain => LogDrain
  | String0 dni_ffi_throw => Throw
  | String1 dni_feature_run p => FeatureRun (Read p)
  | String1 dni_sqlite_run p => sqlite_run (Read p)
  | String1 dni_sqlite_rag p => sqlite_rag (Read p)
  | String1 dni_sqlite_probe p => probe run_sqlite_probe (Read p)
  | String1 dni_llama_probe p => probe run_llama_probe (Read p)
  | Search_call q c => SearchJson (Read q) (Read c) 5
  | Echo_call p len => Echo p len
  end.
Definition perform (c : string_call) (mem : option Z) : process -> outcome * process :=
  (if is_probe c then unguarded else guarded) mem (computes c).

(** [dni_string_free]. *)
Definition StringFree (value : Z) (s : process) : process := Process (NativeText_Free value (n_blocks s)) (n_engine s).
End Exports.

(** ** Lemmas: bytes *)

Lemma lit_string_of bs : Forall (in_u 8) bs -> lit (string_of bs) = bs.
Proof.
  intros Hb. unfold lit, string_of. rewrite String.list_ascii_of_string_of_list_ascii, map_map.
  induction Hb as [|b bs Hb _ IH]; [done|]. cbn [map]. f_equal; [|exact IH].
  unfold in_u in Hb. rewrite Ascii.N_ascii_embedding by lia. lia.
Qed.

Lemma until_nul_id bs r : ~ 0 ∈ bs -> until_nul (bs ++ 0 :: r) = bs.
Proof.
  induction bs as [|b bs IH]; [done|]. rewrite not_elem_of_cons. intros [Hb Hbs]. simpl.
  rewrite (proj2 (Z.eqb_neq _ _)) by congruence. f_equal. by apply IH.
Qed.
Lemma until_nul_clean bs : ~ 0 ∈ until_nul bs.
Proof.
  induction bs as [|b bs IH]; simpl; [apply not_elem_of_nil|]. destruct (Z.eqb_spec b 0); [apply not_elem_of_nil|].
  rewrite not_elem_of_cons. split; [congruence | done].
Qed.
Lemma until_nul_all bs : ~ 0 ∈ bs -> until_nul bs = bs.
Proof.
  induction bs as [|b bs IH]; [done|]. rewrite not_elem_of_cons. intros [Hb Hbs]. simpl.
  rewrite (proj2 (Z.eqb_neq _ _)) by congruence. f_equal. by apply IH.
Qed.

Lemma encode_scalar_bytes c : scalar c -> c <> 0 -> Forall (fun b => in_u 8 b /\ b <> 0) (encode_scalar c).
Proof.
  unfold scalar, encode_scalar, in_u. intros Hc H0.
  pose proof (Z.mod_pos_bound c 64 ltac:(lia)). pose proof (Z.mod_pos_bound (c / 64) 64 ltac:(lia)). pose proof (Z.mod_pos_bound (c / 4096) 64 ltac:(lia)).
  assert (forall d m, 0 < d -> c < m * d -> 0 <= c / d < m) as Hd
    by (intros d m Hd Hm; split; [apply Z.div_pos; lia | apply Z.div_lt_upper_bound; lia]).
  destruct (Z.ltb_spec c 0x80); [|destruct (Z.ltb_spec c 0x800); [|destruct (Z.ltb_spec c 0x10000)]].
  - rewrite Forall_singleton. lia.
  - specialize (Hd 64 32 ltac:(lia) ltac:(lia)). repeat (apply Forall_cons_2; [lia|]). apply Forall_nil_2.
  - specialize (Hd 4096 16 ltac:(lia) ltac:(lia)). repeat (apply Forall_cons_2; [lia|]). apply Forall_nil_2.
  - specialize (Hd 262144 8 ltac:(lia) ltac:(lia)). repeat (apply Forall_cons_2; [lia|]). apply Forall_nil_2.
Qed.

(** A JSON text has no NUL: its control characters are escaped. *)
Definition printable (json : text) : Prop := well_formed json /\ ~ 0 ∈ json.

Lemma GetBytes_bytes json : printable json -> Forall (fun b => in_u 8 b /\ b <> 0) (GetBytes json).
Proof.
  intros [(cs & Hcs & ->) H0]. unfold GetBytes. rewrite of_to_utf16 by done. unfold encode.
  induction Hcs as [|c cs Hc _ IH]; [apply Forall_nil_2|]. unfold to_utf16 in *. cbn [map concat] in *.
  rewrite not_elem_of_app in H0. destruct H0 as [H0 H1]. apply Forall_app. split; [|by apply IH].
  apply encode_scalar_bytes; [done|]. intros ->. apply H0. left.
Qed.

Lemma as_cstr_allocated a bs h : a <> 0 -> as_cstr (<[a := bs]> h) a = CBuf a (string_of (until_nul bs)).
Proof. intros Ha. unfold as_cstr. by rewrite (proj2 (Z.eqb_neq a 0) Ha), lookup_insert_eq. Qed.
(** What C code reads behind an allocated text is that text. *)
Lemma Read_allocated a json h : printable json -> a <> 0 ->
  Read (as_cstr (<[a := GetBytes json ++ [0]]> h) a) = json.
Proof.
  intros Hj Ha. pose proof (GetBytes_bytes json Hj) as Hb. apply Forall_and in Hb as [Hb H0].
  assert (~ 0 ∈ GetBytes json) as Hz by (intros Hin; rewrite Forall_forall in H0; by apply (H0 0)).
  rewrite as_cstr_allocated by done. cbn [Read].
  rewrite until_nul_id, lit_string_of, until_nul_all by done. apply GetString_GetBytes. apply Hj.
Qed.

(** ** The contract *)

Section Contract.
Context {Span Log R : Type} `{EngineCalls Span Log R}.
Implicit Types s : process Span Log R.

(** The ledger of the bridge counts the strings handed out. *)
Definition represents s (w : ledger) : Prop := dom (n_blocks s) = l_nstrs w /\ ~ 0 ∈ l_nstrs w.
(** The allocator answers an address that is neither null nor in use. *)
Definition allocates (mem : option Z) (w : ledger) : Prop := forall a, mem = Some a -> a <> 0 /\ fresh_buf w a.
Definition pointer (p : cstr) : Z := match p with CBuf a _ => a | _ => 0 end.

(** What a call has done that came back with the pointer [p]: the effects of the computation; a string the
    contract of the bridge allows and its ledger counts; the strings handed out before are untouched and freeing
    the new one restores the heap; NULL exactly when there is no memory or no text; otherwise the text. *)
Definition answers (F : faults) (c : string_call) (mem : option Z) s (w : ledger) (p : Z) s' : Prop :=
  let b := as_cstr (n_blocks s') p in
  let run := computes c (n_engine s) in
  n_engine s' = run.2 /\ jcallee F w (as_cmd c) b /\ represents s' (jupd w (as_cmd c) b) /\
  (forall a, a ∈ l_nstrs w -> n_blocks s' !! a = n_blocks s !! a) /\
  n_blocks (StringFree p s') = n_blocks s /\
  (b = CNull <-> mem = None \/ run.1 = None) /\
  (forall json, run.1 = Some json -> is_Some mem -> printable json -> Read b = json).

Lemma jcallee_string F c w b : jcallee F w (as_cmd c) b = new_string w b.
Proof. by destruct c. Qed.
Lemma jupd_string c w b : jupd w (as_cmd c) b = add_nstr b w.
Proof. by destruct c. Qed.

Lemma answers_null F c mem s w : represents s w -> mem = None \/ (computes c (n_engine s)).1 = None ->
  answers F c mem s w 0 (Process (n_blocks s) (computes c (n_engine s)).2).
Proof.
  intros Hr Hn. unfold answers. rewrite jcallee_string, jupd_string. cbn [n_blocks n_engine as_cstr add_nstr]. change (as_cstr (n_blocks s) 0) with CNull.
  split_and!; try done.
  - by left.
  - intros json Hj [a Ha] _. destruct Hn; congruence.
Qed.

Lemma answers_block F c a json s w : represents s w -> a <> 0 -> fresh_buf w a -> (computes c (n_engine s)).1 = Some json ->
  answers F c (Some a) s w a (Process (<[a := GetBytes json ++ [0]]> (n_blocks s)) (computes c (n_engine s)).2).
Proof.
  intros [Hd H0] Ha Hf Hj. unfold answers. rewrite jcallee_string, jupd_string. cbn [n_blocks n_engine].
  pose proof (as_cstr_allocated a (GetBytes json ++ [0]) (n_blocks s) Ha) as Ht.
  assert (~ a ∈ dom (n_blocks s)) as Hna by (rewrite Hd; apply Hf).
  rewrite Ht. cbn [add_nstr set_bufs l_nstrs]. split_and!; try done.
  - right. by eexists _, _.
  - split; cbn [l_nstrs n_blocks]; [by rewrite dom_insert_L, Hd|]. set_solver.
  - intros b Hb. apply lookup_insert_ne. intros ->. by apply (proj1 (proj2 Hf)).
  - unfold StringFree, NativeText_Free. cbn [n_blocks]. rewrite (proj2 (Z.eqb_neq a 0) Ha). by apply delete_insert_id, not_elem_of_dom.
  - split; [done|]. intros [|]; congruence.
  - intros json' Hj' _ Hp. rewrite <-Ht. replace json' with json by congruence. apply Read_allocated; [congruence|done].
Qed.

(** C4: the exports that answer a string keep the contract the JNI bridge is verified against.  Whatever the
    engine computes and whether or not the allocator succeeds, a call that comes back has answered NULL or a
    fresh string that the caller owns, has left every other string alone, and has handed over the text the engine
    computed unless there was no text or no memory; [dni_string_free] undoes exactly that.  Only a gate probe can
    fail to come back, and only when its answer cannot be serialised or allocated; otherwise it never answers NULL. *)
Theorem exports_honour_contract F c mem s w : represents s w -> allocates mem w ->
  match perform c mem s with
  | (Returns p, s') => answers F c mem s w p s' /\ (is_probe c = true -> as_cstr (n_blocks s') p <> CNull)
  | (Crashes, _) => is_probe c = true /\ (mem = None \/ (computes c (n_engine s)).1 = None)
  end /\
  (forall p, jcaller w (Dni_string_free p) ->
     represents (StringFree (pointer p) s) (jupd w (Dni_string_free p) tt) /\
     forall a, a ∈ l_nstrs w -> a <> pointer p -> n_blocks (StringFree (pointer p) s) !! a = n_blocks s !! a).
Proof.
  intros Hr Hm. split.
  - pose proof (answers_null F c mem s w Hr) as Hnull. pose proof (fun a json => answers_block F c a json s w Hr) as Hblock.
    unfold perform, guarded, unguarded.
    destruct (is_probe c); destruct (computes c (n_engine s)) as [[json|] e]; try destruct mem as [a|]; cbn in *; auto.
    all: destruct (Hm a eq_refl) as [Ha Hf]; split; [by apply Hblock|].
    all: intros _; by rewrite as_cstr_allocated.
  - destruct Hr as [Hd H0]. intros [|t|b t]; [done|done|]. cbn [pointer]. intros Hb. cbn in Hb.
    assert (StringFree b s = Process (delete b (n_blocks s)) (n_engine s)) as ->
      by (unfold StringFree, NativeText_Free; rewrite (proj2 (Z.eqb_neq b 0)); [done | congruence]).
    split; [split; cbn|].
    + by rewrite dom_delete_L, Hd.
    + set_solver.
    + intros a _ Hab. by apply lookup_delete_ne.
Qed.

(** A drain whose text cannot be allocated, or serialised, answers 0 after it has emptied the ring: the records
    are neither delivered nor counted as dropped. *)
Theorem failed_drain_loses_spans s :
  let '(o, s') := perform (String0 dni_trace_drain) None s in
  o = Returns 0 /\ live span_capacity (e_spans (n_engine s')) = [] /\
  r_droppedSinceDrain (e_spans (n_engine s')) = 0 /\
  r_droppedTotal (e_spans (n_engine s')) = r_droppedTotal (e_spans (n_engine s)).
Proof.
  unfold perform, guarded. cbn. destruct (spans_json _); cbn; by rewrite ?live_nil.
Qed.
End Contract.

(** ** A concrete engine *)

#[local] Instance small_engine : EngineCalls Z Z Z := {|
  features_json := Some (lit "[]");
  catalog_run id e := (if bool_decide (id = []) then None else Some (lit "{}"), e);
  RecordRequest _ e := Engine (e_spans e) (e_logs e) (e_rest e + 1);
  stopped_span _ id e := Z.of_nat (length id);
  SearchJson _ _ k e := (Some (lit "[]"), e);
  SnapshotJson e := (None, e);
  spans_json d := Some (lit "{}");
  logs_json d := Some (lit "{}");
  sqlite_features e := (Some (lit "[]"), e);
  sqlite_run _ e := (Some (lit "{}"), e);
  sqlite_rag q e := (Some q, e);
  Initialize e := (true, e);
  echo_json bs _ := Some bs;
  contained_json _ := Some (lit "{}");
  run_sqlite_probe _ e := (inr (lit "no"), e);
  run_llama_probe _ e := (inl (probe_error (lit "no")), e);
  probe_json r := pr_Error r |}.

Definition small_state : process Z Z Z :=
  Process {[5 := [104; 105; 0]]} (Engine (empty_ring span_capacity) (empty_ring log_capacity) 0).
Definition small_ledger : ledger :=
  Ledger 1 true true 0 (Some 7) false ∅ ∅ ∅ ∅ {[5]} ∅ ∅ [] [].

Lemma small_represents : represents small_state small_ledger.
Proof. split; [vm_decide|]. cbn. rewrite elem_of_singleton. lia. Qed.
Lemma small_allocates : allocates (Some 9) small_ledger.
Proof. intros a [= <-]. split; [done|]. split; [done|]. split; cbn; set_solver. Qed.

(** The echo of the string at 5 is answered at 9, and freeing 9 leaves the string at 5; a probe without memory
    does not come back. *)
Lemma exports_honour_contract_witness :
  (exists s', perform (Echo_call (CBuf 5 (string_of [104; 105])) 2) (Some 9) small_state = (Returns 9, s') /\
     answers all_faults (Echo_call (CBuf 5 (string_of [104; 105])) 2) (Some 9) small_state small_ledger 9 s' /\
     n_blocks s' !! 9 = Some [104; 105; 0]) /\
  (perform (String1 dni_llama_probe CNull) None small_state).1 = Crashes.
Proof.
  pose proof (exports_honour_contract all_faults (Echo_call (CBuf 5 (string_of [104; 105])) 2) (Some 9) small_state small_ledger
    small_represents small_allocates) as [Hc _].
  split; [|reflexivity].
  exists (perform (Echo_call (CBuf 5 (string_of [104; 105])) 2) (Some 9) small_state).2.
  split; [vm_compute; reflexivity|]. split; [apply Hc | vm_compute; reflexivity].
Defined.
