(* ===== verification/Frame.v ===== *)
(** * Frame: the length-prefixed frames of the framed-protobuf transport

    [FrameConnection] cuts a byte stream into frames, a little-endian 32-bit length and the payload;
    once a cipher is attached the payload is AES-256-GCM ciphertext and tag, with the nonce taken from a
    frame counter per direction ([AeadFrameCipher]).  The socket is the list of answers its reads will
    give: arbitrary pieces, an empty one being the end of the stream.  AES-GCM belongs to the runtime
    library: a pair of functions with the laws of an authenticated cipher.  Cancellation and socket
    errors, which surface as exceptions of the awaited call, are not modelled. *)

From S2P Require Import Prelude.
Local Open Scope Z_scope.
#[local] Set Warnings "-clear-no-such-hyp".

Definition bytes := list Z.

Definition MaxFrameBytes : Z := 16 * 1024 * 1024.
Definition NonceBytes : nat := 12.
Definition TagBytes : nat := 16.

(** ** Little-endian integers *)

(** [n] bytes of [z], the least significant first (BinaryPrimitives.Write...LittleEndian). *)
Fixpoint le_encode (n : nat) (z : Z) : bytes :=
  match n with O => [] | S n => Z.land z 255 :: le_encode n (Z.shiftr z 8) end.
Fixpoint le_decode (b : bytes) : Z :=
  match b with [] => 0 | x :: b => x + 256 * le_decode b end.

Lemma length_le_encode n z : length (le_encode n z) = n.
Proof. revert z. induction n as [|n IH]; intros z; simpl; [done | by rewrite IH]. Qed.

Lemma le_decode_encode n : forall z, le_decode (le_encode n z) = z mod 2 ^ (8 * Z.of_nat n).
Proof.
  induction n as [|n IH]; intros z; cbn [le_encode le_decode].
  - by rewrite Z.mod_1_r.
  - rewrite IH. change 255 with (Z.ones 8). rewrite Z.land_ones, Z.shiftr_div_pow2 by lia.
    change (2 ^ 8) with 256. replace (8 * Z.of_nat (S n)) with (8 + 8 * Z.of_nat n) by lia.
    rewrite Z.pow_add_r by lia. change (2 ^ 8) with 256. rewrite Z.rem_mul_r by lia. lia.
Qed.

Lemma le_encode_bytes n : forall z, Forall (in_u 8) (le_encode n z).
Proof.
  induction n as [|n IH]; intros z; cbn [le_encode]; constructor; [|apply IH].
  change 255 with (Z.ones 8). rewrite Z.land_ones by lia. unfold in_u. apply Z.mod_pos_bound. lia.
Qed.

(** ** Reading from the socket *)

Definition stream := list bytes.

(** [Stream.ReadAsync] into [want] free bytes: part of what has arrived, or nothing at the end. *)
Definition ReadAsync (want : nat) (s : stream) : bytes * stream :=
  match s with
  | [] | [] :: _ => ([], s)
  | c :: cs => if bool_decide (length c <= want)%nat then (c, cs) else (take want c, drop want c :: cs)
  end.

(** Everything that can be read before the end of the stream. *)
Fixpoint available (s : stream) : bytes :=
  match s with [] | [] :: _ => [] | c :: cs => c ++ available cs end.

(** The loop of [ReadExactAsync]: [need] bytes are still missing; None if the fuel runs out. *)
Fixpoint read_exact_loop (fuel need : nat) (buffer : bytes) (s : stream) : option (option bytes * stream) :=
  match fuel with
  | O => None
  | S fuel =>
      if bool_decide (need = 0)%nat then Some (Some buffer, s)
      else let (got, s') := ReadAsync need s in
           if bool_decide (length got = 0)%nat then Some (None, s')
           else read_exact_loop fuel (need - length got) (buffer ++ got) s'
  end.
Definition ReadExactAsync (n : nat) (s : stream) : option (option bytes * stream) :=
  read_exact_loop (S n) n [] s.

Lemma ReadAsync_spec want s : (0 < want)%nat ->
  let (got, s') := ReadAsync want s in
  (length got <= want)%nat /\ available s = got ++ available s' /\ (got = [] -> available s = []).
Proof.
  intros Hw. destruct s as [|[|x c] cs]; [simpl; by repeat split; lia.. |]. unfold ReadAsync.
  case_bool_decide.
  - by repeat split.
  - destruct want as [|want]; [lia|]. split; [rewrite length_take; lia|]. split; [|done].
    cbn [take drop available] in *. destruct (drop want c) as [|y d] eqn:E.
    + exfalso. apply (f_equal length) in E. rewrite length_drop in E. simpl in *. lia.
    + cbn [available]. rewrite <- E. simpl. by rewrite app_assoc, take_drop.
Qed.

(** The loop ends within its fuel, and its answer depends only on the bytes available. *)
Lemma read_exact_loop_spec fuel : forall need buffer s, (need < fuel)%nat ->
  exists s', read_exact_loop fuel need buffer s =
    Some (if bool_decide (need <= length (available s))%nat then Some (buffer ++ take need (available s)) else None, s') /\
    ((need <= length (available s))%nat -> available s' = drop need (available s)).
Proof.
  induction fuel as [|fuel IH]; intros need buffer s Hf; [lia|]. cbn [read_exact_loop].
  case_bool_decide as Hz.
  - subst need. exists s. rewrite bool_decide_true by lia. by rewrite take_0, app_nil_r.
  - pose proof (ReadAsync_spec need s) as HR. destruct (ReadAsync need s) as [got s1].
    destruct HR as (Hl & Ha & He); [lia|]. case_bool_decide as Hg.
    + apply nil_length_inv in Hg. rewrite (He Hg). simpl. exists s1.
      rewrite bool_decide_false by lia. split; [done|]. lia.
    + destruct (IH (need - length got)%nat (buffer ++ got) s1) as (s' & E & Hd); [lia|].
      exists s'. rewrite E, Ha, length_app. split.
      * do 2 f_equal. repeat case_bool_decide; try lia; [|done].
        by rewrite take_app, (take_ge got) , app_assoc by lia.
      * intros. rewrite Hd by lia. by rewrite drop_app, (drop_ge got) by lia.
Qed.

Lemma ReadExactAsync_spec n s :
  exists s', ReadExactAsync n s =
    Some (if bool_decide (n <= length (available s))%nat then Some (take n (available s)) else None, s') /\
    ((n <= length (available s))%nat -> available s' = drop n (available s)).
Proof. unfold ReadExactAsync. apply (read_exact_loop_spec (S n) n [] s). lia. Qed.

(** ** The cipher *)

Section Channel.
  (** [AesGcm.Encrypt] (ciphertext and tag) and [AesGcm.Decrypt] (None: AuthenticationTagMismatchException). *)
  Context {key : Type} (Encrypt : key -> bytes -> bytes -> bytes * bytes)
    (Decrypt : key -> bytes -> bytes -> bytes -> option bytes).

(** GCM: the ciphertext has the length of the plaintext and the tag the size asked for; decryption accepts
    exactly the pair encryption makes under the same key and nonce. *)
Record aead : Prop := {
  aead_length : forall k n p, length (Encrypt k n p).1 = length p;
  aead_tag : forall k n p, length (Encrypt k n p).2 = TagBytes;
  aead_open : forall k n c t p, Decrypt k n c t = Some p <-> Encrypt k n p = (c, t) }.

Record cipher := Cipher { c_send : key; c_recv : key; c_sendCounter : Z; c_recvCounter : Z }.
Definition new_cipher (sendKey recvKey : key) : cipher := Cipher sendKey recvKey 0 0.

(** [x++] on a C# [long]. *)
Definition long_succ (z : Z) : Z := wrap_s 64 (z + 1).

(** Twelve zero bytes, the counter written over the first eight. *)
Definition NonceFor (counter : Z) : bytes :=
  le_encode 8 counter ++ drop 8 (replicate NonceBytes 0).

Definition EncryptOutbound (c : cipher) (plaintext : bytes) : bytes * cipher :=
  let nonce := NonceFor (c_sendCounter c) in
  let c' := Cipher (c_send c) (c_recv c) (long_succ (c_sendCounter c)) (c_recvCounter c) in
  ((Encrypt (c_send c) nonce plaintext).1 ++ (Encrypt (c_send c) nonce plaintext).2, c').

(** None: AuthenticationTagMismatchException. *)
Definition DecryptInbound (c : cipher) (frame : bytes) : option bytes * cipher :=
  if bool_decide (length frame < TagBytes)%nat then (None, c)
  else
    let nonce := NonceFor (c_recvCounter c) in
    let c' := Cipher (c_send c) (c_recv c) (c_sendCounter c) (long_succ (c_recvCounter c)) in
    let cipherLen := (length frame - TagBytes)%nat in
    (Decrypt (c_recv c) nonce (take cipherLen frame) (take TagBytes (drop cipherLen frame)), c').

(** ** Frames *)

Inductive frame_error := InvalidData (length : Z) | TagMismatch.
Inductive read_result := Payload (p : bytes) | Eof | Throws (e : frame_error).

(** The state of a connection is its cipher, if one is attached. *)
Definition connection := option cipher.
Definition Encrypted (c : connection) : bool := bool_decide (is_Some c).
Definition UseCipher (k : cipher) (c : connection) : connection := Some k.

(** The last line of [ReadFrameAsync]: the payload, through the cipher if there is one. *)
Definition open_payload (c : connection) (payload : bytes) : read_result * connection :=
  match c with
  | None => (Payload payload, c)
  | Some k =>
      let (r, k') := DecryptInbound k payload in
      (match r with Some p => Payload p | None => Throws TagMismatch end, Some k')
  end.

(** None: the loop of [ReadExactAsync] did not end. *)
Definition ReadFrameAsync (c : connection) (s : stream) : option (read_result * connection * stream) :=
  match ReadExactAsync 4 s with
  | None => None
  | Some (None, s1) => Some (Eof, c, s1)
  | Some (Some lengthPrefix, s1) =>
      let length := le_decode lengthPrefix in
      if bool_decide (length = 0) || bool_decide (MaxFrameBytes < length)
      then Some (Throws (InvalidData length), c, s1)
      else
        match ReadExactAsync (Z.to_nat length) s1 with
        | None => None
        | Some (None, s2) => Some (Eof, c, s2)
        | Some (Some payload, s2) => Some (open_payload c payload, s2)
        end
  end.

(** The bytes written for one frame, and the connection afterwards. *)
Definition WriteFrameAsync (c : connection) (plaintext : bytes) : bytes * connection :=
  let (payload, c') :=
    match c with
    | None => (plaintext, c)
    | Some k => let (f, k') := EncryptOutbound k plaintext in (f, Some k')
    end in
  (le_encode 4 (wrap_u 32 (Z.of_nat (length payload))) ++ payload, c').

(** ** What a stream of bytes means, whatever the pieces it arrives in *)

Inductive parsed := PEof | PBad (length : Z) (rest : bytes) | PFrame (payload rest : bytes).
Definition parse_frame (b : bytes) : parsed :=
  if bool_decide (length b < 4)%nat then PEof
  else
    let n := le_decode (take 4 b) in
    if bool_decide (1 <= n <= MaxFrameBytes)
    then if bool_decide (4 + Z.to_nat n <= length b)%nat
         then PFrame (take (Z.to_nat n) (drop 4 b)) (drop (4 + Z.to_nat n) b) else PEof
    else PBad n (drop 4 b).

(** What reading one frame answers. *)
Definition answer (c : connection) (p : parsed) : read_result * connection :=
  match p with
  | PEof => (Eof, c)
  | PBad n _ => (Throws (InvalidData n), c)
  | PFrame payload _ => open_payload c payload
  end.
Definition remains (p : parsed) (b : bytes) : Prop :=
  match p with PEof => True | PBad _ rest | PFrame _ rest => b = rest end.

Lemma le_decode_nonneg b : Forall (in_u 8) b -> 0 <= le_decode b.
Proof. unfold in_u. induction 1; simpl; lia. Qed.

Lemma read_frame c s : 0 <= le_decode (take 4 (available s)) ->
  exists s', ReadFrameAsync c s = Some (answer c (parse_frame (available s)), s') /\
             remains (parse_frame (available s)) (available s').
Proof.
  intros Hn. unfold ReadFrameAsync, parse_frame.
  destruct (ReadExactAsync_spec 4 s) as (s1 & E1 & H1). rewrite E1. clear E1.
  destruct (decide (4 <= length (available s))%nat) as [H4|H4]; last first.
  { rewrite bool_decide_false, bool_decide_true by lia. by exists s1. }
  rewrite bool_decide_true, (bool_decide_false (length (available s) < 4)%nat) by lia. specialize (H1 H4).
  set (n := le_decode (take 4 (available s))) in *. cbv zeta.
  destruct (decide (1 <= n <= MaxFrameBytes)) as [Hr|Hr]; last first.
  { rewrite (bool_decide_false (1 <= n <= MaxFrameBytes)) by done.
    replace (_ || _) with true; [by exists s1|]. symmetry. apply orb_true_iff.
    rewrite !bool_decide_eq_true. lia. }
  rewrite (bool_decide_true (1 <= n <= MaxFrameBytes)), !bool_decide_false by lia. simpl orb. cbv iota.
  destruct (ReadExactAsync_spec (Z.to_nat n) s1) as (s2 & E2 & H2). rewrite E2. clear E2.
  rewrite H1, length_drop in *.
  destruct (decide (4 + Z.to_nat n <= length (available s))%nat) as [Hl|Hl].
  - rewrite !bool_decide_true by lia. exists s2. split; [done|]. simpl. rewrite H2 by lia. by rewrite drop_drop.
  - rewrite !bool_decide_false by lia. by exists s2.
Qed.

(** ** Two ends of a connection *)

(** The reader's end decrypts with the key and counter the writer's end encrypts with. *)
Definition in_sync (w r : connection) : Prop :=
  match w, r with
  | None, None => True
  | Some w, Some r => c_send w = c_recv r /\ c_sendCounter w = c_recvCounter r
  | _, _ => False
  end.

(** Payload size of a message on a connection. *)
Definition wire_size (c : connection) (m : bytes) : Z :=
  Z.of_nat (length m) + (if Encrypted c then Z.of_nat TagBytes else 0).
Definition fits (c : connection) (m : bytes) : Prop := 1 <= wire_size c m <= MaxFrameBytes.

Fixpoint write_all (c : connection) (ms : list bytes) : bytes * connection :=
  match ms with
  | [] => ([], c)
  | m :: ms => let (b, c1) := WriteFrameAsync c m in let (b', c2) := write_all c1 ms in (b ++ b', c2)
  end.

Fixpoint read_frames (n : nat) (c : connection) (s : stream) : option (list read_result * connection * stream) :=
  match n with
  | O => Some ([], c, s)
  | S n =>
      '(r, c1, s1) ← ReadFrameAsync c s;
      '(rs, c2, s2) ← read_frames n c1 s1;
      Some (r :: rs, c2, s2)
  end.

Context (A : aead).

Lemma length_sealed k n p : length ((Encrypt k n p).1 ++ (Encrypt k n p).2) = (length p + TagBytes)%nat.
Proof. by rewrite length_app, (aead_length A), (aead_tag A). Qed.

Lemma written_frame c m : exists payload,
  (WriteFrameAsync c m).1 = le_encode 4 (wrap_u 32 (wire_size c m)) ++ payload /\
  Z.of_nat (length payload) = wire_size c m /\
  forall r, in_sync c r -> (open_payload r payload).1 = Payload m /\
            in_sync (WriteFrameAsync c m).2 (open_payload r payload).2.
Proof.
  unfold wire_size, Encrypted. destruct c as [k|]; simpl.
  - eexists. rewrite length_sealed, Nat2Z.inj_add.
    split; [done|]. split; [by rewrite length_sealed, Nat2Z.inj_add|].
    intros [r|]; [|done]. intros [Hk Hc]. unfold open_payload, DecryptInbound.
    rewrite bool_decide_false by (rewrite length_sealed; lia).
    rewrite length_sealed. replace (length m + TagBytes - TagBytes)%nat with (length m) by lia.
    rewrite <- Hk, <- Hc.
    pose proof (aead_length A (c_send k) (NonceFor (c_sendCounter k)) m) as Hl.
    pose proof (aead_tag A (c_send k) (NonceFor (c_sendCounter k)) m) as Ht.
    rewrite take_app_length', drop_app_length' by done. rewrite take_ge by lia.
    replace (Decrypt _ _ _ _) with (Some m); [by rewrite Hk, Hc|].
    symmetry. apply (aead_open A). by destruct (Encrypt _ _ _).
  - eexists. rewrite Z.add_0_r. split; [done|]. split; [done|].
    intros [r|]; [done|]. by intros _.
Qed.

(** Parsing what was written in front of anything else. *)
Lemma parse_written n payload rest : 0 <= n < 2 ^ 32 -> Z.of_nat (length payload) = n ->
  parse_frame (le_encode 4 (wrap_u 32 n) ++ payload ++ rest) =
    (if bool_decide (1 <= n <= MaxFrameBytes) then PFrame payload rest else PBad n (payload ++ rest)) /\
  le_decode (take 4 (le_encode 4 (wrap_u 32 n) ++ payload ++ rest)) = n.
Proof.
  intros Hn Hl. rewrite wrap_u_id by done.
  rewrite take_app_length' by (by rewrite length_le_encode). rewrite le_decode_encode.
  change (8 * Z.of_nat 4) with 32. rewrite Z.mod_small by done. split; [|done].
  unfold parse_frame. rewrite bool_decide_false by (rewrite length_app, length_le_encode; lia).
  rewrite take_app_length' by (by rewrite length_le_encode). rewrite le_decode_encode.
  change (8 * Z.of_nat 4) with 32. rewrite Z.mod_small by done. cbv zeta.
  rewrite <- drop_drop, drop_app_length' by (by rewrite length_le_encode).
  case_bool_decide; [|done]. rewrite bool_decide_true by (rewrite !length_app, length_le_encode; lia).
  rewrite take_app_length', drop_app_length' by lia. done.
Qed.

Lemma read_written w r m s rest :
  in_sync w r -> wire_size w m < 2 ^ 32 -> available s = (WriteFrameAsync w m).1 ++ rest ->
  exists x r' s', ReadFrameAsync r s = Some (x, r', s') /\
    (fits w m -> x = Payload m /\ in_sync (WriteFrameAsync w m).2 r' /\ available s' = rest) /\
    (~ fits w m -> x = Throws (InvalidData (wire_size w m)) /\ r' = r).
Proof.
  intros Hs Hb Ha. destruct (written_frame w m) as (payload & E & El & Ho).
  assert (0 <= wire_size w m < 2 ^ 32) as Hr by lia.
  destruct (parse_written (wire_size w m) payload rest Hr El) as [Hp Hd].
  rewrite E, <- app_assoc in Ha. rewrite <- Ha in Hp, Hd.
  destruct (read_frame r s) as (s' & E' & Hrem); [lia|]. rewrite Hp in *. specialize (Ho r Hs) as [Ho1 Ho2].
  unfold fits. destruct (decide (1 <= wire_size w m <= MaxFrameBytes)) as [Hf|Hf].
  - rewrite bool_decide_true in E', Hrem by done. simpl in *.
    exists (Payload m), (open_payload r payload).2, s'. split; [by rewrite E', <- Ho1, <- surjective_pairing|].
    by split.
  - rewrite bool_decide_false in E', Hrem by done. simpl in *.
    exists (Throws (InvalidData (wire_size w m))), r, s'. by split.
Qed.

Lemma Encrypted_written w m : Encrypted (WriteFrameAsync w m).2 = Encrypted w.
Proof. unfold Encrypted. by destruct w. Qed.

Lemma fits_lt w m : fits w m -> wire_size w m < 2 ^ 32.
Proof. unfold fits, MaxFrameBytes. lia. Qed.

(** ** Bounds and nonces *)

Lemma le_decode_range b : Forall (in_u 8) b -> in_u (8 * Z.of_nat (length b)) (le_decode b).
Proof.
  unfold in_u. induction 1 as [|x b Hx Hb IH]; cbn [le_decode length]; [done|].
  replace (8 * Z.of_nat (S (length b))) with (8 + 8 * Z.of_nat (length b)) by lia.
  rewrite Z.pow_add_r by lia. change (2 ^ 8) with 256 in *. lia.
Qed.

Lemma open_payload_length c f p c' :
  open_payload c f = (Payload p, c') -> (length p <= length f)%nat.
Proof.
  unfold open_payload, DecryptInbound. destruct c as [k|]; [|by intros [= <- <-]].
  case_bool_decide; [done|]. destruct (Decrypt _ _ _ _) eqn:E; intros [= <- <-].
  apply (aead_open A) in E. apply (f_equal fst) in E. simpl in E.
  rewrite <- (aead_length A (c_recv k) (NonceFor (c_recvCounter k))), E, length_take. lia.
Qed.

Lemma open_payload_throws c f n c' : open_payload c f <> (Throws (InvalidData n), c').
Proof.
  unfold open_payload, DecryptInbound. destruct c as [k|]; [|done].
  case_bool_decide; [done|]. by destruct (Decrypt _ _ _ _).
Qed.

Lemma length_NonceFor z : length (NonceFor z) = NonceBytes.
Proof. unfold NonceFor. by rewrite length_app, length_le_encode. Qed.

Lemma NonceFor_inj a b : NonceFor a = NonceFor b -> a mod 2 ^ 64 = b mod 2 ^ 64.
Proof.
  unfold NonceFor. intros E. apply app_inj_1 in E as [E _]; [|by rewrite !length_le_encode].
  apply (f_equal le_decode) in E. by rewrite !le_decode_encode in E.
Qed.

Lemma wrap_s_mod z : wrap_s 64 z mod 2 ^ 64 = z mod 2 ^ 64.
Proof.
  unfold wrap_s. rewrite Zminus_mod_idemp_l. f_equal. lia.
Qed.

Lemma iter_long_succ_mod i : Nat.iter i long_succ 0 mod 2 ^ 64 = Z.of_nat i mod 2 ^ 64.
Proof.
  induction i as [|i IH]; [done|]. rewrite Nat.iter_succ. set (x := Nat.iter i _ _) in *.
  unfold long_succ. rewrite wrap_s_mod.
  rewrite <- Zplus_mod_idemp_l, IH, Zplus_mod_idemp_l. f_equal. lia.
Qed.

(** ** Sequences of frames *)

Lemma round_trip (ms : list bytes) : forall w r s rest,
  in_sync w r -> Forall (fits w) ms -> available s = (write_all w ms).1 ++ rest ->
  exists r' s', read_frames (length ms) r s = Some (Payload <$> ms, r', s') /\
                in_sync (write_all w ms).2 r' /\ available s' = rest.
Proof.
  induction ms as [|m ms IH]; intros w r s rest Hs Hf Ha; simpl in *; [by exists r, s|].
  apply Forall_cons in Hf as [Hm Hf].
  destruct (WriteFrameAsync w m) as [b c1] eqn:Ew. destruct (write_all c1 ms) as [b' c2] eqn:Ea. simpl in *.
  rewrite <- app_assoc in Ha.
  destruct (read_written w r m s (b' ++ rest) Hs (fits_lt _ _ Hm)) as (x & r1 & s1 & E & Hok & _);
    [by rewrite Ew|].
  destruct (Hok Hm) as (-> & Hs1 & Ha1). rewrite Ew in Hs1. simpl in Hs1. rewrite E. simpl.
  destruct (IH c1 r1 s1 rest) as (r' & s' & E' & H'); [done | | by rewrite Ea |].
  - pose proof (Encrypted_written w m) as He. rewrite Ew in He. simpl in He.
    unfold fits, wire_size in *. by rewrite He.
  - rewrite Ea in H'. simpl in H'. rewrite E'. simpl. by exists r', s'.
Qed.

(** C18: Round trip.  Messages whose frames fit (between 1 byte and 16 MiB on the wire, tag included) are
    read back by the other end exactly and in order, however the network cuts the bytes into pieces, on a
    plain and on an encrypted connection; the two ends stay in step, and what follows stays unread. *)
Theorem frames_round_trip (ms : list bytes) : forall w r s rest,
  in_sync w r -> Forall (fits w) ms -> available s = (write_all w ms).1 ++ rest ->
  exists r' s', read_frames (length ms) r s = Some (Payload <$> ms, r', s') /\
                in_sync (write_all w ms).2 r' /\ available s' = rest.
Proof. exact (round_trip ms). Qed.

(** Reading a frame from any bytes whatsoever terminates and depends only on the bytes, not on the
    pieces they arrive in: fewer than four bytes or a frame cut short read as end of stream, a length of 0
    or above 16 MiB is refused with InvalidDataException before a payload is awaited, and otherwise the
    payload goes through the cipher, if any.  No payload is ever larger than 16 MiB. *)
Theorem read_frame_total (c : connection) (s : stream) :
  Forall (in_u 8) (available s) ->
  exists r c' s', ReadFrameAsync c s = Some (r, c', s') /\
    (r, c') = answer c (parse_frame (available s)) /\
    remains (parse_frame (available s)) (available s') /\
    (forall p, r = Payload p -> Z.of_nat (length p) <= MaxFrameBytes) /\
    (forall n, r = Throws (InvalidData n) -> (n = 0 \/ MaxFrameBytes < n) /\ in_u 32 n).
Proof.
  intros HB. destruct (read_frame c s) as (s' & E & Hr); [by apply le_decode_nonneg, Forall_take|].
  destruct (answer c (parse_frame (available s))) as [r c'] eqn:Ea. exists r, c', s'. split_and!; try done.
  - intros p ->. unfold parse_frame in Ea. repeat (case_bool_decide; simpl in Ea; [|try done]); try done.
    apply open_payload_length in Ea. rewrite length_take, length_drop in Ea. lia.
  - intros n ->. unfold parse_frame in Ea. repeat (case_bool_decide; simpl in Ea; try done).
    + by apply open_payload_throws in Ea.
    + simplify_eq. assert (in_u 32 (le_decode (take 4 (available s)))).
      { replace 32 with (8 * Z.of_nat (length (take 4 (available s)))) by (rewrite length_take; lia).
        apply le_decode_range. by apply Forall_take. }
      unfold in_u in *. split; [lia | done].
Qed.

(** C19: On an encrypted channel nothing forged gets through: a frame shorter than the tag is refused without
    touching the counter; any other advances the counter, and is accepted, as the plaintext p, exactly when it
    is the encryption of p under the receiving key and the nonce of that counter.  Nonces are 12 bytes, and
    the first 2^64 frames of a direction have pairwise different ones. *)
Theorem encrypted_frames_are_authentic :
  (forall k frame, (length frame < TagBytes)%nat -> DecryptInbound k frame = (None, k)) /\
  (forall k frame, (TagBytes <= length frame)%nat ->
     exists r, DecryptInbound k frame =
       (r, Cipher (c_send k) (c_recv k) (c_sendCounter k) (long_succ (c_recvCounter k))) /\
     forall p, r = Some p <->
       frame = (Encrypt (c_recv k) (NonceFor (c_recvCounter k)) p).1 ++
               (Encrypt (c_recv k) (NonceFor (c_recvCounter k)) p).2) /\
  (forall z, length (NonceFor z) = NonceBytes) /\
  (forall i j : nat, Z.of_nat i < 2 ^ 64 -> Z.of_nat j < 2 ^ 64 ->
     NonceFor (Nat.iter i long_succ 0) = NonceFor (Nat.iter j long_succ 0) -> i = j).
Proof.
  split_and!.
  - intros k f Hf. unfold DecryptInbound. by rewrite bool_decide_true.
  - intros k f Hf. unfold DecryptInbound. rewrite bool_decide_false by lia. eexists. split; [done|]. intros p.
    rewrite (aead_open A). rewrite (take_ge (drop _ _)) by (rewrite length_drop; lia).
    set (n := (length f - TagBytes)%nat). split.
    + intros ->. simpl. by rewrite take_drop.
    + intros E. pose proof (aead_tag A (c_recv k) (NonceFor (c_recvCounter k)) p) as Ht.
      assert (n = length (Encrypt (c_recv k) (NonceFor (c_recvCounter k)) p).1) as Hn
        by (subst n; rewrite E, length_app; lia).
      rewrite Hn, E, take_app_length, drop_app_length. by destruct (Encrypt _ _ _).
  - intros z. by rewrite length_NonceFor.
  - intros i j Hi Hj E. apply NonceFor_inj in E. rewrite !iter_long_succ_mod in E.
    rewrite !Z.mod_small in E by lia. lia.
Qed.

(** The size limit is enforced by the reader only: the writer puts an empty plain message, or one whose
    frame exceeds 16 MiB, on the wire without complaint, and the other end then fails on it with
    InvalidDataException. *)
Theorem writer_exceeds_reader (w r : connection) (m : bytes) (s : stream) (rest : bytes) :
  in_sync w r -> ~ fits w m -> wire_size w m < 2 ^ 32 ->
  available s = (WriteFrameAsync w m).1 ++ rest ->
  exists s', ReadFrameAsync r s = Some (Throws (InvalidData (wire_size w m)), r, s').
Proof.
  intros Hs Hf Hb Ha. destruct (read_written w r m s rest Hs Hb Ha) as (x & r' & s' & E & _ & H).
  destruct (H Hf) as [-> ->]. by exists s'.
Qed.
End Channel.

(** ** Witnesses: a cipher that satisfies the laws *)

(** The plaintext unchanged, and a tag made of the key and the nonce. *)
Definition toy_tag (k n : bytes) : bytes := take TagBytes (k ++ n ++ replicate TagBytes 0).
Definition toy_Encrypt (k n p : bytes) : bytes * bytes := (p, toy_tag k n).
Definition toy_Decrypt (k n c t : bytes) : option bytes :=
  if bool_decide (t = toy_tag k n) then Some c else None.

Lemma toy_aead : aead toy_Encrypt toy_Decrypt.
Proof.
  split.
  - done.
  - intros k n p. change (length (toy_tag k n) = TagBytes). unfold toy_tag. rewrite length_take.
    rewrite !length_app, length_replicate. lia.
  - intros k n c t p. unfold toy_Decrypt, toy_Encrypt. case_bool_decide; naive_solver.
Qed.

Definition writer_end : connection (key := bytes) := Some (new_cipher [5] [9]).
Definition reader_end : connection (key := bytes) := Some (new_cipher [9] [5]).
Definition two_messages : list bytes := [[72; 105]; []].

(** Two messages, the second empty, in pieces of five bytes and one. *)
Definition pieces : stream :=
  let b := (write_all toy_Encrypt writer_end two_messages).1 in [take 5 b; take 1 (drop 5 b); drop 6 b].

Lemma frames_round_trip_witness : exists r' s',
  read_frames toy_Decrypt 2 reader_end pieces = Some ([Payload [72; 105]; Payload []], r', s').
Proof.
  destruct (frames_round_trip toy_Encrypt toy_Decrypt toy_aead two_messages writer_end reader_end pieces [])
    as (r' & s' & E & _).
  - vm_compute. by split.
  - repeat constructor; vm_compute; discriminate.
  - vm_compute. reflexivity.
  - exists r', s'. exact E.
Defined.

Lemma read_frame_total_witness : exists c' s',
  ReadFrameAsync toy_Decrypt (None : connection (key := bytes)) [[0]; [0; 0]; [2; 7]] =
    Some (Throws (InvalidData 33554432), c', s').
Proof.
  destruct (read_frame_total toy_Encrypt toy_Decrypt toy_aead None [[0]; [0; 0]; [2; 7]])
    as (r & c' & s' & E & Ha & _).
  - repeat constructor; vm_compute; (reflexivity || discriminate).
  - exists c', s'. vm_compute in Ha. injection Ha as -> ->. exact E.
Defined.

Lemma encrypted_frames_witness :
  NonceFor (Nat.iter 0 long_succ 0) <> NonceFor (Nat.iter 1 long_succ 0) /\
  (forall p, (DecryptInbound toy_Decrypt (new_cipher [9] [5]) (replicate 20 1)).1 = Some p -> False).
Proof.
  destruct (encrypted_frames_are_authentic toy_Encrypt toy_Decrypt toy_aead) as (_ & Hf & _ & Hn). split.
  - intros E. by specialize (Hn 0%nat 1%nat eq_refl eq_refl E).
  - intros p. destruct (Hf (new_cipher [9] [5]) (replicate 20 1)) as (r & E & Hr); [vm_compute; lia|].
    rewrite E. intros Hp. apply (Hr p), (f_equal reverse) in Hp. rewrite reverse_app in Hp.
    vm_compute in Hp. discriminate.
Defined.

Lemma writer_exceeds_reader_witness : exists s',
  ReadFrameAsync toy_Decrypt (None : connection (key := bytes)) [[0; 0; 0; 0]] =
    Some (Throws (InvalidData 0), None, s').
Proof.
  destruct (writer_exceeds_reader toy_Encrypt toy_Decrypt toy_aead None None [] [[0; 0; 0; 0]] [])
    as (s' & E).
  - exact I.
  - unfold fits. vm_compute. intros [H _]. by apply H.
  - vm_compute. reflexivity.
  - vm_compute. reflexivity.
  - exists s'. exact E.
Defined.
