(* ===== verification/EdgeSearch.v ===== *)
(** * EdgeSearch: the published index on the devices

    What [IndexWriter] stores of a row (the embedding as bytes, the facets as JSON), how [EdgeIndex.kt] and
    [EdgeSearchEngine.swift] read the table back, and how both rank it for a query; composed with the
    publisher's model of the corpus.  An embedding is a list of 32-bit patterns.  The JSON libraries, the dot
    product (summed in order on Android, by Accelerate on iOS), the comparison of scores and the two sort
    functions are parameters; a [SELECT] without an order gives the rows in any order.  Text columns are the
    strings themselves: the encoding keeps well-formed strings, which is what reading a manual gives. *)

From stdpp Require Import sorting.
From S2P Require Import Prelude Json Text Frame Publisher.
Local Open Scope Z_scope.
#[local] Set Warnings "-clear-no-such-hyp".

(** ** The columns *)

(** [JsonSerializer.Serialize] of the publisher, and the decoders of the devices: [None] is an exception
    (Kotlin) or [nil] (Swift).  The round trip is asked for of every text; the libraries document it for
    well-formed ones, which is what reading a manual gives. *)
Class MetadataJson := {
  write_metadata : list text -> list text -> text;
  read_metadata : text -> option (list text * list text);
  read_written : forall codes tools, read_metadata (write_metadata codes tools) = Some (codes, tools) }.

Record columns := Columns { DocumentId_ : text; SectionTitle_ : text; ContentText_ : text; Embedding_ : list Z; Metadata_ : text }.

(** [Buffer.BlockCopy] on a little-endian host. *)
Definition blob (embedding : list Z) : list Z := concat (map (le_encode 4) embedding).
Definition stored `{MetadataJson} (r : IndexRow (vector := list Z)) : columns :=
  Columns (r_DocumentId r) (r_SectionTitle r) (r_ContentText r) (blob (r_Embedding r)) (write_metadata (r_ErrorCodes r) (r_ToolsRequired r)).

(** The floats of a byte buffer; up to three bytes at the end are not read. *)
Fixpoint floats (b : list Z) : list Z :=
  match b with
  | x0 :: x1 :: x2 :: x3 :: rest => le_decode [x0; x1; x2; x3] :: floats rest
  | _ => []
  end.

Record EdgeChunk := MkChunk {
  chunkId : text; documentId : text; sectionTitle : text; contentText : text;
  errorCodes : list text; toolsRequired : list text; embedding : list Z }.

(** ** Ranking *)

(** Scores: the product of two vectors, [>=], and a sort function that puts the best first. *)
Class Scoring (D : Type) := {
  dot : list Z -> list Z -> D;
  reaches : D -> D -> bool;
  at_most : D -> D -> Prop;
  sort : list (EdgeChunk * D) -> list (EdgeChunk * D);
  sort_permutes : forall l, sort l ≡ₚ l;
  sort_descends : forall l, StronglySorted (fun a b => at_most b.2 a.2) (sort l) }.

Definition scored `{Scoring D} (q : list Z) (minScore : D) (chunks : list EdgeChunk) : list (EdgeChunk * D) :=
  filter (fun h : EdgeChunk * D => reaches h.2 minScore) (map (fun c => (c, dot q (embedding c))) chunks).

(** ** Android *)

Module Android.
Section Device.
Context `{MetadataJson}.

(** [EdgeIndex.load]. *)
Definition read_row (row : text * columns) : option EdgeChunk :=
  let '(id, c) := row in
  meta ← read_metadata (Metadata_ c);
  Some (MkChunk id (DocumentId_ c) (SectionTitle_ c) (ContentText_ c) meta.1 meta.2 (floats (Embedding_ c))).
Definition load (rows : list (text * columns)) : option (list EdgeChunk) := mapM read_row rows.

(** A set of wanted values that is empty, or has one of the chunk's. *)
Definition facet (wanted have : list text) : bool := bool_decide (wanted = []) || existsb (fun x => bool_decide (x ∈ wanted)) have.

(** [EdgeSearchEngine.search] behind the encoder; [take] throws for a negative count. *)
Definition search `{Scoring D} (q : list Z) (minScore : D) (topK : Z) (codes tools : list text) (chunks : list EdgeChunk)
  : option (list (EdgeChunk * D)) :=
  let chunks := filter (fun c : EdgeChunk => facet codes (errorCodes c)) chunks in
  let chunks := filter (fun c : EdgeChunk => facet tools (toolsRequired c)) chunks in
  if topK <? 0 then None else Some (take (Z.to_nat topK) (sort (scored q minScore chunks))).
End Device.
End Android.

(** ** iOS *)

Module Ios.
Section Device.
Context `{MetadataJson}.
(** Strings are equal up to canonical equivalence. *)
Context (canonical : text -> text).

(** [String(cString:)] of a text column. *)
Fixpoint c_string (s : text) : text := match s with [] => [] | c :: r => if c =? 0 then [] else c :: c_string r end.

(** [EdgeSearchEngine.loadIndex]. *)
Definition read_row (row : text * columns) : EdgeChunk :=
  let '(id, c) := row in
  let embedding := if bool_decide (length (Embedding_ c) = 384 * 4)%nat then floats (Embedding_ c) else replicate 384 0 in
  let meta := default ([], []) (read_metadata (c_string (Metadata_ c))) in
  MkChunk (c_string id) (c_string (DocumentId_ c)) (c_string (SectionTitle_ c)) (c_string (ContentText_ c)) meta.1 meta.2 embedding.
Definition load (rows : list (text * columns)) : list EdgeChunk := map read_row rows.

(** [EdgeSearchEngine.search]; [prefix] traps for a negative count. *)
Definition search `{Scoring D} (q : list Z) (minScore : D) (topK : Z) (chunks : list EdgeChunk) : option (list (EdgeChunk * D)) :=
  let hits := sort (scored q minScore chunks) in
  if topK <? 0 then None else Some (take (Z.to_nat topK) hits).

Definition facet (wanted have : list text) : bool :=
  bool_decide (wanted = []) || existsb (fun x => bool_decide (canonical x ∈ map canonical wanted)) have.
(** [EdgeSearchViewModel.run]: the facets are applied to the 20 hits. *)
Definition run `{Scoring D} (q : list Z) (minScore : D) (codes tools : list text) (chunks : list EdgeChunk) : option (list (EdgeChunk * D)) :=
  raw ← search q minScore 20 chunks;
  Some (filter (fun hit : EdgeChunk * D => facet codes (errorCodes hit.1) && facet tools (toolsRequired hit.1)) raw).
End Device.
End Ios.

(** ** Lemmas *)

Lemma length_blob e : length (blob e) = (4 * length e)%nat.
Proof. induction e as [|z e IH]; [done|]. unfold blob in *. cbn [map concat]. rewrite length_app, length_le_encode, IH. simpl. lia. Qed.

Lemma floats_blob e : Forall (in_u 32) e -> floats (blob e) = e.
Proof.
  induction 1 as [|z e Hz _ IH]; [done|]. unfold blob in *. cbn [map concat]. pose proof (le_decode_encode 4 z) as E.
  cbn [le_encode app floats] in *. rewrite E, IH, Z.mod_small; [done | exact Hz].
Qed.

Lemma c_string_id s : ~ 0 ∈ s -> Ios.c_string s = s.
Proof.
  induction s as [|c s IH]; [done|]. rewrite not_elem_of_cons. intros [Hc Hs]. simpl.
  rewrite (proj2 (Z.eqb_neq _ _)) by congruence. f_equal. by apply IH.
Qed.

(** A published index has the rows of the corpus, each once. *)
Lemma insert_rows_permutes {vector} (rows : list (text * IndexRow (vector := vector))) : forall table t,
  insert_rows rows table = Some t -> map_to_list t ≡ₚ rows ++ map_to_list table.
Proof.
  induction rows as [|[id r] rows IH]; intros table t; simpl; [by intros [= ->]|].
  destruct (table !! id) eqn:E; [done|]. intros Ht%IH. rewrite Ht, map_to_list_insert by done. by rewrite Permutation_middle.
Qed.

(** What a row of a manual should look like on a device. *)
Definition chunk_of (s : text * IndexRow (vector := list Z)) : EdgeChunk :=
  MkChunk s.1 (r_DocumentId s.2) (r_SectionTitle s.2) (r_ContentText s.2) (r_ErrorCodes s.2) (r_ToolsRequired s.2) (r_Embedding s.2).

Section Search.
Context `{MetadataJson} {D : Type} `{Scoring D}.

(** The hits among scored candidates: as many as asked for and there are, best first, and nothing left out
    is better than anything returned. *)
Definition best (candidates : list (EdgeChunk * D)) (topK : Z) (hits : list (EdgeChunk * D)) : Prop :=
  Z.of_nat (length hits) = Z.min topK (Z.of_nat (length candidates)) /\
  StronglySorted (fun a b => at_most b.2 a.2) hits /\
  exists rest, candidates ≡ₚ hits ++ rest /\ forall h r, h ∈ hits -> r ∈ rest -> at_most r.2 h.2.

Lemma sorted_app {A} (R : A -> A -> Prop) l1 l2 : StronglySorted R (l1 ++ l2) ->
  StronglySorted R l1 /\ forall x y, x ∈ l1 -> y ∈ l2 -> R x y.
Proof.
  induction l1 as [|x l1 IH]; intros Hs; [by split; [constructor | intros x y ?%not_elem_of_nil]|].
  apply StronglySorted_inv in Hs as [Hs Hx]. apply Forall_app in Hx as [Hx1 Hx2]. destruct (IH Hs) as [H1 H2].
  split; [by constructor|]. intros y z [->|Hy]%elem_of_cons Hz; [|by apply H2]. rewrite Forall_forall in Hx2. by apply Hx2.
Qed.

Lemma take_sorted_best candidates candidates' topK : 0 <= topK -> candidates ≡ₚ candidates' ->
  best candidates' topK (take (Z.to_nat topK) (sort candidates)).
Proof.
  intros Hk Hp. pose proof (sort_permutes candidates) as Hs. pose proof (sort_descends candidates) as Hd.
  rewrite <- (take_drop (Z.to_nat topK) (sort candidates)) in Hd. apply sorted_app in Hd as [Hd Hr].
  split_and!; [|done|].
  - rewrite length_take, Hs, Hp. lia.
  - exists (drop (Z.to_nat topK) (sort candidates)). rewrite take_drop, Hs. split; [by symmetry | done].
Qed.

Lemma scored_permutes q minScore l l' : l ≡ₚ l' -> scored q minScore l ≡ₚ scored q minScore l'.
Proof. intros E. unfold scored. by rewrite E. Qed.

(** A row as the devices read it back. *)
Lemma android_row s : Forall (in_u 32) (r_Embedding s.2) -> Android.read_row (prod_map id stored s) = Some (chunk_of s).
Proof.
  intros He. destruct s as [id r]. simpl in *. rewrite read_written. simpl. by rewrite floats_blob.
Qed.

Definition clean (c : EdgeChunk) : Prop :=
  ~ 0 ∈ chunkId c /\ ~ 0 ∈ documentId c /\ ~ 0 ∈ sectionTitle c /\ ~ 0 ∈ contentText c /\ ~ 0 ∈ write_metadata (errorCodes c) (toolsRequired c).
Lemma ios_row s : Forall (in_u 32) (r_Embedding s.2) -> length (r_Embedding s.2) = 384%nat -> clean (chunk_of s) ->
  Ios.read_row (prod_map id stored s) = chunk_of s.
Proof.
  intros He Hl (H1 & H2 & H3 & H4 & H5). destruct s as [id r]. simpl in *.
  rewrite length_blob, Hl, !c_string_id by done. rewrite read_written. simpl. by rewrite floats_blob.
Qed.

(** The rows a device reads are the sections of the corpus, in some order. *)
Lemma rows_are_sections Encode corpus index rows : publish Encode corpus = Some index ->
  rows ≡ₚ map_to_list (stored <$> index) ->
  exists sections, rows = map (prod_map id stored) sections /\ sections ≡ₚ corpus ≫= rows_of Encode.
Proof.
  intros Hp Hr. apply insert_rows_permutes in Hp. rewrite map_to_list_empty, app_nil_r in Hp.
  assert (map_to_list (stored <$> index) = map (prod_map id stored) (map_to_list index)) as E by apply map_to_list_fmap.
  rewrite E in Hr. apply Permutation_map_inv in Hr as (sections & -> & Hs). exists sections. split; [done|]. by rewrite <- Hs.
Qed.

Lemma android_load sections : Forall (fun s => Forall (in_u 32) (r_Embedding s.2)) sections ->
  Android.load (map (prod_map id stored) sections) = Some (map chunk_of sections).
Proof.
  induction 1 as [|s sections Hs _ IH]; [done|]. unfold Android.load in *. cbn [map mapM].
  by rewrite android_row, IH.
Qed.
End Search.

(** C28: From the manuals to the hits: when a corpus was published, a device that reads the index back, in whatever
    order the rows come, has exactly the sections of the manuals with their embeddings bit for bit, and a search
    returns the best of them: on Android among the sections with a wanted error code and tool, on iOS among all
    of them, provided that no text has a NUL, at which its columns would be cut. *)
Theorem search_finds_best `{MetadataJson} {D} `{Scoring D} Encode corpus index rows q minScore topK codes tools :
  publish Encode corpus = Some index -> rows ≡ₚ map_to_list (stored <$> index) -> 0 <= topK ->
  (forall s, length (Encode s) = 384%nat /\ Forall (in_u 32) (Encode s)) ->
  let sections := map chunk_of (corpus ≫= rows_of Encode) in
  let wanted := filter (fun c => Android.facet tools (toolsRequired c)) (filter (fun c => Android.facet codes (errorCodes c)) sections) in
  (exists chunks hits, Android.load rows = Some chunks /\ chunks ≡ₚ sections /\
     Android.search q minScore topK codes tools chunks = Some hits /\ best (scored q minScore wanted) topK hits) /\
  (Forall clean sections -> Ios.load rows ≡ₚ sections /\
     exists hits, Ios.search q minScore topK (Ios.load rows) = Some hits /\ best (scored q minScore sections) topK hits).
Proof.
  intros Hp Hr Hk He sections wanted. destruct (rows_are_sections _ _ _ _ Hp Hr) as (ss & -> & Hs).
  assert (Forall (fun s => length (r_Embedding s.2) = 384%nat /\ Forall (in_u 32) (r_Embedding s.2)) ss) as Hss.
  { rewrite Hs. apply Forall_forall. intros s (md & Hin & _)%list_elem_of_bind. unfold rows_of in Hin.
    destruct (Frontmatter_Parse md). apply elem_of_lookup_imap in Hin as (i & c & -> & _). apply He. }
  assert (map chunk_of ss ≡ₚ sections) as Hc by (subst sections; by rewrite Hs).
  assert ((topK <? 0) = false) as Ek by (apply Z.ltb_ge; lia). split.
  - exists (map chunk_of ss). eexists. split; [apply android_load; eapply Forall_impl; [exact Hss | by intros s [_ ?]]|].
    split; [done|]. unfold Android.search. rewrite Ek. split; [reflexivity|].
    apply take_sorted_best, scored_permutes; [done|]. subst wanted. by rewrite Hc.
  - intros Hcl. rewrite <- Hc in Hcl. assert (Ios.load (map (prod_map id stored) ss) = map chunk_of ss) as ->.
    { unfold Ios.load. rewrite map_map. clear -Hss Hcl. induction Hss as [|s ss [Hl Hb] _ IH]; [done|].
      apply Forall_cons in Hcl as [Hs Hcl]. cbn [map]. by rewrite ios_row, IH. }
    split; [done|]. unfold Ios.search. rewrite Ek. eexists. split; [reflexivity|]. by apply take_sorted_best, scored_permutes.
Qed.

(** ** Concrete instances *)

(** A serializer: every character behind a one, a two at the end of a string, a three at the end of a list. *)
Definition write_strings (l : list text) : text := concat (map (fun s => concat (map (fun c => [1; c]) s) ++ [2]) l) ++ [3].
Fixpoint read_strings (s cur : text) (acc : list text) : option (list text * text) :=
  match s with
  | 1 :: c :: r => read_strings r (cur ++ [c]) acc
  | 2 :: r => read_strings r [] (acc ++ [cur])
  | 3 :: r => Some (acc, r)
  | _ => None
  end.
Lemma read_characters s r : forall cur acc, read_strings (concat (map (fun c => [1; c]) s) ++ r) cur acc = read_strings r (cur ++ s) acc.
Proof. induction s as [|c s IH]; intros cur acc; simpl; [by rewrite app_nil_r|]. by rewrite IH, <- app_assoc. Qed.
Lemma read_write_strings l r : forall acc, read_strings (write_strings l ++ r) [] acc = Some (acc ++ l, r).
Proof.
  intros acc. unfold write_strings. rewrite <- app_assoc. simpl. revert acc.
  induction l as [|s l IH]; intros acc; simpl; [by rewrite app_nil_r|].
  rewrite <- !app_assoc, read_characters. simpl. by rewrite IH, <- app_assoc.
Qed.
Lemma metadata_law codes tools :
  ('(codes, r) ← read_strings (write_strings codes ++ write_strings tools) [] []; '(tools, _) ← read_strings r [] []; Some (codes, tools))
  = Some (codes, tools).
Proof.
  rewrite read_write_strings. cbn [mbind option_bind]. rewrite <- (app_nil_r (write_strings tools)), read_write_strings. done.
Qed.
#[local] Instance demo_json : MetadataJson := {
  write_metadata codes tools := write_strings codes ++ write_strings tools;
  read_metadata s := '(codes, r) ← read_strings s [] []; '(tools, _) ← read_strings r [] []; Some (codes, tools);
  read_written := metadata_law }.

(** Scores that are integers, sorted by merging. *)
Definition better (a b : EdgeChunk * Z) : Prop := b.2 <= a.2.
#[local] Instance better_trans : Transitive better.
Proof. intros x y z. unfold better. lia. Qed.
#[local] Instance better_total : Total better.
Proof. intros x y. unfold better. lia. Qed.
#[local] Instance better_dec : forall a b, Decision (better a b).
Proof. intros a b. apply Z_le_dec. Defined.
#[local] Instance demo_scoring : Scoring Z := {
  dot a b := foldl Z.add 0 (zip_with Z.mul a b);
  reaches x m := m <=? x;
  at_most := Z.le;
  sort := merge_sort better;
  sort_permutes := merge_sort_Permutation _;
  sort_descends := StronglySorted_merge_sort _ }.

#[local] Instance clean_dec c : Decision (clean c) := and_dec _ _.
Definition demo_encode (s : text) : list Z := replicate 384 (Z.of_nat (length s) mod 1000).
Lemma demo_encode_ok s : length (demo_encode s) = 384%nat /\ Forall (in_u 32) (demo_encode s).
Proof.
  split; [apply length_replicate|]. apply Forall_replicate. unfold in_u.
  pose proof (Z.mod_pos_bound (Z.of_nat (length s)) 1000 ltac:(lia)). lia.
Qed.

Lemma search_finds_best_witness : exists index, publish demo_encode demo_corpus = Some index /\
  exists hits, Ios.search (demo_encode (lit "how")) 0 2 (Ios.load (map_to_list (stored <$> index))) = Some hits /\ length hits = 2%nat.
Proof.
  destruct (publish demo_encode demo_corpus) as [index|] eqn:E; [|vm_compute in E; discriminate].
  exists index. split; [done|].
  destruct (search_finds_best demo_encode demo_corpus index (map_to_list (stored <$> index)) (demo_encode (lit "how")) 0 2 [] [] E)
    as [_ Hios]; [done | lia | apply demo_encode_ok |].
  destruct Hios as (_ & hits & Hs & Hl & _); [vm_decide|]. exists hits. split; [done|].
  match type of Hl with _ = ?m => assert (m = 2) as Em by (vm_compute; reflexivity); rewrite Em in Hl end. lia.
Defined.

(** The facets of the iOS screen choose among the twenty best hits, those of the Android screen among all
    sections: the only section with the wanted error code is found on Android and not on iOS, when twenty other
    sections are closer to the query. *)
Theorem ios_facets_after_cut :
  let other (i : nat) := MkChunk [Z.of_nat i + 1] [] [] [] [] [] [2] in
  let only := MkChunk (lit "pump#3") (lit "pump") [] [] [lit "E42"] [] [1] in
  let chunks := map other (seq 0 20) ++ [only] in
  Android.search [1] 0 20 [lit "E42"] [] chunks = Some [(only, 1)] /\
  Ios.run (fun s => s) [1] 0 [lit "E42"] [] chunks = Some [].
Proof. split; vm_compute; reflexivity. Qed.
