(* ===== verification/Server.v ===== *)
(** * Server: the framed-protobuf server and its post-quantum handshake

    [PqSecureChannel] (both sides of the handshake) and the connection handler of [PbFrameServer]: one
    optional handshake, then requests read frame by frame, each answered by one or more envelopes, until
    the stream ends, a frame is rejected, or an exception ends the connection.  A handler is a function
    from the bytes the peer sends (in any pieces) to the bytes sent back.

    The cryptographic provider is the repository's interface [IPqcProvider]; HKDF, AES-GCM and the
    protobuf runtime are parameters with the laws their documentation states.  Spans and counters have
    their own component ([Ring]); cancellation by [Stop] and failing socket writes are not modelled. *)

From S2P Require Import Prelude Session Frame Trust.
Local Open Scope Z_scope.
#[local] Set Warnings "-clear-no-such-hyp".

(** ** Envelopes (dni_frame.proto) *)

Record FeatureDescriptorPb := Descriptor { d_id : string; d_title : string; d_version : string; d_code : string; d_expected : string }.
(** [ElapsedMs] by the bits of the double. *)
Record FeatureRunPb := FeatureRun { fr_id : string; fr_result : string; fr_elapsed_ms : Z; fr_ok : bool }.

Inductive body :=
| NoBody
| Features | Run (id : string) | Rag (query : string) | Ping | Bench (command : string)
| FeaturesResponse (features : list FeatureDescriptorPb) | RunResponse (run : FeatureRunPb)
| RagChunk (index : Z) (text : string) (final : bool) | PingResponse (reply : string)
| Error (code : Z) (message : string)
| HandshakeOffer (kem_public_key sig_public_key signature : bytes)
    (kem_algorithm sig_algorithm cipher : string) (session_id : bytes)
| HandshakeReply (ciphertext : bytes).

Record Envelope := MkEnvelope { RequestId : string; Body : body }.

(** [Envelope.BodyOneofCase], printed. *)
Definition BodyCase (b : body) : string :=
  match b with
  | NoBody => "None" | Features => "Features" | Run _ => "Run" | Rag _ => "Rag" | Ping => "Ping"
  | Bench _ => "Bench" | FeaturesResponse _ => "FeaturesResponse" | RunResponse _ => "RunResponse"
  | RagChunk _ _ _ => "RagChunk" | PingResponse _ => "PingResponse" | Error _ _ => "Error"
  | HandshakeOffer _ _ _ _ _ _ _ => "HandshakeOffer" | HandshakeReply _ => "HandshakeReply"
  end.

(** The protobuf runtime: [ToByteArray] and [Parser.ParseFrom] (None: InvalidProtocolBufferException).
    The law is protobuf's round trip; protobuf documents it for field values in the range of their declared
    types ([int32], strings that are well-formed), which the server's and client's own messages keep to. *)
Class EnvelopeCodec := {
  ToByteArray : Envelope -> bytes;
  ParseFrom : bytes -> option Envelope }.
Class EnvelopeCodecLaws `{EnvelopeCodec} : Prop :=
  parse_print : forall e, ParseFrom (ToByteArray e) = Some e.

(** ** The cryptographic provider (IPqcProvider.cs) *)

(** The client's half; [Encapsulate] takes its randomness as an argument. *)
Class IPqcProvider := {
  KemAlgorithm : string;
  SigAlgorithm : string;
  Verify : bytes -> bytes -> bytes -> bool;
  Encapsulate : bytes -> bytes -> bytes * bytes }.

(** The server's key material; [Decapsulate] throws (None) on a ciphertext it cannot take. *)
Class IPqcServerIdentity := {
  KemPublicKey : bytes;
  SigPublicKey : bytes;
  Sign : bytes -> bytes;
  Decapsulate : bytes -> option bytes }.

(** What a provider promises about its own identities. *)
Class PqcLaws `{IPqcProvider, IPqcServerIdentity} : Prop := {
  verify_sign : forall m, Verify SigPublicKey m (Sign m) = true;
  decapsulate_encapsulate : forall rnd,
    Decapsulate (Encapsulate rnd KemPublicKey).1 = Some (Encapsulate rnd KemPublicKey).2 }.

Section Server.
  (** AES-GCM, HKDF-SHA256 (key material, salt, info), the feature catalog and what the model behind the
      RAG orchestrator streams for a query (None: the engine is not initialized). *)
  Context (Encrypt : bytes -> bytes -> bytes -> bytes * bytes)
    (Decrypt : bytes -> bytes -> bytes -> bytes -> option bytes)
    (DeriveKey : bytes -> bytes -> bytes -> bytes)
    (Descriptors : list FeatureDescriptorPb) (RunFeature : string -> FeatureRunPb)
    (rag : string -> option (list string * model_end)).
  Context `{codec : EnvelopeCodec} `{provider : IPqcProvider} `{identity : IPqcServerIdentity}.

(** ** Handshake *)

Definition ascii_bytes (s : string) : bytes :=
  (fun c => Z.of_nat (Ascii.nat_of_ascii c)) <$> String.list_ascii_of_string s.
Definition InfoClientToServer : bytes := ascii_bytes "dni-pb c2s v1".
Definition InfoServerToClient : bytes := ascii_bytes "dni-pb s2c v1".
Definition Algorithm : string := "AES-256-GCM".

Definition Concat (first second : bytes) : bytes := first ++ second.

(** The keys client to server and server to client. *)
Definition DeriveKeys (sharedSecret ciphertext sessionId : bytes) : bytes * bytes :=
  let salt := Concat ciphertext sessionId in
  (DeriveKey sharedSecret salt InfoClientToServer, DeriveKey sharedSecret salt InfoServerToClient).

Inductive hs_error := PqcHandshakeException (message : string) | OtherException.

Record ServerHandshakeResult := ServerHs {
  sh_cipher : cipher (key := bytes); sh_kem : Z; sh_ciphertext : Z; sh_secret : Z }.

Definition offer (sessionId : bytes) : Envelope :=
  MkEnvelope "" (HandshakeOffer KemPublicKey SigPublicKey (Sign (Concat KemPublicKey sessionId))
    KemAlgorithm SigAlgorithm Algorithm sessionId).

(** The bytes written, the connection, the outcome and what is left to read; None: a read did not end. *)
Definition ServerHandshakeAsync (sessionId : bytes) (c : connection) (s : stream)
  : option (bytes * connection * (hs_error + ServerHandshakeResult) * stream) :=
  let (out, c1) := WriteFrameAsync Encrypt c (ToByteArray (offer sessionId)) in
  match ReadFrameAsync Decrypt c1 s with
  | None => None
  | Some (Frame.Throws _, c2, s1) => Some (out, c2, inl OtherException, s1)
  | Some (Eof, c2, s1) =>
      Some (out, c2, inl (PqcHandshakeException "client closed the connection before sending a handshake reply"), s1)
  | Some (Payload replyBytes, c2, s1) =>
      match ParseFrom replyBytes with
      | None => Some (out, c2, inl OtherException, s1)
      | Some reply =>
          match Body reply with
          | HandshakeReply ciphertext =>
              match Decapsulate ciphertext with
              | None => Some (out, c2, inl OtherException, s1)
              | Some sharedSecret =>
                  let (clientToServer, serverToClient) := DeriveKeys sharedSecret ciphertext sessionId in
                  Some (out, c2,
                    inr (ServerHs (new_cipher serverToClient clientToServer) (Z.of_nat (length KemPublicKey))
                           (Z.of_nat (length ciphertext)) (Z.of_nat (length sharedSecret))), s1)
              end
          | b => Some (out, c2, inl (PqcHandshakeException
                   ("expected a handshake reply but received " +:+ BodyCase b)), s1)
          end
      end
  end.

Record ClientHandshakeResult := ClientHs { ch_cipher : cipher (key := bytes); ch_session : bytes }.

Definition ClientHandshakeAsync (rnd : bytes) (c : connection) (s : stream)
  : option (bytes * connection * (hs_error + ClientHandshakeResult) * stream) :=
  match ReadFrameAsync Decrypt c s with
  | None => None
  | Some (Frame.Throws _, c1, s1) => Some ([], c1, inl OtherException, s1)
  | Some (Eof, c1, s1) =>
      Some ([], c1, inl (PqcHandshakeException "server closed the connection before sending a handshake offer"), s1)
  | Some (Payload offerBytes, c1, s1) =>
      match ParseFrom offerBytes with
      | None => Some ([], c1, inl OtherException, s1)
      | Some e =>
          match Body e with
          | HandshakeOffer kemPublicKey sigPublicKey signature _ _ _ sessionId =>
              if negb (Verify sigPublicKey (Concat kemPublicKey sessionId) signature)
              then Some ([], c1, inl (PqcHandshakeException "server handshake signature failed ML-DSA verification"), s1)
              else
                let (ciphertext, sharedSecret) := Encapsulate rnd kemPublicKey in
                let (out, c2) := WriteFrameAsync Encrypt c1 (ToByteArray (MkEnvelope "" (HandshakeReply ciphertext))) in
                let (clientToServer, serverToClient) := DeriveKeys sharedSecret ciphertext sessionId in
                Some (out, c2, inr (ClientHs (new_cipher clientToServer serverToClient) sessionId), s1)
          | b => Some ([], c1, inl (PqcHandshakeException
                   ("expected a handshake offer but received " +:+ BodyCase b)), s1)
          end
      end
  end.

(** ** PbFrameServer: one connection *)














(** ** The two directions of a connection are independent *)










(** ** The request loop *)

Context (A : aead Encrypt Decrypt) {laws : EnvelopeCodecLaws}.









(** Reading one frame of the plain handshake. *)
Lemma read_plain e s rest :
  fits (None : connection (key := bytes)) (ToByteArray e) ->
  available s = (WriteFrameAsync Encrypt None (ToByteArray e)).1 ++ rest ->
  exists s', ReadFrameAsync Decrypt None s = Some (Payload (ToByteArray e), None, s') /\ available s' = rest.
Proof.
  intros Hf Ha.
  destruct (read_written Encrypt Decrypt A None None (ToByteArray e) s rest I (fits_lt _ _ Hf) Ha)
    as (x & r' & s' & E & H & _).
  destruct (H Hf) as (-> & Hs & Ha'). destruct r'; [done|]. by exists s'.
Qed.



(** What the client sends for an encapsulation. *)
Definition reply_bytes (rnd : bytes) : bytes :=
  (WriteFrameAsync Encrypt None (ToByteArray (MkEnvelope "" (HandshakeReply (Encapsulate rnd KemPublicKey).1)))).1.
Definition offer_bytes (sessionId : bytes) : bytes :=
  (WriteFrameAsync Encrypt None (ToByteArray (offer sessionId))).1.

(** C20: The handshake agrees.  A client that reads the server's offer verifies it, answers with an
    encapsulation and gets a cipher; a server that reads that answer gets the mirror cipher: what either
    sends the other can receive, from counter 0, with keys derived from the shared secret salted by
    ciphertext and the fresh session id; both consume exactly the other's frame.  A client whose offer
    does not verify throws before it writes anything. *)
Theorem pq_handshake_agrees {pqc : PqcLaws} (sessionId rnd : bytes) (sc ss : stream) (restc rests : bytes) :
  fits (None : connection (key := bytes)) (ToByteArray (offer sessionId)) ->
  fits (None : connection (key := bytes))
    (ToByteArray (MkEnvelope "" (HandshakeReply (Encapsulate rnd KemPublicKey).1))) ->
  available sc = offer_bytes sessionId ++ restc ->
  available ss = reply_bytes rnd ++ rests ->
  let keys := DeriveKeys (Encapsulate rnd KemPublicKey).2 (Encapsulate rnd KemPublicKey).1 sessionId in
  exists cc r sc' ss',
    ClientHandshakeAsync rnd None sc = Some (reply_bytes rnd, None, inr (ClientHs cc sessionId), sc') /\
    ServerHandshakeAsync sessionId None ss = Some (offer_bytes sessionId, None, inr r, ss') /\
    available sc' = restc /\ available ss' = rests /\
    cc = new_cipher keys.1 keys.2 /\
    in_sync (Some cc) (Some (sh_cipher r)) /\ in_sync (Some (sh_cipher r)) (Some cc) /\
    (forall e s kem sig sg k1 k2 k3 sid rest,
       Body e = HandshakeOffer kem sig sg k1 k2 k3 sid -> Verify sig (Concat kem sid) sg = false ->
       fits (None : connection (key := bytes)) (ToByteArray e) ->
       available s = (WriteFrameAsync Encrypt None (ToByteArray e)).1 ++ rest ->
       exists s', ClientHandshakeAsync rnd None s =
         Some ([], None, inl (PqcHandshakeException "server handshake signature failed ML-DSA verification"), s')).
Proof.
  intros Hfo Hfr Hc Hs keys.
  destruct (read_plain _ sc restc Hfo Hc) as (sc' & Ec & Hc').
  destruct (read_plain _ ss rests Hfr Hs) as (ss' & Es & Hs').
  destruct (Encapsulate rnd KemPublicKey) as [ct secret] eqn:Ek.
  pose proof (decapsulate_encapsulate rnd) as Hd. rewrite Ek in Hd. simpl in Hd.
  exists (new_cipher keys.1 keys.2), (ServerHs (new_cipher keys.2 keys.1) (Z.of_nat (length KemPublicKey))
    (Z.of_nat (length ct)) (Z.of_nat (length secret))), sc', ss'.
  split_and!; try done.
  - unfold ClientHandshakeAsync. rewrite Ec, parse_print. simpl. rewrite verify_sign. simpl.
    rewrite Ek. unfold reply_bytes. by rewrite Ek.
  - unfold ServerHandshakeAsync. destruct (WriteFrameAsync Encrypt None (ToByteArray (offer sessionId))) as [o c1] eqn:Ew.
    assert (c1 = None) as -> by (by injection Ew as _ <-).
    rewrite Es, parse_print. simpl. rewrite Hd. unfold offer_bytes. by rewrite Ew.
  - intros e s kem sig sg k1 k2 k3 sid rest Hb Hv Hf Ha.
    destruct (read_plain e s rest Hf Ha) as (s' & E & _). exists s'.
    unfold ClientHandshakeAsync. by rewrite E, parse_print, Hb, Hv.
Qed.


End Server.

(** ** Witnesses: a codec, a provider and a key derivation that satisfy the laws *)

Definition pack_descriptor (d : FeatureDescriptorPb) : list string :=
  [d_id d; d_title d; d_version d; d_code d; d_expected d].
Fixpoint unpack_descriptors (l : list string) : list FeatureDescriptorPb :=
  match l with a :: b :: c :: d :: e :: l => Descriptor a b c d e :: unpack_descriptors l | _ => [] end.

(** An envelope as a tag with its strings, integers and byte strings. *)
Definition packed : Type := string * nat * list string * list Z * list bytes.
Definition pack (e : Envelope) : packed :=
  let p t ss zs bs := (RequestId e, t, ss, zs, bs) in
  match Body e with
  | NoBody => p 0%nat [] [] [] | Features => p 1%nat [] [] [] | Run i => p 2%nat [i] [] []
  | Rag q => p 3%nat [q] [] [] | Ping => p 4%nat [] [] [] | Bench c => p 5%nat [c] [] []
  | FeaturesResponse l => p 6%nat (l ≫= pack_descriptor) [] []
  | RunResponse r => p 7%nat [fr_id r; fr_result r] [fr_elapsed_ms r; if fr_ok r then 1 else 0] []
  | RagChunk i t f => p 8%nat [t] [i; if f then 1 else 0] []
  | PingResponse r => p 9%nat [r] [] [] | Error c m => p 10%nat [m] [c] []
  | HandshakeOffer k s g ka sa c i => p 11%nat [ka; sa; c] [] [k; s; g; i]
  | HandshakeReply c => p 12%nat [] [] [c]
  end.
Definition unpack (p : packed) : Envelope :=
  let '(r, t, ss, zs, bs) := p in
  MkEnvelope r
    match t, ss, zs, bs with
    | 1%nat, _, _, _ => Features | 2%nat, [i], _, _ => Run i | 3%nat, [q], _, _ => Rag q
    | 4%nat, _, _, _ => Ping | 5%nat, [c], _, _ => Bench c
    | 6%nat, _, _, _ => FeaturesResponse (unpack_descriptors ss)
    | 7%nat, [i; x], [e; o], _ => RunResponse (FeatureRun i x e (bool_decide (o = 1)))
    | 8%nat, [t], [i; f], _ => RagChunk i t (bool_decide (f = 1))
    | 9%nat, [x], _, _ => PingResponse x | 10%nat, [m], [c], _ => Error c m
    | 11%nat, [ka; sa; c], _, [k; s; g; i] => HandshakeOffer k s g ka sa c i
    | 12%nat, _, _, [c] => HandshakeReply c
    | _, _, _, _ => NoBody
    end.

Lemma unpack_descriptors_pack l : unpack_descriptors (l ≫= pack_descriptor) = l.
Proof. induction l as [|[] l IH]; [done|]. cbn. f_equal. exact IH. Qed.

Lemma unpack_pack e : unpack (pack e) = e.
Proof.
  destruct e as [r b]. unfold pack. destruct b; simpl; try done.
  - by rewrite unpack_descriptors_pack.
  - by destruct run as [? ? ? []].
  - by destruct final.
Qed.

(** A packed envelope as a sequence of words, with the length in front of every list. *)
Section Words.
  Context {A : Type} (w : A -> list positive) (p : list positive -> option (A * list positive))
    (wp : forall x r, p (w x ++ r) = Some (x, r)).
Definition w_list (l : list A) : list positive := Pos.of_succ_nat (length l) :: (l ≫= w).
Fixpoint p_rep (n : nat) (ws : list positive) : option (list A * list positive) :=
  match n with
  | O => Some ([], ws)
  | S n => '(x, ws1) ← p ws; '(l, ws2) ← p_rep n ws1; Some (x :: l, ws2)
  end.
Definition p_list (ws : list positive) : option (list A * list positive) :=
  match ws with [] => None | n :: ws => p_rep (pred (Pos.to_nat n)) ws end.

Lemma p_w_rep l r : p_rep (length l) ((l ≫= w) ++ r) = Some (l, r).
Proof.
  induction l as [|x l IH]; [done|]. rewrite bind_cons, <- app_assoc. cbn [length p_rep].
  rewrite wp. cbn [mbind option_bind]. by rewrite IH.
Qed.

Lemma p_w_list l r : p_list (w_list l ++ r) = Some (l, r).
Proof. unfold p_list, w_list. cbn [app]. rewrite SuccNat2Pos.id_succ. apply p_w_rep. Qed.
End Words.

Definition w_one {A} `{Countable A} (x : A) : list positive := [encode x].
Definition p_one {A} `{Countable A} (ws : list positive) : option (A * list positive) :=
  match ws with [] => None | a :: ws => x ← decode a; Some (x, ws) end.
Lemma p_w_one {A} `{Countable A} (x : A) r : p_one (w_one x ++ r) = Some (x, r).
Proof. simpl. by rewrite decode_encode. Qed.

Definition char_code (c : Ascii.ascii) : N := Ascii.N_of_ascii c.
Definition w_str (s : string) : list positive := w_list w_one (char_code <$> String.list_ascii_of_string s).
Definition p_str (ws : list positive) : option (string * list positive) :=
  '(l, r) ← p_list p_one ws; Some (String.string_of_list_ascii (Ascii.ascii_of_N <$> l), r).
Lemma p_w_str s r : p_str (w_str s ++ r) = Some (s, r).
Proof.
  unfold p_str, w_str. rewrite (p_w_list _ _ p_w_one). simpl. do 2 f_equal.
  trans (String.string_of_list_ascii (String.list_ascii_of_string s));
    [f_equal | apply String.string_of_list_ascii_of_string].
  induction (String.list_ascii_of_string s) as [|c l IH]; [done|]. cbn. f_equal; [|exact IH].
  apply Ascii.ascii_N_embedding.
Qed.

Definition w_packed (p : packed) : list positive :=
  let '(r, t, ss, zs, bs) := p in
  w_str r ++ w_one t ++ w_list w_str ss ++ w_list w_one zs ++ w_list (w_list w_one) bs.
Definition p_packed (ws : list positive) : option packed :=
  '(r, ws) ← p_str ws; '(t, ws) ← p_one ws; '(ss, ws) ← p_list p_str ws; '(zs, ws) ← p_list p_one ws;
  '(bs, _) ← p_list (p_list p_one) ws; Some (r, t, ss, zs, bs).
Lemma p_w_packed p : p_packed (w_packed p) = Some p.
Proof.
  destruct p as [[[[r t] ss] zs] bs]. unfold p_packed, w_packed.
  rewrite p_w_str. cbn [mbind option_bind]. rewrite p_w_one. cbn [mbind option_bind].
  rewrite (p_w_list _ _ p_w_str). cbn [mbind option_bind].
  rewrite (p_w_list _ _ p_w_one). cbn [mbind option_bind].
  pose proof (p_w_list _ _ (p_w_list _ _ (p_w_one (A := Z))) bs []) as E. rewrite app_nil_r in E.
  by rewrite E.
Qed.

(** A word on the wire: its number of bytes in unary, then the bytes. *)
Lemma pos_size p : Z.pos p < 2 ^ Z.of_nat (Pos.size_nat p).
Proof. induction p as [p IH|p IH|]; cbn [Pos.size_nat]; rewrite ?Nat2Z.inj_succ, ?Z.pow_succ_r; lia. Qed.

Definition put_word (p : positive) : bytes :=
  let n := Pos.size_nat p in replicate n 1 ++ 0 :: le_encode n (Z.pos p).
(** [ones] counts the unary prefix read so far; [fuel] bounds the bytes. *)
Fixpoint get_words (fuel ones : nat) (b : bytes) : list positive :=
  match fuel, b with
  | S fuel, x :: b =>
      if x =? 1 then get_words fuel (S ones) b
      else Z.to_pos (le_decode (take ones b)) :: get_words fuel 0 (drop ones b)
  | _, _ => []
  end.

Lemma get_word n k fuel b : get_words (n + fuel) k (replicate n 1 ++ b) = get_words fuel (n + k) b.
Proof.
  revert k. induction n as [|n IH]; intros k; [done|]. cbn [replicate app get_words Nat.add].
  rewrite Z.eqb_refl, IH. f_equal. lia.
Qed.

Lemma get_put_words ws : forall fuel, (length (ws ≫= put_word) < fuel)%nat ->
  get_words fuel 0 (ws ≫= put_word) = ws.
Proof.
  induction ws as [|p ws IH]; intros fuel Hf; [by destruct fuel|].
  rewrite bind_cons in *. set (rest := ws ≫= put_word) in *.
  assert (put_word p = replicate (Pos.size_nat p) 1 ++ 0 :: le_encode (Pos.size_nat p) (Z.pos p)) as E by done.
  set (n := Pos.size_nat p) in *. rewrite E, <- app_assoc in *.
  rewrite !length_app, length_replicate in Hf. cbn [length] in Hf. rewrite length_le_encode in Hf.
  replace fuel with (n + S (fuel - n - 1))%nat by lia.
  rewrite get_word, Nat.add_0_r. cbn [app get_words].
  change (0 =? 1) with false. cbv iota.
  rewrite take_app_length', drop_app_length' by (by rewrite length_le_encode).
  rewrite le_decode_encode. pose proof (pos_size p) as Hp. fold n in Hp. rewrite Z.mod_small.
  - rewrite Pos2Z.id. f_equal. apply IH. lia.
  - split; [lia|]. eapply Z.lt_le_trans; [exact Hp|]. apply Z.pow_le_mono_r; lia.
Qed.

Definition toy_codec : EnvelopeCodec :=
  {| ToByteArray e := w_packed (pack e) ≫= put_word;
     ParseFrom b := unpack <$> p_packed (get_words (S (length b)) 0 b) |}.
Lemma toy_codec_laws : @EnvelopeCodecLaws toy_codec.
Proof.
  intros e. unfold ToByteArray, ParseFrom, toy_codec. rewrite get_put_words, p_w_packed by lia.
  cbn [fmap option_fmap option_map]. by rewrite unpack_pack.
Qed.

Definition toy_provider : IPqcProvider :=
  {| KemAlgorithm := "ML-KEM-768"; SigAlgorithm := "ML-DSA-65";
     Verify pk m sg := bool_decide (m = sg); Encapsulate rnd pk := (rnd, rnd) |}.
Definition toy_identity : IPqcServerIdentity :=
  {| KemPublicKey := [1; 2]; SigPublicKey := [3]; Sign m := m; Decapsulate c := Some c |}.
Lemma toy_pqc : @PqcLaws toy_provider toy_identity.
Proof. split; [intros m; simpl; by rewrite bool_decide_true | done]. Qed.
Definition toy_DeriveKey (ikm salt info : bytes) : bytes := ikm ++ salt ++ info.


Lemma pq_handshake_witness : exists cc r sc' ss',
  @ClientHandshakeAsync toy_Encrypt toy_Decrypt toy_DeriveKey toy_codec toy_provider [9] None
    [@offer_bytes toy_Encrypt toy_codec toy_provider toy_identity [4]] =
    Some (@reply_bytes toy_Encrypt toy_codec toy_provider toy_identity [9], None, inr (ClientHs cc [4]), sc') /\
  @ServerHandshakeAsync toy_Encrypt toy_Decrypt toy_DeriveKey toy_codec toy_provider toy_identity [4] None
    [@reply_bytes toy_Encrypt toy_codec toy_provider toy_identity [9]] =
    Some (@offer_bytes toy_Encrypt toy_codec toy_provider toy_identity [4], None, inr r, ss').
Proof.
  destruct (@pq_handshake_agrees toy_Encrypt toy_Decrypt toy_DeriveKey toy_codec toy_provider toy_identity
    toy_aead toy_codec_laws toy_pqc [4] [9]
    [@offer_bytes toy_Encrypt toy_codec toy_provider toy_identity [4]]
    [@reply_bytes toy_Encrypt toy_codec toy_provider toy_identity [9]] [] [])
    as (cc & r & sc' & ss' & Ec & Es & _).
  - split; vm_compute; discriminate.
  - split; vm_compute; discriminate.
  - vm_compute. reflexivity.
  - vm_compute. reflexivity.
  - by exists cc, r, sc', ss'.
Defined.




